(* ===== verification/_CoqProject ===== *)
-Q . S2P
Prelude.v
GoStr.v
Sha256.v
MockBank.v
Models.v
Enums.v
World.v
Http.v
GoJson.v
JsonDecode.v
Queries.v
Ledger.v
Isolation.v
Backoff.v
Payout.v
BankWire.v
Outbox.v
Saga.v
SagaSteps.v
Settlement.v
HappyPath.v
Scenarios.v
Quoter.v
Pricing.v
AesGcm.v
GoUrl.v
Mux.v
SolanaPay.v
BigRat.v
Inflate.v
SplParser.v
PayUrl.v
Reference.v
Watcher.v
Recon.v
Webhook.v
Idempotency.v
IdemCache.v
Auth.v
Api.v
ApiSpec.v
ApiRouter.v
StrictServer.v
System.v
Schema.v
Querier.v
ApiDoc.v
ApiConform.v
Lifecycle.v
Interference.v
Template.v
Dashboard.v
Config.v
BankServer.v
Serving.v
Runtime.v
Seed.v
Processes.v
Workers.v
Boot.v
KeyFile.v
PayScript.v
