(* ===== verification/Prelude.v ===== *)
(** * Selatpay: a payment service from USDC deposits to rupiah payouts

    ** The program

    A merchant asks for a rupiah amount.  The API prices it in USDC (the quoter),
    creates a payment intent with a Solana reference key and shows the payer a
    Solana Pay URL.  The chain watcher sees the deposit on the hot wallet, stores
    it and, once it is final, enqueues a settlement saga.  Orchestrator workers
    run the saga step by step: credit the deposit in the double-entry ledger,
    have the bank pay the merchant in rupiah, release the liability and book the
    spread, publish a completion event.  The event goes through an outbox that a
    dispatcher drains towards the merchant's webhook.  Reconciliation compares
    the hot wallet on chain with the ledger.  All processes share one Postgres
    database and nothing else.

    ** How the model is built

    Code is a function in the monad [M] of World.v: it passes a [World] (the
    database, the clock, the random source, the bank, and the scripts of faults
    and network events) and returns a value or a Go error.  A transaction is
    [with_tx]: its body runs on the shared database, and a failing body, a failed
    commit or a violated commit trigger restores the database of its [BEGIN].  A
    fault script makes any database round trip fail before it runs ([FErr]) or
    lose its answer after it ran ([FLost]), so a lost commit acknowledgement is a
    behaviour of the model.  The bank is the repository's own mock bank, run as a
    function, behind a network that may lose requests or responses.  int64, int32
    and uint64 are integers with their wrap-around written out wherever the code
    can reach it.

    Processes are interleaved at the transactions and statements that the database
    makes atomic (System.v): a step of the system is a claim, a step transaction or
    the recording of a failure of a worker, a write of an API request, a dispatcher
    pass (one transaction), one processed signature.  The loops that run the
    operations (Processes.v) are step relations over program points, with cancelled
    contexts, crashes and restarts, broken connections and Postgres advisory locks,
    and refine the system relation; Workers.v adds the clock and the leases.
    Requests to the bank overlap in BankServer.v.  In these relations a read and the
    write that depends on it inside one transaction are not separated: they have the
    serialisable executions of transactions.  Isolation.v takes the transaction of a
    posting apart: the statements of any number of postings interleave under READ
    COMMITTED, each on the committed rows and its own, inserts wait for open
    transactions that hold their key, and the committed ledger is still that of a
    serial order.  Interference.v takes the transactions of the settlement steps
    apart: others commit between their statements, and the steps advance their
    intents as long as leases hold, and not otherwise.

    ** The files

    Go's library:
    - Prelude.v: integers, errors, tables as lists, tactics, shared lemmas.
    - GoStr.v, GoJson.v, JsonDecode.v, GoUrl.v, Http.v, Mux.v, BigRat.v, Template.v:
      what the source uses of strings, strconv, time, encoding/json (encoder and
      decoder), net/url, net/http (with the paths and patterns of its mux), math/big's
      rationals and html/template (parsing, execution, escaping).
    - Inflate.v: compress/flate, hash/crc32 and compress/gzip, computed.
    - Sha256.v, AesGcm.v: crypto/sha256, crypto/hmac, and AES-256-GCM, computed.

    The database:
    - Models.v, Enums.v: internal/db/sqlc/models.go (rows, enums with their Scan
      and Value methods, the database record).
    - World.v: the monad, faults, transactions, and the relational reasoning
      principles ([keeps], [wkeeps]) the invariants are proved with.
    - Queries.v: the statements of internal/db/sqlc with the constraints of the
      migrations (keys, checks, foreign keys, triggers).
    - Querier.v: querier.go and db.go, the statements as an interface.

    The components:
    - MockBank.v: cmd/mockidrbank ([handlePayouts] with its idempotency cache);
      BankServer.v: its mux, and requests that overlap.
    - Ledger.v: internal/ledger.  Validation, idempotent posting, balances; the
      books stay balanced through every transaction.  Isolation.v: its Post and
      postWith statement by statement, and postings that run concurrently.
    - Backoff.v: internal/saga/backoff.go and the dispatcher's backoff.
    - Payout.v: internal/payout and its mock bank rail; [RailOk] is what a rail
      promises the saga, and the mock rail implements it.  BankWire.v: the bytes
      the rail and the bank exchange.
    - Outbox.v: internal/outbox; [SenderOk] is what the dispatcher asks of a
      sender.
    - Saga.v: internal/saga/runner.go and types.go; [StepOk] is what a step
      promises the runner.
    - SagaSteps.v: internal/saga/steps, with the instances of [StepOk].
    - Quoter.v: internal/quoter; Pricing.v relates its prices to settlement.
    - SolanaPay.v, PayUrl.v: the amounts and the URLs of
      internal/solanapay/url.go; Reference.v: reference.go (sealed keys).
    - SplParser.v, Watcher.v: internal/chain; [RPCClientOk] is what the watcher
      asks of an RPC endpoint, [Solana] and [SolanaOk] of the solana-go library.
    - Recon.v: internal/recon.
    - Webhook.v: internal/webhook: signing, verification, and the sender, which
      satisfies [SenderOk].
    - Idempotency.v, IdemCache.v: internal/idempotency: the middleware, its
      Postgres store, and the Redis cache in front of it.
    - Auth.v: internal/auth: the HMAC middleware and the key store.
    - Api.v: internal/api with the routes and wrappers of apispec.gen.go;
      ApiSpec.v: what its handlers do; ApiRouter.v: the stack of middlewares and
      handlers, [ApiWrites] being what an invariant must tolerate; StrictServer.v:
      the rest of apispec.gen.go, of which the program's routes are an instance;
      ApiDoc.v: the OpenAPI document embedded in it, and the router that document
      describes; ApiConform.v: the JSON schemas of the document, and the bodies the
      handlers answer with.
    - Dashboard.v: internal/dashboard with its three templates.
    - Config.v: internal/config; Runtime.v: internal/db/pool.go and uuid.go,
      internal/obs, chain/client.go and solanapay/qr.go; Serving.v: the life of the
      HTTP servers; Boot.v: cmd/selatpayd and internal/wallet.
    - Seed.v, KeyFile.v, PayScript.v: scripts/seed, scripts/keygen and scripts/pay,
      the latter two over a machine with files ([Machine]).

    The composition:
    - Settlement.v: runner, steps, ledger and bank together: payouts the database
      calls succeeded were paid.
    - HappyPath.v: the run of the four steps from a final deposit to completion.
    - Scenarios.v: a concrete deployment, witnesses, and runs that show double
      payment, double publication and underpayment.
    - System.v: the steps of all processes and the invariant of every reachable
      state.
    - Processes.v: the run loops of dispatchers, runners and watchers, and
      deployments of any number of them; Workers.v: pools of runners under leases.
    - Schema.v: the constraints of the migrations; Lifecycle.v: the abstract life of a
      payment intent that the system refines; Interference.v: the settlement steps
      when other transactions commit between their statements.

    ** What the theorems show

    - System: balanced books, one row per deposit with a saga behind every final
      linked one, a disbursement behind every succeeded payout, in every state
      any interleaving of transactions and any faults can reach
      ([system_invariant]); in such interleavings intents only advance and keep their
      terms ([intents_refine_lifecycle]), and inside the transaction of a step too
      while nobody else moves its intent ([interfered_step_advances]).
    - Processes: the run loops only take such steps ([deploy_refines_steps]), a topic
      has one owner ([topic_has_one_owner]), a run has one worker while leases last
      ([lease_excludes]), an API server and a watcher started from one environment fit
      ([api_and_watcher_agree]), and servers stop when told ([serving_stops]).
    - Settlement: a funded intent completes in four ticks with exactly the
      postings, payout and event it should have ([settlement_completes]).
    - Runner: a tick is all-or-nothing per step ([Tick_cases]), retries end
      ([retries_terminate]), finished runs are final.
    - Ledger: exactly which entries are accepted, posting is idempotent, the trial
      balance is zero, and concurrent postings leave the books a serial order of
      them would ([concurrent_posts]).
    - Rail and bank: the exchange of bytes is the exchange of records
      ([submit_over_bytes]).
    - Watcher: only transfers to the hot wallet in the right mint are recorded,
      rows only advance, a final deposit starts its saga.
    - Quoter: the price is the exact quotient at scale 0 and short of it by a known
      factor at others ([QuoteAmount_price]), an issued quote verifies until it
      expires, a signature binds the priced fields, and the conditions under
      which the price covers the payout.
    - API: only authentic requests reach a handler ([auth_gate]) and a signature
      binds its request; creation stores and answers what was asked
      ([create_intent_created]), once per idempotency key
      ([retried_creation_creates_once]); tenants are isolated; the payment URL
      asks for the quoted amount; the cache is invisible ([cached_store_refines]);
      the routes are those of the embedded document ([served_as_documented]) and the
      answers have the shapes it states ([answers_conform]).
    - Outbox: a pass resolves its batch exactly once, by what the sender answered, or
      not at all, delivered rows are final, messages survive storage.
    - Webhooks: receivers can verify every request exactly within the tolerance.
    - Dashboard: its requests change nothing ([dashboard_read_only]), its index shows
      any data as text ([index_page]).
    - Scripts: the key generator, the simulator and the service agree on a wallet
      ([keygen_wallet]); the simulator and the service read amounts alike
      ([decimalToRaw_ParseAmount]).
    - Round trips, bounds, equivalence: JSON, URLs, sealed keys, token amounts,
      instruction decoding; backoff delays, attempts, durations; the two backoff
      loops are one function; the program's routes are the generated ones.
    - Behaviours that differ from what comments promise: bookkeeping of failed
      payouts is rolled back ([failed_payout_untracked]), a lost bank response pays
      twice ([lost_response_pays_twice]), a lost commit acknowledgement repeats effects, deposits are not compared with the quote, scaled rates and
      zero spreads misprice, a token amount wraps, far-future timestamps pass the
      tolerance, concurrent duplicates of a request both run, also at the bank, a
      failed unlock keeps a topic locked, a worker that outlives its lease repeats
      its step ([late_worker_publishes_twice]) or takes a completed intent back
      ([stale_worker_reopens_intent]), the detail page of the dashboard
      cannot be rendered ([detail_page_fails]), the simulator pays the wrong account
      ([demo_payment_not_credited]), repeated creations are answered outside the API
      document ([repeated_creation_undocumented]), a posting that races with one of
      the same reference is refused instead of answered ([race_duplicate]).

    ** Parameters and fuel

    UUID generation ([Env], [EnvOk]: draws do not repeat, texts are injective),
    solana-go ([Solana], key generation and base58), the RPC endpoint, the HTTP
    client, rate providers, Postgres' hashtext and collation, the host name,
    pgxpool, OpenTelemetry, the QR encoder and the library constructors a
    subcommand calls are parameters, with the named contracts
    where the code relies on one; example instances show that the contracts can
    hold.  Redis is a store that may lose any key or fail at any time.

    Recursion is structural wherever the code's is; fuel bounds decimal printing
    (the binary length, enough by [FormatUint_fuel]), the blocks of a padded
    message (its length), the terms of a duration (the length of its text, enough
    by [duration_terms_fuel]) and the values of a JSON text (a measure of the
    text, enough for everything [Marshal] writes by [decode_Marshal]), the lexer
    and parser of templates (their text; the three templates parse by evaluation),
    the nesting of template blocks (20, where the deepest is seven), the polls
    for an airdrop (61: the deadline ends the loop before by [await_ends]), the
    blocks, symbols and members of compressed data (the bits and bytes of the input,
    each of which takes at least one; the embedded document decodes by evaluation),
    the depth of a JSON schema (6, where the deepest answer needs five) and the
    statements of a posting (its lines and three, enough by [postWith_statements]).

    ** Not modelled

    The kin-openapi loader behind GetSwagger, a parameter nothing calls; the texts of
    log lines; chi's RequestID and RealIP, which only annotate requests; the
    conversions of rows to equal structs of internal/ledger ([toAccount]); the
    interleavings of READ COMMITTED inside transactions other than a posting's and a
    settlement step's; the deferred closing of pools after a server has returned.
    Postgres' refusal of texts that are not UTF-8 or hold a NUL is part of the
    statements whose texts clients choose (creation, lookups by reference, idempotency
    keys, key ids, merchants); its microseconds are those of a quote's expiry, other
    times keep the nanoseconds of Go.  The [BIGINT] columns are integers without
    bound: what the code writes to them is an int64 already. *)

From Stdlib Require Export ZArith Lia.
From stdpp Require Export base tactics list gmap strings.
From stdpp Require Import sorting.

#[global] Open Scope string_scope.
#[global] Open Scope list_scope.
#[global] Open Scope Z_scope.

(** Notations of the development live in a scope of their own. *)
Declare Scope selat_scope.
Delimit Scope selat_scope with selat.
#[global] Open Scope selat_scope.

(** ** Machine integers

    Go's [int64], [uint64] and [int32] are [Z] values; the wrap-around of the
    arithmetic operators is written out where the code can reach it. *)

Definition int64_min : Z := - 2 ^ 63.
Definition int64_max : Z := 2 ^ 63 - 1.
Definition int32_max : Z := 2 ^ 31 - 1.

(** Two's complement truncation of a mathematical integer to 64 bits. *)
Definition wrap64 (z : Z) : Z := (z + 2 ^ 63) mod 2 ^ 64 - 2 ^ 63.

(** The same to 32 bits. *)
Definition wrap32 (z : Z) : Z := (z + 2 ^ 31) mod 2 ^ 32 - 2 ^ 31.

(** Truncation to an unsigned 64-bit integer. *)
Definition wrapu64 (z : Z) : Z := z mod 2 ^ 64.

(** [big.Int.IsInt64]. *)
Definition is_int64 (z : Z) : bool := (int64_min <=? z) && (z <=? int64_max).

Notation "'int64' z" := (is_int64 z = true) (at level 10, only parsing) : selat_scope.

(** ** Go errors

    Package-level sentinel errors are compared by identity, which the model
    takes as equality of their (pairwise distinct) texts; [ErrWrap] is
    [fmt.Errorf("prefix: %w", e)], [ErrSuffix] is [fmt.Errorf("%w: suffix", e)]
    and [ErrTerminal] is the saga package's [terminalError]. *)
Inductive err :=
  | ErrMsg (msg : string)
  | ErrSentinel (msg : string)
  | ErrNoRows
  | ErrPg (code : string)
  | ErrConn
  | ErrWrap (prefix : string) (e : err)
  | ErrSuffix (e : err) (suffix : string)
  | ErrTerminal (e : err).

#[global] Instance err_eq_dec : EqDecision err.
Proof. solve_decision. Defined.

(** [err.Error()]. *)
Fixpoint Error (e : err) : string :=
  match e with
  | ErrMsg s | ErrSentinel s => s
  | ErrNoRows => "no rows in result set"
  | ErrPg code => "ERROR: (SQLSTATE " +:+ code +:+ ")"
  | ErrConn => "conn closed"
  | ErrWrap p e => p +:+ ": " +:+ Error e
  | ErrSuffix e s => Error e +:+ ": " +:+ s
  | ErrTerminal e => Error e
  end.

(** [errors.Is(e, target)] for a target that wraps nothing. *)
Fixpoint errors_is (target e : err) : bool :=
  bool_decide (e = target) ||
  match e with
  | ErrWrap _ e | ErrSuffix e _ | ErrTerminal e => errors_is target e
  | _ => false
  end.

(** Results of fallible Go functions: the value, or the non-nil error. *)
Inductive res (A : Type) :=
  | Ok (a : A)
  | Err (e : err).
Arguments Ok {A} a.
Arguments Err {A} e.

Definition is_ok {A} (r : res A) : bool := match r with Ok _ => true | Err _ => false end.

(** ** Relational tables

    A table is the list of its rows, oldest insertion first.  [find_row] is a
    [SELECT ... WHERE] that expects at most one row, [update_where] an
    [UPDATE ... WHERE], [order_by] an [ORDER BY] on an integer key (a stable
    sort: rows with equal keys stay in table order). *)
Section tables.
Context {A : Type}.

Definition find_row (P : A -> bool) (t : list A) : option A := List.find P t.

Definition update_where (P : A -> bool) (f : A -> A) (t : list A) : list A :=
  (fun r => if P r then f r else r) <$> t.

Definition select_where (P : A -> bool) (t : list A) : list A := List.filter P t.

Fixpoint insert_by (key : A -> Z) (x : A) (l : list A) : list A :=
  match l with
  | [] => [x]
  | y :: l' => if key x <=? key y then x :: l else y :: insert_by key x l'
  end.

Fixpoint order_by (key : A -> Z) (l : list A) : list A :=
  match l with
  | [] => []
  | x :: l' => insert_by key x (order_by key l')
  end.

Definition Zsum (f : A -> Z) (l : list A) : Z := foldr (fun x s => f x + s) 0 l.
End tables.

(** ** Tactics *)

(** Case analysis on every [match]/[if] of the goal and of the hypotheses,
    keeping the equations. *)
Ltac split_matches := repeat (case_match; simplify_eq/=; try done).

(** Turn the boolean tests left in the context into propositions. *)
Ltac bools :=
  repeat match goal with
  | H : (_ && _)%bool = true |- _ => apply andb_true_iff in H as [? ?]
  | H : (_ && _)%bool = false |- _ => apply andb_false_iff in H
  | H : (_ || _)%bool = true |- _ => apply orb_true_iff in H
  | H : (_ || _)%bool = false |- _ => apply orb_false_iff in H as [? ?]
  | H : negb _ = true |- _ => apply negb_true_iff in H
  | H : negb _ = false |- _ => apply negb_false_iff in H
  | H : (_ =? _) = true |- _ => apply Z.eqb_eq in H
  | H : (_ =? _) = false |- _ => apply Z.eqb_neq in H
  | H : (_ <=? _) = true |- _ => apply Z.leb_le in H
  | H : (_ <=? _) = false |- _ => apply Z.leb_gt in H
  | H : (_ <? _) = true |- _ => apply Z.ltb_lt in H
  | H : (_ <? _) = false |- _ => apply Z.ltb_ge in H
  | H : bool_decide _ = true |- _ => apply bool_decide_eq_true in H
  | H : bool_decide _ = false |- _ => apply bool_decide_eq_false in H
  end.

(** Linear arithmetic with division and remainder by constants. *)
Ltac zlia := zify; Z.to_euclidean_division_equations; lia.

Create HintDb selat.
Create Rewrite HintDb selat_rw.

(** ** Integer lemmas *)

Lemma is_int64_spec z : is_int64 z = true <-> int64_min <= z <= int64_max.
Proof. unfold is_int64. rewrite andb_true_iff, !Z.leb_le. done. Qed.

Lemma wrap32_id z : - 2 ^ 31 <= z <= int32_max -> wrap32 z = z.
Proof. unfold wrap32, int32_max. intros. rewrite Z.mod_small by lia. lia. Qed.

Lemma wrap64_id z : is_int64 z = true -> wrap64 z = z.
Proof.
  rewrite is_int64_spec. unfold wrap64, int64_min, int64_max. intros.
  rewrite Z.mod_small; lia.
Qed.

Lemma wrap64_range z : is_int64 (wrap64 z) = true.
Proof.
  rewrite is_int64_spec. unfold wrap64, int64_min, int64_max.
  pose proof (Z.mod_pos_bound (z + 2 ^ 63) (2 ^ 64)). lia.
Qed.

(** [wrap64] only changes a number by a multiple of [2^64]. *)
Lemma wrap64_mod z : wrap64 z mod 2 ^ 64 = z mod 2 ^ 64.
Proof.
  unfold wrap64. rewrite Zminus_mod_idemp_l. f_equal. lia.
Qed.

Lemma wrap64_cong a b : a mod 2 ^ 64 = b mod 2 ^ 64 -> wrap64 a = wrap64 b.
Proof.
  intros E. unfold wrap64. f_equal.
  by rewrite <- Zplus_mod_idemp_l, E, Zplus_mod_idemp_l.
Qed.

Lemma wrap64_add_l a b : wrap64 (wrap64 a + b) = wrap64 (a + b).
Proof.
  apply wrap64_cong. by rewrite <- Zplus_mod_idemp_l, wrap64_mod, Zplus_mod_idemp_l.
Qed.

Lemma wrap64_zero z : wrap64 z = 0 <-> z mod 2 ^ 64 = 0.
Proof.
  split; intros H.
  - by rewrite <- wrap64_mod, H.
  - rewrite <- (wrap64_id 0) by done. apply wrap64_cong. by rewrite H.
Qed.

(** ** Table lemmas *)
Section table_lemmas.
Context {A : Type}.
Implicit Types (P : A -> bool) (f : A -> A) (t : list A) (key : A -> Z).

Lemma find_row_Some P t r : find_row P t = Some r -> r ∈ t /\ P r = true.
Proof. intros [H1 H2]%List.find_some. split; [by apply list_elem_of_In | done]. Qed.

Lemma find_row_None P t r : find_row P t = None -> r ∈ t -> P r = false.
Proof. intros H Hin%list_elem_of_In. by eapply List.find_none. Qed.

Lemma find_row_is_Some P t r : r ∈ t -> P r = true -> is_Some (find_row P t).
Proof.
  intros Hin HP. destruct (find_row P t) eqn:E; [by eexists|].
  by rewrite (find_row_None _ _ _ E Hin) in HP.
Qed.

Lemma find_row_app_Some P t u r : find_row P t = Some r -> find_row P (t ++ u) = Some r.
Proof. intros H. induction t as [|x t IH]; simplify_eq/=. case_match; auto. Qed.

Lemma find_row_app_None P t u : find_row P t = None -> find_row P (t ++ u) = find_row P u.
Proof. intros H. induction t as [|x t IH]; simplify_eq/=; [done|]. case_match; [done|auto]. Qed.

(** Lookup in a table updated by a predicate that the update preserves. *)
Lemma find_row_update P Q f t :
  (forall r, Q (f r) = Q r) ->
  find_row Q (update_where P f t) =
    (fun r => if P r then f r else r) <$> find_row Q t.
Proof.
  intros HQ. induction t as [|x t IH]; simpl; [done|].
  assert (Q (if P x then f x else x) = Q x) as -> by (case_match; auto).
  case_match; [done|]. apply IH.
Qed.

Lemma elem_of_update_where P f t r' :
  r' ∈ update_where P f t -> exists r, r ∈ t /\ r' = if P r then f r else r.
Proof. unfold update_where. intros (r & -> & ?)%list_elem_of_fmap. eauto. Qed.

Lemma update_where_elem_of P f t r :
  r ∈ t -> (if P r then f r else r) ∈ update_where P f t.
Proof. intros. unfold update_where. apply list_elem_of_fmap. eauto. Qed.

Lemma fmap_update_where {B} (g : A -> B) P f t :
  (forall r, g (f r) = g r) -> g <$> update_where P f t = g <$> t.
Proof.
  intros Hg. unfold update_where. rewrite <- list_fmap_compose.
  apply list_fmap_ext. intros ? r _. simpl. case_match; auto.
Qed.

Lemma insert_by_perm key x t : insert_by key x t ≡ₚ x :: t.
Proof.
  induction t as [|y t IH]; simpl; [done|]. case_match; [done|].
  rewrite IH. apply Permutation_swap.
Qed.

Lemma order_by_perm key t : order_by key t ≡ₚ t.
Proof. induction t as [|x t IH]; simpl; [done|]. by rewrite insert_by_perm, IH. Qed.

Lemma insert_by_sorted key x t :
  StronglySorted (fun a b => key a <= key b) t ->
  StronglySorted (fun a b => key a <= key b) (insert_by key x t).
Proof.
  induction 1 as [|y t Hs IH Hall]; simpl.
  - constructor; constructor.
  - case_match; bools.
    + constructor; [by constructor|]. constructor; [done|].
      eapply Forall_impl; [done|]. simpl. lia.
    + constructor; [done|]. rewrite insert_by_perm. constructor; [lia|done].
Qed.

Lemma order_by_sorted key t : StronglySorted (fun a b => key a <= key b) (order_by key t).
Proof. induction t; simpl; [constructor|]. by apply insert_by_sorted. Qed.

Lemma order_by_head_least key t r l x :
  order_by key t = r :: l -> x ∈ t -> key r <= key x.
Proof.
  intros E Hx. pose proof (order_by_sorted key t) as Hs. rewrite E in Hs.
  rewrite <- (order_by_perm key t), E in Hx. inversion Hs as [|?? _ Hall]; subst.
  apply elem_of_cons in Hx as [->|Hx]; [lia|]. rewrite Forall_forall in Hall. by apply Hall.
Qed.

Lemma elem_of_order_by key t x : x ∈ order_by key t <-> x ∈ t.
Proof. by rewrite order_by_perm. Qed.

Lemma elem_of_select P t x : x ∈ select_where P t <-> x ∈ t /\ P x = true.
Proof. unfold select_where. rewrite !list_elem_of_In. apply List.filter_In. Qed.

Lemma Zsum_app (f : A -> Z) t u : Zsum f (t ++ u) = Zsum f t + Zsum f u.
Proof. induction t; simpl; lia. Qed.

Lemma Zsum_ext (f g : A -> Z) t : (forall x, x ∈ t -> f x = g x) -> Zsum f t = Zsum g t.
Proof.
  induction t as [|x t IH]; intros H; simpl; [done|].
  rewrite H, IH; [done| |by constructor]. intros y Hy. apply H. by constructor.
Qed.

Lemma Zsum_zero (f : A -> Z) t : (forall x, x ∈ t -> f x = 0) -> Zsum f t = 0.
Proof.
  intros H. rewrite (Zsum_ext f (fun _ => 0)) by done. induction t; simpl; [done|].
  apply IHt. intros y Hy. apply H. by constructor.
Qed.

Lemma Zsum_add (f g : A -> Z) t : Zsum (fun x => f x + g x) t = Zsum f t + Zsum g t.
Proof. induction t; simpl; lia. Qed.
End table_lemmas.

Lemma Zsum_cons {A} (f : A -> Z) x l : Zsum f (x :: l) = f x + Zsum f l.
Proof. done. Qed.

Lemma Zsum_swap {A B} (f : A -> B -> Z) (l : list A) (m : list B) :
  Zsum (fun x => Zsum (f x) m) l = Zsum (fun y => Zsum (fun x => f x y) l) m.
Proof.
  induction l as [|x l IH]; simpl.
  - by rewrite Zsum_zero.
  - by rewrite IH, <- Zsum_add.
Qed.

#[export] Hint Resolve wrap64_range : selat.
#[export] Hint Rewrite @Zsum_app : selat_rw.

(** ** Tables with keys *)

Lemma prefix_snoc {A} (l : list A) x : l `prefix_of` l ++ [x].
Proof. by eexists. Qed.

Lemma NoDup_snoc {A B} (f : A -> B) (l : list A) x :
  NoDup (f <$> l) -> f x ∉ f <$> l -> NoDup (f <$> (l ++ [x])).
Proof.
  intros. rewrite fmap_app. apply NoDup_app. split; [done|]. split; [|by apply NoDup_singleton].
  intros y Hy ->%list_elem_of_singleton. done.
Qed.

Lemma find_row_not_in {A B} `{EqDecision B} (f : A -> B) (P : A -> bool) l x :
  (forall r, f r = x -> P r = true) -> find_row P l = None -> x ∉ f <$> l.
Proof.
  intros HP Hn (r & -> & Hr)%list_elem_of_fmap.
  pose proof (find_row_None _ _ _ Hn Hr). rewrite HP in H; done.
Qed.

Lemma Zsum_pick {A} `{EqDecision A} (l : list A) (x : A) (v : Z) :
  NoDup l -> x ∈ l -> Zsum (fun y => if decide (y = x) then v else 0) l = v.
Proof.
  intros Hnd. induction Hnd as [|y l Hy Hnd IH]; intros Hx; [by apply elem_of_nil in Hx|]. simpl.
  apply elem_of_cons in Hx as [->|Hx].
  - rewrite decide_True by done. rewrite Zsum_zero; [lia|].
    intros z Hz. rewrite decide_False; [done|]. by intros ->.
  - rewrite decide_False by (by intros ->). by rewrite IH.
Qed.

Lemma Zsum_fmap {A B} (g : A -> B) (f : B -> Z) l : Zsum f (g <$> l) = Zsum (fun x => f (g x)) l.
Proof. induction l as [|x l IH]; [done|]. rewrite fmap_cons. cbn. f_equal. exact IH. Qed.

(** Rows of a table with a unique key are determined by the key. *)
Lemma NoDup_fmap_elem {A B} (f : A -> B) (l : list A) x y :
  NoDup (f <$> l) -> x ∈ l -> y ∈ l -> f x = f y -> x = y.
Proof.
  induction l as [|z l IH]; simpl; [by intros ? ?%elem_of_nil|].
  intros [Hz Hnd]%NoDup_cons [->|Hx]%elem_of_cons [->|Hy]%elem_of_cons E; auto.
  - rewrite E in Hz. destruct Hz. by apply list_elem_of_fmap_2.
  - rewrite <- E in Hz. destruct Hz. by apply list_elem_of_fmap_2.
Qed.

Lemma prefix_find_row {A} (P : A -> bool) t u r :
  t `prefix_of` u -> find_row P t = Some r -> find_row P u = Some r.
Proof. intros [v ->]. apply find_row_app_Some. Qed.

(** Selecting, sorting and limiting keep keys distinct. *)
Lemma NoDup_select {A B} (f : A -> B) P t : NoDup (f <$> t) -> NoDup (f <$> select_where P t).
Proof.
  induction t as [|x t IH]; [done|]. rewrite fmap_cons. intros [Hx Hnd]%NoDup_cons. cbn.
  destruct (P x); [|by apply IH]. rewrite fmap_cons. apply NoDup_cons. split; [|by apply IH].
  intros (y & E & Hy)%list_elem_of_fmap. apply Hx. rewrite E. apply list_elem_of_fmap_2.
  by apply elem_of_select in Hy as [? _].
Qed.

Lemma NoDup_order_by {A B} (f : A -> B) key t : NoDup (f <$> t) -> NoDup (f <$> order_by key t).
Proof. intros Hnd. by rewrite (order_by_perm key t). Qed.

Lemma NoDup_take {A B} (f : A -> B) n (t : list A) : NoDup (f <$> t) -> NoDup (f <$> take n t).
Proof. rewrite <- (take_drop n t) at 1. rewrite fmap_app. by intros [? _]%NoDup_app. Qed.
