(* ===== verification/GoStr.v ===== *)
(** * The parts of Go's [strings], [strconv] and [time] packages the source uses

    Go strings are byte strings: [string] is Rocq's list of 8-bit [ascii]. *)

From S2P Require Import Prelude.
From Stdlib Require Import Ascii String.

Implicit Types (s t : string) (c : ascii) (n z : Z).

(** ** strings *)

Definition newline : string := String (Ascii.ascii_of_N 10) "".

Definition byte_of c : Z := Z.of_N (N_of_ascii c).

(** One white-space rune at the head of a UTF-8 string is dropped (the runes of
    [unicode.IsSpace]); [None] when the string does not start with one. *)
Definition drop_space_rune s : option string :=
  match s with
  | String c s1 =>
    let b := byte_of c in
    if ((9 <=? b) && (b <=? 13)) || (b =? 32) then Some s1
    else match s1 with
    | String c2 s2 =>
      let b2 := byte_of c2 in
      if (b =? 194) && ((b2 =? 133) || (b2 =? 160)) then Some s2
      else match s2 with
      | String c3 s3 =>
        let b3 := byte_of c3 in
        if ((b =? 225) && (b2 =? 154) && (b3 =? 128))
           || ((b =? 226) && (b2 =? 128) &&
                 (((128 <=? b3) && (b3 <=? 138)) || (b3 =? 168) || (b3 =? 169) || (b3 =? 175)))
           || ((b =? 226) && (b2 =? 129) && (b3 =? 159))
           || ((b =? 227) && (b2 =? 128) && (b3 =? 128))
        then Some s3 else None
      | EmptyString => None
      end
    | EmptyString => None
    end
  | EmptyString => None
  end.

Fixpoint trim_left_space (fuel : nat) s : string :=
  match fuel with
  | O => s
  | S fuel => match drop_space_rune s with
              | Some s' => trim_left_space fuel s'
              | None => s
              end
  end.

(** [strings.TrimSpace(s) == ""]: the string consists of white-space runes only. *)
Definition is_blank s : bool :=
  bool_decide (trim_left_space (String.length s) s = "").

(** [s[:i]], [s[i+1:]] around the first occurrence of a byte. *)
Fixpoint cut_byte (b : ascii) s : option (string * string) :=
  match s with
  | EmptyString => None
  | String c s' =>
    if Ascii.eqb c b then Some ("", s')
    else match cut_byte b s' with
         | Some (l, r) => Some (String c l, r)
         | None => None
         end
  end.

Fixpoint has_byte (b : ascii) s : bool :=
  match s with
  | EmptyString => false
  | String c s' => Ascii.eqb c b || has_byte b s'
  end.

(** [strings.TrimRight(s, "0")] for a one-byte cutset. *)
Fixpoint trim_right_byte (b : ascii) s : string :=
  match s with
  | EmptyString => ""
  | String c s' =>
    let t := trim_right_byte b s' in
    if Ascii.eqb c b && bool_decide (t = "") then "" else String c t
  end.

(** [strings.Repeat] of a one-byte string. *)
Fixpoint repeat_byte (b : ascii) (k : nat) : string :=
  match k with O => "" | S k => String b (repeat_byte b k) end.

(** ** strconv *)

Definition digit_of n : ascii := ascii_of_N (Z.to_N (48 + n)).

Fixpoint dec_digits (fuel : nat) n (acc : string) : string :=
  match fuel with
  | O => acc
  | S fuel =>
    let acc' := String (digit_of (n mod 10)) acc in
    if n <? 10 then acc' else dec_digits fuel (n / 10) acc'
  end.

(** [strconv.FormatUint(n, 10)], and [%d] of a non-negative integer. *)
Definition FormatUint n : string := dec_digits (S (Z.to_nat (Z.log2 n))) n "".

(** [strconv.FormatInt(z, 10)], and [%d]. *)
Definition FormatInt z : string :=
  if z <? 0 then "-" +:+ FormatUint (- z) else FormatUint z.

Definition digit_val c : option Z :=
  let b := byte_of c in
  if (48 <=? b) && (b <=? 57) then Some (b - 48) else None.

Definition ErrSyntax : err := ErrSentinel "invalid syntax".
Definition ErrRange : err := ErrSentinel "value out of range".

(** The loop of [strconv.ParseUint] in base 10, with its range check. *)
Fixpoint parse_digits (max acc : Z) s : res Z :=
  match s with
  | EmptyString => Ok acc
  | String c s' =>
    match digit_val c with
    | None => Err ErrSyntax
    | Some d =>
      let acc' := acc * 10 + d in
      if max <? acc' then Err ErrRange else parse_digits max acc' s'
    end
  end.

(** [strconv.ParseUint(s, 10, 64)]. *)
Definition ParseUint s : res Z :=
  match s with
  | EmptyString => Err ErrSyntax
  | _ => parse_digits (2 ^ 64 - 1) 0 s
  end.

(** [strconv.ParseInt(s, 10, bits)]. *)
Definition ParseInt (bits : Z) s : res Z :=
  let '(neg, u) :=
    match s with
    | String "+" u => (false, u)
    | String "-" u => (true, u)
    | _ => (false, s)
    end in
  match ParseUint u with
  | Err e => Err e
  | Ok n =>
    let cutoff := 2 ^ (bits - 1) in
    if negb neg && (cutoff <=? n) then Err ErrRange
    else if neg && (cutoff <? n) then Err ErrRange
    else Ok (if neg then - n else n)
  end.

(** ["%0*d"]: a non-negative integer left-padded with zeros to [width]. *)
Definition pad_zero (width : nat) n : string :=
  let s := FormatUint n in repeat_byte "0" (width - String.length s) +:+ s.

(** ** time

    An instant is its number of nanoseconds since the Unix epoch. *)

Definition ns_per_s : Z := 10 ^ 9.

(** Proleptic Gregorian date of a day count from 1970-01-01. *)
Definition civil_from_days (days : Z) : Z * Z * Z :=
  let z := days + 719468 in
  let era := z / 146097 in
  let doe := z mod 146097 in
  let yoe := (doe - doe / 1460 + doe / 36524 - doe / 146096) / 365 in
  let doy := doe - (365 * yoe + yoe / 4 - yoe / 100) in
  let mp := (5 * doy + 2) / 153 in
  let d := doy - (153 * mp + 2) / 5 + 1 in
  let m := if mp <? 10 then mp + 3 else mp - 9 in
  let y := yoe + era * 400 + (if m <=? 2 then 1 else 0) in
  (y, m, d).

(** [t.UTC().Format("2006-01-02T15:04:05.000Z07:00")]. *)
Definition format_rfc3339_ms (t : Z) : string :=
  let secs := t / ns_per_s in
  let ms := (t mod ns_per_s) / 10 ^ 6 in
  let sod := secs mod 86400 in
  let '(y, m, d) := civil_from_days (secs / 86400) in
  pad_zero 4 y +:+ "-" +:+ pad_zero 2 m +:+ "-" +:+ pad_zero 2 d +:+ "T" +:+
  pad_zero 2 (sod / 3600) +:+ ":" +:+ pad_zero 2 (sod mod 3600 / 60) +:+ ":" +:+
  pad_zero 2 (sod mod 60) +:+ "." +:+ pad_zero 3 ms +:+ "Z".

Example format_epoch :
  format_rfc3339_ms 1776988800123456789 = "2026-04-24T00:00:00.123Z".
Proof. vm_compute. reflexivity. Qed.

(** ** Decimal round trip *)

(** Value of a digit string read after [acc]. *)
Fixpoint dec_value acc s : Z :=
  match s with
  | EmptyString => acc
  | String c s' => dec_value (acc * 10 + (byte_of c - 48)) s'
  end.

(** The string consists of decimal digits only. *)
Fixpoint all_digits s : bool :=
  match s with
  | EmptyString => true
  | String c s' => bool_decide (is_Some (digit_val c)) && all_digits s'
  end.

Lemma byte_of_digit n : 0 <= n < 10 -> byte_of (digit_of n) = 48 + n.
Proof.
  intros. unfold byte_of, digit_of. rewrite N_ascii_embedding; [lia|].
  enough (Z.to_N (48 + n) < 256)%N by done. lia.
Qed.

Lemma digit_val_digit n : 0 <= n < 10 -> digit_val (digit_of n) = Some n.
Proof.
  intros. unfold digit_val. rewrite byte_of_digit by done.
  destruct (_ && _) eqn:E; [f_equal; lia|]. bools. destruct E; bools; lia.
Qed.

Lemma digit_val_Some c d : digit_val c = Some d -> d = byte_of c - 48 /\ 0 <= d < 10.
Proof. unfold digit_val. intros. split_matches. bools. lia. Qed.

(** Reading the digits printed for [n] in front of [s] is reading [s] after [n]. *)
Lemma dec_value_digits fuel n s :
  0 <= n < 10 ^ Z.of_nat (S fuel) ->
  dec_value 0 (dec_digits (S fuel) n s) = dec_value n s.
Proof.
  revert n s. induction fuel as [|fuel IH]; intros n s Hn.
  - change (Z.of_nat 1) with 1 in Hn. cbn -[Z.modulo Z.div].
    assert ((n <? 10) = true) as -> by zlia. cbn -[Z.modulo Z.div].
    rewrite byte_of_digit by zlia. f_equal. zlia.
  - rewrite Nat2Z.inj_succ, Z.pow_succ_r in Hn by zlia.
    remember (S fuel) as f. cbn -[Z.modulo Z.div]. subst f.
    case_match; bools; cbn -[Z.modulo Z.div dec_digits].
    + rewrite byte_of_digit by zlia. f_equal. zlia.
    + rewrite IH by zlia. cbn -[Z.modulo Z.div]. rewrite byte_of_digit by zlia.
      f_equal. zlia.
Qed.

Lemma all_digits_dec fuel n s :
  0 <= n -> all_digits s = true -> all_digits (dec_digits fuel n s) = true.
Proof.
  revert n s. induction fuel as [|fuel IH]; intros n s Hn Hs; [done|].
  assert (all_digits (String (digit_of (n mod 10)) s) = true).
  { cbn -[Z.modulo]. rewrite digit_val_digit by zlia. by rewrite Hs. }
  cbn -[Z.modulo Z.div]. case_match; [done|]. apply IH; [zlia|done].
Qed.

Lemma dec_value_acc s acc : dec_value acc s = acc * 10 ^ Z.of_nat (String.length s) + dec_value 0 s.
Proof.
  revert acc. induction s as [|c s IH]; intros acc; [simpl; lia|]. cbn [dec_value String.length].
  rewrite (IH (acc * 10 + _)), (IH (0 * 10 + _)), Nat2Z.inj_succ, Z.pow_succ_r by lia. lia.
Qed.

Lemma dec_value_mono s acc : all_digits s = true -> 0 <= acc -> acc <= dec_value acc s.
Proof.
  revert acc. induction s as [|c s IH]; intros acc Hs Hacc; simpl in *; [lia|].
  bools. destruct H as [d Hd]. apply digit_val_Some in Hd as [-> ?].
  specialize (IH (acc * 10 + (byte_of c - 48)) ltac:(done) ltac:(lia)). lia.
Qed.

(** [ParseUint]'s loop succeeds exactly on digit strings whose value is in range. *)
Lemma parse_digits_ok max s acc :
  all_digits s = true -> 0 <= acc -> dec_value acc s <= max ->
  parse_digits max acc s = Ok (dec_value acc s).
Proof.
  revert acc. induction s as [|c s IH]; intros acc Hs Hacc Hle; simpl in *; [done|].
  bools. destruct H as [d Hd]. rewrite Hd. pose proof (digit_val_Some _ _ Hd) as [-> ?].
  pose proof (dec_value_mono s (acc * 10 + (byte_of c - 48)) ltac:(done) ltac:(lia)).
  assert ((max <? acc * 10 + (byte_of c - 48)) = false) as -> by lia.
  apply IH; [done|lia|done].
Qed.

Lemma parse_digits_inv max s acc v :
  acc <= max -> parse_digits max acc s = Ok v ->
  all_digits s = true /\ v = dec_value acc s /\ v <= max.
Proof.
  revert acc. induction s as [|c s IH]; intros acc Hle Hp; simpl in *; [naive_solver|].
  destruct (digit_val c) as [d|] eqn:Hd; [|done]. pose proof (digit_val_Some _ _ Hd) as [-> ?].
  case_match; [done|]. bools. edestruct IH as (? & ? & ?); [|done|]; [lia|].
  rewrite bool_decide_true by eauto. done.
Qed.

Lemma FormatUint_fuel n : 0 <= n -> n < 10 ^ Z.of_nat (S (Z.to_nat (Z.log2 n))).
Proof.
  intros. rewrite Nat2Z.inj_succ, Z2Nat.id by apply Z.log2_nonneg.
  destruct (decide (n = 0)) as [->|]; [done|].
  pose proof (Z.log2_spec n ltac:(lia)) as [_ ?].
  pose proof (Z.pow_le_mono_l 2 10 (Z.succ (Z.log2 n)) ltac:(lia)). lia.
Qed.

Lemma dec_value_FormatUint n : 0 <= n -> dec_value 0 (FormatUint n) = n.
Proof.
  intros. unfold FormatUint. rewrite dec_value_digits; [done|].
  split; [done|]. by apply FormatUint_fuel.
Qed.

Lemma all_digits_FormatUint n : 0 <= n -> all_digits (FormatUint n) = true.
Proof. intros. by apply all_digits_dec. Qed.

Lemma dec_digits_nonempty fuel n s : dec_digits (S fuel) n s <> "".
Proof.
  revert n s. induction fuel as [|fuel IH]; intros n s.
  - simpl. by case_match.
  - remember (S fuel) as f. cbn -[Z.modulo Z.div]. subst f. case_match; [done|]. apply IH.
Qed.

Lemma FormatUint_nonempty n : FormatUint n <> "".
Proof. apply dec_digits_nonempty. Qed.

Lemma ParseUint_nonneg s n : ParseUint s = Ok n -> 0 <= n.
Proof.
  destruct s as [|c s]; [done|]. unfold ParseUint. intros (Hd & -> & _)%parse_digits_inv; [|lia]. by apply dec_value_mono.
Qed.

Lemma ParseInt_range bits s z : 1 <= bits -> ParseInt bits s = Ok z -> - 2 ^ (bits - 1) <= z < 2 ^ (bits - 1).
Proof.
  intros Hb. pose proof (Z.pow_pos_nonneg 2 (bits - 1) ltac:(lia) ltac:(lia)).
  unfold ParseInt. match goal with |- (let '(_, _) := ?x in _) = _ -> _ => destruct x as [neg u] end.
  destruct (ParseUint u) as [n|] eqn:Hn; [|done]. apply ParseUint_nonneg in Hn.
  destruct neg; simpl; case_match; intros; simplify_eq; bools; lia.
Qed.

Lemma ParseUint_FormatUint n : 0 <= n < 2 ^ 64 -> ParseUint (FormatUint n) = Ok n.
Proof.
  intros. unfold ParseUint. pose proof (FormatUint_nonempty n).
  destruct (FormatUint n) eqn:E; [done|]. rewrite <- E, parse_digits_ok.
  - by rewrite dec_value_FormatUint by lia.
  - apply all_digits_FormatUint. lia.
  - done.
  - rewrite dec_value_FormatUint; lia.
Qed.

Lemma FormatUint_inj n n' : 0 <= n -> 0 <= n' -> FormatUint n = FormatUint n' -> n = n'.
Proof.
  intros ?? E. by rewrite <- (dec_value_FormatUint n), E, dec_value_FormatUint.
Qed.

(** ** Lemmas on [%d] and on texts of several lines *)

Definition no_byte (b : ascii) s : Prop := has_byte b s = false.

Lemma no_byte_digits b s : all_digits s = true -> digit_val b = None -> no_byte b s.
Proof.
  unfold no_byte. intros Hs Hb. induction s as [|c s IH]; [done|]. simpl in *. case_bool_decide as Hc; [|done].
  destruct (Ascii.eqb_spec c b) as [->|]; [destruct Hc; congruence|]. by apply IH.
Qed.

Lemma no_byte_FormatInt b z : digit_val b = None -> b <> "-"%char -> no_byte b (FormatInt z).
Proof.
  intros Hb Hm. unfold FormatInt. destruct (Z.ltb_spec z 0).
  - change ((Ascii.eqb "-" b || has_byte b (FormatUint (- z)))%bool = false).
    destruct (Ascii.eqb_spec "-" b) as [<-|]; [done|].
    apply no_byte_digits; [|done]. apply all_digits_FormatUint. lia.
  - apply no_byte_digits; [|done]. apply all_digits_FormatUint. lia.
Qed.

Lemma FormatInt_inj z z' : FormatInt z = FormatInt z' -> z = z'.
Proof.
  assert (Hneg : forall n s, 0 <= n -> FormatUint n = String "-" s -> False).
  { intros n s Hn E. pose proof (all_digits_FormatUint n Hn) as Hd. rewrite E in Hd. done. }
  unfold FormatInt. destruct (Z.ltb_spec z 0), (Z.ltb_spec z' 0); simpl; intros E.
  - injection E as E. apply FormatUint_inj in E; lia.
  - symmetry in E. exfalso. by eapply Hneg, E.
  - exfalso. by eapply Hneg, E.
  - by apply FormatUint_inj in E.
Qed.

(** The last separator of a text splits it in one way only. *)
Lemma split_last_byte b s s' t t' :
  no_byte b t -> no_byte b t' -> s +:+ String b t = s' +:+ String b t' -> s = s' /\ t = t'.
Proof.
  unfold no_byte. intros Ht Ht'.
  assert (Hhas : forall u v, has_byte b (u +:+ String b v) = true).
  { intros u v. induction u as [|c u IH]; simpl; [by rewrite Ascii.eqb_refl|]. rewrite IH. apply orb_true_r. }
  revert s'. induction s as [|c s IH]; intros [|c' s'] E; simpl in *; simplify_eq.
  - done.
  - by rewrite Hhas in Ht.
  - by rewrite Hhas in Ht'.
  - edestruct IH as [-> ->]; eauto.
Qed.

Lemma string_app_assoc s t u : s +:+ (t +:+ u) = (s +:+ t) +:+ u.
Proof. induction s as [|c s IH]; [done|]. exact (f_equal (String c) IH). Qed.

Lemma cut_byte_sep b s t : no_byte b s -> cut_byte b (s +:+ String b t) = Some (s, t).
Proof.
  unfold no_byte. induction s as [|c s IH]; intros Hs.
  - simpl. by rewrite Ascii.eqb_refl.
  - simpl in Hs. apply orb_false_iff in Hs as [Hc Hs].
    change (String c s +:+ String b t) with (String c (s +:+ String b t)). cbn [cut_byte]. by rewrite Hc, IH.
Qed.

Lemma ParseInt_FormatInt z : is_int64 z = true -> ParseInt 64 (FormatInt z) = Ok z.
Proof.
  rewrite is_int64_spec. unfold int64_min, int64_max. intros Hz. unfold FormatInt. destruct (Z.ltb_spec z 0).
  - change ("-" +:+ FormatUint (- z)) with (String "-" (FormatUint (- z))). unfold ParseInt.
    rewrite ParseUint_FormatUint by lia. change (2 ^ (64 - 1)) with (2 ^ 63). cbn [negb andb].
    rewrite (proj2 (Z.ltb_ge (2 ^ 63) (- z))) by lia. f_equal. lia.
  - unfold ParseInt. pose proof (all_digits_FormatUint z ltac:(lia)) as Hd.
    assert (Hm : (match FormatUint z with
                  | String "+" u => (false, u) | String "-" u => (true, u) | _ => (false, FormatUint z) end)
                 = (false, FormatUint z)).
    { destruct (FormatUint z) as [|c s]; [done|]. simpl in Hd. case_bool_decide as Hc; [|done].
      destruct c as [[] [] [] [] [] [] [] []]; try done; by destruct Hc. }
    rewrite Hm, ParseUint_FormatUint by lia. change (2 ^ (64 - 1)) with (2 ^ 63).
    rewrite (proj2 (Z.leb_gt (2 ^ 63) z)) by lia. done.
Qed.

(** ** Instants and durations *)

(** [time.Unix(secs, 0)]: the seconds are kept from the year 1 on, in an [int64]. *)
Definition time_Unix (secs : Z) : Z := (wrap64 (secs + 62135596800) - 62135596800) * ns_per_s.

(** [t.Sub(u)]: saturates at the ends of [time.Duration]. *)
Definition time_Sub (t u : Z) : Z :=
  let d := t - u in
  if is_int64 d then d else if t <? u then int64_min else int64_max.

(** Negation of a [time.Duration]. *)
Definition duration_neg (d : Z) : Z := wrap64 (- d).
