(* ===== verification/Sha256.v ===== *)
(** * Go's [crypto/sha256] and [crypto/hmac]

    SHA-256 (FIPS 180-4) and HMAC (FIPS 198-1) on byte strings, executable, so
    that the signatures of the quoter evaluate to the bytes the service sends. *)

From S2P Require Import Prelude GoStr.
From Stdlib Require Import Ascii String.

Implicit Types (x y z t : Z) (bs ws : list Z).

Definition mask32 x : Z := Z.land x 0xffffffff.
Definition add32 x y : Z := mask32 (x + y).
Definition rotr x (k : Z) : Z := Z.lor (Z.shiftr x k) (mask32 (Z.shiftl x (32 - k))).

Definition Ch x y z : Z := Z.lxor (Z.land x y) (Z.land (Z.lxor x 0xffffffff) z).
Definition Maj x y z : Z := Z.lxor (Z.lxor (Z.land x y) (Z.land x z)) (Z.land y z).
Definition Sigma0 x : Z := Z.lxor (Z.lxor (rotr x 2) (rotr x 13)) (rotr x 22).
Definition Sigma1 x : Z := Z.lxor (Z.lxor (rotr x 6) (rotr x 11)) (rotr x 25).
Definition sigma0 x : Z := Z.lxor (Z.lxor (rotr x 7) (rotr x 18)) (Z.shiftr x 3).
Definition sigma1 x : Z := Z.lxor (Z.lxor (rotr x 17) (rotr x 19)) (Z.shiftr x 10).

(** The constants are the first 32 bits of the fractional parts of the square and
    cube roots of the first primes. *)
Definition is_prime (n : nat) : bool :=
  (1 <? n)%nat && forallb (fun k => negb (Nat.modulo n k =? 0)%nat) (seq 2 (n - 2)).

Definition first_primes : list Z := Z.of_nat <$> List.filter is_prime (seq 2 310).

(** Integer cube root, bit by bit. *)
Fixpoint cube_root (bits : nat) (n r : Z) : Z :=
  match bits with
  | O => r
  | S bits =>
    let r' := r + 2 ^ Z.of_nat bits in
    cube_root bits n (if r' * r' * r' <=? n then r' else r)
  end.

Definition round_constants : list Z :=
  Eval vm_compute in (fun p => cube_root 36 (p * 2 ^ 96) 0 mod 2 ^ 32) <$> first_primes.

Definition initial_hash : list Z :=
  Eval vm_compute in (fun p => Z.sqrt (p * 2 ^ 64) mod 2 ^ 32) <$> take 8 first_primes.

(** The message schedule: [n] more words in front of the reversed schedule. *)
Fixpoint extend (n : nat) ws : list Z :=
  match n with
  | O => ws
  | S n =>
    let w k := nth (k - 1) ws 0 in
    extend n (add32 (add32 (sigma1 (w 2%nat)) (w 7%nat)) (add32 (sigma0 (w 15%nat)) (w 16%nat)) :: ws)
  end.

Definition schedule (block : list Z) : list Z := rev (extend 48 (rev block)).

Definition round (h : list Z) (kw : Z * Z) : list Z :=
  match h with
  | [a; b; c; d; e; f; g; hh] =>
    let t1 := add32 (add32 hh (Sigma1 e)) (add32 (Ch e f g) (add32 kw.1 kw.2)) in
    let t2 := add32 (Sigma0 a) (Maj a b c) in
    [add32 t1 t2; a; b; c; add32 d t1; e; f; g]
  | _ => h
  end.

Definition compress (h block : list Z) : list Z :=
  zip_with add32 h (foldl round h (zip round_constants (schedule block))).

Definition bytes_of (s : string) : list Z := byte_of <$> String.list_ascii_of_string s.
Definition string_of (bs : list Z) : string :=
  String.string_of_list_ascii ((fun b => ascii_of_N (Z.to_N b)) <$> bs).

(** Big-endian words of a byte list. *)
Fixpoint words bs : list Z :=
  match bs with
  | a :: b :: c :: d :: bs => (a * 2 ^ 24 + b * 2 ^ 16 + c * 2 ^ 8 + d) :: words bs
  | _ => []
  end.

Definition bytes_of_word x : list Z :=
  [Z.land (Z.shiftr x 24) 255; Z.land (Z.shiftr x 16) 255; Z.land (Z.shiftr x 8) 255; Z.land x 255].

(** 0x80, zeros up to 56 modulo 64, the bit length in eight bytes. *)
Definition pad bs : list Z :=
  let len := Z.of_nat (List.length bs) in
  bs ++ 128 :: repeat 0 (Z.to_nat ((55 - len) mod 64)) ++
  bytes_of_word (Z.shiftr (8 * len) 32) ++ bytes_of_word (8 * len).

Fixpoint blocks (fuel : nat) ws : list (list Z) :=
  match fuel, ws with
  | O, _ | _, [] => []
  | S fuel, _ => take 16 ws :: blocks fuel (drop 16 ws)
  end.

Definition sha256_bytes bs : list Z :=
  let ws := words (pad bs) in
  foldl compress initial_hash (blocks (List.length ws) ws) ≫= bytes_of_word.

(** [sha256.Sum256]: 32 raw bytes. *)
Definition sha256 (s : string) : string := string_of (sha256_bytes (bytes_of s)).

(** [hmac.New(sha256.New, key)] fed with [msg], then [Sum(nil)]. *)
Definition hmac_sha256 (key msg : string) : string :=
  let k0 := bytes_of key in
  let k1 := if (64 <? Z.of_nat (List.length k0)) then sha256_bytes k0 else k0 in
  let k := k1 ++ repeat 0 (64 - List.length k1) in
  string_of (sha256_bytes ((Z.lxor 0x5c <$> k) ++ sha256_bytes ((Z.lxor 0x36 <$> k) ++ bytes_of msg))).

(** ** encoding/hex *)

Definition hex_nibble x : ascii := ascii_of_N (Z.to_N (if x <? 10 then 48 + x else 87 + x)).

(** [hex.EncodeToString]. *)
Fixpoint hex (s : string) : string :=
  match s with
  | EmptyString => ""
  | String c s => String (hex_nibble (byte_of c / 16)) (String (hex_nibble (byte_of c mod 16)) (hex s))
  end.

Definition from_hex_char (c : ascii) : option Z :=
  let b := byte_of c in
  if (48 <=? b) && (b <=? 57) then Some (b - 48)
  else if (97 <=? b) && (b <=? 102) then Some (b - 87)
  else if (65 <=? b) && (b <=? 70) then Some (b - 55)
  else None.

(** [hex.DecodeString]. *)
Fixpoint hex_decode (s : string) : res string :=
  match s with
  | EmptyString => Ok ""
  | String a EmptyString =>
    match from_hex_char a with
    | Some _ => Err (ErrSentinel "encoding/hex: odd length hex string")
    | None => Err (ErrMsg "encoding/hex: invalid byte")
    end
  | String a (String b s) =>
    match from_hex_char a, from_hex_char b with
    | Some x, Some y =>
      match hex_decode s with
      | Ok t => Ok (String (ascii_of_N (Z.to_N (16 * x + y))) t)
      | Err e => Err e
      end
    | _, _ => Err (ErrMsg "encoding/hex: invalid byte")
    end
  end.

Lemma hex_byte c :
  exists x y, from_hex_char (hex_nibble (byte_of c / 16)) = Some x /\
    from_hex_char (hex_nibble (byte_of c mod 16)) = Some y /\ ascii_of_N (Z.to_N (16 * x + y)) = c.
Proof. destruct c as [[] [] [] [] [] [] [] []]; eexists _, _; repeat split; reflexivity. Qed.

Lemma hex_decode_hex s : hex_decode (hex s) = Ok s.
Proof.
  induction s as [|c s IH]; [done|]. cbn [hex hex_decode].
  destruct (hex_byte c) as (x & y & -> & -> & Hc). by rewrite IH, Hc.
Qed.

(** No byte of a hex text is a separator. *)
Lemma hex_no_byte b s : from_hex_char b = None -> no_byte b (hex s).
Proof.
  unfold no_byte. intros Hb. induction s as [|c s IH]; [done|]. cbn [hex has_byte]. rewrite IH.
  destruct (hex_byte c) as (x & y & Hx & Hy & _).
  destruct (Ascii.eqb_spec (hex_nibble (byte_of c / 16)) b) as [E|_]; [congruence|].
  destruct (Ascii.eqb_spec (hex_nibble (byte_of c mod 16)) b) as [E|_]; [congruence|done].
Qed.

Lemma hex_empty s : hex s = "" -> s = "".
Proof. by destruct s. Qed.

(** ** Test vectors *)

Example sha256_abc : hex (sha256 "abc") = "ba7816bf8f01cfea414140de5dae2223b00361a396177a9cb410ff61f20015ad".
Proof. vm_compute. reflexivity. Qed.

Example sha256_two_blocks :
  hex (sha256 "abcdbcdecdefdefgefghfghighijhijkijkljklmklmnlmnomnopnopq") =
  "248d6a61d20638b8e5c026930c3e6039a33ce45964ff2167f6ecedd419db06c1".
Proof. vm_compute. reflexivity. Qed.

(** RFC 4231, test case 2. *)
Example hmac_sha256_rfc4231 :
  hex (hmac_sha256 "Jefe" "what do ya want for nothing?") =
  "5bdcc146bf60754e6a042426089575c75a003f089d2739839dec58b964ec3843".
Proof. vm_compute. reflexivity. Qed.

(** ** A digest has 32 bytes *)

Lemma round_length h kw : List.length (round h kw) = List.length h.
Proof. unfold round. do 8 (destruct h as [|? h]; [done|]). by destruct h. Qed.

Lemma rounds_length l h : List.length (foldl round h l) = List.length h.
Proof. revert h. induction l as [|kw l IH]; intros h; simpl; [done|]. by rewrite IH, round_length. Qed.

Lemma compress_length h block : List.length (compress h block) = List.length h.
Proof. unfold compress. rewrite length_zip_with, rounds_length. lia. Qed.

Lemma sha256_bytes_nonempty bs : sha256_bytes bs <> [].
Proof.
  unfold sha256_bytes. generalize (blocks (List.length (words (pad bs))) (words (pad bs))). intros bl.
  assert (Hl : List.length (foldl compress initial_hash bl) = 8%nat).
  { generalize (eq_refl : List.length initial_hash = 8%nat). generalize initial_hash.
    induction bl as [|b bl IH]; intros h Hh; simpl; [done|]. apply IH. by rewrite compress_length. }
  by destruct (foldl compress initial_hash bl).
Qed.

Lemma hmac_nonempty key msg : hmac_sha256 key msg <> "".
Proof.
  unfold hmac_sha256, string_of. match goal with |- context [sha256_bytes ?b] => pose proof (sha256_bytes_nonempty b) end.
  by destruct (sha256_bytes _).
Qed.
