(* ===== verification/MockBank.v ===== *)
(** * The mock IDR bank server ([cmd/mockidrbank/main.go])

    The stand-alone bank stub the orchestrator pays through.  Its state is the
    idempotency cache and the log lines it writes; a handler is a function from
    state and request to state and response.  [fresh] is the value
    [uuid.NewString()] returns if the handler draws one. *)

From S2P Require Import Prelude GoStr.

Record submitRequest := mkSubmitRequest {
  req_intent_id : string;
  req_payout_id : string;
  req_amount_idr : Z;
  req_bank_code : string;
  req_account_number : string;
  req_account_name : string;
  req_memo : string
}.

Record submitResponse := mkSubmitResponse {
  resp_reference : string;
  resp_status : string;
  resp_message : string
}.

(** A response body: the JSON encoding of a [submitResponse], or bytes that are
    not JSON, such as the text [http.Error] writes. *)
Inductive http_body :=
  | BodyJSON (r : submitResponse)
  | BodyText (s : string).

(** [respBytes] and [statusCode] of a cached reply. *)
Record cachedResponse := mkCachedResponse {
  statusCode : Z;
  body : submitResponse
}.

(** The two log lines [handlePayouts] writes. *)
Inductive bank_log_line :=
  | CachedReply (key : string) (status : Z)
  | PayoutDecision (key : string) (req : submitRequest) (status : Z).

Record server := mkServer {
  cache : gmap string cachedResponse;
  log : list bank_log_line
}.

Definition newServer : server := {| cache := ∅; log := [] |}.

(** The request body as [io.ReadAll] and [json.Unmarshal] see it. *)
Inductive request_body :=
  | ReqEmpty
  | ReqJSON (r : submitRequest)
  | ReqMalformed
  | ReqUnreadable.

Record payout_http_request := mkPayoutHttpRequest {
  hr_method : string;
  hr_idempotency_key : string;
  hr_fail : string;
  hr_body : request_body
}.

(** [http.Error] ends the text with a newline. *)
Definition http_Error (code : Z) (text : string) : Z * http_body :=
  (code, BodyText (text +:+ newline)).

Definition zeroRequest : submitRequest := mkSubmitRequest "" "" 0 "" "" "" "".

Definition bank_decide (fresh fail : string) (req : submitRequest) : Z * submitResponse :=
  if String.eqb fail "retry" then
    (503, mkSubmitResponse "" "retryable" "downstream temporarily unavailable")
  else if String.eqb fail "permanent" then
    (422, mkSubmitResponse "" "rejected" "account closed")
  else
    (200, mkSubmitResponse ("MIDR-" +:+ fresh) "succeeded"
            ("paid " +:+ FormatInt (req_amount_idr req) +:+ " IDR to " +:+ req_account_number req)).

Definition bank_lookup (s : server) (key : string) : option cachedResponse := cache s !! key.

Definition bank_store (s : server) (key : string) (v : cachedResponse) : server :=
  {| cache := <[key := v]> (cache s); log := log s |}.

Definition bank_log (s : server) (l : bank_log_line) : server :=
  {| cache := cache s; log := log s ++ [l] |}.

Definition handlePayouts (s : server) (fresh : string) (r : payout_http_request)
    : server * (Z * http_body) :=
  if negb (String.eqb (hr_method r) "POST") then
    (s, http_Error 405 "method not allowed")
  else
  let idemKey := hr_idempotency_key r in
  if String.eqb idemKey "" then
    (s, http_Error 400 "X-Idempotency-Key header required")
  else
  match bank_lookup s idemKey with
  | Some cached =>
    (bank_log s (CachedReply idemKey (statusCode cached)),
     (statusCode cached, BodyJSON (body cached)))
  | None =>
    let continue_with (req : submitRequest) :=
      let '(code, payload) := bank_decide fresh (hr_fail r) req in
      let s' := bank_store s idemKey (mkCachedResponse code payload) in
      (bank_log s' (PayoutDecision idemKey req code), (code, BodyJSON payload)) in
    match hr_body r with
    | ReqUnreadable => (s, http_Error 400 "read body")
    | ReqMalformed => (s, http_Error 400 "decode body")
    | ReqEmpty => continue_with zeroRequest
    | ReqJSON req => continue_with req
    end
  end.

(** ** What the bank's log says was paid *)

(** The disbursements the bank decided on: (key, request) of every logged
    decision with status 200. *)
Definition disbursed (s : server) : list (string * submitRequest) :=
  omap (fun l => match l with
                 | PayoutDecision k r c => if c =? 200 then Some (k, r) else None
                 | CachedReply _ _ => None
                 end) (log s).

Definition status_ok (c : Z) : Prop := c = 200 \/ 400 <= c.

(** The key/value agreement between the log and the cache: no key is paid twice,
    every decision is cached, and every cached status was decided and is either
    200 or a failure. *)
Definition bank_inv (s : server) : Prop :=
  NoDup ((disbursed s).*1) /\
  (forall k r c, PayoutDecision k r c ∈ log s -> exists v, cache s !! k = Some v /\ statusCode v = c) /\
  (forall k v, cache s !! k = Some v ->
     (exists r, PayoutDecision k r (statusCode v) ∈ log s) /\ status_ok (statusCode v)).

Lemma bank_inv_newServer : bank_inv newServer.
Proof. split; [apply NoDup_nil_2|]. split; [by intros ??? ?%elem_of_nil|intros k v Hk; simpl in Hk; by rewrite lookup_empty in Hk]. Qed.

Lemma disbursed_log_app s l s' :
  log s' = log s ++ [l] ->
  disbursed s' = disbursed s ++
    match l with
    | PayoutDecision k r c => if c =? 200 then [(k, r)] else []
    | CachedReply _ _ => []
    end.
Proof. intros E. unfold disbursed. rewrite E, omap_app. f_equal. cbn -[Z.eqb]. destruct l; [done|]. by destruct (_ =? _). Qed.

Lemma elem_of_disbursed s k r :
  (k, r) ∈ disbursed s <-> PayoutDecision k r 200 ∈ log s.
Proof.
  unfold disbursed. rewrite list_elem_of_omap. split.
  - intros (l & Hl & E). repeat case_match; simplify_eq. bools. by subst.
  - intros. eexists. by split.
Qed.

(** Logging a cached reply changes nothing else. *)
Lemma bank_inv_cached s k c : bank_inv s -> bank_inv (bank_log s (CachedReply k c)).
Proof.
  intros (Hnd & Hlog & Hcache). split_and!; simpl.
  - erewrite disbursed_log_app by done. by rewrite app_nil_r.
  - intros k' q c' [H|H]%elem_of_app; [by eapply Hlog|]. by apply list_elem_of_singleton in H.
  - intros k' v [[r Hr] Hok]%Hcache. split; [|done]. exists r. apply elem_of_app. auto.
Qed.

(** A decision for a key that is not cached. *)
Lemma bank_inv_decision s k req v :
  bank_inv s -> cache s !! k = None -> status_ok (statusCode v) ->
  bank_inv (bank_log (bank_store s k v) (PayoutDecision k req (statusCode v))).
Proof.
  intros (Hnd & Hlog & Hcache) Hk Hok. split_and!; simpl.
  - erewrite disbursed_log_app by done. rewrite fmap_app. simpl.
    case_match; [|by rewrite app_nil_r]. apply NoDup_app. split; [done|]. split; [|by apply NoDup_singleton].
    intros k' Hin ->%list_elem_of_singleton. simpl in *.
    apply list_elem_of_fmap in Hin as ([k' q] & E & Hin%elem_of_disbursed).
    destruct (Hlog _ _ _ Hin) as (? & Hc & _). simpl in *. congruence.
  - intros k' q c [H|H]%elem_of_app.
    + destruct (Hlog _ _ _ H) as (v' & Hv & <-). exists v'. split; [|done].
      rewrite lookup_insert_ne; [done|]. intros <-. congruence.
    + apply list_elem_of_singleton in H. simplify_eq. rewrite lookup_insert_eq. eauto.
  - intros k' v' Hv. destruct (decide (k' = k)) as [->|Hne].
    + rewrite lookup_insert_eq in Hv. simplify_eq. split; [|done]. exists req. apply elem_of_app. right. by constructor.
    + rewrite lookup_insert_ne in Hv by done. destruct (Hcache _ _ Hv) as [[r Hr] ?].
      split; [|done]. exists r. apply elem_of_app. auto.
Qed.

Lemma bank_decide_status fresh fail req : status_ok (bank_decide fresh fail req).1.
Proof. unfold bank_decide, status_ok. repeat case_match; simpl; lia. Qed.

(** What one request does to the bank: nothing, one cached reply, or one new
    decision under the request's key. *)
Lemma handlePayouts_cases s fresh r s' resp :
  handlePayouts s fresh r = (s', resp) ->
  (s' = s /\ 400 <= resp.1) \/
  (exists v, cache s !! hr_idempotency_key r = Some v /\ resp = (statusCode v, BodyJSON (body v)) /\
     s' = bank_log s (CachedReply (hr_idempotency_key r) (statusCode v))) \/
  (exists req v, cache s !! hr_idempotency_key r = None /\ resp = (statusCode v, BodyJSON (body v)) /\
     (hr_body r = ReqJSON req \/ hr_body r = ReqEmpty /\ req = zeroRequest) /\ status_ok (statusCode v) /\
     s' = bank_log (bank_store s (hr_idempotency_key r) v)
            (PayoutDecision (hr_idempotency_key r) req (statusCode v))).
Proof.
  unfold handlePayouts, bank_lookup. destruct (negb _); [intros [= <- <-]; left; simpl; split; [done|lia]|].
  destruct (String.eqb (hr_idempotency_key r) ""); [intros [= <- <-]; left; simpl; split; [done|lia]|].
  destruct (cache s !! hr_idempotency_key r) as [v|] eqn:Hk.
  { intros [= <- <-]. right; left. eauto. }
  destruct (hr_body r) as [|q| |]; [| |intros [= <- <-]; left; simpl; split; [done|lia]..].
  - pose proof (bank_decide_status fresh (hr_fail r) zeroRequest) as Hok.
    destruct (bank_decide fresh (hr_fail r) zeroRequest) as [code payload]. intros [= <- <-].
    right; right. exists zeroRequest, (mkCachedResponse code payload). split_and!; auto.
  - pose proof (bank_decide_status fresh (hr_fail r) q) as Hok.
    destruct (bank_decide fresh (hr_fail r) q) as [code payload]. intros [= <- <-].
    right; right. exists q, (mkCachedResponse code payload). split_and!; auto.
Qed.

Lemma bank_inv_handlePayouts s fresh r :
  bank_inv s -> bank_inv (handlePayouts s fresh r).1.
Proof.
  intros Hs. destruct (handlePayouts s fresh r) as [s' resp] eqn:E.
  destruct (handlePayouts_cases _ _ _ _ _ E) as [[-> _]|[(v & _ & _ & ->)|(q & v & Hk & _ & _ & Hok & ->)]];
    [done|by apply bank_inv_cached|by apply bank_inv_decision].
Qed.

(** the bank pays a key at most once. Whatever requests it serves, in
    whatever order, no idempotency key has two disbursements in its log, and the
    reply it caches for a key is the decision it logged. *)
Theorem bank_pays_once (reqs : list (string * payout_http_request)) :
  bank_inv (foldl (fun s fr => (handlePayouts s fr.1 fr.2).1) newServer reqs).
Proof.
  assert (forall s, bank_inv s -> bank_inv (foldl (fun s fr => (handlePayouts s fr.1 fr.2).1) s reqs)) as H.
  { induction reqs as [|[fresh r] reqs IH]; intros s Hs; [done|]. apply IH. simpl.
    by apply bank_inv_handlePayouts. }
  apply H, bank_inv_newServer.
Qed.
