(* ===== verification/Models.v ===== *)
(** * Database rows ([internal/db/sqlc/models.go])

    One record per table row, one inductive type per Postgres enum, and the
    database as the record of its tables.  [pgtype.UUID] and
    [pgtype.Timestamptz] are [option]s where the column is nullable and plain
    values where the migration declares it [NOT NULL].  An instant is in
    nanoseconds since the epoch. *)

From S2P Require Import Prelude.

Set Warnings "-register-all".

(** A UUID is its 128-bit value. *)
Definition uuid : Type := N.

(** JSON values: the [jsonb] columns of the outbox. *)
Inductive json :=
  | JNull
  | JBool (b : bool)
  | JNum (z : Z)
  | JStr (s : string)
  | JArr (l : list json)
  | JObj (fields : list (string * json)).

Inductive AccountType := Asset | Liability | Equity | Revenue | Expense.
Inductive PostingDirection := PDebit | PCredit.
Inductive PaymentIntentState := IPending | IFunded | ISettling | IPaidOut | ICompleted | IExpired | IFailed.
Inductive PayoutState := PoPending | PoSubmitting | PoSucceeded | PoFailed.
Inductive SagaState := SPending | SRunning | SCompleted | SFailed.
Inductive SolanaCommitment := CProcessed | CConfirmed | CFinalized.

#[global] Instance AccountType_eq_dec : EqDecision AccountType. Proof. solve_decision. Defined.
#[global] Instance PostingDirection_eq_dec : EqDecision PostingDirection. Proof. solve_decision. Defined.
#[global] Instance PaymentIntentState_eq_dec : EqDecision PaymentIntentState. Proof. solve_decision. Defined.
#[global] Instance PayoutState_eq_dec : EqDecision PayoutState. Proof. solve_decision. Defined.
#[global] Instance SagaState_eq_dec : EqDecision SagaState. Proof. solve_decision. Defined.
#[global] Instance SolanaCommitment_eq_dec : EqDecision SolanaCommitment. Proof. solve_decision. Defined.

(** The texts of the enum values. *)
Definition AccountType_of_string (s : string) : option AccountType :=
  if String.eqb s "asset" then Some Asset
  else if String.eqb s "liability" then Some Liability
  else if String.eqb s "equity" then Some Equity
  else if String.eqb s "revenue" then Some Revenue
  else if String.eqb s "expense" then Some Expense
  else None.

Definition PostingDirection_of_string (s : string) : option PostingDirection :=
  if String.eqb s "debit" then Some PDebit
  else if String.eqb s "credit" then Some PCredit
  else None.

Definition PaymentIntentState_string (s : PaymentIntentState) : string :=
  match s with
  | IPending => "pending" | IFunded => "funded" | ISettling => "settling"
  | IPaidOut => "paid_out" | ICompleted => "completed" | IExpired => "expired"
  | IFailed => "failed"
  end.

Definition PayoutState_string (s : PayoutState) : string :=
  match s with
  | PoPending => "pending" | PoSubmitting => "submitting"
  | PoSucceeded => "succeeded" | PoFailed => "failed"
  end.

Definition SagaState_string (s : SagaState) : string :=
  match s with
  | SPending => "pending" | SRunning => "running" | SCompleted => "completed" | SFailed => "failed"
  end.

Definition SolanaCommitment_string (c : SolanaCommitment) : string :=
  match c with CProcessed => "processed" | CConfirmed => "confirmed" | CFinalized => "finalized" end.

Definition PostingDirection_string (d : PostingDirection) : string :=
  match d with PDebit => "debit" | PCredit => "credit" end.

(** Postgres compares enum values by their position in the type. *)
Definition commitment_rank (c : SolanaCommitment) : Z :=
  match c with CProcessed => 0 | CConfirmed => 1 | CFinalized => 2 end.

Record Account := mkAccount {
  acc_id : uuid; acc_code : string; acc_type : AccountType;
  acc_currency : string; acc_created_at : Z
}.

Record JournalEntry := mkJournalEntry {
  je_id : uuid; je_external_ref : string; je_kind : string;
  je_description : option string; je_intent_id : option uuid; je_created_at : Z
}.

Record Posting := mkPosting {
  p_id : uuid; p_entry_id : uuid; p_account_id : uuid; p_amount : Z;
  p_currency : string; p_direction : PostingDirection; p_created_at : Z
}.

Record Merchant := mkMerchant {
  m_id : uuid; m_name : string; m_created_at : Z;
  m_bank_code : option string; m_bank_account_number : option string;
  m_bank_account_name : option string;
  m_webhook_url : option string; m_webhook_secret : option string
}.

Record ApiKey := mkApiKey {
  ak_id : uuid; ak_merchant_id : uuid; ak_key_id : string;
  ak_secret_hash : string; ak_created_at : Z; ak_revoked_at : option Z
}.

Record IdempotencyKey := mkIdempotencyKey {
  ik_merchant_id : uuid; ik_key : string; ik_request_hash : string;
  ik_status_code : Z; ik_response_body : string; ik_created_at : Z
}.

Record Quote := mkQuote {
  q_id : uuid; q_pair : string; q_rate_num : Z; q_rate_scale : Z;
  q_spread_bps : Z; q_expires_at : Z; q_signature : string; q_created_at : Z
}.

Record PaymentIntent := mkPaymentIntent {
  pi_id : uuid; pi_merchant_id : uuid; pi_external_ref : string;
  pi_amount_idr : Z; pi_quoted_amount_usdc : Z; pi_quote_id : uuid;
  pi_reference_pubkey : option string; pi_reference_secret_enc : option string;
  pi_recipient_ata : option string; pi_state : PaymentIntentState;
  pi_created_at : Z; pi_updated_at : Z
}.

Record OnchainPayment := mkOnchainPayment {
  op_signature : string; op_slot : Z; op_block_time : option Z;
  op_from_ata : string; op_to_ata : string; op_mint : string; op_amount : Z;
  op_reference_pubkey : option string; op_commitment : SolanaCommitment;
  op_intent_id : option uuid; op_created_at : Z; op_updated_at : Z
}.

Record SagaRun := mkSagaRun {
  sr_id : uuid; sr_intent_id : uuid; sr_saga_kind : string;
  sr_current_step : string; sr_state : SagaState; sr_step_attempts : Z;
  sr_next_run_at : Z; sr_lease_owner : option string; sr_lease_until : option Z;
  sr_last_error : option string; sr_created_at : Z; sr_updated_at : Z
}.

Record Outbox := mkOutbox {
  ob_id : uuid; ob_topic : string; ob_aggregate_id : option uuid;
  ob_payload : json; ob_headers : json; ob_created_at : Z;
  ob_next_attempt_at : Z; ob_delivered_at : option Z; ob_attempts : Z;
  ob_last_error : option string
}.

Record Payout := mkPayout {
  po_id : uuid; po_intent_id : uuid; po_rail : string; po_amount_idr : Z;
  po_state : PayoutState; po_rail_reference : option string;
  po_last_error : option string; po_attempts : Z;
  po_created_at : Z; po_updated_at : Z
}.

(** ** The database *)

Record DB := mkDB {
  accounts : list Account;
  journal_entries : list JournalEntry;
  postings : list Posting;
  merchants : list Merchant;
  api_keys : list ApiKey;
  idempotency_keys : list IdempotencyKey;
  quotes : list Quote;
  payment_intents : list PaymentIntent;
  onchain_payments : list OnchainPayment;
  saga_runs : list SagaRun;
  outbox : list Outbox;
  payouts : list Payout
}.

Definition empty_db : DB := mkDB [] [] [] [] [] [] [] [] [] [] [] [].

(** Replacing one table. *)
Definition set_accounts (d : DB) t : DB :=
  mkDB t (journal_entries d) (postings d) (merchants d) (api_keys d) (idempotency_keys d)
    (quotes d) (payment_intents d) (onchain_payments d) (saga_runs d) (outbox d) (payouts d).
Definition set_journal_entries (d : DB) t : DB :=
  mkDB (accounts d) t (postings d) (merchants d) (api_keys d) (idempotency_keys d)
    (quotes d) (payment_intents d) (onchain_payments d) (saga_runs d) (outbox d) (payouts d).
Definition set_postings (d : DB) t : DB :=
  mkDB (accounts d) (journal_entries d) t (merchants d) (api_keys d) (idempotency_keys d)
    (quotes d) (payment_intents d) (onchain_payments d) (saga_runs d) (outbox d) (payouts d).
Definition set_merchants (d : DB) t : DB :=
  mkDB (accounts d) (journal_entries d) (postings d) t (api_keys d) (idempotency_keys d)
    (quotes d) (payment_intents d) (onchain_payments d) (saga_runs d) (outbox d) (payouts d).
Definition set_api_keys (d : DB) t : DB :=
  mkDB (accounts d) (journal_entries d) (postings d) (merchants d) t (idempotency_keys d)
    (quotes d) (payment_intents d) (onchain_payments d) (saga_runs d) (outbox d) (payouts d).
Definition set_idempotency_keys (d : DB) t : DB :=
  mkDB (accounts d) (journal_entries d) (postings d) (merchants d) (api_keys d) t
    (quotes d) (payment_intents d) (onchain_payments d) (saga_runs d) (outbox d) (payouts d).
Definition set_quotes (d : DB) t : DB :=
  mkDB (accounts d) (journal_entries d) (postings d) (merchants d) (api_keys d) (idempotency_keys d)
    t (payment_intents d) (onchain_payments d) (saga_runs d) (outbox d) (payouts d).
Definition set_payment_intents (d : DB) t : DB :=
  mkDB (accounts d) (journal_entries d) (postings d) (merchants d) (api_keys d) (idempotency_keys d)
    (quotes d) t (onchain_payments d) (saga_runs d) (outbox d) (payouts d).
Definition set_onchain_payments (d : DB) t : DB :=
  mkDB (accounts d) (journal_entries d) (postings d) (merchants d) (api_keys d) (idempotency_keys d)
    (quotes d) (payment_intents d) t (saga_runs d) (outbox d) (payouts d).
Definition set_saga_runs (d : DB) t : DB :=
  mkDB (accounts d) (journal_entries d) (postings d) (merchants d) (api_keys d) (idempotency_keys d)
    (quotes d) (payment_intents d) (onchain_payments d) t (outbox d) (payouts d).
Definition set_outbox (d : DB) t : DB :=
  mkDB (accounts d) (journal_entries d) (postings d) (merchants d) (api_keys d) (idempotency_keys d)
    (quotes d) (payment_intents d) (onchain_payments d) (saga_runs d) t (payouts d).
Definition set_payouts (d : DB) t : DB :=
  mkDB (accounts d) (journal_entries d) (postings d) (merchants d) (api_keys d) (idempotency_keys d)
    (quotes d) (payment_intents d) (onchain_payments d) (saga_runs d) (outbox d) t.
