(* ===== verification/Enums.v ===== *)
(** * Enum columns ([internal/db/sqlc/models.go])

    The [Scan] and [Value] methods sqlc generates for the enum types and their
    nullable variants.  In Go each enum is a string; [Scan] takes any text. *)

From S2P Require Import Prelude GoStr Models.

(** What a driver hands to [Scan]: nil, bytes, a string, or a value of another type
    with the name [%T] prints. *)
Inductive driver_value :=
  | DNil
  | DBytes (s : string)
  | DString (s : string)
  | DOther (type_name : string).

(** The type switch of [Scan]. *)
Definition enum_Scan (name : string) (src : driver_value) : res string :=
  let unsupported t := Err (ErrMsg ("unsupported scan type for " +:+ name +:+ ": " +:+ t)) in
  match src with
  | DBytes s | DString s => Ok s
  | DNil => unsupported "<nil>"
  | DOther t => unsupported t
  end.

Definition AccountType_Scan := enum_Scan "AccountType".
Definition PaymentIntentState_Scan := enum_Scan "PaymentIntentState".
Definition PayoutState_Scan := enum_Scan "PayoutState".
Definition PostingDirection_Scan := enum_Scan "PostingDirection".
Definition SagaState_Scan := enum_Scan "SagaState".
Definition SolanaCommitment_Scan := enum_Scan "SolanaCommitment".

(** The struct of the [Null...] types. *)
Record NullEnum := mkNullEnum { ne_value : string; ne_valid : bool }.

(** [Scan] of a nullable enum assigns through the pointer: when the inner [Scan]
    fails the value is already marked valid. *)
Definition null_Scan (scan : driver_value -> res string) (value : driver_value) (ns : NullEnum) : res unit * NullEnum :=
  match value with
  | DNil => (Ok tt, mkNullEnum "" false)
  | _ =>
    match scan value with
    | Ok s => (Ok tt, mkNullEnum s true)
    | Err e => (Err e, mkNullEnum (ne_value ns) true)
    end
  end.

Definition null_Value (ns : NullEnum) : driver_value := if ne_valid ns then DString (ne_value ns) else DNil.

Definition NullAccountType_Scan := null_Scan AccountType_Scan.
Definition NullPaymentIntentState_Scan := null_Scan PaymentIntentState_Scan.
Definition NullPayoutState_Scan := null_Scan PayoutState_Scan.
Definition NullPostingDirection_Scan := null_Scan PostingDirection_Scan.
Definition NullSagaState_Scan := null_Scan SagaState_Scan.
Definition NullSolanaCommitment_Scan := null_Scan SolanaCommitment_Scan.

(** [Value] of each nullable enum. *)
Definition NullAccountType_Value := null_Value.
Definition NullPaymentIntentState_Value := null_Value.
Definition NullPayoutState_Value := null_Value.
Definition NullPostingDirection_Value := null_Value.
Definition NullSagaState_Value := null_Value.
Definition NullSolanaCommitment_Value := null_Value.

(** The nullable enums. *)
Definition null_scanners : list (driver_value -> NullEnum -> res unit * NullEnum) :=
  [ NullAccountType_Scan; NullPaymentIntentState_Scan; NullPayoutState_Scan; NullPostingDirection_Scan;
    NullSagaState_Scan; NullSolanaCommitment_Scan ].

(** What is stored is read back, into any variable, by every enum type; a null keeps
    no text. *)
Lemma null_roundtrip scan ns x :
  scan ∈ null_scanners -> scan (null_Value ns) x = (Ok tt, if ne_valid ns then ns else mkNullEnum "" false).
Proof.
  unfold null_scanners. rewrite !elem_of_cons. intros Hs. destruct ns as [v []];
    (repeat destruct Hs as [->|Hs]; try reflexivity; by apply elem_of_nil in Hs).
Qed.

(** A column of the table's enum type holds one of its labels, which names a
    constructor again. *)
Lemma account_type_column t x :
  exists s, (NullAccountType_Scan (DString s) x).2 = mkNullEnum s true /\ AccountType_of_string s = Some t.
Proof. destruct t; [exists "asset"|exists "liability"|exists "equity"|exists "revenue"|exists "expense"]; done. Qed.
