(* ===== verification/World.v ===== *)
(** * The environment of the program and the monad its code runs in

    The processes of the system share one Postgres database.  [World] is that
    database together with everything else a call can observe or change: the
    clock, the random sources, the bank behind the payout rail, and the
    infrastructure faults the run meets.  Code is a function of type
    [M A = World -> res A * World]: fallible and state passing. *)

From S2P Require Import Prelude GoStr MockBank Models.
From Stdlib Require Import Ascii.

(** ** Code outside the repository

    [gen_uuid n] is the n-th UUID drawn from a random source
    (Postgres' [gen_random_uuid()], [uuid.New()]); [uuid_string] is
    [uuid.UUID.String()]. *)
Class Env := {
  gen_uuid : N -> uuid;
  uuid_string : uuid -> string
}.

(** What the code relies on: random UUIDs do not repeat, and the text of a UUID
    is not empty, determines it and has no colon. *)
Class EnvOk (E : Env) : Prop := {
  gen_uuid_inj :: Inj (=) (=) (@gen_uuid E);
  uuid_string_inj :: Inj (=) (=) (@uuid_string E);
  uuid_string_nonempty u : @uuid_string E u <> "";
  uuid_string_no_colon u : no_byte ":"%char (@uuid_string E u)
}.

(** ** Faults

    One fault is consumed per database round trip.  [FErr]: the statement did
    not run and the driver reports an error.  [FLost]: the statement ran but the
    answer was lost, so the driver reports an error as well. *)
Inductive fault := FNone | FErr | FLost.

(** What happens to one HTTP request to the bank: it is answered by the bank, it
    never arrives, it is processed but the client sees a transport error or
    cannot read the body, or something in between answers. *)
Inductive net_event :=
  | NetDeliver
  | NetRequestLost (msg : string)
  | NetResponseLost (msg : string)
  | NetReadFail (msg : string)
  | NetForeign (status : Z) (b : http_body).

(** What happens to one Redis command: it is answered, it never arrives, or it is
    executed and the reply is lost. *)
Inductive redis_event := RdOk | RdFail | RdLost.

(** The Redis server: the bytes and the expiry, if any, of every key, and the
    script of what happens to the next commands. *)
Record Redis := mkRedis { rd_keys : gmap string (string * option Z); rd_events : list redis_event }.

Record World := mkWorld {
  w_db : DB;
  w_now : Z;
  w_rng : N;
  w_faults : list fault;
  w_jitter : list Z;
  w_bank : server;
  w_net : list net_event;
  w_redis : Redis
}.

Definition set_db (w : World) d : World :=
  mkWorld d (w_now w) (w_rng w) (w_faults w) (w_jitter w) (w_bank w) (w_net w) (w_redis w).
Definition set_now (w : World) t : World :=
  mkWorld (w_db w) t (w_rng w) (w_faults w) (w_jitter w) (w_bank w) (w_net w) (w_redis w).
Definition set_rng (w : World) r : World :=
  mkWorld (w_db w) (w_now w) r (w_faults w) (w_jitter w) (w_bank w) (w_net w) (w_redis w).
Definition set_faults (w : World) fs : World :=
  mkWorld (w_db w) (w_now w) (w_rng w) fs (w_jitter w) (w_bank w) (w_net w) (w_redis w).
Definition set_jitter (w : World) js : World :=
  mkWorld (w_db w) (w_now w) (w_rng w) (w_faults w) js (w_bank w) (w_net w) (w_redis w).
Definition set_bank (w : World) b : World :=
  mkWorld (w_db w) (w_now w) (w_rng w) (w_faults w) (w_jitter w) b (w_net w) (w_redis w).
Definition set_net (w : World) ns : World :=
  mkWorld (w_db w) (w_now w) (w_rng w) (w_faults w) (w_jitter w) (w_bank w) ns (w_redis w).
Definition set_redis (w : World) rd : World :=
  mkWorld (w_db w) (w_now w) (w_rng w) (w_faults w) (w_jitter w) (w_bank w) (w_net w) rd.

(** ** The monad *)

Definition M (A : Type) : Type := World -> res A * World.

#[global] Instance M_ret : MRet M := fun A a w => (Ok a, w).
#[global] Instance M_bind : MBind M := fun A B k m w =>
  match m w with
  | (Ok a, w') => k a w'
  | (Err e, w') => (Err e, w')
  end.

(** [return ..., err]. *)
Definition throw {A} (e : err) : M A := fun w => (Err e, w).

(** Handing the error to the caller's code instead of returning it. *)
Definition try {A} (m : M A) : M (res A) := fun w => let '(r, w') := m w in (Ok r, w').

(** [if err != nil { return ..., f(err) }]. *)
Definition map_err {A} (f : err -> err) (m : M A) : M A := fun w =>
  match m w with
  | (Ok a, w') => (Ok a, w')
  | (Err e, w') => (Err (f e), w')
  end.

Definition lift_res {A} (r : res A) : M A := fun w => (r, w).

Definition get_now : M Z := fun w => (Ok (w_now w), w).

(** A fresh random UUID. *)
Definition draw_uuid `{Env} : M uuid := fun w =>
  (Ok (gen_uuid (w_rng w)), set_rng w (w_rng w + 1)%N).

Definition pop_fault (w : World) : fault * World :=
  match w_faults w with
  | [] => (FNone, w)
  | f :: fs => (f, set_faults w fs)
  end.

(** A database statement: [f] maps the statement's [NOW()], the next random
    UUIDs and the database to a result, the number of UUIDs drawn and the new
    database. *)
Definition stmt {A} `{Env} (f : Z -> N -> DB -> res A * N * DB) : M A := fun w =>
  let '(flt, w1) := pop_fault w in
  let run := f (w_now w1) (w_rng w1) (w_db w1) in
  let w2 := set_db (set_rng w1 (w_rng w1 + run.1.2)%N) run.2 in
  match flt with
  | FErr => (Err ErrConn, w1)
  | FLost => (Err ErrConn, w2)
  | FNone => (run.1.1, w2)
  end.

(** A statement that only reads. *)
Definition select {A} `{Env} (f : DB -> res A) : M A :=
  stmt (fun _ _ d => (f d, 0%N, d)).

(** ** Transactions *)

(** Signed amount of a posting in a currency, as the balance trigger sums it. *)
Definition posting_diff (p : Posting) : Z :=
  match p_direction p with PDebit => p_amount p | PCredit => - p_amount p end.

Definition in_entry (e : uuid) (c : string) (p : Posting) : bool :=
  N.eqb (p_entry_id p) e && String.eqb (p_currency p) c.

(** [SUM(...)] of [ledger_check_entry_balanced], over NUMERIC: no overflow. *)
Definition entry_diff (d : DB) (e : uuid) (c : string) : Z :=
  Zsum (fun p => if in_entry e c p then posting_diff p else 0) (postings d).

(** The deferred constraint trigger of one inserted posting: every currency of
    its entry must sum to zero. *)
Definition entry_balanced (d : DB) (e : uuid) : bool :=
  forallb (fun p => if N.eqb (p_entry_id p) e then entry_diff d e (p_currency p) =? 0 else true)
    (postings d).

(** The triggers that fire at commit: one per posting inserted since [d0]. *)
Definition deferred_triggers (d0 d1 : DB) : bool :=
  forallb (fun p => entry_balanced d1 (p_entry_id p))
    (drop (length (postings d0)) (postings d1)).

(** [tx.Commit]: [d0] is the database at [BEGIN]. *)
Definition commit (d0 : DB) : M unit := fun w =>
  let '(flt, w1) := pop_fault w in
  match flt with
  | FErr => (Err ErrConn, set_db w1 d0)
  | _ =>
    if deferred_triggers d0 (w_db w1) then
      (match flt with FLost => Err ErrConn | _ => Ok tt end, w1)
    else (Err (ErrPg "23514"), set_db w1 d0)
  end.

(** [pool.BeginTx]; body; [tx.Commit], with the deferred [tx.Rollback]: when the
    body or the commit fails, the database is the one before [BEGIN].
    [begin_msg] and [commit_msg] are the texts the caller wraps errors with. *)
Definition with_tx {A} (begin_msg commit_msg : string) (body : M A) : M A := fun w =>
  let '(flt, w0) := pop_fault w in
  match flt with
  | FNone =>
    let d0 := w_db w0 in
    match body w0 with
    | (Err e, w1) => (Err e, set_db w1 d0)
    | (Ok a, w1) =>
      match commit d0 w1 with
      | (Ok _, w2) => (Ok a, w2)
      | (Err e, w2) => (Err (ErrWrap commit_msg e), w2)
      end
    end
  | _ => (Err (ErrWrap begin_msg ErrConn), w0)
  end.

(** [rand.Int64N(n)]: a value in [[0, n)], [n > 0]. *)
Definition Int64N (n : Z) : M Z := fun w =>
  match w_jitter w with
  | [] => (Ok 0, w)
  | j :: js => (Ok (j mod n), set_jitter w js)
  end.

(** ** Computations that respect a relation on databases

    [keeps R m]: every run of [m], failing or not, relates the database before
    to the database after.  The lemmas below lift a relation from the
    statements to whole handlers. *)
Definition keeps (R : DB -> DB -> Prop) {A} (m : M A) : Prop :=
  forall w, R (w_db w) (w_db (m w).2).

Create HintDb keeps.

Section keeps.
Context `{Env} (R : DB -> DB -> Prop) `{!PreOrder R}.

Lemma keeps_ret {A} (a : A) : keeps R (mret a).
Proof. intros w. simpl. reflexivity. Qed.

Lemma keeps_throw {A} e : keeps R (@throw A e).
Proof. intros w. simpl. reflexivity. Qed.

Lemma keeps_lift_res {A} (r : res A) : keeps R (lift_res r).
Proof. intros w. simpl. reflexivity. Qed.

Lemma keeps_get_now : keeps R get_now.
Proof. intros w. simpl. reflexivity. Qed.

Lemma keeps_draw_uuid : keeps R draw_uuid.
Proof. intros w. simpl. reflexivity. Qed.

Lemma keeps_Int64N n : keeps R (Int64N n).
Proof. intros w. unfold Int64N. case_match; simpl; reflexivity. Qed.

Lemma keeps_bind {A B} (m : M A) (k : A -> M B) :
  keeps R m -> (forall a, keeps R (k a)) -> keeps R (m ≫= k).
Proof.
  intros Hm Hk w. unfold mbind, M_bind. specialize (Hm w).
  destruct (m w) as [[a|e] w'] eqn:E; simpl in *; [|done].
  etransitivity; [done|]. apply Hk.
Qed.

(** The result of a pure computation is known to the continuation. *)
Lemma keeps_bind_res {A B} f (r : res A) (k : A -> M B) :
  (forall a, r = Ok a -> keeps R (k a)) -> keeps R (map_err f (lift_res r) ≫= k).
Proof.
  intros Hk w. unfold mbind, M_bind, map_err, lift_res. destruct r as [a|e]; [by apply Hk|reflexivity].
Qed.

Lemma keeps_try {A} (m : M A) : keeps R m -> keeps R (try m).
Proof. intros Hm w. unfold try. specialize (Hm w). by destruct (m w). Qed.

Lemma keeps_map_err {A} f (m : M A) : keeps R m -> keeps R (map_err f m).
Proof. intros Hm w. unfold map_err. specialize (Hm w). by destruct (m w) as [[] ?]. Qed.

Lemma pop_fault_db w : w_db (pop_fault w).2 = w_db w.
Proof. unfold pop_fault. by case_match. Qed.

Lemma pop_fault_now w : w_now (pop_fault w).2 = w_now w.
Proof. unfold pop_fault. by case_match. Qed.

(** A commit keeps the database of the transaction or restores the one at
    [BEGIN]. *)
Lemma commit_cases d0 w :
  (exists w', commit d0 w = (Ok tt, w') /\ w_db w' = w_db w) \/
  (exists e w', commit d0 w = (Err e, w') /\ (w_db w' = d0 \/ w_db w' = w_db w)).
Proof.
  unfold commit. pose proof (pop_fault_db w) as E. destruct (pop_fault w) as [flt w1]; simpl in *.
  destruct flt; try destruct (deferred_triggers d0 (w_db w1)); naive_solver.
Qed.

Lemma pop_fault_eta w : pop_fault w = ((pop_fault w).1, (pop_fault w).2).
Proof. by destruct (pop_fault w). Qed.

Lemma keeps_stmt {A} (f : Z -> N -> DB -> res A * N * DB) :
  (forall now rng d, R d (f now rng d).2) -> keeps R (stmt f).
Proof.
  intros Hf w. unfold stmt. pose proof (pop_fault_db w) as E.
  destruct (pop_fault w) as [flt w1]; simpl in *. rewrite <- E.
  destruct flt; simpl; [apply Hf|reflexivity|apply Hf].
Qed.

Lemma keeps_select {A} (f : DB -> res A) : keeps R (select f).
Proof. apply keeps_stmt. intros. simpl. reflexivity. Qed.

(** A transaction keeps what its body keeps. *)
Lemma keeps_with_tx {A} b c (m : M A) : keeps R m -> keeps R (with_tx b c m).
Proof.
  intros Hm w. unfold with_tx. pose proof (pop_fault_db w) as E.
  destruct (pop_fault w) as [flt w0]; simpl in *. rewrite <- E.
  destruct flt; simpl; [|reflexivity|reflexivity].
  specialize (Hm w0). destruct (m w0) as [[a|e] w1]; simpl in *; [|reflexivity].
  unfold commit. pose proof (pop_fault_db w1) as E1.
  destruct (pop_fault w1) as [flt1 w2]; simpl in *. rewrite <- E1 in Hm.
  destruct flt1; simpl; try reflexivity;
    destruct (deferred_triggers _ _); simpl; by try reflexivity.
Qed.
End keeps.

Lemma keeps_eq {A} (R : DB -> DB -> Prop) `{!PreOrder R} (m : M A) : keeps eq m -> keeps R m.
Proof. intros Hm w. rewrite <- (Hm w). reflexivity. Qed.

(** [R] does not constrain the table written by [set]. *)
Class Frames {T} (R : DB -> DB -> Prop) (set : DB -> list T -> DB) : Prop :=
  frame_table : forall d t, R d (set d t).

#[export] Hint Resolve keeps_ret keeps_throw keeps_lift_res keeps_get_now keeps_draw_uuid
  keeps_Int64N keeps_select : keeps.
#[export] Hint Extern 1 (PreOrder _) => apply _ : keeps.
#[export] Hint Extern 1 (Frames _ _) => apply _ : keeps.

(** Decompose a handler along its binds, branches and error mappings, closing the
    leaves with the [keeps] hints. *)
Ltac keeps_step :=
  match goal with
  | |- keeps _ (_ ≫= _) => apply keeps_bind; [apply _| |intros ?]
  | |- keeps _ (mbind _ _) => apply keeps_bind; [apply _| |intros ?]
  | |- keeps _ (try _) => apply keeps_try
  | |- keeps _ (map_err _ _) => apply keeps_map_err
  | |- keeps _ (match ?x with _ => _ end) => destruct x
  | |- keeps _ (let '(_, _) := ?x in _) => destruct x
  | |- keeps _ (with_tx _ _ _) => apply keeps_with_tx; [apply _|]
  end.
Ltac keeps_auto := repeat first [solve [eauto with keeps] | keeps_step].

(** ** Computations that respect a relation on worlds

    The same for relations that do not look at the database, the random sources
    or the fault script. *)
Class WorldRel (R : World -> World -> Prop) : Prop := {
  wr_preorder :: PreOrder R;
  wr_db w d : R w (set_db w d);
  wr_rng w n : R w (set_rng w n);
  wr_jitter w js : R w (set_jitter w js);
  wr_pop w : R w (pop_fault w).2
}.

Definition wkeeps (R : World -> World -> Prop) {A} (m : M A) : Prop := forall w, R w (m w).2.

Create HintDb wkeeps.

Section wkeeps.
Context `{Env} (R : World -> World -> Prop) `{!WorldRel R}.

Lemma wkeeps_ret {A} (a : A) : wkeeps R (mret a).
Proof. intros w. simpl. reflexivity. Qed.

Lemma wkeeps_throw {A} e : wkeeps R (@throw A e).
Proof. intros w. simpl. reflexivity. Qed.

Lemma wkeeps_lift_res {A} (r : res A) : wkeeps R (lift_res r).
Proof. intros w. simpl. reflexivity. Qed.

Lemma wkeeps_get_now : wkeeps R get_now.
Proof. intros w. simpl. reflexivity. Qed.

Lemma wkeeps_Int64N n : wkeeps R (Int64N n).
Proof. intros w. unfold Int64N. case_match; simpl; [reflexivity|apply wr_jitter]. Qed.

Lemma wkeeps_bind {A B} (m : M A) (k : A -> M B) :
  wkeeps R m -> (forall a, wkeeps R (k a)) -> wkeeps R (m ≫= k).
Proof.
  intros Hm Hk w. unfold mbind, M_bind. specialize (Hm w). destruct (m w) as [[a|e] w']; simpl in *; [|done].
  etransitivity; [done|]. apply Hk.
Qed.

Lemma wkeeps_bind_res {A B} f (r : res A) (k : A -> M B) :
  (forall a, r = Ok a -> wkeeps R (k a)) -> wkeeps R (map_err f (lift_res r) ≫= k).
Proof.
  intros Hk w. unfold mbind, M_bind, map_err, lift_res. destruct r as [a|e]; [by apply Hk|reflexivity].
Qed.

Lemma wkeeps_try {A} (m : M A) : wkeeps R m -> wkeeps R (try m).
Proof. intros Hm w. unfold try. specialize (Hm w). by destruct (m w). Qed.

Lemma wkeeps_map_err {A} f (m : M A) : wkeeps R m -> wkeeps R (map_err f m).
Proof. intros Hm w. unfold map_err. specialize (Hm w). by destruct (m w) as [[] ?]. Qed.

Lemma wkeeps_stmt {A} (f : Z -> N -> DB -> res A * N * DB) : wkeeps R (stmt f).
Proof.
  intros w. unfold stmt. pose proof (wr_pop w) as Hp. destruct (pop_fault w) as [flt w1]. simpl in Hp.
  destruct flt; simpl; [|done|]; (etransitivity; [exact Hp|]; etransitivity; [apply wr_rng|apply wr_db]).
Qed.

Lemma wkeeps_commit d0 : wkeeps R (commit d0).
Proof.
  intros w. unfold commit. pose proof (wr_pop w) as Hp. destruct (pop_fault w) as [flt w1]. simpl in Hp.
  destruct flt; simpl; try destruct (deferred_triggers _ _); simpl; try done;
    (etransitivity; [exact Hp|apply wr_db]).
Qed.

Lemma wkeeps_with_tx {A} b c (m : M A) : wkeeps R m -> wkeeps R (with_tx b c m).
Proof.
  intros Hm w. unfold with_tx. pose proof (wr_pop w) as Hp. destruct (pop_fault w) as [flt w0]. simpl in Hp.
  destruct flt; simpl; [|done..]. etransitivity; [exact Hp|]. specialize (Hm w0).
  destruct (m w0) as [[a|e] w1]; simpl in *; (etransitivity; [exact Hm|]); [|apply wr_db].
  pose proof (wkeeps_commit (w_db w0) w1) as Hc. by destruct (commit _ w1) as [[] w2].
Qed.
End wkeeps.

#[export] Hint Resolve wkeeps_ret wkeeps_throw wkeeps_lift_res wkeeps_get_now wkeeps_Int64N : wkeeps.
#[export] Hint Extern 1 (WorldRel _) => apply _ : wkeeps.
#[export] Hint Extern 3 (wkeeps _ (_ _)) => apply wkeeps_stmt; apply _ : wkeeps.

Ltac wkeeps_step :=
  match goal with
  | |- wkeeps _ (_ ≫= _) => apply wkeeps_bind; [apply _| |intros ?]
  | |- wkeeps _ (mbind _ _) => apply wkeeps_bind; [apply _| |intros ?]
  | |- wkeeps _ (try _) => apply wkeeps_try
  | |- wkeeps _ (map_err _ _) => apply wkeeps_map_err
  | |- wkeeps _ (match ?x with _ => _ end) => destruct x
  | |- wkeeps _ (with_tx _ _ _) => apply wkeeps_with_tx; [apply _|]
  end.
Ltac wkeeps_auto := repeat first [solve [eauto with wkeeps] | wkeeps_step].

(** Taking no time and causing no faults. *)
Definition quiet_rel (w w' : World) : Prop :=
  w_now w' = w_now w /\ (w_faults w = [] -> w_faults w' = []).
Abbreviation quiet := (wkeeps quiet_rel).

#[global] Instance quiet_world_rel : WorldRel quiet_rel.
Proof.
  split; try done.
  - split; [done|]. intros w1 w2 w3 [H1 H2] [H3 H4]. split; [congruence|auto].
  - intros w. unfold pop_fault, quiet_rel. case_match; simpl; [done|]. split; [done|congruence].
Qed.

(** Not talking to the bank. *)
Definition offline_rel (w w' : World) : Prop := w_bank w' = w_bank w /\ w_net w' = w_net w.
Abbreviation offline := (wkeeps offline_rel).

#[global] Instance offline_world_rel : WorldRel offline_rel.
Proof.
  split; try done.
  - split; [done|]. intros w1 w2 w3 [H1 H2] [H3 H4]. split; congruence.
  - intros w. unfold pop_fault. by case_match.
Qed.

(** Not touching the cache. *)
Definition uncached_rel (w w' : World) : Prop := w_redis w' = w_redis w.
Abbreviation uncached := (wkeeps uncached_rel).

#[global] Instance uncached_world_rel : WorldRel uncached_rel.
Proof.
  split; try done.
  - split; [done|]. intros w1 w2 w3 H1 H2. unfold uncached_rel in *. congruence.
  - intros w. unfold pop_fault. by case_match.
Qed.

(** ** Inversion and evaluation *)
Section run.
Context `{Env}.
Implicit Types w : World.

Lemma bind_Ok {A B} (m : M A) (k : A -> M B) w b w' :
  (m ≫= k) w = (Ok b, w') -> exists a w1, m w = (Ok a, w1) /\ k a w1 = (Ok b, w').
Proof. unfold mbind, M_bind. destruct (m w) as [[a|e] w1]; [eauto|done]. Qed.

Lemma map_err_Ok {A} f (m : M A) w a w' : map_err f m w = (Ok a, w') -> m w = (Ok a, w').
Proof. unfold map_err. destruct (m w) as [[]?]; naive_solver. Qed.

Lemma try_Ok {A} (m : M A) w r w' : try m w = (Ok r, w') -> m w = (r, w').
Proof. unfold try. destruct (m w); naive_solver. Qed.

Lemma lift_res_Ok {A} (r : res A) w a w' : lift_res r w = (Ok a, w') -> r = Ok a /\ w' = w.
Proof. unfold lift_res. naive_solver. Qed.

Lemma ret_Ok {A} (x : A) w a w' : (mret x : M A) w = (Ok a, w') -> a = x /\ w' = w.
Proof. unfold mret, M_ret. naive_solver. Qed.

(** Everything a statement can change. *)
Definition stmt_effect {A} (f : Z -> N -> DB -> res A * N * DB) (w w' : World) : Prop :=
  w_db w' = (f (w_now w) (w_rng w) (w_db w)).2 /\
  w_rng w' = (w_rng w + (f (w_now w) (w_rng w) (w_db w)).1.2)%N /\
  w_now w' = w_now w /\ w_bank w' = w_bank w /\ w_net w' = w_net w /\ w_jitter w' = w_jitter w.

Lemma stmt_Ok {A} (f : Z -> N -> DB -> res A * N * DB) w a w' :
  stmt f w = (Ok a, w') ->
  (f (w_now w) (w_rng w) (w_db w)).1.1 = Ok a /\ stmt_effect f w w'.
Proof.
  unfold stmt, pop_fault, stmt_effect. destruct (w_faults w) as [|[] fs]; intros E; simplify_eq/=; naive_solver.
Qed.

Lemma select_Ok {A} (f : DB -> res A) w a w' :
  select f w = (Ok a, w') ->
  f (w_db w) = Ok a /\ w_db w' = w_db w /\ w_rng w' = w_rng w /\ w_now w' = w_now w /\
  w_bank w' = w_bank w /\ w_net w' = w_net w /\ w_jitter w' = w_jitter w.
Proof.
  intros (E & Hd & Hr & ?)%stmt_Ok. simpl in *. rewrite N.add_0_r in Hr. auto.
Qed.

Lemma set_rng_0 w : set_db (set_rng w (w_rng w + 0)%N) (w_db w) = w.
Proof. rewrite N.add_0_r. by destruct w. Qed.

Lemma stmt_run {A} (f : Z -> N -> DB -> res A * N * DB) w :
  w_faults w = [] ->
  stmt f w = ((f (w_now w) (w_rng w) (w_db w)).1.1,
    set_db (set_rng w (w_rng w + (f (w_now w) (w_rng w) (w_db w)).1.2)%N)
      (f (w_now w) (w_rng w) (w_db w)).2).
Proof. unfold stmt, pop_fault. intros ->. done. Qed.

Lemma select_run {A} (f : DB -> res A) w : w_faults w = [] -> select f w = (f (w_db w), w).
Proof. intros Hf. unfold select. rewrite stmt_run by done. simpl. by rewrite set_rng_0. Qed.

(** A body that succeeds and whose database passes the triggers commits. *)
Lemma with_tx_run {A} b c (m : M A) w a w' :
  w_faults w = [] -> m w = (Ok a, w') -> w_faults w' = [] ->
  deferred_triggers (w_db w) (w_db w') = true -> with_tx b c m w = (Ok a, w').
Proof.
  intros Hf Hm Hf' Ht. unfold with_tx, commit, pop_fault. by rewrite Hf, Hm, Hf', Ht.
Qed.

Lemma with_tx_Ok {A} b c (m : M A) w a w' :
  with_tx b c m w = (Ok a, w') ->
  exists w0 w0', w_db w0 = w_db w /\ m w0 = (Ok a, w0') /\ w_db w' = w_db w0'.
Proof.
  unfold with_tx. pose proof (pop_fault_db w) as E. destruct (pop_fault w) as [[] w0]; [|done..].
  destruct (m w0) as [[x|e] w1] eqn:Em; [|done]. unfold commit. pose proof (pop_fault_db w1) as E1.
  destruct (pop_fault w1) as [flt w2]. simpl in *. intros Hrun. exists w0, w1.
  destruct flt; simpl in *; try done; destruct (deferred_triggers _ _); naive_solver.
Qed.

Lemma deferred_triggers_refl d : deferred_triggers d d = true.
Proof. unfold deferred_triggers. by rewrite drop_all. Qed.

Lemma bind_run {A B} (m : M A) (k : A -> M B) w a w' :
  m w = (Ok a, w') -> (m ≫= k) w = k a w'.
Proof. unfold mbind, M_bind. by intros ->. Qed.
End run.

(** Break a successful run into the runs of its parts. *)
Ltac minv :=
  repeat match goal with
  | H : (_ ≫= _) _ = (Ok _, _) |- _ => apply bind_Ok in H as (? & ? & ? & ?)
  | H : map_err _ _ _ = (Ok _, _) |- _ => apply map_err_Ok in H
  | H : try _ _ = (Ok _, _) |- _ => apply try_Ok in H
  | H : lift_res _ _ = (Ok _, _) |- _ => apply lift_res_Ok in H as [? ->]
  | H : mret _ _ = (Ok _, _) |- _ => apply ret_Ok in H as [? ->]
  | H : throw _ _ = (Ok _, _) |- _ => discriminate H
  end; simplify_eq/=.

(** ** A concrete environment

    UUIDs numbered from one and printed in decimal; the examples of the
    development run in it. *)
Definition example_env : Env := {|
  gen_uuid n := (n + 1)%N;
  uuid_string u := FormatUint (Z.of_N u)
|}.

Lemma example_env_ok : EnvOk example_env.
Proof.
  split.
  - intros x y E. simpl in E. lia.
  - intros x y E. simpl in E. apply FormatUint_inj in E; lia.
  - intros u. simpl. apply FormatUint_nonempty.
  - intros u. simpl. apply no_byte_digits; [apply all_digits_FormatUint; lia|done].
Qed.

(** A world with database [d] at instant [t] whose bank has served nobody. *)
Definition world_at (t : Z) (d : DB) : World := mkWorld d t 0%N [] [] newServer [] (mkRedis ∅ []).
