(* ===== verification/Http.v ===== *)
(** * HTTP requests and responses ([net/http])

    What the middlewares and handlers read of a request, the response they
    write, and the handling of header names.  A handler is a function from the
    request to an action that returns the response it wrote. *)

From S2P Require Import Prelude GoStr Models World.
From Stdlib Require Import Ascii String.

(** ** Header names *)

(** Bytes of a header name token. *)
Definition token_byte (c : ascii) : bool :=
  let b := byte_of c in
  ((48 <=? b) && (b <=? 57)) || ((65 <=? b) && (b <=? 90)) || ((97 <=? b) && (b <=? 122)) ||
  has_byte c "!#$%&'*+-.^_`|~".

Definition to_upper (c : ascii) : ascii :=
  let b := byte_of c in if (97 <=? b) && (b <=? 122) then ascii_of_N (Z.to_N (b - 32)) else c.
Definition to_lower (c : ascii) : ascii :=
  let b := byte_of c in if (65 <=? b) && (b <=? 90) then ascii_of_N (Z.to_N (b + 32)) else c.

Fixpoint canon_bytes (upper : bool) (s : string) : string :=
  match s with
  | EmptyString => ""
  | String c s => String (if upper then to_upper c else to_lower c) (canon_bytes (Ascii.eqb c "-") s)
  end.

Fixpoint all_tokens (s : string) : bool :=
  match s with EmptyString => true | String c s => token_byte c && all_tokens s end.

(** [textproto.CanonicalMIMEHeaderKey], which [Set] and [Get] apply. *)
Definition CanonicalHeaderKey (k : string) : string := if all_tokens k then canon_bytes true k else k.

(** [h.Set(k, v)] on headers whose names have one value each. *)
Definition Header_Set (h : gmap string string) (k v : string) : gmap string string :=
  <[CanonicalHeaderKey k := v]> h.

(** ** Requests and responses *)

(** [http.Header] of a request: the values of every name, in order. *)
Definition Header : Type := gmap string (list string).

(** [h.Get(k)]: the first value, or the empty string. *)
Definition Header_Get (h : Header) (k : string) : string :=
  match h !! CanonicalHeaderKey k with
  | Some (v :: _) => v
  | _ => ""
  end.

(** [URL_RawPath] is the encoded path where it is not the default encoding of
    [URL_Path]; [Body] is what reading it to the end returns; [ctx_Merchant] and [ctx_KeyID]
    are the values the authentication middleware puts on the context. *)
Record Request := mkRequest {
  Method : string; URL_Path : string; URL_RawPath : string; req_Headers : Header; Body : res string;
  ctx_Merchant : option uuid; ctx_KeyID : option string
}.

(** [r.Body] replaced by a reader of the bytes just read. *)
Definition with_body (r : Request) (b : string) : Request :=
  mkRequest (Method r) (URL_Path r) (URL_RawPath r) (req_Headers r) (Ok b) (ctx_Merchant r) (ctx_KeyID r).

Lemma with_body_same r b : Body r = Ok b -> with_body r b = r.
Proof. destruct r; simpl; by intros ->. Qed.

(** The status, the headers the code sets, and the bytes written ([None]: nothing
    was written). *)
Record Response := mkResponse {
  resp_Status : Z; resp_Headers : gmap string string; resp_Body : option string
}.

Definition http_Handler : Type := Request -> M Response.

(** [http.Error], which appends a newline. *)
Definition http_Error (msg : string) (status : Z) : Response :=
  mkResponse status
    (Header_Set (Header_Set ∅ "Content-Type" "text/plain; charset=utf-8") "X-Content-Type-Options" "nosniff")
    (Some (msg +:+ newline)).
