(* ===== verification/GoJson.v ===== *)
(** * JSON text ([encoding/json])

    [json.Marshal] on the values the code encodes: strings are escaped the way
    Go's encoder escapes them (HTML characters, control characters, the two line
    separators, invalid UTF-8), struct and map fields are written in order. *)

From S2P Require Import Prelude GoStr Models.
From Stdlib Require Import Ascii String.

(** Length in bytes of the UTF-8 sequence at the head of a string, 0 when it is
    invalid ([utf8.DecodeRuneInString]). *)
Definition cont (lo hi : Z) (c : option ascii) : bool :=
  match c with Some a => (lo <=? byte_of a) && (byte_of a <=? hi) | None => false end.

Definition rune_len (s : string) : nat :=
  match s with
  | EmptyString => 0
  | String c s1 =>
    let b := byte_of c in
    let c1 := String.get 0 s1 in let c2 := String.get 1 s1 in let c3 := String.get 2 s1 in
    let t := cont 128 191 in
    if b <? 128 then 1%nat
    else if b <? 194 then 0%nat
    else if b <? 224 then (if t c1 then 2 else 0)%nat
    else if b =? 224 then (if cont 160 191 c1 && t c2 then 3 else 0)%nat
    else if b =? 237 then (if cont 128 159 c1 && t c2 then 3 else 0)%nat
    else if b <? 240 then (if t c1 && t c2 then 3 else 0)%nat
    else if b =? 240 then (if cont 144 191 c1 && t c2 && t c3 then 4 else 0)%nat
    else if b <? 244 then (if t c1 && t c2 && t c3 then 4 else 0)%nat
    else if b =? 244 then (if cont 128 143 c1 && t c2 && t c3 then 4 else 0)%nat
    else 0%nat
  end.

Definition hex_digit (n : Z) : ascii := ascii_of_N (Z.to_N (if n <? 10 then 48 + n else 87 + n)).

Definition backslash : ascii := ascii_of_N 92.
Definition quote_char : ascii := ascii_of_N 34.

(** [\u00XX] for a byte. *)
Definition unicode_escape (b : Z) : string :=
  String backslash ("u00" +:+ String (hex_digit (b / 16)) (String (hex_digit (b mod 16)) "")).

Definition escape_byte (c : ascii) : string :=
  let b := byte_of c in
  let short k := String backslash (String k "") in
  if (b =? 34) || (b =? 92) then short c
  else if b =? 8 then short "b"%char
  else if b =? 12 then short "f"%char
  else if b =? 10 then short "n"%char
  else if b =? 13 then short "r"%char
  else if b =? 9 then short "t"%char
  else if (b <? 32) || (b =? 60) || (b =? 62) || (b =? 38) then unicode_escape b
  else String c "".

(** Rune by rune; [fuel] is the number of bytes left. *)
Fixpoint escape (fuel : nat) (s : string) : string :=
  match fuel, s with
  | _, EmptyString | O, _ => ""
  | S fuel', String c s1 =>
    match rune_len s with
    | 0%nat => String backslash "ufffd" +:+ escape fuel' s1
    | 1%nat => escape_byte c +:+ escape fuel' s1
    | n =>
      let r := String.substring 0 n s in
      let rest := String.substring n (String.length s) s in
      let sep k := String (ascii_of_N 226) (String (ascii_of_N 128) (String (ascii_of_N k) "")) in
      (if String.eqb r (sep 168%N) then String backslash "u2028"
       else if String.eqb r (sep 169%N) then String backslash "u2029"
       else r) +:+ escape fuel' rest
    end
  end.

Definition json_string (s : string) : string :=
  String quote_char (escape (String.length s) s +:+ String quote_char "").

Fixpoint join_comma (l : list string) : string :=
  match l with
  | [] => ""
  | [x] => x
  | x :: l' => x +:+ "," +:+ join_comma l'
  end.

Fixpoint Marshal (j : json) : string :=
  match j with
  | JNull => "null"
  | JBool b => if b then "true" else "false"
  | JNum z => FormatInt z
  | JStr s => json_string s
  | JArr l => "[" +:+ join_comma (map Marshal l) +:+ "]"
  | JObj fs => "{" +:+ join_comma (map (fun kv => json_string (fst kv) +:+ ":" +:+ Marshal (snd kv)) fs) +:+ "}"
  end.

(** A field with [omitempty]. *)
Definition omitempty_str (k v : string) : list (string * json) :=
  if String.eqb v "" then [] else [(k, JStr v)].

(** ** strconv.Quote ([%q])

    Runes above ASCII are taken as printable. *)

Definition quote_byte (c : ascii) : string :=
  let b := byte_of c in
  let short k := String backslash (String k "") in
  if (b =? 34) || (b =? 92) then short c
  else if b =? 7 then short "a"%char
  else if b =? 8 then short "b"%char
  else if b =? 12 then short "f"%char
  else if b =? 10 then short "n"%char
  else if b =? 13 then short "r"%char
  else if b =? 9 then short "t"%char
  else if b =? 11 then short "v"%char
  else if (b <? 32) || (b =? 127) then
    String backslash (String "x"%char (String (hex_digit (b / 16)) (String (hex_digit (b mod 16)) "")))
  else String c "".

Fixpoint quote_runes (fuel : nat) (s : string) : string :=
  match fuel, s with
  | _, EmptyString | O, _ => ""
  | S fuel', String c s1 =>
    match rune_len s with
    | 0%nat => String backslash (String "x"%char
        (String (hex_digit (byte_of c / 16)) (String (hex_digit (byte_of c mod 16)) ""))) +:+
        quote_runes fuel' s1
    | 1%nat => quote_byte c +:+ quote_runes fuel' s1
    | n => String.substring 0 n s +:+ quote_runes fuel' (String.substring n (String.length s) s)
    end
  end.

Definition Quote_q (s : string) : string :=
  String quote_char (quote_runes (String.length s) s +:+ String quote_char "").
