(* ===== verification/JsonDecode.v ===== *)
(** * Reading JSON ([encoding/json])

    The decoder side of encoding/json as the source uses it: the scanner's
    grammar, string unquoting, the nesting limit, [json.Unmarshal] and
    [Decoder.Decode], the lookup of struct fields, and []byte values in base64.
    [decode_Marshal] is the round trip with GoJson.v's encoder. *)

From S2P Require Import Prelude GoStr Models GoJson.
From Stdlib Require Import Ascii String.

Set Warnings "-register-all".

Implicit Types (s t : string) (c : ascii).

(** A decoded value; a number keeps its text, which the target type interprets. *)
Inductive jval :=
  | VNull
  | VBool (b : bool)
  | VNum (raw : string)
  | VStr (s : string)
  | VArr (l : list jval)
  | VObj (fields : list (string * jval)).

(** ** Strings *)

(** [s[:n]] and [s[n:]]. *)
Fixpoint str_take (n : nat) s : string :=
  match n, s with S n, String c s => String c (str_take n s) | _, _ => "" end.
Fixpoint str_drop (n : nat) s : string :=
  match n, s with S n, String c s => str_drop n s | _, _ => s end.

Definition chr (n : Z) : ascii := ascii_of_N (Z.to_N n).

(** [utf8.AppendRune]. *)
Definition encode_rune (r : Z) : string :=
  if r <? 128 then String (chr r) ""
  else if r <? 2048 then String (chr (192 + r / 64)) (String (chr (128 + r mod 64)) "")
  else if r <? 65536 then
    String (chr (224 + r / 4096)) (String (chr (128 + r / 64 mod 64)) (String (chr (128 + r mod 64)) ""))
  else
    String (chr (240 + r / 262144)) (String (chr (128 + r / 4096 mod 64))
      (String (chr (128 + r / 64 mod 64)) (String (chr (128 + r mod 64)) ""))).

Definition replacement : Z := 65533.

Definition hex_value c : option Z :=
  let b := byte_of c in
  if (48 <=? b) && (b <=? 57) then Some (b - 48)
  else if (97 <=? b) && (b <=? 102) then Some (b - 87)
  else if (65 <=? b) && (b <=? 70) then Some (b - 55)
  else None.

(** The four hex digits after [\u]. *)
Definition hex4 s : option (Z * string) :=
  match s with
  | String a (String b (String c (String d s))) =>
    match hex_value a, hex_value b, hex_value c, hex_value d with
    | Some a, Some b, Some c, Some d => Some (4096 * a + 256 * b + 16 * c + d, s)
    | _, _, _, _ => None
    end
  | _ => None
  end.

(** [getu4]: a [\uXXXX] escape at the head. *)
Definition getu4 s : option (Z * string) :=
  match s with
  | String c (String u s) => if Ascii.eqb c backslash && Ascii.eqb u "u" then hex4 s else None
  | _ => None
  end.

(** The rune of a [\u] escape with value [r] and the rest: a surrogate pair is one
    rune, a lone surrogate is the replacement character. *)
Definition unicode_rune (r : Z) s : Z * string :=
  if (55296 <=? r) && (r <? 57344) then
    match getu4 s with
    | Some (r2, s') =>
      if (r <? 56320) && (56320 <=? r2) && (r2 <? 57344)
      then ((r - 55296) * 1024 + (r2 - 56320) + 65536, s') else (replacement, s)
    | None => (replacement, s)
    end
  else (r, s).

Definition short_escape c : option ascii :=
  let b := byte_of c in
  if (b =? 34) || (b =? 92) || (b =? 47) then Some c
  else if b =? 98 then Some (chr 8)
  else if b =? 102 then Some (chr 12)
  else if b =? 110 then Some (chr 10)
  else if b =? 114 then Some (chr 13)
  else if b =? 116 then Some (chr 9)
  else None.

(** The text after the opening quote: the unquoted string and what follows the
    closing quote.  [fuel] is the number of bytes left. *)
Fixpoint parse_str (fuel : nat) s : option (string * string) :=
  match fuel, s with
  | O, _ | _, EmptyString => None
  | S fuel, String c s1 =>
    let cont p rest := match parse_str fuel rest with Some (t, r) => Some (p +:+ t, r) | None => None end in
    if Ascii.eqb c quote_char then Some ("", s1)
    else if Ascii.eqb c backslash then
      match s1 with
      | EmptyString => None
      | String e s2 =>
        match short_escape e with
        | Some x => cont (String x "") s2
        | None =>
          if Ascii.eqb e "u" then
            match hex4 s2 with
            | Some (r, s3) => let '(r, s4) := unicode_rune r s3 in cont (encode_rune r) s4
            | None => None
            end
          else None
        end
      end
    else if byte_of c <? 32 then None
    else match rune_len s with
    | 0%nat => cont (encode_rune replacement) s1
    | n => cont (str_take n s) (str_drop n s)
    end
  end.

(** ** Numbers *)

Definition is_digit c : bool := bool_decide (is_Some (digit_val c)).

Fixpoint span_digits s : string * string :=
  match s with
  | EmptyString => ("", "")
  | String c s' => if is_digit c then let '(d, r) := span_digits s' in (String c d, r) else ("", s)
  end.

(** One digit or more after [pre]. *)
Definition digits1 (pre : string) s : option (string * string) :=
  let '(d, r) := span_digits s in if bool_decide (d = "") then None else Some (pre +:+ d, r).

Definition scan_int s : option (string * string) :=
  match s with
  | String c s' => if Ascii.eqb c "0" then Some ("0", s') else digits1 "" s
  | EmptyString => None
  end.

Definition scan_frac s : option (string * string) :=
  match s with
  | String c s' => if Ascii.eqb c "." then digits1 "." s' else Some ("", s)
  | EmptyString => Some ("", "")
  end.

Definition scan_exp s : option (string * string) :=
  match s with
  | String e s1 =>
    if Ascii.eqb e "e" || Ascii.eqb e "E" then
      match s1 with
      | String g s2 =>
        if Ascii.eqb g "+" || Ascii.eqb g "-" then digits1 (String e (String g "")) s2
        else digits1 (String e "") s1
      | EmptyString => None
      end
    else Some ("", s)
  | EmptyString => Some ("", "")
  end.

Definition scan_number s : option (string * string) :=
  let '(sign, s1) := match s with String "-" s' => ("-", s') | _ => ("", s) end in
  match scan_int s1 with
  | None => None
  | Some (i, s2) =>
    match scan_frac s2 with
    | None => None
    | Some (f, s3) =>
      match scan_exp s3 with
      | None => None
      | Some (e, s4) => Some (sign +:+ i +:+ f +:+ e, s4)
      end
    end
  end.

(** ** Values *)

Definition is_space c : bool :=
  Ascii.eqb c " " || Ascii.eqb c "009" || Ascii.eqb c "010" || Ascii.eqb c "013".

Fixpoint skip_ws s : string :=
  match s with
  | String c s' => if is_space c then skip_ws s' else s
  | EmptyString => ""
  end.

(** [s] without the literal prefix [p]. *)
Fixpoint drop_prefix (p : string) s : option string :=
  match p, s with
  | EmptyString, _ => Some s
  | String c p, String c' s => if Ascii.eqb c c' then drop_prefix p s else None
  | _, _ => None
  end.

Definition literal (p : string) (v : jval) s : option (jval * string) :=
  match drop_prefix p s with Some r => Some (v, r) | None => None end.

Definition maxNestingDepth : Z := 10000.

(** A value at the head of [s], inside [depth] open arrays and objects, and what
    follows it; [members] and [elements] are the inside of an object and of an
    array, from a key or an element on. *)
Fixpoint value (fuel : nat) (depth : Z) s : option (jval * string) :=
  match fuel with
  | O => None
  | S fuel =>
    match skip_ws s with
    | EmptyString => None
    | String c s1 as s0 =>
      if Ascii.eqb c quote_char then
        match parse_str (String.length s1) s1 with Some (t, r) => Some (VStr t, r) | None => None end
      else if Ascii.eqb c "{" then
        if maxNestingDepth <=? depth then None
        else match drop_prefix "}" (skip_ws s1) with
        | Some r => Some (VObj [], r)
        | None => match members fuel (depth + 1) s1 with Some (fs, r) => Some (VObj fs, r) | None => None end
        end
      else if Ascii.eqb c "[" then
        if maxNestingDepth <=? depth then None
        else match drop_prefix "]" (skip_ws s1) with
        | Some r => Some (VArr [], r)
        | None => match elements fuel (depth + 1) s1 with Some (vs, r) => Some (VArr vs, r) | None => None end
        end
      else if Ascii.eqb c "t" then literal "true" (VBool true) s0
      else if Ascii.eqb c "f" then literal "false" (VBool false) s0
      else if Ascii.eqb c "n" then literal "null" VNull s0
      else match scan_number s0 with Some (n, r) => Some (VNum n, r) | None => None end
    end
  end
with members (fuel : nat) (depth : Z) s : option (list (string * jval) * string) :=
  match fuel with
  | O => None
  | S fuel =>
    match skip_ws s with
    | EmptyString => None
    | String c s1 =>
      if negb (Ascii.eqb c quote_char) then None
      else match parse_str (String.length s1) s1 with
      | None => None
      | Some (k, s2) =>
        match drop_prefix ":" (skip_ws s2) with
        | None => None
        | Some s3 =>
          match value fuel depth s3 with
          | None => None
          | Some (v, s4) =>
            match skip_ws s4 with
            | EmptyString => None
            | String d s5 =>
              if Ascii.eqb d "}" then Some ([(k, v)], s5)
              else if Ascii.eqb d "," then
                match members fuel depth s5 with Some (fs, r) => Some ((k, v) :: fs, r) | None => None end
              else None
            end
          end
        end
      end
    end
  end
with elements (fuel : nat) (depth : Z) s : option (list jval * string) :=
  match fuel with
  | O => None
  | S fuel =>
    match value fuel depth s with
    | None => None
    | Some (v, s4) =>
      match skip_ws s4 with
      | EmptyString => None
      | String d s5 =>
        if Ascii.eqb d "]" then Some ([v], s5)
        else if Ascii.eqb d "," then
          match elements fuel depth s5 with Some (vs, r) => Some (v :: vs, r) | None => None end
        else None
      end
    end
  end.

(** Every call but the one from [elements] to [value] consumes a byte first. *)
Definition value_fuel s : nat := 2 * String.length s + 2.

(** The value [Decoder.Decode] reads from a stream: the first one; what follows it
    is left unread. *)
Definition first_value s : option jval := fst <$> value (value_fuel s) 0 s.

(** The value [json.Unmarshal] reads: nothing but white space may follow it. *)
Definition whole_value s : option jval :=
  match value (value_fuel s) 0 s with
  | Some (v, r) => if bool_decide (skip_ws r = "") then Some v else None
  | None => None
  end.

(** ** Struct fields *)

(** [foldName] on a key compared with an ASCII field name: ASCII letters fold to
    upper case, as do the long s and the Kelvin sign. *)
Definition upper c : ascii :=
  let b := byte_of c in if (97 <=? b) && (b <=? 122) then chr (b - 32) else c.

Fixpoint foldName (s : string) : string :=
  match s with
  | EmptyString => ""
  | String a s1 =>
    let b := byte_of a in
    match s1 with
    | EmptyString => String (upper a) ""
    | String b2 s2 =>
      if (b =? 197) && (byte_of b2 =? 191) then String "S" (foldName s2)
      else match s2 with
      | EmptyString => String (upper a) (foldName s1)
      | String b3 s3 =>
        if (b =? 226) && (byte_of b2 =? 132) && (byte_of b3 =? 170) then String "K" (foldName s3)
        else String (upper a) (foldName s1)
      end
    end
  end.

(** The values given to the field [name], in order. *)
Definition field_values (name : string) (fs : list (string * jval)) : list jval :=
  snd <$> List.filter (fun kv => String.eqb (foldName kv.1) (foldName name)) fs.

(** Storing the values of one field one after the other into a variable that holds
    [x]; [set] stores one value. *)
Fixpoint set_all {A} (set : A -> jval -> option A) (x : A) (vs : list jval) : option A :=
  match vs with
  | [] => Some x
  | v :: vs => match set x v with Some x => set_all set x vs | None => None end
  end.

(** Targets of type [int64] and [int], [string], [*string]; [None]: the value does
    not fit the type.  [null] leaves a plain variable as it is. *)
Definition set_int (x : Z) (v : jval) : option Z :=
  match v with
  | VNull => Some x
  | VNum raw => match ParseInt 64 raw with Ok z => Some z | Err _ => None end
  | _ => None
  end.

Definition set_string (x : string) (v : jval) : option string :=
  match v with VNull => Some x | VStr s => Some s | _ => None end.

Definition set_string_ptr (x : option string) (v : jval) : option (option string) :=
  match v with VNull => Some None | VStr s => Some (Some s) | _ => None end.

(** ** base64 ([base64.StdEncoding]), the JSON form of a byte slice *)

Definition b64_char (n : Z) : ascii :=
  if n <? 26 then chr (65 + n) else if n <? 52 then chr (71 + n)
  else if n <? 62 then chr (n - 4) else if n =? 62 then "+"%char else "/"%char.

Fixpoint b64_encode s : string :=
  match s with
  | EmptyString => ""
  | String a EmptyString =>
    let x := byte_of a in
    String (b64_char (x / 4)) (String (b64_char (x mod 4 * 16)) "==")
  | String a (String b EmptyString) =>
    let x := byte_of a in let y := byte_of b in
    String (b64_char (x / 4)) (String (b64_char (x mod 4 * 16 + y / 16)) (String (b64_char (y mod 16 * 4)) "="))
  | String a (String b (String c s)) =>
    let x := byte_of a in let y := byte_of b in let z := byte_of c in
    String (b64_char (x / 4)) (String (b64_char (x mod 4 * 16 + y / 16))
      (String (b64_char (y mod 16 * 4 + z / 64)) (String (b64_char (z mod 64)) (b64_encode s))))
  end.

Definition b64_val c : option Z :=
  let b := byte_of c in
  if (65 <=? b) && (b <=? 90) then Some (b - 65)
  else if (97 <=? b) && (b <=? 122) then Some (b - 71)
  else if (48 <=? b) && (b <=? 57) then Some (b + 4)
  else if b =? 43 then Some 62 else if b =? 47 then Some 63 else None.

(** Line breaks are skipped everywhere. *)
Fixpoint drop_breaks s : string :=
  match s with
  | EmptyString => ""
  | String c s => if Ascii.eqb c "010" || Ascii.eqb c "013" then drop_breaks s else String c (drop_breaks s)
  end.

Fixpoint b64_groups s : option string :=
  match s with
  | EmptyString => Some ""
  | String a (String b (String c (String d s))) =>
    match b64_val a, b64_val b with
    | Some x, Some y =>
      let first := chr (x * 4 + y / 16) in
      match b64_val c, b64_val d with
      | Some z, Some w =>
        match b64_groups s with
        | Some t => Some (String first (String (chr (y mod 16 * 16 + z / 4)) (String (chr (z mod 4 * 64 + w)) t)))
        | None => None
        end
      | Some z, None =>
        if Ascii.eqb d "=" && bool_decide (s = "")
        then Some (String first (String (chr (y mod 16 * 16 + z / 4)) "")) else None
      | None, _ =>
        if Ascii.eqb c "=" && Ascii.eqb d "=" && bool_decide (s = "") then Some (String first "") else None
      end
    | _, _ => None
    end
  | _ => None
  end.

Definition b64_decode s : option string := b64_groups (drop_breaks s).

(** The elements of an array decoded into the bytes [old]: integers that fit a
    byte; [null] leaves the byte that is there. *)
Fixpoint byte_elems (old : string) (l : list jval) : option string :=
  match l with
  | [] => Some ""
  | v :: l =>
    let '(o, old) := match old with EmptyString => (chr 0, "") | String o old => (o, old) end in
    match v, byte_elems old l with
    | VNull, Some bs => Some (String o bs)
    | VNum raw, Some bs =>
      match ParseUint raw with
      | Ok n => if n <=? 255 then Some (String (chr n) bs) else None
      | Err _ => None
      end
    | _, _ => None
    end
  end.

(** Target of type [[]byte]: base64 text or an array of bytes; [null] makes the
    slice nil. *)
Definition set_bytes (x : option string) (v : jval) : option (option string) :=
  match v with
  | VNull => Some None
  | VStr s => match b64_decode s with Some b => Some (Some b) | None => None end
  | VArr l => Some <$> byte_elems (default "" x) l
  | _ => None
  end.

(** A byte slice as a value to encode: a nil slice is [null]. *)
Definition json_bytes (b : option string) : json :=
  match b with Some s => JStr (b64_encode s) | None => JNull end.

(** ** Lemmas *)

Lemma str_take_drop n s : str_take n s +:+ str_drop n s = s.
Proof. revert s. induction n as [|n IH]; intros [|c s]; try done. exact (f_equal (String c) (IH s)). Qed.

Lemma substring_take n s : String.substring 0 n s = str_take n s.
Proof. revert s. induction n as [|n IH]; intros [|c s]; try done. exact (f_equal (String c) (IH s)). Qed.

Lemma substring_drop n s m : (String.length s <= m)%nat -> String.substring n m s = str_drop n s.
Proof.
  revert n m. induction s as [|c s IH]; intros n m Hm; [by destruct n, m|]. destruct n as [|n].
  - destruct m as [|m]; simpl in Hm; [lia|]. exact (f_equal (String c) (IH 0%nat m ltac:(lia))).
  - simpl. apply IH. simpl in Hm. lia.
Qed.

Lemma str_take_app n r t : String.length r = n -> str_take n (r +:+ t) = r.
Proof. intros <-. induction r as [|c r IH]; [by destruct t|]. exact (f_equal (String c) IH). Qed.

Lemma str_drop_app n r t : String.length r = n -> str_drop n (r +:+ t) = t.
Proof. intros <-. induction r as [|c r IH]; [by destruct t|]. exact IH. Qed.

Lemma str_length_app s t : String.length (s +:+ t) = (String.length s + String.length t)%nat.
Proof. induction s as [|c s IH]; [done|]. exact (f_equal S IH). Qed.

Lemma str_drop_length n s : (String.length (str_drop n s) = String.length s - n)%nat.
Proof. revert s. induction n as [|n IH]; intros [|c s]; simpl; auto. Qed.

Lemma str_app_cons c s t : String c s +:+ t = String c (s +:+ t).
Proof. done. Qed.

(** A rune of two bytes or more is decided by its own bytes, the first of which is
    above ASCII. *)
Lemma rune_len_long s n :
  rune_len s = n -> (2 <= n)%nat ->
  String.length (str_take n s) = n /\
  (forall t, rune_len (str_take n s +:+ t) = n) /\
  exists c s', str_take n s = String c s' /\ 194 <= byte_of c.
Proof.
  destruct s as [|c s]; cbn [rune_len]; [lia|]. cbv zeta. intros Hn H2.
  destruct s as [|c1 s]; [|destruct s as [|c2 s]; [|destruct s as [|c3 s]]];
    cbn [String.get] in Hn; cbn [cont] in Hn; rewrite ?andb_false_r in Hn;
    repeat (match type of Hn with context [if ?b then _ else _] => destruct b eqn:? end; try lia); subst n;
    (split; [done|]; split;
       [intros t; cbn [str_take]; rewrite !str_app_cons; cbn [rune_len String.get cont]; cbv zeta; rewrite ?andb_false_r;
        repeat match goal with H : ?b = _ |- context [?b] => rewrite H end; done
       |eexists _, _; split; [reflexivity|lia]]).
Qed.

Lemma rune_len_1 c s : rune_len (String c s) = 1%nat -> byte_of c < 128.
Proof. cbn [rune_len]. cbv zeta. repeat case_match; lia. Qed.

(** ** Strings round trip *)

(** [utf8.ValidString]. *)
Fixpoint valid_runes (fuel : nat) s : bool :=
  match fuel, s with
  | _, EmptyString => true
  | O, _ => false
  | S fuel, String _ _ =>
    match rune_len s with 0%nat => false | n => valid_runes fuel (str_drop n s) end
  end.
Definition valid_utf8 s : bool := valid_runes (String.length s) s.

Lemma parse_escaped_byte c fuel s :
  byte_of c < 128 ->
  parse_str (S fuel) (escape_byte c +:+ s) =
    match parse_str fuel s with Some (t, r) => Some (String c t, r) | None => None end.
Proof. destruct c as [[] [] [] [] [] [] [] []]; intros H; try done; by vm_compute in H. Qed.

Lemma parse_rune n s fuel t :
  rune_len s = n -> (2 <= n)%nat ->
  parse_str (S fuel) (str_take n s +:+ t) =
    match parse_str fuel t with Some (u, r) => Some (str_take n s +:+ u, r) | None => None end.
Proof.
  intros Hn H2. destruct (rune_len_long s n Hn H2) as (Hl & Hr & c & s' & Ht & Hc).
  specialize (Hr t). rewrite Ht in *. rewrite str_app_cons in *. cbn [parse_str].
  assert (Hq : Ascii.eqb c quote_char = false) by (destruct (Ascii.eqb_spec c quote_char) as [->|]; [done|done]).
  assert (Hb : Ascii.eqb c backslash = false) by (destruct (Ascii.eqb_spec c backslash) as [->|]; [done|done]).
  rewrite Hq, Hb, (proj2 (Z.ltb_ge (byte_of c) 32)), Hr by lia.
  destruct n as [|n]; [lia|]. rewrite <- !str_app_cons, str_take_app, str_drop_app by done. done.
Qed.

(** The escapes of the two line separators. *)
Lemma parse_line_sep (k : N) fuel t :
  k = 168%N \/ k = 169%N ->
  parse_str (S fuel) (String backslash (if (k =? 168)%N then "u2028" else "u2029") +:+ t) =
    match parse_str fuel t with
    | Some (u, r) => Some (String (ascii_of_N 226) (String (ascii_of_N 128) (String (ascii_of_N k) "")) +:+ u, r)
    | None => None
    end.
Proof. intros [-> | ->]; done. Qed.

Lemma parse_escape f s fuel rest :
  valid_runes f s = true -> (String.length s <= f)%nat ->
  (String.length s < fuel)%nat ->
  parse_str fuel (escape f s +:+ String quote_char rest) = Some (s, rest).
Proof.
  revert s fuel. induction f as [|f IH]; intros s fuel Hv Hf Hfuel.
  - destruct s as [|c s]; [|simpl in Hf; lia]. destruct fuel as [|fuel]; [lia|]. done.
  - destruct s as [|c s]; [destruct fuel as [|fuel]; [lia|]; done|]. destruct fuel as [|fuel]; [simpl in Hfuel; lia|].
    cbn [valid_runes] in Hv. cbn [escape]. remember (String c s) as cs eqn:Ecs.
    destruct (rune_len cs) as [|[|n]] eqn:Hn; [done| |].
    + rewrite Ecs in *. apply rune_len_1 in Hn. rewrite <- string_app_assoc, parse_escaped_byte by done.
      rewrite IH; [done|done|simpl in *; lia|simpl in *; lia].
    + rewrite substring_take, substring_drop by done. set (k := S (S n)) in *.
      destruct (rune_len_long cs k Hn ltac:(lia)) as (Hl & _ & _).
      assert (Hcs : (k <= String.length cs)%nat).
      { rewrite <- (str_take_drop k cs), str_length_app, Hl. lia. }
      pose proof (str_drop_length k cs) as Hd.
      assert (Hrest : parse_str fuel (escape f (str_drop k cs) +:+ String quote_char rest) = Some (str_drop k cs, rest))
        by (apply IH; [done|lia|lia]).
      rewrite <- string_app_assoc. cbv zeta.
      destruct (String.eqb (str_take k cs) (String _ (String _ (String (ascii_of_N 168) _)))) eqn:E;
        [apply String.eqb_eq in E|clear E; destruct (String.eqb _ _) eqn:E; [apply String.eqb_eq in E|clear E]].
      * rewrite (parse_line_sep 168 fuel), Hrest by (by left). by rewrite <- E, str_take_drop.
      * rewrite (parse_line_sep 169 fuel), Hrest by (by right). by rewrite <- E, str_take_drop.
      * rewrite (parse_rune k cs) by (done || lia). rewrite Hrest. by rewrite str_take_drop.
Qed.

(** ** Numbers round trip *)

(** What may follow a number: no byte that would continue it. *)
Definition ends_number (rest : string) : Prop :=
  match rest with
  | EmptyString => True
  | String c _ => is_digit c = false /\ c <> "."%char /\ c <> "e"%char /\ c <> "E"%char
  end.

Lemma span_digits_app d rest :
  all_digits d = true -> ends_number rest -> span_digits (d +:+ rest) = (d, rest).
Proof.
  intros Hd Hr. induction d as [|c d IH].
  - destruct rest as [|c r]; [done|]. destruct Hr as [Hc _]. change ("" +:+ String c r) with (String c r).
    cbn [span_digits]. by rewrite Hc.
  - cbn [all_digits] in Hd. apply andb_true_iff in Hd as [Hc Hd]. rewrite str_app_cons. cbn [span_digits].
    unfold is_digit. by rewrite Hc, (IH Hd).
Qed.

(** A numeral of a positive number does not start with a zero. *)
Lemma dec_digits_head fuel n acc :
  0 < n < 10 ^ Z.of_nat (S fuel) -> exists c s, dec_digits (S fuel) n acc = String c s /\ c <> "0"%char.
Proof.
  revert n acc. induction fuel as [|fuel IH]; intros n acc Hn.
  - change (Z.of_nat 1) with 1 in Hn. cbn -[Z.modulo Z.div]. rewrite (proj2 (Z.ltb_lt n 10)) by lia.
    eexists _, _. split; [reflexivity|]. intros E. apply (f_equal byte_of) in E. rewrite byte_of_digit in E by zlia.
    rewrite Z.mod_small in E by lia. change (byte_of "0") with 48 in E. lia.
  - rewrite Nat2Z.inj_succ, Z.pow_succ_r in Hn by lia. remember (S fuel) as f. cbn -[Z.modulo Z.div]. subst f.
    destruct (Z.ltb_spec n 10).
    + eexists _, _. split; [reflexivity|]. intros E. apply (f_equal byte_of) in E. rewrite byte_of_digit in E by zlia.
      rewrite Z.mod_small in E by lia. change (byte_of "0") with 48 in E. lia.
    + apply IH. zlia.
Qed.

Lemma scan_FormatUint n rest : 0 <= n -> ends_number rest -> scan_int (FormatUint n +:+ rest) = Some (FormatUint n, rest).
Proof.
  intros Hn Hr. pose proof (all_digits_FormatUint n Hn) as Hd. destruct (decide (n = 0)) as [->|Hp].
  - change (FormatUint 0) with "0". by destruct rest.
  - destruct (dec_digits_head (Z.to_nat (Z.log2 n)) n "") as (c & s & E & Hc).
    { split; [lia|]. by apply FormatUint_fuel. }
    change (dec_digits _ n "") with (FormatUint n) in E. unfold scan_int. rewrite E at 1. rewrite str_app_cons.
    destruct (Ascii.eqb_spec c "0"); [done|]. unfold digits1.
    rewrite span_digits_app by done. rewrite bool_decide_false by apply FormatUint_nonempty. done.
Qed.

Lemma scan_frac_none rest : ends_number rest -> scan_frac rest = Some ("", rest).
Proof. destruct rest as [|c r]; [done|]. intros (_ & H & _). cbn [scan_frac]. by destruct (Ascii.eqb_spec c "."). Qed.

Lemma scan_exp_none rest : ends_number rest -> scan_exp rest = Some ("", rest).
Proof.
  destruct rest as [|c r]; [done|]. intros (_ & _ & H & H'). cbn [scan_exp].
  destruct (Ascii.eqb_spec c "e"), (Ascii.eqb_spec c "E"); done.
Qed.

Lemma str_app_nil s : s +:+ "" = s.
Proof. induction s as [|c s IH]; [done|]. exact (f_equal (String c) IH). Qed.

Lemma FormatUint_cons n : 0 <= n -> exists c s, FormatUint n = String c s /\ is_Some (digit_val c).
Proof.
  intros Hn. pose proof (all_digits_FormatUint n Hn) as Hd. pose proof (FormatUint_nonempty n).
  destruct (FormatUint n) as [|c s]; [done|]. simpl in Hd. case_bool_decide; [eauto|done].
Qed.

Lemma scan_FormatInt z rest : ends_number rest -> scan_number (FormatInt z +:+ rest) = Some (FormatInt z, rest).
Proof.
  intros Hr. unfold FormatInt, scan_number. destruct (Z.ltb_spec z 0).
  - change (("-" +:+ FormatUint (- z)) +:+ rest) with (String "-" (FormatUint (- z) +:+ rest)).
    cbv iota beta. rewrite scan_FormatUint by (done || lia). rewrite scan_frac_none, scan_exp_none by done. by rewrite !str_app_nil.
  - assert (Hm : (match FormatUint z +:+ rest with String "-" s' => ("-", s') | _ => ("", FormatUint z +:+ rest) end)
                 = ("", FormatUint z +:+ rest)).
    { destruct (FormatUint_cons z) as (c & s & -> & Hc); [lia|]. rewrite str_app_cons.
      destruct c as [[] [] [] [] [] [] [] []]; try done; by destruct Hc. }
    rewrite Hm, scan_FormatUint, scan_frac_none, scan_exp_none by (done || lia). by rewrite !str_app_nil.
Qed.

(** ** Values round trip *)

(** What the decoder makes of an encoded value. *)
Fixpoint embed (j : json) : jval :=
  match j with
  | JNull => VNull
  | JBool b => VBool b
  | JNum z => VNum (FormatInt z)
  | JStr s => VStr s
  | JArr l => VArr (map embed l)
  | JObj fs => VObj (map (fun kv => (fst kv, embed (snd kv))) fs)
  end.

(** Every string of the value is valid UTF-8. *)
Fixpoint valid_json (j : json) : bool :=
  match j with
  | JStr s => valid_utf8 s
  | JArr l => forallb valid_json l
  | JObj fs => forallb (fun kv => valid_utf8 (fst kv) && valid_json (snd kv)) fs
  | _ => true
  end.

(** Open arrays and objects around the innermost value. *)
Fixpoint nesting (j : json) : Z :=
  match j with
  | JArr l => 1 + foldr (fun x m => Z.max (nesting x) m) 0 l
  | JObj fs => 1 + foldr (fun kv m => Z.max (nesting (snd kv)) m) 0 fs
  | _ => 0
  end.

Lemma nesting_nonneg j : 0 <= nesting j.
Proof.
  destruct j as [| | | |l|fs]; simpl; try lia; [induction l|induction fs]; simpl in *; lia.
Qed.

Lemma rune_len_le s : (rune_len s <= 4)%nat.
Proof. destruct s as [|c s]; cbn [rune_len]; [lia|]. cbv zeta. repeat case_match; lia. Qed.

(** Escaping does not shorten. *)
Lemma escape_length f s :
  valid_runes f s = true -> (String.length s <= f)%nat -> (String.length s <= String.length (escape f s))%nat.
Proof.
  revert s. induction f as [|f IH]; intros s Hv Hs; [lia|]. destruct s as [|c s]; [simpl; lia|].
  cbn [valid_runes] in Hv. cbn [escape]. remember (String c s) as cs eqn:Ecs.
  destruct (rune_len cs) as [|[|n]] eqn:Hn; [done| |].
  - rewrite Ecs in *. rewrite str_length_app. specialize (IH s). simpl in *.
    assert (1 <= String.length (escape_byte c))%nat by (destruct c as [[] [] [] [] [] [] [] []]; simpl; lia).
    specialize (IH Hv ltac:(lia)). lia.
  - rewrite substring_take, substring_drop by done. set (k := S (S n)) in *.
    destruct (rune_len_long cs k Hn ltac:(lia)) as (Hl & _ & _). rewrite str_length_app.
    pose proof (str_drop_length k cs) as Hd. specialize (IH (str_drop k cs) Hv ltac:(subst cs; simpl in *; lia)).
    pose proof (rune_len_le cs) as Hk. rewrite Hn in Hk. cbv zeta. repeat case_match; simpl in *; lia.
Qed.

Lemma json_string_parse s rest :
  valid_utf8 s = true ->
  exists t, json_string s +:+ rest = String quote_char t /\ parse_str (String.length t) t = Some (s, rest).
Proof.
  intros Hv. exists (escape (String.length s) s +:+ String quote_char rest). split.
  - unfold json_string. rewrite str_app_cons, <- string_app_assoc. done.
  - apply parse_escape; [done|done|]. rewrite str_length_app. simpl.
    pose proof (escape_length (String.length s) s Hv ltac:(lia)). lia.
Qed.

Lemma skip_ws_id c s : is_space c = false -> skip_ws (String c s) = String c s.
Proof. intros Hc. cbn [skip_ws]. by rewrite Hc. Qed.

Lemma ends_number_sep c s : In c (list_ascii_of_string ",]}") -> ends_number (String c s).
Proof. intros [<-|[<-|[<-|[]]]]; done. Qed.

Lemma join_comma_cons x y l : join_comma (x :: y :: l) = x +:+ "," +:+ join_comma (y :: l).
Proof. done. Qed.

(** The first byte of an encoded value is not white space and not a bracket that
    closes. *)
Lemma Marshal_head j rest :
  exists c s, Marshal j +:+ rest = String c s /\ is_space c = false /\ c <> "]"%char /\ c <> "}"%char.
Proof.
  destruct j as [|[]|z|s|l|fs]; cbn [Marshal]; try (eexists _, _; split; [reflexivity|done]).
  - unfold FormatInt. destruct (Z.ltb_spec z 0); [eexists _, _; split; [reflexivity|done]|].
    destruct (FormatUint_cons z) as (c & s & -> & Hc); [lia|]. eexists _, _. split; [reflexivity|].
    destruct c as [[] [] [] [] [] [] [] []]; try done; by destruct Hc.
Qed.

(** Induction over the nested values. *)
Lemma json_nested_ind (P : json -> Prop) :
  P JNull -> (forall b, P (JBool b)) -> (forall z, P (JNum z)) -> (forall s, P (JStr s)) ->
  (forall l, Forall P l -> P (JArr l)) -> (forall fs, Forall (fun kv => P (snd kv)) fs -> P (JObj fs)) ->
  forall j, P j.
Proof.
  intros H1 H2 H3 H4 H5 H6. fix IH 1. intros [|b|z|s|l|fs]; [exact H1|apply H2|apply H3|apply H4| |].
  - apply H5. induction l as [|x l IHl]; constructor; [apply IH|exact IHl].
  - apply H6. induction fs as [|[k x] fs IHl]; constructor; [apply IH|exact IHl].
Qed.

(** The value is read back in front of any text, with the fuel its length gives. *)
Definition reads_back (j : json) : Prop := forall fuel depth rest,
  valid_json j = true -> depth + nesting j <= maxNestingDepth -> ends_number rest ->
  (2 * String.length (Marshal j) + 1 <= fuel)%nat ->
  value fuel depth (Marshal j +:+ rest) = Some (embed j, rest).

Lemma elements_read_back l fuel depth rest :
  Forall reads_back l -> l <> [] -> forallb valid_json l = true ->
  Forall (fun x => depth + nesting x <= maxNestingDepth) l ->
  (2 * String.length (join_comma (map Marshal l)) + 2 <= fuel)%nat ->
  elements fuel depth (join_comma (map Marshal l) +:+ String "]" rest) = Some (map embed l, rest).
Proof.
  revert fuel. induction l as [|x l IH]; intros fuel HR Hne Hv Hd Hf; [done|].
  destruct fuel as [|fuel]; [lia|]. cbn [elements].
  apply Forall_cons in HR as [Hx HR], Hd as [Hdx Hd]. cbn [forallb] in Hv. apply andb_true_iff in Hv as [Hvx Hv].
  destruct l as [|y l].
  - cbn [map join_comma] in *. rewrite Hx; [done|done|done|by apply ends_number_sep; right; left|lia].
  - cbn [map] in *. rewrite join_comma_cons in *. rewrite <- !string_app_assoc in *. rewrite !str_length_app in Hf.
    change ("," +:+ ?u) with (String "," u) in *. rewrite Hx; [|done|done|by apply ends_number_sep; left|lia].
    rewrite skip_ws_id by done. change (Ascii.eqb "," "]") with false. change (Ascii.eqb "," ",") with true. cbv iota.
    change ("" +:+ ?u) with u. rewrite IH; [done|done|done|done|done|]. simpl in Hf. simpl. lia.
Qed.

Definition member (kv : string * json) : string := json_string (fst kv) +:+ ":" +:+ Marshal (snd kv).

Lemma members_read_back fs fuel depth rest :
  Forall (fun kv => reads_back (snd kv)) fs -> fs <> [] ->
  forallb (fun kv => valid_utf8 (fst kv) && valid_json (snd kv)) fs = true ->
  Forall (fun kv => depth + nesting (snd kv) <= maxNestingDepth) fs ->
  (2 * String.length (join_comma (map member fs)) + 2 <= fuel)%nat ->
  members fuel depth (join_comma (map member fs) +:+ String "}" rest) =
    Some (map (fun kv => (fst kv, embed (snd kv))) fs, rest).
Proof.
  revert fuel. induction fs as [|[k x] fs IH]; intros fuel HR Hne Hv Hd Hf; [done|].
  destruct fuel as [|fuel]; [lia|]. cbn [members].
  apply Forall_cons in HR as [Hx HR], Hd as [Hdx Hd]. cbn [forallb fst snd] in *.
  apply andb_true_iff in Hv as [[Hvk Hvx]%andb_true_iff Hv].
  assert (Hkey : forall tail, exists t, member (k, x) +:+ tail = String quote_char t /\
    parse_str (String.length t) t = Some (k, String ":" (Marshal x +:+ tail))).
  { intros tail. destruct (json_string_parse k (String ":" (Marshal x +:+ tail)) Hvk) as (t & Ht & Hp).
    exists t. split; [|done]. rewrite <- Ht. unfold member. cbn [fst snd]. by rewrite <- !string_app_assoc. }
  assert (Hlen : (String.length (Marshal x) <= String.length (member (k, x)))%nat)
    by (unfold member; cbn [fst snd]; rewrite !str_length_app; lia).
  assert (Hstep : forall sep tail, In sep (list_ascii_of_string ",]}") -> (2 * String.length (Marshal x) + 1 <= fuel)%nat ->
    value fuel depth (Marshal x +:+ String sep tail) = Some (embed x, String sep tail))
    by (intros; apply Hx; [done|done|by apply ends_number_sep|done]).
  assert (Hcolon : forall u, drop_prefix ":" (skip_ws (String ":" u)) = Some u) by done.
  destruct fs as [|y fs].
  - cbn [map join_comma fst snd] in *. destruct (Hkey (String "}" rest)) as (t & -> & Hp).
    rewrite skip_ws_id by done. rewrite Ascii.eqb_refl, Hp, Hcolon. cbn [negb].
    rewrite Hstep by (simpl; (lia || tauto)). done.
  - cbn [map fst snd] in *. rewrite join_comma_cons in *. rewrite <- !string_app_assoc in *. rewrite !str_length_app in Hf.
    match goal with |- context [member (k, x) +:+ ?tail] => destruct (Hkey tail) as (t & -> & Hp) end.
    rewrite skip_ws_id by done. rewrite Ascii.eqb_refl, Hp, Hcolon. cbn [negb].
    change ("," +:+ ?u) with (String "," u) in *. rewrite Hstep by (simpl in *; (lia || tauto)).
    rewrite skip_ws_id by done. change (Ascii.eqb "," "}") with false. change (Ascii.eqb "," ",") with true. cbv iota.
    change ("" +:+ ?u) with u. rewrite IH; [done|done|done|done|done|]. simpl in Hf. simpl. lia.
Qed.

Lemma nesting_arr l x : x ∈ l -> nesting x < nesting (JArr l).
Proof.
  intros Hx. cbn [nesting]. enough (nesting x <= foldr (fun x m => Z.max (nesting x) m) 0 l) by lia.
  induction Hx; simpl; lia.
Qed.

Lemma nesting_obj fs kv : kv ∈ fs -> nesting (snd kv) < nesting (JObj fs).
Proof.
  intros Hx. cbn [nesting]. enough (nesting (snd kv) <= foldr (fun kv m => Z.max (nesting (snd kv)) m) 0 fs) by lia.
  induction Hx; simpl; lia.
Qed.

(** A separator-free text is not a closing bracket. *)
Lemma drop_close c s x : c <> x -> is_space c = false -> drop_prefix (String x "") (skip_ws (String c s)) = None.
Proof. intros Hc Hs. rewrite skip_ws_id by done. cbn [drop_prefix]. destruct (Ascii.eqb_spec x c); congruence. Qed.

Lemma Marshal_arr l rest : Marshal (JArr l) +:+ rest = String "[" (join_comma (map Marshal l) +:+ String "]" rest).
Proof. cbn [Marshal]. rewrite <- !string_app_assoc. done. Qed.

Lemma Marshal_obj fs rest : Marshal (JObj fs) +:+ rest = String "{" (join_comma (map member fs) +:+ String "}" rest).
Proof. cbn [Marshal]. rewrite <- !string_app_assoc. done. Qed.

Lemma join_head (x : string) l rest : exists t, join_comma (x :: l) +:+ rest = x +:+ t.
Proof. destruct l as [|y l]; [by eexists|]. rewrite join_comma_cons, <- string_app_assoc. by eexists. Qed.

Lemma value_reads_back j : reads_back j.
Proof.
  induction j as [|b|z|s|l IH|fs IH] using json_nested_ind; intros fuel depth rest Hv Hd Hr Hf;
    (destruct fuel as [|fuel]; [lia|]); cbn [value].
  - done.
  - by destruct b.
  - destruct (Marshal_head (JNum z) rest) as (c & s & E & Hs & _). cbn [Marshal embed] in *.
    rewrite E, skip_ws_id by done. rewrite <- E, scan_FormatInt by done.
    assert (Hc : c = "-"%char \/ is_Some (digit_val c)).
    { unfold FormatInt in E. destruct (Z.ltb_spec z 0); [injection E as <- _; by left|].
      destruct (FormatUint_cons z) as (c' & s' & E' & Hc); [lia|]. rewrite E' in E. injection E as <- _. by right. }
    destruct Hc as [-> | [d Hc]]; [done|]. by destruct c as [[] [] [] [] [] [] [] []].
  - cbn [Marshal embed valid_json] in *. destruct (json_string_parse s rest Hv) as (t & -> & Hp).
    rewrite skip_ws_id by done. by rewrite Ascii.eqb_refl, Hp.
  - rewrite Marshal_arr, skip_ws_id by done. change (Ascii.eqb "[" quote_char) with false.
    change (Ascii.eqb "[" "{") with false. change (Ascii.eqb "[" "[") with true. cbv iota.
    assert (Hn : 1 <= nesting (JArr l)) by (cbn [nesting]; induction l; simpl in *; [lia|]; pose proof (nesting_nonneg a); lia).
    rewrite (proj2 (Z.leb_gt _ _)) by lia. destruct l as [|x l]; [done|].
    destruct (join_head (Marshal x) (map Marshal l) (String "]" rest)) as (t & Ht).
    destruct (Marshal_head x t) as (c & s & Ec & Hs & Hc & _). cbn [map]. rewrite Ht at 1. rewrite Ec, drop_close by done.
    change (Marshal x :: map Marshal l) with (map Marshal (x :: l)). rewrite elements_read_back; [done|done|done|done| |].
    + apply Forall_forall. intros y Hy. pose proof (nesting_arr _ _ Hy). lia.
    + cbn [Marshal] in Hf. rewrite !str_length_app in Hf. simpl in Hf. simpl. lia.
  - rewrite Marshal_obj, skip_ws_id by done. change (Ascii.eqb "{" quote_char) with false.
    change (Ascii.eqb "{" "{") with true. cbv iota.
    assert (Hn : 1 <= nesting (JObj fs)) by (cbn [nesting]; induction fs as [|[k y] fs]; simpl in *; [lia|]; pose proof (nesting_nonneg y); lia).
    rewrite (proj2 (Z.leb_gt _ _)) by lia. destruct fs as [|[k x] fs]; [done|].
    destruct (join_head (member (k, x)) (map member fs) (String "}" rest)) as (t & Ht).
    cbn [map]. rewrite Ht at 1. unfold member at 1. unfold json_string at 1. rewrite <- !string_app_assoc.
    rewrite str_app_cons, drop_close by done.
    change (member (k, x) :: map member fs) with (map member ((k, x) :: fs)).
    rewrite members_read_back; [done|done|done|done| |].
    + apply Forall_forall. intros y Hy. pose proof (nesting_obj _ _ Hy). lia.
    + change (Marshal (JObj ((k, x) :: fs))) with ("{" +:+ join_comma (map member ((k, x) :: fs)) +:+ "}") in Hf.
      rewrite !str_length_app in Hf. simpl in Hf. simpl. lia.
Qed.

Lemma whole_value_Marshal j :
  valid_json j = true -> nesting j <= maxNestingDepth -> whole_value (Marshal j) = Some (embed j).
Proof.
  intros Hv Hd. unfold whole_value. rewrite <- (str_app_nil (Marshal j)) at 2.
  rewrite value_reads_back; [done|done|lia|done|]. unfold value_fuel. lia.
Qed.

(** What is encoded decodes to the same value: the decoder reads the text
    [json.Marshal] produces for a value whose strings are valid UTF-8 and whose
    nesting is within the limit as exactly that value, alone
    ([json.Unmarshal]) and in front of anything a number cannot continue with
    ([Decoder.Decode]). *)
Theorem decode_Marshal j rest :
  valid_json j = true -> nesting j <= maxNestingDepth -> ends_number rest ->
  whole_value (Marshal j) = Some (embed j) /\ first_value (Marshal j +:+ rest) = Some (embed j).
Proof.
  intros Hv Hd Hr. split; [by apply whole_value_Marshal|].
  - unfold first_value. rewrite value_reads_back; [done|done|lia|done|]. unfold value_fuel. rewrite str_length_app. lia.
Qed.

Lemma decode_Marshal_witness :
  whole_value (Marshal (JObj [("a", JArr [JNum (-5); JNull]); ("b", JStr "<é>")])) =
    Some (VObj [("a", VArr [VNum "-5"; VNull]); ("b", VStr "<é>")]) /\
  first_value (Marshal (JObj [("a", JArr [JNum (-5); JNull]); ("b", JStr "<é>")]) +:+ " tail") =
    Some (VObj [("a", VArr [VNum "-5"; VNull]); ("b", VStr "<é>")]).
Proof.
  apply (decode_Marshal (JObj [("a", JArr [JNum (-5); JNull]); ("b", JStr "<é>")]) " tail").
  - vm_compute. reflexivity.
  - vm_compute. discriminate.
  - repeat split; discriminate.
Defined.

(** base64 is undone by its decoder. *)
Lemma b64_val_char n : 0 <= n < 64 -> b64_val (b64_char n) = Some n.
Proof.
  intros Hn. assert (Hall : forallb (fun k => bool_decide (b64_val (b64_char (Z.of_nat k)) = Some (Z.of_nat k))) (seq 0 64) = true)
    by (vm_compute; reflexivity).
  rewrite forallb_forall in Hall. specialize (Hall (Z.to_nat n) ltac:(apply in_seq; lia)). bools.
  by rewrite Z2Nat.id in Hall by lia.
Qed.

Lemma chr_byte c : chr (byte_of c) = c.
Proof. unfold chr, byte_of. rewrite N2Z.id. apply ascii_N_embedding. Qed.

Lemma byte_of_range c : 0 <= byte_of c < 256.
Proof. unfold byte_of. pose proof (N_ascii_bounded c). lia. Qed.

Lemma b64_char_not_break n : 0 <= n < 64 -> (Ascii.eqb (b64_char n) "010" || Ascii.eqb (b64_char n) "013") = false.
Proof.
  intros Hn. pose proof (b64_val_char n Hn) as Hv.
  destruct (Ascii.eqb_spec (b64_char n) "010") as [E|_]; [by rewrite E in Hv|].
  destruct (Ascii.eqb_spec (b64_char n) "013") as [E|_]; [by rewrite E in Hv|done].
Qed.

(** The byte at the end of a group of six-bit digits. *)
Lemma chr_eq n c : n = byte_of c -> chr n = c.
Proof. intros ->. apply chr_byte. Qed.

Lemma b64_roundtrip s : b64_decode (b64_encode s) = Some s.
Proof.
  unfold b64_decode. remember (String.length s) as n eqn:Hn.
  revert s Hn. induction (lt_wf n) as [n _ IH]. intros s Hn.
  destruct s as [|a [|b [|c s]]].
  - done.
  - pose proof (byte_of_range a). cbn [b64_encode drop_breaks]. rewrite !b64_char_not_break by zlia. cbn [b64_groups].
    rewrite !b64_val_char by zlia. cbn. by rewrite (chr_eq _ a) by zlia.
  - pose proof (byte_of_range a). pose proof (byte_of_range b). cbn [b64_encode drop_breaks].
    rewrite !b64_char_not_break by zlia. cbn [b64_groups].
    rewrite !b64_val_char by zlia. cbn. by rewrite (chr_eq _ a), (chr_eq _ b) by zlia.
  - pose proof (byte_of_range a). pose proof (byte_of_range b). pose proof (byte_of_range c).
    cbn [b64_encode drop_breaks]. rewrite !b64_char_not_break by zlia. cbn [b64_groups].
    rewrite !b64_val_char by zlia. rewrite (IH (String.length s)) by (subst n; simpl; lia || done).
    by rewrite (chr_eq _ a), (chr_eq _ b), (chr_eq _ c) by zlia.
Qed.

(** base64 texts are ASCII. *)
Lemma valid_ascii s : (forall c, has_byte c s = true -> byte_of c < 128) -> valid_utf8 s = true.
Proof.
  unfold valid_utf8. induction s as [|c s IH]; intros Hs; [done|]. cbn [String.length valid_runes].
  assert (Hc : byte_of c < 128) by (apply Hs; simpl; by rewrite Ascii.eqb_refl).
  cbn [rune_len]. rewrite (proj2 (Z.ltb_lt _ _) Hc). apply IH. intros c' H'. apply Hs. simpl. rewrite H'. apply orb_true_r.
Qed.

Lemma valid_cons c s : byte_of c < 128 -> valid_utf8 (String c s) = valid_utf8 s.
Proof. intros Hc. unfold valid_utf8. cbn [String.length valid_runes rune_len]. by rewrite (proj2 (Z.ltb_lt _ _) Hc). Qed.

Lemma b64_char_ascii n : 0 <= n < 64 -> byte_of (b64_char n) < 128.
Proof.
  intros Hn. assert (Hall : forallb (fun k => byte_of (b64_char (Z.of_nat k)) <? 128) (seq 0 64) = true)
    by (vm_compute; reflexivity).
  rewrite forallb_forall in Hall. specialize (Hall (Z.to_nat n) ltac:(apply in_seq; lia)).
  rewrite Z2Nat.id in Hall by lia. lia.
Qed.

Lemma b64_valid s : valid_utf8 (b64_encode s) = true.
Proof.
  remember (String.length s) as n eqn:Hn. revert s Hn. induction (lt_wf n) as [n _ IH]. intros s Hn.
  destruct s as [|a [|b [|c s]]]; [done|..]; cbn [b64_encode].
  - pose proof (byte_of_range a). by rewrite !valid_cons by (apply b64_char_ascii; zlia).
  - pose proof (byte_of_range a). pose proof (byte_of_range b). by rewrite !valid_cons by (apply b64_char_ascii; zlia).
  - pose proof (byte_of_range a). pose proof (byte_of_range b). pose proof (byte_of_range c).
    rewrite !valid_cons by (apply b64_char_ascii; zlia). apply (IH (String.length s)); [subst n; simpl; lia|done].
Qed.

Lemma set_bytes_json b x : set_bytes x (embed (json_bytes b)) = Some b.
Proof. destruct b as [s|]; [|done]. simpl. by rewrite b64_roundtrip. Qed.

Lemma json_bytes_valid b : valid_json (json_bytes b) = true.
Proof. destruct b; [apply b64_valid|done]. Qed.
