(* ===== verification/Queries.v ===== *)
(** * SQL statements ([internal/db/sqlc/*.sql.go] and [internal/db/migrations])

    One definition per sqlc method, translated from the SQL text the method
    sends, with the constraints the migrations put on the table: [CHECK]
    (SQLSTATE 23514), [UNIQUE] (23505), [REFERENCES] (23503), enum input (22P02),
    integer overflow (22003) and the row trigger on [postings] (P0001).  A [:one]
    statement that finds nothing returns [pgx.ErrNoRows].  The texts a client of the
    API chooses (a merchant's reference, an idempotency key, a key id) are refused
    when Postgres cannot store them (22021); a quote's expiry, which Go computes to
    the nanosecond, is stored to the microsecond. *)

From S2P Require Import Prelude GoStr MockBank Models World JsonDecode.

Section queries.
Context `{Env}.

Definition one {A} (o : option A) : res A :=
  match o with Some a => Ok a | None => Err ErrNoRows end.

Definition pg_err {A} (code : string) : res A := Err (ErrPg code).

(** What Postgres takes as [TEXT]: UTF-8 without NUL; else the parameter is refused
    before the statement runs. *)
Definition text_ok (s : string) : bool := negb (has_byte Ascii.zero s) && valid_utf8 s.

(** [TIMESTAMPTZ] has microseconds; pgx drops the rest of a [time.Time]. *)
Definition to_micros (t : Z) : Z := t / 1000 * 1000.

(** [UPDATE tbl SET ... WHERE P RETURNING *]. *)
Definition update_returning {A} (tbl : DB -> list A) (set : DB -> list A -> DB)
    (P : A -> bool) (f : Z -> A -> A) : M A :=
  stmt (fun now _ d =>
    (one (f now <$> find_row P (tbl d)), 0%N, set d (update_where P (f now) (tbl d)))).

(** The same, when the assignment can leave the range of the column. *)
Definition update_checked {A} (tbl : DB -> list A) (set : DB -> list A -> DB)
    (P : A -> bool) (fits : A -> bool) (f : Z -> A -> A) : M A :=
  stmt (fun now _ d =>
    match find_row P (tbl d) with
    | Some r => if fits r then (Ok (f now r), 0%N, set d (update_where P (f now) (tbl d)))
                else (pg_err "22003", 0%N, d)
    | None => (Err ErrNoRows, 0%N, d)
    end).

Definition by_id {A} (id_of : A -> uuid) (id : uuid) (r : A) : bool := N.eqb (id_of r) id.

(** The [PRIMARY KEY] constraint on a generated id. *)
Definition pk_taken {A} (id_of : A -> uuid) (id : uuid) (t : list A) : bool :=
  existsb (by_id id_of id) t.

(** ** ledger.sql.go *)

Definition account_by_code (code currency : string) (a : Account) : bool :=
  String.eqb (acc_code a) code && String.eqb (acc_currency a) currency.

(** The [CASE] of [AccountBalance]: debit-normal for asset and expense accounts,
    credit-normal for the others. *)
Definition balance_case (t : AccountType) (p : Posting) : Z :=
  match t, p_direction p with
  | (Asset | Expense), PDebit => p_amount p
  | (Asset | Expense), PCredit => - p_amount p
  | (Liability | Equity | Revenue), PCredit => p_amount p
  | (Liability | Equity | Revenue), PDebit => - p_amount p
  end.

Definition account_sum (d : DB) (a : Account) : Z :=
  Zsum (fun p => if by_id p_account_id (acc_id a) p then balance_case (acc_type a) p else 0)
    (postings d).

Record AccountBalanceRow := mkAccountBalanceRow {
  abr_id : uuid; abr_code : string; abr_type : AccountType;
  abr_currency : string; abr_balance : Z
}.

(** [COALESCE(SUM(...), 0)::BIGINT]. *)
Definition account_balance_row (d : DB) (a : Account) : res AccountBalanceRow :=
  let b := account_sum d a in
  if is_int64 b then
    Ok (mkAccountBalanceRow (acc_id a) (acc_code a) (acc_type a) (acc_currency a) b)
  else pg_err "22003".

Definition AccountBalance (id : uuid) : M AccountBalanceRow :=
  select (fun d => match find_row (by_id acc_id id) (accounts d) with
                   | Some a => account_balance_row d a
                   | None => Err ErrNoRows
                   end).

Definition AccountBalanceByCode (code currency : string) : M AccountBalanceRow :=
  select (fun d => match find_row (account_by_code code currency) (accounts d) with
                   | Some a => account_balance_row d a
                   | None => Err ErrNoRows
                   end).

Definition CreateAccount (code type currency : string) : M Account :=
  stmt (fun now rng d =>
    match AccountType_of_string type with
    | None => (pg_err "22P02", 0%N, d)
    | Some t =>
      match find_row (account_by_code code currency) (accounts d) with
      | Some _ => (pg_err "23505", 1%N, d)
      | None =>
        if pk_taken acc_id (gen_uuid rng) (accounts d) then (pg_err "23505", 1%N, d) else
        let a := mkAccount (gen_uuid rng) code t currency now in
        (Ok a, 1%N, set_accounts d (accounts d ++ [a]))
      end
    end).

Definition entry_by_ref (ref : string) (j : JournalEntry) : bool :=
  String.eqb (je_external_ref j) ref.

Definition CreateJournalEntry (external_ref kind : string) (description : option string)
    (intent_id : option uuid) : M JournalEntry :=
  stmt (fun now rng d =>
    match find_row (entry_by_ref external_ref) (journal_entries d) with
    | Some _ => (pg_err "23505", 1%N, d)
    | None =>
      if pk_taken je_id (gen_uuid rng) (journal_entries d) then (pg_err "23505", 1%N, d) else
      let j := mkJournalEntry (gen_uuid rng) external_ref kind description intent_id now in
      (Ok j, 1%N, set_journal_entries d (journal_entries d ++ [j]))
    end).

Definition GetAccountByCodeCurrency (code currency : string) : M Account :=
  select (fun d => one (find_row (account_by_code code currency) (accounts d))).

Definition GetAccountByID (id : uuid) : M Account :=
  select (fun d => one (find_row (by_id acc_id id) (accounts d))).

Definition GetJournalEntryByExternalRef (ref : string) : M JournalEntry :=
  select (fun d => one (find_row (entry_by_ref ref) (journal_entries d))).

(** [INSERT INTO postings], with the [BEFORE INSERT] currency trigger
    [ledger_check_posting_currency]. *)
Definition InsertPosting (entry account : uuid) (amount : Z) (currency direction : string)
    : M Posting :=
  stmt (fun now rng d =>
    match PostingDirection_of_string direction with
    | None => (pg_err "22P02", 0%N, d)
    | Some dir =>
      match find_row (by_id acc_id account) (accounts d) with
      | None => (pg_err "P0001", 1%N, d)
      | Some a =>
        if negb (String.eqb currency (acc_currency a)) then (pg_err "P0001", 1%N, d)
        else if amount <=? 0 then (pg_err "23514", 1%N, d)
        else match find_row (by_id je_id entry) (journal_entries d) with
        | None => (pg_err "23503", 1%N, d)
        | Some _ =>
          if pk_taken p_id (gen_uuid rng) (postings d) then (pg_err "23505", 1%N, d) else
          let p := mkPosting (gen_uuid rng) entry account amount currency dir now in
          (Ok p, 1%N, set_postings d (postings d ++ [p]))
        end
      end
    end).

(** [ORDER BY code, currency]: [text_le] is the order of the database's collation. *)
Definition account_le (text_le : string -> string -> bool) (a b : Account) : bool :=
  if bool_decide (acc_code a = acc_code b) then text_le (acc_currency a) (acc_currency b)
  else text_le (acc_code a) (acc_code b).

Fixpoint insert_account (text_le : string -> string -> bool) (a : Account) (l : list Account) : list Account :=
  match l with
  | [] => [a]
  | b :: l' => if account_le text_le a b then a :: l else b :: insert_account text_le a l'
  end.

Definition ListAccounts (text_le : string -> string -> bool) : M (list Account) :=
  select (fun d => Ok (foldr (insert_account text_le) [] (accounts d))).

Definition ListJournalEntriesByIntent (intent : uuid) : M (list JournalEntry) :=
  select (fun d => Ok (order_by je_created_at
    (select_where (fun j => bool_decide (je_intent_id j = Some intent)) (journal_entries d)))).

Definition ListPostingsByEntry (entry : uuid) : M (list Posting) :=
  select (fun d => Ok (order_by p_created_at (order_by (fun p => Z.of_N (p_id p))
    (select_where (by_id p_entry_id entry) (postings d))))).

(** ** saga_runs.sql.go *)

Definition set_sr_step (step : string) (now : Z) (r : SagaRun) : SagaRun :=
  mkSagaRun (sr_id r) (sr_intent_id r) (sr_saga_kind r) step SPending 0 now None None None
    (sr_created_at r) now.

Definition AdvanceSagaStep (id : uuid) (step : string) : M SagaRun :=
  update_returning saga_runs set_saga_runs (by_id sr_id id) (set_sr_step step).

(** The [WHERE] clause of the claim. *)
Definition claimable (now : Z) (r : SagaRun) : bool :=
  bool_decide (sr_state r = SPending \/ sr_state r = SRunning) &&
  (sr_next_run_at r <=? now) &&
  match sr_lease_until r with None => true | Some t => t <? now end.

Definition set_sr_claimed (owner : string) (lease : Z) (now : Z) (r : SagaRun) : SagaRun :=
  mkSagaRun (sr_id r) (sr_intent_id r) (sr_saga_kind r) (sr_current_step r) SRunning
    (sr_step_attempts r) (sr_next_run_at r) (Some owner) (Some (now + lease))
    (sr_last_error r) (sr_created_at r) now.

Definition ClaimDueSagaRun (owner : string) (lease : Z) : M SagaRun :=
  stmt (fun now _ d =>
    match order_by sr_next_run_at (select_where (claimable now) (saga_runs d)) with
    | [] => (Err ErrNoRows, 0%N, d)
    | r :: _ =>
      (Ok (set_sr_claimed owner lease now r), 0%N,
       set_saga_runs d (update_where (by_id sr_id (sr_id r)) (set_sr_claimed owner lease now)
                          (saga_runs d)))
    end).

Definition set_sr_completed (now : Z) (r : SagaRun) : SagaRun :=
  mkSagaRun (sr_id r) (sr_intent_id r) (sr_saga_kind r) (sr_current_step r) SCompleted
    (sr_step_attempts r) (sr_next_run_at r) None None None (sr_created_at r) now.

Definition CompleteSagaRun (id : uuid) : M SagaRun :=
  update_returning saga_runs set_saga_runs (by_id sr_id id) set_sr_completed.

Definition run_of_intent (intent : uuid) (kind : string) (r : SagaRun) : bool :=
  N.eqb (sr_intent_id r) intent && String.eqb (sr_saga_kind r) kind.

Definition EnqueueSagaRun (intent : uuid) (kind step : string) : M SagaRun :=
  stmt (fun now rng d =>
    match find_row (run_of_intent intent kind) (saga_runs d) with
    | Some r => (Ok r, 1%N, d)
    | None =>
      match find_row (by_id pi_id intent) (payment_intents d) with
      | None => (pg_err "23503", 1%N, d)
      | Some _ =>
        if pk_taken sr_id (gen_uuid rng) (saga_runs d) then (pg_err "23505", 1%N, d) else
        let r := mkSagaRun (gen_uuid rng) intent kind step SPending 0 now None None None now now in
        (Ok r, 1%N, set_saga_runs d (saga_runs d ++ [r]))
      end
    end).

Definition set_sr_failed (msg : option string) (now : Z) (r : SagaRun) : SagaRun :=
  mkSagaRun (sr_id r) (sr_intent_id r) (sr_saga_kind r) (sr_current_step r) SFailed
    (sr_step_attempts r) (sr_next_run_at r) None None msg (sr_created_at r) now.

Definition FailSagaRun (id : uuid) (last_error : option string) : M SagaRun :=
  update_returning saga_runs set_saga_runs (by_id sr_id id) (set_sr_failed last_error).

Definition GetSagaRunByID (id : uuid) : M SagaRun :=
  select (fun d => one (find_row (by_id sr_id id) (saga_runs d))).

Definition GetSagaRunByIntent (intent : uuid) (kind : string) : M SagaRun :=
  select (fun d => one (find_row (run_of_intent intent kind) (saga_runs d))).

Definition ListSagaRunsByState (state : SagaState) (limit : Z) : M (list SagaRun) :=
  select (fun d => Ok (take (Z.to_nat limit) (order_by (fun r => - sr_created_at r)
    (select_where (fun r => bool_decide (sr_state r = state)) (saga_runs d))))).

Definition set_sr_retry (next : Z) (msg : option string) (now : Z) (r : SagaRun) : SagaRun :=
  mkSagaRun (sr_id r) (sr_intent_id r) (sr_saga_kind r) (sr_current_step r) SPending
    (sr_step_attempts r + 1) next None None msg (sr_created_at r) now.

Definition ScheduleSagaRetry (id : uuid) (next : Z) (last_error : option string) : M SagaRun :=
  update_checked saga_runs set_saga_runs (by_id sr_id id)
    (fun r => sr_step_attempts r + 1 <=? int32_max) (set_sr_retry next last_error).

(** ** payouts.sql.go *)

Definition payout_of_intent (intent : uuid) (p : Payout) : bool := N.eqb (po_intent_id p) intent.

Definition GetPayoutByIntent (intent : uuid) : M Payout :=
  select (fun d => one (find_row (payout_of_intent intent) (payouts d))).

Definition MarkPayoutFailed (id : uuid) (last_error : option string) : M Payout :=
  update_returning payouts set_payouts (by_id po_id id) (fun now p =>
    mkPayout (po_id p) (po_intent_id p) (po_rail p) (po_amount_idr p) PoFailed
      (po_rail_reference p) last_error (po_attempts p) (po_created_at p) now).

Definition MarkPayoutSubmitting (id : uuid) : M Payout :=
  update_checked payouts set_payouts (by_id po_id id)
    (fun p => po_attempts p + 1 <=? int32_max) (fun now p =>
    mkPayout (po_id p) (po_intent_id p) (po_rail p) (po_amount_idr p) PoSubmitting
      (po_rail_reference p) (po_last_error p) (po_attempts p + 1) (po_created_at p) now).

Definition MarkPayoutSucceeded (id : uuid) (rail_reference : option string) : M Payout :=
  update_returning payouts set_payouts (by_id po_id id) (fun now p =>
    mkPayout (po_id p) (po_intent_id p) (po_rail p) (po_amount_idr p) PoSucceeded
      rail_reference None (po_attempts p) (po_created_at p) now).

Definition ResetPayoutToPending (id : uuid) (last_error : option string) : M Payout :=
  update_returning payouts set_payouts (by_id po_id id) (fun now p =>
    mkPayout (po_id p) (po_intent_id p) (po_rail p) (po_amount_idr p) PoPending
      (po_rail_reference p) last_error (po_attempts p) (po_created_at p) now).

(** [id DEFAULT gen_random_uuid()] is evaluated before the conflict is seen. *)
Definition UpsertPayout (intent : uuid) (rail : string) (amount : Z) : M Payout :=
  stmt (fun now rng d =>
    if amount <=? 0 then (pg_err "23514", 1%N, d)
    else match find_row (payout_of_intent intent) (payouts d) with
    | Some p => (Ok p, 1%N, d)
    | None =>
      match find_row (by_id pi_id intent) (payment_intents d) with
      | None => (pg_err "23503", 1%N, d)
      | Some _ =>
        if pk_taken po_id (gen_uuid rng) (payouts d) then (pg_err "23505", 1%N, d) else
        let p := mkPayout (gen_uuid rng) intent rail amount PoPending None None 0 now now in
        (Ok p, 1%N, set_payouts d (payouts d ++ [p]))
      end
    end).

(** ** payment_intents.sql.go *)

Definition intent_by_ref (merchant : uuid) (ref : string) (p : PaymentIntent) : bool :=
  N.eqb (pi_merchant_id p) merchant && String.eqb (pi_external_ref p) ref.

Definition CreatePaymentIntent (merchant : uuid) (external_ref : string) (amount_idr quoted : Z)
    (quote : uuid) (state : PaymentIntentState) (ref_pub ref_secret ata : option string)
    : M PaymentIntent :=
  stmt (fun now rng d =>
    if negb (text_ok external_ref) then (pg_err "22021", 0%N, d)
    else if (amount_idr <=? 0) || (quoted <=? 0) then (pg_err "23514", 1%N, d)
    else match find_row (intent_by_ref merchant external_ref) (payment_intents d) with
    | Some _ => (pg_err "23505", 1%N, d)
    | None =>
      match find_row (by_id m_id merchant) (merchants d), find_row (by_id q_id quote) (quotes d) with
      | Some _, Some _ =>
        if pk_taken pi_id (gen_uuid rng) (payment_intents d) then (pg_err "23505", 1%N, d) else
        let p := mkPaymentIntent (gen_uuid rng) merchant external_ref amount_idr quoted quote
                   ref_pub ref_secret ata state now now in
        (Ok p, 1%N, set_payment_intents d (payment_intents d ++ [p]))
      | _, _ => (pg_err "23503", 1%N, d)
      end
    end).

Definition GetPaymentIntentByID (id : uuid) : M PaymentIntent :=
  select (fun d => one (find_row (by_id pi_id id) (payment_intents d))).

Definition GetPaymentIntentByMerchantRef (merchant : uuid) (ref : string) : M PaymentIntent :=
  select (fun d => if text_ok ref then one (find_row (intent_by_ref merchant ref) (payment_intents d))
                   else pg_err "22021").

Definition ListActiveReferenceIntents : M (list (uuid * option string)) :=
  select (fun d => Ok ((fun p => (pi_id p, pi_reference_pubkey p)) <$>
    order_by pi_created_at
      (select_where (fun p => bool_decide (pi_state p = IPending \/ pi_state p = IFunded) &&
                              bool_decide (is_Some (pi_reference_pubkey p)))
         (payment_intents d)))).

Definition ListPaymentIntentsRecent (limit : Z) : M (list PaymentIntent) :=
  select (fun d => Ok (take (Z.to_nat limit)
    (order_by (fun p => - pi_created_at p) (payment_intents d)))).

Definition set_pi_reference (pub secret ata : option string) (now : Z) (p : PaymentIntent)
    : PaymentIntent :=
  mkPaymentIntent (pi_id p) (pi_merchant_id p) (pi_external_ref p) (pi_amount_idr p)
    (pi_quoted_amount_usdc p) (pi_quote_id p) pub secret ata (pi_state p) (pi_created_at p) now.

Definition UpdatePaymentIntentReference (id : uuid) (pub secret ata : option string)
    : M PaymentIntent :=
  update_returning payment_intents set_payment_intents (by_id pi_id id)
    (set_pi_reference pub secret ata).

Definition set_pi_state (state : PaymentIntentState) (now : Z) (p : PaymentIntent) : PaymentIntent :=
  mkPaymentIntent (pi_id p) (pi_merchant_id p) (pi_external_ref p) (pi_amount_idr p)
    (pi_quoted_amount_usdc p) (pi_quote_id p) (pi_reference_pubkey p) (pi_reference_secret_enc p)
    (pi_recipient_ata p) state (pi_created_at p) now.

Definition UpdatePaymentIntentState (id : uuid) (state : PaymentIntentState) : M PaymentIntent :=
  update_returning payment_intents set_payment_intents (by_id pi_id id) (set_pi_state state).

(** ** quotes.sql.go *)

Definition CreateQuote (pair : string) (rate_num rate_scale spread_bps expires_at : Z)
    (signature : string) : M Quote :=
  stmt (fun now rng d =>
    if (rate_num <=? 0) || (rate_scale <? 0) || (18 <? rate_scale) ||
       (spread_bps <? 0) || (10000 <? spread_bps)
    then (pg_err "23514", 1%N, d)
    else
      if pk_taken q_id (gen_uuid rng) (quotes d) then (pg_err "23505", 1%N, d) else
      let q := mkQuote (gen_uuid rng) pair rate_num rate_scale spread_bps (to_micros expires_at) signature now in
      (Ok q, 1%N, set_quotes d (quotes d ++ [q]))).

Definition GetQuote (id : uuid) : M Quote :=
  select (fun d => one (find_row (by_id q_id id) (quotes d))).

(** ** onchain_payments.sql.go *)

Definition payment_by_sig (sig : string) (p : OnchainPayment) : bool :=
  String.eqb (op_signature p) sig.

Definition payment_of_intent (intent : uuid) (p : OnchainPayment) : bool :=
  bool_decide (op_intent_id p = Some intent).

Definition CountOnchainPaymentsByIntent (intent : uuid) : M Z :=
  select (fun d => Ok (Z.of_nat (length
    (select_where (payment_of_intent intent) (onchain_payments d))))).

Definition GetFinalizedDepositForIntent (intent : uuid) : M OnchainPayment :=
  select (fun d => one (head (order_by op_created_at
    (select_where (fun p => payment_of_intent intent p && bool_decide (op_commitment p = CFinalized))
       (onchain_payments d))))).

Definition GetOnchainPaymentBySignature (sig : string) : M OnchainPayment :=
  select (fun d => one (find_row (payment_by_sig sig) (onchain_payments d))).

Definition ListOnchainPaymentsByIntent (intent : uuid) : M (list OnchainPayment) :=
  select (fun d => Ok (order_by op_created_at
    (select_where (payment_of_intent intent) (onchain_payments d)))).

Definition ListUnfinalizedOnchainPayments (limit : Z) : M (list OnchainPayment) :=
  select (fun d => Ok (take (Z.to_nat limit) (order_by op_created_at
    (select_where (fun p => negb (bool_decide (op_commitment p = CFinalized)))
       (onchain_payments d))))).

(** The [DO UPDATE] of the upsert: the commitment only moves forward, an intent
    once linked stays linked. *)
Definition merge_payment (commitment : SolanaCommitment) (intent : option uuid) (now : Z)
    (p : OnchainPayment) : OnchainPayment :=
  mkOnchainPayment (op_signature p) (op_slot p) (op_block_time p) (op_from_ata p) (op_to_ata p)
    (op_mint p) (op_amount p) (op_reference_pubkey p)
    (if commitment_rank (op_commitment p) <? commitment_rank commitment
     then commitment else op_commitment p)
    (match op_intent_id p with Some i => Some i | None => intent end)
    (op_created_at p) now.

Definition intent_exists (d : DB) (intent : option uuid) : bool :=
  match intent with
  | None => true
  | Some i => bool_decide (is_Some (find_row (by_id pi_id i) (payment_intents d)))
  end.

Definition UpsertOnchainPayment (sig : string) (slot : Z) (block_time : option Z)
    (from_ata to_ata mint : string) (amount : Z) (ref_pub : option string)
    (commitment : SolanaCommitment) (intent : option uuid) : M OnchainPayment :=
  stmt (fun now _ d =>
    if (slot <? 0) || (amount <=? 0) then (pg_err "23514", 0%N, d)
    else match find_row (payment_by_sig sig) (onchain_payments d) with
    | Some p =>
      let p' := merge_payment commitment intent now p in
      if intent_exists d (op_intent_id p') then
        (Ok p', 0%N, set_onchain_payments d
           (update_where (payment_by_sig sig) (merge_payment commitment intent now)
              (onchain_payments d)))
      else (pg_err "23503", 0%N, d)
    | None =>
      let p := mkOnchainPayment sig slot block_time from_ata to_ata mint amount ref_pub
                 commitment intent now now in
      if intent_exists d intent then
        (Ok p, 0%N, set_onchain_payments d (onchain_payments d ++ [p]))
      else (pg_err "23503", 0%N, d)
    end).

(** ** outbox.sql.go *)

Definition outbox_due (topic : string) (now : Z) (o : Outbox) : bool :=
  String.eqb (ob_topic o) topic && bool_decide (ob_delivered_at o = None) &&
  (ob_next_attempt_at o <=? now).

Definition ClaimDueOutbox (topic : string) (limit : Z) : M (list Outbox) :=
  stmt (fun now _ d =>
    (Ok (take (Z.to_nat limit) (order_by ob_next_attempt_at
           (select_where (outbox_due topic now) (outbox d)))), 0%N, d)).

Definition GetOutboxByID (id : uuid) : M Outbox :=
  select (fun d => one (find_row (by_id ob_id id) (outbox d))).

Definition ListOutboxByAggregate (agg : uuid) : M (list Outbox) :=
  select (fun d => Ok (order_by ob_created_at
    (select_where (fun o => bool_decide (ob_aggregate_id o = Some agg)) (outbox d)))).

Definition ListUndeliveredOutbox (limit : Z) : M (list Outbox) :=
  select (fun d => Ok (take (Z.to_nat limit) (order_by ob_created_at
    (select_where (fun o => bool_decide (ob_delivered_at o = None)) (outbox d))))).

Definition set_ob_delivered (now : Z) (o : Outbox) : Outbox :=
  mkOutbox (ob_id o) (ob_topic o) (ob_aggregate_id o) (ob_payload o) (ob_headers o)
    (ob_created_at o) (ob_next_attempt_at o) (Some now) (ob_attempts o) None.

Definition MarkOutboxDelivered (id : uuid) : M Outbox :=
  update_returning outbox set_outbox (by_id ob_id id) set_ob_delivered.

Definition PublishOutbox (topic : string) (agg : option uuid) (payload headers : json) : M Outbox :=
  stmt (fun now rng d =>
    if pk_taken ob_id (gen_uuid rng) (outbox d) then (pg_err "23505", 1%N, d) else
    let o := mkOutbox (gen_uuid rng) topic agg payload headers now now None 0 None in
    (Ok o, 1%N, set_outbox d (outbox d ++ [o]))).

Definition set_ob_retry (next : Z) (msg : option string) (o : Outbox) : Outbox :=
  mkOutbox (ob_id o) (ob_topic o) (ob_aggregate_id o) (ob_payload o) (ob_headers o)
    (ob_created_at o) next (ob_delivered_at o) (ob_attempts o + 1) msg.

Definition ScheduleOutboxRetry (id : uuid) (next : Z) (last_error : option string) : M Outbox :=
  update_checked outbox set_outbox (by_id ob_id id)
    (fun o => ob_attempts o + 1 <=? int32_max) (fun _ => set_ob_retry next last_error).

(** ** idempotency.sql.go *)

Definition idem_key (merchant : uuid) (key : string) (k : IdempotencyKey) : bool :=
  N.eqb (ik_merchant_id k) merchant && String.eqb (ik_key k) key.

Definition DeleteExpiredIdempotencyKeys (created_before : Z) : M Z :=
  stmt (fun _ _ d =>
    let old k := ik_created_at k <? created_before in
    (Ok (Z.of_nat (length (select_where old (idempotency_keys d)))), 0%N,
     set_idempotency_keys d (select_where (fun k => negb (old k)) (idempotency_keys d)))).

Definition GetIdempotencyKey (merchant : uuid) (key : string) : M IdempotencyKey :=
  select (fun d => if text_ok key then one (find_row (idem_key merchant key) (idempotency_keys d))
                   else pg_err "22021").

Definition InsertIdempotencyKey (merchant : uuid) (key hash : string) (status : Z) (resp : string)
    : M IdempotencyKey :=
  stmt (fun now _ d =>
    if negb (text_ok key) then (pg_err "22021", 0%N, d)
    else match find_row (idem_key merchant key) (idempotency_keys d) with
    | Some _ => (Err ErrNoRows, 0%N, d)
    | None =>
      let k := mkIdempotencyKey merchant key hash status resp now in
      (Ok k, 0%N, set_idempotency_keys d (idempotency_keys d ++ [k]))
    end).

(** ** auth.sql.go *)

Definition CreateAPIKey (merchant : uuid) (key_id secret_hash : string) : M ApiKey :=
  stmt (fun now rng d =>
    if negb (text_ok key_id) then (pg_err "22021", 0%N, d) else
    match find_row (fun k => String.eqb (ak_key_id k) key_id) (api_keys d) with
    | Some _ => (pg_err "23505", 1%N, d)
    | None =>
      match find_row (by_id m_id merchant) (merchants d) with
      | None => (pg_err "23503", 1%N, d)
      | Some _ =>
        if pk_taken ak_id (gen_uuid rng) (api_keys d) then (pg_err "23505", 1%N, d) else
        let k := mkApiKey (gen_uuid rng) merchant key_id secret_hash now None in
        (Ok k, 1%N, set_api_keys d (api_keys d ++ [k]))
      end
    end).

Definition CreateMerchant (name : string) : M Merchant :=
  stmt (fun now rng d =>
    if negb (text_ok name) then (pg_err "22021", 0%N, d) else
    if pk_taken m_id (gen_uuid rng) (merchants d) then (pg_err "23505", 1%N, d) else
    let m := mkMerchant (gen_uuid rng) name now None None None None None in
    (Ok m, 1%N, set_merchants d (merchants d ++ [m]))).

Definition GetActiveAPIKeyByKeyID (key_id : string) : M (ApiKey * string) :=
  select (fun d =>
    if negb (text_ok key_id) then pg_err "22021"
    else match find_row (fun k => String.eqb (ak_key_id k) key_id &&
                             bool_decide (ak_revoked_at k = None)) (api_keys d) with
    | None => Err ErrNoRows
    | Some k => match find_row (by_id m_id (ak_merchant_id k)) (merchants d) with
                | None => Err ErrNoRows
                | Some m => Ok (k, m_name m)
                end
    end).

Definition GetMerchantByID (id : uuid) : M Merchant :=
  select (fun d => one (find_row (by_id m_id id) (merchants d))).

Definition GetMerchantWebhookConfig (id : uuid) : M (uuid * option string * option string) :=
  select (fun d => one ((fun m => (m_id m, m_webhook_url m, m_webhook_secret m)) <$>
                        find_row (by_id m_id id) (merchants d))).
End queries.

Lemma pk_taken_false {A} (id_of : A -> uuid) id t :
  pk_taken id_of id t = false -> id ∉ id_of <$> t.
Proof.
  intros Hf (r & -> & Hr)%list_elem_of_fmap. apply not_true_iff_false in Hf. apply Hf, existsb_exists.
  exists r. split; [by apply list_elem_of_In|]. apply N.eqb_refl.
Qed.

(** ** Footprints

    A relation on databases is kept by every statement that writes only a table
    the relation does not constrain. *)

Ltac solve_footprint :=
  intros; apply keeps_stmt; [apply _|]; intros; simpl; repeat case_match; simpl;
  first [reflexivity | apply frame_table].

Section footprints.
Context `{Env} (R : DB -> DB -> Prop) `{!PreOrder R}.

Lemma keeps_AdvanceSagaStep `{!Frames R set_saga_runs} id s : keeps R (AdvanceSagaStep id s).
Proof. solve_footprint. Qed.
Lemma keeps_ClaimDueSagaRun `{!Frames R set_saga_runs} o l : keeps R (ClaimDueSagaRun o l).
Proof. solve_footprint. Qed.
Lemma keeps_CompleteSagaRun `{!Frames R set_saga_runs} id : keeps R (CompleteSagaRun id).
Proof. solve_footprint. Qed.
Lemma keeps_EnqueueSagaRun `{!Frames R set_saga_runs} i k s : keeps R (EnqueueSagaRun i k s).
Proof. solve_footprint. Qed.
Lemma keeps_FailSagaRun `{!Frames R set_saga_runs} id e : keeps R (FailSagaRun id e).
Proof. solve_footprint. Qed.
Lemma keeps_ScheduleSagaRetry `{!Frames R set_saga_runs} id t e : keeps R (ScheduleSagaRetry id t e).
Proof. solve_footprint. Qed.
Lemma keeps_MarkPayoutFailed `{!Frames R set_payouts} id e : keeps R (MarkPayoutFailed id e).
Proof. solve_footprint. Qed.
Lemma keeps_MarkPayoutSubmitting `{!Frames R set_payouts} id : keeps R (MarkPayoutSubmitting id).
Proof. solve_footprint. Qed.
Lemma keeps_MarkPayoutSucceeded `{!Frames R set_payouts} id r : keeps R (MarkPayoutSucceeded id r).
Proof. solve_footprint. Qed.
Lemma keeps_ResetPayoutToPending `{!Frames R set_payouts} id e : keeps R (ResetPayoutToPending id e).
Proof. solve_footprint. Qed.
Lemma keeps_UpsertPayout `{!Frames R set_payouts} i r a : keeps R (UpsertPayout i r a).
Proof. solve_footprint. Qed.
Lemma keeps_CreatePaymentIntent `{!Frames R set_payment_intents} m e a q i s p k t :
  keeps R (CreatePaymentIntent m e a q i s p k t).
Proof. solve_footprint. Qed.
Lemma keeps_UpdatePaymentIntentReference `{!Frames R set_payment_intents} id p k t :
  keeps R (UpdatePaymentIntentReference id p k t).
Proof. solve_footprint. Qed.
Lemma keeps_UpdatePaymentIntentState `{!Frames R set_payment_intents} id s :
  keeps R (UpdatePaymentIntentState id s).
Proof. solve_footprint. Qed.
Lemma keeps_CreateQuote `{!Frames R set_quotes} p n s b e g : keeps R (CreateQuote p n s b e g).
Proof. solve_footprint. Qed.
Lemma keeps_UpsertOnchainPayment `{!Frames R set_onchain_payments} s l b f t m a r c i :
  keeps R (UpsertOnchainPayment s l b f t m a r c i).
Proof. solve_footprint. Qed.
Lemma keeps_ClaimDueOutbox t l : keeps R (ClaimDueOutbox t l).
Proof. solve_footprint. Qed.
Lemma keeps_MarkOutboxDelivered `{!Frames R set_outbox} id : keeps R (MarkOutboxDelivered id).
Proof. solve_footprint. Qed.
Lemma keeps_PublishOutbox `{!Frames R set_outbox} t a p h : keeps R (PublishOutbox t a p h).
Proof. solve_footprint. Qed.
Lemma keeps_ScheduleOutboxRetry `{!Frames R set_outbox} id t e : keeps R (ScheduleOutboxRetry id t e).
Proof. solve_footprint. Qed.
Lemma keeps_CreateAccount `{!Frames R set_accounts} c t k : keeps R (CreateAccount c t k).
Proof. solve_footprint. Qed.
Lemma keeps_CreateJournalEntry `{!Frames R set_journal_entries} e k s i :
  keeps R (CreateJournalEntry e k s i).
Proof. solve_footprint. Qed.
Lemma keeps_InsertPosting `{!Frames R set_postings} e a m c t : keeps R (InsertPosting e a m c t).
Proof. solve_footprint. Qed.
Lemma keeps_InsertIdempotencyKey `{!Frames R set_idempotency_keys} m k h s r :
  keeps R (InsertIdempotencyKey m k h s r).
Proof. solve_footprint. Qed.
End footprints.

#[export] Hint Resolve
  keeps_AdvanceSagaStep keeps_ClaimDueSagaRun keeps_CompleteSagaRun keeps_EnqueueSagaRun
  keeps_FailSagaRun keeps_ScheduleSagaRetry keeps_MarkPayoutFailed keeps_MarkPayoutSubmitting
  keeps_MarkPayoutSucceeded keeps_ResetPayoutToPending keeps_UpsertPayout
  keeps_CreatePaymentIntent keeps_UpdatePaymentIntentReference keeps_UpdatePaymentIntentState
  keeps_CreateQuote keeps_UpsertOnchainPayment keeps_ClaimDueOutbox keeps_MarkOutboxDelivered
  keeps_PublishOutbox keeps_ScheduleOutboxRetry keeps_CreateAccount keeps_CreateJournalEntry
  keeps_InsertPosting keeps_InsertIdempotencyKey : keeps.

(** Read-only statements keep everything. *)
#[export] Hint Extern 3 (keeps _ (_ _)) => apply keeps_select; apply _ : keeps.
