(* ===== verification/Ledger.v ===== *)
(** * The double-entry ledger ([internal/ledger])

    [Validate], [Post] and [PostTx] as the code runs them, the chart of accounts
    seeded by the migrations, and the invariants the books keep: every entry is
    balanced per currency and every posting is in the currency of its account. *)

From S2P Require Import Prelude GoStr MockBank Models World Queries.

(** ** chart.go, errors.go, types.go *)

Definition AccountHotWalletUSDC := "asset_hot_wallet_usdc".
Definition AccountLiabilityUserFunds := "liability_user_funds_usdc".
Definition AccountMerchantPayableIDR := "merchant_payable_idr".
Definition AccountCashOutIDR := "asset_cash_out_idr".
Definition AccountRevenueFXSpreadIDR := "revenue_fx_spread_idr".
Definition AccountExpenseNetworkFee := "expense_network_fee_usdc".
Definition AccountExpenseFXSwapIDR := "expense_fx_swap_idr".
Definition AccountEquityFXSettlement := "equity_fx_settlement_usdc".

Definition CurrencyUSDC := "USDC".
Definition CurrencyIDR := "IDR".

Definition ErrNoLines := ErrSentinel "ledger: entry must have at least one posting line".
Definition ErrNonPositiveAmount := ErrSentinel "ledger: posting amount must be positive".
Definition ErrUnbalanced :=
  ErrSentinel "ledger: entry is unbalanced (sum of debits must equal sum of credits per currency)".
Definition ErrInvalidDirection := ErrSentinel "ledger: direction must be debit or credit".
Definition ErrEmptyCurrency := ErrSentinel "ledger: posting currency must not be empty".
Definition ErrEmptyExternalRef := ErrSentinel "ledger: external_ref must not be empty".
Definition ErrEmptyKind := ErrSentinel "ledger: kind must not be empty".
Definition ErrAccountNotFound := ErrSentinel "ledger: account not found".
Definition ErrDuplicateExternalRef := ErrSentinel "ledger: external_ref already exists".

Definition Debit := "debit".
Definition Credit := "credit".

Record Line := mkLine {
  AccountID : uuid;
  Amount : Z;
  Currency : string;
  Direction : string
}.

Record Entry := mkEntry {
  ExternalRef : string;
  Kind : string;
  Description : string;
  IntentID : option uuid;
  Lines : list Line
}.

(** [ledger.JournalEntry]. *)
Record LJournalEntry := mkLJournalEntry {
  lje_id : uuid; lje_external_ref : string; lje_kind : string;
  lje_description : string; lje_intent_id : option uuid; lje_created_at : Z
}.

(** [ledger.Balance]. *)
Record Balance := mkBalance {
  bal_account : uuid; bal_code : string; bal_type : AccountType;
  bal_currency : string; bal_amount : Z
}.

(** ** validate.go *)

(** The loop over the lines: [sums[l.Currency] += l.Amount] in [int64]. *)
Fixpoint validate_lines (ls : list Line) (sums : gmap string Z) : res (gmap string Z) :=
  match ls with
  | [] => Ok sums
  | l :: ls' =>
    if Amount l <=? 0 then Err ErrNonPositiveAmount
    else if is_blank (Currency l) then Err ErrEmptyCurrency
    else
      let old := default 0 (sums !! Currency l) in
      if String.eqb (Direction l) Debit then
        validate_lines ls' (<[Currency l := wrap64 (old + Amount l)]> sums)
      else if String.eqb (Direction l) Credit then
        validate_lines ls' (<[Currency l := wrap64 (old - Amount l)]> sums)
      else Err ErrInvalidDirection
  end.

Definition Validate (e : Entry) : res unit :=
  if is_blank (ExternalRef e) then Err ErrEmptyExternalRef
  else if is_blank (Kind e) then Err ErrEmptyKind
  else match Lines e with
  | [] => Err ErrNoLines
  | ls =>
    match validate_lines ls ∅ with
    | Err er => Err er
    | Ok sums =>
      if forallb (fun kv => kv.2 =? 0) (map_to_list sums) then Ok tt else Err ErrUnbalanced
    end
  end.

(** ** ledger.go *)

Definition toJournalEntry (j : JournalEntry) : LJournalEntry :=
  mkLJournalEntry (je_id j) (je_external_ref j) (je_kind j)
    (default "" (je_description j)) (je_intent_id j) (je_created_at j).

Section ledger.
Context `{Env}.

Fixpoint insert_lines (entry : uuid) (ls : list Line) : M unit :=
  match ls with
  | [] => mret tt
  | l :: ls' =>
    _ ← map_err (ErrWrap "insert posting")
          (InsertPosting entry (AccountID l) (Amount l) (Currency l) (Direction l));
    insert_lines entry ls'
  end.

Definition postWith (e : Entry) : M LJournalEntry :=
  r ← try (GetJournalEntryByExternalRef (ExternalRef e));
  match r with
  | Ok existing => mret (toJournalEntry existing)
  | Err er =>
    if negb (errors_is ErrNoRows er) then throw (ErrWrap "lookup external_ref" er)
    else
      let desc := if String.eqb (Description e) "" then None else Some (Description e) in
      created ← map_err
        (fun er => if bool_decide (er = ErrPg "23505") then ErrDuplicateExternalRef
                   else ErrWrap "create journal entry" er)
        (CreateJournalEntry (ExternalRef e) (Kind e) desc (IntentID e));
      _ ← insert_lines (je_id created) (Lines e);
      mret (toJournalEntry created)
  end.

Definition Post (e : Entry) : M LJournalEntry :=
  _ ← lift_res (Validate e);
  with_tx "begin tx" "commit" (postWith e).

(** Inside the caller's transaction. *)
Definition PostTx (e : Entry) : M LJournalEntry :=
  _ ← lift_res (Validate e);
  postWith e.

Definition account_not_found (msg : string) (e : err) : err :=
  if errors_is ErrNoRows e then ErrAccountNotFound else ErrWrap msg e.

Definition GetAccountByCodeTx (code currency : string) : M Account :=
  map_err (account_not_found "get account by code") (GetAccountByCodeCurrency code currency).

Definition Ledger_CreateAccount (code accType currency : string) : M Account :=
  map_err (ErrWrap "create account") (CreateAccount code accType currency).

Definition GetAccount (id : uuid) : M Account :=
  map_err (account_not_found "get account") (GetAccountByID id).

Definition BalanceOf (id : uuid) : M Balance :=
  row ← map_err (account_not_found "balance") (AccountBalance id);
  mret (mkBalance (abr_id row) (abr_code row) (abr_type row) (abr_currency row) (abr_balance row)).

Definition ListPostings (entry : uuid) : M (list Posting) :=
  map_err (ErrWrap "list postings") (ListPostingsByEntry entry).
End ledger.

(** ** Specification *)

(** Mathematical sum of the lines of an entry in a currency. *)
Definition line_diff (c : string) (l : Line) : Z :=
  if String.eqb (Currency l) c then
    (if String.eqb (Direction l) Debit then Amount l else - Amount l)
  else 0.

Definition line_sum (c : string) (ls : list Line) : Z := Zsum (line_diff c) ls.

Definition line_ok (l : Line) : Prop :=
  0 < Amount l /\ is_blank (Currency l) = false /\ (Direction l = Debit \/ Direction l = Credit).

(** Well-formedness of the three ledger tables. *)
Record ledger_wf (d : DB) : Prop := {
  wf_account_ids : NoDup (acc_id <$> accounts d);
  wf_account_codes : NoDup ((fun a => (acc_code a, acc_currency a)) <$> accounts d);
  wf_entry_refs : NoDup (je_external_ref <$> journal_entries d);
  wf_postings : forall p, p ∈ postings d ->
    0 < p_amount p /\
    (exists a, a ∈ accounts d /\ acc_id a = p_account_id p /\ acc_currency a = p_currency p) /\
    (exists j, j ∈ journal_entries d /\ je_id j = p_entry_id p)
}.

Definition balanced (d : DB) : Prop := forall e c, entry_diff d e c = 0.

(** The books of a committed database. *)
Definition books_ok (d : DB) : Prop := ledger_wf d /\ balanced d.

(** The ledger is append-only, and stays well formed. *)
Definition ledger_ext (d d' : DB) : Prop :=
  accounts d `prefix_of` accounts d' /\
  journal_entries d `prefix_of` journal_entries d' /\
  postings d `prefix_of` postings d' /\
  (ledger_wf d -> ledger_wf d').

(** The ledger tables are untouched. *)
Definition same_ledger (d d' : DB) : Prop :=
  accounts d' = accounts d /\ journal_entries d' = journal_entries d /\ postings d' = postings d.

(** ** Validate *)

Lemma line_sum_cons c l ls : line_sum c (l :: ls) = line_diff c l + line_sum c ls.
Proof. done. Qed.

Lemma default_insert c k (v : Z) (m : gmap string Z) :
  default 0 (<[k := v]> m !! c) = if String.eqb k c then v else default 0 (m !! c).
Proof. destruct (String.eqb_spec k c) as [->|]; by simplify_map_eq. Qed.

(** One pass over the lines accumulates, per currency, the 64-bit image of the
    sum of the lines. *)
Lemma validate_lines_spec ls sums :
  (forall c, is_int64 (default 0 (sums !! c)) = true) ->
  match validate_lines ls sums with
  | Ok sums' => Forall line_ok ls /\
      forall c, default 0 (sums' !! c) = wrap64 (default 0 (sums !! c) + line_sum c ls)
  | Err _ => ¬ Forall line_ok ls
  end.
Proof.
  revert sums. induction ls as [|l ls IH]; intros sums Hs; simpl.
  { split; [constructor|]. intros c. unfold line_sum. simpl. rewrite Z.add_0_r, wrap64_id; auto. }
  assert (forall k, (k = Amount l /\ Direction l = Debit \/ k = - Amount l /\ Direction l = Credit) ->
    0 < Amount l -> is_blank (Currency l) = false ->
    match validate_lines ls (<[Currency l := wrap64 (default 0 (sums !! Currency l) + k)]> sums) with
    | Ok sums' => Forall line_ok (l :: ls) /\
        forall c, default 0 (sums' !! c) = wrap64 (default 0 (sums !! c) + line_sum c (l :: ls))
    | Err _ => ¬ Forall line_ok (l :: ls)
    end) as Hstep.
  { intros k Hk Hpos Hb. specialize (IH (<[Currency l := wrap64 (default 0 (sums !! Currency l) + k)]> sums)).
    destruct (validate_lines ls _) as [sums'|er].
    - destruct IH as [Hall Hsum]. { intros c. rewrite default_insert. case_match; auto using wrap64_range. }
      split. { constructor; [|done]. split; [done|]. split; [done|]. naive_solver. }
      intros c. rewrite Hsum, line_sum_cons, default_insert. unfold line_diff.
      destruct (String.eqb_spec (Currency l) c) as [<-|]; [|f_equal; lia].
      rewrite wrap64_add_l. destruct Hk as [[-> ->]|[-> ->]]; simpl; f_equal; lia.
    - intros Hall. inversion Hall; subst. apply IH; [|done].
      intros c. rewrite default_insert. case_match; auto using wrap64_range. }
  destruct (Amount l <=? 0) eqn:?; bools. { intros Hall. inversion Hall as [|?? [? ?] ?]. lia. }
  destruct (is_blank (Currency l)) eqn:?. { intros Hall. inversion Hall as [|?? (? & ? & ?) ?]. congruence. }
  destruct (String.eqb_spec (Direction l) Debit) as [Hd|]; [by apply Hstep; auto|].
  destruct (String.eqb_spec (Direction l) Credit) as [Hc|]; [by apply (Hstep (- Amount l)); auto|].
  intros Hall. inversion Hall as [|?? (? & ? & [?|?]) ?]; congruence.
Qed.

Lemma all_zero_spec (m : gmap string Z) :
  forallb (fun kv => kv.2 =? 0) (map_to_list m) = true <-> forall c, default 0 (m !! c) = 0.
Proof.
  rewrite forallb_forall. split.
  - intros Hz c. destruct (m !! c) as [v|] eqn:E; [|done]. simpl.
    apply elem_of_map_to_list, list_elem_of_In in E. apply Hz in E. simpl in E. lia.
  - intros Hz [k v] E%list_elem_of_In%elem_of_map_to_list. specialize (Hz k). rewrite E in Hz. simpl in *. lia.
Qed.

Lemma validate_iff e :
  Validate e = Ok tt <->
    is_blank (ExternalRef e) = false /\ is_blank (Kind e) = false /\ Lines e <> [] /\
    Forall line_ok (Lines e) /\ forall c, line_sum c (Lines e) mod 2 ^ 64 = 0.
Proof.
  unfold Validate. destruct (is_blank (ExternalRef e)); [naive_solver|].
  destruct (is_blank (Kind e)); [naive_solver|]. destruct (Lines e) as [|l ls]; [naive_solver|].
  pose proof (validate_lines_spec (l :: ls) ∅) as Hs.
  destruct (validate_lines (l :: ls) ∅) as [sums|er].
  - destruct Hs as [Hok Hsum]; [done|]. destruct (forallb _ _) eqn:Hz.
    + split; [|done]. intros _. repeat split; try done. intros c. apply wrap64_zero.
      pose proof (proj1 (all_zero_spec sums) Hz c) as H0. by rewrite Hsum, lookup_empty in H0.
    + split; [done|]. intros (_ & _ & _ & _ & Hm). exfalso. apply not_true_iff_false in Hz.
      apply Hz, all_zero_spec. intros c. rewrite Hsum, lookup_empty. apply wrap64_zero, Hm.
  - split; [done|]. intros (_ & _ & _ & Hok & _). exfalso. by apply Hs.
Qed.

(** [Validate] accepts exactly the entries with a non-blank reference and
    kind, at least one line, only positive amounts in a named currency with a
    debit or credit direction, and a sum per currency that vanishes modulo
    [2^64] (the sums are kept in [int64]). *)
Theorem Validate_accepts e :
  Validate e = Ok tt <->
    is_blank (ExternalRef e) = false /\ is_blank (Kind e) = false /\ Lines e <> [] /\
    Forall line_ok (Lines e) /\ forall c, line_sum c (Lines e) mod 2 ^ 64 = 0.
Proof. apply validate_iff. Qed.

(** ** What the statements do to the ledger *)

#[global] Instance ledger_ext_preorder : PreOrder ledger_ext.
Proof.
  split.
  - intros d. split_and!; try reflexivity. done.
  - intros d1 d2 d3 (?&?&?&?) (?&?&?&?). split_and!; try by etransitivity. auto.
Qed.

#[global] Instance same_ledger_preorder : PreOrder same_ledger.
Proof.
  split; [done|]. intros d1 d2 d3 (?&?&?) (?&?&?). split_and!; congruence.
Qed.

Lemma same_ledger_ext d d' : same_ledger d d' -> ledger_ext d d'.
Proof.
  intros (Ha & Hj & Hp). unfold ledger_ext. rewrite Ha, Hj, Hp. split_and!; try reflexivity.
  intros []. by constructor; rewrite ?Ha, ?Hj, ?Hp.
Qed.

Lemma keeps_same_ledger_ext {A} (m : M A) : keeps same_ledger m -> keeps ledger_ext m.
Proof. intros Hm w. by apply same_ledger_ext. Qed.

#[global] Instance same_ledger_frame_saga : Frames same_ledger set_saga_runs. Proof. done. Qed.
#[global] Instance same_ledger_frame_payouts : Frames same_ledger set_payouts. Proof. done. Qed.
#[global] Instance same_ledger_frame_intents : Frames same_ledger set_payment_intents. Proof. done. Qed.
#[global] Instance same_ledger_frame_quotes : Frames same_ledger set_quotes. Proof. done. Qed.
#[global] Instance same_ledger_frame_onchain : Frames same_ledger set_onchain_payments. Proof. done. Qed.
#[global] Instance same_ledger_frame_outbox : Frames same_ledger set_outbox. Proof. done. Qed.
#[global] Instance same_ledger_frame_idem : Frames same_ledger set_idempotency_keys. Proof. done. Qed.
#[global] Instance ledger_ext_frames {T} (set : DB -> list T -> DB) :
  Frames same_ledger set -> Frames ledger_ext set.
Proof. intros F d t. apply same_ledger_ext, F. Qed.

Section ledger_frames.
Context `{Env}.

Lemma keeps_ext_CreateAccount c t k : keeps ledger_ext (CreateAccount c t k).
Proof.
  apply keeps_stmt; [apply _|]. intros now rng d. simpl. repeat case_match; simpl; try reflexivity.
  match goal with H1 : find_row (account_by_code _ _) _ = None, H2 : pk_taken _ _ _ = false |- _ =>
    rename H1 into Hc, H2 into Hi end.
  split_and!; simpl; try reflexivity; [apply prefix_snoc|]. intros []. constructor; simpl; auto.
  - apply NoDup_snoc; [done|]. by apply pk_taken_false.
  - apply NoDup_snoc; [done|]. eapply find_row_not_in; [|exact Hc].
    intros r [= Hr1 Hr2]. unfold account_by_code. by rewrite Hr1, Hr2, !String.eqb_refl.
  - intros p Hp. destruct (wf_postings0 p Hp) as (? & (x & ? & ?) & ?). split; [done|].
    split; [|done]. exists x. split; [|done]. apply elem_of_app. auto.
Qed.

Lemma keeps_ext_CreateJournalEntry e k s i : keeps ledger_ext (CreateJournalEntry e k s i).
Proof.
  apply keeps_stmt; [apply _|]. intros now rng d. simpl. do 2 (case_match; simpl; [reflexivity|]).
  split_and!; simpl; try reflexivity; [apply prefix_snoc|]. intros []. constructor; simpl; auto.
  - apply NoDup_snoc; [done|]. eapply find_row_not_in; [|done].
    intros r Hr. simpl in Hr. unfold entry_by_ref. by rewrite Hr, String.eqb_refl.
  - intros p Hp. destruct (wf_postings0 p Hp) as (? & ? & x & ? & ?). split; [done|].
    split; [done|]. exists x. split; [|done]. apply elem_of_app. auto.
Qed.

Lemma keeps_ext_InsertPosting e a m c t : keeps ledger_ext (InsertPosting e a m c t).
Proof.
  apply keeps_stmt; [apply _|]. intros now rng d. simpl.
  destruct (PostingDirection_of_string t); simpl; [|reflexivity].
  destruct (find_row (by_id acc_id a) (accounts d)) as [ac|] eqn:Ha; simpl; [|reflexivity].
  destruct (String.eqb_spec c (acc_currency ac)) as [->|]; simpl; [|reflexivity].
  destruct (m <=? 0) eqn:?; simpl; [reflexivity|]. bools.
  destruct (find_row (by_id je_id e) (journal_entries d)) as [j|] eqn:Hj; simpl; [|reflexivity].
  case_match; simpl; [reflexivity|]. split_and!; simpl; try reflexivity; [apply prefix_snoc|]. intros []. constructor; simpl; auto.
  intros q [Hq| ->%list_elem_of_singleton]%elem_of_app; [auto|]. simpl.
  apply find_row_Some in Ha as [? Ha]. apply find_row_Some in Hj as [? Hj].
  apply N.eqb_eq in Ha, Hj. naive_solver.
Qed.
End ledger_frames.

#[export] Hint Resolve keeps_ext_CreateAccount keeps_ext_CreateJournalEntry
  keeps_ext_InsertPosting keeps_same_ledger_ext : keeps.

Section post.
Context `{Env}.

Lemma keeps_ext_insert_lines e ls : keeps ledger_ext (insert_lines e ls).
Proof. induction ls as [|l ls IH]; simpl; keeps_auto. Qed.
#[local] Hint Resolve keeps_ext_insert_lines : keeps.

Lemma keeps_ext_PostTx e : keeps ledger_ext (PostTx e).
Proof. unfold PostTx, postWith. keeps_auto. Qed.

Lemma keeps_ext_Post e : keeps ledger_ext (Post e).
Proof. unfold Post, postWith. keeps_auto. Qed.
End post.
#[export] Hint Resolve keeps_ext_PostTx keeps_ext_Post : keeps.

(** ** The books *)

Lemma entry_balanced_diff d e c : entry_balanced d e = true -> entry_diff d e c = 0.
Proof.
  unfold entry_balanced. rewrite forallb_forall. intros Hb.
  destruct (decide (Exists (fun p => in_entry e c p = true) (postings d))) as [Hex|Hno].
  - apply Exists_exists in Hex as (p & Hp & Hin). apply list_elem_of_In, Hb in Hp.
    unfold in_entry in Hin. apply andb_true_iff in Hin as [He Hc%String.eqb_eq].
    rewrite He, Hc in Hp. lia.
  - apply Zsum_zero. intros p Hp. case_match; [|done]. exfalso. apply Hno, Exists_exists. eauto.
Qed.

(** Entries that received no posting keep their sums. *)
Lemma entry_diff_app d d' new e c :
  postings d' = postings d ++ new -> (forall p, p ∈ new -> p_entry_id p <> e) ->
  entry_diff d' e c = entry_diff d e c.
Proof.
  intros Hp Hnew. unfold entry_diff. rewrite Hp, Zsum_app.
  rewrite (Zsum_zero _ new); [lia|]. intros p Hin. unfold in_entry.
  destruct (N.eqb_spec (p_entry_id p) e); [|done]. by destruct (Hnew p).
Qed.

Lemma deferred_triggers_balanced d d' :
  postings d `prefix_of` postings d' -> deferred_triggers d d' = true ->
  balanced d -> balanced d'.
Proof.
  intros [new Hnew] Ht Hb e c. unfold deferred_triggers in Ht.
  rewrite Hnew, drop_app_length, forallb_forall in Ht.
  destruct (decide (Exists (fun p => p_entry_id p = e) new)) as [Hex|Hno].
  - apply Exists_exists in Hex as (p & Hp & <-). apply entry_balanced_diff.
    by apply Ht, list_elem_of_In.
  - rewrite (entry_diff_app d d' new); auto. intros p Hp E. apply Hno, Exists_exists. eauto.
Qed.

(** A transaction either leaves the database as it was or commits the database
    its body produced, after the deferred triggers passed. *)
Lemma with_tx_db {A} b c (m : M A) w :
  w_db (with_tx b c m w).2 = w_db w \/
  exists a w0 w1, m w0 = (Ok a, w1) /\ w_db w0 = w_db w /\
    w_db (with_tx b c m w).2 = w_db w1 /\ deferred_triggers (w_db w) (w_db w1) = true.
Proof.
  unfold with_tx. pose proof (pop_fault_db w) as E. destruct (pop_fault w) as [flt w0]. simpl in E.
  destruct flt; simpl; auto. destruct (m w0) as [[a|e] w1] eqn:Em; simpl; auto.
  unfold commit. pose proof (pop_fault_db w1) as E1.
  destruct (pop_fault w1) as [flt1 w2]; simpl in E1.
  destruct flt1; simpl; auto; destruct (deferred_triggers (w_db w0) (w_db w2)) eqn:Ht; simpl; auto;
    right; exists a, w0, w1; rewrite <- E, <- E1; auto.
Qed.

(** No transaction can break the books, whatever its body appends to the ledger
    through the statements and whatever faults occur. *)
Lemma with_tx_keeps_books {A} b c (m : M A) w :
  keeps ledger_ext m -> books_ok (w_db w) -> books_ok (w_db (with_tx b c m w).2).
Proof.
  intros Hm [Hwf Hb]. destruct (with_tx_db b c m w) as [->|(a & w0 & w1 & Em & E0 & -> & Ht)]; [done|].
  specialize (Hm w0). rewrite Em, E0 in Hm. simpl in Hm. destruct Hm as (_ & _ & Hp & Hw).
  split; [auto|]. by eapply deferred_triggers_balanced.
Qed.

(** ** Trial balance *)

(** The postings in a currency sum to zero over the whole ledger. *)
Lemma currency_sum_zero d c :
  balanced d ->
  Zsum (fun p => if String.eqb (p_currency p) c then posting_diff p else 0) (postings d) = 0.
Proof.
  intros Hb. set (es := remove_dups (p_entry_id <$> postings d)).
  transitivity (Zsum (fun e => entry_diff d e c) es).
  - unfold entry_diff. rewrite Zsum_swap. apply Zsum_ext. intros p Hp.
    rewrite (Zsum_ext _ (fun e => if decide (e = p_entry_id p) then
      (if String.eqb (p_currency p) c then posting_diff p else 0) else 0)).
    + symmetry. apply Zsum_pick; [apply NoDup_remove_dups|].
      apply elem_of_remove_dups, list_elem_of_fmap. eauto.
    + intros e _. unfold in_entry. destruct (N.eqb_spec (p_entry_id p) e) as [->|];
        [by rewrite decide_True|by rewrite decide_False].
  - apply Zsum_zero. intros. apply Hb.
Qed.

Definition debit_normal (t : AccountType) : bool :=
  match t with Asset | Expense => true | _ => false end.

Definition normal_sum (debit : bool) (c : string) (d : DB) : Z :=
  Zsum (fun a => if String.eqb (acc_currency a) c && Bool.eqb (debit_normal (acc_type a)) debit
                 then account_sum d a else 0) (accounts d).

Lemma balance_case_diff t p :
  (if debit_normal t then balance_case t p else - balance_case t p) = posting_diff p.
Proof. unfold balance_case, posting_diff. destruct t, (p_direction p); simpl; lia. Qed.

Lemma account_sum_diff d a :
  (if debit_normal (acc_type a) then account_sum d a else - account_sum d a) =
  Zsum (fun p => if by_id p_account_id (acc_id a) p then posting_diff p else 0) (postings d).
Proof.
  unfold account_sum. induction (postings d) as [|p t IH]; simpl; [by case_match|].
  rewrite <- IH, <- (balance_case_diff (acc_type a) p). repeat case_match; lia.
Qed.

(** the accounting equation. In a committed database, for every currency,
    the balances of the debit-normal accounts (assets and expenses) and those of
    the credit-normal accounts (liabilities, equity, revenue) add up to the same
    amount; the balances are those [AccountBalance] computes. *)
Theorem trial_balance d c :
  books_ok d -> normal_sum true c d = normal_sum false c d.
Proof.
  intros [Hwf Hb]. rewrite <- (Z.add_0_r (normal_sum false c d)), <- (currency_sum_zero d c Hb).
  enough (normal_sum true c d - normal_sum false c d =
    Zsum (fun p => if String.eqb (p_currency p) c then posting_diff p else 0) (postings d)) by lia.
  transitivity (Zsum (fun a => if String.eqb (acc_currency a) c then
    Zsum (fun p => if by_id p_account_id (acc_id a) p then posting_diff p else 0) (postings d) else 0)
    (accounts d)).
  - unfold normal_sum. induction (accounts d) as [|a t IH]; simpl; [done|]. rewrite <- IH.
    rewrite <- account_sum_diff. destruct (String.eqb _ c), (debit_normal (acc_type a)); simpl; lia.
  - rewrite (Zsum_ext _ (fun a => Zsum (fun p => if String.eqb (acc_currency a) c &&
      by_id p_account_id (acc_id a) p then posting_diff p else 0) (postings d))).
    2:{ intros a _. destruct (String.eqb _ c); simpl; [done|]. by rewrite Zsum_zero. }
    rewrite Zsum_swap. apply Zsum_ext. intros p Hp.
    destruct (wf_postings d Hwf p Hp) as (_ & (a & Ha & Hid & Hcur) & _).
    set (F := fun i : uuid => if decide (i = p_account_id p) then
      (if String.eqb (p_currency p) c then posting_diff p else 0) else 0).
    rewrite (Zsum_ext _ (fun a' => F (acc_id a'))).
    + rewrite <- (Zsum_fmap acc_id F). apply Zsum_pick; [by destruct Hwf|].
      rewrite <- Hid. by apply list_elem_of_fmap_2.
    + intros a' Ha'. unfold by_id, F. destruct (N.eqb_spec (p_account_id p) (acc_id a')) as [E|E].
      * rewrite decide_True by done. rewrite andb_true_r.
        rewrite (NoDup_fmap_elem acc_id (accounts d) a' a); [by rewrite Hcur|..];
          [by destruct Hwf|done|done|congruence].
      * rewrite andb_false_r, decide_False; [done|congruence].
Qed.

(** ** Posting exactly once *)
Section exactly_once.
Context `{Env}.

(** With an entry under this reference in the journal, posting changes nothing. *)
Lemma postWith_existing e w j :
  find_row (entry_by_ref (ExternalRef e)) (journal_entries (w_db w)) = Some j ->
  w_db (postWith e w).2 = w_db w /\
  (forall je, (postWith e w).1 = Ok je -> je = toJournalEntry j) /\
  (w_faults w = [] -> postWith e w = (Ok (toJournalEntry j), w)).
Proof.
  intros Hj. unfold postWith, mbind, M_bind, try, GetJournalEntryByExternalRef, select, stmt.
  rewrite pop_fault_eta, pop_fault_db. simpl. rewrite Hj. simpl.
  destruct (pop_fault w).1 eqn:Ef; simpl; rewrite ?pop_fault_db; split_and!; try done.
  - intros je [= <-]. done.
  - intros Hw. unfold pop_fault. rewrite Hw. simpl. by rewrite set_rng_0.
  - intros Hw. unfold pop_fault in Ef. by rewrite Hw in Ef.
  - intros Hw. unfold pop_fault in Ef. by rewrite Hw in Ef.
Qed.

(** A successful post leaves its entry in the journal. *)
Lemma postWith_posted e w je w' :
  postWith e w = (Ok je, w') ->
  exists j, find_row (entry_by_ref (ExternalRef e)) (journal_entries (w_db w')) = Some j /\
            je = toJournalEntry j.
Proof.
  unfold postWith. intros Hrun. minv.
  match goal with H : GetJournalEntryByExternalRef _ _ = _ |- _ => rename H into Hget end.
  destruct x as [existing|er].
  - minv. apply select_Ok in Hget as (Hf & Hd & _). exists existing. rewrite Hd.
    split; [|done]. unfold one in Hf. by case_match; simplify_eq.
  - destruct (negb _) eqn:Hnr; [minv|]. minv.
    match goal with H : CreateJournalEntry _ _ _ _ _ = _ |- _ => apply stmt_Ok in H as (Hc & Hd & _) end.
    match goal with H : insert_lines _ _ ?w1 = (_, ?w2) |- _ =>
      pose proof (keeps_ext_insert_lines (je_id x) (Lines e) w1) as (_ & Hpre & _); rewrite H in Hpre end.
    simpl in *. rewrite Hd in Hpre. destruct (find_row _ _) eqn:Hfind; [done|].
    destruct (pk_taken _ _ _); simplify_eq/=.
    eexists. split; [|done]. eapply prefix_find_row; [exact Hpre|].
    rewrite find_row_app_None by done. simpl. unfold entry_by_ref. simpl. by rewrite String.eqb_refl.
Qed.

Lemma entry_diff_snoc d p e c :
  entry_diff (set_postings d (postings d ++ [p])) e c =
  entry_diff d e c + (if in_entry e c p then posting_diff p else 0).
Proof. unfold entry_diff. simpl. rewrite Zsum_app. simpl. lia. Qed.

(** The postings of an entry add up to its lines. *)
Lemma insert_lines_diff id ls w u w' c :
  insert_lines id ls w = (Ok u, w') ->
  entry_diff (w_db w') id c = entry_diff (w_db w) id c + line_sum c ls.
Proof.
  revert w. induction ls as [|l ls IH]; intros w Hrun; simpl in Hrun.
  { minv. unfold line_sum. simpl. lia. }
  minv. match goal with H : InsertPosting _ _ _ _ _ _ = _ |- _ => apply stmt_Ok in H as (Hc & Hd & _) end.
  match goal with H : insert_lines _ _ _ = _ |- _ => rewrite (IH _ H) end.
  rewrite Hd. change (line_sum c (l :: ls)) with (line_diff c l + line_sum c ls).
  rewrite Z.add_assoc. f_equal. clear Hd.
  destruct (PostingDirection_of_string (Direction l)) as [dir|] eqn:Hdir; simplify_eq/=.
  repeat case_match; simplify_eq/=. rewrite entry_diff_snoc. f_equal.
  unfold in_entry, line_diff. simpl. rewrite N.eqb_refl. simpl. case_match; [|done].
  unfold PostingDirection_of_string in Hdir. unfold posting_diff. simpl.
  fold Debit in Hdir. repeat case_match; simplify_eq/=; done.
Qed.

(** C15: posting is idempotent. Once [Post] has returned an entry, any later
    [Post] or [PostTx] with the same reference returns that entry when the
    database answers, and leaves the database unchanged whatever faults occur. *)
Theorem Post_idempotent e w je w1 w2 e' :
  Post e w = (Ok je, w1) -> journal_entries (w_db w1) `prefix_of` journal_entries (w_db w2) ->
  Validate e' = Ok tt -> ExternalRef e' = ExternalRef e ->
  w_db (Post e' w2).2 = w_db w2 /\ w_db (PostTx e' w2).2 = w_db w2 /\
  (w_faults w2 = [] -> Post e' w2 = (Ok je, w2) /\ PostTx e' w2 = (Ok je, w2)).
Proof.
  intros Hpost Hpre Hval Href. unfold Post, PostTx in *. minv.
  match goal with H : with_tx _ _ _ _ = _ |- _ => apply with_tx_Ok in H as (w0 & w0' & _ & Hrun & Hdb) end.
  destruct (postWith_posted _ _ _ _ Hrun) as (j & Hj & ->). rewrite <- Hdb, <- Href in Hj.
  pose proof (prefix_find_row _ _ _ _ Hpre Hj) as Hj2.
  unfold mbind, M_bind, lift_res. rewrite Hval.
  destruct (postWith_existing e' w2 j Hj2) as (Hd & _ & Hnf). split_and!; [|done|].
  - destruct (with_tx_db "begin tx" "commit" (postWith e') w2) as [->|(a & v & v1 & Em & Ev & -> & _)]; [done|].
    rewrite <- Ev in Hj2 |- *. destruct (postWith_existing e' v j Hj2) as (Hv & _). by rewrite Em in Hv.
  - intros Hf. split; [|auto]. apply with_tx_run; auto. apply deferred_triggers_refl.
Qed.

(** an entry that does not balance is never posted, even when it passes
    [Validate]: a successful [Post] of a new reference has lines that sum to
    exactly zero in every currency. *)
Theorem Post_balanced e w je w' c :
  Post e w = (Ok je, w') -> books_ok (w_db w) ->
  find_row (entry_by_ref (ExternalRef e)) (journal_entries (w_db w)) = None ->
  line_sum c (Lines e) = 0.
Proof.
  intros Hpost Hbooks Hnew. pose proof (with_tx_keeps_books "begin tx" "commit" (postWith e) w) as Hb'.
  unfold Post in Hpost. minv.
  match goal with H : with_tx _ _ _ _ = _ |- _ => rename H into Htx end.
  rewrite Htx in Hb'. apply with_tx_Ok in Htx as (w0 & w0' & Hw0 & Hrun & Hdb). simpl in Hb'.
  destruct Hb' as [_ Hbal]; [unfold postWith; keeps_auto; apply keeps_ext_insert_lines|done|].
  rewrite Hdb in Hbal. clear Hdb. unfold postWith in Hrun. minv.
  match goal with H : GetJournalEntryByExternalRef _ _ = _ |- _ => rename H into Hget end.
  destruct x0 as [existing|er].
  { apply select_Ok in Hget as (Hf & _). unfold one in Hf. rewrite Hw0, Hnew in Hf. done. }
  destruct (negb _); [minv|]. minv.
  match goal with H : CreateJournalEntry _ _ _ _ _ = _ |- _ => apply stmt_Ok in H as (Hc & Hd & _) end.
  match goal with H : insert_lines _ _ _ = _ |- _ => pose proof (insert_lines_diff _ _ _ _ _ c H) as Hdiff end.
  pose proof (keeps_select (=) (fun d => one (find_row (entry_by_ref (ExternalRef e)) (journal_entries d))) w0) as Hsame.
  change (select _ w0) with (GetJournalEntryByExternalRef (ExternalRef e) w0) in Hsame. rewrite Hget in Hsame.
  simpl in Hsame. specialize (Hbal (je_id x0) c). rewrite Hdiff, Hd in Hbal. simpl in Hbal.
  rewrite <- Hsame, Hw0, Hnew in Hbal. simpl in Hc. rewrite <- Hsame, Hw0, Hnew in Hc.
  destruct (pk_taken _ _ _); [done|]. simplify_eq/=. destruct Hbooks as [_ Hbal0]. specialize (Hbal0 (gen_uuid (w_rng x1)) c).
  unfold entry_diff in *. simpl in Hbal. lia.
Qed.
End exactly_once.

(** ** Posting a new entry *)

Section post_run.
Context `{Env}.

(** No UUID from the [n]-th on is the id of an entry or a posting. *)
Definition ledger_fresh (n : N) (d : DB) : Prop :=
  forall k, (n <= k)%N ->
    gen_uuid k ∉ je_id <$> journal_entries d /\ gen_uuid k ∉ p_id <$> postings d.

Lemma pk_taken_fresh {A} (id_of : A -> uuid) id t : id ∉ id_of <$> t -> pk_taken id_of id t = false.
Proof.
  intros Hn. apply not_true_iff_false. intros (r & Hr & E%N.eqb_eq)%existsb_exists.
  apply Hn, list_elem_of_fmap. exists r. split; [done|]. by apply list_elem_of_In.
Qed.

(** The rows of an entry with reference id [id]: ids are drawn from the [n]-th
    on. *)
Fixpoint new_postings (now : Z) (id : uuid) (n : N) (ls : list Line) : list Posting :=
  match ls with
  | [] => []
  | l :: ls' =>
    mkPosting (gen_uuid n) id (AccountID l) (Amount l) (Currency l)
      (if String.eqb (Direction l) Debit then PDebit else PCredit) now
    :: new_postings now id (n + 1)%N ls'
  end.

(** A line that can be inserted: it is well formed and its account has its
    currency. *)
Definition line_insertable (d : DB) (l : Line) : Prop :=
  line_ok l /\
  exists a, find_row (by_id acc_id (AccountID l)) (accounts d) = Some a /\ acc_currency a = Currency l.

Lemma InsertPosting_run id l w :
  w_faults w = [] -> line_insertable (w_db w) l ->
  is_Some (find_row (by_id je_id id) (journal_entries (w_db w))) ->
  gen_uuid (w_rng w) ∉ p_id <$> postings (w_db w) ->
  exists p, new_postings (w_now w) id (w_rng w) [l] = [p] /\
  InsertPosting id (AccountID l) (Amount l) (Currency l) (Direction l) w =
    (Ok p, set_db (set_rng w (w_rng w + 1)%N) (set_postings (w_db w) (postings (w_db w) ++ [p]))).
Proof.
  intros Hf ((Hpos & _ & Hdir) & a & Ha & Hcur) [j Hj] Hfresh. eexists. split; [done|].
  unfold InsertPosting. rewrite stmt_run by done. rewrite Ha, Hcur, Hj, String.eqb_refl, pk_taken_fresh by done.
  destruct (Amount l <=? 0) eqn:?; bools; [lia|].
  destruct Hdir as [-> | ->]; done.
Qed.

Lemma insert_lines_run `{!EnvOk _} id ls w :
  w_faults w = [] -> Forall (line_insertable (w_db w)) ls ->
  is_Some (find_row (by_id je_id id) (journal_entries (w_db w))) -> ledger_fresh (w_rng w) (w_db w) ->
  insert_lines id ls w =
    (Ok tt, set_db (set_rng w (w_rng w + N.of_nat (length ls))%N)
       (set_postings (w_db w) (postings (w_db w) ++ new_postings (w_now w) id (w_rng w) ls))).
Proof.
  revert w. induction ls as [|l ls IH]; intros w Hf Hls Hj Hfr; simpl.
  { rewrite N.add_0_r, app_nil_r. by destruct w as [[]]. }
  inversion Hls as [|? ? Hl Hls']; subst.
  destruct (InsertPosting_run id l w Hf Hl Hj) as (p & Ep & Erun). { apply Hfr. lia. }
  erewrite bind_run; [|unfold map_err; by rewrite Erun]. injection Ep as Ep.
  rewrite IH; [|done|done|done|].
  - f_equal. unfold set_db, set_rng, set_postings. simpl. rewrite <- app_assoc, Ep. simpl. f_equal. lia.
  - intros k Hk. simpl in *. destruct (Hfr k ltac:(lia)) as [Hk1 Hk2]. split; [done|].
    rewrite fmap_app, elem_of_app. intros [?|Hin]; [done|]. rewrite <- Ep in Hin.
    apply list_elem_of_singleton in Hin. apply (inj gen_uuid) in Hin. lia.
Qed.

Definition new_entry (now : Z) (n : N) (e : Entry) : JournalEntry :=
  mkJournalEntry (gen_uuid n) (ExternalRef e) (Kind e)
    (if String.eqb (Description e) "" then None else Some (Description e)) (IntentID e) now.

(** The database with the entry and its postings appended. *)
Definition posted_db (now : Z) (n : N) (e : Entry) (d : DB) : DB :=
  set_postings (set_journal_entries d (journal_entries d ++ [new_entry now n e]))
    (postings d ++ new_postings now (gen_uuid n) (n + 1)%N (Lines e)).

(** An entry that can be posted to [d]. *)
Record postable (d : DB) (e : Entry) : Prop := {
  pe_valid : Validate e = Ok tt;
  pe_new : find_row (entry_by_ref (ExternalRef e)) (journal_entries d) = None;
  pe_lines : Forall (line_insertable d) (Lines e)
}.

Lemma find_row_last {A} (P : A -> bool) t r : P r = true -> is_Some (find_row P (t ++ [r])).
Proof.
  intros HP. destruct (find_row P t) as [x|] eqn:E.
  - rewrite (find_row_app_Some _ _ _ x E). done.
  - rewrite find_row_app_None by done. simpl. by rewrite HP.
Qed.

Lemma PostTx_run `{!EnvOk _} e w :
  w_faults w = [] -> postable (w_db w) e -> ledger_fresh (w_rng w) (w_db w) ->
  PostTx e w =
    (Ok (toJournalEntry (new_entry (w_now w) (w_rng w) e)),
     set_db (set_rng w (w_rng w + 1 + N.of_nat (length (Lines e)))%N) (posted_db (w_now w) (w_rng w) e (w_db w))).
Proof.
  intros Hf [Hv Hn Hl] Hfr. unfold PostTx, lift_res. rewrite Hv. erewrite bind_run; [|done]. unfold postWith.
  erewrite bind_run; [|unfold try, GetJournalEntryByExternalRef; by rewrite select_run by done].
  rewrite Hn. simpl. erewrite bind_run.
  2:{ unfold map_err, CreateJournalEntry. rewrite stmt_run by done. rewrite Hn, pk_taken_fresh; [done|].
      apply Hfr. lia. }
  erewrite bind_run; [|apply insert_lines_run].
  - unfold mret, M_ret. f_equal.
  - done.
  - simpl. eapply Forall_impl; [exact Hl|]. by intros l.
  - simpl. apply find_row_last. unfold by_id. simpl. apply N.eqb_refl.
  - intros k Hk. simpl in *. destruct (Hfr k ltac:(lia)) as [Hk1 Hk2]. split; [|done].
    rewrite fmap_app, elem_of_app. intros [?|Hin]; [done|].
    apply list_elem_of_singleton in Hin. apply (inj gen_uuid) in Hin. lia.
Qed.

Lemma new_postings_ids now id n ls p :
  p ∈ new_postings now id n ls -> exists k, p_id p = gen_uuid k /\ (n <= k < n + N.of_nat (length ls))%N.
Proof.
  revert n. induction ls as [|l ls IH]; intros n; simpl; [by intros ?%elem_of_nil|].
  intros [->|Hp]%elem_of_cons; [exists n; simpl; split; [done|lia]|].
  destruct (IH _ Hp) as (k & ? & ?). exists k. split; [done|lia].
Qed.

Lemma ledger_fresh_posted `{!EnvOk _} now n e d m :
  ledger_fresh n d -> (n + 1 + N.of_nat (length (Lines e)) <= m)%N -> ledger_fresh m (posted_db now n e d).
Proof.
  intros Hfr Hm k Hk. destruct (Hfr k ltac:(lia)) as [Hk1 Hk2]. unfold posted_db. simpl.
  rewrite !fmap_app, !elem_of_app. split.
  - intros [?|Hin]; [done|]. apply list_elem_of_singleton in Hin. apply (inj gen_uuid) in Hin. lia.
  - intros [?|Hin]; [done|]. apply list_elem_of_fmap in Hin as (p & E & Hp).
    destruct (new_postings_ids _ _ _ _ _ Hp) as (i & Ei & Hi). rewrite Ei in E. apply (inj gen_uuid) in E. lia.
Qed.

(** The postings of the new entry add up to its lines, the others are as
    before. *)
Lemma Zsum_new_postings now id n ls e c :
  Forall line_ok ls ->
  Zsum (fun p => if in_entry e c p then posting_diff p else 0) (new_postings now id n ls) =
  if N.eqb id e then line_sum c ls else 0.
Proof.
  intros Hls. revert n. induction Hls as [|l ls (_ & _ & Hdir) _ IH]; intros n; [by simpl; case_match|].
  cbn [new_postings]. rewrite Zsum_cons, IH, line_sum_cons. unfold in_entry, posting_diff, line_diff. simpl.
  destruct (N.eqb id e); [|done]. simpl. destruct (String.eqb (Currency l) c); [|done].
  by destruct Hdir as [-> | ->].
Qed.

Lemma balanced_posted now n e d :
  balanced d -> Forall line_ok (Lines e) -> (forall c, line_sum c (Lines e) = 0) ->
  balanced (posted_db now n e d).
Proof.
  intros Hb Hok Hz id c. unfold entry_diff, posted_db. simpl. rewrite Zsum_app, Zsum_new_postings by done.
  pose proof (Hb id c) as Hd. unfold entry_diff in Hd. rewrite Hd, Hz. by case_match.
Qed.

Lemma deferred_triggers_of_balanced d d' : balanced d' -> deferred_triggers d d' = true.
Proof.
  intros Hb. apply forallb_forall. intros p _. apply forallb_forall. intros q _.
  case_match; [|done]. apply Z.eqb_eq, Hb.
Qed.
End post_run.

(** ** Examples *)

(** The chart of accounts of migrations 0007, 0008 and 0010. *)
Definition chart_of_accounts : list Account := [
  mkAccount 1001%N AccountHotWalletUSDC Asset CurrencyUSDC 0;
  mkAccount 1002%N AccountLiabilityUserFunds Liability CurrencyUSDC 0;
  mkAccount 1003%N AccountMerchantPayableIDR Liability CurrencyIDR 0;
  mkAccount 1004%N AccountCashOutIDR Asset CurrencyIDR 0;
  mkAccount 1005%N AccountRevenueFXSpreadIDR Revenue CurrencyIDR 0;
  mkAccount 1006%N AccountExpenseNetworkFee Expense CurrencyUSDC 0;
  mkAccount 1007%N AccountExpenseFXSwapIDR Expense CurrencyIDR 0;
  mkAccount 1008%N AccountEquityFXSettlement Equity CurrencyUSDC 0 ].

Definition seeded_db : DB := set_accounts empty_db chart_of_accounts.

Lemma seeded_books_ok : books_ok seeded_db.
Proof.
  split; [constructor; simpl|done].
  1-2: apply (bool_decide_unpack _); vm_compute; reflexivity.
  - constructor.
  - intros p Hp. by apply elem_of_nil in Hp.
Qed.

Section ledger_examples.
#[local] Existing Instance example_env.

Definition deposit_entry : Entry :=
  mkEntry "saga:credit_deposit:1" "deposit" "USDC deposit" None
    [ mkLine 1001%N 62000 CurrencyUSDC Debit; mkLine 1002%N 62000 CurrencyUSDC Credit ].

Definition seeded_world : World := world_at 1000 seeded_db.

Definition posted_world : World := Eval vm_compute in (Post deposit_entry seeded_world).2.
Definition posted_entry : LJournalEntry :=
  mkLJournalEntry 1%N "saga:credit_deposit:1" "deposit" "USDC deposit" None 1000.

Lemma posted_run : Post deposit_entry seeded_world = (Ok posted_entry, posted_world).
Proof. vm_compute. reflexivity. Qed.

Lemma posted_books_ok : books_ok (w_db posted_world).
Proof.
  pose proof (with_tx_keeps_books "begin tx" "commit" (PostTx deposit_entry) seeded_world
    (keeps_ext_PostTx _) seeded_books_ok) as Hb.
  assert ((with_tx "begin tx" "commit" (PostTx deposit_entry) seeded_world).2 = posted_world) as E
    by (vm_compute; reflexivity).
  by rewrite E in Hb.
Qed.

Lemma trial_balance_witness :
  normal_sum true CurrencyUSDC (w_db posted_world) = 62000 /\
  normal_sum true CurrencyUSDC (w_db posted_world) = normal_sum false CurrencyUSDC (w_db posted_world).
Proof. split; [vm_compute; reflexivity|]. apply trial_balance, posted_books_ok. Defined.

Lemma Post_idempotent_witness : Post deposit_entry posted_world = (Ok posted_entry, posted_world).
Proof.
  destruct (Post_idempotent deposit_entry seeded_world posted_entry posted_world posted_world
    deposit_entry posted_run (reflexivity _) eq_refl eq_refl) as (_ & _ & Hp).
  by apply Hp.
Defined.

Lemma Post_balanced_witness : line_sum CurrencyUSDC (Lines deposit_entry) = 0.
Proof.
  apply (Post_balanced deposit_entry seeded_world posted_entry posted_world);
    [apply posted_run|apply seeded_books_ok|reflexivity].
Defined.
End ledger_examples.
