(* ===== verification/Isolation.v ===== *)
(** * Concurrent postings

    Post runs its transaction at Postgres' default level, READ COMMITTED: each
    statement sees what is committed when it starts and the transaction's own
    writes, and an insert under a unique key that an open transaction has inserted
    waits for it.  The rest of the development runs transactions one after the
    other; here the statements of any number of postings interleave, and the ledger
    keeps its promises. *)

From S2P Require Import Prelude GoStr MockBank Models World Queries Ledger.

(** ** A posting, statement by statement *)

(** Where a posting is inside its transaction, or what it returned. *)
Inductive post_pc :=
  | PLookup
  | PCreate
  | PLines (created : JournalEntry) (rest : list Line)
  | PCommit (je : LJournalEntry)
  | PDone (r : res LJournalEntry).

Section isolation.
Context `{Env}.

(** The next statement of [postWith]. *)
Definition post_statement (e : Entry) (pc : post_pc) : M post_pc :=
  match pc with
  | PLookup =>
    r ← try (GetJournalEntryByExternalRef (ExternalRef e));
    match r with
    | Ok existing => mret (PCommit (toJournalEntry existing))
    | Err er => if negb (errors_is ErrNoRows er) then throw (ErrWrap "lookup external_ref" er) else mret PCreate
    end
  | PCreate =>
    let desc := if String.eqb (Description e) "" then None else Some (Description e) in
    created ← map_err
      (fun er => if bool_decide (er = ErrPg "23505") then ErrDuplicateExternalRef else ErrWrap "create journal entry" er)
      (CreateJournalEntry (ExternalRef e) (Kind e) desc (IntentID e));
    mret (PLines created (Lines e))
  | PLines created (l :: ls) =>
    _ ← map_err (ErrWrap "insert posting")
          (InsertPosting (je_id created) (AccountID l) (Amount l) (Currency l) (Direction l));
    mret (PLines created ls)
  | PLines created [] => mret (PCommit (toJournalEntry created))
  | pc => mret pc
  end.

(** The statements up to the commit. *)
Fixpoint post_statements (fuel : nat) (e : Entry) (pc : post_pc) : M LJournalEntry :=
  match fuel, pc with
  | _, PCommit je => mret je
  | S fuel, _ => pc' ← post_statement e pc; post_statements fuel e pc'
  | O, _ => throw (ErrMsg "unfinished")
  end.

Lemma lines_statements created e ls w :
  post_statements (S (List.length ls)) e (PLines created ls) w =
    (_ ← insert_lines (je_id created) ls; mret (toJournalEntry created)) w.
Proof.
  revert w. induction ls as [|l ls IH]; intros w; [done|]. cbn [List.length post_statements post_statement insert_lines].
  unfold mbind, M_bind. destruct (map_err _ _ w) as [[p|er] w1]; [|done]. exact (IH w1).
Qed.

(** The statements are those of [postWith]. *)
Theorem postWith_statements e w : postWith e w = post_statements (3 + List.length (Lines e)) e PLookup w.
Proof.
  unfold postWith. change (3 + List.length (Lines e))%nat with (S (S (S (List.length (Lines e))))).
  change (post_statements (S (S (S ?n))) e PLookup w) with
    ((post_statement e PLookup ≫= post_statements (S (S n)) e) w).
  cbn [post_statement]. unfold mbind, M_bind. destruct (try _ w) as [[[existing|er]|er] w1]; [done| |done].
  destruct (negb _); [done|]. unfold mret at 2, M_ret at 2.
  change (post_statements (S (S ?n)) e PCreate w1) with ((post_statement e PCreate ≫= post_statements (S n) e) w1).
  cbn [post_statement]. cbv zeta. unfold mbind, M_bind.
  destruct (map_err _ _ w1) as [[created|er1] w2]; [|done]. symmetry. apply lines_statements.
Qed.

(** ** Open transactions over one database *)

(** An open transaction: its entry, its [NOW()], where it is, and the rows it has
    inserted, which only it sees. *)
Record tx := mkTx {
  tx_entry : Entry;
  tx_now : Z;
  tx_pc : post_pc;
  tx_rows : list JournalEntry;
  tx_lines : list Posting
}.

Record store := mkStore { st_db : DB; st_rng : N; st_txs : gmap nat tx }.

(** What a statement of [t] sees: the committed rows and its own. *)
Definition view (d : DB) (t : tx) : DB :=
  set_postings (set_journal_entries d (journal_entries d ++ tx_rows t)) (postings d ++ tx_lines t).

(** An insert waits while another open transaction holds its key. *)
Definition holds_key (ref : string) (t : tx) : Prop := ref ∈ je_external_ref <$> tx_rows t.
#[global] Instance holds_key_dec ref t : Decision (holds_key ref t).
Proof. unfold holds_key. apply _. Defined.

Definition blocked (s : store) (i : nat) (t : tx) : bool :=
  match tx_pc t with
  | PCreate => bool_decide (map_Exists (fun j u => j <> i /\ holds_key (ExternalRef (tx_entry t)) u) (st_txs s))
  | _ => false
  end.

Definition running (pc : post_pc) : bool :=
  match pc with PCommit _ | PDone _ => false | _ => true end.

(** The transaction ended, its rows committed or dropped. *)
Definition ended (t : tx) (r : res LJournalEntry) : tx := mkTx (tx_entry t) (tx_now t) (PDone r) [] [].

(** After a statement on the view of [t]: an error rolls back. *)
Definition after_statement (s : store) (t : tx) (r : res post_pc) (d : DB) : tx :=
  match r with
  | Ok pc => mkTx (tx_entry t) (tx_now t) pc (drop (List.length (journal_entries (st_db s))) (journal_entries d))
               (drop (List.length (postings (st_db s))) (postings d))
  | Err er => ended t (Err er)
  end.

(** What [Post] returns once its commit has answered. *)
Definition after_commit (t : tx) (je : LJournalEntry) (r : res unit) : tx :=
  ended t (match r with Ok _ => Ok je | Err er => Err (ErrWrap "commit" er) end).

(** The world a statement of [t] runs in; its faults are any. *)
Definition seen_by (s : store) (t : tx) (w : World) : Prop :=
  w_db w = view (st_db s) t /\ w_now w = tx_now t /\ w_rng w = st_rng s.

Inductive step (s : store) : store -> Prop :=
  | step_begin i e now :
      st_txs s !! i = None -> Validate e = Ok tt ->
      step s (mkStore (st_db s) (st_rng s) (<[i := mkTx e now PLookup [] []]> (st_txs s)))
  | step_statement i t w r w' :
      st_txs s !! i = Some t -> running (tx_pc t) = true -> blocked s i t = false -> seen_by s t w ->
      post_statement (tx_entry t) (tx_pc t) w = (r, w') ->
      step s (mkStore (st_db s) (w_rng w') (<[i := after_statement s t r (w_db w')]> (st_txs s)))
  | step_commit i t je w r w' :
      st_txs s !! i = Some t -> tx_pc t = PCommit je -> seen_by s t w ->
      commit (st_db s) w = (r, w') ->
      step s (mkStore (w_db w') (w_rng w') (<[i := after_commit t je r]> (st_txs s)))
  | step_crash i t :
      st_txs s !! i = Some t -> (forall r, tx_pc t <> PDone r) ->
      step s (mkStore (st_db s) (st_rng s) (<[i := ended t (Err ErrConn)]> (st_txs s)))
  | step_other d n :
      same_ledger (st_db s) d -> (st_rng s <= n)%N -> step s (mkStore d n (st_txs s)).

(** ** What the ledger promises its callers *)

Definition entry_row (e : Entry) (now : Z) (j : JournalEntry) : Prop :=
  j = mkJournalEntry (je_id j) (ExternalRef e) (Kind e)
        (if String.eqb (Description e) "" then None else Some (Description e)) (IntentID e) now.

Definition line_row (now : Z) (id : uuid) (l : Line) (p : Posting) : Prop :=
  exists dir, PostingDirection_of_string (Direction l) = Some dir /\
    p = mkPosting (p_id p) id (AccountID l) (Amount l) (Currency l) dir now.

(** One posting applied in one step: a new entry with all its lines, which balance. *)
Definition posted (d d' : DB) : Prop :=
  exists e now j ps,
    Validate e = Ok tt /\ entry_row e now j /\ Forall2 (line_row now (je_id j)) (Lines e) ps /\
    (forall c, line_sum c (Lines e) = 0) /\
    (je_external_ref j ∉ je_external_ref <$> journal_entries d) /\ (je_id j ∉ je_id <$> journal_entries d) /\
    accounts d' = accounts d /\ journal_entries d' = journal_entries d ++ [j] /\ postings d' = postings d ++ ps.

(** Postings one after the other, with changes to the other tables between. *)
Definition serial : DB -> DB -> Prop := rtc (fun d d' => same_ledger d d' \/ posted d d').

(** [je] is what the journal has under the reference of [e]. *)
Definition recorded (d : DB) (e : Entry) (je : LJournalEntry) : Prop :=
  exists j, j ∈ journal_entries d /\ je_external_ref j = ExternalRef e /\ je = toJournalEntry j.

(** ** The invariant *)

Definition none_yet (t : tx) : Prop := tx_rows t = [] /\ tx_lines t = [].

Definition inserted (t : tx) (c : JournalEntry) (ls : list Line) : Prop :=
  tx_rows t = [c] /\ entry_row (tx_entry t) (tx_now t) c /\ Forall2 (line_row (tx_now t) (je_id c)) ls (tx_lines t).

Definition pc_ok (d : DB) (t : tx) : Prop :=
  match tx_pc t with
  | PLookup | PCreate => none_yet t
  | PLines c rest => exists ls, Lines (tx_entry t) = ls ++ rest /\ inserted t c ls
  | PCommit je =>
    (none_yet t /\ recorded d (tx_entry t) je) \/
    (exists c, inserted t c (Lines (tx_entry t)) /\ je = toJournalEntry c)
  | PDone (Ok je) => none_yet t /\ recorded d (tx_entry t) je
  | PDone (Err er) =>
    none_yet t /\ (er = ErrDuplicateExternalRef -> exists je, recorded d (tx_entry t) je)
  end.

(** No reference and no id in common. *)
Definition apart (js ks : list JournalEntry) : Prop :=
  forall a b, a ∈ js -> b ∈ ks -> je_external_ref a <> je_external_ref b /\ je_id a <> je_id b.

Definition drawn (n : N) (js : list JournalEntry) : Prop :=
  forall k, (n <= k)%N -> gen_uuid k ∉ je_id <$> js.

Record tx_ok (d : DB) (n : N) (t : tx) : Prop := {
  ok_valid : Validate (tx_entry t) = Ok tt;
  ok_pc : pc_ok d t;
  ok_wf : ledger_wf (view d t);
  ok_apart : apart (journal_entries d) (tx_rows t);
  ok_drawn : drawn n (tx_rows t)
}.

(** [j] is the entry of one of the postings. *)
Definition posted_by (s : store) (j : JournalEntry) : Prop :=
  exists i t, st_txs s !! i = Some t /\ entry_row (tx_entry t) (tx_now t) j.

Record store_ok (d0 : DB) (s : store) : Prop := {
  so_books : books_ok (st_db s);
  so_serial : serial d0 (st_db s);
  so_drawn : drawn (st_rng s) (journal_entries (st_db s));
  so_txs : map_Forall (fun _ => tx_ok (st_db s) (st_rng s)) (st_txs s);
  so_apart : forall i j t u, i <> j -> st_txs s !! i = Some t -> st_txs s !! j = Some u -> apart (tx_rows t) (tx_rows u);
  so_origin : forall j, j ∈ journal_entries (st_db s) -> j ∈ journal_entries d0 \/ posted_by s j
}.

Lemma view_none d t : none_yet t -> view d t = d.
Proof. intros [E1 E2]. unfold view. rewrite E1, E2, !app_nil_r. by destruct d. Qed.

Lemma apart_sym js ks : apart js ks -> apart ks js.
Proof. intros Ha a b Hx Hy. destruct (Ha b a Hy Hx). auto. Qed.

Lemma apart_nil_l js : apart [] js.
Proof. by intros a b ?%elem_of_nil. Qed.

Lemma apart_app js ks ls : apart js ls -> apart ks ls -> apart (js ++ ks) ls.
Proof. intros H1 H2 a b [?|?]%elem_of_app ?; eauto. Qed.

Lemma drawn_mono n n' js : drawn n js -> (n <= n')%N -> drawn n' js.
Proof. intros Hd Hn k Hk. apply Hd. lia. Qed.

Lemma recorded_mono d d' e je :
  journal_entries d `prefix_of` journal_entries d' -> recorded d e je -> recorded d' e je.
Proof. intros [k E] (j & Hj & ?). exists j. rewrite E, elem_of_app. auto. Qed.

Lemma pc_ok_mono d d' t : journal_entries d `prefix_of` journal_entries d' -> pc_ok d t -> pc_ok d' t.
Proof.
  intros Hp. unfold pc_ok. repeat case_match; try done; intros Hpc.
  - destruct Hpc as [[? ?]|?]; [left|by right]. split; [done|]. by eapply recorded_mono.
  - destruct Hpc. split; [done|]. by eapply recorded_mono.
  - destruct Hpc as [? Hd]. split; [done|]. intros E. destruct (Hd E) as [je ?]. exists je. by eapply recorded_mono.
Qed.

(** The view of an open transaction stays well formed while others commit. *)
Lemma view_wf d d' t :
  ledger_wf (view d t) -> ledger_wf d' -> accounts d' = accounts d ->
  journal_entries d `prefix_of` journal_entries d' -> apart (journal_entries d') (tx_rows t) ->
  ledger_wf (view d' t).
Proof.
  intros [_ _ Hr Hp] [Ha Hc Hr' Hp'] Eacc [k Ek] Hap. constructor; simpl in *; [done..| |].
  - rewrite fmap_app in Hr |- *. apply NoDup_app in Hr as (_ & _ & Hr). apply NoDup_app. split_and!; [done| |done].
    intros x (a & -> & Hx)%list_elem_of_fmap (b & E & Hy)%list_elem_of_fmap. by destruct (Hap a b Hx Hy).
  - intros p [Hin|Hin]%elem_of_app.
    + destruct (Hp' p Hin) as (? & ? & j & ? & ?). split_and!; [done..|]. exists j. rewrite elem_of_app. auto.
    + destruct (Hp p) as (? & (a & ? & ?) & j & Hj & ?); [apply elem_of_app; auto|]. rewrite Eacc.
      split_and!; eauto. exists j. rewrite Ek, !elem_of_app. apply elem_of_app in Hj as [?|?]; auto.
Qed.

Lemma tx_ok_mono d n d' n' t :
  tx_ok d n t -> ledger_wf d' -> accounts d' = accounts d ->
  journal_entries d `prefix_of` journal_entries d' -> apart (journal_entries d') (tx_rows t) ->
  (n <= n')%N -> tx_ok d' n' t.
Proof.
  intros [] **. constructor; [done|by eapply pc_ok_mono|by eapply view_wf|done|by eapply drawn_mono].
Qed.

(** [t] is still the posting of transaction [i]. *)
Definition same_posting (s : store) (i : nat) (t : tx) : Prop :=
  forall t0, st_txs s !! i = Some t0 -> tx_entry t = tx_entry t0 /\ tx_now t = tx_now t0.

(** A transaction moved, and the database with it. *)
Lemma store_ok_update d0 s d n i t :
  store_ok d0 s -> books_ok d -> serial (st_db s) d -> accounts d = accounts (st_db s) ->
  journal_entries (st_db s) `prefix_of` journal_entries d -> (st_rng s <= n)%N ->
  drawn n (journal_entries d) -> tx_ok d n t ->
  (forall j u, j <> i -> st_txs s !! j = Some u ->
     apart (journal_entries d) (tx_rows u) /\ apart (tx_rows t) (tx_rows u)) ->
  same_posting s i t ->
  (forall j, j ∈ journal_entries d -> j ∈ journal_entries (st_db s) \/ entry_row (tx_entry t) (tx_now t) j) ->
  store_ok d0 (mkStore d n (<[i := t]> (st_txs s))).
Proof.
  intros [Hb Hs Hd Ht Ha Ho] Hb' Hs' Hacc Hpre Hn Hd' Ht' Hother Hsp Hnew. constructor; simpl; [done|by etransitivity|done| | |].
  - intros j u. rewrite lookup_insert. case_decide as Hj; [by intros [= <-]|]. intros Hu.
    eapply tx_ok_mono; [by eapply Ht|by apply Hb'|done..| |done]. by eapply Hother.
  - intros j k t1 t2 Hjk. rewrite !lookup_insert. do 2 case_decide; subst; try done.
    + intros [= <-] ?. by eapply Hother.
    + intros ? [= <-]. apply apart_sym. by eapply Hother.
    + by apply Ha.
  - intros j Hj. destruct (Hnew j Hj) as [Hold|Hrow]; [|right; exists i, t; simpl; by rewrite lookup_insert_eq].
    destruct (Ho j Hold) as [?|(k & u & Hu & Hrow)]; [auto|]. right.
    destruct (decide (i = k)) as [<-|]; [exists i, t|exists k, u]; simpl; [|by rewrite lookup_insert_ne].
    rewrite lookup_insert_eq. destruct (Hsp u Hu) as [-> ->]. auto.
Qed.

(** The same when nothing is committed. *)
Lemma store_ok_local d0 s n i t :
  store_ok d0 s -> (st_rng s <= n)%N -> tx_ok (st_db s) n t ->
  (forall j u, j <> i -> st_txs s !! j = Some u -> apart (tx_rows t) (tx_rows u)) ->
  same_posting s i t -> store_ok d0 (mkStore (st_db s) n (<[i := t]> (st_txs s))).
Proof.
  intros Hs Hn Ht Ha Hsp. pose proof Hs as []. apply store_ok_update; try done.
  - by eapply drawn_mono.
  - intros j u Hj Hu. split; [|by eapply Ha]. by eapply so_txs.
  - auto.
Qed.

Lemma same_posting_of s i t t' :
  st_txs s !! i = Some t -> tx_entry t' = tx_entry t -> tx_now t' = tx_now t -> same_posting s i t'.
Proof. intros Hi E1 E2 t0 Ht0. simplify_eq. auto. Qed.

Lemma ended_ok d n t r :
  Validate (tx_entry t) = Ok tt -> ledger_wf d -> pc_ok d (ended t r) -> tx_ok d n (ended t r).
Proof.
  intros ? ? ?. constructor; simpl; [done|done|by rewrite view_none|apply apart_sym, apart_nil_l|].
  by intros k _ ?%elem_of_nil.
Qed.

(** ** The statements *)

Lemma stmt_rng {A} (f : Z -> N -> DB -> res A * N * DB) w : (w_rng w <= w_rng (stmt f w).2)%N.
Proof. unfold stmt, pop_fault. destruct (w_faults w) as [|[] ?]; simpl; lia. Qed.

Lemma post_statement_rng e pc w : (w_rng w <= w_rng (post_statement e pc w).2)%N.
Proof.
  destruct pc as [| |c [|l ls]| |]; simpl; try lia; unfold mbind, M_bind, try, map_err; simpl.
  - pose proof (stmt_rng (fun _ _ d => (one (find_row (entry_by_ref (ExternalRef e)) (journal_entries d)), 0%N, d)) w).
    unfold GetJournalEntryByExternalRef, select. destruct (stmt _ w) as [[j|er] w1]; [done|]. simpl in *. by case_match.
  - match goal with |- context [CreateJournalEntry ?a ?b ?c ?d w] => pose proof (stmt_rng _ w : (_ <= w_rng (CreateJournalEntry a b c d w).2)%N) as Hr;
      destruct (CreateJournalEntry a b c d w) as [[]] end; done.
  - match goal with |- context [InsertPosting ?a ?b ?c ?d ?f w] => pose proof (stmt_rng _ w : (_ <= w_rng (InsertPosting a b c d f w).2)%N) as Hr;
      destruct (InsertPosting a b c d f w) as [[]] end; done.
Qed.

Lemma keeps_ext_post_statement e pc : keeps ledger_ext (post_statement e pc).
Proof. destruct pc as [| |c [|l ls]| |]; simpl; keeps_auto. Qed.

(** What the statement that returned did. *)
Lemma post_statement_Ok e pc w pc' w' :
  post_statement e pc w = (Ok pc', w') ->
  match pc with
  | PLookup =>
    w_db w' = w_db w /\ (pc' = PCreate \/ exists je, recorded (w_db w) e je /\ pc' = PCommit je)
  | PCreate =>
    exists c, pc' = PLines c (Lines e) /\ entry_row e (w_now w) c /\ je_id c = gen_uuid (w_rng w) /\
      (w_rng w < w_rng w')%N /\ (je_external_ref c ∉ je_external_ref <$> journal_entries (w_db w)) /\
      w_db w' = set_journal_entries (w_db w) (journal_entries (w_db w) ++ [c])
  | PLines c (l :: ls) =>
    exists p, pc' = PLines c ls /\ line_row (w_now w) (je_id c) l p /\
      w_db w' = set_postings (w_db w) (postings (w_db w) ++ [p])
  | PLines c [] => pc' = PCommit (toJournalEntry c) /\ w_db w' = w_db w
  | _ => pc' = pc
  end.
Proof.
  destruct pc as [| |c [|l ls]| |]; simpl; intros Hrun; minv; try done.
  - match goal with H : GetJournalEntryByExternalRef _ _ = _ |- _ => rename H into Hget end.
    pose proof (keeps_select (=) (fun d => one (find_row (entry_by_ref (ExternalRef e)) (journal_entries d))) w) as Hsame.
    change (select _ w) with (GetJournalEntryByExternalRef (ExternalRef e) w) in Hsame. rewrite Hget in Hsame.
    simpl in Hsame. destruct x as [j|er]; [|case_match; minv; by auto]. minv. split; [done|]. right.
    apply select_Ok in Hget as (Hf & _). unfold one in Hf. case_match eqn:Ej; simplify_eq.
    apply find_row_Some in Ej as [? ?%String.eqb_eq]. eexists. split; [|done]. eexists. eauto.
  - match goal with H : CreateJournalEntry _ _ _ _ _ = _ |- _ => apply stmt_Ok in H as (Hc & Hd & Hr & _) end.
    simpl in *. destruct (find_row _ _) eqn:Hf; [done|]. destruct (pk_taken _ _ _); [done|]. simplify_eq/=.
    eexists. split_and!; [done|done|done|lia| |done]. eapply find_row_not_in; [|exact Hf].
    intros r Hr'. simpl in Hr'. unfold entry_by_ref. by rewrite Hr', String.eqb_refl.
  - match goal with H : InsertPosting _ _ _ _ _ _ = _ |- _ => apply stmt_Ok in H as (Hc & Hd & _) end.
    simpl in *. destruct (PostingDirection_of_string (Direction l)) as [dir|] eqn:Hdir; [|done]. simpl in *.
    repeat case_match; simplify_eq/=. eexists. split_and!; [done| |done]. by exists dir.
Qed.

(** A duplicate is reported for a reference or an id that the statement saw. *)
Lemma post_statement_duplicate e pc w w' :
  post_statement e pc w = (Err ErrDuplicateExternalRef, w') ->
  pc = PCreate /\
  (is_Some (find_row (entry_by_ref (ExternalRef e)) (journal_entries (w_db w))) \/
   pk_taken je_id (gen_uuid (w_rng w)) (journal_entries (w_db w)) = true).
Proof.
  destruct pc as [| |c [|l ls]| |]; simpl; try done; unfold mbind, M_bind, try, map_err; intros Hrun.
  - destruct (GetJournalEntryByExternalRef _ w) as [[]]; [done|]. by case_match.
  - split; [done|]. unfold CreateJournalEntry, stmt in Hrun. pose proof (pop_fault_db w) as Ed.
    assert (w_rng (pop_fault w).2 = w_rng w) as Er by (unfold pop_fault; by destruct (w_faults w)).
    destruct (pop_fault w) as [flt w1]. simpl in *. rewrite Ed, Er in Hrun.
    destruct flt; [|done..].
    destruct (find_row _ _); [eauto|]. destruct (pk_taken _ _ _); [auto|]. done.
  - destruct (InsertPosting _ _ _ _ _ w) as [[]]; done.
Qed.

(** ** Every step keeps the invariant *)

Lemma after_statement_rows s t pc d rows ls :
  d = view (st_db s) (mkTx (tx_entry t) (tx_now t) pc rows ls) ->
  after_statement s t (Ok pc) d = mkTx (tx_entry t) (tx_now t) pc rows ls.
Proof. intros ->. simpl. by rewrite !drop_app_length. Qed.

(** A transaction that moved without inserting an entry. *)
Lemma moved_ok d n n' t pc ls :
  tx_ok d n t -> (n <= n')%N ->
  let t' := mkTx (tx_entry t) (tx_now t) pc (tx_rows t) ls in
  ledger_wf (view d t') -> pc_ok d t' -> tx_ok d n' t'.
Proof. intros [] Hn t' Hwf Hpc. constructor; simpl; try done. by eapply drawn_mono. Qed.

Context `{!EnvOk _}.

(** The insert of the entry: its key is not committed, no open transaction holds
    it, and its id is a new one. *)
Lemma created_ok d0 s i t c n :
  store_ok d0 s -> st_txs s !! i = Some t -> tx_pc t = PCreate -> blocked s i t = false ->
  entry_row (tx_entry t) (tx_now t) c -> je_id c = gen_uuid (st_rng s) -> (st_rng s < n)%N ->
  je_external_ref c ∉ je_external_ref <$> journal_entries (st_db s) ->
  let t' := mkTx (tx_entry t) (tx_now t) (PLines c (Lines (tx_entry t))) [c] [] in
  ledger_wf (view (st_db s) t') ->
  store_ok d0 (mkStore (st_db s) n (<[i := t']> (st_txs s))).
Proof.
  intros Hs Hi Hpc Hbl Hrow Hid Hn Hnew t' Hwf. pose proof Hs as [_ _ Hd Ht _ _].
  apply store_ok_local; [done|lia|constructor; simpl| |by eapply same_posting_of]; [by apply (Ht i)| |done| | |].
  - exists []. split_and!; [done..|]. by constructor.
  - intros a b Ha ->%list_elem_of_singleton. split.
    + intros E. apply Hnew. rewrite <- E. apply list_elem_of_fmap. eauto.
    + intros E. apply (Hd (st_rng s)); [lia|]. rewrite <- Hid, <- E. apply list_elem_of_fmap. eauto.
  - intros k Hk E%list_elem_of_singleton. rewrite Hid in E. apply (inj gen_uuid) in E. lia.
  - intros j u Hj Hu a b ->%list_elem_of_singleton Hb. split.
    + intros E. unfold blocked in Hbl. rewrite Hpc in Hbl. apply bool_decide_eq_false in Hbl. apply Hbl.
      exists j, u. split_and!; [done..|]. rewrite Hrow in E. simpl in E. rewrite E. apply list_elem_of_fmap. eauto.
    + intros E. destruct (Ht j u Hu) as [_ _ _ _ Hdu]. apply (Hdu (st_rng s)); [lia|].
      rewrite <- Hid, E. apply list_elem_of_fmap. eauto.
Qed.

Lemma statement_ok d0 s i t w pc w' :
  store_ok d0 s -> st_txs s !! i = Some t -> running (tx_pc t) = true -> blocked s i t = false -> seen_by s t w ->
  post_statement (tx_entry t) (tx_pc t) w = (Ok pc, w') ->
  store_ok d0 (mkStore (st_db s) (w_rng w') (<[i := after_statement s t (Ok pc) (w_db w')]> (st_txs s))).
Proof.
  intros Hs Hi Hr Hbl (Edb & Enow & Erng) Hrun. pose proof Hs as [_ _ _ Ht Ha _].
  pose proof (post_statement_rng (tx_entry t) (tx_pc t) w) as Hrng.
  pose proof (keeps_ext_post_statement (tx_entry t) (tx_pc t) w) as (_ & _ & _ & Hwf).
  rewrite Hrun, Erng in Hrng. rewrite Hrun, Edb in Hwf. simpl in Hrng, Hwf.
  pose proof (Ht i t Hi) as Hti. specialize (Hwf (ok_wf _ _ _ Hti)). pose proof (ok_pc _ _ _ Hti) as Hpc.
  apply post_statement_Ok in Hrun. unfold pc_ok in Hpc.
  destruct (tx_pc t) as [| |c [|l ls]| |] eqn:Epc; [| | | |done..].
  - destruct Hrun as [Ed Hpc']. rewrite Edb in Ed, Hpc'. rewrite Ed in Hwf |- *.
    rewrite (after_statement_rows s t pc _ (tx_rows t) (tx_lines t)) by done.
    apply store_ok_local; [done..| |by intros j u ? ?; simpl; eapply (Ha i j)|by eapply same_posting_of].
    eapply moved_ok; [exact Hti|done|by simpl; destruct t|]. rewrite (view_none _ _ Hpc) in Hpc'.
    destruct Hpc' as [->|(je & Hje & ->)]; [done|]. left. done.
  - destruct Hrun as (c & -> & Hrow & Hid & Hlt & Hnew & Ed). rewrite Enow in Hrow. rewrite Erng in Hid, Hlt.
    destruct Hpc as [Er El]. rewrite Edb in Ed, Hnew. unfold view in Ed, Hnew. rewrite Er, El, !app_nil_r in *.
    erewrite (after_statement_rows s t _ _ [c] []); [|rewrite Ed; unfold view; simpl; by rewrite app_nil_r].
    apply created_ok; try done. rewrite Ed in Hwf. unfold view. simpl. by rewrite app_nil_r.
  - destruct Hrun as [-> Ed]. rewrite Edb in Ed. rewrite Ed in Hwf |- *.
    rewrite (after_statement_rows s t _ _ (tx_rows t) (tx_lines t)) by done.
    apply store_ok_local; [done..| |by intros j u ? ?; simpl; eapply (Ha i j)|by eapply same_posting_of].
    eapply moved_ok; [exact Hti|done|by destruct t|]. right. destruct Hpc as (ls & Els & Hins). rewrite app_nil_r in Els.
    exists c. simpl. rewrite Els. done.
  - destruct Hrun as (p & -> & Hrow & Ed). rewrite Edb in Ed. rewrite Enow in Hrow.
    assert (w_db w' = view (st_db s) (mkTx (tx_entry t) (tx_now t) (PLines c ls) (tx_rows t) (tx_lines t ++ [p]))) as Ev.
    { rewrite Ed. unfold view. simpl. by rewrite app_assoc. }
    rewrite (after_statement_rows s t _ _ (tx_rows t) (tx_lines t ++ [p])) by done.
    apply store_ok_local; [done..| |by intros j u ? ?; simpl; eapply (Ha i j)|by eapply same_posting_of].
    eapply moved_ok; [exact Hti|done| |]; [by rewrite <- Ev|]. destruct Hpc as (pre & Els & Hrows & Hent & Hall).
    exists (pre ++ [l]). rewrite <- app_assoc. split; [done|]. unfold inserted. simpl. split_and!; [done..|]. apply Forall2_app; [done|]. by constructor.
Qed.

Lemma failed_ok d0 s i t w er w' :
  store_ok d0 s -> st_txs s !! i = Some t -> seen_by s t w ->
  post_statement (tx_entry t) (tx_pc t) w = (Err er, w') ->
  store_ok d0 (mkStore (st_db s) (w_rng w') (<[i := ended t (Err er)]> (st_txs s))).
Proof.
  intros Hs Hi (Edb & Enow & Erng) Hrun. pose proof Hs as [[Hwf _] _ Hd Ht _ _].
  pose proof (post_statement_rng (tx_entry t) (tx_pc t) w) as Hrng. rewrite Hrun, Erng in Hrng. simpl in Hrng.
  apply store_ok_local; [done..| |intros; apply apart_nil_l|by eapply same_posting_of]. apply ended_ok; [by apply (Ht i)|done|].
  split; [done|]. intros ->. apply post_statement_duplicate in Hrun as [Hpc Hdup].
  pose proof (ok_pc _ _ _ (Ht i t Hi)) as Hn. unfold pc_ok in Hn. rewrite Hpc in Hn.
  rewrite Edb, (view_none _ _ Hn), Erng in Hdup. destruct Hdup as [[j Hj]|Htk].
  - apply find_row_Some in Hj as [? ?%String.eqb_eq]. exists (toJournalEntry j), j. auto.
  - rewrite pk_taken_fresh in Htk; [done|]. apply Hd. lia.
Qed.

(** The lines of an entry that committed sum to zero. *)
Lemma Zsum_line_rows now id ls ps c :
  Forall2 (line_row now id) ls ps ->
  Zsum (fun p => if in_entry id c p then posting_diff p else 0) ps = line_sum c ls.
Proof.
  induction 1 as [|l p ls ps (dir & Hdir & ->) _ IH]; [done|]. rewrite Zsum_cons, line_sum_cons, IH. f_equal.
  unfold in_entry, line_diff, posting_diff. simpl. rewrite N.eqb_refl. simpl. case_match; [|done].
  unfold PostingDirection_of_string in Hdir. fold Debit in Hdir. by repeat case_match; simplify_eq/=.
Qed.

Lemma inserted_balances d n t c cur :
  tx_ok d n t -> ledger_wf d -> inserted t c (Lines (tx_entry t)) -> balanced (view d t) ->
  line_sum cur (Lines (tx_entry t)) = 0.
Proof.
  intros [_ _ _ Hap _] [_ _ _ Hp] (Er & _ & Hls) Hb. specialize (Hb (je_id c) cur). unfold entry_diff in Hb.
  simpl in Hb. rewrite Zsum_app, (Zsum_line_rows _ _ _ _ _ Hls), Zsum_zero in Hb; [lia|].
  intros p Hin. unfold in_entry. destruct (N.eqb_spec (p_entry_id p) (je_id c)) as [E|]; [|done].
  destruct (Hp p Hin) as (_ & _ & j & Hj & Ej). destruct (Hap j c Hj) as [_ []]; [rewrite Er; apply list_elem_of_here|congruence].
Qed.

Lemma view_posted d n t je :
  tx_ok d n t -> ledger_wf d -> tx_pc t = PCommit je -> balanced (view d t) ->
  (none_yet t \/ posted d (view d t)) /\ recorded (view d t) (tx_entry t) je.
Proof.
  intros Ht Hwf Hpc Hb. pose proof (ok_pc _ _ _ Ht) as Hcase. unfold pc_ok in Hcase. rewrite Hpc in Hcase.
  destruct Hcase as [[Hn Hr]|(c & Hins & ->)]; [rewrite (view_none _ _ Hn); auto|].
  pose proof Hins as (Er & Hrow & Hls). pose proof (ok_apart _ _ _ Ht) as Hap. rewrite Er in Hap.
  assert (c ∈ [c]) as Hc by apply list_elem_of_here. split.
  - right. exists (tx_entry t), (tx_now t), c, (tx_lines t). split_and!; try done; [by apply (ok_valid _ _ _ Ht)| | | |].
    + intros cur. by eapply inserted_balances.
    + intros (a & E & Ha)%list_elem_of_fmap. by destruct (Hap a c Ha Hc).
    + intros (a & E & Ha)%list_elem_of_fmap. by destruct (Hap a c Ha Hc).
    + simpl. by rewrite Er.
  - exists c. simpl. rewrite Er, elem_of_app. split_and!; [auto| |done]. by rewrite Hrow.
Qed.

Lemma serial_same d d' : same_ledger d d' -> serial d d'.
Proof. intros ?. apply rtc_once. auto. Qed.

(** The commit makes the view of the transaction the database, or changes nothing. *)
Lemma committed_ok d0 s i t je n r :
  store_ok d0 s -> st_txs s !! i = Some t -> tx_pc t = PCommit je -> (st_rng s <= n)%N ->
  deferred_triggers (st_db s) (view (st_db s) t) = true ->
  store_ok d0 (mkStore (view (st_db s) t) n (<[i := after_commit t je r]> (st_txs s))).
Proof.
  intros Hs Hi Hpc Hn Htr. pose proof Hs as [[Hwf Hb] _ Hd Ht Ha _]. pose proof (Ht i t Hi) as Hti.
  assert (balanced (view (st_db s) t)) as Hb' by (eapply deferred_triggers_balanced; [|exact Htr|done]; by eexists).
  destruct (view_posted _ _ _ _ Hti Hwf Hpc Hb') as [Hpost Hrec].
  apply store_ok_update; [done| | |done|by eexists|done| | | |by eapply same_posting_of|].
  - split; [apply Hti|done].
  - destruct Hpost as [Hno|?]; [rewrite (view_none _ _ Hno); reflexivity|]. apply rtc_once. auto.
  - eapply drawn_mono; [|exact Hn]. intros k Hk. simpl. rewrite fmap_app, elem_of_app.
    intros [?|?]; [by eapply Hd|by eapply (ok_drawn _ _ _ Hti)].
  - apply ended_ok; [by apply Hti|by apply Hti|]. unfold pc_ok. simpl. destruct r; done.
  - intros j u Hj Hu. simpl. split; [|apply apart_nil_l]. apply apart_app; [by apply (Ht j u)|by eapply (Ha i j)].
  - intros j [?|Hj]%elem_of_app; [auto|right]. pose proof (ok_pc _ _ _ Hti) as Hc. unfold pc_ok in Hc. rewrite Hpc in Hc.
    destruct Hc as [[[Er _] _]|(c & (Er & Hrow & _) & _)]; rewrite Er in Hj; [by apply elem_of_nil in Hj|].
    by apply list_elem_of_singleton in Hj as ->.
Qed.

Lemma dropped_ok d0 s i t n er :
  store_ok d0 s -> st_txs s !! i = Some t -> (st_rng s <= n)%N -> er <> ErrDuplicateExternalRef ->
  store_ok d0 (mkStore (st_db s) n (<[i := ended t (Err er)]> (st_txs s))).
Proof.
  intros Hs Hi Hn He. pose proof Hs as [[Hwf _] _ _ Ht _ _].
  apply store_ok_local; [done..| |intros; apply apart_nil_l|by eapply same_posting_of]. apply ended_ok; [by apply (Ht i)|done|]. by split.
Qed.

Lemma step_ok d0 s s' : store_ok d0 s -> step s s' -> store_ok d0 s'.
Proof.
  intros Hs Hst. pose proof Hs as [Hb Hse Hd Ht Ha Ho]. destruct Hst as [i e now Hi Hv|i t w r w' Hi Hr Hbl Hw Hrun|i t je w r w' Hi Hpc Hw Hrun|i t Hi Hpc|d n Hsame Hn].
  - apply store_ok_local; [done..| |intros; apply apart_nil_l|by intros t0 ?; simplify_eq]. constructor; simpl; try done; [|apply apart_sym, apart_nil_l|].
    + rewrite view_none by done. apply Hb.
    + by intros k _ ?%elem_of_nil.
  - destruct r as [pc|er]; [by eapply statement_ok|by eapply failed_ok].
  - destruct Hw as (Edb & _ & Erng). unfold commit in Hrun. pose proof (pop_fault_db w) as Ed.
    assert (w_rng (pop_fault w).2 = st_rng s) as Er by (rewrite <- Erng; unfold pop_fault; by destruct (w_faults w)).
    destruct (pop_fault w) as [flt w1]. simpl in Ed, Er. rewrite Edb in Ed. rewrite Ed in Hrun.
    destruct flt; try destruct (deferred_triggers _ _) eqn:Htr; simplify_eq/=; rewrite ?Ed, ?Er;
      first [by apply committed_ok|by apply dropped_ok].
  - by apply dropped_ok.
  - pose proof (same_ledger_ext _ _ Hsame) as (_ & Hpre & _ & Hw). destruct Hsame as (Eacc & Ej & Ep), Hb as [Hwf Hb].
    constructor; simpl; [| |rewrite Ej; by eapply drawn_mono| |done|by rewrite Ej].
    + split; [auto|]. intros x c. unfold entry_diff. rewrite Ep. apply Hb.
    + etransitivity; [exact Hse|]. by apply serial_same.
    + intros i t Hi. eapply tx_ok_mono; [by eapply Ht|auto|done..| |done]. rewrite Ej. by apply (Ht i t).
Qed.

Definition start (d : DB) (n : N) : store := mkStore d n ∅.

Lemma reached_ok d n s : books_ok d -> drawn n (journal_entries d) -> rtc step (start d n) s -> store_ok d s.
Proof.
  intros Hb Hd Hr. assert (store_ok d (start d n)) as H0.
  { constructor; simpl; [done|reflexivity|done|apply map_Forall_empty| |auto]. by intros i j t u _ ?%lookup_empty_Some. }
  clear Hb Hd. revert H0. induction Hr as [|s1 s2 s3 Hs _ IH]; [done|]. intros H1. apply IH. by eapply step_ok.
Qed.

Lemma recorded_eq d e e' je je' :
  ledger_wf d -> recorded d e je -> recorded d e' je' -> ExternalRef e = ExternalRef e' -> je = je'.
Proof.
  intros [_ _ Hnd _] (j & Hj & Ej & ->) (k & Hk & Ek & ->) E.
  f_equal. eapply NoDup_fmap_elem; [exact Hnd|done..|congruence].
Qed.

(** A transaction that holds a key is past its insert. *)
Lemma holder_runs d n s i t ref : tx_ok d n t -> holds_key ref t -> blocked s i t = false.
Proof.
  intros [_ Hpc _ _ _] Hh. unfold blocked. unfold pc_ok in Hpc. destruct (tx_pc t); try done.
  destruct Hpc as [E _]. unfold holds_key in Hh. rewrite E in Hh. by apply elem_of_nil in Hh.
Qed.

(** C11: concurrent postings keep the books. However the statements of any number of
    postings interleave under READ COMMITTED, with lost connections, crashes and
    commits whose answer is lost: the committed ledger is always balanced and well
    formed and is the one some serial order of whole postings leaves; every entry
    it gained is that of one of the postings; a posting that returned an entry has
    it committed under its reference, one that returned [ErrDuplicateExternalRef]
    found the reference committed, and postings of one reference that return
    entries return the same one; and an insert that waits waits for a posting that
    does not wait itself, so no deadlock arises. *)
Theorem concurrent_posts d n s :
  books_ok d -> drawn n (journal_entries d) -> rtc step (start d n) s ->
  books_ok (st_db s) /\ serial d (st_db s) /\
  (forall j, j ∈ journal_entries (st_db s) -> j ∈ journal_entries d \/ posted_by s j) /\
  (forall i t je, st_txs s !! i = Some t -> tx_pc t = PDone (Ok je) -> recorded (st_db s) (tx_entry t) je) /\
  (forall i t, st_txs s !! i = Some t -> tx_pc t = PDone (Err ErrDuplicateExternalRef) ->
     exists je, recorded (st_db s) (tx_entry t) je) /\
  (forall i j t u je je', st_txs s !! i = Some t -> st_txs s !! j = Some u ->
     tx_pc t = PDone (Ok je) -> tx_pc u = PDone (Ok je') ->
     ExternalRef (tx_entry t) = ExternalRef (tx_entry u) -> je = je') /\
  (forall i t, st_txs s !! i = Some t -> blocked s i t = true ->
     exists j u, st_txs s !! j = Some u /\ holds_key (ExternalRef (tx_entry t)) u /\ blocked s j u = false).
Proof.
  intros Hb Hd Hr. destruct (reached_ok _ _ _ Hb Hd Hr) as [[Hwf Hbal] Hs _ Ht _ Ho].
  assert (forall i t je, st_txs s !! i = Some t -> tx_pc t = PDone (Ok je) -> recorded (st_db s) (tx_entry t) je) as Hrec.
  { intros i t je Hi Epc. pose proof (ok_pc _ _ _ (Ht i t Hi)) as Hpc. unfold pc_ok in Hpc. rewrite Epc in Hpc. apply Hpc. }
  split_and!; [done..| | |].
  - intros i t Hi Epc. pose proof (ok_pc _ _ _ (Ht i t Hi)) as Hpc. unfold pc_ok in Hpc. rewrite Epc in Hpc. by apply Hpc.
  - intros i j t u je je' Hi Hj E1 E2 Href. eapply recorded_eq; eauto.
  - intros i t Hi Hbl. unfold blocked in Hbl. destruct (tx_pc t); try done.
    apply bool_decide_eq_true in Hbl as (j & u & Hu & _ & Hh). exists j, u. split_and!; [done..|].
    by eapply holder_runs; [apply (Ht j u)|].
Qed.
End isolation.

(** ** Two postings of one reference at once *)

(** A schedule of steps, for examples. *)
Inductive action := Begin (i : nat) (e : Entry) (now : Z) | Run (i : nat) (fs : list fault) | Finish (i : nat) (fs : list fault).

Section schedules.
Context `{Env}.

Definition world_of (s : store) (t : tx) (fs : list fault) : World :=
  mkWorld (view (st_db s) t) (tx_now t) (st_rng s) fs [] newServer [] (mkRedis ∅ []).

Definition exec (s : store) (a : action) : option store :=
  match a with
  | Begin i e now =>
    match st_txs s !! i, Validate e with
    | None, Ok _ => Some (mkStore (st_db s) (st_rng s) (<[i := mkTx e now PLookup [] []]> (st_txs s)))
    | _, _ => None
    end
  | Run i fs =>
    t ← st_txs s !! i;
    if running (tx_pc t) && negb (blocked s i t) then
      let '(r, w') := post_statement (tx_entry t) (tx_pc t) (world_of s t fs) in
      Some (mkStore (st_db s) (w_rng w') (<[i := after_statement s t r (w_db w')]> (st_txs s)))
    else None
  | Finish i fs =>
    t ← st_txs s !! i;
    match tx_pc t with
    | PCommit je =>
      let '(r, w') := commit (st_db s) (world_of s t fs) in
      Some (mkStore (w_db w') (w_rng w') (<[i := after_commit t je r]> (st_txs s)))
    | _ => None
    end
  end.

Fixpoint execs (s : store) (l : list action) : option store :=
  match l with [] => Some s | a :: l' => s' ← exec s a; execs s' l' end.

Lemma exec_step s a s' : exec s a = Some s' -> step s s'.
Proof.
  destruct a as [i e now|i fs|i fs]; simpl; intros E.
  - destruct (st_txs s !! i) eqn:Hi; [done|]. destruct (Validate e) as [[]|] eqn:Hv; [|done]. simplify_eq. by apply step_begin.
  - destruct (st_txs s !! i) as [t|] eqn:Hi; [|done]. simpl in E. case_match eqn:Hc; [|done]. apply andb_true_iff in Hc as [? ?%negb_true_iff].
    destruct (post_statement _ _ _) as [r w'] eqn:Hrun. simplify_eq. by apply (step_statement s i t (world_of s t fs)).
  - destruct (st_txs s !! i) as [t|] eqn:Hi; [|done]. simpl in E. case_match eqn:Hpc; try done.
    destruct (commit _ _) as [r w'] eqn:Hrun. simplify_eq. by apply (step_commit s i t _ (world_of s t fs)).
Qed.

Lemma execs_steps s l s' : execs s l = Some s' -> rtc step s s'.
Proof.
  revert s. induction l as [|a l IH]; simpl; intros s E; [by simplify_eq|].
  destruct (exec s a) as [s1|] eqn:Ha; [|done]. eapply rtc_l; [by eapply exec_step|by apply IH].
Qed.
End schedules.

(** The second posting looks before the first inserts, waits for it, and finds its
    entry committed. *)
Definition race : list action :=
  [Begin 1 deposit_entry 1000; Begin 2 deposit_entry 1001; Run 1 []; Run 2 []; Run 1 []; Run 1 []; Run 1 []; Run 1 [];
   Finish 1 []; Run 2 []].

Definition raced : store := Eval vm_compute in
  default (start seeded_db 0%N) (execs (H:=example_env) (start seeded_db 0%N) race).

Lemma raced_reached : rtc (step (H:=example_env)) (start seeded_db 0%N) raced.
Proof. apply (execs_steps (H:=example_env) _ race). vm_compute. reflexivity. Qed.

(** The duplicate is an error for the second caller, not the entry. *)
Example race_duplicate :
  tx_pc <$> st_txs raced !! 2%nat = Some (PDone (Err ErrDuplicateExternalRef)) /\
  List.length (journal_entries (st_db raced)) = 1%nat.
Proof. vm_compute. done. Qed.

Lemma concurrent_posts_witness : exists je, recorded (st_db raced) deposit_entry je.
Proof.
  assert (drawn (H:=example_env) 0 (journal_entries seeded_db)) as Hd by (intros k _ Hk; by apply elem_of_nil in Hk).
  destruct (@concurrent_posts example_env example_env_ok seeded_db 0%N raced seeded_books_ok Hd raced_reached)
    as (_ & _ & _ & _ & Hdup & _).
  exact (Hdup 2%nat (mkTx deposit_entry 1001 (PDone (Err ErrDuplicateExternalRef)) [] []) eq_refl eq_refl).
Defined.
