(* ===== verification/Backoff.v ===== *)
(** * Retry delays ([internal/saga/backoff.go], [outbox.Dispatcher.computeBackoff])

    Both schedules double a candidate in [int64] until it reaches the cap, clamp
    it, and draw a delay below it.  The closed form of the window, its bounds and
    the agreement of the two implementations are proved here. *)

From S2P Require Import Prelude GoStr MockBank Models World.

(** ** Durations *)

Definition millisecond : Z := 10 ^ 6.
Definition second : Z := 10 ^ 9.
Definition minute : Z := 60 * second.
Definition hour : Z := 60 * minute.

Record Backoff := mkBackoff { Base : Z; Max : Z }.

Definition NewBackoff (base max : Z) : Backoff :=
  let base := if base <=? 0 then 500 * millisecond else base in
  let max := if (max <=? 0) || (max <? base) then 5 * minute else max in
  mkBackoff base max.

(** [for i := ...; i < attempt && candidate < max; i++ { candidate *= 2 }], with
    [n] iterations left before the counter stops the loop. *)
Fixpoint double_loop (max : Z) (n : nat) (candidate : Z) : Z :=
  match n with
  | O => candidate
  | S n' => if candidate <? max then double_loop max n' (wrap64 (candidate * 2)) else candidate
  end.

Definition Delay (b : Backoff) (attempt : Z) : M Z :=
  let attempt := if attempt <? 0 then 0 else attempt in
  let candidate := double_loop (Max b) (Z.to_nat attempt) (Base b) in
  let candidate := if Max b <? candidate then Max b else candidate in
  if candidate <=? 0 then mret 0 else Int64N candidate.

Definition computeBackoff (base max attempt : Z) : M Z :=
  let candidate := double_loop max (Z.to_nat (attempt - 1)) base in
  let candidate := if max <? candidate then max else candidate in
  if candidate <=? 0 then mret 0 else Int64N candidate.

(** ** Closed form *)

(** The window the delay is drawn from. *)
Definition window (base max attempt : Z) : Z := Z.min max (base * 2 ^ attempt).

Lemma double_loop_spec max n c :
  0 < c -> max <= 2 ^ 62 -> Z.min max (double_loop max n c) = window c max (Z.of_nat n).
Proof.
  intros Hc Hm. unfold window. revert c Hc. induction n as [|n IH]; intros c Hc; simpl double_loop.
  { by rewrite Z.mul_1_r. }
  rewrite Nat2Z.inj_succ, Z.pow_succ_r by lia. destruct (c <? max) eqn:?; bools.
  - rewrite wrap64_id by (apply is_int64_spec; unfold int64_min, int64_max; lia). rewrite IH by lia. f_equal. ring.
  - pose proof (Z.pow_pos_nonneg 2 (Z.of_nat n)). rewrite !Z.min_l by nia. done.
Qed.

Lemma clamp_min m c : (if m <? c then m else c) = Z.min m c.
Proof. case_match; bools; lia. Qed.

Lemma window_pos base max n : 0 < base -> 0 < max -> 0 <= n -> 0 < window base max n.
Proof. intros. unfold window. pose proof (Z.pow_pos_nonneg 2 n). nia. Qed.

Lemma Delay_window b attempt :
  0 < Base b -> 0 < Max b <= 2 ^ 62 ->
  Delay b attempt = Int64N (window (Base b) (Max b) (Z.max 0 attempt)).
Proof.
  intros Hb Hm. unfold Delay. rewrite clamp_min.
  replace (if attempt <? 0 then 0 else attempt) with (Z.max 0 attempt) by (case_match; bools; lia).
  rewrite double_loop_spec, Z2Nat.id by lia.
  pose proof (window_pos (Base b) (Max b) (Z.max 0 attempt)). case_match; bools; [lia|done].
Qed.

Lemma Int64N_range n w : 0 < n -> exists d w', Int64N n w = (Ok d, w') /\ 0 <= d < n /\ w_db w' = w_db w.
Proof.
  intros Hn. unfold Int64N. destruct (w_jitter w) as [|j js].
  - exists 0, w. split_and!; [done|lia|lia|done].
  - eexists _, _. split; [done|]. pose proof (Z.mod_pos_bound j n Hn). done.
Qed.

(** C38: the saga's retry delay. With a positive base and a cap of at most [2^62]
    nanoseconds the doubling never overflows, and the delay before attempt [n]
    is drawn from [[0, min(Max, Base * 2^n))]: it always exists, is never
    negative and stays below the cap. *)
Theorem Delay_range b attempt w :
  0 < Base b -> 0 < Max b <= 2 ^ 62 ->
  exists d w', Delay b attempt w = (Ok d, w') /\
    0 <= d < Z.min (Max b) (Base b * 2 ^ Z.max 0 attempt) /\ w_db w' = w_db w.
Proof.
  intros Hb Hm. rewrite Delay_window by done.
  apply Int64N_range, window_pos; lia.
Qed.

(** The dispatcher's schedule is the saga's, one attempt later: the two
    hand-written loops are the same function, overflow included. *)
Theorem computeBackoff_Delay base max n :
  0 <= n -> computeBackoff base max (n + 1) = Delay (mkBackoff base max) n.
Proof.
  intros Hn. unfold computeBackoff, Delay. simpl.
  replace (n + 1 - 1) with n by lia. destruct (n <? 0) eqn:?; bools; [lia|done].
Qed.

(** [NewBackoff] repairs every configuration whose cap does not overflow. *)
Lemma NewBackoff_ok base max :
  max <= 2 ^ 62 -> 0 < Base (NewBackoff base max) /\ 0 < Max (NewBackoff base max) <= 2 ^ 62.
Proof.
  intros Hm. unfold NewBackoff, minute, second, millisecond. simpl Base. simpl Max.
  repeat case_match; bools; lia.
Qed.

(** ** Examples *)

Lemma Delay_range_witness :
  exists d w', Delay (mkBackoff second (5 * minute)) 4 (world_at 0 empty_db) = (Ok d, w') /\
    0 <= d < Z.min (5 * minute) (second * 2 ^ Z.max 0 4) /\ w_db w' = empty_db.
Proof.
  apply (Delay_range (mkBackoff second (5 * minute)) 4 (world_at 0 empty_db)); simpl;
    unfold minute, second; lia.
Defined.

Lemma computeBackoff_Delay_witness :
  computeBackoff second (5 * minute) (3 + 1) = Delay (mkBackoff second (5 * minute)) 3.
Proof. apply computeBackoff_Delay. lia. Defined.
