(* ===== verification/Payout.v ===== *)
(** * Payout rails ([internal/payout], [internal/payout/rails])

    The rail interface, the router, and the rail that talks to the mock bank.
    [RailOk] is what the saga's steps rely on; the mock bank rail discharges it
    from the bank's own invariant. *)

From S2P Require Import Prelude GoStr MockBank Models World GoJson.

(** ** types.go *)

Inductive Outcome :=
  | OutcomeSuccess
  | OutcomeRetry
  | OutcomePermanent
  | OutcomeOther (n : Z).

Definition Outcome_String (o : Outcome) : string :=
  match o with
  | OutcomeSuccess => "success"
  | OutcomeRetry => "retry"
  | OutcomePermanent => "permanent"
  | OutcomeOther _ => "unknown"
  end.

Record Recipient := mkRecipient {
  BankCode : string;
  AccountNumber : string;
  AccountName : string
}.

Record SubmitRequest := mkSubmitRequest' {
  sq_payout_id : uuid;
  sq_intent_id : uuid;
  sq_amount_idr : Z;
  sq_recipient : Recipient;
  sq_memo : string;
  sq_idempotency : string
}.

Record SubmitResult := mkSubmitResult {
  sres_outcome : Outcome;
  sres_rail_reference : string;
  sres_message : string
}.

(** The [Rail] interface. *)
Record Rail := mkRail {
  rail_Name : string;
  rail_Submit : SubmitRequest -> M SubmitResult
}.

Definition ErrUnknownRail := ErrSentinel "payout: unknown rail".

(** ** router.go *)

Record Router := mkRouter { rails : gmap string Rail }.

Definition NewRouter (rs : list Rail) : Router :=
  mkRouter (foldl (fun m r => <[rail_Name r := r]> m) ∅ rs).

Definition Router_Get (r : Router) (name : string) : res Rail :=
  match rails r !! name with
  | Some rail => Ok rail
  | None => Err (ErrSuffix ErrUnknownRail (Quote_q name))
  end.

Definition Names (r : Router) : list string := (map_to_list (rails r)).*1.

(** ** rails/mock_idr_bank.go *)

Definition MockIDRBankName := "mock_idr_bank".

(** [request_error] is what [http.NewRequestWithContext] reports for
    [baseURL + "/payouts"]: [None] for a URL that parses. *)
Record MockIDRBank := mkMockIDRBank {
  baseURL : string;
  request_error : option err
}.

Definition ErrInvalidBaseURL := ErrSentinel "mock_idr_bank: base URL is required".

Definition rails_Validate (url : string) : res unit :=
  if String.eqb url "" then Err ErrInvalidBaseURL else Ok tt.

(** The bytes of a response body and what [json.Unmarshal] leaves of them in a
    zero [submitResponse]. *)
Definition response_json (r : submitResponse) : json :=
  JObj ([("reference", JStr (resp_reference r)); ("status", JStr (resp_status r))] ++
        omitempty_str "message" (resp_message r)).

Definition body_raw (b : http_body) : string :=
  match b with BodyJSON r => Marshal (response_json r) | BodyText s => s end.

Definition body_parsed (b : http_body) : submitResponse :=
  match b with BodyJSON r => r | BodyText _ => mkSubmitResponse "" "" "" end.

Definition pickMessage (parsed raw : string) (status : Z) : string :=
  if negb (String.eqb parsed "") then parsed
  else if negb (String.eqb raw "") then FormatInt status +:+ ": " +:+ raw
  else "status " +:+ FormatInt status.

(** The switch on the status code. *)
Definition classify (status : Z) (b : http_body) : SubmitResult :=
  let parsed := body_parsed b in
  let msg := pickMessage (resp_message parsed) (body_raw b) status in
  if (200 <=? status) && (status <? 300) then
    mkSubmitResult OutcomeSuccess (resp_reference parsed) (resp_message parsed)
  else if (status =? 422) || (status =? 400) then mkSubmitResult OutcomePermanent "" msg
  else if 500 <=? status then mkSubmitResult OutcomeRetry "" msg
  else mkSubmitResult OutcomePermanent "" msg.

Section rail.
Context `{Env}.

(** The request the bank receives: [submitBody] and the headers. *)
Definition submit_http (req : SubmitRequest) : payout_http_request :=
  mkPayoutHttpRequest "POST" (sq_idempotency req) ""
    (ReqJSON (mkSubmitRequest (uuid_string (sq_intent_id req)) (uuid_string (sq_payout_id req))
       (sq_amount_idr req) (BankCode (sq_recipient req)) (AccountNumber (sq_recipient req))
       (AccountName (sq_recipient req)) (sq_memo req))).

(** The bank serves the request; a UUID may be drawn for its reference. *)
Definition bank_serve (req : SubmitRequest) (w : World) : World * (Z * http_body) :=
  let '(s, resp) := handlePayouts (w_bank w) (uuid_string (gen_uuid (w_rng w))) (submit_http req) in
  (set_bank (set_rng w (w_rng w + 1)%N) s, resp).

Definition next_event (w : World) : net_event * World :=
  match w_net w with
  | [] => (NetDeliver, w)
  | ev :: evs => (ev, set_net w evs)
  end.

Definition retry_result (msg : string) : SubmitResult := mkSubmitResult OutcomeRetry "" msg.

Definition Submit (m : MockIDRBank) (req : SubmitRequest) : M SubmitResult := fun w =>
  match request_error m with
  | Some e => (Err (ErrWrap "mock_idr_bank: build request" e), w)
  | None =>
    let '(ev, w1) := next_event w in
    match ev with
    | NetRequestLost msg => (Ok (retry_result msg), w1)
    | NetResponseLost msg => let '(w2, _) := bank_serve req w1 in (Ok (retry_result msg), w2)
    | NetReadFail msg =>
      let '(w2, _) := bank_serve req w1 in (Ok (retry_result ("read body: " +:+ msg)), w2)
    | NetForeign status b => (Ok (classify status b), w1)
    | NetDeliver => let '(w2, (status, b)) := bank_serve req w1 in (Ok (classify status b), w2)
    end
  end.

Definition mock_idr_bank_rail (m : MockIDRBank) : Rail := mkRail MockIDRBankName (Submit m).
End rail.

(** ** What the steps rely on *)

(** Nothing between the process and the bank answers in the bank's place with a
    success. *)
Definition honest_net (w : World) : Prop :=
  forall status b, NetForeign status b ∈ w_net w -> status < 200 \/ 300 <= status.

(** The contract of a rail: it leaves the database alone, a submission adds at
    most one disbursement and only under its own idempotency key, the bank's
    bookkeeping stays consistent, and success means the key was paid. *)
Class RailOk (r : Rail) : Prop := {
  rail_db req : keeps eq (rail_Submit r req);
  rail_world req w :
    let w' := (rail_Submit r req w).2 in
    w_now w' = w_now w /\ w_faults w' = w_faults w /\ w_jitter w' = w_jitter w /\
    (honest_net w -> honest_net w');
  rail_bank_inv req w : bank_inv (w_bank w) -> bank_inv (w_bank (rail_Submit r req w).2);
  rail_disbursed req w :
    exists new, disbursed (w_bank (rail_Submit r req w).2) = disbursed (w_bank w) ++ new /\
      (new = [] \/ exists b, new = [(sq_idempotency req, b)]);
  rail_success req w r' w' :
    rail_Submit r req w = (Ok r', w') -> sres_outcome r' = OutcomeSuccess ->
    honest_net w -> bank_inv (w_bank w) ->
    sq_idempotency req ∈ (disbursed (w_bank w')).*1
}.

Section rail_ok.
Context `{Env}.

Lemma next_event_spec w ev w1 :
  next_event w = (ev, w1) ->
  w_db w1 = w_db w /\ w_bank w1 = w_bank w /\ w_now w1 = w_now w /\ w_faults w1 = w_faults w /\
  w_jitter w1 = w_jitter w /\ (honest_net w -> honest_net w1) /\
  (forall st b, ev = NetForeign st b -> NetForeign st b ∈ w_net w).
Proof.
  unfold next_event. destruct (w_net w) as [|e es] eqn:E; intros [= <- <-]; split_and!; try done.
  - intros Hh st b Hin. apply (Hh st b). rewrite E. by right.
  - intros st b ->. by left.
Qed.

Lemma disbursed_handle s fresh r s' resp :
  handlePayouts s fresh r = (s', resp) ->
  exists new, disbursed s' = disbursed s ++ new /\
    (new = [] \/ exists b, new = [(hr_idempotency_key r, b)]).
Proof.
  intros E. destruct (handlePayouts_cases _ _ _ _ _ E) as [[-> _]|[(v & _ & _ & ->)|(q & v & Hk & _ & _ & _ & ->)]].
  - exists []. rewrite app_nil_r. auto.
  - exists []. by rewrite (disbursed_log_app s (CachedReply (hr_idempotency_key r) (statusCode v)));
      [rewrite !app_nil_r; auto|].
  - eexists. split; [by apply disbursed_log_app|]. simpl. destruct (_ =? 200); eauto.
Qed.

(** Once the reply is a success, the key is in the bank's books. *)
Lemma handle_success s fresh r s' code b :
  bank_inv s -> handlePayouts s fresh r = (s', (code, b)) -> 200 <= code < 300 ->
  hr_idempotency_key r ∈ (disbursed s').*1.
Proof.
  intros (_ & _ & Hc) E Hcode.
  destruct (handlePayouts_cases _ _ _ _ _ E) as [[-> ?]|[(v & Hv & [= -> ->] & ->)|(q & v & Hk & [= -> ->] & _ & Hok & ->)]].
  - simpl in *. lia.
  - destruct (Hc _ _ Hv) as [[q Hq] Hok]. unfold status_ok in Hok.
    apply list_elem_of_fmap. exists (hr_idempotency_key r, q). split; [done|]. apply elem_of_disbursed.
    simpl. apply elem_of_app. left. by replace 200 with (statusCode v) by lia.
  - unfold status_ok in Hok. apply list_elem_of_fmap. exists (hr_idempotency_key r, q). split; [done|].
    apply elem_of_disbursed. simpl. apply elem_of_app. right. replace (statusCode v) with 200 by lia.
    by constructor.
Qed.

Lemma classify_success st b : sres_outcome (classify st b) = OutcomeSuccess -> 200 <= st < 300.
Proof. unfold classify. repeat case_match; simpl; try done. bools. lia. Qed.

(** The five ways a submission can go, with what each does to the world. *)
Lemma Submit_cases m req w r w' :
  Submit m req w = (r, w') ->
  w_db w' = w_db w /\ w_now w' = w_now w /\ w_faults w' = w_faults w /\ w_jitter w' = w_jitter w /\
  (honest_net w -> honest_net w') /\
  ((w_bank w' = w_bank w /\ forall x, r = Ok x -> sres_outcome x = OutcomeSuccess -> ¬ honest_net w) \/
   exists fresh resp, handlePayouts (w_bank w) fresh (submit_http req) = (w_bank w', resp) /\
     forall x, r = Ok x -> sres_outcome x = OutcomeSuccess -> 200 <= resp.1 < 300).
Proof.
  unfold Submit. destruct (request_error m) as [e|].
  { intros [= <- <-]. split_and!; auto. left. split; [done|]. intros ? [=]. }
  destruct (next_event w) as [ev w1] eqn:Ev.
  destruct (next_event_spec _ _ _ Ev) as (Hd & Hb & Hn & Hf & Hj & Hh & Hin).
  unfold bank_serve. rewrite <- Hb.
  destruct (handlePayouts (w_bank w1) _ _) as [s [st b]] eqn:Eh.
  destruct ev as [|msg|msg|msg|st' b']; intros [= <- <-]; (split_and!; [auto..|]); try done.
  - right. eexists _, _. split; [exact Eh|]. intros x [= <-]. apply classify_success.
  - left. split; [done|]. by intros x [= <-].
  - right. eexists _, _. split; [exact Eh|]. by intros x [= <-].
  - right. eexists _, _. split; [exact Eh|]. by intros x [= <-].
  - left. split; [done|]. intros x [= <-] Hs%classify_success Hhon.
    destruct (Hhon st' b' (Hin _ _ eq_refl)); lia.
Qed.

(** The mock bank's rail meets the contract. *)
#[global] Instance mock_idr_bank_ok m : RailOk (mock_idr_bank_rail m).
Proof.
  split; simpl.
  - intros req w. simpl. destruct (Submit m req w) as [r w'] eqn:E. simpl. by destruct (Submit_cases _ _ _ _ _ E) as (-> & _).
  - intros req w. destruct (Submit m req w) as [r w'] eqn:E.
    by destruct (Submit_cases _ _ _ _ _ E) as (_ & ? & ? & ? & ? & _).
  - intros req w Hi. destruct (Submit m req w) as [r w'] eqn:E.
    destruct (Submit_cases _ _ _ _ _ E) as (_ & _ & _ & _ & _ & [[Hb _]|(fresh & resp & Hh & _)]); simpl.
    + by rewrite Hb.
    + pose proof (bank_inv_handlePayouts (w_bank w) fresh (submit_http req) Hi) as Hi'. by rewrite Hh in Hi'.
  - intros req w. destruct (Submit m req w) as [r w'] eqn:E.
    destruct (Submit_cases _ _ _ _ _ E) as (_ & _ & _ & _ & _ & [[Hb _]|(fresh & resp & Hh & _)]); simpl.
    + exists []. rewrite Hb, app_nil_r. auto.
    + apply (disbursed_handle _ _ _ _ _ Hh).
  - intros req w r w' E Hs Hhon Hi.
    destruct (Submit_cases _ _ _ _ _ E) as (_ & _ & _ & _ & _ & [[_ Hn]|(fresh & [st b] & Hh & Hcode)]).
    + by destruct (Hn r).
    + apply (handle_success _ _ _ _ _ _ Hi Hh). by apply (Hcode r).
Qed.
End rail_ok.

(** A router gives every name the last rail registered under it. *)
Lemma NewRouter_lookup rs name :
  rails (NewRouter rs) !! name = find_row (fun r => String.eqb (rail_Name r) name) (rev rs).
Proof.
  unfold NewRouter. simpl. rewrite <- (rev_involutive rs) at 1.
  induction (rev rs) as [|r l IH]; simpl; [done|]. rewrite foldl_app. simpl.
  destruct (String.eqb_spec (rail_Name r) name) as [->|Hne].
  - by rewrite lookup_insert_eq.
  - by rewrite lookup_insert_ne.
Qed.
