(* ===== verification/BankWire.v ===== *)
(** * Between the rail and the bank

    Payout.v and MockBank.v exchange requests and replies as records; the programs
    exchange bytes.  Here both sides encode and decode JSON text, and the exchange
    of bytes is shown to be the exchange of records. *)

From S2P Require Import Prelude GoStr MockBank Models World GoJson JsonDecode Payout.
From Stdlib Require Import Ascii String.

(** [io.ReadAll(io.LimitReader(body, 1<<20))]. *)
Definition limit_read (s : string) : string :=
  if Z.of_nat (String.length s) <=? 2 ^ 20 then s else str_take (Z.to_nat (2 ^ 20)) s.

(** ** The request *)

(** [json.Marshal(submitBody{...})]. *)
Definition submit_body_json (b : submitRequest) : json :=
  JObj ([("intent_id", JStr (req_intent_id b)); ("payout_id", JStr (req_payout_id b)); ("amount_idr", JNum (req_amount_idr b));
         ("bank_code", JStr (req_bank_code b)); ("account_number", JStr (req_account_number b));
         ("account_name", JStr (req_account_name b))] ++ omitempty_str "memo" (req_memo b)).

(** What the bank makes of a body: an empty one is a zero request. *)
Definition bank_body (text : string) : request_body :=
  let text := limit_read text in
  if bool_decide (text = "") then ReqEmpty
  else match whole_value text with
  | Some VNull => ReqJSON zeroRequest
  | Some (VObj fs) =>
    let str k := set_all set_string "" (field_values k fs) in
    match str "intent_id", str "payout_id", set_all set_int 0 (field_values "amount_idr" fs), str "bank_code",
          str "account_number", str "account_name", str "memo" with
    | Some i, Some p, Some a, Some c, Some n, Some m, Some t => ReqJSON (mkSubmitRequest i p a c n m t)
    | _, _, _, _, _, _, _ => ReqMalformed
    end
  | _ => ReqMalformed
  end.

(** ** The reply *)

(** A field of a reply: values of another type are skipped, the error is ignored. *)
Definition lenient_string (x : string) (v : jval) : string := match v with VStr s => s | _ => x end.

(** [_ = json.Unmarshal(raw, &parsed)]. *)
Definition unmarshal_response (raw : string) : submitResponse :=
  match whole_value raw with
  | Some (VObj fs) =>
    let str k := foldl lenient_string "" (field_values k fs) in
    mkSubmitResponse (str "reference") (str "status") (str "message")
  | _ => mkSubmitResponse "" "" ""
  end.

(** The end of [Submit], on the bytes of the body. *)
Definition classify_bytes (status : Z) (body : string) : SubmitResult :=
  let raw := limit_read body in
  let parsed := unmarshal_response raw in
  let msg := pickMessage (resp_message parsed) raw status in
  if (200 <=? status) && (status <? 300) then
    mkSubmitResult OutcomeSuccess (resp_reference parsed) (resp_message parsed)
  else if (status =? 422) || (status =? 400) then mkSubmitResult OutcomePermanent "" msg
  else if 500 <=? status then mkSubmitResult OutcomeRetry "" msg
  else mkSubmitResult OutcomePermanent "" msg.

Section wire.
Context `{Env}.

Definition submit_body (req : SubmitRequest) : submitRequest :=
  mkSubmitRequest (uuid_string (sq_intent_id req)) (uuid_string (sq_payout_id req)) (sq_amount_idr req)
    (BankCode (sq_recipient req)) (AccountNumber (sq_recipient req)) (AccountName (sq_recipient req)) (sq_memo req).

(** The bank serves bytes. *)
Definition bank_serve_bytes (key text : string) (w : World) : World * (Z * string) :=
  let '(s, (code, b)) := handlePayouts (w_bank w) (uuid_string (gen_uuid (w_rng w)))
                           (mkPayoutHttpRequest "POST" key "" (bank_body text)) in
  (set_bank (set_rng w (w_rng w + 1)%N) s, (code, body_raw b)).

(** [Submit] over bytes. *)
Definition Submit_bytes (m : MockIDRBank) (req : SubmitRequest) : M SubmitResult := fun w =>
  let body := Marshal (submit_body_json (submit_body req)) in
  match request_error m with
  | Some e => (Err (ErrWrap "mock_idr_bank: build request" e), w)
  | None =>
    let '(ev, w1) := next_event w in
    match ev with
    | NetRequestLost msg => (Ok (retry_result msg), w1)
    | NetResponseLost msg => let '(w2, _) := bank_serve_bytes (sq_idempotency req) body w1 in (Ok (retry_result msg), w2)
    | NetReadFail msg =>
      let '(w2, _) := bank_serve_bytes (sq_idempotency req) body w1 in (Ok (retry_result ("read body: " +:+ msg)), w2)
    | NetForeign status b => (Ok (classify_bytes status (body_raw b)), w1)
    | NetDeliver =>
      let '(w2, (status, raw)) := bank_serve_bytes (sq_idempotency req) body w1 in (Ok (classify_bytes status raw), w2)
    end
  end.

(** ** Encoding and decoding *)

(** Texts the encoder keeps and the reader takes whole. *)
Definition fits (j : json) : Prop := valid_json j = true /\ Z.of_nat (String.length (Marshal j)) <= 2 ^ 20.

Lemma limit_read_fits s : Z.of_nat (String.length s) <= 2 ^ 20 -> limit_read s = s.
Proof. intros Hs. unfold limit_read. by rewrite (proj2 (Z.leb_le _ _)). Qed.

Lemma Marshal_obj_nonempty fs : Marshal (JObj fs) <> "".
Proof. cbn. discriminate. Qed.

Lemma bank_body_reads b :
  fits (submit_body_json b) -> is_int64 (req_amount_idr b) = true -> bank_body (Marshal (submit_body_json b)) = ReqJSON b.
Proof.
  intros [Hv Hl] Ha. unfold bank_body. rewrite limit_read_fits by done. rewrite bool_decide_false by apply Marshal_obj_nonempty.
  rewrite whole_value_Marshal; [|done|].
  2: { unfold submit_body_json, omitempty_str. case_match; vm_compute; discriminate. }
  destruct b as [i p a c n m t]. unfold submit_body_json, omitempty_str. cbn [req_intent_id req_payout_id req_amount_idr req_bank_code req_account_number req_account_name req_memo] in *.
  assert (Hi : set_int 0 (VNum (FormatInt a)) = Some a) by (cbn; by rewrite ParseInt_FormatInt).
  destruct (String.eqb_spec t "") as [->|Ht].
  all: cbn [app embed map fst snd].
  all: change (field_values "intent_id" _) with [VStr i]; change (field_values "payout_id" _) with [VStr p];
    change (field_values "amount_idr" _) with [VNum (FormatInt a)]; change (field_values "bank_code" _) with [VStr c];
    change (field_values "account_number" _) with [VStr n]; change (field_values "account_name" _) with [VStr m].
  - change (field_values "memo" _) with (@nil jval). cbn [set_all set_string]. by rewrite Hi.
  - change (field_values "memo" _) with [VStr t]. cbn [set_all set_string]. by rewrite Hi.
Qed.

Lemma response_reads r : valid_json (response_json r) = true -> unmarshal_response (Marshal (response_json r)) = r.
Proof.
  intros Hv. unfold unmarshal_response. rewrite whole_value_Marshal; [|done|].
  2: { unfold response_json, omitempty_str. case_match; vm_compute; discriminate. }
  destruct r as [f st t]. unfold response_json, omitempty_str. cbn [resp_reference resp_status resp_message].
  destruct (String.eqb_spec t "") as [->|Ht].
  all: cbn [app embed map fst snd]; change (field_values "reference" _) with [VStr f]; change (field_values "status" _) with [VStr st].
  - by change (field_values "message" _) with (@nil jval).
  - by change (field_values "message" _) with [VStr t].
Qed.

(** The reply of the bank is read back: a record it encoded, or a text of
    [http.Error], which is not JSON. *)
Definition body_fits (b : http_body) : Prop := Z.of_nat (String.length (body_raw b)) <= 2 ^ 20 /\ unmarshal_response (body_raw b) = body_parsed b.

Lemma classify_reads status b : body_fits b -> classify_bytes status (body_raw b) = classify status b.
Proof. intros [Hl Hp]. unfold classify_bytes, classify. by rewrite limit_read_fits, Hp by done. Qed.

(** ** Replies *)

Definition cache_fits (s : server) : Prop := map_Forall (fun _ v => body_fits (BodyJSON (body v))) (cache s).

Lemma valid_app_ascii s t : (forall c, has_byte c s = true -> byte_of c < 128) -> valid_utf8 t = true -> valid_utf8 (s +:+ t) = true.
Proof.
  intros Hs Ht. induction s as [|c s IH]; [done|]. change (String c s +:+ t) with (String c (s +:+ t)).
  rewrite valid_cons; [apply IH; intros c' Hc'; apply Hs; cbn; by rewrite Hc', orb_true_r|].
  apply Hs. cbn. by rewrite Ascii.eqb_refl.
Qed.

Lemma ascii_literal s : forallb (fun c => byte_of c <? 128) (list_ascii_of_string s) = true -> forall c, has_byte c s = true -> byte_of c < 128.
Proof.
  intros Hs c. induction s as [|c' s IH]; [done|]. cbn in *. apply andb_true_iff in Hs as [H1 H2].
  destruct (Ascii.eqb_spec c' c) as [<-|]; [intros _; by apply Z.ltb_lt|]. by apply IH.
Qed.

Lemma ascii_FormatInt z c : has_byte c (FormatInt z) = true -> byte_of c < 128.
Proof.
  intros Hc. destruct (digit_val c) as [d|] eqn:Ed; [apply digit_val_Some in Ed; zlia|].
  destruct (decide (c = "-"%char)) as [->|Hne]; [vm_compute; done|].
  pose proof (no_byte_FormatInt c z Ed Hne) as Hn. unfold no_byte in Hn. congruence.
Qed.
(** The reply to a new request. *)
Definition new_reply (fresh : string) (b : submitRequest) : submitResponse := (bank_decide fresh "" b).2.

Lemma new_reply_valid fresh b :
  valid_utf8 fresh = true -> valid_json (submit_body_json b) = true -> valid_json (response_json (new_reply fresh b)) = true.
Proof.
  intros Hf Hb. assert (Hn : valid_utf8 (req_account_number b) = true).
  { unfold submit_body_json in Hb. cbn [valid_json] in Hb. rewrite forallb_app in Hb. cbn [forallb fst snd valid_json] in Hb. bools. done. }
  assert (H1 : valid_utf8 ("MIDR-" +:+ fresh) = true) by (apply valid_app_ascii; [apply ascii_literal; reflexivity|done]).
  assert (H2 : valid_utf8 ("paid " +:+ FormatInt (req_amount_idr b) +:+ " IDR to " +:+ req_account_number b) = true).
  { apply valid_app_ascii; [apply ascii_literal; reflexivity|]. apply valid_app_ascii; [apply ascii_FormatInt|].
    apply valid_app_ascii; [apply ascii_literal; reflexivity|done]. }
  unfold response_json, omitempty_str. change (new_reply fresh b) with (mkSubmitResponse ("MIDR-" +:+ fresh) "succeeded"
    ("paid " +:+ FormatInt (req_amount_idr b) +:+ " IDR to " +:+ req_account_number b)).
  cbn [resp_reference resp_status resp_message]. change (String.eqb _ "") with false. cbn [app valid_json forallb fst snd].
  rewrite H1, H2. reflexivity.
Qed.

(** What the programs ask of the texts: the strings are UTF-8, the amount is an
    [int64], and neither body exceeds the megabyte the readers take. *)
Record wire_ok (req : SubmitRequest) (w : World) : Prop := {
  wo_request : fits (submit_body_json (submit_body req));
  wo_amount : is_int64 (sq_amount_idr req) = true;
  wo_fresh : valid_utf8 (uuid_string (gen_uuid (w_rng w))) = true;
  wo_reply : Z.of_nat (String.length (Marshal (response_json (new_reply (uuid_string (gen_uuid (w_rng w))) (submit_body req))))) <= 2 ^ 20;
  wo_cache : cache_fits (w_bank w);
  wo_foreign status b : NetForeign status b ∈ w_net w -> body_fits b
}.

Lemma serve_reads req w :
  wire_ok req w ->
  exists w2 code b, bank_serve req w = (w2, (code, b)) /\ body_fits b /\ cache_fits (w_bank w2) /\
    bank_serve_bytes (sq_idempotency req) (Marshal (submit_body_json (submit_body req))) w = (w2, (code, body_raw b)).
Proof.
  intros [Hreq Ha Hf Hr Hc _]. unfold bank_serve, bank_serve_bytes, submit_http. rewrite bank_body_reads by done.
  fold (submit_body req). set (fresh := uuid_string (gen_uuid (w_rng w))) in *.
  destruct (handlePayouts (w_bank w) fresh _) as [s [code b]] eqn:E.
  enough (Hb : body_fits b /\ cache_fits s) by (destruct Hb; by eexists _, _, _).
  unfold handlePayouts in E. cbn [hr_method hr_idempotency_key hr_body hr_fail] in E.
  change (negb (String.eqb "POST" "POST")) with false in E. cbv iota in E.
  destruct (String.eqb (sq_idempotency req) "").
  { injection E as <- <- <-. split; [|done]. split; vm_compute; (discriminate || reflexivity). }
  unfold bank_lookup in E. destruct (cache (w_bank w) !! sq_idempotency req) as [v|] eqn:Ek.
  { injection E as <- <- <-. split; [by eapply Hc|done]. }
  assert (Hfit : body_fits (BodyJSON (new_reply fresh (submit_body req)))).
  { split; [done|]. cbn [body_raw body_parsed]. apply response_reads, new_reply_valid; [done|apply Hreq]. }
  change (bank_decide fresh "" (submit_body req)) with (200, new_reply fresh (submit_body req)) in E. injection E as <- <- <-.
  split; [done|]. intros k v. cbn. intros [[_ <-]|[_ Hv]]%lookup_insert_Some; [done|]. by eapply Hc.
Qed.

(** C21: The rail and the bank understand each other: the exchange of bytes between
    them, with the JSON of the request decoded by the bank and the JSON of the reply
    by the rail, is the exchange of records the rest of the development uses, on
    every path of the network, and the replies the bank keeps stay readable. *)
Theorem submit_over_bytes m req w :
  wire_ok req w ->
  Submit_bytes m req w = Submit m req w /\ cache_fits (w_bank (Submit m req w).2).
Proof.
  intros Hw. unfold Submit_bytes, Submit. destruct (request_error m) as [e|]; [split; [done|apply Hw]|].
  destruct (next_event w) as [ev w1] eqn:Ev.
  assert (Hw1 : wire_ok req w1 /\ forall st b, ev = NetForeign st b -> body_fits b).
  { destruct Hw as [? ? ? ? ? Hfor]. unfold next_event in Ev. destruct (w_net w) as [|e0 es] eqn:En; injection Ev as <- <-.
    - split; [split; try done; by rewrite En|done].
    - split; [split; try done; intros st b Hin; apply (Hfor st); by right|]. intros st b ->. apply (Hfor st). by left. }
  destruct Hw1 as [Hw1 Hfor]. destruct (serve_reads req w1 Hw1) as (w2 & code & b & Hs & Hb & Hc & Hsb).
  destruct ev; rewrite ?Hs, ?Hsb; (split; [|try apply Hw1; try apply Hc]); try done.
  - by rewrite classify_reads.
  - rewrite classify_reads; [done|by eapply Hfor].
Qed.
End wire.

(** ** Witness *)

Section wire_example.
#[local] Existing Instance example_env.

Definition wire_request : SubmitRequest := mkSubmitRequest' 7%N 8%N 16200000 (mkRecipient "014" "1234567890" "Toko <Kopi> é") "memo" "key-1".
Definition wire_world : World := world_at 0 empty_db.

Lemma submit_over_bytes_witness :
  let m := mkMockIDRBank "http://bank" None in
  Submit_bytes m wire_request wire_world = Submit m wire_request wire_world /\
  sres_outcome <$> (match (Submit_bytes m wire_request wire_world).1 with Ok r => Some r | Err _ => None end) = Some OutcomeSuccess /\
  disbursed (w_bank (Submit_bytes m wire_request wire_world).2) = [("key-1", submit_body wire_request)].
Proof.
  split; [|vm_compute; split; reflexivity].
  apply (submit_over_bytes (mkMockIDRBank "http://bank" None) wire_request wire_world). split.
  - split; vm_compute; (reflexivity || discriminate).
  - reflexivity.
  - vm_compute. reflexivity.
  - vm_compute. discriminate.
  - apply map_Forall_empty.
  - intros status b Hin. by apply elem_of_nil in Hin.
Defined.
End wire_example.
