(* ===== verification/Outbox.v ===== *)
(** * The transactional outbox ([internal/outbox])

    [Publish] writes a message in the caller's transaction; the dispatcher claims
    a batch of due rows of its topic, hands each to the [Sender] and records the
    outcome of every row in one transaction. *)

From S2P Require Import Prelude GoStr MockBank Models World Queries Backoff.

(** ** types.go *)

Record Message := mkMessage {
  msg_ID : uuid;
  msg_Topic : string;
  msg_AggregateID : option uuid;
  msg_Payload : json;
  msg_Headers : gmap string string;
  msg_Attempts : Z;
  msg_CreatedAt : Z
}.

(** The [Sender] interface. *)
Definition Sender : Type := Message -> M unit.

(** ** publisher.go *)

(** [json.Marshal] of a [map[string]string]; the order of the members does not
    matter to a [jsonb] column. *)
Definition headers_json (h : gmap string string) : json :=
  JObj ((fun kv => (kv.1, JStr kv.2)) <$> map_to_list h).

(** [json.Unmarshal] of one member into a [map[string]string]; [null] stands for
    the zero value. *)
Definition header_value (j : json) : option string :=
  match j with JStr s => Some s | JNull => Some "" | _ => None end.

Fixpoint decode_fields (fs : list (string * json)) (m : gmap string string)
    : option (gmap string string) :=
  match fs with
  | [] => Some m
  | (k, j) :: fs' =>
    match header_value j with
    | Some v => decode_fields fs' (<[k := v]> m)
    | None => None
    end
  end.

Definition unmarshal_headers (j : json) : res (gmap string string) :=
  match j with
  | JNull => Ok ∅
  | JObj fs =>
    match decode_fields fs ∅ with
    | Some m => Ok m
    | None => Err (ErrMsg "json: cannot unmarshal into Go value of type string")
    end
  | _ => Err (ErrMsg "json: cannot unmarshal into Go value of type map[string]string")
  end.

Definition toMessage (row : Outbox) : res Message :=
  match unmarshal_headers (ob_headers row) with
  | Err e => Err (ErrWrap "outbox: unmarshal headers" e)
  | Ok hdrs => Ok (mkMessage (ob_id row) (ob_topic row) (ob_aggregate_id row) (ob_payload row)
                     hdrs (ob_attempts row) (ob_created_at row))
  end.

(** [payload] is [None] for zero-length bytes; a nil header map is [∅]. *)
Definition Publish `{Env} (topic : string) (aggregateID : option uuid) (payload : option json)
    (headers : gmap string string) : M Message :=
  if String.eqb topic "" then throw (ErrMsg "outbox: topic is required")
  else
    row ← map_err (ErrWrap "outbox: insert")
      (PublishOutbox topic aggregateID (default JNull payload) (headers_json headers));
    lift_res (toMessage row).

(** ** dispatcher.go *)

Record DispatcherConfig := mkDispatcherConfig {
  dc_Topic : string;
  dc_PollInterval : Z;
  dc_IdleBackoff : Z;
  dc_BatchSize : Z;
  dc_MaxAttempts : Z;
  dc_BackoffBase : Z;
  dc_BackoffMax : Z;
  dc_LockRetryEvery : Z
}.

Definition or_default (v d : Z) : Z := if v <=? 0 then d else v.

(** The pool and the sender are always given; only the topic is checked. *)
Definition NewDispatcher (cfg : DispatcherConfig) : res DispatcherConfig :=
  if String.eqb (dc_Topic cfg) "" then Err (ErrMsg "outbox: topic is required")
  else Ok (mkDispatcherConfig (dc_Topic cfg)
    (or_default (dc_PollInterval cfg) (200 * millisecond))
    (or_default (dc_IdleBackoff cfg) (2 * second))
    (or_default (dc_BatchSize cfg) 32)
    (or_default (dc_MaxAttempts cfg) 12)
    (or_default (dc_BackoffBase cfg) second)
    (or_default (dc_BackoffMax cfg) (5 * minute))
    (or_default (dc_LockRetryEvery cfg) (5 * second))).

Section dispatcher.
Context `{Env} (cfg : DispatcherConfig) (send : Sender).

(** [100 * 365 * 24 * time.Hour]. *)
Definition parked_delay : Z := 100 * 365 * 24 * hour.

Definition retry_delay (attempt : Z) : M Z :=
  if dc_MaxAttempts cfg <=? attempt then mret parked_delay
  else computeBackoff (dc_BackoffBase cfg) (dc_BackoffMax cfg) attempt.

(** The body of the loop over the claimed rows. *)
Definition dispatch_row (row : Outbox) : M unit :=
  match toMessage row with
  | Err _ => mret tt
  | Ok msg =>
    r ← try (send msg);
    match r with
    | Ok _ =>
      _ ← map_err (ErrWrap "mark delivered") (MarkOutboxDelivered (ob_id row));
      mret tt
    | Err sendErr =>
      delay ← retry_delay (wrap32 (ob_attempts row + 1));
      now ← get_now;
      _ ← map_err (ErrWrap "schedule retry")
            (ScheduleOutboxRetry (ob_id row) (now + delay) (Some (Error sendErr)));
      mret tt
    end
  end.

Fixpoint dispatch_rows (rows : list Outbox) : M unit :=
  match rows with
  | [] => mret tt
  | row :: rows' => _ ← dispatch_row row; dispatch_rows rows'
  end.

Definition drainOnce : M bool := fun w =>
  let '(flt, w0) := pop_fault w in
  match flt with
  | FNone =>
    let d0 := w_db w0 in
    match ClaimDueOutbox (dc_Topic cfg) (dc_BatchSize cfg) w0 with
    | (Err e, w1) => (Err (ErrWrap "claim batch" e), set_db w1 d0)
    | (Ok [], w1) => (Ok false, set_db w1 d0)
    | (Ok rows, w1) =>
      match dispatch_rows rows w1 with
      | (Err e, w2) => (Err e, set_db w2 d0)
      | (Ok _, w2) =>
        match commit d0 w2 with
        | (Ok _, w3) => (Ok true, w3)
        | (Err e, w3) => (Err (ErrWrap "commit drain" e), w3)
        end
      end
    end
  | _ => (Err (ErrWrap "begin claim tx" ErrConn), w0)
  end.
End dispatcher.

(** ** Round trip of the headers *)

Lemma decode_fields_app fs (m : gmap string string) :
  decode_fields ((fun kv => (kv.1, JStr kv.2)) <$> fs) m =
  Some (foldl (fun m kv => <[kv.1 := kv.2]> m) m fs).
Proof. revert m. induction fs as [|[k v] fs IH]; intros m; simpl; [done|]. apply IH. Qed.

Lemma foldl_insert_lookup (fs : list (string * string)) (m : gmap string string) k :
  NoDup fs.*1 ->
  foldl (fun m kv => <[kv.1 := kv.2]> m) m fs !! k =
  match (list_to_map fs : gmap string string) !! k with Some v => Some v | None => m !! k end.
Proof.
  revert m. induction fs as [|[k' v'] fs IH]; intros m Hnd; simpl; [by rewrite lookup_empty|].
  apply NoDup_cons in Hnd as [Hk Hnd]. rewrite IH by done.
  destruct (decide (k = k')) as [->|].
  - rewrite lookup_insert_eq. rewrite not_elem_of_list_to_map_1 by done. by rewrite lookup_insert_eq.
  - by rewrite !lookup_insert_ne by done.
Qed.

Lemma unmarshal_headers_json h : unmarshal_headers (headers_json h) = Ok h.
Proof.
  unfold unmarshal_headers, headers_json. rewrite decode_fields_app. f_equal. apply map_eq. intros k.
  rewrite foldl_insert_lookup by apply NoDup_fst_map_to_list. rewrite list_to_map_to_list, lookup_empty.
  by case_match.
Qed.

#[local] Arguments unmarshal_headers : simpl never.

(** publishing loses nothing: the message [Publish] returns, and the one the
    dispatcher later decodes from the row it inserted, carry the topic, the
    aggregate, the payload and exactly the headers that were published. *)
Theorem Publish_roundtrip `{Env} topic agg payload headers w msg w' :
  Publish topic agg payload headers w = (Ok msg, w') ->
  exists row, outbox (w_db w') = outbox (w_db w) ++ [row] /\ toMessage row = Ok msg /\
    ob_delivered_at row = None /\ ob_next_attempt_at row = w_now w /\
    msg_Topic msg = topic /\ msg_AggregateID msg = agg /\
    msg_Payload msg = default JNull payload /\ msg_Headers msg = headers.
Proof.
  unfold Publish. destruct (String.eqb topic ""); [done|]. intros Hrun. minv.
  match goal with H : PublishOutbox _ _ _ _ _ = _ |- _ => apply stmt_Ok in H as (Hr & Hd & _) end.
  simpl in Hr, Hd. destruct (pk_taken _ _ _); simplify_eq/=.
  match goal with H : toMessage _ = _ |- _ => rename H into Hm end.
  eexists. rewrite Hd. split_and!; [done|exact Hm|done|done|..]; clear Hd;
    unfold toMessage in Hm; simpl in Hm; rewrite unmarshal_headers_json in Hm; by simplify_eq/=.
Qed.

(** ** The dispatcher *)

(** What the dispatcher relies on: the sender does not write the database and
    causes no database faults. *)
Class SenderOk (send : Sender) : Prop := {
  send_db msg : keeps eq (send msg);
  send_faults msg w : w_faults w = [] -> w_faults (send msg w).2 = []
}.

(** What one pass leaves of a claimed row, by what the sender answered when it was
    given the message of the row: [w] and [w'] are the worlds before and after that
    call. *)
Inductive row_after (cfg : DispatcherConfig) (send : Sender) (o : Outbox) : Outbox -> Prop :=
  | row_poison e : toMessage o = Err e -> row_after cfg send o o
  | row_delivered msg w w' :
      toMessage o = Ok msg -> o ∈ outbox (w_db w) -> send msg w = (Ok tt, w') ->
      row_after cfg send o (set_ob_delivered (w_now w') o)
  | row_retry msg sendErr delay w w' :
      toMessage o = Ok msg -> o ∈ outbox (w_db w) -> send msg w = (Err sendErr, w') ->
      (if dc_MaxAttempts cfg <=? wrap32 (ob_attempts o + 1) then delay = parked_delay
       else exists w'', computeBackoff (dc_BackoffBase cfg) (dc_BackoffMax cfg)
                          (wrap32 (ob_attempts o + 1)) w' = (Ok delay, w'')) ->
      row_after cfg send o (set_ob_retry (w_now w' + delay) (Some (Error sendErr)) o).

Lemma row_after_id cfg send o o' : row_after cfg send o o' -> ob_id o' = ob_id o.
Proof. by destruct 1. Qed.

(** The rows with the given ids went through one pass, the others are
    untouched. *)
Definition drained (cfg : DispatcherConfig) (send : Sender) (ids : list uuid) : list Outbox -> list Outbox -> Prop :=
  Forall2 (fun o o' => if decide (ob_id o ∈ ids) then row_after cfg send o o' else o' = o).

Lemma drained_ids cfg send ids t t' : drained cfg send ids t t' -> ob_id <$> t' = ob_id <$> t.
Proof.
  induction 1 as [|o o' t t' Ho _ IH]; [done|]. rewrite !fmap_cons, IH. f_equal.
  case_decide; [by eapply row_after_id|by subst].
Qed.

Lemma drained_nil cfg send t : drained cfg send [] t t.
Proof. induction t; constructor; [by rewrite decide_False by apply not_elem_of_nil|done]. Qed.

(** Passing one more row. *)
Lemma drained_cons cfg send id ids t t1 t2 :
  id ∉ ids -> drained cfg send [id] t t1 -> drained cfg send ids t1 t2 -> drained cfg send (id :: ids) t t2.
Proof.
  intros Hid H1. revert t2. induction H1 as [|o o1 t t1 Ho _ IH]; intros t2 H2; inversion H2 as [|? o2 ? t2' Ho2]; subst.
  { constructor. }
  constructor; [|by apply IH].
  destruct (decide (ob_id o ∈ [id])) as [E%list_elem_of_singleton|E].
  - rewrite decide_True by (rewrite E; by constructor).
    pose proof (row_after_id _ _ _ _ Ho) as Ei. rewrite decide_False in Ho2 by (by rewrite Ei, E). by subst.
  - subst o1. rewrite list_elem_of_singleton in E.
    destruct (decide (ob_id o ∈ ids)).
    + by rewrite decide_True by by constructor.
    + rewrite decide_False; [done|]. rewrite elem_of_cons. tauto.
Qed.

(** Rows outside the pass are still there. *)
Lemma drained_other cfg send ids t t' o :
  drained cfg send ids t t' -> o ∈ t -> ob_id o ∉ ids -> o ∈ t'.
Proof.
  intros Hd Ho Hid. apply list_elem_of_lookup in Ho as [i Hi].
  destruct (Forall2_lookup_l _ _ _ _ _ Hd Hi) as (o' & Hi' & Hr).
  rewrite decide_False in Hr by done. subst. by eapply list_elem_of_lookup_2.
Qed.

Lemma not_in_key (rows : list Outbox) row o :
  ob_id row ∉ ob_id <$> rows -> o ∈ rows -> ob_id o ∉ [ob_id row].
Proof.
  intros Hrow Ho. rewrite list_elem_of_singleton. intros E. apply Hrow. rewrite <- E.
  by apply list_elem_of_fmap_2.
Qed.

(** Updating the row with a given id. *)
Lemma drained_update cfg send id f t row :
  NoDup (ob_id <$> t) -> row ∈ t -> ob_id row = id -> row_after cfg send row (f row) ->
  drained cfg send [id] t (update_where (by_id ob_id id) f t).
Proof.
  intros Hnd Hin <- Hf. unfold drained, update_where. rewrite Forall2_fmap_r. apply Forall2_same_length_lookup.
  split; [done|]. intros i o o' Ho Ho'. simplify_eq. unfold compose, by_id.
  destruct (N.eqb_spec (ob_id o) (ob_id row)) as [E|E].
  - rewrite decide_True by (rewrite E; by constructor).
    by rewrite (NoDup_fmap_elem ob_id t o row Hnd (list_elem_of_lookup_2 _ _ _ Ho) Hin E).
  - rewrite decide_False; [done|]. by rewrite list_elem_of_singleton.
Qed.

(** Statements and sends leave every other table alone. *)
Definition only_outbox (d d' : DB) : Prop := d' = set_outbox d (outbox d').

#[global] Instance only_outbox_preorder : PreOrder only_outbox.
Proof.
  split; [by intros []|]. intros d1 d2 d3 H1 H2. unfold only_outbox in *. rewrite H2, H1. done.
Qed.

#[global] Instance only_outbox_frame : Frames only_outbox set_outbox. Proof. done. Qed.

Section drain.
Context `{Env} (cfg : DispatcherConfig) (send : Sender) `{Hsend : !SenderOk send}.

Lemma keeps_retry_delay (R : DB -> DB -> Prop) `{!PreOrder R} a : keeps R (retry_delay cfg a).
Proof. unfold retry_delay, computeBackoff. keeps_auto. Qed.

Lemma retry_delay_Ok a w delay w' :
  retry_delay cfg a w = (Ok delay, w') ->
  w_db w' = w_db w /\ w_now w' = w_now w /\
  if dc_MaxAttempts cfg <=? a then delay = parked_delay
  else exists w'', computeBackoff (dc_BackoffBase cfg) (dc_BackoffMax cfg) a w = (Ok delay, w'').
Proof.
  intros Hr. split; [|split].
  - pose proof (keeps_retry_delay eq a w) as Hk. by rewrite Hr in Hk.
  - unfold retry_delay, computeBackoff, Int64N in Hr. repeat case_match; minv; try done. all: injection Hr as <- <-; done.
  - unfold retry_delay in Hr. case_match; [by minv|eauto].
Qed.

(** One row of the batch. *)
Lemma dispatch_row_drained row w w' :
  dispatch_row cfg send row w = (Ok tt, w') ->
  NoDup (ob_id <$> outbox (w_db w)) -> row ∈ outbox (w_db w) ->
  drained cfg send [ob_id row] (outbox (w_db w)) (outbox (w_db w')).
Proof.
  unfold dispatch_row. intros Hrun Hnd Hin. destruct (toMessage row) as [msg|e] eqn:Hm.
  - minv. pose proof Hin as Hin0. match goal with H : send msg w = (_, ?w1) |- _ => rename H into Hsent;
      pose proof (send_db msg w) as Hs; rewrite Hsent in Hs; simpl in Hs; rewrite Hs in Hnd, Hin |- * end.
    match goal with r : res unit |- _ => destruct r as [[]|sendErr] end; minv.
    + match goal with H : MarkOutboxDelivered _ _ = _ |- _ => apply stmt_Ok in H as (_ & Hd & _) end.
      rewrite Hd. apply (drained_update _ _ _ _ _ row); auto. by eapply row_delivered.
    + match goal with H : retry_delay _ _ _ = _ |- _ => apply retry_delay_Ok in H as (Hk & Hn & Hdelay) end.
      match goal with H : get_now _ = _ |- _ => injection H as <- <- end.
      match goal with H : ScheduleOutboxRetry _ _ _ _ = _ |- _ => apply stmt_Ok in H as (Hc & Hd & _) end.
      rewrite Hd. rewrite <- Hk in Hnd, Hin |- *. clear Hd.
      destruct (find_row _ _); [|done]. destruct (_ + 1 <=? int32_max); [|done]. simpl.
      apply (drained_update _ _ _ _ _ row); auto. rewrite Hn. by eapply row_retry.
  - minv. replace (outbox (w_db w)) with (update_where (by_id ob_id (ob_id row)) id (outbox (w_db w))) at 2.
    + apply (drained_update _ _ _ _ _ row); auto. by econstructor.
    + unfold update_where. rewrite <- (list_fmap_id (outbox (w_db w))) at 2. apply list_fmap_ext.
      intros. by case_match.
Qed.

Lemma dispatch_rows_drained rows w w' :
  dispatch_rows cfg send rows w = (Ok tt, w') ->
  NoDup (ob_id <$> outbox (w_db w)) -> NoDup (ob_id <$> rows) ->
  (forall o, o ∈ rows -> o ∈ outbox (w_db w)) ->
  drained cfg send (ob_id <$> rows) (outbox (w_db w)) (outbox (w_db w')).
Proof.
  revert w. induction rows as [|row rows IH]; intros w Hrun Hnd Hrows Hin; simpl in Hrun.
  { minv. apply drained_nil. }
  rewrite fmap_cons in Hrows |- *. apply NoDup_cons in Hrows as [Hrow Hrows]. minv.
  match goal with H : dispatch_row _ _ _ _ = (Ok ?u, ?w1) |- _ =>
    destruct u; pose proof (dispatch_row_drained _ _ _ H Hnd (Hin row ltac:(by constructor))) as Hd end.
  eapply drained_cons; [done|exact Hd|]. apply IH; [done|by rewrite (drained_ids _ _ _ _ _ Hd)|done|].
  intros o Ho. by apply (drained_other cfg send _ _ _ _ Hd (Hin o ltac:(by right))), (not_in_key _ _ _ Hrow).
Qed.

(** The batch a pass claims. *)
Definition batch (w : World) : list Outbox :=
  take (Z.to_nat (dc_BatchSize cfg)) (order_by ob_next_attempt_at
    (select_where (outbox_due (dc_Topic cfg) (w_now w)) (outbox (w_db w)))).

Lemma batch_ok w :
  NoDup (ob_id <$> outbox (w_db w)) ->
  NoDup (ob_id <$> batch w) /\
  forall o, o ∈ batch w -> o ∈ outbox (w_db w) /\ outbox_due (dc_Topic cfg) (w_now w) o = true.
Proof.
  intros Hnd. split; [by apply NoDup_take, NoDup_order_by, NoDup_select|].
  intros o Ho. apply elem_of_take in Ho as (i & Ho & _). apply list_elem_of_lookup_2 in Ho.
  by apply elem_of_order_by, elem_of_select in Ho.
Qed.

(** The rows and the rest of the database after a pass that committed. *)
Definition drain_committed (w w' : World) : Prop :=
  only_outbox (w_db w) (w_db w') /\
  drained cfg send (ob_id <$> batch w) (outbox (w_db w)) (outbox (w_db w')).

Lemma keeps_dispatch_rows (R : DB -> DB -> Prop) `{!PreOrder R} `{!Frames R set_outbox} rows :
  keeps R (dispatch_rows cfg send rows).
Proof.
  induction rows as [|row rows IH]; simpl; [keeps_auto|]. apply keeps_bind; [apply _| |done].
  unfold dispatch_row. pose proof (fun msg => keeps_eq R (send msg) (send_db msg)).
  pose proof (keeps_retry_delay R). keeps_auto.
Qed.

Lemma drainOnce_cases w r w' :
  drainOnce cfg send w = (r, w') -> NoDup (ob_id <$> outbox (w_db w)) ->
  match r with
  | Ok true => batch w <> [] /\ drain_committed w w'
  | Ok false => batch w = [] /\ w_db w' = w_db w
  | Err _ => w_db w' = w_db w \/ drain_committed w w'
  end.
Proof.
  unfold drainOnce. intros Hrun Hnd. pose proof (pop_fault_db w) as E0. pose proof (pop_fault_now w) as En.
  destruct (pop_fault w) as [flt w0]. simpl in E0, En.
  destruct flt; [|by simplify_eq; auto..].
  destruct (ClaimDueOutbox _ _ w0) as [[rows|e] w1] eqn:Ec; [|simplify_eq; auto].
  apply stmt_Ok in Ec as (Hrows & Hd1 & _). simpl in Hrows, Hd1. injection Hrows as Hrows.
  rewrite E0, En in Hrows. fold (batch w) in Hrows.
  destruct rows as [|row rows]; [simplify_eq; auto|].
  destruct (dispatch_rows cfg send (row :: rows) w1) as [[[]|e] w2] eqn:Er; [|simplify_eq; auto].
  assert (drain_committed w w2) as Hdr.
  { destruct (batch_ok w Hnd) as [Hb1 Hb2]. split.
    - pose proof (keeps_dispatch_rows only_outbox (row :: rows) w1) as Hk. rewrite Er, Hd1, E0 in Hk. exact Hk.
    - pose proof (dispatch_rows_drained (row :: rows) w1 w2 Er) as Hk. rewrite Hd1, E0, <- Hrows in Hk.
      apply Hk; auto. intros o Ho. by apply Hb2. }
  destruct (commit_cases (w_db w0) w2) as [(w3 & Ec & E3)|(e & w3 & Ec & [E3|E3])];
    rewrite Ec in Hrun; injection Hrun as <- <-.
  - split; [by rewrite Hrows|]. destruct Hdr as [H1 H2]. split; by rewrite E3.
  - left. by rewrite E3, E0.
  - right. destruct Hdr as [H1 H2]. split; by rewrite E3.
Qed.


Lemma drainOnce_rows w r w' :
  drainOnce cfg send w = (r, w') -> NoDup (ob_id <$> outbox (w_db w)) ->
  w_db w' = w_db w \/ drain_committed w w'.
Proof.
  intros Hrun Hnd. pose proof (drainOnce_cases w r w' Hrun Hnd) as Hc.
  destruct r as [[]|]; [right; by destruct Hc|left; by destruct Hc|done].
Qed.

(** C30: one pass of the dispatcher. A pass that finds nothing due, or fails
    before its commit, leaves the database as it was.  A pass that commits (or
    whose commit answer is lost) touches only the outbox, and there exactly the
    rows of its batch, each once: a row whose headers do not decode stays as it
    is; a row whose message the sender took is marked delivered, at the time it
    answered; a row whose message the sender refused keeps the sender's error, counts
    one more attempt and is rescheduled by the backoff from that time, or parked for
    a hundred years when the attempts are used up. *)
Theorem drainOnce_outcome w r w' :
  drainOnce cfg send w = (r, w') -> NoDup (ob_id <$> outbox (w_db w)) ->
  match r with
  | Ok true => batch w <> [] /\ drain_committed w w'
  | Ok false => batch w = [] /\ w_db w' = w_db w
  | Err _ => w_db w' = w_db w \/ drain_committed w w'
  end.
Proof. apply drainOnce_cases. Qed.

(** ** Progress *)

Lemma retry_delay_run a w :
  exists d w', retry_delay cfg a w = (Ok d, w') /\ w_faults w' = w_faults w /\ w_db w' = w_db w.
Proof.
  unfold retry_delay, computeBackoff, Int64N. repeat case_match; simpl; eauto.
Qed.

Lemma find_by_id (t : list Outbox) o :
  NoDup (ob_id <$> t) -> o ∈ t -> find_row (by_id ob_id (ob_id o)) t = Some o.
Proof.
  intros Hnd Ho. destruct (find_row _ t) as [o'|] eqn:E.
  - apply find_row_Some in E as [Ho' E%N.eqb_eq]. f_equal. by apply (NoDup_fmap_elem ob_id t).
  - pose proof (find_row_None _ _ _ E Ho) as Hf. unfold by_id in Hf. by rewrite N.eqb_refl in Hf.
Qed.

(** With the database answering, a row of the batch is always resolved. *)
Lemma dispatch_row_total row w :
  w_faults w = [] -> NoDup (ob_id <$> outbox (w_db w)) -> row ∈ outbox (w_db w) ->
  ob_attempts row < int32_max ->
  exists w', dispatch_row cfg send row w = (Ok tt, w') /\ w_faults w' = [].
Proof.
  intros Hf Hnd Hin Hatt. unfold dispatch_row. destruct (toMessage row) as [msg|e]; [|by eexists].
  pose proof (send_db msg w) as Hs. pose proof (send_faults msg w Hf) as Hsf.
  unfold mbind, M_bind, try, map_err. destruct (send msg w) as [r w1]. simpl in Hs, Hsf.
  rewrite Hs in Hnd, Hin. clear w Hs Hf. destruct r as [u|sendErr].
  - unfold MarkOutboxDelivered, update_returning. rewrite stmt_run by done. simpl.
    rewrite (find_by_id _ _ Hnd Hin). simpl. eexists. done.
  - destruct (retry_delay_run (wrap32 (ob_attempts row + 1)) w1) as (d & w2 & -> & Hf2 & Hd2). simpl.
    rewrite <- Hd2 in Hnd, Hin. rewrite Hsf in Hf2.
    unfold ScheduleOutboxRetry, update_checked. rewrite stmt_run by done. simpl.
    rewrite (find_by_id _ _ Hnd Hin). simpl.
    destruct (ob_attempts row + 1 <=? int32_max) eqn:?; bools; [|lia]. simpl. eexists. done.
Qed.

Lemma dispatch_rows_total rows w :
  w_faults w = [] -> NoDup (ob_id <$> outbox (w_db w)) -> NoDup (ob_id <$> rows) ->
  (forall o, o ∈ rows -> o ∈ outbox (w_db w) /\ ob_attempts o < int32_max) ->
  exists w', dispatch_rows cfg send rows w = (Ok tt, w') /\ w_faults w' = [].
Proof.
  revert w. induction rows as [|row rows IH]; intros w Hf Hnd Hrows Hin; simpl; [by eexists|].
  rewrite fmap_cons in Hrows. apply NoDup_cons in Hrows as [Hrow Hrows].
  destruct (Hin row ltac:(by constructor)) as [Hr1 Hr2].
  destruct (dispatch_row_total row w Hf Hnd Hr1 Hr2) as (w1 & E1 & Hf1).
  pose proof (dispatch_row_drained _ _ _ E1 Hnd Hr1) as Hd.
  rewrite (bind_run _ _ _ _ _ E1). apply IH; [done|by rewrite (drained_ids _ _ _ _ _ Hd)|done|].
  intros o Ho. destruct (Hin o ltac:(by right)) as [Ho' ?]. split; [|done].
  by apply (drained_other cfg send _ _ _ _ Hd Ho'), (not_in_key _ _ _ Hrow).
Qed.

(** progress. While the database answers, a pass that finds due rows
    commits, and then every decodable row of its batch is delivered or counts one
    more attempt: the dispatcher cannot get stuck on a failing sender. *)
Theorem drainOnce_progress w :
  w_faults w = [] -> NoDup (ob_id <$> outbox (w_db w)) -> batch w <> [] ->
  (forall o, o ∈ batch w -> ob_attempts o < int32_max) ->
  exists w', drainOnce cfg send w = (Ok true, w') /\ w_faults w' = [].
Proof.
  intros Hf Hnd Hne Hatt. unfold drainOnce, pop_fault. rewrite Hf.
  unfold ClaimDueOutbox. rewrite stmt_run by done. fold (batch w). simpl. rewrite set_rng_0.
  fold (batch w). destruct (batch_ok w Hnd) as [Hb1 Hb2].
  destruct (dispatch_rows_total (batch w) w Hf Hnd Hb1) as (w' & E & Hf').
  { intros o Ho. split; [by apply Hb2|auto]. }
  pose proof (keeps_dispatch_rows only_outbox (batch w) w) as Hk. rewrite E in Hk. simpl in Hk.
  destruct (batch w) as [|row rows]; [done|]. rewrite E.
  unfold commit, pop_fault. rewrite Hf', Hk. unfold deferred_triggers. simpl.
  rewrite drop_all. simpl. eauto.
Qed.

(** ** Delivered rows *)

Lemma outbox_due_undelivered topic now o : outbox_due topic now o = true -> ob_delivered_at o = None.
Proof.
  unfold outbox_due. rewrite !andb_true_iff. intros [[_ Hd] _]. by apply bool_decide_eq_true in Hd.
Qed.

(** Passes of the dispatcher, failing ones included, at whatever times. *)
Definition passes : World -> World -> Prop :=
  rtc (fun w w' => exists t r, drainOnce cfg send (set_now w t) = (r, w')).

Lemma pass_delivered w t r w' o :
  drainOnce cfg send (set_now w t) = (r, w') -> NoDup (ob_id <$> outbox (w_db w)) ->
  o ∈ outbox (w_db w) -> ob_delivered_at o <> None ->
  NoDup (ob_id <$> outbox (w_db w')) /\ o ∈ outbox (w_db w').
Proof.
  intros Hrun Hnd Ho Hdel. pose proof (drainOnce_rows (set_now w t) r w' Hrun Hnd) as [Hd|[_ Hd]].
  - rewrite Hd. done.
  - rewrite (drained_ids _ _ _ _ _ Hd). split; [done|]. apply (drained_other cfg send _ _ _ _ Hd Ho).
    intros (o' & E & Ho')%list_elem_of_fmap. destruct (batch_ok (set_now w t) Hnd) as [_ Hb].
    destruct (Hb _ Ho') as [Hin Hdue]. rewrite <- (NoDup_fmap_elem ob_id _ _ _ Hnd Ho Hin E) in Hdue.
    by apply outbox_due_undelivered in Hdue.
Qed.

(** a delivered message is final. Once a row is recorded as delivered, no
    later pass changes it or claims it again, so the sender never sees it
    again. *)
Theorem delivered_final w w' o t :
  passes w w' -> NoDup (ob_id <$> outbox (w_db w)) ->
  o ∈ outbox (w_db w) -> ob_delivered_at o <> None ->
  o ∈ outbox (w_db w') /\ o ∉ batch (set_now w' t).
Proof.
  intros Hp. induction Hp as [w|w w1 w2 (t' & r & Hrun) _ IH]; intros Hnd Ho Hdel.
  - split; [done|]. intros Hb. destruct (batch_ok (set_now w t) Hnd) as [_ Hb']. destruct (Hb' _ Hb) as [_ Hdue].
    by apply outbox_due_undelivered in Hdue.
  - destruct (pass_delivered _ _ _ _ _ Hrun Hnd Ho Hdel). by apply IH.
Qed.
End drain.

(** ** Examples *)

Section outbox_examples.
#[local] Existing Instance example_env.

Definition example_headers : gmap string string := {[ "X-Selatpay-Topic" := "intent.completed" ]}.

Definition published_world : World :=
  Eval vm_compute in
  (Publish "intent.completed" (Some 5%N) (Some (JNum 7)) example_headers (world_at 1000 empty_db)).2.

Definition published_message : Message :=
  mkMessage 1%N "intent.completed" (Some 5%N) (JNum 7) example_headers 0 1000.

Lemma publish_run :
  Publish "intent.completed" (Some 5%N) (Some (JNum 7)) example_headers (world_at 1000 empty_db) =
  (Ok published_message, published_world).
Proof. vm_compute. reflexivity. Qed.

Lemma Publish_roundtrip_witness :
  exists row, outbox (w_db published_world) = [row] /\ toMessage row = Ok published_message.
Proof.
  destruct (Publish_roundtrip _ _ _ _ _ _ _ publish_run) as (row & Hr & Hm & _).
  exists row. split; [exact Hr|exact Hm].
Defined.

Definition example_dispatcher : DispatcherConfig :=
  mkDispatcherConfig "intent.completed" (200 * millisecond) (2 * second) 32 12 second (5 * minute) (5 * second).

(** A sender that always succeeds. *)
Definition accept_all : Sender := fun _ => mret tt.

#[local] Instance accept_all_ok : SenderOk accept_all.
Proof. by split. Qed.

Definition drained_world : World :=
  Eval vm_compute in (drainOnce example_dispatcher accept_all published_world).2.

Lemma drain_run : drainOnce example_dispatcher accept_all published_world = (Ok true, drained_world).
Proof. vm_compute. reflexivity. Qed.

Lemma published_ids : NoDup (ob_id <$> outbox (w_db published_world)).
Proof. apply NoDup_singleton. Qed.

(** A sender that always fails. *)
Definition refuse_all : Sender := fun _ => throw (ErrMsg "webhook: 503").

#[local] Instance refuse_all_ok : SenderOk refuse_all.
Proof. by split. Qed.

Definition refused_world : World :=
  Eval vm_compute in (drainOnce example_dispatcher refuse_all published_world).2.

Lemma refused_run : drainOnce example_dispatcher refuse_all published_world = (Ok true, refused_world).
Proof. vm_compute. reflexivity. Qed.

Lemma drainOnce_outcome_witness :
  (map ob_delivered_at (outbox (w_db drained_world)) = [Some 1000] /\
   drain_committed example_dispatcher accept_all published_world drained_world) /\
  (map (fun o => (ob_delivered_at o, ob_attempts o, ob_last_error o)) (outbox (w_db refused_world)) = [(None, 1, Some "webhook: 503")] /\
   drain_committed example_dispatcher refuse_all published_world refused_world).
Proof.
  split; (split; [reflexivity|]).
  - exact (proj2 (drainOnce_outcome example_dispatcher accept_all published_world (Ok true) drained_world drain_run published_ids)).
  - exact (proj2 (drainOnce_outcome example_dispatcher refuse_all published_world (Ok true) refused_world refused_run published_ids)).
Defined.

Lemma drainOnce_progress_witness :
  exists w', drainOnce example_dispatcher accept_all published_world = (Ok true, w') /\ w_faults w' = [].
Proof.
  apply drainOnce_progress; [apply _|reflexivity|apply published_ids|vm_compute; discriminate|].
  intros o Ho. destruct (batch_ok example_dispatcher published_world published_ids) as [_ Hb].
  destruct (Hb o Ho) as [Hin _]. apply list_elem_of_singleton in Hin. subst o. vm_compute. reflexivity.
Defined.

Lemma delivered_final_witness :
  exists o, o ∈ outbox (w_db drained_world) /\ o ∉ batch example_dispatcher (set_now drained_world 2000).
Proof.
  eexists. apply (delivered_final example_dispatcher accept_all drained_world drained_world _ 2000).
  - apply rtc_refl.
  - apply NoDup_singleton.
  - apply list_elem_of_singleton. reflexivity.
  - discriminate.
Defined.
End outbox_examples.
