(* ===== verification/Saga.v ===== *)
(** * The saga runner ([internal/saga])

    A run is a row of [saga_runs]; a worker claims one due row under a lease,
    executes the step the row names inside a transaction that also advances the
    row, and on failure fails the run or schedules a retry.  The runner is proved
    against [StepOk], the contract of a step; the settlement steps discharge it
    in their own file. *)

From S2P Require Import Prelude GoStr MockBank Models World GoJson Queries Ledger Backoff.

(** ** types.go *)

Definition KindSettlement := "intent_settlement".

Record Run := mkRun {
  run_ID : uuid;
  run_IntentID : uuid;
  run_SagaKind : string;
  run_CurrentStep : string;
  run_StepAttempts : Z;
  run_LeaseOwner : string;
  run_CreatedAt : Z
}.

Record StepResult := mkStepResult { NextStep : string }.

Definition StepResult_String (r : StepResult) : string :=
  if String.eqb (NextStep r) "" then "result(terminal)"
  else "result(next=" +:+ NextStep r +:+ ")".

(** The [Step] interface. *)
Record Step := mkStep {
  step_Name : string;
  Execute : Run -> M StepResult
}.

Record Registry := mkRegistry { steps : gmap string Step }.

Definition NewRegistry (ss : list Step) : Registry :=
  mkRegistry (foldl (fun m s => <[step_Name s := s]> m) ∅ ss).

Definition Registry_Get (r : Registry) (name : string) : option Step := steps r !! name.

Definition Terminal (e : err) : err := ErrTerminal e.

(** [errors.As(err, &t)] with [t] a [*terminalError]. *)
Fixpoint isTerminal (e : err) : bool :=
  match e with
  | ErrTerminal _ => true
  | ErrWrap _ e | ErrSuffix e _ => isTerminal e
  | _ => false
  end.

(** ** runner.go *)

Record Config := mkConfig {
  Owner : string;
  PollInterval : Z;
  IdleBackoff : Z;
  LeaseDuration : Z;
  MaxAttempts : Z;
  BackoffBase : Z;
  BackoffMax : Z
}.

Record Runner := mkRunner {
  registry : Registry;
  cfg : Config;
  backoff : Backoff
}.

(** The pool and the registry are always given. *)
Definition NewRunner (reg : Registry) (c : Config) : res Runner :=
  if String.eqb (Owner c) "" then Err (ErrMsg "saga: owner is required")
  else
    let c := mkConfig (Owner c)
      (if PollInterval c <=? 0 then 500 * millisecond else PollInterval c)
      (if IdleBackoff c <=? 0 then 2 * second else IdleBackoff c)
      (if LeaseDuration c <=? 0 then 60 * second else LeaseDuration c)
      (if MaxAttempts c <=? 0 then 8 else MaxAttempts c)
      (if BackoffBase c <=? 0 then second else BackoffBase c)
      (if BackoffMax c <=? 0 then 5 * minute else BackoffMax c) in
    Ok (mkRunner reg c (NewBackoff (BackoffBase c) (BackoffMax c))).

Definition toRun (row : SagaRun) : Run :=
  mkRun (sr_id row) (sr_intent_id row) (sr_saga_kind row) (sr_current_step row)
    (sr_step_attempts row) (default "" (sr_lease_owner row)) (sr_created_at row).

Section runner.
Context `{Env} (r : Runner).

Definition claim : M Run :=
  row ← ClaimDueSagaRun (Owner (cfg r)) (LeaseDuration (cfg r));
  mret (toRun row).

Definition executeStep (step : Step) (run : Run) : M unit :=
  with_tx "begin tx" "commit" (
    result ← map_err (ErrWrap ("step " +:+ step_Name step)) (Execute step run);
    if String.eqb (NextStep result) "" then
      _ ← map_err (ErrWrap "complete saga") (CompleteSagaRun (run_ID run));
      mret tt
    else
      _ ← map_err (ErrWrap "advance saga") (AdvanceSagaStep (run_ID run) (NextStep result));
      mret tt).

(** A failing update is only logged. *)
Definition failRun (id : uuid) (cause : err) : M unit :=
  _ ← try (FailSagaRun id (Some (Error cause)));
  mret tt.

Definition scheduleRetry (id : uuid) (delay : Z) (cause : err) : M unit :=
  now ← get_now;
  _ ← try (ScheduleSagaRetry id (now + delay) (Some (Error cause)));
  mret tt.

(** What follows a failed step. *)
Definition handleFailure (claimed : Run) (stepErr : err) : M unit :=
  if isTerminal stepErr || (MaxAttempts (cfg r) <=? wrap32 (run_StepAttempts claimed + 1)) then
    failRun (run_ID claimed) stepErr
  else
    delay ← Delay (backoff r) (wrap32 (run_StepAttempts claimed + 1));
    scheduleRetry (run_ID claimed) delay stepErr.

Definition Tick : M bool :=
  c ← try claim;
  match c with
  | Err e => if errors_is ErrNoRows e then mret false else throw (ErrWrap "claim" e)
  | Ok claimed =>
    match Registry_Get (registry r) (run_CurrentStep claimed) with
    | None =>
      _ ← failRun (run_ID claimed) (ErrMsg ("unknown step " +:+ Quote_q (run_CurrentStep claimed)));
      mret true
    | Some step =>
      x ← try (executeStep step claimed);
      match x with
      | Ok _ => mret true
      | Err stepErr => _ ← handleFailure claimed stepErr; mret true
      end
    end
  end.

(** The units of a tick between which other processes run: the claim, the
    transaction of the step, and the bookkeeping of a failure. *)
Inductive worker_op : M unit -> Prop :=
  | op_claim : worker_op (_ ← try claim; mret tt)
  | op_execute name step run :
      Registry_Get (registry r) name = Some step -> worker_op (_ ← try (executeStep step run); mret tt)
  | op_unknown id cause : worker_op (failRun id cause)
  | op_failure claimed stepErr : worker_op (handleFailure claimed stepErr).

Definition worker_ops : World -> World -> Prop := rtc (fun w w' => exists m, worker_op m /\ w' = (m w).2).

Lemma worker_ops_cons m w w' : worker_op m -> worker_ops (m w).2 w' -> worker_ops w w'.
Proof. intros Hm. apply rtc_l. eauto. Qed.

(** A tick is a sequence of such units. *)
Lemma tick_ops w : worker_ops w (Tick w).2.
Proof.
  eapply worker_ops_cons; [apply op_claim|]. unfold Tick, mbind at 1 2, M_bind at 1 2, try at 1 2.
  destruct (claim w) as [[run|e] w1]; simpl; [|case_match; apply rtc_refl].
  destruct (Registry_Get _ _) as [st|] eqn:Hget.
  - eapply worker_ops_cons; [by eapply (op_execute _ st run)|]. unfold mbind, M_bind, try.
    destruct (executeStep st run w1) as [[u|e] w2]; simpl; [apply rtc_refl|].
    eapply worker_ops_cons; [apply (op_failure run e)|]. destruct (handleFailure run e w2) as [[] w3]; apply rtc_refl.
  - eapply worker_ops_cons; [apply (op_unknown (run_ID run) (ErrMsg ("unknown step " +:+ Quote_q (run_CurrentStep run))))|].
    unfold mbind, M_bind. destruct (failRun _ _ w1) as [[] w2]; apply rtc_refl.
Qed.

(** What every unit of a tick keeps, the tick keeps. *)
Lemma keeps_Tick_ops (R : DB -> DB -> Prop) `{!PreOrder R} :
  (forall m, worker_op m -> keeps R m) -> keeps R Tick.
Proof.
  intros Hm w. generalize (tick_ops w). generalize (Tick w).2. intros w' Hs.
  induction Hs as [w|w w1 w2 (m & Hop & ->) _ IH]; [reflexivity|]. etransitivity; [by apply Hm|exact IH].
Qed.
End runner.

(** ** Contract of a step *)

Definition same_runs (d d' : DB) : Prop := saga_runs d' = saga_runs d.

#[global] Instance same_runs_preorder : PreOrder same_runs.
Proof. split; [done|]. intros d1 d2 d3 H1 H2. unfold same_runs in *. congruence. Qed.

#[global] Instance same_runs_frame_payouts : Frames same_runs set_payouts. Proof. done. Qed.
#[global] Instance same_runs_frame_intents : Frames same_runs set_payment_intents. Proof. done. Qed.
#[global] Instance same_runs_frame_outbox : Frames same_runs set_outbox. Proof. done. Qed.
#[global] Instance same_runs_frame_entries : Frames same_runs set_journal_entries. Proof. done. Qed.
#[global] Instance same_runs_frame_postings : Frames same_runs set_postings. Proof. done. Qed.

(** A step writes through the transaction only, leaves [saga_runs] to the
    runner, and only appends to the ledger. *)
Class StepOk (s : Step) : Prop := {
  step_runs run : keeps same_runs (Execute s run);
  step_ledger run : keeps ledger_ext (Execute s run);
  step_quiet run : quiet (Execute s run)
}.

Definition registry_ok (reg : Registry) : Prop :=
  forall name s, Registry_Get reg name = Some s -> StepOk s.

(** ** Rows of [saga_runs] *)

(** The table with the row of [c]'s id replaced by [c]. *)
Definition put_run (c : SagaRun) (t : list SagaRun) : list SagaRun :=
  update_where (by_id sr_id (sr_id c)) (fun _ => c) t.

Lemma put_run_update f row t :
  NoDup (sr_id <$> t) -> row ∈ t -> sr_id (f row) = sr_id row ->
  update_where (by_id sr_id (sr_id row)) f t = put_run (f row) t.
Proof.
  intros Hnd Hin Hf. unfold put_run, update_where. rewrite Hf. apply list_fmap_ext. intros i r Hr.
  unfold by_id. destruct (N.eqb_spec (sr_id r) (sr_id row)) as [E|]; [|done].
  by rewrite (NoDup_fmap_elem sr_id t r row Hnd (list_elem_of_lookup_2 _ _ _ Hr) Hin E).
Qed.

Lemma update_put_run f c t :
  sr_id (f c) = sr_id c -> update_where (by_id sr_id (sr_id c)) f (put_run c t) = put_run (f c) t.
Proof.
  intros Hf. unfold put_run, update_where. rewrite <- list_fmap_compose, Hf. apply list_fmap_ext.
  intros i r _. unfold compose, by_id. destruct (N.eqb_spec (sr_id r) (sr_id c)) as [E|E].
  - by rewrite N.eqb_refl.
  - by destruct (N.eqb_spec (sr_id r) (sr_id c)).
Qed.

Lemma find_put_run c t :
  sr_id c ∈ sr_id <$> t -> find_row (by_id sr_id (sr_id c)) (put_run c t) = Some c.
Proof.
  intros (r & E & Hr)%list_elem_of_fmap. induction t as [|x t IH]; [by apply elem_of_nil in Hr|].
  unfold put_run, update_where. rewrite fmap_cons. cbn. destruct (by_id sr_id (sr_id c) x) eqn:Ex.
  - unfold by_id. by rewrite N.eqb_refl.
  - rewrite Ex. apply elem_of_cons in Hr as [->|Hr]; [|by apply IH].
    unfold by_id in Ex. by rewrite E, N.eqb_refl in Ex.
Qed.

Lemma put_run_ids c t : sr_id <$> put_run c t = sr_id <$> t.
Proof.
  unfold put_run, update_where. rewrite <- list_fmap_compose. apply list_fmap_ext. intros i r _.
  unfold compose, by_id. destruct (N.eqb_spec (sr_id r) (sr_id c)); congruence.
Qed.

Lemma elem_of_put_run c t x :
  x ∈ put_run c t -> x = c \/ (x ∈ t /\ sr_id x <> sr_id c).
Proof.
  intros (r & -> & Hr)%list_elem_of_fmap. unfold by_id.
  destruct (N.eqb_spec (sr_id r) (sr_id c)); auto.
Qed.

Lemma put_run_other c t x : x ∈ t -> sr_id x <> sr_id c -> x ∈ put_run c t.
Proof.
  intros Hx Hne. apply list_elem_of_fmap. exists x. split; [|done]. unfold by_id.
  by destruct (N.eqb_spec (sr_id x) (sr_id c)).
Qed.

(** ** What a tick does *)

(** The row a claim takes: due, not leased, with the least [next_run_at]. *)
Definition pick (w : World) : option SagaRun :=
  head (order_by sr_next_run_at (select_where (claimable (w_now w)) (saga_runs (w_db w)))).

(** The row as a worker holds it. *)
Definition leased (r : Runner) (w : World) (row : SagaRun) : SagaRun :=
  set_sr_claimed (Owner (cfg r)) (LeaseDuration (cfg r)) (w_now w) row.

Lemma pick_spec w row :
  pick w = Some row ->
  row ∈ saga_runs (w_db w) /\ claimable (w_now w) row = true /\
  forall x, x ∈ saga_runs (w_db w) -> claimable (w_now w) x = true -> sr_next_run_at row <= sr_next_run_at x.
Proof.
  unfold pick. destruct (order_by _ _) as [|x l] eqn:E; simpl; [done|]. intros [= ->].
  assert (row ∈ select_where (claimable (w_now w)) (saga_runs (w_db w))) as [? ?]%elem_of_select.
  { apply (elem_of_order_by sr_next_run_at). rewrite E. by constructor. }
  split_and!; [done..|]. intros y Hy Hc. eapply order_by_head_least; [exact E|]. by apply elem_of_select.
Qed.

(** The step of the row succeeded and its transaction committed: [wx] is the
    world the step left, [c1] the row after the advance. *)
Inductive step_commit (reg : Registry) (c : SagaRun) (d : DB) (t : list SagaRun) : SagaRun -> DB -> Prop :=
  | commit_complete st w0 res wx now :
      Registry_Get reg (sr_current_step c) = Some st -> w_db w0 = d ->
      Execute st (toRun c) w0 = (Ok res, wx) -> NextStep res = "" ->
      step_commit reg c d t (set_sr_completed now c)
        (set_saga_runs (w_db wx) (put_run (set_sr_completed now c) t))
  | commit_advance st w0 res wx now :
      Registry_Get reg (sr_current_step c) = Some st -> w_db w0 = d ->
      Execute st (toRun c) w0 = (Ok res, wx) -> NextStep res <> "" ->
      step_commit reg c d t (set_sr_step (NextStep res) now c)
        (set_saga_runs (w_db wx) (put_run (set_sr_step (NextStep res) now c) t)).

(** What the failure handling may leave of the row. *)
Inductive failure_row (r : Runner) (c c1 : SagaRun) : SagaRun -> Prop :=
  | failure_lost : failure_row r c c1 c1
  | failure_failed msg now : failure_row r c c1 (set_sr_failed (Some msg) now c1)
  | failure_retry next msg now :
      wrap32 (sr_step_attempts c + 1) < MaxAttempts (cfg r) ->
      failure_row r c c1 (set_sr_retry next (Some msg) now c1).

(** The row and the database after a tick that claimed [c], whose claim left the
    database [d]: the step committed; or it left no trace and the run was failed,
    rescheduled or (when that update was lost too) left to its lease; or it
    committed but its acknowledgement was lost, and the same happened to the row
    it had already advanced. *)
Inductive tick_after (r : Runner) (c : SagaRun) (d : DB) (t : list SagaRun) : SagaRun -> DB -> Prop :=
  | tick_committed c1 d1 : step_commit (registry r) c d t c1 d1 -> tick_after r c d t c1 d1
  | tick_rolled_back c2 :
      failure_row r c c c2 -> tick_after r c d t c2 (set_saga_runs d (put_run c2 t))
  | tick_ack_lost c1 d1 c2 :
      step_commit (registry r) c d t c1 d1 -> failure_row r c c1 c2 ->
      tick_after r c d t c2 (set_saga_runs d1 (put_run c2 t)).

Lemma step_commit_runs reg c d t c1 d1 :
  step_commit reg c d t c1 d1 -> sr_id c1 = sr_id c /\ saga_runs d1 = put_run c1 t.
Proof. by destruct 1. Qed.

Section tick.
Context `{Env} (r : Runner) (Hreg : registry_ok (registry r)).

(** A statement that updates the row of an id: the update ran, or the database is unchanged. *)
Lemma update_run_cases f c t w x w' :
  update_returning saga_runs set_saga_runs (by_id sr_id (sr_id c)) f w = (x, w') ->
  saga_runs (w_db w) = put_run c t -> (forall now, sr_id (f now c) = sr_id c) ->
  w_db w' = w_db w \/ w_db w' = set_saga_runs (w_db w) (put_run (f (w_now w) c) t).
Proof.
  unfold update_returning, stmt. pose proof (pop_fault_db w) as E. pose proof (pop_fault_now w) as En.
  destruct (pop_fault w) as [flt w0]; simpl in *. intros Hrun Hc Hf.
  destruct flt; simplify_eq/=; auto; right; by rewrite En, E, Hc, update_put_run.
Qed.

Lemma retry_run_cases next msg c t w x w' :
  ScheduleSagaRetry (sr_id c) next msg w = (x, w') ->
  saga_runs (w_db w) = put_run c t ->
  w_db w' = w_db w \/ w_db w' = set_saga_runs (w_db w) (put_run (set_sr_retry next msg (w_now w) c) t).
Proof.
  unfold ScheduleSagaRetry, update_checked, stmt.
  pose proof (pop_fault_db w) as E. pose proof (pop_fault_now w) as En.
  destruct (pop_fault w) as [flt w0]; simpl in *. intros Hrun Hc.
  destruct flt; simplify_eq/=; auto; destruct (find_row _ _); simpl; auto;
    destruct (_ <=? int32_max); simpl; auto; right; by rewrite En, E, Hc, update_put_run.
Qed.

Lemma set_saga_runs_same d : set_saga_runs d (saga_runs d) = d.
Proof. by destruct d. Qed.

Lemma Delay_db b n w : exists d w', Delay b n w = (Ok d, w') /\ w_db w' = w_db w.
Proof. unfold Delay, Int64N. repeat case_match; simpl; eauto. Qed.

Lemma quiet_Delay b n : quiet (Delay b n).
Proof. unfold Delay. wkeeps_auto. Qed.

Lemma failRun_Ok id e w : exists w', failRun id e w = (Ok tt, w').
Proof. unfold failRun, mbind, M_bind, try. destruct (FailSagaRun _ _ w). eauto. Qed.

Lemma handleFailure_Ok claimed e w : exists w', handleFailure r claimed e w = (Ok tt, w').
Proof.
  unfold handleFailure. destruct (_ || _); [apply failRun_Ok|].
  destruct (Delay_db (backoff r) (wrap32 (run_StepAttempts claimed + 1)) w) as (d & w1 & E & _).
  rewrite (bind_run _ _ _ _ _ E). unfold scheduleRetry, get_now, mbind, M_bind, try.
  destruct (ScheduleSagaRetry _ _ _ w1). eauto.
Qed.

Lemma handleFailure_cases claimed c c1 e t w :
  run_ID claimed = sr_id c1 -> run_StepAttempts claimed = sr_step_attempts c ->
  saga_runs (w_db w) = put_run c1 t ->
  exists c2 w', handleFailure r claimed e w = (Ok tt, w') /\ failure_row r c c1 c2 /\
    w_db w' = set_saga_runs (w_db w) (put_run c2 t).
Proof.
  intros Hid Hatt Hruns.
  assert (w_db w = set_saga_runs (w_db w) (put_run c1 t)) as Hsame by (by rewrite <- Hruns, set_saga_runs_same).
  unfold handleFailure. rewrite Hid, Hatt.
  destruct (isTerminal e || _) eqn:Hgive.
  - unfold failRun, mbind, M_bind, try. destruct (FailSagaRun _ _ w) as [x w'] eqn:E.
    destruct (update_run_cases _ _ t _ _ _ E Hruns) as [Hd|Hd]; [done|exists c1, w'|eexists _, w'];
      (split; [done|]); rewrite Hd; [split; [apply failure_lost|done]|].
    split; [apply failure_failed|done].
  - bools. destruct (Delay_db (backoff r) (wrap32 (sr_step_attempts c + 1)) w) as (delay & w1 & E1 & Hd1).
    rewrite (bind_run _ _ _ _ _ E1). unfold scheduleRetry, get_now, mbind, M_bind, try.
    destruct (ScheduleSagaRetry _ _ _ w1) as [x w'] eqn:E. rewrite <- Hd1 in Hruns, Hsame |- *.
    destruct (retry_run_cases _ _ _ t _ _ _ E Hruns) as [Hd|Hd]; [exists c1, w'|eexists _, w'];
      (split; [done|]); rewrite Hd; [split; [apply failure_lost|done]|].
    split; [by apply failure_retry|done].
Qed.

(** The body of [executeStep]'s transaction. *)
Lemma executeStep_body st c t w0 u w1 :
  Registry_Get (registry r) (sr_current_step c) = Some st ->
  saga_runs (w_db w0) = put_run c t ->
  (result ← map_err (ErrWrap ("step " +:+ step_Name st)) (Execute st (toRun c));
   if String.eqb (NextStep result) "" then
     _ ← map_err (ErrWrap "complete saga") (CompleteSagaRun (run_ID (toRun c))); mret tt
   else
     _ ← map_err (ErrWrap "advance saga") (AdvanceSagaStep (run_ID (toRun c)) (NextStep result));
     mret tt) w0 = (Ok u, w1) ->
  exists c1, step_commit (registry r) c (w_db w0) t c1 (w_db w1).
Proof.
  intros Hget Hruns Hrun. minv.
  match goal with H : Execute _ _ w0 = (Ok ?res, ?wx) |- _ => rename H into Hex; rename res into result; rename wx into wx0 end.
  destruct (Hreg _ _ Hget). pose proof (step_runs0 (toRun c) w0) as Hk. rewrite Hex in Hk. unfold same_runs in Hk.
  simpl in Hk. rewrite Hruns in Hk.
  destruct (String.eqb_spec (NextStep result) ""); minv;
    match goal with H : _ (sr_id c) _ = (Ok _, _) |- _ => apply stmt_Ok in H as (_ & Hd & _)
               | H : _ (sr_id c) _ _ = (Ok _, _) |- _ => apply stmt_Ok in H as (_ & Hd & _) end;
    simpl in Hd; rewrite Hd, Hk, update_put_run by done; eexists.
  - by eapply commit_complete.
  - by eapply commit_advance.
Qed.

Lemma executeStep_cases st c t w x w' :
  Registry_Get (registry r) (sr_current_step c) = Some st ->
  saga_runs (w_db w) = put_run c t ->
  executeStep st (toRun c) w = (x, w') ->
  (w_db w' = w_db w /\ exists e, x = Err e) \/
  exists c1, step_commit (registry r) c (w_db w) t c1 (w_db w').
Proof.
  intros Hget Hruns Hrun. unfold executeStep in Hrun. destruct x as [u|e].
  - right. apply with_tx_Ok in Hrun as (w0 & w0' & E0 & Hbody & ->). rewrite <- E0 in Hruns |- *.
    by eapply executeStep_body.
  - match type of Hrun with with_tx ?b ?cm ?m w = _ => destruct (with_tx_db b cm m w) as [Hd|(a & w0 & w1 & Hbody & E0 & Hd & _)] end;
      rewrite Hrun in Hd; simpl in Hd; [left; eauto|right]. rewrite Hd. rewrite <- E0 in Hruns |- *.
    by eapply executeStep_body.
Qed.

(** The database after a claim of [row]. *)
Definition claimed_db (w : World) (row : SagaRun) : DB :=
  set_saga_runs (w_db w) (put_run (leased r w row) (saga_runs (w_db w))).

Lemma claim_cases w x w' :
  claim r w = (x, w') -> NoDup (sr_id <$> saga_runs (w_db w)) ->
  match pick w with
  | None => w_db w' = w_db w /\ exists e, x = Err e
  | Some row =>
    (exists e, x = Err e /\ errors_is ErrNoRows e = false /\
       (w_db w' = w_db w \/ w_db w' = claimed_db w row)) \/
    (x = Ok (toRun (leased r w row)) /\ w_db w' = claimed_db w row)
  end.
Proof.
  unfold claim, ClaimDueSagaRun, stmt, mbind, M_bind, mret, M_ret. intros Hrun Hnd.
  pose proof (pop_fault_db w) as E. pose proof (pop_fault_now w) as En.
  destruct (pop_fault w) as [flt w0]; simpl in *. rewrite E, En in Hrun.
  destruct (pick w) as [row|] eqn:Hp; pose proof Hp as Hp'; unfold pick in Hp';
    destruct (order_by _ _) as [|row' l]; simplify_eq/=.
  - destruct (pick_spec _ _ Hp) as (Hin & _). rewrite put_run_update in Hrun by done.
    destruct flt; simplify_eq/=; [by right|left..]; eexists; (split; [done|]); (split; [done|]); auto.
  - destruct flt; simplify_eq/=; eauto.
Qed.

Lemma tick_cases w x w' :
  Tick r w = (x, w') -> NoDup (sr_id <$> saga_runs (w_db w)) ->
  match pick w with
  | None => w_db w' = w_db w /\ x <> Ok true
  | Some row =>
    (exists e, x = Err e /\ (w_db w' = w_db w \/ w_db w' = claimed_db w row)) \/
    (x = Ok true /\ exists c,
       tick_after r (leased r w row) (claimed_db w row) (saga_runs (w_db w)) c (w_db w'))
  end.
Proof.
  unfold Tick, mret, M_ret. intros Hrun Hnd. unfold mbind at 1, M_bind at 1, try at 1 in Hrun.
  destruct (claim r w) as [y w1] eqn:Ec. pose proof (claim_cases w y w1 Ec Hnd) as Hc.
  destruct (pick w) as [row|].
  2:{ destruct Hc as [Hd [e ->]]. destruct (errors_is _ e); unfold throw in Hrun; simplify_eq/=; done. }
  destruct Hc as [(e & -> & Hne & Hd)|[-> Hd]].
  { rewrite Hne in Hrun. unfold throw in Hrun. simplify_eq/=. left. eauto. }
  right. set (c := leased r w row) in *. set (t := saga_runs (w_db w)) in *.
  assert (saga_runs (w_db w1) = put_run c t) as Hruns by by rewrite Hd.
  assert (w_db w1 = set_saga_runs (w_db w1) (put_run c t)) as Hsame by by rewrite <- Hruns, set_saga_runs_same.
  change (run_CurrentStep (toRun c)) with (sr_current_step c) in Hrun. rewrite <- Hd.
  destruct (Registry_Get (registry r) (sr_current_step c)) as [st|] eqn:Hget.
  - unfold mbind at 1, M_bind at 1, try at 1 in Hrun.
    destruct (executeStep st (toRun c) w1) as [z w2] eqn:Ex.
    destruct (executeStep_cases st c t w1 z w2 Hget Hruns Ex) as [[Hd2 [e ->]]|[c1 Hc1]].
    + rewrite <- Hd2 in Hruns.
      destruct (handleFailure_cases (toRun c) c c e t w2 eq_refl eq_refl Hruns) as (c2 & w3 & E3 & Hf & Hd3).
      rewrite (bind_run _ _ _ _ _ E3) in Hrun. simplify_eq/=. split; [done|]. exists c2. rewrite Hd3, Hd2.
      by apply tick_rolled_back.
    + pose proof (step_commit_runs _ _ _ _ _ _ Hc1) as [Hid Hruns2]. destruct z as [u|e].
      * simplify_eq/=. split; [done|]. exists c1. by apply tick_committed.
      * destruct (handleFailure_cases (toRun c) c c1 e t w2 (eq_sym Hid) eq_refl Hruns2) as (c2 & w3 & E3 & Hf & Hd3).
        rewrite (bind_run _ _ _ _ _ E3) in Hrun. simplify_eq/=. split; [done|]. exists c2. rewrite Hd3.
        by eapply tick_ack_lost.
  - unfold failRun, mbind, M_bind, try in Hrun. destruct (FailSagaRun _ _ w1) as [z w2] eqn:Ef.
    simplify_eq/=. split; [done|].
    destruct (update_run_cases _ c t _ _ _ Ef Hruns) as [->| ->]; [done|exists c|eexists].
    + rewrite Hsame at 2. apply tick_rolled_back, failure_lost.
    + apply tick_rolled_back, failure_failed.
Qed.
(** C7: one tick of the runner, whatever faults it meets. With no run due it
    changes nothing.  Otherwise it takes the due run with the earliest
    [next_run_at] and changes no other run; either the step's effects and the
    advance are both in the database, or the step left no trace and the run is
    failed, rescheduled with one more attempt, or left to its lease; only when
    the acknowledgement of the commit was lost does the failure handling touch
    a run that already advanced. *)
Theorem Tick_cases w x w' :
  Tick r w = (x, w') -> NoDup (sr_id <$> saga_runs (w_db w)) ->
  match pick w with
  | None => w_db w' = w_db w /\ x <> Ok true
  | Some row =>
    (exists e, x = Err e /\ (w_db w' = w_db w \/ w_db w' = claimed_db w row)) \/
    (x = Ok true /\ exists c,
       tick_after r (leased r w row) (claimed_db w row) (saga_runs (w_db w)) c (w_db w'))
  end.
Proof. apply tick_cases. Qed.

(** ** A tick without faults *)

Lemma set_rng_0' w d : set_db (set_rng w (w_rng w + 0)%N) d = set_db w d.
Proof. by rewrite N.add_0_r. Qed.

Lemma claim_run w row :
  w_faults w = [] -> NoDup (sr_id <$> saga_runs (w_db w)) -> pick w = Some row ->
  claim r w = (Ok (toRun (leased r w row)), set_db w (claimed_db w row)).
Proof.
  intros Hf Hnd Hp. unfold claim, ClaimDueSagaRun. erewrite bind_run; [done|].
  rewrite stmt_run by done. destruct (pick_spec _ _ Hp) as (Hin & _). unfold pick in Hp.
  destruct (order_by _ _) as [|row' l]; simplify_eq/=. by rewrite put_run_update, set_rng_0'.
Qed.

Lemma failRun_run c t w e :
  w_faults w = [] -> saga_runs (w_db w) = put_run c t -> sr_id c ∈ sr_id <$> t ->
  failRun (sr_id c) e w =
  (Ok tt, set_db w (set_saga_runs (w_db w) (put_run (set_sr_failed (Some (Error e)) (w_now w) c) t))).
Proof.
  intros Hf Hruns Hid. unfold failRun, mbind, M_bind, try, FailSagaRun, update_returning.
  rewrite stmt_run by done. simpl. by rewrite Hruns, update_put_run, set_rng_0'.
Qed.

Lemma scheduleRetry_run c t w delay e :
  w_faults w = [] -> saga_runs (w_db w) = put_run c t -> sr_id c ∈ sr_id <$> t ->
  sr_step_attempts c < int32_max ->
  scheduleRetry (sr_id c) delay e w =
  (Ok tt, set_db w (set_saga_runs (w_db w)
     (put_run (set_sr_retry (w_now w + delay) (Some (Error e)) (w_now w) c) t))).
Proof.
  intros Hf Hruns Hid Ha. unfold scheduleRetry, get_now, mbind, M_bind, try, ScheduleSagaRetry, update_checked.
  rewrite stmt_run by done. rewrite Hruns, find_put_run by done.
  destruct (sr_step_attempts c + 1 <=? int32_max) eqn:?; bools; [|lia]. simpl.
  by rewrite update_put_run, set_rng_0'.
Qed.

(** The row a failed step leaves, given the delay drawn for the retry. *)
Definition failed_row (w : World) (row : SagaRun) (st : Step) (e : err) (delay : Z) : SagaRun :=
  let msg := Some (Error (ErrWrap ("step " +:+ step_Name st) e)) in
  if isTerminal e || (MaxAttempts (cfg r) <=? sr_step_attempts row + 1)
  then set_sr_failed msg (w_now w) (leased r w row)
  else set_sr_retry (w_now w + delay) msg (w_now w) (leased r w row).

Lemma put_run_twice c c' t : sr_id c' = sr_id c -> put_run c' (put_run c t) = put_run c' t.
Proof. intros E. unfold put_run at 1. rewrite E. by rewrite update_put_run by done. Qed.

Lemma executeStep_fails st run w e wx :
  w_faults w = [] -> Execute st run w = (Err e, wx) ->
  executeStep st run w = (Err (ErrWrap ("step " +:+ step_Name st) e), set_db wx (w_db w)).
Proof.
  intros Hf Hex. unfold executeStep, with_tx, pop_fault, mbind, M_bind, map_err. by rewrite Hf, Hex.
Qed.

(** A failing step, with the database answering: everything the step wrote is
    rolled back, and only the run's own row changes. *)
Lemma tick_step_fails w row st e wx :
  w_faults w = [] -> NoDup (sr_id <$> saga_runs (w_db w)) -> pick w = Some row ->
  Registry_Get (registry r) (sr_current_step row) = Some st ->
  Execute st (toRun (leased r w row)) (set_db w (claimed_db w row)) = (Err e, wx) ->
  0 <= sr_step_attempts row < int32_max ->
  exists delay w', Tick r w = (Ok true, w') /\ w_faults w' = [] /\ w_now w' = w_now w /\
    w_db w' = set_saga_runs (w_db w) (put_run (failed_row w row st e delay) (saga_runs (w_db w))) /\
    exists w1 w2, Delay (backoff r) (sr_step_attempts row + 1) w1 = (Ok delay, w2).
Proof.
  intros Hf Hnd Hp Hget Hex Hatt. destruct (pick_spec _ _ Hp) as (Hin & _).
  unfold Tick. unfold mbind at 1, M_bind at 1, try at 1. rewrite (claim_run w row) by done.
  change (run_CurrentStep (toRun (leased r w row))) with (sr_current_step row). rewrite Hget.
  unfold mbind at 1, M_bind at 1, try at 1. erewrite executeStep_fails by done.
  destruct (Hreg _ _ Hget) as [_ _ Hq]. destruct (Hq (toRun (leased r w row)) (set_db w (claimed_db w row))) as [Hn Hfx].
  rewrite Hex in Hn, Hfx. simpl in Hn, Hfx. specialize (Hfx Hf).
  set (c := leased r w row) in *. set (t := saga_runs (w_db w)) in *.
  set (w1 := set_db wx (claimed_db w row)). change (w_db (set_db w (claimed_db w row))) with (claimed_db w row). fold w1.
  assert (sr_id c ∈ sr_id <$> t) as Hid by exact (list_elem_of_fmap_2 sr_id t row Hin).
  unfold handleFailure. change (run_StepAttempts (toRun c)) with (sr_step_attempts row).
  change (run_ID (toRun c)) with (sr_id c). change (isTerminal (ErrWrap ("step " +:+ step_Name st) e)) with (isTerminal e).
  rewrite wrap32_id by (unfold int32_max in *; lia).
  destruct (Delay_db (backoff r) (sr_step_attempts row + 1) w1) as (delay & w2 & Ed & Hd2). exists delay.
  unfold failed_row. fold c.
  destruct (isTerminal e || _).
  - erewrite bind_run; [|by apply (failRun_run c t)]. eexists. split; [done|].
    split_and!; simpl; [done..| |eauto]. by rewrite Hn.
  - pose proof (quiet_Delay (backoff r) (sr_step_attempts row + 1) w1) as [Hn2 Hf2].
    rewrite Ed in Hn2, Hf2. simpl in Hn2, Hf2. erewrite bind_run.
    2:{ rewrite (bind_run _ _ _ _ _ Ed). apply (scheduleRetry_run c t); [by apply Hf2|by rewrite Hd2|done|simpl; lia]. }
    eexists. split; [done|]. split_and!; simpl; [by apply Hf2|congruence| |eauto].
    rewrite Hd2, Hn2. simpl. by rewrite Hn.
Qed.

(** The row a successful step leaves. *)
Definition advanced_row (w : World) (row : SagaRun) (res : StepResult) : SagaRun :=
  if String.eqb (NextStep res) "" then set_sr_completed (w_now w) (leased r w row)
  else set_sr_step (NextStep res) (w_now w) (leased r w row).

Lemma tick_step_succeeds w row st res wx :
  w_faults w = [] -> NoDup (sr_id <$> saga_runs (w_db w)) -> pick w = Some row ->
  Registry_Get (registry r) (sr_current_step row) = Some st ->
  Execute st (toRun (leased r w row)) (set_db w (claimed_db w row)) = (Ok res, wx) ->
  deferred_triggers (w_db w) (w_db wx) = true ->
  Tick r w = (Ok true, set_db wx (set_saga_runs (w_db wx)
                         (put_run (advanced_row w row res) (saga_runs (w_db w))))).
Proof.
  intros Hf Hnd Hp Hget Hex Htrig. destruct (pick_spec _ _ Hp) as (Hin & _).
  destruct (Hreg _ _ Hget) as [Hsr _ Hq]. specialize (Hsr (toRun (leased r w row)) (set_db w (claimed_db w row))).
  destruct (Hq (toRun (leased r w row)) (set_db w (claimed_db w row))) as [Hn Hfx].
  rewrite Hex in Hsr, Hn, Hfx. unfold same_runs in Hsr. simpl in Hsr, Hn, Hfx. specialize (Hfx Hf).
  set (c := leased r w row) in *. set (t := saga_runs (w_db w)) in *.
  assert (sr_id c ∈ sr_id <$> t) as Hid by exact (list_elem_of_fmap_2 sr_id t row Hin).
  set (w' := set_db wx (set_saga_runs (w_db wx) (put_run (advanced_row w row res) t))).
  assert (executeStep st (toRun c) (set_db w (claimed_db w row)) = (Ok tt, w')) as Hexec.
  { unfold executeStep. apply with_tx_run; [done| |done|exact Htrig].
    erewrite bind_run; [|unfold map_err; by rewrite Hex]. unfold w', advanced_row.
    destruct (String.eqb (NextStep res) ""); (erewrite bind_run; [done|]);
      unfold map_err, CompleteSagaRun, AdvanceSagaStep, update_returning; rewrite stmt_run by done;
      change (run_ID (toRun c)) with (sr_id c); rewrite Hsr, find_put_run by done; cbn [fst snd];
      by rewrite update_put_run, set_rng_0', Hn by done. }
  unfold Tick. unfold mbind at 1, M_bind at 1, try at 1. rewrite (claim_run w row) by done. fold c.
  change (run_CurrentStep (toRun c)) with (sr_current_step row). rewrite Hget.
  unfold mbind at 1, M_bind at 1, try at 1. by rewrite Hexec.
Qed.

(** A failing step, with the database answering. The tick reports work
    done; of everything the step wrote nothing remains, and only the run's own row
    changes: failed when the error is terminal or the attempts are used up,
    otherwise pending again with one more attempt after the backoff delay. *)
Theorem Tick_step_fails w row st e wx :
  w_faults w = [] -> NoDup (sr_id <$> saga_runs (w_db w)) -> pick w = Some row ->
  Registry_Get (registry r) (sr_current_step row) = Some st ->
  Execute st (toRun (leased r w row)) (set_db w (claimed_db w row)) = (Err e, wx) ->
  0 <= sr_step_attempts row < int32_max ->
  exists delay w', Tick r w = (Ok true, w') /\ w_faults w' = [] /\ w_now w' = w_now w /\
    w_db w' = set_saga_runs (w_db w) (put_run (failed_row w row st e delay) (saga_runs (w_db w))) /\
    exists w1 w2, Delay (backoff r) (sr_step_attempts row + 1) w1 = (Ok delay, w2).
Proof. apply tick_step_fails. Qed.

(** A succeeding step, with the database answering. The step's effects, and
    the advance to the next step (or completion), are committed together and the
    lease is gone. *)
Theorem Tick_step_succeeds w row st res wx :
  w_faults w = [] -> NoDup (sr_id <$> saga_runs (w_db w)) -> pick w = Some row ->
  Registry_Get (registry r) (sr_current_step row) = Some st ->
  Execute st (toRun (leased r w row)) (set_db w (claimed_db w row)) = (Ok res, wx) ->
  deferred_triggers (w_db w) (w_db wx) = true ->
  Tick r w = (Ok true, set_db wx (set_saga_runs (w_db wx)
                         (put_run (advanced_row w row res) (saga_runs (w_db w))))).
Proof. apply tick_step_succeeds. Qed.
End tick.

(** ** Sequences of ticks *)

Section ticks.
Context `{Env}.

(** Ticks of any workers satisfying [rs], one after the other, at whatever times
    and with whatever faults. *)
Definition ticks (rs : Runner -> Prop) : World -> World -> Prop :=
  rtc (fun w w' => exists r t x, rs r /\ registry_ok (registry r) /\ Tick r (set_now w t) = (x, w')).

(** What any tick does to the runs: nothing, or it replaces the row it picked. *)
Lemma tick_runs r w x w' :
  registry_ok (registry r) -> Tick r w = (x, w') -> NoDup (sr_id <$> saga_runs (w_db w)) ->
  saga_runs (w_db w') = saga_runs (w_db w) \/
  exists row c, pick w = Some row /\ saga_runs (w_db w') = put_run c (saga_runs (w_db w)) /\
    sr_id c = sr_id row /\
    (0 <= sr_step_attempts row < MaxAttempts (cfg r) -> MaxAttempts (cfg r) <= int32_max ->
     0 <= sr_step_attempts c < MaxAttempts (cfg r)).
Proof.
  intros Hreg Hrun Hnd. pose proof (tick_cases r Hreg w x w' Hrun Hnd) as Hc.
  destruct (pick w) as [row|] eqn:Hp; [|left; by destruct Hc as [-> _]].
  destruct Hc as [(e & _ & [->| ->])|(_ & c & Ht)]; [by left|right; exists row, (leased r w row); eauto|].
  right. exists row. set (c0 := leased r w row) in *.
  assert (forall c1 d1, step_commit (registry r) c0 (claimed_db r w row) (saga_runs (w_db w)) c1 d1 ->
    sr_id c1 = sr_id row /\ saga_runs d1 = put_run c1 (saga_runs (w_db w)) /\
    (sr_step_attempts c1 = sr_step_attempts row \/ sr_step_attempts c1 = 0)) as Hsc
    by (intros c1 d1 []; simpl; auto).
  assert (forall c1 c2, failure_row r c0 c1 c2 -> sr_id c1 = sr_id row ->
    (sr_step_attempts c1 = sr_step_attempts row \/ sr_step_attempts c1 = 0) ->
    sr_id c2 = sr_id row /\
    (0 <= sr_step_attempts row < MaxAttempts (cfg r) -> MaxAttempts (cfg r) <= int32_max ->
     0 <= sr_step_attempts c2 < MaxAttempts (cfg r))) as Hfr.
  { intros c1 c2 [|msg now|next msg now Hlt] Hid Ha; simpl in *; (split; [done|]); intros Hb Hm; try lia.
    rewrite wrap32_id in Hlt by (unfold int32_max in *; lia). lia. }
  destruct Ht as [c1 d1 Hs|c2 Hf|c1 d1 c2 Hs Hf].
  - destruct (Hsc _ _ Hs) as (Hid & Hr & Ha). exists c1. split_and!; [done..|lia].
  - destruct (Hfr _ _ Hf eq_refl (or_introl eq_refl)) as [? ?]. exists c2. split_and!; auto.
  - destruct (Hsc _ _ Hs) as (Hid & Hr & Ha). destruct (Hfr _ _ Hf Hid Ha) as [? ?]. exists c2. split_and!; auto.
Qed.

Lemma tick_ids r w x w' :
  registry_ok (registry r) -> Tick r w = (x, w') -> NoDup (sr_id <$> saga_runs (w_db w)) ->
  sr_id <$> saga_runs (w_db w') = sr_id <$> saga_runs (w_db w).
Proof.
  intros Hreg Hrun Hnd. destruct (tick_runs r w x w' Hreg Hrun Hnd) as [->|(row & c & _ & -> & _)]; [done|].
  apply put_run_ids.
Qed.

Definition finished (row : SagaRun) : Prop := sr_state row = SCompleted \/ sr_state row = SFailed.

Lemma finished_not_claimable now row : finished row -> claimable now row = false.
Proof. unfold claimable. by intros [->| ->]. Qed.

(** completed and failed are final. No sequence of ticks, of any workers,
    with whatever faults, changes a run that has completed or failed. *)
Theorem finished_final w w' row :
  ticks (fun _ => True) w w' -> NoDup (sr_id <$> saga_runs (w_db w)) ->
  row ∈ saga_runs (w_db w) -> finished row -> row ∈ saga_runs (w_db w').
Proof.
  intros Ht. induction Ht as [|w w1 w2 (r & t & x & _ & Hreg & Hrun) _ IH]; intros Hnd Hin Hfin; [done|].
  apply IH; [by rewrite (tick_ids _ _ _ _ Hreg Hrun Hnd)| |done].
  destruct (tick_runs r (set_now w t) x w1 Hreg Hrun Hnd) as [->|(row' & c & Hp & -> & Hid & _)]; [done|].
  apply put_run_other; [done|]. rewrite Hid. intros E.
  destruct (pick_spec _ _ Hp) as (Hin' & Hcl & _).
  rewrite <- (NoDup_fmap_elem sr_id _ _ _ Hnd Hin Hin' E) in Hcl. by rewrite finished_not_claimable in Hcl.
Qed.

(** the attempt counter. When every worker allows the same number of
    attempts, no sequence of ticks lets a run's counter reach it, so the counter
    never overflows its column and a retry is always recorded. *)
Theorem attempts_bounded m w w' :
  ticks (fun r => MaxAttempts (cfg r) = m) w w' -> m <= int32_max ->
  NoDup (sr_id <$> saga_runs (w_db w)) ->
  (forall row, row ∈ saga_runs (w_db w) -> 0 <= sr_step_attempts row < m) ->
  forall row, row ∈ saga_runs (w_db w') -> 0 <= sr_step_attempts row < m.
Proof.
  intros Ht Hm. induction Ht as [|w w1 w2 (r & t & x & Hr & Hreg & Hrun) _ IH]; intros Hnd Hall; [done|].
  apply IH; [by rewrite (tick_ids _ _ _ _ Hreg Hrun Hnd)|]. subst m.
  destruct (tick_runs r (set_now w t) x w1 Hreg Hrun Hnd) as [->|(row' & c & Hp & -> & _ & Ha)]; [done|].
  intros row [->|[Hin _]]%elem_of_put_run; [|by apply Hall].
  apply Ha; [|done]. apply Hall. by destruct (pick_spec _ _ Hp) as (? & _).
Qed.

(** ** The books across ticks *)

Definition books_kept (d d' : DB) : Prop := books_ok d -> books_ok d'.

#[local] Instance books_kept_preorder : PreOrder books_kept.
Proof. split; [by intros d Hb|]. intros d1 d2 d3 H1 H2 Hb. auto. Qed.

Lemma books_same_ledger d d' : same_ledger d d' -> books_kept d d'.
Proof.
  intros Hs [Hwf Hb]. split.
  - destruct (same_ledger_ext _ _ Hs) as (_ & _ & _ & Hw). auto.
  - destruct Hs as (_ & _ & Hp). intros e c. unfold entry_diff. rewrite Hp. apply Hb.
Qed.

#[local] Instance books_kept_frame : Frames books_kept set_saga_runs.
Proof. intros d t. by apply books_same_ledger. Qed.

Lemma keeps_ext_executeStep_body st run : StepOk st ->
  keeps books_kept (executeStep st run).
Proof.
  intros Hok w Hb. apply with_tx_keeps_books; [|done]. pose proof (step_ledger (s := st)). keeps_auto.
Qed.

Lemma keeps_books_op r m : registry_ok (registry r) -> worker_op r m -> keeps books_kept m.
Proof.
  intros Hreg [|name st run Hget|id cause|run e].
  - unfold claim. keeps_auto.
  - pose proof (keeps_ext_executeStep_body st run (Hreg _ _ Hget)). keeps_auto.
  - unfold failRun. keeps_auto.
  - unfold handleFailure, failRun, scheduleRetry, Delay. keeps_auto.
Qed.

Lemma keeps_books_Tick r : registry_ok (registry r) -> keeps books_kept (Tick r).
Proof. intros Hreg. apply keeps_Tick_ops; [apply _|]. intros m. by apply keeps_books_op. Qed.

(** The books survive every run of the orchestrator: whatever ticks happen,
    failing or not, every entry stays balanced per currency and every posting
    positive and in its account's currency. *)
Theorem ticks_books_ok w w' :
  ticks (fun _ => True) w w' -> books_ok (w_db w) -> books_ok (w_db w').
Proof.
  induction 1 as [|w w1 w2 (r & t & x & _ & Hreg & Hrun) _ IH]; [done|]. intros Hb. apply IH.
  pose proof (keeps_books_Tick r Hreg (set_now w t)) as Hk. rewrite Hrun in Hk. by apply Hk.
Qed.

(** ** Retries end *)

(** [n] consecutive ticks of [r] on the run [id], in each of which its step
    failed; the database answers, the times are arbitrary. *)
Inductive failing (r : Runner) (id : uuid) : nat -> World -> World -> Prop :=
  | failing_0 w : failing r id 0 w w
  | failing_S n w t row st e wx x w1 w2 :
      pick (set_now w t) = Some row -> sr_id row = id ->
      Registry_Get (registry r) (sr_current_step row) = Some st ->
      Execute st (toRun (leased r (set_now w t) row))
        (set_db (set_now w t) (claimed_db r (set_now w t) row)) = (Err e, wx) ->
      Tick r (set_now w t) = (x, w1) -> failing r id n w1 w2 ->
      failing r id (S n) w w2.

Lemma put_run_in c t : sr_id c ∈ sr_id <$> t -> c ∈ put_run c t.
Proof. intros Hc. by apply find_put_run, find_row_Some in Hc as [? _]. Qed.

(** A failing run that is not picked again. *)
Lemma failing_finished r id n w w' row :
  failing r id n w w' -> NoDup (sr_id <$> saga_runs (w_db w)) ->
  row ∈ saga_runs (w_db w) -> sr_id row = id -> finished row -> n = 0%nat /\ w' = w.
Proof.
  intros [|n' w0 t row' st e wx x w1 w2 Hp Hid' _ _ _ _] Hnd Hin Hid Hfin; [done|].
  destruct (pick_spec _ _ Hp) as (Hin' & Hcl & _).
  rewrite <- (NoDup_fmap_elem sr_id _ row row' Hnd Hin Hin') in Hcl by congruence.
  by rewrite finished_not_claimable in Hcl.
Qed.

(** C33: retries terminate. A step that keeps failing is executed at most
    [MaxAttempts - attempts] more times, and when it has been, the run is
    failed. *)
Theorem retries_terminate r id n w w' row :
  registry_ok (registry r) -> failing r id n w w' -> w_faults w = [] ->
  NoDup (sr_id <$> saga_runs (w_db w)) -> row ∈ saga_runs (w_db w) -> sr_id row = id ->
  0 <= sr_step_attempts row < MaxAttempts (cfg r) -> MaxAttempts (cfg r) <= int32_max ->
  Z.of_nat n <= MaxAttempts (cfg r) - sr_step_attempts row /\
  (Z.of_nat n = MaxAttempts (cfg r) - sr_step_attempts row ->
   exists row', row' ∈ saga_runs (w_db w') /\ sr_id row' = id /\ sr_state row' = SFailed).
Proof.
  intros Hreg Hfail. revert row.
  induction Hfail as [w|n w t row' st e wx x w1 w2 Hp Hid' Hget Hex Hrun Hfail IH];
    intros row Hf Hnd Hin Hid Hatt Hmax; [lia|].
  destruct (pick_spec _ _ Hp) as (Hin' & _).
  assert (row' = row) as -> by (by apply (NoDup_fmap_elem sr_id _ _ _ Hnd Hin' Hin); congruence).
  destruct (tick_step_fails r Hreg (set_now w t) row st e wx Hf Hnd Hp Hget Hex ltac:(lia))
    as (delay & w1' & Hrun' & Hf1 & _ & Hd1 & _). rewrite Hrun' in Hrun. injection Hrun as <- <-.
  set (c := failed_row r (set_now w t) row st e delay) in *.
  assert (sr_id c = id) as Hcid by (unfold c, failed_row; by case_match).
  assert (saga_runs (w_db w1') = put_run c (saga_runs (w_db w))) as Hruns by by rewrite Hd1.
  assert (c ∈ saga_runs (w_db w1')) as Hcin.
  { rewrite Hruns. apply put_run_in. rewrite Hcid, <- Hid. by apply list_elem_of_fmap_2. }
  assert (NoDup (sr_id <$> saga_runs (w_db w1'))) as Hnd1 by (by rewrite Hruns, put_run_ids).
  destruct (isTerminal e || (MaxAttempts (cfg r) <=? sr_step_attempts row + 1)) eqn:Hgive.
  - assert (sr_state c = SFailed) as Hst by (unfold c, failed_row; by rewrite Hgive).
    destruct (failing_finished r id n w1' w2 c Hfail Hnd1 Hcin Hcid) as [-> ->]; [by right|].
    split; [lia|eauto].
  - assert (sr_step_attempts c = sr_step_attempts row + 1) as Ha by (unfold c, failed_row; by rewrite Hgive).
    bools. destruct (IH c Hf1 Hnd1 Hcin Hcid) as [IH1 IH2]; [lia|done|]. rewrite Ha in IH1, IH2.
    split; [lia|]. intros E. apply IH2. lia.
Qed.
End ticks.

(** ** Examples *)

Section saga_examples.
#[local] Existing Instance example_env.

(** A saga of two steps: the first always succeeds, the second always fails. *)
Definition open_step : Step := mkStep "open" (fun _ => mret (mkStepResult "close")).
Definition close_step : Step := mkStep "close" (fun _ => throw (ErrMsg "shut")).

#[local] Instance open_step_ok : StepOk open_step.
Proof. split; simpl; intros run; [keeps_auto..|wkeeps_auto]. Qed.
#[local] Instance close_step_ok : StepOk close_step.
Proof. split; simpl; intros run; [keeps_auto..|wkeeps_auto]. Qed.

Definition example_registry : Registry := NewRegistry [open_step; close_step].

Lemma example_registry_ok : registry_ok example_registry.
Proof.
  intros name s Hg. unfold Registry_Get, example_registry, NewRegistry in Hg. simpl in Hg.
  apply lookup_insert_Some in Hg as [[_ <-]|[_ Hg]]; [apply _|].
  apply lookup_insert_Some in Hg as [[_ <-]|[_ Hg]]; [apply _|]. by rewrite lookup_empty in Hg.
Qed.

Definition example_runner : Runner :=
  mkRunner example_registry (mkConfig "w1" (500 * millisecond) (2 * second) (60 * second) 2 second (5 * minute))
    (NewBackoff second (5 * minute)).

Definition row_at (id : uuid) (step : string) (st : SagaState) : SagaRun :=
  mkSagaRun id 7%N KindSettlement step st 0 0 None None None 0 0.

Definition saga_world : World :=
  world_at 1000 (set_saga_runs seeded_db [row_at 1%N "open" SPending; row_at 2%N "open" SCompleted]).

Lemma saga_world_ids : NoDup (sr_id <$> saga_runs (w_db saga_world)).
Proof. apply (bool_decide_unpack _). vm_compute. reflexivity. Qed.

Definition saga_world_1 : World := Eval vm_compute in (Tick example_runner saga_world).2.
Definition saga_world_2 : World := Eval vm_compute in (Tick example_runner (set_now saga_world_1 (10 * second))).2.
Definition saga_world_3 : World := Eval vm_compute in (Tick example_runner (set_now saga_world_2 (20 * second))).2.

Lemma saga_tick_1 : Tick example_runner saga_world = (Ok true, saga_world_1).
Proof. vm_compute. reflexivity. Qed.
Lemma saga_tick_2 : Tick example_runner (set_now saga_world_1 (10 * second)) = (Ok true, saga_world_2).
Proof. vm_compute. reflexivity. Qed.
Lemma saga_tick_3 : Tick example_runner (set_now saga_world_2 (20 * second)) = (Ok true, saga_world_3).
Proof. vm_compute. reflexivity. Qed.

Lemma Tick_cases_witness :
  exists c, tick_after example_runner (leased example_runner saga_world (row_at 1%N "open" SPending))
    (claimed_db example_runner saga_world (row_at 1%N "open" SPending))
    (saga_runs (w_db saga_world)) c (w_db saga_world_1).
Proof.
  pose proof (Tick_cases example_runner example_registry_ok saga_world (Ok true) saga_world_1
    saga_tick_1 saga_world_ids) as Hc.
  assert (pick saga_world = Some (row_at 1%N "open" SPending)) as Hp by (vm_compute; reflexivity).
  rewrite Hp in Hc. destruct Hc as [(e & E & _)|[_ Hc]]; [discriminate E|exact Hc].
Defined.

Lemma Tick_step_succeeds_witness :
  Tick example_runner saga_world = (Ok true, set_db
    (set_db saga_world (claimed_db example_runner saga_world (row_at 1%N "open" SPending)))
    (set_saga_runs (claimed_db example_runner saga_world (row_at 1%N "open" SPending))
      (put_run (advanced_row example_runner saga_world (row_at 1%N "open" SPending) (mkStepResult "close"))
        (saga_runs (w_db saga_world))))).
Proof.
  apply (Tick_step_succeeds example_runner example_registry_ok saga_world (row_at 1%N "open" SPending) open_step
    (mkStepResult "close")
    (set_db saga_world (claimed_db example_runner saga_world (row_at 1%N "open" SPending))));
    [reflexivity|apply saga_world_ids|vm_compute; reflexivity|reflexivity|reflexivity|reflexivity].
Defined.

Definition saga_row_2 : SagaRun :=
  Eval vm_compute in default (row_at 0%N "" SFailed) (pick (set_now saga_world_1 (10 * second))).

Lemma Tick_step_fails_witness :
  exists delay w', Tick example_runner (set_now saga_world_1 (10 * second)) = (Ok true, w') /\
    w_db w' = set_saga_runs (w_db saga_world_1)
      (put_run (failed_row example_runner (set_now saga_world_1 (10 * second)) saga_row_2 close_step (ErrMsg "shut") delay)
        (saga_runs (w_db saga_world_1))).
Proof.
  destruct (Tick_step_fails example_runner example_registry_ok (set_now saga_world_1 (10 * second)) saga_row_2
    close_step (ErrMsg "shut")
    (set_db (set_now saga_world_1 (10 * second))
       (claimed_db example_runner (set_now saga_world_1 (10 * second)) saga_row_2)))
    as (delay & w' & Hrun & _ & _ & Hd & _);
    [reflexivity|apply (bool_decide_unpack _); vm_compute; reflexivity|vm_compute; reflexivity|reflexivity
    |reflexivity|vm_compute; split; [discriminate|reflexivity]|].
  exists delay, w'. split; [exact Hrun|exact Hd].
Defined.

Lemma saga_ticks (rs : Runner -> Prop) : rs example_runner -> ticks rs saga_world saga_world_2.
Proof.
  intros Hrs. eapply rtc_l; [exists example_runner, 1000, (Ok true)|eapply rtc_once; exists example_runner, (10 * second), (Ok true)].
  - split; [exact Hrs|]. split; [apply example_registry_ok|exact saga_tick_1].
  - split; [exact Hrs|]. split; [apply example_registry_ok|exact saga_tick_2].
Qed.

Lemma finished_final_witness : row_at 2%N "open" SCompleted ∈ saga_runs (w_db saga_world_2).
Proof.
  apply (finished_final saga_world saga_world_2);
    [by apply saga_ticks|apply saga_world_ids|by right; left|by left].
Defined.

Lemma attempts_bounded_witness :
  Forall (fun row => 0 <= sr_step_attempts row < 2) (saga_runs (w_db saga_world_2)).
Proof.
  apply Forall_forall, (attempts_bounded 2 saga_world saga_world_2);
    [by apply saga_ticks|vm_compute; discriminate|apply saga_world_ids|].
  intros row [->|[->|Hr]%elem_of_cons]%elem_of_cons; [simpl; lia|simpl; lia|by apply elem_of_nil in Hr].
Defined.

Lemma ticks_books_ok_witness : books_ok (w_db saga_world_2).
Proof.
  apply (ticks_books_ok saga_world saga_world_2); [by apply saga_ticks|].
  apply (books_same_ledger seeded_db); [done|apply seeded_books_ok].
Defined.

Lemma retries_terminate_witness :
  exists row', row' ∈ saga_runs (w_db saga_world_3) /\ sr_id row' = 1%N /\ sr_state row' = SFailed.
Proof.
  apply (retries_terminate example_runner 1%N 2 saga_world_1 saga_world_3 saga_row_2);
    [apply example_registry_ok| |reflexivity|apply (bool_decide_unpack _); vm_compute; reflexivity
    |by left|reflexivity|vm_compute; split; [discriminate|reflexivity]|vm_compute; discriminate|reflexivity].
  eapply (failing_S _ _ 1 saga_world_1 (10 * second));
    [vm_compute; reflexivity|reflexivity|reflexivity|reflexivity|exact saga_tick_2|].
  eapply (failing_S _ _ 0 saga_world_2 (20 * second));
    [vm_compute; reflexivity|reflexivity|reflexivity|reflexivity|exact saga_tick_3|].
  apply failing_0.
Defined.
End saga_examples.
