(* ===== verification/SagaSteps.v ===== *)
(** * The settlement steps ([internal/saga/steps])

    credit_deposit, trigger_payout, apply_payout_result and emit_completed, with
    every statement they send, and the proof that each meets the runner's
    contract. *)

From S2P Require Import Prelude GoStr MockBank Models World GoJson Queries Ledger Backoff Payout Outbox Saga.

(** ** steps.go, deps.go *)

Definition StepCreditDeposit := "credit_deposit".
Definition StepTriggerPayout := "trigger_payout".
Definition StepApplyPayoutResult := "apply_payout_result".
Definition StepEmitCompleted := "emit_completed".
Definition FirstStep := StepCreditDeposit.

(** The ledger and the logger have no state of their own. *)
Record Deps := mkDeps { PayoutRails : Router }.

Section steps.
Context `{Env}.

(** [q.Get...] where a missing row is an error of its own. *)
Definition not_found_or (missing : err) (msg : string) (e : err) : err :=
  if errors_is ErrNoRows e then missing else ErrWrap msg e.

(** [return saga.StepResult{}, saga.Terminal(fmt.Errorf("msg: %w", err))]. *)
Definition terminal_wrap (msg : string) (e : err) : err := Terminal (ErrWrap msg e).

(** ** credit_deposit.go *)

Definition deposit_credit_entry (intentID : uuid) (sig : string) (amount : Z)
    (hotWallet userFunds : Account) : Entry :=
  mkEntry ("credit_deposit:" +:+ uuid_string intentID) "deposit_credit"
    ("USDC deposit finalized for intent " +:+ uuid_string intentID +:+ " (sig " +:+ sig +:+ ")")
    (Some intentID)
    [ mkLine (acc_id hotWallet) amount CurrencyUSDC Debit;
      mkLine (acc_id userFunds) amount CurrencyUSDC Credit ].

Definition CreditDeposit_Execute (run : Run) : M StepResult :=
  let intentID := run_IntentID run in
  intent ← map_err
    (not_found_or (Terminal (ErrMsg ("credit_deposit: intent " +:+ uuid_string intentID +:+ " not found")))
       "credit_deposit: load intent")
    (GetPaymentIntentByID intentID);
  deposit ← map_err
    (not_found_or (ErrMsg ("credit_deposit: no finalized deposit for intent " +:+ uuid_string intentID))
       "credit_deposit: load deposit")
    (GetFinalizedDepositForIntent intentID);
  hotWallet ← map_err (terminal_wrap "credit_deposit: hot wallet account")
    (GetAccountByCodeTx AccountHotWalletUSDC CurrencyUSDC);
  userFunds ← map_err (terminal_wrap "credit_deposit: liability account")
    (GetAccountByCodeTx AccountLiabilityUserFunds CurrencyUSDC);
  _ ← map_err (ErrWrap "credit_deposit: post journal")
    (PostTx (deposit_credit_entry intentID (op_signature deposit) (op_amount deposit) hotWallet userFunds));
  if bool_decide (pi_state intent = IPending) then
    _ ← map_err (ErrWrap "credit_deposit: advance intent state")
      (UpdatePaymentIntentState intentID IFunded);
    mret (mkStepResult StepTriggerPayout)
  else mret (mkStepResult StepTriggerPayout).

(** ** trigger_payout.go *)

Definition recipientFromMerchant (m : Merchant) : res Recipient :=
  let missing what := Err (ErrMsg ("merchant " +:+ uuid_string (m_id m) +:+ " missing " +:+ what)) in
  match m_bank_code m with
  | None | Some "" => missing "bank_code"
  | Some code =>
    match m_bank_account_number m with
    | None | Some "" => missing "bank_account_number"
    | Some number =>
      match m_bank_account_name m with
      | None | Some "" => missing "bank_account_name"
      | Some name => Ok (mkRecipient code number name)
      end
    end
  end.

Definition nullableString (s : string) : option string :=
  if String.eqb s "" then None else Some s.

Definition deref (s : option string) : string := default "" s.

Definition advanceIntentToSettling (intent : PaymentIntent) : M StepResult :=
  if bool_decide (pi_state intent = IFunded) then
    _ ← map_err (ErrWrap "trigger_payout: advance state")
      (UpdatePaymentIntentState (pi_id intent) ISettling);
    mret (mkStepResult StepApplyPayoutResult)
  else mret (mkStepResult StepApplyPayoutResult).

(** The switch on the rail's outcome. *)
Definition settle_outcome (run : Run) (intent : PaymentIntent) (po : Payout) (result : SubmitResult)
    : M StepResult :=
  match sres_outcome result with
  | OutcomeSuccess =>
    _ ← map_err (ErrWrap "trigger_payout: mark succeeded")
      (MarkPayoutSucceeded (po_id po) (nullableString (sres_rail_reference result)));
    advanceIntentToSettling intent
  | OutcomeRetry =>
    let errMsg := "rail retry: " +:+ sres_message result in
    _ ← map_err (ErrWrap "trigger_payout: reset pending")
      (ResetPayoutToPending (po_id po) (nullableString errMsg));
    throw (ErrMsg errMsg)
  | OutcomePermanent =>
    let errMsg := if String.eqb (sres_message result) "" then "rail permanently rejected payout"
                  else sres_message result in
    _ ← map_err (ErrWrap "trigger_payout: mark failed")
      (MarkPayoutFailed (po_id po) (nullableString errMsg));
    _ ← map_err (ErrWrap "trigger_payout: fail intent")
      (UpdatePaymentIntentState (run_IntentID run) IFailed);
    throw (Terminal (ErrMsg errMsg))
  | OutcomeOther _ as o =>
    throw (Terminal (ErrMsg ("trigger_payout: unknown outcome " +:+ Outcome_String o)))
  end.

Definition payout_request (run : Run) (intent : PaymentIntent) (po : Payout) (recipient : Recipient)
    : SubmitRequest :=
  mkSubmitRequest' (po_id po) (run_IntentID run) (po_amount_idr po) recipient
    ("selatpay/" +:+ pi_external_ref intent) (uuid_string (po_id po)).

(** From the payout row on. *)
Definition submit_payout (deps : Deps) (run : Run) (intent : PaymentIntent) (recipient : Recipient)
    (po : Payout) : M StepResult :=
  match po_state po with
  | PoSucceeded => advanceIntentToSettling intent
  | PoFailed =>
    throw (Terminal (ErrMsg ("trigger_payout: payout already failed: " +:+ deref (po_last_error po))))
  | _ =>
    rail ← map_err (terminal_wrap "trigger_payout") (lift_res (Router_Get (PayoutRails deps) (po_rail po)));
    _ ← map_err (ErrWrap "trigger_payout: mark submitting") (MarkPayoutSubmitting (po_id po));
    result ← map_err (ErrWrap "trigger_payout: rail submit")
      (rail_Submit rail (payout_request run intent po recipient));
    settle_outcome run intent po result
  end.

Definition TriggerPayout_Execute (deps : Deps) (run : Run) : M StepResult :=
  let intentID := run_IntentID run in
  intent ← map_err
    (not_found_or (Terminal (ErrMsg ("trigger_payout: intent " +:+ uuid_string intentID +:+ " not found")))
       "trigger_payout: load intent")
    (GetPaymentIntentByID intentID);
  merchant ← map_err (ErrWrap "trigger_payout: load merchant") (GetMerchantByID (pi_merchant_id intent));
  recipient ← map_err (terminal_wrap "trigger_payout") (lift_res (recipientFromMerchant merchant));
  po ← map_err (ErrWrap "trigger_payout: upsert payout")
    (UpsertPayout intentID MockIDRBankName (pi_amount_idr intent));
  submit_payout deps run intent recipient po.

(** ** apply_payout_result.go *)

(** [big.Int] arithmetic; [Quo] truncates towards zero, [Exp] to a non-positive
    exponent is one. *)
Definition computeMidIDR (quotedAmountUSDC rateNum rateScale : Z) : Z :=
  let out := Z.quot (quotedAmountUSDC * rateNum) (10 ^ Z.max 0 (6 + rateScale)) in
  if is_int64 out then out else 0.

Definition fx_swap_entry (intentID : uuid) (amountUSDC : Z) (po : Payout)
    (userFunds settlement : Account) : Entry :=
  mkEntry ("fx_swap_usdc:" +:+ uuid_string intentID) "fx_swap_usdc"
    ("USDC obligation released for intent " +:+ uuid_string intentID +:+
     " (payout " +:+ uuid_string (po_id po) +:+ ")")
    (Some intentID)
    [ mkLine (acc_id userFunds) amountUSDC CurrencyUSDC Debit;
      mkLine (acc_id settlement) amountUSDC CurrencyUSDC Credit ].

Definition postFXSwapUSDC (intentID : uuid) (amountUSDC : Z) (po : Payout) : M unit :=
  settlement ← map_err (terminal_wrap "apply_payout_result: equity_fx_settlement account")
    (GetAccountByCodeTx AccountEquityFXSettlement CurrencyUSDC);
  userFunds ← map_err (terminal_wrap "apply_payout_result: user funds account")
    (GetAccountByCodeTx AccountLiabilityUserFunds CurrencyUSDC);
  _ ← map_err (ErrWrap "apply_payout_result: post fx_swap_usdc")
    (PostTx (fx_swap_entry intentID amountUSDC po userFunds settlement));
  mret tt.

Definition payout_disbursed_entry (intentID : uuid) (midIDR paidIDR spreadIDR : Z) (po : Payout)
    (expense cashOut revenue : Account) : Entry :=
  mkEntry ("payout_disbursed:" +:+ uuid_string intentID) "payout_disbursed"
    ("IDR payout " +:+ uuid_string (po_id po) +:+ " for intent " +:+ uuid_string intentID +:+
     " (mid=" +:+ FormatInt midIDR +:+ " paid=" +:+ FormatInt paidIDR +:+
     " spread=" +:+ FormatInt spreadIDR +:+ ")")
    (Some intentID)
    ([ mkLine (acc_id expense) midIDR CurrencyIDR Debit;
       mkLine (acc_id cashOut) paidIDR CurrencyIDR Credit ] ++
     if 0 <? spreadIDR then [ mkLine (acc_id revenue) spreadIDR CurrencyIDR Credit ] else []).

Definition postPayoutDisbursedIDR (intentID : uuid) (midIDR paidIDR spreadIDR : Z) (po : Payout) : M unit :=
  expense ← map_err (terminal_wrap "apply_payout_result: expense_fx_swap account")
    (GetAccountByCodeTx "expense_fx_swap_idr" CurrencyIDR);
  cashOut ← map_err (terminal_wrap "apply_payout_result: cash_out account")
    (GetAccountByCodeTx AccountCashOutIDR CurrencyIDR);
  revenue ← map_err (terminal_wrap "apply_payout_result: revenue account")
    (GetAccountByCodeTx AccountRevenueFXSpreadIDR CurrencyIDR);
  _ ← map_err (ErrWrap "apply_payout_result: post payout_disbursed")
    (PostTx (payout_disbursed_entry intentID midIDR paidIDR spreadIDR po expense cashOut revenue));
  mret tt.

Definition ApplyPayoutResult_Execute (run : Run) : M StepResult :=
  let intentID := run_IntentID run in
  intent ← map_err (ErrWrap "apply_payout_result: load intent") (GetPaymentIntentByID intentID);
  po ← map_err
    (not_found_or (Terminal (ErrMsg ("apply_payout_result: payout missing for intent " +:+ uuid_string intentID)))
       "apply_payout_result: load payout")
    (GetPayoutByIntent intentID);
  if negb (bool_decide (po_state po = PoSucceeded)) then
    throw (Terminal (ErrMsg ("apply_payout_result: payout state " +:+ PayoutState_string (po_state po))))
  else
    quote ← map_err (ErrWrap "apply_payout_result: load quote") (GetQuote (pi_quote_id intent));
    let midIDR := computeMidIDR (pi_quoted_amount_usdc intent) (q_rate_num quote) (q_rate_scale quote) in
    let spreadIDR := wrap64 (midIDR - po_amount_idr po) in
    if spreadIDR <? 0 then
      throw (Terminal (ErrMsg ("apply_payout_result: negative spread (mid=" +:+ FormatInt midIDR +:+
                               " paid=" +:+ FormatInt (po_amount_idr po) +:+ ")")))
    else
      _ ← postFXSwapUSDC intentID (pi_quoted_amount_usdc intent) po;
      _ ← postPayoutDisbursedIDR intentID midIDR (po_amount_idr po) spreadIDR po;
      if bool_decide (pi_state intent = ISettling) then
        _ ← map_err (ErrWrap "apply_payout_result: advance state")
          (UpdatePaymentIntentState intentID IPaidOut);
        mret (mkStepResult StepEmitCompleted)
      else mret (mkStepResult StepEmitCompleted).

(** ** emit_completed.go *)

(** [json.Marshal] of a [CompletedEvent]. *)
Definition completed_event (updated : PaymentIntent) : json :=
  JObj [ ("schema", JStr "selatpay.intent.completed.v1");
         ("intent_id", JStr (uuid_string (pi_id updated)));
         ("merchant_id", JStr (uuid_string (pi_merchant_id updated)));
         ("external_ref", JStr (pi_external_ref updated));
         ("state", JStr (PaymentIntentState_string (pi_state updated)));
         ("amount_idr", JNum (pi_amount_idr updated));
         ("quoted_amount_usdc", JNum (pi_quoted_amount_usdc updated));
         ("occurred_at", JStr (format_rfc3339_ms (pi_updated_at updated))) ].

Definition completed_headers (updated : PaymentIntent) : gmap string string :=
  <["X-Selatpay-Topic" := "intent.completed"]>
  (<["X-Selatpay-Idempotency-Key" := "intent.completed:" +:+ uuid_string (pi_id updated)]>
  (<["X-Selatpay-Merchant" := uuid_string (pi_merchant_id updated)]> ∅)).

Definition EmitCompleted_Execute (run : Run) : M StepResult :=
  let intentID := run_IntentID run in
  intent ← map_err (ErrWrap "emit_completed: load intent") (GetPaymentIntentByID intentID);
  updated ←
    (if bool_decide (pi_state intent = IPaidOut) then
       map_err (ErrWrap "emit_completed: advance state") (UpdatePaymentIntentState intentID ICompleted)
     else mret intent);
  _ ← map_err (ErrWrap "emit_completed: publish outbox")
    (Publish "intent.completed" (Some (pi_id updated)) (Some (completed_event updated))
       (completed_headers updated));
  mret (mkStepResult "").

Definition NewCreditDeposit (deps : Deps) : Step := mkStep StepCreditDeposit CreditDeposit_Execute.
Definition NewTriggerPayout (deps : Deps) : Step := mkStep StepTriggerPayout (TriggerPayout_Execute deps).
Definition NewApplyPayoutResult (deps : Deps) : Step := mkStep StepApplyPayoutResult ApplyPayoutResult_Execute.
Definition NewEmitCompleted (deps : Deps) : Step := mkStep StepEmitCompleted EmitCompleted_Execute.

Definition All (deps : Deps) : list Step :=
  [ NewCreditDeposit deps; NewTriggerPayout deps; NewApplyPayoutResult deps; NewEmitCompleted deps ].
End steps.

(** ** The steps meet the runner's contract *)

Definition rails_ok (deps : Deps) : Prop :=
  forall name rail, Router_Get (PayoutRails deps) name = Ok rail -> RailOk rail.

Section step_frames.
Context `{Env} (R : DB -> DB -> Prop) `{!PreOrder R}
  `{!Frames R set_payment_intents} `{!Frames R set_payouts} `{!Frames R set_outbox}.

Lemma keeps_GetAccountByCodeTx code cur : keeps R (GetAccountByCodeTx code cur).
Proof. unfold GetAccountByCodeTx. keeps_auto. Qed.
#[local] Hint Resolve keeps_GetAccountByCodeTx : keeps.

Context (Hpost : forall e, keeps R (PostTx e)).
#[local] Hint Resolve Hpost : keeps.

Lemma keeps_CreditDeposit run : keeps R (CreditDeposit_Execute run).
Proof. unfold CreditDeposit_Execute. keeps_auto. Qed.

Lemma keeps_ApplyPayoutResult run : keeps R (ApplyPayoutResult_Execute run).
Proof. unfold ApplyPayoutResult_Execute, postFXSwapUSDC, postPayoutDisbursedIDR. keeps_auto. Qed.

Lemma keeps_EmitCompleted run : keeps R (EmitCompleted_Execute run).
Proof. unfold EmitCompleted_Execute, Publish. keeps_auto. Qed.

Lemma keeps_settle_outcome run intent po result : keeps R (settle_outcome run intent po result).
Proof. unfold settle_outcome, advanceIntentToSettling. keeps_auto. Qed.
#[local] Hint Resolve keeps_settle_outcome : keeps.

Lemma keeps_submit_payout deps run intent recipient po :
  rails_ok deps -> keeps R (submit_payout deps run intent recipient po).
Proof.
  intros Hr. unfold submit_payout, advanceIntentToSettling. destruct (po_state po); [| |keeps_auto..].
  all: apply keeps_bind_res; [apply _|]; intros rail Hg;
    pose proof (fun req => keeps_eq R (rail_Submit rail req) (rail_db (RailOk := Hr _ _ Hg) req)); keeps_auto.
Qed.

Lemma keeps_TriggerPayout deps run : rails_ok deps -> keeps R (TriggerPayout_Execute deps run).
Proof.
  intros Hr. unfold TriggerPayout_Execute. pose proof (keeps_submit_payout deps). keeps_auto.
Qed.
End step_frames.

Section step_world.
Context `{Env} (R : World -> World -> Prop) `{!WorldRel R}.

Lemma wkeeps_PostTx e : wkeeps R (PostTx e).
Proof.
  assert (forall id ls, wkeeps R (insert_lines id ls)) as Hl
    by (intros id ls; induction ls as [|l ls IH]; simpl; wkeeps_auto).
  unfold PostTx, postWith. wkeeps_auto.
Qed.

Lemma wkeeps_GetAccountByCodeTx code cur : wkeeps R (GetAccountByCodeTx code cur).
Proof. unfold GetAccountByCodeTx. wkeeps_auto. Qed.
#[local] Hint Resolve wkeeps_PostTx wkeeps_GetAccountByCodeTx : wkeeps.

Lemma wkeeps_CreditDeposit run : wkeeps R (CreditDeposit_Execute run).
Proof. unfold CreditDeposit_Execute. wkeeps_auto. Qed.

Lemma wkeeps_ApplyPayoutResult run : wkeeps R (ApplyPayoutResult_Execute run).
Proof. unfold ApplyPayoutResult_Execute, postFXSwapUSDC, postPayoutDisbursedIDR. wkeeps_auto. Qed.

Lemma wkeeps_EmitCompleted run : wkeeps R (EmitCompleted_Execute run).
Proof. unfold EmitCompleted_Execute, Publish. wkeeps_auto. Qed.

Lemma wkeeps_settle_outcome run intent po result : wkeeps R (settle_outcome run intent po result).
Proof. unfold settle_outcome, advanceIntentToSettling. wkeeps_auto. Qed.
#[local] Hint Resolve wkeeps_settle_outcome : wkeeps.

Lemma wkeeps_TriggerPayout deps run :
  (forall name rail req, Router_Get (PayoutRails deps) name = Ok rail -> wkeeps R (rail_Submit rail req)) ->
  wkeeps R (TriggerPayout_Execute deps run).
Proof.
  intros Hr. assert (forall intent recipient po, wkeeps R (submit_payout deps run intent recipient po)).
  { intros intent recipient po. unfold submit_payout, advanceIntentToSettling.
    destruct (po_state po); [| |wkeeps_auto..].
    all: apply wkeeps_bind_res; [apply _|]; intros rail Hg; pose proof (fun req => Hr _ rail req Hg); wkeeps_auto. }
  unfold TriggerPayout_Execute. wkeeps_auto.
Qed.
End step_world.

Lemma quiet_TriggerPayout `{Env} deps run : rails_ok deps -> quiet (TriggerPayout_Execute deps run).
Proof.
  intros Hr. apply wkeeps_TriggerPayout; [apply _|]. intros name rail req Hg w.
  destruct (rail_world (RailOk := Hr _ _ Hg) req w) as (? & Hf & _). split; [done|congruence].
Qed.

Lemma keeps_runs_PostTx `{Env} e : keeps same_runs (PostTx e).
Proof.
  assert (forall id ls, keeps same_runs (insert_lines id ls)) as Hl
    by (intros id ls; induction ls as [|l ls IH]; simpl; keeps_auto).
  unfold PostTx, postWith. keeps_auto.
Qed.

#[global] Instance CreditDeposit_ok `{Env} deps : StepOk (NewCreditDeposit deps).
Proof.
  split; simpl; intros run; [apply keeps_CreditDeposit; try apply _|apply keeps_CreditDeposit; try apply _|].
  - intros e. apply keeps_runs_PostTx.
  - intros e. apply keeps_ext_PostTx.
  - apply wkeeps_CreditDeposit, _.
Qed.

#[global] Instance ApplyPayoutResult_ok `{Env} deps : StepOk (NewApplyPayoutResult deps).
Proof.
  split; simpl; intros run; [apply keeps_ApplyPayoutResult; try apply _|apply keeps_ApplyPayoutResult; try apply _|].
  - intros e. apply keeps_runs_PostTx.
  - intros e. apply keeps_ext_PostTx.
  - apply wkeeps_ApplyPayoutResult, _.
Qed.

#[global] Instance EmitCompleted_ok `{Env} deps : StepOk (NewEmitCompleted deps).
Proof.
  split; simpl; intros run; [apply keeps_EmitCompleted; apply _|apply keeps_EmitCompleted; apply _|].
  apply wkeeps_EmitCompleted, _.
Qed.

Lemma TriggerPayout_ok `{Env} deps : rails_ok deps -> StepOk (NewTriggerPayout deps).
Proof.
  intros Hr. split; simpl; intros run; [by apply keeps_TriggerPayout; try apply _..|].
  by apply quiet_TriggerPayout.
Qed.

(** The registry the orchestrator boots with. *)
Definition settlement_registry `{Env} (deps : Deps) : Registry := NewRegistry (All deps).

Lemma settlement_steps `{Env} deps name s :
  Registry_Get (settlement_registry deps) name = Some s ->
  (name = StepCreditDeposit /\ s = NewCreditDeposit deps) \/
  (name = StepTriggerPayout /\ s = NewTriggerPayout deps) \/
  (name = StepApplyPayoutResult /\ s = NewApplyPayoutResult deps) \/
  (name = StepEmitCompleted /\ s = NewEmitCompleted deps).
Proof.
  unfold settlement_registry, NewRegistry, Registry_Get, All. simpl.
  intros [[<- <-]|[? [[<- <-]|[? [[<- <-]|[? [[<- <-]|[? Hl]]%lookup_insert_Some]]%lookup_insert_Some]]%lookup_insert_Some]]%lookup_insert_Some;
    auto 10. by rewrite lookup_empty in Hl.
Qed.

Lemma settlement_registry_ok `{Env} deps : rails_ok deps -> registry_ok (settlement_registry deps).
Proof.
  intros Hr name s [[_ ->]|[[_ ->]|[[_ ->]|[_ ->]]]]%settlement_steps; try apply _. by apply TriggerPayout_ok.
Qed.

(** The router the orchestrator boots with. *)
Definition settlement_deps `{Env} (bank : MockIDRBank) : Deps :=
  mkDeps (NewRouter [mock_idr_bank_rail bank]).

Lemma settlement_rails_ok `{Env} bank : rails_ok (settlement_deps bank).
Proof.
  intros name rail. unfold Router_Get. simpl. destruct (_ !! name) as [r|] eqn:E; [|done]. intros [= <-].
  apply lookup_insert_Some in E as [[_ <-]|[_ E]]; [apply _|by rewrite lookup_empty in E].
Qed.
