(* ===== verification/Settlement.v ===== *)
(** * The settlement saga as a whole

    What the runner, the four steps, the ledger and the bank guarantee together:
    a payout the database calls succeeded was paid by the bank, a rejected or
    unanswered submission leaves no trace in the database, and the path of an
    intent from its deposit to completion. *)

From S2P Require Import Prelude GoStr MockBank Models World GoJson Queries Ledger Backoff Payout Outbox Saga SagaSteps.

(** ** Payouts the bank has made *)

Section backed.
Context `{Env}.

(** The keys the bank has paid. *)
Definition paid_keys (s : server) : list string := (disbursed s).*1.

(** Every payout of [d] that is recorded as succeeded is among the keys. *)
Definition backed (ks : list string) (d : DB) : Prop :=
  forall p, p ∈ payouts d -> po_state p = PoSucceeded -> uuid_string (po_id p) ∈ ks.

Definition keeps_backed (ks : list string) (d d' : DB) : Prop := backed ks d -> backed ks d'.

#[global] Instance keeps_backed_preorder ks : PreOrder (keeps_backed ks).
Proof. split; [by intros d Hb|]. intros d1 d2 d3 H1 H2 Hb. auto. Qed.

Lemma keeps_backed_frame {T} ks (set : DB -> list T -> DB) :
  (forall d t, payouts (set d t) = payouts d) -> Frames (keeps_backed ks) set.
Proof. intros Hs d t Hb p. rewrite Hs. apply Hb. Qed.

#[global] Instance keeps_backed_intents ks : Frames (keeps_backed ks) set_payment_intents.
Proof. by apply keeps_backed_frame. Qed.
#[global] Instance keeps_backed_outbox ks : Frames (keeps_backed ks) set_outbox.
Proof. by apply keeps_backed_frame. Qed.
#[global] Instance keeps_backed_entries ks : Frames (keeps_backed ks) set_journal_entries.
Proof. by apply keeps_backed_frame. Qed.
#[global] Instance keeps_backed_postings ks : Frames (keeps_backed ks) set_postings.
Proof. by apply keeps_backed_frame. Qed.
#[global] Instance keeps_backed_runs ks : Frames (keeps_backed ks) set_saga_runs.
Proof. by apply keeps_backed_frame. Qed.

Lemma backed_update ks d P f :
  (forall p, P p = true -> po_state (f p) = PoSucceeded -> uuid_string (po_id (f p)) ∈ ks) ->
  keeps_backed ks d (set_payouts d (update_where P f (payouts d))).
Proof.
  intros Hf Hb p Hp Hst. apply list_elem_of_fmap in Hp as (q & -> & Hq).
  destruct (P q) eqn:HP; [by apply Hf|by apply Hb].
Qed.

Lemma keeps_backed_UpsertPayout ks i r a : keeps (keeps_backed ks) (UpsertPayout i r a).
Proof.
  apply keeps_stmt; [apply _|]. intros now rng d. simpl. repeat case_match; simpl; try reflexivity.
  intros Hb q [Hp| ->%list_elem_of_singleton]%elem_of_app; [by apply Hb|done].
Qed.

Lemma keeps_backed_MarkPayoutSubmitting ks id : keeps (keeps_backed ks) (MarkPayoutSubmitting id).
Proof.
  apply keeps_stmt; [apply _|]. intros now rng d. simpl. repeat case_match; simpl; try reflexivity.
  by apply backed_update.
Qed.

Lemma keeps_backed_ResetPayoutToPending ks id e : keeps (keeps_backed ks) (ResetPayoutToPending id e).
Proof. apply keeps_stmt; [apply _|]. intros now rng d. by apply backed_update. Qed.

Lemma keeps_backed_MarkPayoutFailed ks id e : keeps (keeps_backed ks) (MarkPayoutFailed id e).
Proof. apply keeps_stmt; [apply _|]. intros now rng d. by apply backed_update. Qed.

Lemma keeps_backed_MarkPayoutSucceeded ks id ref :
  uuid_string id ∈ ks -> keeps (keeps_backed ks) (MarkPayoutSucceeded id ref).
Proof.
  intros Hid. apply keeps_stmt; [apply _|]. intros now rng d. apply backed_update.
  intros p Hp%N.eqb_eq _. simpl. by rewrite Hp.
Qed.
#[local] Hint Resolve keeps_backed_UpsertPayout keeps_backed_MarkPayoutSubmitting
  keeps_backed_ResetPayoutToPending keeps_backed_MarkPayoutFailed keeps_backed_MarkPayoutSucceeded : keeps.

Lemma keeps_backed_PostTx ks e : keeps (keeps_backed ks) (PostTx e).
Proof.
  assert (forall id ls, keeps (keeps_backed ks) (insert_lines id ls)) as Hl
    by (intros id ls; induction ls as [|l ls IH]; simpl; keeps_auto).
  unfold PostTx, postWith. keeps_auto.
Qed.

(** ** The invariant of database and bank together *)

Record backed_world (w : World) : Prop := {
  bw_bank : bank_inv (w_bank w);
  bw_net : honest_net w;
  bw_backed : backed (paid_keys (w_bank w)) (w_db w)
}.

(** The bank's books only grow. *)
Definition bank_grows (w w' : World) : Prop :=
  paid_keys (w_bank w) `prefix_of` paid_keys (w_bank w') /\
  (bank_inv (w_bank w) -> bank_inv (w_bank w')) /\ (honest_net w -> honest_net w').

#[local] Instance bank_grows_world : WorldRel bank_grows.
Proof.
  split; try by (intros; split_and!).
  - split; [by intros w; split_and!|]. intros w1 w2 w3 (?&?&?) (?&?&?). split_and!; [by etransitivity|auto..].
  - intros w. unfold pop_fault. case_match; by split_and!.
Qed.

Lemma offline_grows {A} (m : M A) : offline m -> wkeeps bank_grows m.
Proof.
  intros Hm w. destruct (Hm w) as [Hb Hn]. unfold bank_grows, honest_net. rewrite Hb, Hn. by split_and!.
Qed.

(** A computation that preserves the invariant, with the bank growing. *)
Definition safe {A} (m : M A) : Prop :=
  forall w, backed_world w -> backed_world (m w).2 /\ bank_grows w (m w).2.

Lemma backed_mono ks ks' d : ks `prefix_of` ks' -> backed ks d -> backed ks' d.
Proof. intros Hp Hb p Hin Hst. eapply elem_of_prefix; [|exact Hp]. by apply Hb. Qed.

(** Replacing the database by an earlier one. *)
Lemma backed_world_db w w' d :
  backed_world w -> bank_grows w w' -> backed (paid_keys (w_bank w)) d -> backed_world (set_db w' d).
Proof.
  intros [Hb Hn _] (Hp & Hi & Hh) Hd. split; simpl; [auto|by apply Hh|by eapply backed_mono].
Qed.

(** Code that does not talk to the bank. *)
Lemma safe_offline {A} (m : M A) :
  offline m -> (forall ks, keeps (keeps_backed ks) m) -> safe m.
Proof.
  intros Ho Hk w Hw. split; [|by apply offline_grows]. destruct Hw as [Hb Hn Hd], (Ho w) as [Eb En].
  split; [by rewrite Eb|unfold honest_net; by rewrite En|]. rewrite Eb. by apply Hk.
Qed.

Lemma safe_bind {A B} (m : M A) (k : A -> M B) : safe m -> (forall a, safe (k a)) -> safe (m ≫= k).
Proof.
  intros Hm Hk w Hw. unfold mbind, M_bind. specialize (Hm w Hw). destruct (m w) as [[a|e] w']; simpl in *; [|done].
  destruct Hm as [Hw' Hg]. destruct (Hk a w' Hw') as [? ?]. split; [done|by etransitivity].
Qed.

Lemma safe_try {A} (m : M A) : safe m -> safe (try m).
Proof. intros Hm w Hw. unfold try. specialize (Hm w Hw). by destruct (m w). Qed.

Lemma safe_map_err {A} f (m : M A) : safe m -> safe (map_err f m).
Proof. intros Hm w Hw. unfold map_err. specialize (Hm w Hw). by destruct (m w) as [[] ?]. Qed.

Lemma safe_pop w : backed_world w -> backed_world (pop_fault w).2.
Proof. intros [Hb Hn Hd]. unfold pop_fault. case_match; by split. Qed.

Lemma set_db_eq w d : w_db w = d -> set_db w d = w.
Proof. intros <-. by destruct w. Qed.

(** A transaction: rolling back keeps the invariant because the bank's books
    only grow. *)
Lemma safe_with_tx {A} b c (m : M A) : safe m -> safe (with_tx b c m).
Proof.
  intros Hm w Hw. unfold with_tx. pose proof (safe_pop w Hw) as Hw0. pose proof (wr_pop (R := bank_grows) w) as Hg0.
  destruct (pop_fault w) as [flt w0]. simpl in *. destruct flt; [|by split..].
  destruct (Hm w0 Hw0) as [Hw1 Hg1]. destruct (m w0) as [[a|e] w1]; simpl in *.
  2:{ split; [apply (backed_world_db w0); [done..|by destruct Hw0]|].
      etransitivity; [exact Hg0|]. etransitivity; [exact Hg1|apply wr_db]. }
  pose proof (wkeeps_commit bank_grows (w_db w0) w1) as Hgc.
  destruct (commit_cases (w_db w0) w1) as [(w2 & E & Hd)|(e & w2 & E & Hd)]; rewrite E in Hgc |- *; simpl in *;
    (split; [|etransitivity; [exact Hg0|]; by etransitivity]).
  - rewrite <- (set_db_eq w2 (w_db w1) Hd).
    apply (backed_world_db w1); [done..|by destruct Hw1].
  - destruct Hd as [Hd|Hd].
    + rewrite <- (set_db_eq w2 (w_db w0) Hd).
      apply (backed_world_db w0); [done|by etransitivity|by destruct Hw0].
    + rewrite <- (set_db_eq w2 (w_db w1) Hd).
      apply (backed_world_db w1); [done..|by destruct Hw1].
Qed.

Lemma keeps_backed_settle ks run intent po result :
  (sres_outcome result = OutcomeSuccess -> uuid_string (po_id po) ∈ ks) ->
  keeps (keeps_backed ks) (settle_outcome run intent po result).
Proof.
  intros Hs. unfold settle_outcome, advanceIntentToSettling.
  destruct (sres_outcome result); [specialize (Hs eq_refl)|clear Hs..]; keeps_auto.
Qed.

(** Submitting to the bank and recording what it answered. *)
Lemma safe_submit rail run intent po recipient : RailOk rail ->
  safe (result ← map_err (ErrWrap "trigger_payout: rail submit")
          (rail_Submit rail (payout_request run intent po recipient));
        settle_outcome run intent po result).
Proof.
  intros Hr w Hw. set (req := payout_request run intent po recipient).
  assert (bank_grows w (rail_Submit rail req w).2) as Hg.
  { destruct (rail_disbursed req w) as (new & En & _). destruct (rail_world req w) as (_ & _ & _ & Hh).
    split_and!; [|apply rail_bank_inv|exact Hh]. unfold paid_keys. rewrite En, fmap_app. by eexists. }
  assert (backed_world (rail_Submit rail req w).2) as Hw1.
  { rewrite <- (set_db_eq _ (w_db w) (eq_sym (rail_db req w))).
    apply (backed_world_db w); [done..|by destruct Hw]. }
  unfold mbind, M_bind, map_err. destruct (rail_Submit rail req w) as [[result|e] w1] eqn:Es; simpl in *; [|done].
  assert (offline (settle_outcome run intent po result)) as Ho by apply wkeeps_settle_outcome, _.
  split; [|etransitivity; [exact Hg|by apply offline_grows]].
  destruct (Ho w1) as [Eb En]. destruct Hw1 as [Hb1 Hn1 Hd1].
  split; [by rewrite Eb|unfold honest_net; by rewrite En|]. rewrite Eb. apply keeps_backed_settle; [|done].
  intros Hs. destruct Hw as [Hb Hn _]. exact (rail_success req w result w1 Es Hs Hn Hb).
Qed.

Lemma safe_TriggerPayout deps run : rails_ok deps -> safe (TriggerPayout_Execute deps run).
Proof.
  intros Hr. unfold TriggerPayout_Execute.
  repeat (apply safe_bind; [apply safe_offline; [wkeeps_auto|intros ks; keeps_auto]|intros ?]).
  match goal with |- safe (submit_payout _ _ ?i _ ?p) => rename i into intent; rename p into po end.
  unfold submit_payout. destruct (po_state po).
  3-4: apply safe_offline; unfold advanceIntentToSettling; [wkeeps_auto|intros ks; keeps_auto].
  all: destruct (Router_Get _ _) as [rail|e] eqn:Hg;
    [|by apply safe_offline; unfold lift_res; [intros w; split|intros ks w; simpl; reflexivity]].
  all: change (safe (_ ← map_err (ErrWrap "trigger_payout: mark submitting") (MarkPayoutSubmitting (po_id po));
    result ← map_err (ErrWrap "trigger_payout: rail submit") (rail_Submit rail (payout_request run intent po a1));
    settle_outcome run intent po result)).
  all: apply safe_bind; [apply safe_offline; [wkeeps_auto|intros ks; keeps_auto]|intros _].
  all: by apply safe_submit, (Hr _ _ Hg).
Qed.

Lemma safe_step deps name st run :
  rails_ok deps -> Registry_Get (settlement_registry deps) name = Some st -> safe (Execute st run).
Proof.
  intros Hr [[_ ->]|[[_ ->]|[[_ ->]|[_ ->]]]]%settlement_steps; simpl.
  - apply safe_offline; [apply wkeeps_CreditDeposit, _|].
    intros ks. apply keeps_CreditDeposit; try apply _. apply keeps_backed_PostTx.
  - by apply safe_TriggerPayout.
  - apply safe_offline; [apply wkeeps_ApplyPayoutResult, _|].
    intros ks. apply keeps_ApplyPayoutResult; try apply _. apply keeps_backed_PostTx.
  - apply safe_offline; [apply wkeeps_EmitCompleted, _|]. intros ks. apply keeps_EmitCompleted; apply _.
Qed.

Lemma safe_op r deps m :
  rails_ok deps -> registry r = settlement_registry deps -> worker_op r m -> safe m.
Proof.
  intros Hr Hreg [|name st run Hg|id cause|run e].
  - apply safe_offline; unfold claim; [wkeeps_auto|intros ks; keeps_auto].
  - rewrite Hreg in Hg. apply safe_bind; [|intros; apply safe_offline; [wkeeps_auto|intros ks; keeps_auto]].
    apply safe_try, safe_with_tx, safe_bind; [by eapply safe_map_err, safe_step|].
    intros res. apply safe_offline; [wkeeps_auto|intros ks; keeps_auto].
  - apply safe_offline; unfold failRun; [wkeeps_auto|intros ks; keeps_auto].
  - apply safe_offline; unfold handleFailure, failRun, scheduleRetry, Delay; [wkeeps_auto|intros ks; keeps_auto].
Qed.

Lemma safe_Tick r deps w :
  rails_ok deps -> registry r = settlement_registry deps -> backed_world w -> backed_world (Tick r w).2.
Proof.
  intros Hr Hreg. generalize (tick_ops r w). generalize (Tick r w).2. intros w' Hs.
  induction Hs as [w|w w1 w2 (m & Hop & ->) _ IH]; [done|]. intros Hw. by apply IH, (safe_op r deps m).
Qed.

(** The database never claims a payment the bank did not make. Through any
    sequence of ticks of settlement workers, with any database faults and any lost
    requests or responses, every payout recorded as succeeded has a disbursement
    under its own id in the bank's log, and the bank has paid no id twice. *)
Theorem succeeded_payouts_paid w w' :
  ticks (fun r => exists deps, rails_ok deps /\ registry r = settlement_registry deps) w w' ->
  backed_world w -> backed_world w'.
Proof.
  induction 1 as [|w w1 w2 (r & t & x & (deps & Hr & Hreg) & _ & Hrun) _ IH]; [done|]. intros Hw. apply IH.
  assert (backed_world (set_now w t)) as Hwt by (destruct Hw; by split).
  pose proof (safe_Tick r deps (set_now w t) Hr Hreg Hwt) as Hw'. by rewrite Hrun in Hw'.
Qed.

(** ** A submission that does not succeed *)

Lemma settle_not_success run intent po result w :
  sres_outcome result <> OutcomeSuccess -> exists e w', settle_outcome run intent po result w = (Err e, w').
Proof.
  intros Hne. unfold settle_outcome. destruct (sres_outcome result); [done|..];
    unfold throw, mbind, M_bind, map_err; repeat case_match; simplify_eq; eauto.
Qed.

(** The next submission gets no answer, or one that is not a success: the request or
    its answer is lost, the answer cannot be read, or it has another status. *)
Definition not_answered (w : World) : Prop :=
  match w_net w with
  | NetRequestLost _ :: _ | NetResponseLost _ :: _ | NetReadFail _ :: _ => True
  | NetForeign status _ :: _ => status < 200 \/ 300 <= status
  | NetDeliver :: _ | [] => False
  end.

Lemma submit_not_success bank req w res w' :
  not_answered w -> Submit bank req w = (Ok res, w') -> sres_outcome res <> OutcomeSuccess.
Proof.
  unfold not_answered, Submit, next_event. destruct (request_error bank); [done|].
  destruct (w_net w) as [|[| | | |st b] net]; try done; intros Hw; try (destruct (bank_serve _ _)); intros [= <- _]; try done.
  intros ?%classify_success. lia.
Qed.

Lemma settlement_rail bank name rail :
  Router_Get (PayoutRails (settlement_deps bank)) name = Ok rail -> rail = mock_idr_bank_rail bank.
Proof.
  unfold Router_Get. simpl. destruct (_ !! name) as [r|] eqn:E; [|done]. intros [= <-].
  by apply lookup_insert_Some in E as [[_ <-]|[_ E]]; [|rewrite lookup_empty in E].
Qed.

Lemma offline_net {A} (m : M A) w r w' : m w = (r, w') -> offline m -> w_net w' = w_net w.
Proof. intros E Hm. destruct (Hm w) as [_ Hn]. by rewrite E in Hn. Qed.

Lemma trigger_not_success bank run w :
  not_answered w ->
  (forall p, p ∈ payouts (w_db w) -> po_intent_id p = run_IntentID run -> po_state p <> PoSucceeded) ->
  exists e w', TriggerPayout_Execute (settlement_deps bank) run w = (Err e, w').
Proof.
  intros Hna Hpo. destruct (TriggerPayout_Execute (settlement_deps bank) run w) as [[res|e] w'] eqn:E; [|eauto]. exfalso.
  unfold TriggerPayout_Execute in E. minv.
  match goal with H : GetPaymentIntentByID _ _ = _ |- _ =>
    pose proof (offline_net _ _ _ _ H ltac:(wkeeps_auto)) as Hn1; apply select_Ok in H as (_ & Hd1 & _) end.
  match goal with H : GetMerchantByID _ _ = _ |- _ =>
    pose proof (offline_net _ _ _ _ H ltac:(wkeeps_auto)) as Hn2; apply select_Ok in H as (_ & Hd2 & _) end.
  match goal with H : UpsertPayout _ _ _ _ = (Ok ?p, _) |- _ =>
    pose proof (offline_net _ _ _ _ H ltac:(wkeeps_auto)) as Hn3; apply stmt_Ok in H as (Hup & _); rename p into po end.
  assert (po_state po <> PoSucceeded) as Hst.
  { simpl in Hup. rewrite Hd2, Hd1 in Hup. repeat case_match; simplify_eq/=; [|done].
    match goal with H : find_row (payout_of_intent _) _ = Some _ |- _ => apply find_row_Some in H as [Hin Hi%N.eqb_eq] end.
    by apply Hpo. }
  match goal with H : submit_payout _ _ _ _ _ _ = _ |- _ => rename H into Hsub end.
  unfold submit_payout in Hsub. destruct (po_state po); try done; minv.
  all: match goal with H : MarkPayoutSubmitting _ _ = _ |- _ => pose proof (offline_net _ _ _ _ H ltac:(wkeeps_auto)) as Hn4 end.
  all: match goal with Hg : Router_Get _ _ = Ok _ |- _ => apply settlement_rail in Hg as -> end.
  all: match goal with H : rail_Submit _ _ _ = (Ok ?rs, _) |- _ => apply submit_not_success in H as Hne;
         [|unfold not_answered; by rewrite Hn4, Hn3, Hn2, Hn1] end.
  all: match goal with Hs : settle_outcome ?r ?i ?p ?rs ?w1 = _ |- _ =>
         destruct (settle_not_success r i p rs w1 Hne) as (? & ? & E2); by rewrite E2 in Hs end.
Qed.

(** C39: A payout that is not answered with success leaves no trace in the database.
    When the bank rejects the submission, or the request or its answer is lost (the
    bank may have paid), the tick writes the run alone, which stays at its step, to
    be retried or failed: the payout row the step inserted, its state, its attempts,
    its error and the failed intent are rolled back with the step's transaction. *)
Theorem failed_payout_untracked r bank w row :
  registry r = settlement_registry (settlement_deps bank) -> not_answered w ->
  w_faults w = [] -> NoDup (sr_id <$> saga_runs (w_db w)) -> pick w = Some row ->
  sr_current_step row = StepTriggerPayout -> 0 <= sr_step_attempts row < int32_max ->
  (forall p, p ∈ payouts (w_db w) -> po_intent_id p = sr_intent_id row -> po_state p <> PoSucceeded) ->
  exists row' w', Tick r w = (Ok true, w') /\
    w_db w' = set_saga_runs (w_db w) (put_run row' (saga_runs (w_db w))) /\
    sr_id row' = sr_id row /\ sr_current_step row' = StepTriggerPayout /\
    sr_state row' ∈ [SPending; SFailed].
Proof.
  intros Hreg Hna Hf Hnd Hp Hstep Hatt Hpo.
  assert (Registry_Get (registry r) (sr_current_step row) = Some (NewTriggerPayout (settlement_deps bank))) as Hget
    by (by rewrite Hreg, Hstep).
  destruct (trigger_not_success bank (toRun (leased r w row)) (set_db w (claimed_db r w row)) Hna Hpo)
    as (e & wx & Hex).
  assert (registry_ok (registry r)) as Hok by (rewrite Hreg; apply settlement_registry_ok, settlement_rails_ok).
  destruct (tick_step_fails r Hok w row _ e wx Hf Hnd Hp Hget Hex Hatt) as (delay & w' & Hrun & _ & _ & Hd & _).
  eexists _, w'. split; [done|]. split; [exact Hd|]. unfold failed_row. case_match; (split_and!; [done|exact Hstep|set_solver]).
Qed.
End backed.
