(* ===== verification/HappyPath.v ===== *)
(** * From deposit to completion

    What each settlement step does when the database and the bank answer, and
    the four ticks that take an intent with a finalized deposit to completion. *)

From S2P Require Import Prelude GoStr MockBank Models World GoJson Queries Ledger Backoff Payout Outbox Saga SagaSteps Settlement.

(** ** Entries the steps post *)

Section entries.
Context `{Env}.

Lemma account_line d code cur a amt dir :
  ledger_wf d -> find_row (account_by_code code cur) (accounts d) = Some a ->
  0 < amt -> is_blank cur = false -> dir = Debit \/ dir = Credit ->
  line_insertable d (mkLine (acc_id a) amt cur dir).
Proof.
  intros Hwf Ha Hamt Hb Hdir. split; [by split_and!|]. exists a.
  apply find_row_Some in Ha as [Hin Hc]. unfold account_by_code in Hc.
  apply andb_true_iff in Hc as [_ Hc%String.eqb_eq]. simpl. split; [|done].
  destruct (find_row (by_id acc_id (acc_id a)) (accounts d)) as [a'|] eqn:E.
  - apply find_row_Some in E as [Hin' E%N.eqb_eq]. f_equal.
    by apply (NoDup_fmap_elem acc_id (accounts d)); [destruct Hwf|..].
  - pose proof (find_row_None _ _ _ E Hin) as Hn. unfold by_id in Hn. by rewrite N.eqb_refl in Hn.
Qed.

(** An entry whose lines are insertable and sum to zero can be posted. *)
Lemma postable_of_lines d e :
  is_blank (ExternalRef e) = false -> is_blank (Kind e) = false -> Lines e <> [] ->
  Forall (line_insertable d) (Lines e) -> (forall c, line_sum c (Lines e) = 0) ->
  find_row (entry_by_ref (ExternalRef e)) (journal_entries d) = None -> postable d e.
Proof.
  intros Hr Hk Hne Hl Hz Hn. split; [|done..]. apply validate_iff. split_and!; try done.
  - eapply Forall_impl; [exact Hl|]. by intros l [? _].
  - intros c. by rewrite Hz.
Qed.

Lemma two_lines_ok a b amt cur :
  0 < amt -> is_blank cur = false ->
  Forall line_ok [mkLine a amt cur Debit; mkLine b amt cur Credit].
Proof. intros. repeat apply Forall_cons_2; [by split_and!; auto..|by apply Forall_nil_2]. Qed.

Lemma disbursed_lines_ok id mid paid po ex co re :
  0 < paid <= mid -> Forall line_ok (Lines (payout_disbursed_entry id mid paid (mid - paid) po ex co re)).
Proof.
  intros Hp. unfold payout_disbursed_entry. simpl Lines. destruct (0 <? mid - paid) eqn:?; bools;
    repeat apply Forall_cons_2; try (by apply Forall_nil_2); split_and!; simpl; auto; lia.
Qed.

Lemma line_sum_two c a b amt cur :
  line_sum c [mkLine a amt cur Debit; mkLine b amt cur Credit] = 0.
Proof. unfold line_sum, Zsum, line_diff. simpl. case_match; lia. Qed.

Lemma deposit_postable d id sig amt hw uf :
  ledger_wf d -> 0 < amt ->
  find_row (account_by_code AccountHotWalletUSDC CurrencyUSDC) (accounts d) = Some hw ->
  find_row (account_by_code AccountLiabilityUserFunds CurrencyUSDC) (accounts d) = Some uf ->
  find_row (entry_by_ref ("credit_deposit:" +:+ uuid_string id)) (journal_entries d) = None ->
  postable d (deposit_credit_entry id sig amt hw uf).
Proof.
  intros Hwf Hamt Hh Hu Hn. apply postable_of_lines; [reflexivity|reflexivity|done| |intros c; apply line_sum_two|done].
  repeat constructor; eapply account_line; eauto.
Qed.

Lemma fx_swap_postable d id amt po uf se :
  ledger_wf d -> 0 < amt ->
  find_row (account_by_code AccountLiabilityUserFunds CurrencyUSDC) (accounts d) = Some uf ->
  find_row (account_by_code AccountEquityFXSettlement CurrencyUSDC) (accounts d) = Some se ->
  find_row (entry_by_ref ("fx_swap_usdc:" +:+ uuid_string id)) (journal_entries d) = None ->
  postable d (fx_swap_entry id amt po uf se).
Proof.
  intros Hwf Hamt Hu Hs Hn. apply postable_of_lines; [reflexivity|reflexivity|done| |intros c; apply line_sum_two|done].
  repeat constructor; eapply account_line; eauto.
Qed.

Lemma disbursed_sum id mid paid po ex co re c :
  paid <= mid -> line_sum c (Lines (payout_disbursed_entry id mid paid (mid - paid) po ex co re)) = 0.
Proof.
  intros Hle. unfold payout_disbursed_entry. simpl Lines.
  destruct (0 <? mid - paid) eqn:?; bools; unfold line_sum, Zsum, line_diff; simpl; case_match; lia.
Qed.

Lemma disbursed_postable d id mid paid po ex co re :
  ledger_wf d -> 0 < paid <= mid ->
  find_row (account_by_code "expense_fx_swap_idr" CurrencyIDR) (accounts d) = Some ex ->
  find_row (account_by_code AccountCashOutIDR CurrencyIDR) (accounts d) = Some co ->
  find_row (account_by_code AccountRevenueFXSpreadIDR CurrencyIDR) (accounts d) = Some re ->
  find_row (entry_by_ref ("payout_disbursed:" +:+ uuid_string id)) (journal_entries d) = None ->
  postable d (payout_disbursed_entry id mid paid (mid - paid) po ex co re).
Proof.
  intros Hwf Hpaid He Hc Hr Hn. apply postable_of_lines; [reflexivity|reflexivity|done| | |done].
  - unfold payout_disbursed_entry. simpl Lines. destruct (0 <? mid - paid) eqn:?; bools;
      repeat constructor; eapply account_line; eauto; lia.
  - intros c. apply disbursed_sum. lia.
Qed.
End entries.

(** ** The steps, run *)

(** Setting the state of one intent. *)
Definition with_state (now : Z) (id : uuid) (st : PaymentIntentState) (d : DB) : DB :=
  set_payment_intents d (update_where (by_id pi_id id) (set_pi_state st now) (payment_intents d)).

Section runs.
Context `{Env} `{!EnvOk _}.

Lemma select_bind {A B} (f : DB -> res A) g (k : A -> M B) w a :
  w_faults w = [] -> f (w_db w) = Ok a -> (map_err g (select f) ≫= k) w = k a w.
Proof.
  intros Hf Ha. erewrite bind_run; [done|]. unfold map_err. by rewrite select_run, Ha by done.
Qed.

Lemma UpdatePaymentIntentState_run id st w i :
  w_faults w = [] -> find_row (by_id pi_id id) (payment_intents (w_db w)) = Some i ->
  UpdatePaymentIntentState id st w =
  (Ok (set_pi_state st (w_now w) i), set_db w (with_state (w_now w) id st (w_db w))).
Proof.
  intros Hf Hi. unfold UpdatePaymentIntentState, update_returning. rewrite stmt_run by done. simpl.
  rewrite Hi, N.add_0_r. by destruct w.
Qed.

Lemma account_bind code cur g {B} (k : Account -> M B) w a :
  w_faults w = [] -> find_row (account_by_code code cur) (accounts (w_db w)) = Some a ->
  (map_err g (GetAccountByCodeTx code cur) ≫= k) w = k a w.
Proof.
  intros Hf Ha. erewrite bind_run; [done|]. unfold map_err, GetAccountByCodeTx, map_err, GetAccountByCodeCurrency.
  rewrite select_run by done. by rewrite Ha.
Qed.

(** The deposit the step credits. *)
Definition deposit_of (intent : uuid) (d : DB) : option OnchainPayment :=
  head (order_by op_created_at
    (select_where (fun p => payment_of_intent intent p && bool_decide (op_commitment p = CFinalized))
       (onchain_payments d))).

Lemma CreditDeposit_run run w intent dep hw uf :
  let id := run_IntentID run in
  let e := deposit_credit_entry id (op_signature dep) (op_amount dep) hw uf in
  w_faults w = [] -> ledger_fresh (w_rng w) (w_db w) -> ledger_wf (w_db w) ->
  find_row (by_id pi_id id) (payment_intents (w_db w)) = Some intent -> pi_state intent = IPending ->
  deposit_of id (w_db w) = Some dep -> 0 < op_amount dep ->
  find_row (account_by_code AccountHotWalletUSDC CurrencyUSDC) (accounts (w_db w)) = Some hw ->
  find_row (account_by_code AccountLiabilityUserFunds CurrencyUSDC) (accounts (w_db w)) = Some uf ->
  find_row (entry_by_ref ("credit_deposit:" +:+ uuid_string id)) (journal_entries (w_db w)) = None ->
  CreditDeposit_Execute run w =
  (Ok (mkStepResult StepTriggerPayout),
   set_db (set_rng w (w_rng w + 3)%N)
     (with_state (w_now w) id IFunded (posted_db (w_now w) (w_rng w) e (w_db w)))).
Proof.
  intros id e Hf Hfr Hwf Hi Hst Hdep Hamt Hh Hu Hn. unfold CreditDeposit_Execute. fold id.
  unfold GetPaymentIntentByID. rewrite (select_bind _ _ _ _ intent) by (done || by rewrite Hi).
  unfold GetFinalizedDepositForIntent.
  rewrite (select_bind _ _ _ _ dep) by (done || by unfold deposit_of in Hdep; rewrite Hdep).
  rewrite (account_bind _ _ _ _ _ hw) by done. rewrite (account_bind _ _ _ _ _ uf) by done.
  erewrite bind_run; [|unfold map_err; rewrite PostTx_run; [done|done|by apply deposit_postable|done]].
  rewrite bool_decide_eq_true_2 by done. erewrite bind_run.
  2:{ unfold map_err. rewrite (UpdatePaymentIntentState_run _ _ _ intent); [done|done|done]. }
  unfold mret, M_ret. f_equal.
  replace (w_rng w + 1 + N.of_nat (length (Lines _)))%N with (w_rng w + 3)%N by (simpl; lia). done.
Qed.

(** The payout row once the bank has paid. *)
Definition paid_payout (now : Z) (n : N) (intent : uuid) (amount : Z) : Payout :=
  mkPayout (gen_uuid n) intent MockIDRBankName amount PoSucceeded
    (Some ("MIDR-" +:+ uuid_string (gen_uuid (n + 1)%N))) None 1 now now.

(** The bank after it paid the request under a key it had not seen. *)
Definition bank_paid (n : N) (req : SubmitRequest) (s : server) : server :=
  let breq := mkSubmitRequest (uuid_string (sq_intent_id req)) (uuid_string (sq_payout_id req))
       (sq_amount_idr req) (BankCode (sq_recipient req)) (AccountNumber (sq_recipient req))
       (AccountName (sq_recipient req)) (sq_memo req) in
  bank_log (bank_store s (sq_idempotency req)
    (mkCachedResponse 200 (bank_decide (uuid_string (gen_uuid n)) "" breq).2))
    (PayoutDecision (sq_idempotency req) breq 200).

Lemma Submit_run bank req w :
  request_error bank = None -> w_net w = [] -> sq_idempotency req <> "" ->
  cache (w_bank w) !! sq_idempotency req = None ->
  exists res, Submit bank req w = (Ok res, set_bank (set_rng w (w_rng w + 1)%N) (bank_paid (w_rng w) req (w_bank w))) /\
    sres_outcome res = OutcomeSuccess /\
    sres_rail_reference res = "MIDR-" +:+ uuid_string (gen_uuid (w_rng w)).
Proof.
  intros Hb Hn Hk Hc. unfold Submit, next_event, bank_serve, handlePayouts, submit_http, bank_lookup.
  rewrite Hb, Hn. simpl. destruct (String.eqb_spec (sq_idempotency req) ""); [done|]. rewrite Hc. simpl.
  eexists. split; [done|]. done.
Qed.

(** Updating a row just appended under a fresh id. *)
Lemma update_fresh_row {A} (id_of : A -> uuid) id f (t : list A) r :
  id ∉ id_of <$> t -> id_of r = id ->
  update_where (by_id id_of id) f (t ++ [r]) = t ++ [f r] /\
  find_row (by_id id_of id) (t ++ [r]) = Some r.
Proof.
  intros Hn Hid.
  assert (forall x, x ∈ t -> by_id id_of id x = false) as Hx.
  { intros x Hx. apply N.eqb_neq. intros E. apply Hn. rewrite <- E. by apply list_elem_of_fmap_2. }
  split.
  - unfold update_where. rewrite fmap_app. f_equal.
    + rewrite <- (list_fmap_id t) at 2. apply list_fmap_ext. intros i x Hi.
      by rewrite (Hx x (list_elem_of_lookup_2 _ _ _ Hi)).
    + simpl. unfold by_id. by rewrite Hid, N.eqb_refl.
  - rewrite find_row_app_None.
    + simpl. unfold by_id. by rewrite Hid, N.eqb_refl.
    + destruct (find_row _ t) as [x|] eqn:E; [|done]. apply find_row_Some in E as [Hin E]. by rewrite Hx in E.
Qed.

Lemma UpsertPayout_run id rail amount w i :
  w_faults w = [] -> 0 < amount -> find_row (payout_of_intent id) (payouts (w_db w)) = None ->
  find_row (by_id pi_id id) (payment_intents (w_db w)) = Some i ->
  gen_uuid (w_rng w) ∉ po_id <$> payouts (w_db w) ->
  let po := mkPayout (gen_uuid (w_rng w)) id rail amount PoPending None None 0 (w_now w) (w_now w) in
  UpsertPayout id rail amount w =
  (Ok po, set_db (set_rng w (w_rng w + 1)%N) (set_payouts (w_db w) (payouts (w_db w) ++ [po]))).
Proof.
  intros Hf Ha Hn Hi Hfr po. unfold UpsertPayout. rewrite stmt_run by done.
  destruct (amount <=? 0) eqn:?; bools; [lia|]. by rewrite Hn, Hi, pk_taken_fresh.
Qed.

Lemma MarkPayoutSubmitting_run po w d t :
  w_faults w = [] -> w_db w = set_payouts d (t ++ [po]) -> po_id po ∉ po_id <$> t ->
  po_attempts po < int32_max ->
  exists x, MarkPayoutSubmitting (po_id po) w =
  (Ok x, set_db w (set_payouts d (t ++
     [mkPayout (po_id po) (po_intent_id po) (po_rail po) (po_amount_idr po) PoSubmitting
        (po_rail_reference po) (po_last_error po) (po_attempts po + 1) (po_created_at po) (w_now w)]))).
Proof.
  intros Hf Hd Hn Ha. unfold MarkPayoutSubmitting, update_checked. rewrite stmt_run by done. rewrite Hd. simpl.
  edestruct (update_fresh_row po_id (po_id po)) as [Hu Hfind]; [exact Hn|reflexivity|].
  rewrite Hfind, Hu. destruct (po_attempts po + 1 <=? int32_max) eqn:?; bools; [|lia].
  simpl. rewrite N.add_0_r. eexists. by f_equal.
Qed.

Lemma MarkPayoutSucceeded_run pid po ref w d t :
  pid = po_id po -> w_faults w = [] -> w_db w = set_payouts d (t ++ [po]) -> po_id po ∉ po_id <$> t ->
  exists x, MarkPayoutSucceeded pid ref w =
  (Ok x, set_db w (set_payouts d (t ++
     [mkPayout (po_id po) (po_intent_id po) (po_rail po) (po_amount_idr po) PoSucceeded
        ref None (po_attempts po) (po_created_at po) (w_now w)]))).
Proof.
  intros -> Hf Hd Hn. unfold MarkPayoutSucceeded, update_returning. rewrite stmt_run by done. rewrite Hd. simpl.
  edestruct (update_fresh_row po_id (po_id po)) as [Hu Hfind]; [exact Hn|reflexivity|].
  rewrite Hfind, Hu. simpl. rewrite N.add_0_r. eexists. by f_equal.
Qed.

Lemma submit_payout_pending deps run intent rc po rail w :
  po_state po = PoPending -> Router_Get (PayoutRails deps) (po_rail po) = Ok rail ->
  submit_payout deps run intent rc po w =
  (_ ← map_err (ErrWrap "trigger_payout: mark submitting") (MarkPayoutSubmitting (po_id po));
   result ← map_err (ErrWrap "trigger_payout: rail submit")
     (rail_Submit rail (payout_request run intent po rc));
   settle_outcome run intent po result) w.
Proof.
  intros Hst Hg. unfold submit_payout. rewrite Hst. erewrite bind_run; [done|].
  unfold map_err, lift_res. by rewrite Hg.
Qed.

Lemma TriggerPayout_run bank run w intent merchant rc :
  let id := run_IntentID run in
  let n := w_rng w in
  let req := mkSubmitRequest' (gen_uuid n) id (pi_amount_idr intent) rc
               ("selatpay/" +:+ pi_external_ref intent) (uuid_string (gen_uuid n)) in
  w_faults w = [] -> w_net w = [] -> request_error bank = None ->
  find_row (by_id pi_id id) (payment_intents (w_db w)) = Some intent -> pi_state intent = IFunded ->
  0 < pi_amount_idr intent ->
  find_row (by_id m_id (pi_merchant_id intent)) (merchants (w_db w)) = Some merchant ->
  recipientFromMerchant merchant = Ok rc ->
  find_row (payout_of_intent id) (payouts (w_db w)) = None ->
  gen_uuid n ∉ po_id <$> payouts (w_db w) ->
  cache (w_bank w) !! uuid_string (gen_uuid n) = None ->
  TriggerPayout_Execute (settlement_deps bank) run w =
  (Ok (mkStepResult StepApplyPayoutResult),
   set_db (set_bank (set_rng w (n + 2)%N) (bank_paid (n + 1)%N req (w_bank w)))
     (with_state (w_now w) id ISettling
       (set_payouts (w_db w) (payouts (w_db w) ++ [paid_payout (w_now w) n id (pi_amount_idr intent)])))).
Proof.
  intros id n req Hf Hnet Hb Hi Hst Hamt Hm Hrc Hpo Hfr Hcache. unfold TriggerPayout_Execute. fold id.
  assert (pi_id intent = id) as Hid by (apply find_row_Some in Hi as [_ E%N.eqb_eq]; done).
  unfold GetPaymentIntentByID. rewrite (select_bind _ _ _ _ intent) by (done || by rewrite Hi).
  unfold GetMerchantByID. rewrite (select_bind _ _ _ _ merchant) by (done || by rewrite Hm).
  erewrite bind_run; [|unfold map_err, lift_res; by rewrite Hrc].
  erewrite bind_run; [|unfold map_err; by erewrite UpsertPayout_run by done].
  rewrite (submit_payout_pending _ _ _ _ _ (mock_idr_bank_rail bank)) by done.
  set (po := mkPayout (gen_uuid (w_rng w)) id MockIDRBankName (pi_amount_idr intent) PoPending None None 0 (w_now w) (w_now w)).
  destruct (MarkPayoutSubmitting_run po
    (set_db (set_rng w (w_rng w + 1)%N) (set_payouts (w_db w) (payouts (w_db w) ++ [po])))
    (w_db w) (payouts (w_db w))) as [x Hx]; [done..|].
  erewrite bind_run; [|unfold map_err; by rewrite Hx]. simpl rail_Submit.
  match goal with |- (_ ≫= _) ?w1 = _ => set (w2 := w1) end.
  destruct (Submit_run bank req w2) as (res & Hsub & Hok & Href); [done|done|apply uuid_string_nonempty|done|].
  erewrite bind_run; [|unfold map_err; change (payout_request run intent po rc) with req; by rewrite Hsub].
  unfold settle_outcome. rewrite Hok, Href.
  match goal with |- (_ ≫= _) ?w1 = _ => set (w3 := w1) end.
  edestruct (MarkPayoutSucceeded_run (po_id po)
    (mkPayout (gen_uuid n) id MockIDRBankName (pi_amount_idr intent) PoSubmitting None None 1 (w_now w) (w_now w))
    (nullableString ("MIDR-" +:+ uuid_string (gen_uuid (w_rng w2)))) w3 (w_db w) (payouts (w_db w))) as [y Hy]; [done..|].
  erewrite bind_run; [|unfold map_err; by rewrite Hy].
  unfold advanceIntentToSettling. rewrite bool_decide_eq_true_2 by done.
  erewrite bind_run; [|unfold map_err; rewrite (UpdatePaymentIntentState_run _ _ _ intent); [done|done|by rewrite Hid]].
  unfold mret, M_ret. f_equal. rewrite Hid. unfold w3, w2, set_db, set_bank, set_rng. simpl.
  f_equal. lia.
Qed.

Lemma ledger_wf_posted e w :
  w_faults w = [] -> postable (w_db w) e -> ledger_fresh (w_rng w) (w_db w) -> ledger_wf (w_db w) ->
  ledger_wf (posted_db (w_now w) (w_rng w) e (w_db w)).
Proof.
  intros Hf Hp Hfr Hwf. destruct (keeps_ext_PostTx e w) as (_ & _ & _ & Hw).
  rewrite PostTx_run in Hw by done. by apply Hw.
Qed.

Lemma computeMidIDR_int64 q n s : is_int64 (computeMidIDR q n s) = true.
Proof. unfold computeMidIDR. case_match; [done|reflexivity]. Qed.

Lemma spread_exact mid paid : is_int64 mid = true -> 0 < paid <= mid -> wrap64 (mid - paid) = mid - paid.
Proof. rewrite is_int64_spec. unfold int64_min, int64_max. intros. apply wrap64_id, is_int64_spec. unfold int64_min, int64_max. lia. Qed.

Lemma ApplyPayoutResult_run run w intent po quote uf se ex co re :
  let id := run_IntentID run in
  let n := w_rng w in
  let mid := computeMidIDR (pi_quoted_amount_usdc intent) (q_rate_num quote) (q_rate_scale quote) in
  let e1 := fx_swap_entry id (pi_quoted_amount_usdc intent) po uf se in
  let e2 := payout_disbursed_entry id mid (po_amount_idr po) (mid - po_amount_idr po) po ex co re in
  w_faults w = [] -> ledger_fresh n (w_db w) -> ledger_wf (w_db w) ->
  find_row (by_id pi_id id) (payment_intents (w_db w)) = Some intent -> pi_state intent = ISettling ->
  0 < pi_quoted_amount_usdc intent ->
  find_row (payout_of_intent id) (payouts (w_db w)) = Some po -> po_state po = PoSucceeded ->
  find_row (by_id q_id (pi_quote_id intent)) (quotes (w_db w)) = Some quote -> 0 < po_amount_idr po <= mid ->
  find_row (account_by_code AccountLiabilityUserFunds CurrencyUSDC) (accounts (w_db w)) = Some uf ->
  find_row (account_by_code AccountEquityFXSettlement CurrencyUSDC) (accounts (w_db w)) = Some se ->
  find_row (account_by_code "expense_fx_swap_idr" CurrencyIDR) (accounts (w_db w)) = Some ex ->
  find_row (account_by_code AccountCashOutIDR CurrencyIDR) (accounts (w_db w)) = Some co ->
  find_row (account_by_code AccountRevenueFXSpreadIDR CurrencyIDR) (accounts (w_db w)) = Some re ->
  find_row (entry_by_ref ("fx_swap_usdc:" +:+ uuid_string id)) (journal_entries (w_db w)) = None ->
  find_row (entry_by_ref ("payout_disbursed:" +:+ uuid_string id)) (journal_entries (w_db w)) = None ->
  ApplyPayoutResult_Execute run w =
  (Ok (mkStepResult StepEmitCompleted),
   set_db (set_rng w (n + 4 + N.of_nat (length (Lines e2)))%N)
     (with_state (w_now w) id IPaidOut
       (posted_db (w_now w) (n + 3)%N e2 (posted_db (w_now w) n e1 (w_db w))))).
Proof.
  intros id n mid e1 e2 Hf Hfr Hwf Hi Hst Hq Hpo Hps Hquote Hpaid Hu Hs He Hc Hr Hn1 Hn2.
  pose proof (computeMidIDR_int64 (pi_quoted_amount_usdc intent) (q_rate_num quote) (q_rate_scale quote)) as Hmid.
  fold mid in Hmid.
  unfold ApplyPayoutResult_Execute. fold id. unfold GetPaymentIntentByID.
  rewrite (select_bind _ _ _ _ intent) by (done || by rewrite Hi). unfold GetPayoutByIntent.
  rewrite (select_bind _ _ _ _ po) by (done || by rewrite Hpo). rewrite bool_decide_eq_true_2 by done.
  change (negb true) with false. cbv iota. unfold GetQuote. rewrite (select_bind _ _ _ _ quote) by (done || by rewrite Hquote). cbv zeta. fold mid.
  rewrite spread_exact by done. destruct (mid - po_amount_idr po <? 0) eqn:?; bools; [lia|].
  assert (postable (w_db w) e1) as Hp1 by by apply fx_swap_postable.
  set (d1 := posted_db (w_now w) n e1 (w_db w)).
  set (w1 := set_db (set_rng w (n + 3)%N) d1).
  erewrite (bind_run _ _ _ tt w1).
  2:{ unfold postFXSwapUSDC. rewrite (account_bind _ _ _ _ _ se) by done. rewrite (account_bind _ _ _ _ _ uf) by done.
      erewrite bind_run; [|unfold map_err; rewrite PostTx_run by done; reflexivity].
      unfold mret, M_ret, w1. fold e1. f_equal.
      replace (w_rng w + 1 + N.of_nat (length (Lines e1)))%N with (n + 3)%N by (simpl; lia). done. }
  assert (ledger_fresh (w_rng w1) (w_db w1)) as Hfr1 by (apply ledger_fresh_posted; [done|simpl; lia]).
  assert (postable (w_db w1) e2) as Hp2.
  { apply disbursed_postable; try done; [by apply ledger_wf_posted|]. simpl.
    rewrite find_row_app_None by done. simpl. unfold entry_by_ref. simpl. done. }
  erewrite bind_run.
  2:{ unfold postPayoutDisbursedIDR. rewrite (account_bind _ _ _ _ _ ex) by done. rewrite (account_bind _ _ _ _ _ co) by done.
      rewrite (account_bind _ _ _ _ _ re) by done.
      erewrite bind_run; [|unfold map_err; fold e2; rewrite PostTx_run by done; reflexivity]. reflexivity. }
  rewrite bool_decide_eq_true_2 by done.
  erewrite bind_run; [|unfold map_err; rewrite (UpdatePaymentIntentState_run _ _ _ intent); [done|done|done]].
  unfold mret, M_ret. f_equal.
  replace (n + 4 + N.of_nat (length (Lines e2)))%N with (w_rng w1 + 1 + N.of_nat (length (Lines e2)))%N by (simpl; lia).
  done.
Qed.

(** The message a completed intent leaves in the outbox. *)
Definition completed_message (now : Z) (n : N) (updated : PaymentIntent) : Outbox :=
  mkOutbox (gen_uuid n) "intent.completed" (Some (pi_id updated)) (completed_event updated)
    (headers_json (completed_headers updated)) now now None 0 None.

Lemma EmitCompleted_run run w intent :
  let id := run_IntentID run in
  let updated := set_pi_state ICompleted (w_now w) intent in
  w_faults w = [] -> gen_uuid (w_rng w) ∉ ob_id <$> outbox (w_db w) ->
  find_row (by_id pi_id id) (payment_intents (w_db w)) = Some intent -> pi_state intent = IPaidOut ->
  EmitCompleted_Execute run w =
  (Ok (mkStepResult ""),
   set_db (set_rng w (w_rng w + 1)%N)
     (set_outbox (with_state (w_now w) id ICompleted (w_db w))
        (outbox (w_db w) ++ [completed_message (w_now w) (w_rng w) updated]))).
Proof.
  intros id updated Hf Hfr Hi Hst. unfold EmitCompleted_Execute. fold id. unfold GetPaymentIntentByID.
  rewrite (select_bind _ _ _ _ intent) by (done || by rewrite Hi). rewrite bool_decide_eq_true_2 by done.
  erewrite bind_run; [|unfold map_err; rewrite (UpdatePaymentIntentState_run _ _ _ intent); [done|done|done]].
  fold updated. erewrite bind_run; [done|]. unfold map_err at 1, Publish.
  change (String.eqb "intent.completed" "") with false. cbv iota.
  erewrite bind_run.
  2:{ unfold map_err, PublishOutbox. rewrite stmt_run by done. simpl. rewrite pk_taken_fresh by done. reflexivity. }
  unfold lift_res, toMessage. cbn [ob_headers]. by rewrite unmarshal_headers_json.
Qed.
End runs.

(** ** Four ticks *)

(** Everything an intent needs to settle: a database and a bank that answer, an intent waiting for its deposit, the finalized deposit, a
    merchant with bank details, a quote whose mid value covers the payout, the
    chart of accounts, and the only saga run due at its first step. *)
Record settlement_ready `{Env} (bank : MockIDRBank) (w : World) (row : SagaRun)
    (intent : PaymentIntent) (dep : OnchainPayment) (merchant : Merchant) (rc : Recipient) (quote : Quote)
    (hw uf se ex co re : Account) : Prop := {
  sr_url : request_error bank = None;
  sr_faults : w_faults w = [];
  sr_net : w_net w = [];
  sr_books : books_ok (w_db w);
  sr_fresh : ledger_fresh (w_rng w) (w_db w);
  sr_fresh_ids : forall k, (w_rng w <= k)%N ->
    gen_uuid k ∉ po_id <$> payouts (w_db w) /\ gen_uuid k ∉ ob_id <$> outbox (w_db w) /\
    cache (w_bank w) !! uuid_string (gen_uuid k) = None;
  sr_run : saga_runs (w_db w) = [row];
  sr_due : claimable (w_now w) row = true;
  sr_step : sr_current_step row = FirstStep;
  sr_intent : find_row (by_id pi_id (sr_intent_id row)) (payment_intents (w_db w)) = Some intent;
  sr_pending : pi_state intent = IPending;
  sr_amounts : 0 < pi_amount_idr intent /\ 0 < pi_quoted_amount_usdc intent /\ 0 < op_amount dep;
  sr_deposit : deposit_of (sr_intent_id row) (w_db w) = Some dep;
  sr_merchant : find_row (by_id m_id (pi_merchant_id intent)) (merchants (w_db w)) = Some merchant;
  sr_recipient : recipientFromMerchant merchant = Ok rc;
  sr_no_payout : find_row (payout_of_intent (sr_intent_id row)) (payouts (w_db w)) = None;
  sr_quote : find_row (by_id q_id (pi_quote_id intent)) (quotes (w_db w)) = Some quote;
  sr_mid : pi_amount_idr intent <=
    computeMidIDR (pi_quoted_amount_usdc intent) (q_rate_num quote) (q_rate_scale quote);
  sr_hw : find_row (account_by_code AccountHotWalletUSDC CurrencyUSDC) (accounts (w_db w)) = Some hw;
  sr_uf : find_row (account_by_code AccountLiabilityUserFunds CurrencyUSDC) (accounts (w_db w)) = Some uf;
  sr_se : find_row (account_by_code AccountEquityFXSettlement CurrencyUSDC) (accounts (w_db w)) = Some se;
  sr_ex : find_row (account_by_code "expense_fx_swap_idr" CurrencyIDR) (accounts (w_db w)) = Some ex;
  sr_co : find_row (account_by_code AccountCashOutIDR CurrencyIDR) (accounts (w_db w)) = Some co;
  sr_re : find_row (account_by_code AccountRevenueFXSpreadIDR CurrencyIDR) (accounts (w_db w)) = Some re;
  sr_no_entries : forall kind, kind = "credit_deposit:" \/ kind = "fx_swap_usdc:" \/ kind = "payout_disbursed:" ->
    find_row (entry_by_ref (kind +:+ uuid_string (sr_intent_id row))) (journal_entries (w_db w)) = None
}.

Section settle.
Context `{Env} `{!EnvOk _}.

(** A tick when there is exactly one run, and it is due. *)
Lemma tick_single r w row st res wx :
  registry_ok (registry r) -> w_faults w = [] -> saga_runs (w_db w) = [row] ->
  claimable (w_now w) row = true -> Registry_Get (registry r) (sr_current_step row) = Some st ->
  Execute st (toRun (leased r w row)) (set_db w (set_saga_runs (w_db w) [leased r w row])) = (Ok res, wx) ->
  balanced (w_db wx) ->
  Tick r w = (Ok true, set_db wx (set_saga_runs (w_db wx) [advanced_row r w row res])).
Proof.
  intros Hok Hf Hruns Hdue Hget Hex Hbal.
  assert (forall c, sr_id c = sr_id row -> put_run c [row] = [c]) as Hput.
  { intros c Hc. unfold put_run. simpl. unfold by_id. by rewrite Hc, N.eqb_refl. }
  assert (pick w = Some row) as Hp by (unfold pick; rewrite Hruns; simpl; by rewrite Hdue).
  rewrite (tick_step_succeeds r Hok w row st res wx Hf); [|rewrite Hruns; apply NoDup_singleton|done|done| |].
  - rewrite Hruns, Hput; [done|]. unfold advanced_row. by case_match.
  - unfold claimed_db. by rewrite Hruns, Hput.
  - by apply deferred_triggers_of_balanced.
Qed.

(** The run right after an advance is due again. *)
Lemma advanced_due r w row next :
  next <> "" ->
  claimable (w_now w) (advanced_row r w row (mkStepResult next)) = true /\
  sr_current_step (advanced_row r w row (mkStepResult next)) = next /\
  sr_intent_id (advanced_row r w row (mkStepResult next)) = sr_intent_id row.
Proof.
  intros Hn. unfold advanced_row. simpl. destruct (String.eqb_spec next ""); [done|]. simpl.
  unfold claimable. simpl. rewrite Z.leb_refl. done.
Qed.

Context (bank : MockIDRBank) (r : Runner) (Hreg : registry r = settlement_registry (settlement_deps bank)).

Lemma runner_ok : registry_ok (registry r).
Proof. rewrite Hreg. apply settlement_registry_ok, settlement_rails_ok. Qed.

(** What every tick below relies on. *)
Record tickable (w : World) (row : SagaRun) (intent : PaymentIntent) (step : string) (st : PaymentIntentState) : Prop := {
  tk_faults : w_faults w = [];
  tk_wf : ledger_wf (w_db w);
  tk_balanced : balanced (w_db w);
  tk_fresh : ledger_fresh (w_rng w) (w_db w);
  tk_run : saga_runs (w_db w) = [row];
  tk_due : claimable (w_now w) row = true;
  tk_step : sr_current_step row = step;
  tk_intent : find_row (by_id pi_id (sr_intent_id row)) (payment_intents (w_db w)) = Some intent;
  tk_state : pi_state intent = st
}.

(** The next step is ready once the previous tick is done. *)
Lemma tickable_after w row intent step st w' step' st' :
  tickable w row intent step st -> step' <> "" ->
  w_faults w' = [] -> w_now w' = w_now w ->
  ledger_wf (w_db w') -> balanced (w_db w') -> ledger_fresh (w_rng w') (w_db w') ->
  saga_runs (w_db w') = [advanced_row r w row (mkStepResult step')] ->
  payment_intents (w_db w') =
    update_where (by_id pi_id (sr_intent_id row)) (set_pi_state st' (w_now w)) (payment_intents (w_db w)) ->
  tickable w' (advanced_row r w row (mkStepResult step')) (set_pi_state st' (w_now w) intent) step' st'.
Proof.
  intros [Hf _ _ _ _ _ _ Hi _] Hne Hf' Hn' Hwf' Hbal' Hfr' Hrun' Hint'.
  destruct (advanced_due r w row step' Hne) as (Hdue & Hstep & Hid).
  split; try done; [by rewrite Hn'|]. rewrite Hid, Hint', find_row_update, Hi by done. simpl.
  apply find_row_Some in Hi as [_ Hi]. by rewrite Hi.
Qed.

Lemma ledger_wf_same d d' : same_ledger d d' -> ledger_wf d -> ledger_wf d'.
Proof. intros Hs. by destruct (same_ledger_ext d d' Hs) as (_ & _ & _ & Hw). Qed.

Lemma ledger_wf_runs d t : ledger_wf d -> ledger_wf (set_saga_runs d t).
Proof. by apply ledger_wf_same. Qed.

Lemma new_refs kind kind' id t d :
  find_row (entry_by_ref (kind +:+ uuid_string id)) (journal_entries d) = None ->
  String.eqb (kind' +:+ uuid_string id) (kind +:+ uuid_string id) = false ->
  je_external_ref t = kind' +:+ uuid_string id ->
  find_row (entry_by_ref (kind +:+ uuid_string id)) (journal_entries d ++ [t]) = None.
Proof. intros Hn Hk Ht. rewrite find_row_app_None by done. simpl. unfold entry_by_ref. by rewrite Ht, Hk. Qed.

Lemma tick_credit w row intent dep hw uf :
  let id := sr_intent_id row in
  let e := deposit_credit_entry id (op_signature dep) (op_amount dep) hw uf in
  tickable w row intent StepCreditDeposit IPending ->
  deposit_of id (w_db w) = Some dep -> 0 < op_amount dep ->
  find_row (account_by_code AccountHotWalletUSDC CurrencyUSDC) (accounts (w_db w)) = Some hw ->
  find_row (account_by_code AccountLiabilityUserFunds CurrencyUSDC) (accounts (w_db w)) = Some uf ->
  find_row (entry_by_ref ("credit_deposit:" +:+ uuid_string id)) (journal_entries (w_db w)) = None ->
  let w' := set_db (set_rng w (w_rng w + 3)%N)
    (set_saga_runs (with_state (w_now w) id IFunded (posted_db (w_now w) (w_rng w) e (w_db w)))
       [advanced_row r w row (mkStepResult StepTriggerPayout)]) in
  Tick r w = (Ok true, w') /\
  tickable w' (advanced_row r w row (mkStepResult StepTriggerPayout))
    (set_pi_state IFunded (w_now w) intent) StepTriggerPayout IFunded.
Proof.
  intros id e T0 Hdep Hamt Hh Hu Hn w'. pose proof T0 as [Hf Hwf Hbal Hfr Hrun Hdue Hstep Hi Hst].
  assert (balanced (posted_db (w_now w) (w_rng w) e (w_db w))) as Hbal'
    by (apply balanced_posted; [done|by apply two_lines_ok|intros c; apply line_sum_two]).
  pose proof (CreditDeposit_run (toRun (leased r w row)) (set_db w (set_saga_runs (w_db w) [leased r w row]))
    intent dep hw uf Hf Hfr (ledger_wf_runs _ _ Hwf) Hi Hst Hdep Hamt Hh Hu Hn) as Hex.
  rewrite (tick_single r w row (NewCreditDeposit (settlement_deps bank)) _ _ runner_ok Hf Hrun Hdue ltac:(by rewrite Hreg, Hstep) Hex);
    [|exact Hbal']. split; [done|]. apply (tickable_after w row intent StepCreditDeposit IPending); try done.
  - eapply ledger_wf_same; [|apply (ledger_wf_posted e w Hf); [by apply deposit_postable|done|done]]. done.
  - apply (ledger_fresh_posted (w_now w) (w_rng w) e (w_db w)); [done|simpl; lia].
Qed.

Lemma tick_trigger w row intent merchant rc :
  let id := sr_intent_id row in
  let n := w_rng w in
  let req := mkSubmitRequest' (gen_uuid n) id (pi_amount_idr intent) rc
               ("selatpay/" +:+ pi_external_ref intent) (uuid_string (gen_uuid n)) in
  tickable w row intent StepTriggerPayout IFunded ->
  w_net w = [] -> request_error bank = None -> 0 < pi_amount_idr intent ->
  find_row (by_id m_id (pi_merchant_id intent)) (merchants (w_db w)) = Some merchant ->
  recipientFromMerchant merchant = Ok rc ->
  find_row (payout_of_intent id) (payouts (w_db w)) = None ->
  gen_uuid n ∉ po_id <$> payouts (w_db w) ->
  cache (w_bank w) !! uuid_string (gen_uuid n) = None ->
  let w' := set_db (set_bank (set_rng w (n + 2)%N) (bank_paid (n + 1)%N req (w_bank w)))
    (set_saga_runs (with_state (w_now w) id ISettling
       (set_payouts (w_db w) (payouts (w_db w) ++ [paid_payout (w_now w) n id (pi_amount_idr intent)])))
       [advanced_row r w row (mkStepResult StepApplyPayoutResult)]) in
  Tick r w = (Ok true, w') /\
  tickable w' (advanced_row r w row (mkStepResult StepApplyPayoutResult))
    (set_pi_state ISettling (w_now w) intent) StepApplyPayoutResult ISettling.
Proof.
  intros id n req T0 Hnet Hb Hamt Hm Hrc Hpo Hpf Hc w'. pose proof T0 as [Hf Hwf Hbal Hfr Hrun Hdue Hstep Hi Hst].
  pose proof (TriggerPayout_run bank (toRun (leased r w row)) (set_db w (set_saga_runs (w_db w) [leased r w row]))
    intent merchant rc Hf Hnet Hb Hi Hst Hamt Hm Hrc Hpo Hpf Hc) as Hex.
  rewrite (tick_single r w row (NewTriggerPayout (settlement_deps bank)) _ _ runner_ok Hf Hrun Hdue ltac:(by rewrite Hreg, Hstep) Hex);
    [|exact Hbal]. split; [done|]. apply (tickable_after w row intent StepTriggerPayout IFunded); try done.
  - by apply (ledger_wf_same (w_db w)).
  - intros k Hk. apply Hfr. simpl in Hk. lia.
Qed.

Lemma tick_apply w row intent po quote uf se ex co re :
  let id := sr_intent_id row in
  let n := w_rng w in
  let mid := computeMidIDR (pi_quoted_amount_usdc intent) (q_rate_num quote) (q_rate_scale quote) in
  let e1 := fx_swap_entry id (pi_quoted_amount_usdc intent) po uf se in
  let e2 := payout_disbursed_entry id mid (po_amount_idr po) (mid - po_amount_idr po) po ex co re in
  tickable w row intent StepApplyPayoutResult ISettling ->
  0 < pi_quoted_amount_usdc intent ->
  find_row (payout_of_intent id) (payouts (w_db w)) = Some po -> po_state po = PoSucceeded ->
  find_row (by_id q_id (pi_quote_id intent)) (quotes (w_db w)) = Some quote -> 0 < po_amount_idr po <= mid ->
  find_row (account_by_code AccountLiabilityUserFunds CurrencyUSDC) (accounts (w_db w)) = Some uf ->
  find_row (account_by_code AccountEquityFXSettlement CurrencyUSDC) (accounts (w_db w)) = Some se ->
  find_row (account_by_code "expense_fx_swap_idr" CurrencyIDR) (accounts (w_db w)) = Some ex ->
  find_row (account_by_code AccountCashOutIDR CurrencyIDR) (accounts (w_db w)) = Some co ->
  find_row (account_by_code AccountRevenueFXSpreadIDR CurrencyIDR) (accounts (w_db w)) = Some re ->
  find_row (entry_by_ref ("fx_swap_usdc:" +:+ uuid_string id)) (journal_entries (w_db w)) = None ->
  find_row (entry_by_ref ("payout_disbursed:" +:+ uuid_string id)) (journal_entries (w_db w)) = None ->
  let w' := set_db (set_rng w (n + 4 + N.of_nat (length (Lines e2)))%N)
    (set_saga_runs (with_state (w_now w) id IPaidOut
       (posted_db (w_now w) (n + 3)%N e2 (posted_db (w_now w) n e1 (w_db w))))
       [advanced_row r w row (mkStepResult StepEmitCompleted)]) in
  Tick r w = (Ok true, w') /\
  tickable w' (advanced_row r w row (mkStepResult StepEmitCompleted))
    (set_pi_state IPaidOut (w_now w) intent) StepEmitCompleted IPaidOut.
Proof.
  intros id n mid e1 e2 T0 Hq Hpo Hps Hquote Hpaid Hu Hs He Hc Hr Hn1 Hn2 w'.
  pose proof T0 as [Hf Hwf Hbal Hfr Hrun Hdue Hstep Hi Hst].
  assert (balanced (posted_db (w_now w) (n + 3)%N e2 (posted_db (w_now w) n e1 (w_db w)))) as Hbal'.
  { apply balanced_posted; [apply balanced_posted; [done|by apply two_lines_ok|intros c; apply line_sum_two]
      |by apply disbursed_lines_ok|intros c; apply disbursed_sum; lia]. }
  assert (postable (w_db w) e1) as Hp1 by by apply fx_swap_postable.
  pose proof (ledger_wf_posted e1 w Hf Hp1 Hfr Hwf) as Hwf1. fold n in Hwf1.
  assert (ledger_fresh (n + 3)%N (posted_db (w_now w) n e1 (w_db w))) as Hfr1
    by (apply ledger_fresh_posted; [done|simpl; lia]).
  assert (postable (posted_db (w_now w) n e1 (w_db w)) e2) as Hp2.
  { apply disbursed_postable; try done. by apply (new_refs "payout_disbursed:" "fx_swap_usdc:" id). }
  pose proof (ApplyPayoutResult_run (toRun (leased r w row)) (set_db w (set_saga_runs (w_db w) [leased r w row]))
    intent po quote uf se ex co re Hf Hfr (ledger_wf_runs _ _ Hwf) Hi Hst Hq Hpo Hps Hquote Hpaid Hu Hs He Hc Hr Hn1 Hn2) as Hex.
  rewrite (tick_single r w row (NewApplyPayoutResult (settlement_deps bank)) _ _ runner_ok Hf Hrun Hdue ltac:(by rewrite Hreg, Hstep) Hex);
    [|exact Hbal']. split; [done|]. apply (tickable_after w row intent StepApplyPayoutResult ISettling); try done.
  - eapply ledger_wf_same; [|apply (ledger_wf_posted e2 (set_db (set_rng w (n + 3)%N) (posted_db (w_now w) n e1 (w_db w))));
      [done|exact Hp2|exact Hfr1|exact Hwf1]]. done.
  - apply (ledger_fresh_posted (w_now w) (n + 3)%N e2 (posted_db (w_now w) n e1 (w_db w))); [done|simpl; lia].
Qed.

Lemma tick_emit w row intent :
  let id := sr_intent_id row in
  let updated := set_pi_state ICompleted (w_now w) intent in
  tickable w row intent StepEmitCompleted IPaidOut ->
  gen_uuid (w_rng w) ∉ ob_id <$> outbox (w_db w) ->
  Tick r w = (Ok true, set_db (set_rng w (w_rng w + 1)%N)
    (set_saga_runs (set_outbox (with_state (w_now w) id ICompleted (w_db w))
        (outbox (w_db w) ++ [completed_message (w_now w) (w_rng w) updated]))
       [advanced_row r w row (mkStepResult "")])).
Proof.
  intros id updated [Hf Hwf Hbal Hfr Hrun Hdue Hstep Hi Hst] Hof.
  pose proof (EmitCompleted_run (toRun (leased r w row)) (set_db w (set_saga_runs (w_db w) [leased r w row]))
    intent Hf Hof Hi Hst) as Hex.
  rewrite (tick_single r w row (NewEmitCompleted (settlement_deps bank)) _ _ runner_ok Hf Hrun Hdue ltac:(by rewrite Hreg, Hstep) Hex);
    [done|exact Hbal].
Qed.

(** What a posting says, without its ids and time. *)
Definition posting_key (p : Posting) : uuid * Z * string * PostingDirection :=
  (p_account_id p, p_amount p, p_currency p, p_direction p).

(** C2: an intent settles. With the database and the bank answering, four ticks
    take an intent with a finalized deposit to completion: the bank pays the
    merchant exactly the quoted rupiah amount, once; the payout is recorded as
    succeeded; the deposit, the release of the quoted USDC and the disbursement
    with its spread are posted; one intent.completed message is in the outbox; and
    intent and run are completed. *)
Theorem settlement_completes w row intent dep merchant rc quote hw uf se ex co re :
  settlement_ready bank w row intent dep merchant rc quote hw uf se ex co re ->
  let idr := pi_amount_idr intent in
  let usdc := pi_quoted_amount_usdc intent in
  let mid := computeMidIDR usdc (q_rate_num quote) (q_rate_scale quote) in
  exists w' run po msg breq,
    nsteps (fun w w' => Tick r w = (Ok true, w')) 4 w w' /\
    saga_runs (w_db w') = [run] /\ sr_state run = SCompleted /\
    pi_state <$> find_row (by_id pi_id (sr_intent_id row)) (payment_intents (w_db w')) = Some ICompleted /\
    payouts (w_db w') = payouts (w_db w) ++ [po] /\ po_state po = PoSucceeded /\ po_amount_idr po = idr /\
    disbursed (w_bank w') = disbursed (w_bank w) ++ [(uuid_string (po_id po), breq)] /\
    req_amount_idr breq = idr /\ req_account_number breq = AccountNumber rc /\
    outbox (w_db w') = outbox (w_db w) ++ [msg] /\ ob_topic msg = "intent.completed" /\
    ob_aggregate_id msg = Some (sr_intent_id row) /\ ob_delivered_at msg = None /\
    posting_key <$> postings (w_db w') = (posting_key <$> postings (w_db w)) ++
      [ (acc_id hw, op_amount dep, CurrencyUSDC, PDebit); (acc_id uf, op_amount dep, CurrencyUSDC, PCredit);
        (acc_id uf, usdc, CurrencyUSDC, PDebit); (acc_id se, usdc, CurrencyUSDC, PCredit);
        (acc_id ex, mid, CurrencyIDR, PDebit); (acc_id co, idr, CurrencyIDR, PCredit) ] ++
      (if 0 <? mid - idr then [(acc_id re, mid - idr, CurrencyIDR, PCredit)] else []).
Proof.
  intros [Hurl Hf Hnet [Hwf Hbal] Hfr Hids Hrun Hdue Hstep Hi Hpend (Hidr & Husdc & Hdepa) Hdep Hm Hrc Hnp Hq Hmid
    Hhw Huf Hse Hex Hco Hre Hne] idr usdc mid.
  set (id := sr_intent_id row) in *. set (now := w_now w). set (n := w_rng w) in *.
  assert (tickable w row intent StepCreditDeposit IPending) as T0 by by split.
  destruct (tick_credit w row intent dep hw uf T0 Hdep Hdepa Hhw Huf (Hne "credit_deposit:" ltac:(auto))) as [E1 T1].
  set (w1 := set_db _ _) in E1, T1. set (row1 := advanced_row r w row _) in T1.
  destruct (Hids (n + 3)%N ltac:(lia)) as (Hpo1 & _ & Hc1).
  destruct (tick_trigger w1 row1 _ merchant rc T1 Hnet Hurl Hidr Hm Hrc Hnp Hpo1 Hc1) as [E2 T2].
  set (w2 := set_db _ _) in E2, T2. set (row2 := advanced_row r w1 row1 _) in T2.
  set (po := paid_payout now (n + 3)%N id idr).
  assert (find_row (payout_of_intent id) (payouts (w_db w2)) = Some po) as Hpo.
  { simpl. rewrite find_row_app_None by done. simpl. unfold payout_of_intent. simpl. by rewrite N.eqb_refl. }
  destruct (tick_apply w2 row2 _ po quote uf se ex co re T2 Husdc Hpo eq_refl Hq (conj Hidr Hmid) Huf Hse Hex Hco Hre)
    as [E3 T3]; [by apply (new_refs "fx_swap_usdc:" "credit_deposit:" id); auto
                |by apply (new_refs "payout_disbursed:" "credit_deposit:" id); auto|].
  set (w3 := set_db _ _) in E3, T3. set (row3 := advanced_row r w2 row2 _) in T3.
  pose proof (tick_emit w3 row3 _ T3) as E4.
  destruct (Hids (w_rng w3)) as (_ & Hob & _); [simpl; lia|]. specialize (E4 Hob). set (w4 := set_db _ _) in E4.
  exists w4, (advanced_row r w3 row3 (mkStepResult "")), po. eexists.
  set (breq := mkSubmitRequest (uuid_string id) (uuid_string (po_id po)) idr (BankCode rc) (AccountNumber rc)
    (AccountName rc) ("selatpay/" +:+ pi_external_ref intent)). exists breq.
  split. { repeat (eapply nsteps_l; [eassumption|]). apply nsteps_O. }
  assert (pi_id intent = id) as Hid by (by apply find_row_Some in Hi as [_ Hi%N.eqb_eq]).
  split_and!; try reflexivity.
  - pose proof (tk_intent _ _ _ _ _ T3) as Hi3. change (sr_intent_id row3) with id in Hi3.
    change (payment_intents (w_db w4)) with (update_where (by_id pi_id id) (set_pi_state ICompleted (w_now w3))
      (payment_intents (w_db w3))).
    rewrite find_row_update, Hi3 by done. simpl. unfold by_id. simpl. by rewrite Hid, N.eqb_refl.
  - exact (disbursed_log_app (w_bank w) (PayoutDecision (uuid_string (po_id po)) breq 200) (w_bank w4) eq_refl).
  - simpl. by rewrite Hid.
  - simpl. unfold payout_disbursed_entry. rewrite !fmap_app. simpl. rewrite <- !app_assoc. simpl. fold usdc idr mid.
    by destruct (0 <? mid - idr).
Qed.
End settle.
