(* ===== verification/Scenarios.v ===== *)
(** * Runs of the settlement saga

    Concrete runs: the world in which the examples of the settlement theorems
    live, and three runs that show what the saga does not guarantee: a lost
    response pays the merchant twice, a lost commit acknowledgement announces the
    same completion twice, and the amount deposited is never compared with the
    amount quoted. *)

From S2P Require Import Prelude GoStr MockBank Models World GoJson Queries Ledger Backoff Payout Outbox Saga SagaSteps Settlement HappyPath.

#[local] Existing Instance example_env.
#[local] Existing Instance example_env_ok.

(** ** A world with one intent *)

Definition demo_merchant : Merchant :=
  mkMerchant 2001%N "Warung" 0 (Some "014") (Some "1234567890") (Some "PT Warung") None None.

(** One USDC is 16200 rupiah; a spread of 50 basis points. *)
Definition demo_quote : Quote := mkQuote 3001%N "USDC/IDR" 16200 0 50 (3600 * second) "sig" 0.

(** One million rupiah, quoted at 62.038464 USDC. *)
Definition demo_intent : PaymentIntent :=
  mkPaymentIntent 4001%N 2001%N "order-1" 1000000 62038464 3001%N None None None IPending 0 0.

Definition demo_deposit (amount : Z) : OnchainPayment :=
  mkOnchainPayment "5sig" 10 None "payer" "hot" "usdc" amount None CFinalized (Some 4001%N) 0 0.

Definition demo_run (step : string) : SagaRun :=
  mkSagaRun 5001%N 4001%N KindSettlement step SPending 0 0 None None None 0 0.

Definition demo_db (amount : Z) : DB :=
  mkDB chart_of_accounts [] [] [demo_merchant] [] [] [demo_quote] [demo_intent] [demo_deposit amount]
    [demo_run FirstStep] [] [].

Definition demo_bank : MockIDRBank := mkMockIDRBank "http://mockidrbank:9100" None.

Definition demo_runner : Runner :=
  mkRunner (settlement_registry (settlement_deps demo_bank))
    (mkConfig "w1" (500 * millisecond) (2 * second) (60 * second) 8 second (5 * minute))
    (NewBackoff second (5 * minute)).

Definition demo_world (amount : Z) : World := world_at second (demo_db amount).

(** The world after a tick at instant [t]. *)
Definition tick_at (t : Z) (w : World) : World := (Tick demo_runner (set_now w t)).2.

Lemma demo_settlement : exists deps, rails_ok deps /\ registry demo_runner = settlement_registry deps.
Proof. exists (settlement_deps demo_bank). split; [apply settlement_rails_ok|done]. Qed.

Lemma demo_registry_ok : registry_ok (registry demo_runner).
Proof. apply settlement_registry_ok, settlement_rails_ok. Qed.

Definition settlement_worker (r : Runner) : Prop :=
  exists deps, rails_ok deps /\ registry r = settlement_registry deps.

Lemma ticks_at (ts : list Z) w : ticks settlement_worker w (foldl (fun w t => tick_at t w) w ts).
Proof.
  revert w. induction ts as [|t ts IH]; intros w; simpl; [apply rtc_refl|].
  eapply rtc_l; [|apply IH]. exists demo_runner, t, (Tick demo_runner (set_now w t)).1.
  split; [apply demo_settlement|]. split; [apply demo_registry_ok|]. unfold tick_at. by destruct (Tick _ _).
Qed.

Lemma demo_books amount : books_ok (demo_db amount).
Proof. apply (books_same_ledger seeded_db); [done|apply seeded_books_ok]. Qed.

Lemma demo_backed amount : backed_world (demo_world amount).
Proof.
  split; simpl.
  - apply bank_inv_newServer.
  - intros st b Hin. by apply elem_of_nil in Hin.
  - intros p Hp. by apply elem_of_nil in Hp.
Qed.

(** ** The theorems at these worlds *)

Definition demo_account (k : nat) : Account :=
  default (mkAccount 0%N "" Asset "" 0) (chart_of_accounts !! k).

Lemma demo_ready :
  settlement_ready demo_bank (demo_world 62038464) (demo_run FirstStep) demo_intent (demo_deposit 62038464)
    demo_merchant (mkRecipient "014" "1234567890" "PT Warung") demo_quote
    (demo_account 0) (demo_account 1) (demo_account 7) (demo_account 6) (demo_account 3) (demo_account 4).
Proof.
  split; try reflexivity.
  - apply demo_books.
  - intros k _. split; by intros ?%elem_of_nil.
  - intros k _. split_and!; [by intros ?%elem_of_nil..|done].
  - simpl. lia.
  - vm_compute. discriminate.
Qed.

Lemma settlement_completes_witness :
  exists w' run po msg breq,
    nsteps (fun w w' => Tick demo_runner w = (Ok true, w')) 4 (demo_world 62038464) w' /\
    saga_runs (w_db w') = [run] /\ sr_state run = SCompleted /\
    disbursed (w_bank w') = [(uuid_string (po_id po), breq)] /\ req_amount_idr breq = 1000000 /\
    outbox (w_db w') = [msg].
Proof.
  destruct (settlement_completes demo_bank demo_runner eq_refl (demo_world 62038464) _ _ _ _ _ _ _ _ _ _ _ _ demo_ready)
    as (w' & run & po & msg & breq & Hn & Hr & Hs & _ & _ & _ & _ & Hd & Ha & _ & Ho & _).
  exists w', run, po, msg, breq. split_and!; done.
Defined.

Lemma succeeded_payouts_paid_witness :
  backed_world (foldl (fun w t => tick_at t w) (demo_world 62038464) [second; second]).
Proof. apply (succeeded_payouts_paid (demo_world 62038464)); [apply ticks_at|apply demo_backed]. Defined.

(** A payout is due and the next submission goes as [ev]. *)
Definition trigger_world (ev : net_event) : World :=
  set_net (world_at second (set_saga_runs (demo_db 62038464) [demo_run StepTriggerPayout])) [ev].

Definition answer_lost : World := trigger_world (NetResponseLost "timeout").
Definition answer_422 : World := trigger_world (NetForeign 422 (BodyText "account closed")).

(** The bank paid and its answer was lost: the run is retried and nothing else is
    recorded.  The payout was rejected: the run fails and nothing else is recorded. *)
Lemma failed_payout_untracked_witness :
  (disbursed (w_bank (Tick demo_runner answer_lost).2) <> [] /\
   exists row' w', Tick demo_runner answer_lost = (Ok true, w') /\
     w_db w' = set_saga_runs (w_db answer_lost) [row'] /\ sr_state row' = SPending) /\
  exists row' w', Tick demo_runner answer_422 = (Ok true, w') /\
    w_db w' = set_saga_runs (w_db answer_422) [row'] /\ sr_state row' = SFailed.
Proof.
  split; [split; [vm_compute; discriminate|]|].
  - destruct (failed_payout_untracked demo_runner demo_bank answer_lost (demo_run StepTriggerPayout))
      as (row' & w' & Hrun & Hd & Hid & _);
      [reflexivity|exact I|reflexivity|apply NoDup_singleton|vm_compute; reflexivity|reflexivity|simpl; unfold int32_max; lia
      |intros p Hp; by apply elem_of_nil in Hp|].
    exists row', w'. unfold put_run in Hd. rewrite Hid in Hd. split_and!; [exact Hrun|exact Hd|].
    assert (E : saga_runs (w_db (Tick demo_runner answer_lost).2) = [row']) by (rewrite Hrun; cbn [snd]; by rewrite Hd).
    vm_compute in E. injection E as <-. reflexivity.
  - destruct (failed_payout_untracked demo_runner demo_bank answer_422 (demo_run StepTriggerPayout))
      as (row' & w' & Hrun & Hd & Hid & _);
      [reflexivity|right; vm_compute; discriminate|reflexivity|apply NoDup_singleton|vm_compute; reflexivity|reflexivity|simpl; unfold int32_max; lia
      |intros p Hp; by apply elem_of_nil in Hp|].
    exists row', w'. unfold put_run in Hd. rewrite Hid in Hd. split_and!; [exact Hrun|exact Hd|].
    assert (E : saga_runs (w_db (Tick demo_runner answer_422).2) = [row']) by (rewrite Hrun; cbn [snd]; by rewrite Hd).
    vm_compute in E. injection E as <-. reflexivity.
Defined.

(** ** What the saga does not guarantee *)

(** The disbursements the bank made for an intent. *)
Definition paid_for (intent : string) (s : server) : list (string * Z) :=
  omap (fun kr => if String.eqb (req_intent_id kr.2) intent then Some (kr.1, req_amount_idr kr.2) else None)
    (disbursed s).

(** The first response of the bank is lost; the database answers throughout. *)
Definition lossy_world : World := set_net (demo_world 62038464) [NetResponseLost "timeout"].


(** The acknowledgement of the last step's commit is lost. *)
Definition lost_ack_world : World :=
  set_faults (foldl (fun w t => tick_at t w) (demo_world 62038464) [second; second; second])
    [FNone; FNone; FNone; FNone; FNone; FNone; FLost].

(** a lost commit acknowledgement announces a completion twice. The runner
    takes the lost answer for a failed step and schedules a retry by id alone,
    which reopens the run that had just completed; the next tick publishes a second
    intent.completed message for the same intent. *)
Theorem lost_ack_publishes_twice :
  let w1 := tick_at second lost_ack_world in
  let w2 := tick_at (10 * second) w1 in
  pi_state <$> payment_intents (w_db w1) = [ICompleted] /\
  sr_state <$> saga_runs (w_db w1) = [SPending] /\ length (outbox (w_db w1)) = 1%nat /\
  sr_state <$> saga_runs (w_db w2) = [SCompleted] /\
  (fun o => (ob_topic o, ob_aggregate_id o)) <$> outbox (w_db w2) =
    [("intent.completed", Some (pi_id demo_intent)); ("intent.completed", Some (pi_id demo_intent))].
Proof. vm_compute. split_and!; reflexivity. Qed.

(** the deposited amount is never compared with the quoted one. A finalized
    deposit of one millionth of a USDC settles an intent quoted at 62.038464 USDC:
    the bank pays the full million rupiah, the intent completes, and the liability
    towards users ends negative. *)
Theorem underpaid_deposit_settles :
  let w' := foldl (fun w t => tick_at t w) (demo_world 1) [second; second; second; second] in
  ticks settlement_worker (demo_world 1) w' /\
  pi_state <$> payment_intents (w_db w') = [ICompleted] /\
  paid_for (uuid_string (pi_id demo_intent)) (w_bank w') = [(uuid_string 4%N, 1000000)] /\
  account_sum (w_db w') (demo_account 1) = 1 - 62038464.
Proof. split; [apply ticks_at|]. vm_compute. split_and!; reflexivity. Qed.
