(* ===== verification/Quoter.v ===== *)
(** * The quote engine ([internal/quoter])

    [QuoteAmount] prices a rupiah amount in USDC minor units, [Issue] signs and
    persists the quote, [Verify] checks signature and expiry.  The clock of a
    [Quoter] is the injected [now] function. *)

From Stdlib Require Import QArith_base Qround Qfield.
From S2P Require Import Prelude GoStr Sha256 MockBank Models World Queries.

(** ** types.go, provider.go *)

Definition PairUSDCIDR : string := "USDC/IDR".

(** The rational [Num / 10^Scale]; an [int64] and an [int16]. *)
Record Rate := mkRate { Num : Z; Scale : Z }.

Record Quote := mkIssued {
  ID : uuid; Pair : string; QRate : Rate; SpreadBps : Z; ExpiresAt : Z;
  Signature : string; AmountIDR : Z; AmountUSDC : Z; CreatedAt : Z
}.

Definition ErrPairUnknown : err := ErrSentinel "quoter: pair not supported by provider".

(** The [Provider] interface. *)
Definition Provider : Type := string -> M Rate.

Definition MockProvider : Type := gmap string Rate.

(** The copy of the map: values are not shared. *)
Definition NewMockProvider (rates : gmap string Rate) : MockProvider := rates.

Definition DefaultMockRates : gmap string Rate := {[ PairUSDCIDR := mkRate 16200 0 ]}.

Definition MockProvider_Rate (m : MockProvider) : Provider := fun pair =>
  match m !! pair with
  | None => throw ErrPairUnknown
  | Some r => mret r
  end.

(** ** quoter.go *)

Definition USDCDecimals : Z := 6.

Definition ErrAmountNonPositive : err := ErrSentinel "quoter: amount must be positive".
Definition ErrInvalidRate : err := ErrSentinel "quoter: rate must be positive".
Definition ErrInvalidSpread : err := ErrSentinel "quoter: spread_bps must be in [0, 10000]".
Definition ErrBadSignature : err := ErrSentinel "quoter: quote signature does not verify".
Definition ErrQuoteExpired : err := ErrSentinel "quoter: quote is expired".

Record Quoter := mkQuoter {
  qr_pool : bool;
  qr_provider : Provider;
  qr_signingKey : string;
  qr_ttl : Z;
  qr_spreadBps : Z;
  qr_now : M Z
}.

Record Options := mkOptions { opt_TTL : Z; opt_SpreadBps : Z; opt_Now : option (M Z) }.

(** [pool] tells whether the pool is non-nil. *)
Definition New (pool : bool) (provider : Provider) (signingKey : string) (opts : Options) : Quoter :=
  mkQuoter pool provider signingKey
    (if opt_TTL opts <=? 0 then 60 * ns_per_s else opt_TTL opts)
    (opt_SpreadBps opts)
    (match opt_Now opts with None => get_now | Some f => f end).

(** The [int64] loop of [pow10]; a negative [n] runs it zero times. *)
Definition pow10 (n : Z) : Z := Nat.iter (Z.to_nat n) (fun r => wrap64 (r * 10)) 1.

Definition QuoteAmount (amountIDR : Z) (rate : Rate) (spreadBps : Z) : res Z :=
  if amountIDR <=? 0 then Err ErrAmountNonPositive
  else if Num rate <=? 0 then Err ErrInvalidRate
  else if (spreadBps <? 0) || (10000 <? spreadBps) then Err ErrInvalidSpread
  else
    let num := amountIDR * pow10 USDCDecimals * 10000 in
    let effRate0 := Num rate * (10000 - spreadBps) in
    let effRate := if 0 <? Scale rate then effRate0 * pow10 (Scale rate) else effRate0 in
    if effRate =? 0 then Err ErrInvalidRate
    else
      let out := Z.quot num effRate in
      if negb (is_int64 out) then Err (ErrMsg "quoter: computed amount overflows int64")
      else if out <=? 0 then Err (ErrMsg "quoter: computed amount rounds to zero")
      else Ok out.

(** The text the signature covers. *)
Definition canonical (q : Quote) : string :=
  "v1" +:+ newline +:+ Pair q
  +:+ newline +:+ FormatInt (Num (QRate q))
  +:+ newline +:+ FormatInt (Scale (QRate q))
  +:+ newline +:+ FormatInt (SpreadBps q)
  +:+ newline +:+ FormatInt (AmountIDR q)
  +:+ newline +:+ FormatInt (AmountUSDC q)
  +:+ newline +:+ FormatInt (ExpiresAt q / ns_per_s).

Definition signQuote (key : string) (q : Quote) : string := hmac_sha256 key (canonical q).

Section quoter.
Context `{Env} (q : Quoter).

Definition set_signature (qt : Quote) (sig : string) : Quote :=
  mkIssued (ID qt) (Pair qt) (QRate qt) (SpreadBps qt) (ExpiresAt qt) sig (AmountIDR qt)
    (AmountUSDC qt) (CreatedAt qt).

Definition set_row (qt : Quote) (row : Models.Quote) : Quote :=
  mkIssued (q_id row) (Pair qt) (QRate qt) (SpreadBps qt) (ExpiresAt qt) (Signature qt) (AmountIDR qt)
    (AmountUSDC qt) (q_created_at row).

Definition Issue (pair : string) (amountIDR : Z) : M Quote :=
  if amountIDR <=? 0 then throw ErrAmountNonPositive
  else if (qr_spreadBps q <? 0) || (10000 <? qr_spreadBps q) then throw ErrInvalidSpread
  else
    rate ← map_err (ErrWrap "fetch rate") (qr_provider q pair);
    if Num rate <=? 0 then throw ErrInvalidRate
    else
      amountUSDC ← lift_res (QuoteAmount amountIDR rate (qr_spreadBps q));
      now ← qr_now q;
      let expires := now + qr_ttl q in
      id ← draw_uuid;
      let qt0 := mkIssued id pair rate (qr_spreadBps q) expires "" amountIDR amountUSDC now in
      let qt := set_signature qt0 (signQuote (qr_signingKey q) qt0) in
      if qr_pool q then
        row ← map_err (ErrWrap "persist quote")
          (CreateQuote pair (Num rate) (Scale rate) (qr_spreadBps q) expires (Signature qt));
        mret (set_row qt row)
      else mret qt.

Definition Verify (qt : Quote) : M unit :=
  if negb (String.eqb (signQuote (qr_signingKey q) qt) (Signature qt)) then throw ErrBadSignature
  else
    now ← qr_now q;
    if negb (now <? ExpiresAt qt) then throw ErrQuoteExpired
    else mret tt.
End quoter.

(** ** Lemmas *)

(** [pow10] is exact up to the largest power of ten an [int64] holds, which
    covers every scale the schema admits. *)
Lemma int64_pow10 n : 0 <= n <= 18 -> pow10 n = 10 ^ n.
Proof.
  intros Hn. unfold pow10. rewrite <- (Z2Nat.id n) at 2 by lia.
  assert (Hk : (Z.to_nat n <= 18)%nat) by lia. generalize dependent (Z.to_nat n). clear n Hn. intros k Hk.
  induction k as [|k IH]; [done|]. change (Nat.iter (S k) ?f 1) with (f (Nat.iter k f 1)). cbv beta.
  rewrite IH by lia. rewrite Nat2Z.inj_succ, Z.pow_succ_r, Z.mul_comm by lia. apply wrap64_id, is_int64_spec.
  pose proof (Z.pow_pos_nonneg 10 (Z.of_nat k) ltac:(lia) ltac:(lia)).
  pose proof (Z.pow_le_mono_r 10 (Z.of_nat k) 17 ltac:(lia) ltac:(lia)).
  unfold int64_min, int64_max. lia.
Qed.

(** What the code divides by: the rate times the spread's rest, and the power of ten
    for the scale, which a rate of [Num / 10^Scale] would have on the other side. *)
Definition price_denominator (rate : Rate) (spreadBps : Z) : Z :=
  Num rate * (10000 - spreadBps) * 10 ^ Scale rate.

Lemma price_denominator_pos rate s :
  0 < Num rate -> s < 10000 -> 0 <= Scale rate -> 0 < price_denominator rate s.
Proof.
  intros. unfold price_denominator. pose proof (Z.pow_pos_nonneg 10 (Scale rate) ltac:(lia) ltac:(lia)).
  repeat apply Z.mul_pos_pos; lia.
Qed.

Lemma quot_iff a b v : 0 <= a -> 0 < b -> (Z.quot a b = v <-> v * b <= a < (v + 1) * b).
Proof.
  intros. rewrite Z.quot_div_nonneg by lia. split.
  - intros <-. pose proof (Z.mul_div_le a b). pose proof (Z.mul_succ_div_gt a b). nia.
  - intros. symmetry. apply (Z.div_unique a b v (a - v * b)); [left; lia|lia].
Qed.

Lemma quote_amount_iff idr rate s v :
  0 < idr -> 0 < Num rate -> 0 <= s < 10000 -> 0 <= Scale rate <= 18 ->
  QuoteAmount idr rate s = Ok v <->
  (0 < v <= int64_max /\
   v * price_denominator rate s <= idr * 10 ^ 10 < (v + 1) * price_denominator rate s).
Proof.
  intros Hi Hr Hs Hsc. pose proof (price_denominator_pos rate s ltac:(lia) ltac:(lia) ltac:(lia)) as Hd.
  rewrite <- quot_iff by lia. unfold QuoteAmount. rewrite (int64_pow10 USDCDecimals) by (unfold USDCDecimals; lia).
  replace (if 0 <? Scale rate then _ else _) with (price_denominator rate s).
  2: { unfold price_denominator. destruct (Z.ltb_spec 0 (Scale rate)); [by rewrite int64_pow10 by lia|].
       replace (Scale rate) with 0 by lia. lia. }
  replace (idr * 10 ^ USDCDecimals * 10000) with (idr * 10 ^ 10) by (unfold USDCDecimals; lia).
  rewrite (proj2 (Z.leb_gt idr 0)), (proj2 (Z.leb_gt (Num rate) 0)) by lia.
  rewrite (proj2 (Z.ltb_ge s 0)), (proj2 (Z.ltb_ge 10000 s)) by lia. simpl orb. cbv iota.
  rewrite (proj2 (Z.eqb_neq (price_denominator rate s) 0)) by lia.
  set (out := Z.quot _ _). destruct (is_int64 out) eqn:E64; simpl negb; cbv iota.
  - apply is_int64_spec in E64. destruct (Z.leb_spec out 0); split; intros Ho; simplify_eq; naive_solver lia.
  - split; [done|]. intros [? <-]. assert (is_int64 out = true) by (apply is_int64_spec; unfold int64_min, int64_max in *; lia).
    congruence.
Qed.

Lemma canonical_inj q q' :
  canonical q = canonical q' ->
  Pair q = Pair q' /\ QRate q = QRate q' /\ SpreadBps q = SpreadBps q' /\ AmountIDR q = AmountIDR q' /\
  AmountUSDC q = AmountUSDC q' /\ ExpiresAt q / ns_per_s = ExpiresAt q' / ns_per_s.
Proof.
  assert (Hnl : forall z, no_byte (Ascii.ascii_of_N 10) (FormatInt z))
    by (intros z; by apply no_byte_FormatInt).
  assert (Hcons : forall s, newline +:+ s = String (Ascii.ascii_of_N 10) s) by done.
  unfold canonical. rewrite !Hcons. set (nl := Ascii.ascii_of_N 10) in *.
  assert (Hassoc : forall a c s t, a +:+ String c (s +:+ t) = (a +:+ String c s) +:+ t).
  { intros a c s t. change (String c (s +:+ t)) with (String c s +:+ t). apply string_app_assoc. }
  rewrite !Hassoc. intros E.
  do 6 (apply split_last_byte in E as [E ?%FormatInt_inj]; [|done..]).
  assert (HP : Pair q = Pair q') by (by injection E).
  destruct (QRate q), (QRate q'). simpl in *. naive_solver.
Qed.

(** What an accepted signature says, whatever the clock. *)
Lemma verify_signature q qt w :
  (Verify q qt w).1 = Ok tt -> Signature qt = signQuote (qr_signingKey q) qt.
Proof.
  unfold Verify. destruct (String.eqb_spec (signQuote (qr_signingKey q) qt) (Signature qt)) as [->|]; [done|].
  simpl. discriminate.
Qed.

Lemma verify_signed q qt w :
  qr_now q = get_now -> Signature qt = signQuote (qr_signingKey q) qt ->
  (Verify q qt w).1 = if w_now w <? ExpiresAt qt then Ok tt else Err ErrQuoteExpired.
Proof.
  intros Hn Hs. unfold Verify. rewrite Hn, <- Hs, String.eqb_refl. cbn [negb].
  unfold mbind, M_bind, get_now. cbn [negb]. destruct (w_now w <? ExpiresAt qt); reflexivity.
Qed.

Lemma quote_amount_guards idr rate s v :
  QuoteAmount idr rate s = Ok v -> 0 < idr /\ 0 < Num rate /\ 0 <= s <= 10000.
Proof.
  unfold QuoteAmount. destruct (idr <=? 0) eqn:?; [done|]. destruct (Num rate <=? 0) eqn:?; [done|].
  destruct ((s <? 0) || (10000 <? s)) eqn:?; [done|]. bools. lia.
Qed.

(** [QuoteAmount] on valid inputs, given the quotient. *)
Definition priced (p : Z) : res Z :=
  if int64_max <? p then Err (ErrMsg "quoter: computed amount overflows int64")
  else if p <=? 0 then Err (ErrMsg "quoter: computed amount rounds to zero")
  else Ok p.

Lemma quote_amount_priced idr rate s :
  0 < idr -> 0 < Num rate -> 0 <= s < 10000 -> 0 <= Scale rate <= 18 ->
  QuoteAmount idr rate s = priced (idr * 10 ^ 10 / price_denominator rate s).
Proof.
  intros Hi Hr Hs Hsc. pose proof (price_denominator_pos rate s ltac:(lia) ltac:(lia) ltac:(lia)) as Hd.
  unfold QuoteAmount. rewrite (int64_pow10 USDCDecimals) by (unfold USDCDecimals; lia).
  replace (if 0 <? Scale rate then _ else _) with (price_denominator rate s).
  2: { unfold price_denominator. destruct (Z.ltb_spec 0 (Scale rate)); [by rewrite int64_pow10 by lia|].
       replace (Scale rate) with 0 by lia. lia. }
  replace (idr * 10 ^ USDCDecimals * 10000) with (idr * 10 ^ 10) by (unfold USDCDecimals; lia).
  rewrite (proj2 (Z.leb_gt idr 0)), (proj2 (Z.leb_gt (Num rate) 0)) by lia.
  rewrite (proj2 (Z.ltb_ge s 0)), (proj2 (Z.ltb_ge 10000 s)) by lia. simpl orb. cbv iota.
  rewrite (proj2 (Z.eqb_neq (price_denominator rate s) 0)), Z.quot_div_nonneg by lia.
  pose proof (Z.div_pos (idr * 10 ^ 10) (price_denominator rate s) ltac:(lia) Hd). unfold priced.
  set (out := _ / _) in *. destruct (is_int64 out) eqn:E64; simpl negb; cbv iota.
  - apply is_int64_spec in E64. by rewrite (proj2 (Z.ltb_ge _ _)) by lia.
  - apply not_true_iff_false in E64. rewrite is_int64_spec in E64. rewrite (proj2 (Z.ltb_lt _ _)); [done|].
    unfold int64_min in E64. lia.
Qed.

(** The price as types.go documents it: rupiah per USDC is the rational
    [Num / 10^Scale], of which the spread keeps [10000 - s] parts in 10000; the amount
    over that, in USDC units of [10^-6]. *)
Definition documented_price (idr : Z) (rate : Rate) (s : Z) : Q :=
  (inject_Z idr * inject_Z (10 ^ 6) /
   ((inject_Z (Num rate) / inject_Z (10 ^ Scale rate)) * (inject_Z (10000 - s) / inject_Z 10000)))%Q.

Lemma documented_quotient idr rate s :
  0 < Num rate -> 0 <= s < 10000 -> 0 <= Scale rate ->
  Qfloor (documented_price idr rate s / inject_Z (10 ^ (2 * Scale rate)))%Q = idr * 10 ^ 10 / price_denominator rate s.
Proof.
  intros Hr Hs Hsc. rewrite Zdiv_Qdiv. apply Qfloor_comp. unfold documented_price, price_denominator.
  replace (2 * Scale rate) with (Scale rate + Scale rate) by lia. rewrite Z.pow_add_r by lia.
  pose proof (Z.pow_pos_nonneg 10 (Scale rate) ltac:(lia) ltac:(lia)) as Hp.
  change (10 ^ 10) with (10 ^ 6 * 10000). set (t := 10 ^ Scale rate) in *. set (m := 10 ^ 6). rewrite !inject_Z_mult.
  assert (forall z : Z, 0 < z -> ~ (inject_Z z == 0)%Q) as Hnz
    by (intros z Hz E; unfold Qeq, inject_Z in E; simpl in E; lia).
  field. split_and!; apply Hnz; lia.
Qed.

Lemma Qdiv_one (q : Q) : (q / inject_Z (10 ^ (2 * 0)) == q)%Q.
Proof. change (inject_Z (10 ^ (2 * 0))) with 1%Q. field. Qed.

Section theorems.
Context `{Env}.

(** C32: What a quote costs against the rate as documented, rupiah per USDC being
    [Num / 10^Scale]: for a positive amount and rate, a spread below 100% and a scale
    the schema admits, [QuoteAmount] returns the documented price divided by
    [10^(2 * Scale)], rounded down, or an error when that is zero or no [int64].  So
    at whole-rupiah rates the price is exactly the documented one rounded down, and at
    every other rate it is too low by that power of ten. *)
Theorem QuoteAmount_price idr rate s :
  0 < idr -> 0 < Num rate -> 0 <= s < 10000 -> 0 <= Scale rate <= 18 ->
  QuoteAmount idr rate s = priced (Qfloor (documented_price idr rate s / inject_Z (10 ^ (2 * Scale rate)))%Q) /\
  (Scale rate = 0 -> QuoteAmount idr rate s = priced (Qfloor (documented_price idr rate s))).
Proof.
  intros Hi Hr Hs Hsc. pose proof (quote_amount_priced idr rate s Hi Hr Hs Hsc) as E.
  rewrite <- documented_quotient in E by lia. split; [done|]. intros E0. rewrite E, E0.
  f_equal. apply Qfloor_comp, Qdiv_one.
Qed.

(** A signature binds every field that prices the quote: two quotes that both
    verify under one key with the same signature agree on pair, rate, spread,
    both amounts and the second of expiry, or else they exhibit two distinct
    messages with the same HMAC-SHA256 under that key. *)
Theorem signature_binds q qt qt' w w' :
  (Verify q qt w).1 = Ok tt -> (Verify q qt' w').1 = Ok tt -> Signature qt = Signature qt' ->
  (Pair qt = Pair qt' /\ QRate qt = QRate qt' /\ SpreadBps qt = SpreadBps qt' /\
   AmountIDR qt = AmountIDR qt' /\ AmountUSDC qt = AmountUSDC qt' /\
   ExpiresAt qt / ns_per_s = ExpiresAt qt' / ns_per_s) \/
  (canonical qt <> canonical qt' /\
   hmac_sha256 (qr_signingKey q) (canonical qt) = hmac_sha256 (qr_signingKey q) (canonical qt')).
Proof.
  intros E%verify_signature E'%verify_signature Es.
  destruct (decide (canonical qt = canonical qt')) as [Hc|Hc]; [left; by apply canonical_inj|right].
  split; [done|]. unfold signQuote in *. congruence.
Qed.

(** The row [Issue] inserts. *)
Definition issued_row (q : Quoter) (pair : string) (rate : Rate) (sig : string) (w : World) : Models.Quote :=
  Models.mkQuote (gen_uuid (w_rng w + 1)) pair (Num rate) (Scale rate) (qr_spreadBps q)
    (to_micros (w_now w + qr_ttl q)) sig (w_now w).

(** The run of [Issue] on a reachable database. *)
Lemma issue_run q pair idr rate v w :
  w_faults w = [] -> qr_pool q = true -> qr_now q = get_now ->
  qr_provider q pair w = (Ok rate, w) -> 0 <= Scale rate <= 18 ->
  QuoteAmount idr rate (qr_spreadBps q) = Ok v ->
  pk_taken q_id (gen_uuid (w_rng w + 1)) (quotes (w_db w)) = false ->
  let qt0 := mkIssued (gen_uuid (w_rng w)) pair rate (qr_spreadBps q) (w_now w + qr_ttl q) "" idr v (w_now w) in
  let sg := signQuote (qr_signingKey q) qt0 in
  let row := issued_row q pair rate sg w in
  Issue q pair idr w =
    (Ok (set_row (set_signature qt0 sg) row),
     set_db (set_rng w (w_rng w + 1 + 1)%N) (set_quotes (w_db w) (quotes (w_db w) ++ [row]))).
Proof.
  intros Hf Hp Hn Hr Hsc Hq Hpk qt0 sg row. pose proof (quote_amount_guards _ _ _ _ Hq) as (Hi & Hnum & Hs).
  set (w1 := set_rng w (w_rng w + 1)%N).
  set (w' := set_db _ _).
  assert (Hc : CreateQuote pair (Num rate) (Scale rate) (qr_spreadBps q) (w_now w + qr_ttl q) sg w1 =
    (Ok row, w')).
  { unfold CreateQuote. rewrite stmt_run by done. simpl w_rng. simpl w_db. rewrite Hpk.
    rewrite (proj2 (Z.leb_gt (Num rate) 0)), (proj2 (Z.ltb_ge (Scale rate) 0)),
      (proj2 (Z.ltb_ge 18 (Scale rate))), (proj2 (Z.ltb_ge (qr_spreadBps q) 0)),
      (proj2 (Z.ltb_ge 10000 (qr_spreadBps q))) by lia. done. }
  unfold Issue. rewrite (proj2 (Z.leb_gt idr 0)), (proj2 (Z.ltb_ge (qr_spreadBps q) 0)),
    (proj2 (Z.ltb_ge 10000 (qr_spreadBps q))) by lia.
  cbn [orb]. erewrite bind_run by (unfold map_err; by rewrite Hr).
  rewrite (proj2 (Z.leb_gt (Num rate) 0)), Hq, Hn, Hp by lia.
  unfold mbind, M_bind, lift_res, get_now, draw_uuid, map_err. cbv beta iota zeta.
  fold w1 qt0. cbn [Signature set_signature]. fold sg. by rewrite Hc.
Qed.

(** C16: Issuing works and its result is honoured until it expires: with a reachable
    database and a provider that quotes the pair, [Issue] returns a quote priced
    by [QuoteAmount] that expires after the configured time to live, the quotes
    table gains exactly its row, and from then on [Verify] accepts it strictly
    before its expiry and answers [ErrQuoteExpired] from that instant on. *)
Theorem Issue_issues q pair idr rate v w :
  w_faults w = [] -> qr_pool q = true -> qr_now q = get_now ->
  qr_provider q pair w = (Ok rate, w) -> 0 <= Scale rate <= 18 ->
  QuoteAmount idr rate (qr_spreadBps q) = Ok v ->
  pk_taken q_id (gen_uuid (w_rng w + 1)) (quotes (w_db w)) = false ->
  exists qt w',
    Issue q pair idr w = (Ok qt, w') /\
    (AmountIDR qt = idr /\ AmountUSDC qt = v /\ QRate qt = rate /\ ExpiresAt qt = w_now w + qr_ttl q) /\
    w_db w' = set_quotes (w_db w) (quotes (w_db w) ++ [issued_row q pair rate (Signature qt) w]) /\
    ID qt = q_id (issued_row q pair rate (Signature qt) w) /\
    forall u, (Verify q qt u).1 = if w_now u <? w_now w + qr_ttl q then Ok tt else Err ErrQuoteExpired.
Proof.
  intros Hf Hp Hn Hr Hsc Hq Hpk. rewrite (issue_run q pair idr rate v w) by done. eexists _, _. split; [reflexivity|].
  split_and!; try done. intros u. by rewrite verify_signed.
Qed.
End theorems.

(** ** What the quoter touches *)

(** A provider and a clock that only look up. *)
Class ProviderOk (q : Quoter) : Prop := {
  provider_db pair : keeps eq (qr_provider q pair);
  provider_world pair R `{!WorldRel R} : wkeeps R (qr_provider q pair);
  clock_db : keeps eq (qr_now q);
  clock_world R `{!WorldRel R} : wkeeps R (qr_now q)
}.

Section frames.
Context `{Env}.

Lemma keeps_Issue (R : DB -> DB -> Prop) `{!PreOrder R} q pair idr :
  ProviderOk q -> (forall p n s b e g, keeps R (CreateQuote p n s b e g)) -> keeps R (Issue q pair idr).
Proof.
  intros Hq Hw. unfold Issue. pose proof (keeps_eq R _ (provider_db pair)). pose proof (keeps_eq R _ clock_db). keeps_auto.
Qed.

Lemma wkeeps_Issue (R : World -> World -> Prop) `{!WorldRel R} q pair idr : ProviderOk q -> wkeeps R (Issue q pair idr).
Proof.
  intros Hq. unfold Issue. pose proof (provider_world pair R). pose proof (clock_world R).
  assert (wkeeps R draw_uuid) by (intros w; apply wr_rng). wkeeps_auto.
Qed.
End frames.

(** ** Witnesses *)

Definition demo_quoter : Quoter :=
  New true (MockProvider_Rate (NewMockProvider DefaultMockRates)) "sk"
    (mkOptions (60 * ns_per_s) 50 None).

Lemma QuoteAmount_price_witness :
  QuoteAmount 16200000 (mkRate 16200 0) 50 = Ok 1005025125 /\
  QuoteAmount 16200000 (mkRate 16200 0) 50 = priced (Qfloor (documented_price 16200000 (mkRate 16200 0) 50)) /\
  QuoteAmount 16200000 (mkRate 162005 1) 50 =
    priced (Qfloor (documented_price 16200000 (mkRate 162005 1) 50 / inject_Z 100)%Q).
Proof.
  split_and!; [vm_compute; reflexivity|..].
  - apply (QuoteAmount_price 16200000 (mkRate 16200 0) 50); simpl; lia.
  - apply (QuoteAmount_price 16200000 (mkRate 162005 1) 50); simpl; lia.
Defined.

(** A quote issued by the demo quoter in an empty database. *)
Definition demo_issued : Quote :=
  Eval vm_compute in
    match (Issue (H := example_env) demo_quoter PairUSDCIDR 16200000 (world_at 0 empty_db)).1 with
    | Ok qt => qt
    | Err _ => mkIssued 0%N "" (mkRate 0 0) 0 0 "" 0 0 0
    end.

Lemma Issue_issues_witness :
  exists qt w',
    Issue (H := example_env) demo_quoter PairUSDCIDR 16200000 (world_at 0 empty_db) = (Ok qt, w') /\
    AmountUSDC qt = 1005025125.
Proof.
  destruct (@Issue_issues example_env demo_quoter PairUSDCIDR 16200000 (mkRate 16200 0) 1005025125
    (world_at 0 empty_db)) as (qt & w' & Hrun & (? & Hv & ?) & _).
  1-7: first [reflexivity | simpl; lia].
  exists qt, w'. split; [exact Hrun|exact Hv].
Defined.

Lemma signature_binds_witness :
  (Pair demo_issued = Pair demo_issued /\ AmountUSDC demo_issued = 1005025125) \/
  canonical demo_issued <> canonical demo_issued.
Proof.
  destruct (@signature_binds demo_quoter demo_issued demo_issued
    (world_at 0 empty_db) (world_at 0 empty_db)) as [(HP & _)|[HC _]].
  1-3: vm_compute; reflexivity.
  - left. split; [exact HP|reflexivity].
  - right. exact HC.
Defined.
