(* ===== verification/Pricing.v ===== *)
(** * Pricing and settlement

    The quoter fixes how much USDC an intent costs; [apply_payout_result] later
    converts that amount back at the mid rate and refuses to book a negative
    spread.  The theorems here relate the two computations. *)

From S2P Require Import Prelude GoStr Sha256 MockBank Models World GoJson Queries Ledger Payout Saga SagaSteps Quoter.

Lemma mid_small usdc R :
  0 <= usdc <= int64_max -> 0 <= R <= 10 ^ 6 -> computeMidIDR usdc R 0 = usdc * R / 10 ^ 6.
Proof.
  intros Hu HR. unfold computeMidIDR. change (10 ^ Z.max 0 (6 + 0)) with (10 ^ 6).
  rewrite Z.quot_div_nonneg by lia.
  assert (0 <= usdc * R / 10 ^ 6 <= usdc).
  { split; [apply Z.div_pos; nia|]. apply Z.div_le_upper_bound; nia. }
  destruct (is_int64 (usdc * R / 10 ^ 6)) eqn:E; [done|].
  assert (is_int64 (usdc * R / 10 ^ 6) = true) by (apply is_int64_spec; unfold int64_min in *; lia). congruence.
Qed.

(** A quote pays for its payout: at a whole-rupiah rate, when the spread on the
    amount is worth at least one rounding step of the USDC price, the quoted USDC
    converted back at the mid rate covers the rupiah amount, so
    [apply_payout_result] books a non-negative spread instead of failing the saga
    after the bank has paid. *)
Theorem quote_covers_payout idr R s usdc :
  0 <= s < 10000 -> R <= 10 ^ 6 -> R * (10000 - s) <= idr * 10 ^ 6 * s ->
  QuoteAmount idr (mkRate R 0) s = Ok usdc ->
  idr <= computeMidIDR usdc R 0.
Proof.
  intros Hs HR Hc Hq. pose proof (quote_amount_guards _ _ _ _ Hq) as (Hi & Hr & _). simpl in Hr.
  apply quote_amount_iff in Hq as [Hv [_ Hq]]; simpl; try lia.
  unfold price_denominator in Hq. simpl in Hq. rewrite Z.mul_1_r in Hq.
  rewrite mid_small by lia. apply Z.div_le_lower_bound; nia.
Qed.

(** Without a spread the rounding goes the other way: at a whole-rupiah rate and
    a zero spread the mid value of the quote is below the rupiah amount exactly
    when the amount is not a whole number of USDC minor units, so every such
    intent fails terminally in [apply_payout_result] after the bank has paid. *)
Theorem zero_spread_falls_short idr R usdc :
  R <= 10 ^ 6 -> QuoteAmount idr (mkRate R 0) 0 = Ok usdc ->
  computeMidIDR usdc R 0 < idr <-> (idr * 10 ^ 6) mod R <> 0.
Proof.
  intros HR Hq. pose proof (quote_amount_guards _ _ _ _ Hq) as (Hi & Hr & _). simpl in Hr.
  apply quote_amount_iff in Hq as [Hv Hq]; simpl; try lia.
  unfold price_denominator in Hq. simpl in Hq. rewrite Z.mul_1_r in Hq.
  rewrite mid_small by lia.
  assert (Hu : usdc = idr * 10 ^ 6 / R) by (apply (Z.div_unique _ _ _ (idr * 10 ^ 6 - R * usdc)); [left|]; nia).
  pose proof (Z.div_mod (idr * 10 ^ 6) R ltac:(lia)) as Hd. rewrite <- Hu in Hd.
  pose proof (Z.mod_pos_bound (idr * 10 ^ 6) R Hr). split.
  - intros Hlt E. rewrite E in Hd. replace (usdc * R) with (idr * 10 ^ 6) in Hlt by lia.
    rewrite Z.div_mul in Hlt by lia. lia.
  - intros Hne. apply Z.div_lt_upper_bound; lia.
Qed.

(** With the shipped rate of 16200 rupiah and the default spread of 50 basis
    points every amount that can be quoted is covered. *)
Theorem default_quote_covers idr usdc :
  QuoteAmount idr (mkRate 16200 0) 50 = Ok usdc -> idr <= computeMidIDR usdc 16200 0.
Proof.
  intros Hq. pose proof (quote_amount_guards _ _ _ _ Hq) as (Hi & _ & _).
  apply quote_amount_iff in Hq as [Hv Hq]; simpl; try lia.
  unfold price_denominator in Hq. simpl in Hq.
  rewrite mid_small by lia. apply Z.div_le_lower_bound; [lia|].
  destruct (decide (idr < 4)); [|lia].
  assert (idr = 1 \/ idr = 2 \/ idr = 3) as [-> | [-> | ->]] by lia; lia.
Qed.

(** The scale of a rate is applied in opposite directions: 162000 with scale 1
    is the rate 16200, but it is quoted at a hundredth of the price, and the
    settlement values that price at a hundredth of the amount. *)
Theorem scaled_rate_misquoted :
  QuoteAmount 16200000 (mkRate 16200 0) 0 = Ok 1000000000 /\
  QuoteAmount 16200000 (mkRate 162000 1) 0 = Ok 10000000 /\
  computeMidIDR 1000000000 162000 1 = 16200000 /\
  computeMidIDR 10000000 162000 1 = 162000.
Proof. vm_compute. auto. Qed.

(** ** Witnesses *)

Lemma quote_covers_payout_witness : 16200000 <= computeMidIDR 1005025125 16200 0.
Proof. apply (quote_covers_payout 16200000 16200 50 1005025125); [lia|lia|lia|vm_compute; reflexivity]. Defined.

Lemma zero_spread_falls_short_witness : computeMidIDR 61 16200 0 < 1 <-> (1 * 10 ^ 6) mod 16200 <> 0.
Proof. apply (zero_spread_falls_short 1 16200 61); [lia|vm_compute; reflexivity]. Defined.

Lemma default_quote_covers_witness : 50000 <= computeMidIDR 3101929 16200 0.
Proof. apply (default_quote_covers 50000 3101929). vm_compute. reflexivity. Defined.
