(* ===== verification/AesGcm.v ===== *)
(** * AES-256-GCM ([crypto/aes], [crypto/cipher])

    The block cipher (FIPS 197) with 32-byte keys and the GCM mode (SP 800-38D)
    with the standard 12-byte nonce and 16-byte tag and no additional data, as
    [cipher.NewGCM] provides them, executable. *)

From S2P Require Import Prelude GoStr Sha256.
From Stdlib Require Import Ascii String.

Implicit Types (x y b : Z) (bs st w : list Z).

(** ** The field with 256 elements *)

Definition xtime x : Z := Z.land (Z.lxor (Z.shiftl x 1) (if 128 <=? x then 0x1b else 0)) 255.

Fixpoint gf_mul_bits (n : nat) x y : Z :=
  match n with
  | O => 0
  | S n => Z.lxor (if Z.odd y then x else 0) (gf_mul_bits n (xtime x) (Z.shiftr y 1))
  end.
Definition gf_mul x y : Z := gf_mul_bits 8 x y.

(** The inverse is the 254th power. *)
Definition gf_inv x : Z := Nat.iter 253 (gf_mul x) x.

Definition rotl8 x (k : Z) : Z := Z.land (Z.lor (Z.shiftl x k) (Z.shiftr x (8 - k))) 255.

Definition sbox_byte x : Z :=
  let i := gf_inv x in
  foldl Z.lxor 0x63 [i; rotl8 i 1; rotl8 i 2; rotl8 i 3; rotl8 i 4].

Definition sbox : list Z := Eval vm_compute in sbox_byte ∘ Z.of_nat <$> seq 0 256.
Definition sub x : Z := nth (Z.to_nat x) sbox 0.

(** ** The cipher

    The state is its 16 bytes, column by column. *)

Definition xor_bytes bs bs' : list Z := zip_with Z.lxor bs bs'.

Definition shift_rows st : list Z :=
  (fun i => nth (4 * ((i / 4 + i mod 4) mod 4) + i mod 4) st 0) <$> seq 0 16.

Definition mix_column w : list Z :=
  match w with
  | [a; b; c; d] =>
    let m x y z t := Z.lxor (Z.lxor (xtime x) (Z.lxor (xtime y) y)) (Z.lxor z t) in
    [m a b c d; m b c d a; m c d a b; m d a b c]
  | _ => w
  end.

Definition columns st : list (list Z) := (fun i => take 4 (drop (4 * i) st)) <$> seq 0 4.
Definition mix_columns st : list Z := columns st ≫= mix_column.

(** The key schedule, latest word first: [n] more words. *)
Fixpoint expand_key (n : nat) (i : Z) (ws : list (list Z)) : list (list Z) :=
  match n with
  | O => ws
  | S n =>
    let last := nth 0 ws [] in
    let t :=
      if i mod 8 =? 0 then
        xor_bytes (sub <$> (drop 1 last ++ take 1 last)) [Nat.iter (Z.to_nat (i / 8 - 1)) xtime 1; 0; 0; 0]
      else if i mod 8 =? 4 then sub <$> last
      else last in
    expand_key n (i + 1) (xor_bytes (nth 7 ws []) t :: ws)
  end.

(** The 15 round keys. *)
Definition round_keys (key : list Z) : list (list Z) :=
  let ws := rev (expand_key 52 8 (rev ((fun i => take 4 (drop (4 * i) key)) <$> seq 0 8))) in
  (fun i => List.concat (take 4 (drop (4 * i) ws))) <$> seq 0 15.

Definition aes_round (st rk : list Z) : list Z := xor_bytes (mix_columns (shift_rows (sub <$> st))) rk.

(** One block under the round keys. *)
Definition encrypt_block (rks : list (list Z)) (block : list Z) : list Z :=
  let st := foldl aes_round (xor_bytes block (nth 0 rks [])) (take 13 (drop 1 rks)) in
  xor_bytes (shift_rows (sub <$> st)) (nth 14 rks []).

(** ** GCM *)

Fixpoint be_value (acc : Z) bs : Z := match bs with [] => acc | b :: bs => be_value (acc * 256 + b) bs end.
Definition be_bytes (n : nat) x : list Z := (fun i => Z.land (Z.shiftr x (8 * Z.of_nat (n - 1 - i))) 255) <$> seq 0 n.

(** Product in the field with 2^128 elements, bit 127 first. *)
Fixpoint ghash_mul (n : nat) x v acc : Z :=
  match n with
  | O => acc
  | S n =>
    ghash_mul n x (if Z.odd v then Z.lxor (Z.shiftr v 1) (Z.shiftl 0xe1 120) else Z.shiftr v 1)
      (if Z.testbit x (Z.of_nat n) then Z.lxor acc v else acc)
  end.

Fixpoint ghash (fuel : nat) (h acc : Z) bs : Z :=
  match fuel, bs with
  | O, _ | _, [] => acc
  | S fuel, _ =>
    let block := take 16 bs in
    let x := Z.lxor acc (be_value 0 (block ++ repeat 0 (16 - List.length block))) in
    ghash fuel h (ghash_mul 128 x h 0) (drop 16 bs)
  end.

Section gcm.
Context (key nonce : string).

Definition gcm_keys : list (list Z) := round_keys (bytes_of key).
Definition counter_block (n : Z) : list Z := bytes_of nonce ++ be_bytes 4 n.

(** The key stream for [k] blocks. *)
Fixpoint stream_blocks (rks : list (list Z)) (k : nat) (n : Z) : list Z :=
  match k with
  | O => []
  | S k => encrypt_block rks (counter_block n) ++ stream_blocks rks k (n + 1)
  end.
Definition keystream (len : nat) : string := string_of (stream_blocks gcm_keys ((len + 15) / 16) 2).

(** The tag of a ciphertext. *)
Definition gcm_tag (ct : string) : string :=
  let rks := gcm_keys in
  let h := be_value 0 (encrypt_block rks (repeat 0 16)) in
  let bs := bytes_of ct in
  let s := ghash (List.length bs) h 0 bs in
  let s := ghash_mul 128 (Z.lxor s (8 * Z.of_nat (List.length bs))) h 0 in
  string_of (be_bytes 16 (Z.lxor s (be_value 0 (encrypt_block rks (counter_block 1))))).
End gcm.

Definition xor_ascii (c d : ascii) : ascii :=
  match c, d with
  | Ascii a0 a1 a2 a3 a4 a5 a6 a7, Ascii b0 b1 b2 b3 b4 b5 b6 b7 =>
    Ascii (xorb a0 b0) (xorb a1 b1) (xorb a2 b2) (xorb a3 b3) (xorb a4 b4) (xorb a5 b5) (xorb a6 b6) (xorb a7 b7)
  end.

Fixpoint xor_string (s ks : string) : string :=
  match s, ks with
  | String c s, String d ks => String (xor_ascii c d) (xor_string s ks)
  | _, _ => s
  end.

Definition NonceSize : nat := 12.
Definition Overhead : nat := 16.
Definition ErrOpen : err := ErrSentinel "cipher: message authentication failed".

(** [aead.Seal(nil, nonce, plaintext, nil)]. *)
Definition Seal (key nonce plaintext : string) : string :=
  let ct := xor_string plaintext (keystream key nonce (String.length plaintext)) in
  ct +:+ gcm_tag key nonce ct.

(** [s[:n]] and [s[n:]]. *)
Fixpoint str_prefix (n : nat) (s : string) : string :=
  match n, s with S n, String c s => String c (str_prefix n s) | _, _ => "" end.
Fixpoint str_suffix (n : nat) (s : string) : string :=
  match n, s with S n, String c s => str_suffix n s | _, _ => s end.

(** [aead.Open(nil, nonce, ciphertext, nil)]. *)
Definition Open (key nonce ciphertext : string) : res string :=
  let n := (String.length ciphertext - Overhead)%nat in
  if (String.length ciphertext <? Overhead)%nat then Err ErrOpen
  else
    let ct := str_prefix n ciphertext in
    if String.eqb (str_suffix n ciphertext) (gcm_tag key nonce ct)
    then Ok (xor_string ct (keystream key nonce n)) else Err ErrOpen.

(** ** Test vectors *)

(** FIPS 197, appendix C.3. *)
Example aes256_fips197 :
  hex (string_of (encrypt_block (round_keys (Z.of_nat <$> seq 0 32)) ((fun i => 17 * Z.of_nat i) <$> seq 0 16))) =
  "8ea2b7ca516745bfeafc49904b496089".
Proof. vm_compute. reflexivity. Qed.

(** Test case 14 of the GCM specification: zero key, nonce and block. *)
Example gcm_test_case_14 :
  hex (Seal (repeat_byte "000" 32) (repeat_byte "000" 12) (repeat_byte "000" 16)) =
  "cea7403d4d606b6e074ec5d3baf39d18d0d1c8a799996bf0265b98b5d48ab919".
Proof. vm_compute. reflexivity. Qed.

(** ** Lemmas *)

Lemma xor_ascii_involutive c d : xor_ascii (xor_ascii c d) d = c.
Proof. destruct c, d. simpl. f_equal; by rewrite xorb_assoc, xorb_nilpotent, xorb_false_r. Qed.

Lemma xor_string_involutive s ks : xor_string (xor_string s ks) ks = s.
Proof.
  revert ks. induction s as [|c s IH]; intros [|d ks]; try done. cbn [xor_string]. by rewrite xor_ascii_involutive, IH.
Qed.

Lemma xor_string_length s ks : String.length (xor_string s ks) = String.length s.
Proof. revert ks. induction s as [|c s IH]; intros [|d ks]; try done. cbn [xor_string String.length]. by rewrite IH. Qed.

Lemma string_of_length bs : String.length (string_of bs) = List.length bs.
Proof. unfold string_of. induction bs as [|b bs IH]; [done|]. exact (f_equal S IH). Qed.

Lemma gcm_tag_length key nonce ct : String.length (gcm_tag key nonce ct) = Overhead.
Proof. unfold gcm_tag. rewrite string_of_length. unfold be_bytes. by rewrite length_fmap, length_seq. Qed.

Lemma str_prefix_app s t : str_prefix (String.length s) (s +:+ t) = s.
Proof. induction s as [|c s IH]; [by destruct t|]. exact (f_equal (String c) IH). Qed.

Lemma str_suffix_app s t : str_suffix (String.length s) (s +:+ t) = t.
Proof. induction s as [|c s IH]; [by destruct t|]. exact IH. Qed.

Lemma length_app_str s t : String.length (s +:+ t) = (String.length s + String.length t)%nat.
Proof. induction s as [|c s IH]; [done|]. exact (f_equal S IH). Qed.

Lemma Seal_length key nonce p : String.length (Seal key nonce p) = (String.length p + Overhead)%nat.
Proof. unfold Seal. by rewrite length_app_str, xor_string_length, gcm_tag_length. Qed.

(** Opening what was sealed gives the plaintext. *)
Lemma Open_Seal key nonce p : Open key nonce (Seal key nonce p) = Ok p.
Proof.
  unfold Open. rewrite Seal_length. rewrite (proj2 (Nat.ltb_ge _ _)) by lia. rewrite Nat.add_sub. unfold Seal.
  set (ct := xor_string p (keystream key nonce (String.length p))).
  assert (Hn : String.length p = String.length ct) by (unfold ct; by rewrite xor_string_length).
  rewrite !Hn, str_prefix_app, str_suffix_app, String.eqb_refl, <- Hn. unfold ct. by rewrite xor_string_involutive.
Qed.

(** What opens is what was sealed under that key and nonce. *)
Lemma Open_sound key nonce s p : Open key nonce s = Ok p -> s = Seal key nonce p.
Proof.
  unfold Open. destruct (Nat.ltb_spec (String.length s) Overhead); [done|]. set (n := (String.length s - Overhead)%nat).
  destruct (String.eqb_spec (str_suffix n s) (gcm_tag key nonce (str_prefix n s))) as [E|]; [|done]. intros [= <-].
  assert (Hsplit : forall k t, str_prefix k t +:+ str_suffix k t = t).
  { intros k. induction k as [|k IH]; intros [|c t]; try done. exact (f_equal (String c) (IH t)). }
  assert (Hlen : forall k t, (k <= String.length t)%nat -> String.length (str_prefix k t) = k).
  { intros k. induction k as [|k IH]; intros [|c t] Hk; simpl in *; try lia. by rewrite IH by lia. }
  unfold Seal. rewrite xor_string_length, Hlen by lia. rewrite xor_string_involutive, <- E. by rewrite Hsplit.
Qed.
