(* ===== verification/GoUrl.v ===== *)
(** * URLs ([net/url])

    Query escaping, [url.Values] and [url.Parse].  [parse_Encode]: encoded values parse
    back. *)

From S2P Require Import Prelude GoStr.
From Stdlib Require Import Ascii String.

Implicit Types (s t k v : string) (c : ascii).

(** ** Escaping *)

Definition is_alnum c : bool :=
  let b := byte_of c in
  ((48 <=? b) && (b <=? 57)) || ((65 <=? b) && (b <=? 90)) || ((97 <=? b) && (b <=? 122)).

(** Bytes a query component keeps. *)
Definition unreserved c : bool := is_alnum c || has_byte c "-_.~".

Definition upper_hex (n : Z) : ascii := ascii_of_N (Z.to_N (if n <? 10 then 48 + n else 55 + n)).

(** [url.QueryEscape]. *)
Fixpoint QueryEscape s : string :=
  match s with
  | EmptyString => ""
  | String c s =>
    if unreserved c then String c (QueryEscape s)
    else if Ascii.eqb c " " then String "+" (QueryEscape s)
    else String "%" (String (upper_hex (byte_of c / 16)) (String (upper_hex (byte_of c mod 16)) (QueryEscape s)))
  end.

Definition unhex c : option Z :=
  let b := byte_of c in
  if (48 <=? b) && (b <=? 57) then Some (b - 48)
  else if (97 <=? b) && (b <=? 102) then Some (b - 87)
  else if (65 <=? b) && (b <=? 70) then Some (b - 55)
  else None.

(** [url.QueryUnescape]; [plus]: a plus sign is a space. *)
Fixpoint unescape (plus : bool) s : option string :=
  match s with
  | EmptyString => Some ""
  | String c s1 =>
    if Ascii.eqb c "%" then
      match s1 with
      | String a (String b s2) =>
        match unhex a, unhex b, unescape plus s2 with
        | Some x, Some y, Some t => Some (String (ascii_of_N (Z.to_N (16 * x + y))) t)
        | _, _, _ => None
        end
      | _ => None
      end
    else match unescape plus s1 with
    | Some t => Some (String (if plus && Ascii.eqb c "+" then " "%char else c) t)
    | None => None
    end
  end.

Definition QueryUnescape s : option string := unescape true s.

(** ** Values

    A [url.Values] map as the list of its key-value pairs; the values of one key
    are in order, the order of different keys has no meaning. *)

Definition Values : Type := list (string * string).

Definition values (q : Values) k : list string := snd <$> List.filter (fun kv => String.eqb kv.1 k) q.

Definition Values_Add (q : Values) k v : Values := q ++ [(k, v)].
Definition Values_Set (q : Values) k v : Values := List.filter (fun kv => negb (String.eqb kv.1 k)) q ++ [(k, v)].
Definition Values_Get (q : Values) k : string := default "" (head (values q k)).

(** Sorting by key, keeping the order of equal keys. *)
Fixpoint insert_pair (kv : string * string) (q : Values) : Values :=
  match q with
  | [] => [kv]
  | kv' :: q' => if String.leb kv.1 kv'.1 then kv :: q else kv' :: insert_pair kv q'
  end.

Definition sort_pairs (q : Values) : Values := foldr insert_pair [] q.

Definition encode_pair (kv : string * string) : string := QueryEscape kv.1 +:+ "=" +:+ QueryEscape kv.2.

Fixpoint join_amp (l : list string) : string :=
  match l with
  | [] => ""
  | [x] => x
  | x :: l' => x +:+ "&" +:+ join_amp l'
  end.

(** [Values.Encode]. *)
Definition Values_Encode (q : Values) : string := join_amp (encode_pair <$> sort_pairs q).

(** The strings between the separators. *)
Fixpoint split_on (b : ascii) s : list string :=
  match s with
  | EmptyString => [""]
  | String c s =>
    if Ascii.eqb c b then "" :: split_on b s
    else match split_on b s with
    | [] => [String c ""]
    | p :: ps => String c p :: ps
    end
  end.

(** One [key=value] of a query; [None]: skipped. *)
Definition parse_pair part : option (string * string) :=
  if has_byte ";" part || bool_decide (part = "") then None
  else
    let '(k, v) := match cut_byte "=" part with Some kv => kv | None => (part, "") end in
    match QueryUnescape k, QueryUnescape v with
    | Some k, Some v => Some (k, v)
    | _, _ => None
    end.

(** [u.Query()]: malformed pairs are skipped and their errors ignored.  (The cap on
    the number of parameters, 10000, is left out.) *)
Definition ParseQuery s : Values := omap parse_pair (split_on "&" s).

(** ** URLs *)

Record URL := mkURL { Scheme : string; Opaque : string; Host : string; Path : string; RawQuery : string }.

(** [&url.URL{Scheme: ..., Opaque: ..., RawQuery: ...}]. *)
Definition opaque_URL scheme opaque query : URL := mkURL scheme opaque "" "" query.

(** [u.String()] of an opaque URL. *)
Definition URL_String (u : URL) : string :=
  Scheme u +:+ ":" +:+ Opaque u +:+ (if bool_decide (RawQuery u = "") then "" else "?" +:+ RawQuery u).

Fixpoint has_ctl s : bool :=
  match s with
  | EmptyString => false
  | String c s => (byte_of c <? 32) || (byte_of c =? 127) || has_ctl s
  end.

Definition is_letter c : bool :=
  let b := byte_of c in ((65 <=? b) && (b <=? 90)) || ((97 <=? b) && (b <=? 122)).

(** The loop of [getScheme] from index [i] > 0 on: the bytes before the colon and
    the rest, or no scheme. *)
Fixpoint scheme_tail s : option (string * string) :=
  match s with
  | EmptyString => None
  | String c s =>
    if Ascii.eqb c ":" then Some ("", s)
    else if is_alnum c || has_byte c "+-." then
      match scheme_tail s with Some (p, r) => Some (String c p, r) | None => None end
    else None
  end.

Definition lower_byte c : ascii :=
  let b := byte_of c in if (65 <=? b) && (b <=? 90) then ascii_of_N (Z.to_N (b + 32)) else c.
Fixpoint ToLower s : string := match s with EmptyString => "" | String c s => String (lower_byte c) (ToLower s) end.

(** [strings.ToLower] as far as ASCII letters result: besides the capitals, the
    dotted capital I and the Kelvin sign become ASCII letters. *)
Fixpoint lower_text (s : string) : string :=
  match s with
  | String a (String b s' as s1) =>
    if (byte_of a =? 196) && (byte_of b =? 176) then String "i" (lower_text s')
    else match s' with
    | String c s'' =>
      if (byte_of a =? 226) && (byte_of b =? 132) && (byte_of c =? 170) then String "k" (lower_text s'')
      else String (lower_byte a) (lower_text s1)
    | EmptyString => String (lower_byte a) (lower_text s1)
    end
  | String a EmptyString => String (lower_byte a) ""
  | EmptyString => ""
  end.

(** The scheme, in lower case, and the rest. *)
Definition getScheme s : res (string * string) :=
  match s with
  | EmptyString => Ok ("", "")
  | String c s' =>
    if Ascii.eqb c ":" then Err (ErrMsg "missing protocol scheme")
    else if is_letter c then
      match scheme_tail s' with Some (p, r) => Ok (ToLower (String c p), r) | None => Ok ("", s) end
    else Ok ("", s)
  end.

Definition cut_at (b : ascii) s : string * string :=
  match cut_byte b s with Some lr => lr | None => (s, "") end.

(** The text before and after the last [b]. *)
Fixpoint cut_last (b : ascii) s : option (string * string) :=
  match s with
  | EmptyString => None
  | String c s' =>
    match cut_last b s' with
    | Some (l, r) => Some (String c l, r)
    | None => if Ascii.eqb c b then Some ("", s') else None
    end
  end.

(** ASCII bytes a host may contain. *)
Definition host_byte c : bool := unreserved c || has_byte c "!$&'()*+,;=:[]<>" || (byte_of c =? 34).

(** [unescape(host, encodeHost)]: only non-ASCII bytes and the percent sign may be
    escaped. *)
Fixpoint unescape_host s : res string :=
  match s with
  | EmptyString => Ok ""
  | String c s1 =>
    if Ascii.eqb c "%" then
      match s1 with
      | String a (String b s2) =>
        match unhex a, unhex b with
        | Some x, Some y =>
          if (x <? 8) && negb (16 * x + y =? 37) then Err (ErrMsg "invalid URL escape")
          else match unescape_host s2 with Ok t => Ok (String (ascii_of_N (Z.to_N (16 * x + y))) t) | Err e => Err e end
        | _, _ => Err (ErrMsg "invalid URL escape")
        end
      | _ => Err (ErrMsg "invalid URL escape")
      end
    else if (byte_of c <? 128) && negb (host_byte c) then Err (ErrMsg "invalid character in host name")
    else match unescape_host s1 with Ok t => Ok (String c t) | Err e => Err e end
  end.

(** [parseHost].  (An IP literal in brackets is kept as it is.) *)
Definition parseHost s : res string :=
  if has_byte "[" s then Ok s
  else match cut_byte ":" s with
  | None => unescape_host s
  | Some (_, port) => if all_digits port then unescape_host s else Err (ErrMsg "invalid port after host")
  end.

Fixpoint validUserinfo s : bool :=
  match s with EmptyString => true | String c s => (is_alnum c || has_byte c "-._:~!$&'()*+,;=%@") && validUserinfo s end.

(** The host of an authority. *)
Definition parseAuthority s : res string :=
  match cut_last "@" s with
  | None => parseHost s
  | Some (userinfo, host) =>
    match parseHost host with
    | Err e => Err e
    | Ok h =>
      if negb (validUserinfo userinfo) then Err (ErrMsg "net/url: invalid userinfo")
      else match unescape false userinfo with Some _ => Ok h | None => Err (ErrMsg "invalid URL escape") end
    end
  end.

Definition starts_with p s : bool := String.prefix p s.

(** [setPath]. *)
Definition set_path scheme host query p : res URL :=
  match unescape false p with
  | Some path => Ok (mkURL scheme "" host path query)
  | None => Err (ErrMsg "invalid URL escape")
  end.

(** [parse]: the URL without its fragment. *)
Definition parse_url s : res URL :=
  if has_ctl s then Err (ErrMsg "net/url: invalid control character in URL")
  else if bool_decide (s = "*") then Ok (mkURL "" "" "" "*" "")
  else match getScheme s with
  | Err e => Err e
  | Ok (scheme, rest) =>
    let '(rest, query) := cut_at "?" rest in
    if negb (starts_with "/" rest) && negb (bool_decide (scheme = "")) then Ok (opaque_URL scheme rest query)
    else if negb (starts_with "/" rest) && has_byte ":" (cut_at "/" rest).1 then
      Err (ErrMsg "first path segment in URL cannot contain colon")
    else if starts_with "//" rest && (negb (bool_decide (scheme = "")) || negb (starts_with "///" rest)) then
      let after := substring 2 (String.length rest - 2) rest in
      let '(authority, path) := match cut_byte "/" after with Some (a, p) => (a, String "/" p) | None => (after, "") end in
      match parseAuthority authority with
      | Err e => Err e
      | Ok host => set_path scheme host query path
      end
    else set_path scheme "" query rest
  end.

(** [url.Parse]: a fragment must unescape. *)
Definition url_Parse s : res URL :=
  let '(u, frag) := cut_at "#" s in
  match parse_url u with
  | Err e => Err e
  | Ok url => match unescape false frag with Some _ => Ok url | None => Err (ErrMsg "invalid URL escape") end
  end.

Example parse_authority_url :
  url_Parse "solana://7vfC?amount=1" = Ok (mkURL "solana" "" "7vfC" "" "amount=1") /\
  url_Parse "http://user@host:80/a%20b?q#f" = Ok (mkURL "http" "" "host:80" "/a b" "q") /\
  url_Parse "solana:7vfC?amount=1" = Ok (opaque_URL "solana" "7vfC" "amount=1").
Proof. vm_compute. split_and!; reflexivity. Qed.

(** ** Lemmas *)

Lemma is_alnum_unreserved c : is_alnum c = true -> unreserved c = true.
Proof. unfold unreserved. by intros ->. Qed.

Lemma escape_byte_cases c :
  (unreserved c = true /\ c <> "%"%char /\ c <> "+"%char) \/ (unreserved c = false /\ c = " "%char) \/
  (unreserved c = false /\ c <> " "%char /\ unhex (upper_hex (byte_of c / 16)) = Some (byte_of c / 16) /\
   unhex (upper_hex (byte_of c mod 16)) = Some (byte_of c mod 16) /\
   ascii_of_N (Z.to_N (16 * (byte_of c / 16) + byte_of c mod 16)) = c).
Proof.
  destruct c as [[] [] [] [] [] [] [] []]; vm_compute;
    first [left; split_and!; (reflexivity || discriminate) | right; left; split; reflexivity | right; right; split_and!; (reflexivity || discriminate)].
Qed.

(** Escaping is undone by unescaping. *)
Lemma QueryUnescape_Escape s : QueryUnescape (QueryEscape s) = Some s.
Proof.
  unfold QueryUnescape. induction s as [|c s IH]; [done|]. cbn [QueryEscape].
  destruct (escape_byte_cases c) as [(Hu & H1 & H2)|[[Hu ->]|(Hu & H1 & Ha & Hb & Hc)]]; rewrite Hu.
  - cbn [unescape]. destruct (Ascii.eqb_spec c "%"), (Ascii.eqb_spec c "+"); try done. by rewrite IH.
  - change (Ascii.eqb " " " ") with true. cbv iota. cbn [unescape]. by rewrite IH.
  - destruct (Ascii.eqb_spec c " "); [done|]. cbn [unescape]. change (Ascii.eqb "%" "%") with true. cbv iota.
    by rewrite Ha, Hb, IH, Hc.
Qed.

(** An escaped text has no byte with a meaning in a query. *)
Definition query_byte c : bool := unreserved c || Ascii.eqb c "+" || Ascii.eqb c "%".

Fixpoint all_bytes (P : ascii -> bool) s : bool :=
  match s with EmptyString => true | String c s => P c && all_bytes P s end.

Lemma all_bytes_no P b s : P b = false -> all_bytes P s = true -> no_byte b s.
Proof.
  unfold no_byte. intros Hb. induction s as [|c s IH]; [done|]. cbn [all_bytes has_byte]. intros [Hc Hs]%andb_true_iff.
  destruct (Ascii.eqb_spec c b) as [->|]; [congruence|]. by apply IH.
Qed.

Lemma all_bytes_app P s t : all_bytes P (s +:+ t) = all_bytes P s && all_bytes P t.
Proof.
  induction s as [|c s IH]; [done|]. change (String c s +:+ t) with (String c (s +:+ t)). cbn [all_bytes]. by rewrite IH, andb_assoc.
Qed.

Lemma escape_query_bytes s : all_bytes query_byte (QueryEscape s) = true.
Proof.
  induction s as [|c s IH]; [done|]. cbn [QueryEscape]. unfold query_byte in *. destruct (unreserved c) eqn:Hu.
  - cbn [all_bytes]. by rewrite Hu, IH.
  - destruct (Ascii.eqb c " "); cbn [all_bytes]; rewrite IH; [done|].
    assert (forall n, 0 <= n < 16 -> unreserved (upper_hex n) = true) as Hh.
    { intros n Hn. assert (Hall : forallb (fun i => unreserved (upper_hex (Z.of_nat i))) (seq 0 16) = true) by reflexivity.
      rewrite forallb_forall in Hall. specialize (Hall (Z.to_nat n) ltac:(apply in_seq; lia)). by rewrite Z2Nat.id in Hall by lia. }
    assert (0 <= byte_of c < 256) by (unfold byte_of; pose proof (N_ascii_bounded c); lia).
    rewrite !Hh by zlia. done.
Qed.

Lemma parse_encode_pair kv : parse_pair (encode_pair kv) = Some kv.
Proof.
  destruct kv as [k v]. unfold parse_pair, encode_pair. cbn [fst snd]. change ("=" +:+ ?x) with (String "=" x).
  pose proof (escape_query_bytes k) as Hk. pose proof (escape_query_bytes v) as Hv.
  assert (Hsemi : has_byte ";" (QueryEscape k +:+ String "=" (QueryEscape v)) = false).
  { apply (all_bytes_no (fun c => query_byte c || Ascii.eqb c "=")); [done|]. rewrite all_bytes_app. cbn [all_bytes].
    assert (Hw : forall s, all_bytes query_byte s = true -> all_bytes (fun c => query_byte c || Ascii.eqb c "=") s = true).
    { clear. intros s. induction s as [|c s IH]; [done|]. cbn [all_bytes]. intros [Hc Hs]%andb_true_iff. rewrite Hc. by apply IH. }
    rewrite !Hw by done. done. }
  rewrite Hsemi, bool_decide_false by (by destruct (QueryEscape k)). cbn [orb].
  rewrite cut_byte_sep by (by apply (all_bytes_no query_byte)). by rewrite !QueryUnescape_Escape.
Qed.

Lemma split_on_no b s : no_byte b s -> split_on b s = [s].
Proof.
  unfold no_byte. induction s as [|c s IH]; [done|]. cbn [has_byte split_on]. intros [-> Hs]%orb_false_iff. by rewrite IH.
Qed.

Lemma split_on_app b s t : no_byte b s -> split_on b (s +:+ String b t) = s :: split_on b t.
Proof.
  unfold no_byte. induction s as [|c s IH]; intros Hs.
  - simpl. by rewrite Ascii.eqb_refl.
  - cbn [has_byte] in Hs. apply orb_false_iff in Hs as [Hc Hs].
    change (String c s +:+ String b t) with (String c (s +:+ String b t)). cbn [split_on]. by rewrite Hc, IH.
Qed.

Lemma no_byte_encode_pair b kv : query_byte b = false -> b <> "="%char -> no_byte b (encode_pair kv).
Proof.
  intros Hb He. unfold encode_pair. pose proof (all_bytes_no query_byte b _ Hb (escape_query_bytes kv.1)) as H1.
  pose proof (all_bytes_no query_byte b _ Hb (escape_query_bytes kv.2)) as H2. unfold no_byte in *.
  assert (Happ : forall s t, has_byte b (s +:+ t) = has_byte b s || has_byte b t).
  { clear. intros s t. induction s as [|c s IH]; [done|]. change (String c s +:+ t) with (String c (s +:+ t)). cbn [has_byte].
    by rewrite IH, orb_assoc. }
  rewrite !Happ, H1, H2. cbn [has_byte]. by destruct (Ascii.eqb_spec "=" b) as [<-|].
Qed.

Lemma parse_joined q : q <> [] -> ParseQuery (join_amp (encode_pair <$> q)) = q.
Proof.
  induction q as [|kv q IH]; [done|]. intros _. destruct q as [|kv' q].
  - unfold ParseQuery. simpl. rewrite split_on_no by (by apply no_byte_encode_pair). simpl. by rewrite parse_encode_pair.
  - change (join_amp (encode_pair <$> kv :: kv' :: q)) with (encode_pair kv +:+ String "&" (join_amp (encode_pair <$> kv' :: q))).
    unfold ParseQuery in *. rewrite split_on_app by (by apply no_byte_encode_pair). cbn [omap list_omap].
    rewrite parse_encode_pair, IH by done. done.
Qed.

(** Encoded values parse back, sorted by key. *)
Lemma parse_Encode q : ParseQuery (Values_Encode q) = sort_pairs q.
Proof.
  unfold Values_Encode. destruct (sort_pairs q) as [|kv q'] eqn:E; [done|]. by apply parse_joined.
Qed.

Lemma leb_refl s : String.leb s s = true.
Proof.
  unfold String.leb. assert (String.compare s s = Eq) as ->; [|done]. induction s as [|c s IH]; [done|].
  cbn [String.compare]. unfold Ascii.compare. by rewrite N.compare_refl.
Qed.

(** Sorting keeps the values of every key. *)
Lemma values_insert_pair kv q k : values (insert_pair kv q) k = values (kv :: q) k.
Proof.
  unfold values. induction q as [|kv' q IH]; [done|]. cbn [insert_pair]. destruct (String.leb kv.1 kv'.1) eqn:E; [done|].
  cbn [List.filter] in *. destruct (String.eqb_spec kv'.1 k) as [Hk'|]; [|exact IH].
  rewrite fmap_cons, IH. destruct (String.eqb_spec kv.1 k) as [Hk|]; [|done].
  exfalso. rewrite Hk, <- Hk' in E. by rewrite leb_refl in E.
Qed.

Lemma values_sorted q k : values (sort_pairs q) k = values q k.
Proof.
  induction q as [|kv q IH]; [done|]. simpl. rewrite values_insert_pair. unfold values in *. cbn [List.filter].
  destruct (String.eqb kv.1 k); [rewrite !fmap_cons; by f_equal|exact IH].
Qed.

Lemma values_app q q' k : values (q ++ q') k = values q k ++ values q' k.
Proof. unfold values. by rewrite List.filter_app, fmap_app. Qed.

Lemma values_Add q k k' v : values (Values_Add q k' v) k = values q k ++ (if String.eqb k' k then [v] else []).
Proof. unfold Values_Add. rewrite values_app. f_equal. unfold values. simpl. by destruct (String.eqb k' k). Qed.

Lemma values_Set q k k' v : values (Values_Set q k' v) k = if String.eqb k' k then [v] else values q k.
Proof.
  unfold Values_Set. rewrite values_app. assert (E : values [(k', v)] k = if String.eqb k' k then [v] else [])
    by (unfold values; simpl; by destruct (String.eqb k' k)).
  rewrite E. clear E. unfold values. destruct (String.eqb_spec k' k) as [->|Hk].
  - induction q as [|kv q IH]; [done|]. cbn [List.filter]. destruct (String.eqb_spec kv.1 k); cbn [negb]; [exact IH|].
    cbn [List.filter]. by destruct (String.eqb_spec kv.1 k).
  - rewrite app_nil_r. induction q as [|kv q IH]; [done|]. cbn [List.filter].
    destruct (String.eqb_spec kv.1 k') as [E'|], (String.eqb_spec kv.1 k) as [E|]; cbn [negb List.filter]; try congruence; try exact IH.
    + rewrite E, String.eqb_refl, !fmap_cons. by f_equal.
    + destruct (String.eqb_spec kv.1 k); [done|exact IH].
Qed.

(** The bytes of an encoded query. *)
Definition encoded_byte c : bool := query_byte c || Ascii.eqb c "=" || Ascii.eqb c "&".

Lemma all_bytes_weaken (P Q : ascii -> bool) s :
  (forall c, P c = true -> Q c = true) -> all_bytes P s = true -> all_bytes Q s = true.
Proof.
  intros HPQ. induction s as [|c s IH]; [done|]. cbn [all_bytes]. intros [Hc Hs]%andb_true_iff. by rewrite HPQ, IH.
Qed.

Lemma encode_bytes q : all_bytes encoded_byte (Values_Encode q) = true.
Proof.
  assert (Hw : forall s, all_bytes encoded_byte (QueryEscape s) = true).
  { intros s. eapply all_bytes_weaken; [|apply escape_query_bytes]. intros c Hc. unfold encoded_byte. by rewrite Hc. }
  unfold Values_Encode. induction (sort_pairs q) as [|kv q' IH]; [done|].
  assert (Hp : all_bytes encoded_byte (encode_pair kv) = true) by (unfold encode_pair; by rewrite !all_bytes_app, !Hw).
  destruct q' as [|kv' q']; [exact Hp|].
  change (join_amp (encode_pair <$> kv :: kv' :: q')) with (encode_pair kv +:+ "&" +:+ join_amp (encode_pair <$> kv' :: q')).
  by rewrite !all_bytes_app, Hp, IH.
Qed.

Lemma has_ctl_bytes P s : (forall c, P c = true -> 32 <= byte_of c < 127) -> all_bytes P s = true -> has_ctl s = false.
Proof.
  intros HP. induction s as [|c s IH]; [done|]. cbn [all_bytes has_ctl]. intros [Hc Hs]%andb_true_iff. apply HP in Hc.
  rewrite IH by done. rewrite (proj2 (Z.ltb_ge _ _)), (proj2 (Z.eqb_neq _ _)) by lia. done.
Qed.

Lemma cut_at_none b s : no_byte b s -> cut_at b s = (s, "").
Proof.
  unfold cut_at, no_byte. intros Hs. enough (cut_byte b s = None) as -> by done.
  induction s as [|c s IH]; [done|]. cbn [has_byte cut_byte] in *. apply orb_false_iff in Hs as [-> Hs]. by rewrite IH.
Qed.

(** An opaque URL whose opaque part is letters and digits parses back. *)
Lemma url_Parse_String scheme opaque q :
  scheme = "solana" -> opaque <> "" -> all_bytes is_alnum opaque = true ->
  url_Parse (URL_String (opaque_URL scheme opaque (Values_Encode q))) = Ok (opaque_URL scheme opaque (Values_Encode q)).
Proof.
  intros -> Hne Ho. set (query := Values_Encode q). pose proof (encode_bytes q : all_bytes encoded_byte query = true) as Hq.
  set (P c := is_alnum c || encoded_byte c || Ascii.eqb c ":" || Ascii.eqb c "?").
  assert (HP : forall s, all_bytes encoded_byte s = true -> all_bytes P s = true)
    by (intros s; apply all_bytes_weaken; intros c Hc; unfold P; by rewrite Hc, !orb_true_r).
  assert (HoP : all_bytes P opaque = true)
    by (eapply all_bytes_weaken; [|exact Ho]; intros c Hc; unfold P; by rewrite Hc).
  unfold URL_String, opaque_URL. cbn [Scheme Opaque RawQuery].
  set (tail := opaque +:+ (if bool_decide (query = "") then "" else "?" +:+ query)).
  assert (HtP : all_bytes P tail = true)
    by (unfold tail; rewrite all_bytes_app, HoP; case_bool_decide; [done|]; by rewrite all_bytes_app, (HP query)).
  change ("solana" +:+ ":" +:+ tail) with ("solana:" +:+ tail).
  assert (Hall : all_bytes P ("solana:" +:+ tail) = true) by (rewrite all_bytes_app; by rewrite HtP).
  assert (Hprint : forall c, P c = true -> 32 <= byte_of c < 127).
  { intros c. clear. destruct c as [[] [] [] [] [] [] [] []]; vm_compute; intros; (discriminate || (split; [discriminate|reflexivity])). }
  unfold url_Parse. rewrite cut_at_none by (by apply (all_bytes_no P)). unfold parse_url. rewrite (has_ctl_bytes P) by done.
  rewrite bool_decide_false by done.
  change (getScheme ("solana:" +:+ tail)) with (Ok ("solana", tail)). cbv iota beta. cbn [unescape].
  assert (Hoq : no_byte "?" opaque) by (by apply (all_bytes_no is_alnum)).
  assert (Hcut : cut_at "?" tail = (opaque, query)).
  { unfold tail. case_bool_decide as E.
    - rewrite E. assert (Hnil : opaque +:+ "" = opaque) by (clear; induction opaque as [|c s IH]; [done|exact (f_equal (String c) IH)]).
      rewrite Hnil. by apply cut_at_none.
    - unfold cut_at. change ("?" +:+ query) with (String "?" query). by rewrite cut_byte_sep. }
  rewrite Hcut. rewrite (bool_decide_false ("solana" = "")) by done. destruct opaque as [|c o]; [done|].
  cbn [all_bytes] in Ho. destruct c as [[] [] [] [] [] [] [] []]; try reflexivity. discriminate Ho.
Qed.
