(* ===== verification/Mux.v ===== *)
(** * The request multiplexer ([net/http.ServeMux])

    How a mux takes a request path apart and matches it with the patterns it was
    given: on the path as it was sent, escapes included, which is cleaned first; a
    path that is not clean is redirected and reaches no handler. *)

From S2P Require Import Prelude GoStr Models World Http GoUrl.
From Stdlib Require Import Ascii String.

(** ** [path.Clean] *)

(** The elements of the path, with [.] and empty ones dropped and [..] taking the one
    before it back. *)
Definition clean_step (rooted : bool) (acc : list string) (e : string) : list string :=
  if bool_decide (e = "") || bool_decide (e = ".") then acc
  else if bool_decide (e = "..") then
    match acc with
    | [] => if rooted then [] else [".."]
    | x :: acc' => if bool_decide (x = "..") then ".." :: acc else acc'
    end
  else e :: acc.

Definition path_Clean (p : string) : string :=
  let rooted := match p with String c _ => Ascii.eqb c "/" | EmptyString => false end in
  let t := String.concat "/" (reverse (foldl (clean_step rooted) [] (split_on "/" p))) in
  if rooted then "/" +:+ t else if bool_decide (t = "") then "." else t.

Example clean_paths :
  path_Clean "" = "." /\ path_Clean "/../a//b/./c/.." = "/a/b" /\ path_Clean "../../x" = "../../x" /\ path_Clean "a/.." = ".".
Proof. vm_compute. repeat split. Qed.

(** ** [URL.EscapedPath] *)

(** Bytes a path keeps. *)
Definition path_byte (c : ascii) : bool := unreserved c || has_byte c "$&+,/:;=@".

Fixpoint path_escape (s : string) : string :=
  match s with
  | EmptyString => ""
  | String c s =>
    if path_byte c then String c (path_escape s)
    else String "%" (String (upper_hex (byte_of c / 16)) (String (upper_hex (byte_of c mod 16)) (path_escape s)))
  end.

(** [validEncoded]: an encoding of a path that may differ from the default one. *)
Fixpoint valid_encoded (s : string) : bool :=
  match s with
  | EmptyString => true
  | String c s => (has_byte c "!$&'()*+,;=:@[]%" || path_byte c) && valid_encoded s
  end.

Definition EscapedPath (path raw : string) : string :=
  if negb (String.eqb raw "") && valid_encoded raw && bool_decide (unescape false raw = Some path) then raw
  else if String.eqb path "*" then "*" else path_escape path.

(** ** Paths and patterns *)

(** The mux's [cleanPath]: rooted and clean, a slash at the end kept. *)
Definition cleanPath (p : string) : string :=
  if String.eqb p "" then "/"
  else
    let p := match p with String c _ => if Ascii.eqb c "/" then p else "/" +:+ p | EmptyString => p end in
    let np := path_Clean p in
    if bool_decide (String.get (String.length p - 1) p = Some "/"%char) && negb (String.eqb np "/") then np +:+ "/" else np.

(** A segment, unescaped if it can be. *)
Definition pathUnescape (s : string) : string := default s (unescape false s).

(** The segments of a rooted path; what follows a slash at the end is the segment
    ["/"]. *)
Definition path_segments (p : string) : list string :=
  match split_on "/" p with
  | _ :: l => (fun s => if String.eqb s "" then "/" else pathUnescape s) <$> l
  | [] => []
  end.

(** The segments a request is matched by; [None] when the mux redirects it to its
    clean path. *)
Definition mux_path (r : Request) : option (list string) :=
  let p := EscapedPath (URL_Path r) (URL_RawPath r) in
  if String.eqb (cleanPath p) p then Some (path_segments p) else None.

Definition is_wildcard (seg : string) : bool := match seg with String c _ => Ascii.eqb c "{" | EmptyString => false end.

(** The wildcards' values: a wildcard takes any segment but the final slash. *)
Fixpoint match_pattern (pat segs : list string) : option (list string) :=
  match pat, segs with
  | [], [] => Some []
  | x :: pat, s :: segs =>
    if is_wildcard x then (if String.eqb s "/" then None else (fun vs => s :: vs) <$> match_pattern pat segs)
    else if String.eqb x s then match_pattern pat segs else None
  | _, _ => None
  end.

(** A pattern without a method, against a request. *)
Definition mux_match (pattern : string) (r : Request) : option (list string) :=
  segs ← mux_path r; match_pattern (path_segments pattern) segs.

(** A request with this path as sent. *)
Definition path_request (path raw : string) : Request := mkRequest "GET" path raw ∅ (Ok "") None None.

Example mux_paths :
  mux_match "/v1/payment_intents/{id}" (path_request "/v1/payment_intents/7" "") = Some ["7"] /\
  mux_match "/v1/payment_intents/{id}" (path_request "/v1/payment_intents/." "") = None /\
  mux_match "/v1/payment_intents/{id}" (path_request "/v1/payment_intents/" "") = None /\
  mux_match "/v1/payment_intents/{id}" (path_request "/v1/payment_intents/a/b" "/v1/payment_intents/a%2Fb") = Some ["a/b"] /\
  mux_match "/v1/payment_intents/{id}" (path_request "/v1//payment_intents/7" "") = None /\
  mux_match "/healthz" (path_request "/healthz" "/%68ealthz") = Some [].
Proof. vm_compute. repeat split. Qed.
