(* ===== verification/SolanaPay.v ===== *)
(** * Solana Pay amounts ([internal/solanapay/url.go])

    The decimal text of a token amount and its inverse, over [uint64]. *)

From S2P Require Import Prelude GoStr GoJson.
From Stdlib Require Import Ascii String.

Implicit Types (s t : string) (raw decimals : Z).

(** The [uint64] loop of [pow10]. *)
Definition pow10 (n : Z) : Z := Nat.iter (Z.to_nat n) (fun r => wrapu64 (r * 10)) 1.

(** [None] is the run-time panic of a division by zero. *)
Definition FormatAmount raw decimals : option string :=
  if decimals =? 0 then Some (FormatUint raw)
  else
    let divisor := pow10 decimals in
    if divisor =? 0 then None
    else
      let whole := raw / divisor in
      let frac := raw mod divisor in
      if frac =? 0 then Some (FormatUint whole)
      else
        let fracStr := trim_right_byte "0" (pad_zero (Z.to_nat decimals) frac) in
        Some (FormatUint whole +:+ "." +:+ fracStr).

(** [strings.SplitN(s, ".", 2)]: the whole part and the rest, if any. *)
Definition split_point s : string * option string :=
  match cut_byte "." s with
  | None => (s, None)
  | Some (l, r) => (l, Some r)
  end.

(** The loop that right-pads to [decimals] digits. *)
Definition pad_right (width : nat) s : string := s +:+ repeat_byte "0" (width - String.length s).

Definition ParseAmount s decimals : res Z :=
  if bool_decide (s = "") then Err (ErrMsg "solanapay: empty amount")
  else if has_byte "e" s || has_byte "E" s then
    Err (ErrMsg ("solanapay: exponential notation not supported: " +:+ Quote_q s))
  else
    let '(w, f) := split_point s in
    match ParseUint w with
    | Err e => Err (ErrWrap "solanapay: parse whole part" e)
    | Ok whole =>
      let multiplier := pow10 decimals in
      if (0 <? multiplier) && ((2 ^ 64 - 1) / multiplier <? whole) then
        Err (ErrMsg ("solanapay: amount overflow: " +:+ Quote_q s))
      else
        let result := wrapu64 (whole * multiplier) in
        match f with
        | None => Ok result
        | Some frac =>
          if decimals <? Z.of_nat (String.length frac) then
            Err (ErrMsg ("solanapay: fractional part " +:+ Quote_q frac +:+ " exceeds " +:+ FormatInt decimals +:+ " decimals"))
          else match ParseUint (pad_right (Z.to_nat decimals) frac) with
          | Err e => Err (ErrWrap "solanapay: parse fractional part" e)
          | Ok f => Ok (wrapu64 (result + f))
          end
        end
    end.

(** ** Lemmas *)

Lemma uint64_pow10 n : 0 <= n <= 19 -> pow10 n = 10 ^ n.
Proof.
  intros Hn. unfold pow10. rewrite <- (Z2Nat.id n) at 2 by lia.
  assert (Hk : (Z.to_nat n <= 19)%nat) by lia. generalize dependent (Z.to_nat n). clear n Hn. intros k Hk.
  induction k as [|k IH]; [done|]. change (Nat.iter (S k) ?f 1) with (f (Nat.iter k f 1)). cbv beta.
  rewrite IH by lia. rewrite Nat2Z.inj_succ, Z.pow_succ_r, Z.mul_comm by lia. unfold wrapu64. apply Z.mod_small.
  pose proof (Z.pow_pos_nonneg 10 (Z.of_nat k) ltac:(lia) ltac:(lia)).
  pose proof (Z.pow_le_mono_r 10 (Z.of_nat k) 18 ltac:(lia) ltac:(lia)). lia.
Qed.

Lemma trim_right_pad b s :
  trim_right_byte b s +:+ repeat_byte b (String.length s - String.length (trim_right_byte b s)) = s.
Proof.
  induction s as [|c s IH]; [done|]. cbn [trim_right_byte String.length].
  destruct (Ascii.eqb_spec c b) as [->|]; cbn [andb].
  - case_bool_decide as Ht.
    + rewrite Ht in IH. cbn [String.length] in IH. rewrite Nat.sub_0_r in IH. exact (f_equal (String b) IH).
    + cbn [String.length Nat.sub]. exact (f_equal (String b) IH).
  - cbn [String.length Nat.sub]. exact (f_equal (String c) IH).
Qed.

Lemma trim_right_length b s : (String.length (trim_right_byte b s) <= String.length s)%nat.
Proof. induction s as [|c s IH]; simpl; [done|]. case_match; simpl; lia. Qed.

Lemma string_length_app s t : String.length (s +:+ t) = (String.length s + String.length t)%nat.
Proof. induction s as [|c s IH]; [done|]. exact (f_equal S IH). Qed.

Lemma repeat_byte_length b k : String.length (repeat_byte b k) = k.
Proof. induction k; simpl; congruence. Qed.

Lemma all_digits_app s t : all_digits (s +:+ t) = all_digits s && all_digits t.
Proof.
  induction s as [|c s IH]; [done|]. change (String c s +:+ t) with (String c (s +:+ t)). simpl. by rewrite IH, andb_assoc.
Qed.

Lemma all_digits_zeros k : all_digits (repeat_byte "0" k) = true.
Proof. induction k; [done|exact IHk]. Qed.

Lemma dec_value_zeros k s : dec_value 0 (repeat_byte "0" k +:+ s) = dec_value 0 s.
Proof. induction k; [done|exact IHk]. Qed.

(** A numeral of [k] digits or more is at least 10^(k-1). *)
Lemma dec_digits_length fuel n s (k : nat) :
  0 <= n < 10 ^ Z.of_nat k -> (0 < k)%nat -> (String.length (dec_digits fuel n s) <= k + String.length s)%nat.
Proof.
  revert n s k. induction fuel as [|fuel IH]; intros n s k Hn Hk; [simpl; lia|].
  cbn -[Z.modulo Z.div Z.pow]. case_match; bools; [simpl; lia|].
  destruct k as [|[|k]]; [lia|simpl in Hn; lia|].
  etrans; [apply (IH _ _ (S k)); [|lia]|simpl; lia].
  rewrite Nat2Z.inj_succ, Z.pow_succ_r in Hn by lia. zlia.
Qed.

Lemma FormatUint_length n (k : nat) :
  0 <= n < 10 ^ Z.of_nat k -> (0 < k)%nat -> (String.length (FormatUint n) <= k)%nat.
Proof. intros. unfold FormatUint. etrans; [by apply dec_digits_length|]. simpl. lia. Qed.

Lemma pad_zero_length n (k : nat) :
  0 <= n < 10 ^ Z.of_nat k -> (0 < k)%nat -> String.length (pad_zero k n) = k.
Proof.
  intros Hn Hk. unfold pad_zero. rewrite string_length_app, repeat_byte_length.
  pose proof (FormatUint_length n k Hn Hk). lia.
Qed.

Lemma ParseUint_digits s :
  s <> "" -> all_digits s = true -> dec_value 0 s < 2 ^ 64 -> ParseUint s = Ok (dec_value 0 s).
Proof.
  intros Hs Hd Hv. unfold ParseUint. destruct s as [|c s'] eqn:E; [done|]. rewrite <- E in *.
  apply parse_digits_ok; [done|lia|lia].
Qed.

Lemma ParseUint_pad_zero n (k : nat) :
  0 <= n < 10 ^ Z.of_nat k -> n < 2 ^ 64 -> (0 < k)%nat -> ParseUint (pad_zero k n) = Ok n.
Proof.
  intros Hn Hn' Hk. assert (Hv : dec_value 0 (pad_zero k n) = n)
    by (unfold pad_zero; rewrite dec_value_zeros, dec_value_FormatUint; lia).
  rewrite ParseUint_digits; [by rewrite Hv| |unfold pad_zero|lia].
  - intros E. pose proof (pad_zero_length n k Hn Hk) as Hl. rewrite E in Hl. simpl in Hl. lia.
  - rewrite all_digits_app, all_digits_zeros. apply all_digits_FormatUint. lia.
Qed.

Lemma cut_byte_none b s : no_byte b s -> cut_byte b s = None.
Proof.
  unfold no_byte. induction s as [|c s IH]; intros Hs; [done|]. simpl in *.
  apply orb_false_iff in Hs as [-> Hs]. by rewrite IH.
Qed.

Lemma has_byte_app b s t : has_byte b (s +:+ t) = has_byte b s || has_byte b t.
Proof.
  induction s as [|c s IH]; [done|]. change (String c s +:+ t) with (String c (s +:+ t)). cbn [has_byte].
  by rewrite IH, orb_assoc.
Qed.

Lemma all_digits_trim b s : all_digits s = true -> all_digits (trim_right_byte b s) = true.
Proof.
  intros Hs. rewrite <- (trim_right_pad b s), all_digits_app in Hs. by apply andb_true_iff in Hs as [? _].
Qed.

(** ** Parsing what was printed *)

Lemma parse_whole whole decimals :
  0 <= decimals <= 19 -> 0 <= whole -> whole * 10 ^ decimals < 2 ^ 64 ->
  ParseAmount (FormatUint whole) decimals = Ok (whole * 10 ^ decimals).
Proof.
  intros Hd Hw Hm. pose proof (Z.pow_pos_nonneg 10 decimals ltac:(lia) ltac:(lia)) as Hp.
  pose proof (all_digits_FormatUint whole Hw) as Hdig. unfold ParseAmount.
  rewrite bool_decide_false by apply FormatUint_nonempty.
  rewrite !(no_byte_digits _ _ Hdig) by done. unfold split_point. rewrite cut_byte_none by by apply no_byte_digits.
  cbn [orb]. rewrite ParseUint_FormatUint, uint64_pow10 by nia.
  rewrite (proj2 (Z.ltb_ge _ whole)), andb_false_r by (apply Z.div_le_lower_bound; lia).
  unfold wrapu64. rewrite Z.mod_small by nia. done.
Qed.

Lemma parse_frac whole frac decimals :
  0 < decimals <= 19 -> 0 <= whole -> 0 <= frac < 10 ^ decimals -> whole * 10 ^ decimals + frac < 2 ^ 64 ->
  ParseAmount (FormatUint whole +:+ "." +:+ trim_right_byte "0" (pad_zero (Z.to_nat decimals) frac)) decimals
  = Ok (whole * 10 ^ decimals + frac).
Proof.
  intros Hd Hw Hf Hm. pose proof (Z.pow_pos_nonneg 10 decimals ltac:(lia) ltac:(lia)) as Hp.
  set (k := Z.to_nat decimals). set (t := trim_right_byte "0" (pad_zero k frac)).
  assert (Hfk : 0 <= frac < 10 ^ Z.of_nat k) by (unfold k; rewrite Z2Nat.id; lia).
  assert (Hlen : String.length (pad_zero k frac) = k) by (apply pad_zero_length; [done|lia]).
  pose proof (all_digits_FormatUint whole Hw) as Hdig.
  assert (Hdt : all_digits t = true).
  { apply all_digits_trim. unfold pad_zero. rewrite all_digits_app, all_digits_zeros. apply all_digits_FormatUint. lia. }
  change ("." +:+ t) with (String "." t). unfold ParseAmount. rewrite bool_decide_false.
  2: { pose proof (FormatUint_nonempty whole). by destruct (FormatUint whole). }
  rewrite !has_byte_app, !(no_byte_digits _ _ Hdig) by done. cbn [has_byte orb].
  rewrite !(no_byte_digits _ _ Hdt) by done.
  change (Ascii.eqb "." "e") with false. change (Ascii.eqb "." "E") with false. cbn [orb].
  unfold split_point. rewrite cut_byte_sep by by apply no_byte_digits.
  rewrite ParseUint_FormatUint, uint64_pow10 by nia.
  rewrite (proj2 (Z.ltb_ge _ whole)), andb_false_r by (apply Z.div_le_lower_bound; lia).
  pose proof (trim_right_length "0" (pad_zero k frac)) as Htl. fold t in Htl. rewrite Hlen in Htl.
  rewrite (proj2 (Z.ltb_ge _ _)) by lia. unfold pad_right. fold k.
  pose proof (trim_right_pad "0" (pad_zero k frac)) as Htp. fold t in Htp. rewrite Hlen in Htp. rewrite Htp.
  rewrite ParseUint_pad_zero by (try done; lia). unfold wrapu64.
  rewrite (Z.mod_small (whole * 10 ^ decimals)) by nia. by rewrite Z.mod_small by nia.
Qed.

Lemma amount_parses_back raw decimals :
  0 <= raw < 2 ^ 64 -> 0 <= decimals <= 19 ->
  exists s, FormatAmount raw decimals = Some s /\ ParseAmount s decimals = Ok raw.
Proof.
  intros Hraw Hd. unfold FormatAmount. destruct (Z.eqb_spec decimals 0) as [->|Hd0].
  { eexists. split; [done|]. rewrite parse_whole by lia. f_equal. lia. }
  rewrite uint64_pow10 by lia. pose proof (Z.pow_pos_nonneg 10 decimals ltac:(lia) ltac:(lia)) as Hp.
  rewrite (proj2 (Z.eqb_neq (10 ^ decimals) 0)) by lia.
  pose proof (Z.div_mod raw (10 ^ decimals) ltac:(lia)). pose proof (Z.mod_pos_bound raw (10 ^ decimals) Hp).
  assert (0 <= raw / 10 ^ decimals <= raw) by (split; [apply Z.div_pos; lia|apply Z.div_le_upper_bound; nia]).
  destruct (Z.eqb_spec (raw mod 10 ^ decimals) 0); eexists; (split; [reflexivity|]).
  - rewrite parse_whole by nia. f_equal. lia.
  - rewrite parse_frac by nia. f_equal. lia.
Qed.

(** Amounts survive their text: for every [uint64] amount and every number of
    decimals up to 19, [FormatAmount] produces a text that [ParseAmount] maps back
    to the same amount. *)
Theorem FormatAmount_roundtrip raw decimals :
  0 <= raw < 2 ^ 64 -> 0 <= decimals <= 19 ->
  exists s, FormatAmount raw decimals = Some s /\ ParseAmount s decimals = Ok raw.
Proof. apply amount_parses_back. Qed.

(** The overflow guard of [ParseAmount] covers the whole part only: the
    addition of the fraction wraps, so an amount just above the [uint64] range is
    read as a small one instead of being refused. *)
Theorem ParseAmount_wraps : ParseAmount "18446744073709.999999" 6 = Ok 448383.
Proof. vm_compute. reflexivity. Qed.

Lemma FormatAmount_roundtrip_witness :
  exists s, FormatAmount 1500000 6 = Some s /\ ParseAmount s 6 = Ok 1500000.
Proof. apply (FormatAmount_roundtrip 1500000 6); lia. Defined.
