(* ===== verification/BigRat.v ===== *)
(** * [math/big.Rat]: reading a decimal exactly

    The conversions of [math/big] that the payment simulator uses: the scanner of
    mantissas in base 0 (prefixes, digit separators, a fraction point), of
    exponents, and normalised fractions. *)

From S2P Require Import Prelude GoStr JsonDecode SolanaPay.
From Stdlib Require Import Ascii String.

Implicit Types (s t : string).

(** ** Scanners *)

(** The character before: a separator, a digit or anything else. *)
Inductive prev_char := PSep | PDigit | POther.

(** The digit value of a character in bases up to 36; [None] is out of every base. *)
Definition nat_digit (c : ascii) : option Z :=
  let b := byte_of c in
  if (48 <=? b) && (b <=? 57) then Some (b - 48)
  else if (97 <=? b) && (b <=? 122) then Some (b - 97 + 10)
  else if (65 <=? b) && (b <=? 90) then Some (b - 65 + 10)
  else None.

(** The loop variables of [nat.scan]. *)
Record scan_state := mkScan {
  sc_value : Z; sc_count : Z; sc_point : option Z; sc_prev : prev_char; sc_bad : bool; sc_frac : bool
}.

Fixpoint scan_loop (b : Z) (st : scan_state) s : scan_state * string :=
  match s with
  | EmptyString => (st, "")
  | String c s' =>
    if Ascii.eqb c "." && sc_frac st then
      scan_loop b (mkScan (sc_value st) (sc_count st) (Some (sc_count st)) POther
                     (sc_bad st || match sc_prev st with PSep => true | _ => false end) false) s'
    else if Ascii.eqb c "_" then
      scan_loop b (mkScan (sc_value st) (sc_count st) (sc_point st) PSep
                     (sc_bad st || match sc_prev st with PDigit => false | _ => true end) (sc_frac st)) s'
    else match nat_digit c with
    | Some d =>
      if d <? b then
        scan_loop b (mkScan (sc_value st * b + d) (sc_count st + 1) (sc_point st) PDigit (sc_bad st) (sc_frac st)) s'
      else (st, s)
    | None => (st, s)
    end
  end.

(** The base prefix: the base, whether the prefix is the octal [0], the count and
    the previous character so far, and the rest. *)
Definition scan_prefix (fracOk : bool) s : Z * bool * Z * prev_char * string :=
  match s with
  | String "0" s' =>
    match s' with
    | EmptyString => (10, false, 1, PDigit, "")
    | String c s'' =>
      if Ascii.eqb c "b" || Ascii.eqb c "B" then (2, false, 0, PDigit, s'')
      else if Ascii.eqb c "o" || Ascii.eqb c "O" then (8, false, 0, PDigit, s'')
      else if Ascii.eqb c "x" || Ascii.eqb c "X" then (16, false, 0, PDigit, s'')
      else if fracOk then (10, false, 1, PDigit, s') else (8, true, 0, PDigit, s')
    end
  | _ => (10, false, 0, POther, s)
  end.

Definition is_sep (p : prev_char) : bool := match p with PSep => true | _ => false end.

(** [nat.scan(r, 0, fracOk)]: the value, the base, the digit count (negated after
    the point) and what was not read; [None] is an error. *)
Definition nat_scan (fracOk : bool) s : option (Z * Z * Z * string) :=
  let '(b, octal, count, prev, s) := scan_prefix fracOk s in
  let '(st, rest) := scan_loop b (mkScan 0 count None prev false fracOk) s in
  if sc_bad st || is_sep (sc_prev st) then None
  else if sc_count st =? 0 then (if octal then Some (0, 10, 1, rest) else None)
  else Some (sc_value st, b, match sc_point st with Some dp => dp - sc_count st | None => sc_count st end, rest).

(** [scanSign]; [None] at the end of the text. *)
Definition scanSign s : option (bool * string) :=
  match s with
  | EmptyString => None
  | String "-" s' => Some (true, s')
  | String "+" s' => Some (false, s')
  | _ => Some (false, s)
  end.

(** The digits of an exponent: those read, whether a separator was misplaced or
    last, and the rest. *)
Fixpoint scan_exp_digits (prev : prev_char) (bad : bool) s : string * bool * string :=
  match s with
  | EmptyString => ("", bad || is_sep prev, "")
  | String c s' =>
    match digit_val c with
    | Some _ => let '(ds, bad, rest) := scan_exp_digits PDigit bad s' in (String c ds, bad, rest)
    | None =>
      if Ascii.eqb c "_" then scan_exp_digits PSep (bad || match prev with PDigit => false | _ => true end) s'
      else ("", bad || is_sep prev, s)
    end
  end.

(** [scanExponent(r, true, true)]: the exponent, its base and the rest. *)
Definition scanExponent s : option (Z * Z * string) :=
  match s with
  | EmptyString => Some (0, 10, "")
  | String c s' =>
    let dec := Ascii.eqb c "e" || Ascii.eqb c "E" in
    if dec || Ascii.eqb c "p" || Ascii.eqb c "P" then
      let '(sign, s'') :=
        match s' with
        | String "-" u => ("-", u)
        | String "+" u => ("", u)
        | _ => ("", s')
        end in
      let '(ds, bad, rest) := scan_exp_digits POther false s'' in
      if bool_decide (ds = "") then None
      else match ParseInt 64 (sign +:+ ds) with
      | Err _ => None
      | Ok e => if bad then None else Some (e, if dec then 10 else 2, rest)
      end
    else Some (0, 10, s)
  end.

(** ** Fractions *)

(** A fraction in lowest terms with a positive denominator. *)
Record Rat := mkRat { Num : Z; Denom : Z }.

(** [norm]: the numerator carries the sign. *)
Definition rat_norm (a b : Z) : Rat :=
  if a =? 0 then mkRat 0 1
  else if b =? 0 then mkRat a 1
  else let g := Z.gcd a b in mkRat (a / g) (b / g).

(** [Int.SetString(s, 0)]. *)
Definition Int_SetString s : option Z :=
  match scanSign s with
  | None => None
  | Some (neg, s) =>
    match nat_scan false s with
    | Some (v, _, _, rest) => if bool_decide (rest = "") then Some (if (neg : bool) then - v else v) else None
    | None => None
    end
  end.

(** The mantissa [a] times [5 ^ exp5 * 2 ^ exp2], refused when the exponents are
    excessively large. *)
Definition scale_rat (neg : bool) (a exp5 exp2 : Z) : option Rat :=
  if (wrap64 (Z.abs exp5) <? 0) || (10 ^ 6 <? Z.abs exp5) then None
  else if (exp2 <? - 10 ^ 7) || (10 ^ 7 <? exp2) then None
  else
    let num := a * 5 ^ Z.max 0 exp5 * 2 ^ Z.max 0 exp2 in
    let den := 5 ^ Z.max 0 (- exp5) * 2 ^ Z.max 0 (- exp2) in
    Some (rat_norm (if neg then - num else num) den).

(** The contribution of the radix point to the exponents of 5 and of 2. *)
Definition point_exponents (base fcount : Z) : Z * Z :=
  if fcount <? 0 then
    if base =? 10 then (fcount, fcount)
    else if base =? 2 then (0, fcount)
    else if base =? 8 then (0, fcount * 3)
    else (0, fcount * 4)
  else (0, 0).

(** The floating-point form of [Rat.SetString]. *)
Definition set_float s : option Rat :=
  match scanSign s with
  | None => None
  | Some (neg, s) =>
    match nat_scan true s with
    | None => None
    | Some (a, base, fcount, s) =>
      match scanExponent s with
      | None => None
      | Some (e, ebase, rest) =>
        if negb (bool_decide (rest = "")) then None
        else if a =? 0 then Some (mkRat 0 1)
        else
          let '(exp5, exp2) := point_exponents base fcount in
          scale_rat neg a (if ebase =? 10 then wrap64 (exp5 + e) else exp5) (wrap64 (exp2 + e))
      end
    end
  end.

(** [Rat.SetString]: a fraction or a floating-point number. *)
Definition Rat_SetString s : option Rat :=
  if bool_decide (s = "") then None
  else match cut_byte "/" s with
  | Some (n, d) =>
    match Int_SetString n with
    | None => None
    | Some a =>
      match nat_scan false d with
      | Some (b, _, _, rest) => if negb (bool_decide (rest = "")) || (b =? 0) then None else Some (rat_norm a b)
      | None => None
      end
    end
  | None => set_float s
  end.

Definition Rat_Mul (x y : Rat) : Rat := rat_norm (Num x * Num y) (Denom x * Denom y).
Definition Rat_SetInt (n : Z) : Rat := mkRat n 1.
Definition IsInt (x : Rat) : bool := Denom x =? 1.

(** ** Examples *)

Example rat_texts :
  (Rat_SetString "1.50", Rat_SetString "-0x1p-2", Rat_SetString "3/012", Rat_SetString "1_000e-3",
   Rat_SetString "1__0", Rat_SetString ".5", Rat_SetString "5.", Rat_SetString "1e", Rat_SetString "")
  = (Some (mkRat 3 2), Some (mkRat (-1) 4), Some (mkRat 3 10), Some (mkRat 1 1),
     None, Some (mkRat 1 2), Some (mkRat 5 1), None, None).
Proof. vm_compute. reflexivity. Qed.

(** ** Plain decimals *)

Lemma nat_digit_digit c d : digit_val c = Some d -> nat_digit c = Some d /\ 0 <= d < 10.
Proof.
  intros Hd. split; [|apply (digit_val_Some _ _ Hd)]. unfold nat_digit, digit_val in *. by destruct (_ && _).
Qed.

Lemma digit_neq c x : is_Some (digit_val c) -> digit_val x = None -> Ascii.eqb c x = false.
Proof. intros [d Hd] Hx. destruct (Ascii.eqb_spec c x) as [->|]; congruence. Qed.

Lemma all_digits_cons c s : all_digits (String c s) = true -> is_Some (digit_val c) /\ all_digits s = true.
Proof. cbn. intros. bools. done. Qed.

(** Digits are read until the first character that does not belong to the number. *)
Lemma scan_loop_digits s rest st :
  all_digits s = true ->
  scan_loop 10 st (s +:+ rest) =
    scan_loop 10 (mkScan (dec_value (sc_value st) s) (sc_count st + Z.of_nat (String.length s)) (sc_point st)
                    (if bool_decide (s = "") then sc_prev st else PDigit) (sc_bad st) (sc_frac st)) rest.
Proof.
  revert st. induction s as [|c s IH]; intros st Hs.
  { destruct st. cbn. by rewrite Z.add_0_r. }
  apply all_digits_cons in Hs as [Hc Hs]. change (String c s +:+ rest) with (String c (s +:+ rest)).
  cbn [scan_loop]. rewrite !(digit_neq c) by done. cbn [andb]. destruct Hc as [d Hd].
  destruct (nat_digit_digit _ _ Hd) as [-> Hr]. pose proof (digit_val_Some _ _ Hd) as [-> _].
  rewrite (proj2 (Z.ltb_lt _ 10)) by lia. rewrite IH by done. cbn [sc_value sc_count sc_point sc_prev sc_bad sc_frac].
  rewrite (bool_decide_false (String c s = "")) by done. f_equal. f_equal.
  - cbn [String.length]. lia.
  - by case_bool_decide.
Qed.

Lemma scan_loop_end s st :
  all_digits s = true ->
  scan_loop 10 st s =
    (mkScan (dec_value (sc_value st) s) (sc_count st + Z.of_nat (String.length s)) (sc_point st)
       (if bool_decide (s = "") then sc_prev st else PDigit) (sc_bad st) (sc_frac st), "").
Proof. intros Hs. pose proof (scan_loop_digits s "" st Hs) as E. by rewrite str_app_nil in E. Qed.

(** No prefix is read off a decimal. *)
Lemma scan_prefix_decimal c s rest :
  all_digits (String c s) = true -> match rest with EmptyString => True | String r _ => r = "."%char end ->
  exists b, scan_prefix true (String c s +:+ rest) = b /\
    (b = (10, false, 0, POther, String c s +:+ rest) \/ c = "0"%char /\ b = (10, false, 1, PDigit, s +:+ rest)).
Proof.
  intros [Hc Hs]%all_digits_cons Hr. eexists. split; [reflexivity|].
  destruct (Ascii.eqb_spec c "0") as [->|Hn].
  2: { left. change (String c s +:+ rest) with (String c (s +:+ rest)).
       destruct c as [[] [] [] [] [] [] [] []]; try reflexivity; by destruct Hn. }
  right. split; [done|]. change (String "0" s +:+ rest) with (String "0" (s +:+ rest)). cbn [scan_prefix].
  destruct s as [|c' s].
  { destruct rest as [|r rest]; [done|]. by subst r. }
  apply all_digits_cons in Hs as [Hc' _]. change (String c' s +:+ rest) with (String c' (s +:+ rest)). cbv iota.
  by rewrite !(digit_neq c').
Qed.

(** A decimal [w] or [w.f]: its mantissa and the number of digits after the point. *)
Definition decimal_value (w : string) (f : option string) : Z := dec_value (dec_value 0 w) (default "" f).
Definition decimal_text (w : string) (f : option string) : string :=
  match f with None => w | Some f => w +:+ String "." f end.
Definition decimal_scale (f : option string) : Z := match f with None => 0 | Some f => Z.of_nat (String.length f) end.

Definition plain_decimal (w : string) (f : option string) : Prop :=
  w <> "" /\ all_digits w = true /\ all_digits (default "" f) = true.

Lemma scan_whole w rest :
  w <> "" -> all_digits w = true -> match rest with EmptyString => True | String r _ => r = "."%char end ->
  exists count prev s, scan_prefix true (w +:+ rest) = (10, false, count, prev, s) /\
    scan_loop 10 (mkScan 0 count None prev false true) s =
    scan_loop 10 (mkScan (dec_value 0 w) (Z.of_nat (String.length w)) None PDigit false true) rest.
Proof.
  intros Hw Hd Hr. destruct w as [|c w]; [done|].
  destruct (scan_prefix_decimal c w rest Hd Hr) as (b & -> & [->|[-> ->]]); do 3 eexists; (split; [reflexivity|]).
  - rewrite scan_loop_digits by done. cbn [sc_value sc_count sc_point sc_prev sc_bad sc_frac].
    by rewrite bool_decide_false.
  - apply all_digits_cons in Hd as [_ Hd]. rewrite scan_loop_digits by done.
    cbn [sc_value sc_count sc_point sc_prev sc_bad sc_frac]. f_equal. f_equal; [cbn [String.length]; lia|by case_bool_decide].
Qed.

Lemma nat_scan_decimal w f :
  plain_decimal w f ->
  exists fcount, nat_scan true (decimal_text w f) = Some (decimal_value w f, 10, fcount, "") /\
    point_exponents 10 fcount = (- decimal_scale f, - decimal_scale f).
Proof.
  intros (Hw & Hd & Hf).
  assert (Hl : 0 < Z.of_nat (String.length w)) by (destruct w; [done|cbn [String.length]; lia]).
  destruct f as [f|]; unfold nat_scan, decimal_text, decimal_value; cbn [default from_option id decimal_scale] in *.
  - destruct (scan_whole w (String "." f)) as (n & p & s & -> & ->); [done..|]. cbn [scan_loop sc_frac].
    change (Ascii.eqb "." "." && true) with true. cbv iota. cbn [sc_value sc_count sc_prev sc_bad orb].
    rewrite scan_loop_end by done.
    cbn [scan_loop sc_value sc_count sc_point sc_prev sc_bad sc_frac]. cbn [orb].
    replace (is_sep _) with false by by case_bool_decide. rewrite (proj2 (Z.eqb_neq _ 0)) by lia.
    eexists. split; [reflexivity|]. unfold point_exponents. case_match; bools; [f_equal; lia|].
    f_equal; lia.
  - destruct (scan_whole w "") as (n & p & s & Hp & Hs); [done..|]. rewrite str_app_nil in Hp. rewrite Hp, Hs.
    cbn [scan_loop sc_value sc_count sc_point sc_prev sc_bad orb is_sep]. rewrite (proj2 (Z.eqb_neq _ 0)) by lia.
    eexists. split; [reflexivity|]. unfold point_exponents. by rewrite (proj2 (Z.ltb_ge _ 0)) by lia.
Qed.

Lemma dec_value_nonneg s acc : all_digits s = true -> 0 <= acc -> 0 <= dec_value acc s.
Proof. intros Hs Ha. pose proof (dec_value_mono s acc Hs Ha). lia. Qed.

Lemma decimal_value_nonneg w f : plain_decimal w f -> 0 <= decimal_value w f.
Proof. intros (_ & ? & ?). by repeat apply dec_value_nonneg. Qed.

Lemma has_slash_decimal w f : plain_decimal w f -> cut_byte "/" (decimal_text w f) = None.
Proof.
  intros (_ & Hd & Hf). apply cut_byte_none. destruct f as [f|]; [|by apply no_byte_digits]. unfold decimal_text, no_byte.
  rewrite has_byte_app. rewrite (no_byte_digits "/" w) by done. cbn -[has_byte default] in *. cbn [has_byte].
  by rewrite (no_byte_digits "/" f).
Qed.

Lemma sign_decimal w f : plain_decimal w f -> scanSign (decimal_text w f) = Some (false, decimal_text w f).
Proof.
  intros (Hw & Hd & _). destruct w as [|c w]; [done|]. apply all_digits_cons in Hd as [Hc _].
  assert (exists u, decimal_text (String c w) f = String c u) as [u ->] by (destruct f; eexists; reflexivity).
  assert (c <> "-"%char /\ c <> "+"%char) as [] by (split; intros ->; by destruct Hc).
  destruct c as [[] [] [] [] [] [] [] []]; done.
Qed.

(** A plain decimal is read exactly: its digits over a power of ten, in lowest terms. *)
Lemma SetString_decimal w f :
  plain_decimal w f -> decimal_scale f <= 10 ^ 6 ->
  Rat_SetString (decimal_text w f) = Some (rat_norm (decimal_value w f) (10 ^ decimal_scale f)).
Proof.
  intros Hp Hk. unfold Rat_SetString. assert (Hs0 : 0 <= decimal_scale f) by (destruct f; cbn; lia).
  rewrite bool_decide_false by (destruct Hp as [? _]; by destruct w, f).
  rewrite has_slash_decimal by done. unfold set_float. rewrite sign_decimal by done.
  destruct (nat_scan_decimal w f Hp) as (n & -> & He). cbn [scanExponent]. cbn [bool_decide negb].
  change (negb (bool_decide ("" = ""))) with false. cbv iota.
  destruct (Z.eqb_spec (decimal_value w f) 0) as [->|Hv]; [done|]. rewrite He.
  change (10 =? 10) with true. cbv iota. rewrite Z.add_0_r, wrap64_id by (apply is_int64_spec; unfold int64_min, int64_max; lia).
  unfold scale_rat. rewrite Z.abs_opp, (Z.abs_eq (decimal_scale f)) by done.
  rewrite wrap64_id by (apply is_int64_spec; unfold int64_min, int64_max; lia).
  rewrite !(proj2 (Z.ltb_ge _ _)) by lia. cbn [orb]. rewrite Z.opp_involutive, !Z.max_l, !(Z.max_r 0) by lia.
  rewrite !Z.pow_0_r, !Z.mul_1_r, <- Z.pow_mul_l. done.
Qed.

(** ** Scaling to an integer *)

Lemma gcd_pos a b : 0 < b -> 0 < Z.gcd a b.
Proof.
  pose proof (Z.gcd_nonneg a b). intros Hb. destruct (Z.eq_dec (Z.gcd a b) 0) as [E|]; [|lia].
  apply Z.gcd_eq_0_r in E. lia.
Qed.

Lemma gcd_multiple a b m : 0 < b -> (b | m) -> Z.gcd (a / Z.gcd a b * m) (b / Z.gcd a b) = b / Z.gcd a b.
Proof.
  intros Hb [k ->]. pose proof (gcd_pos a b Hb) as Hg.
  destruct (Z.gcd_divide_r a b) as [q Hq]. rewrite Hq at 3 5. rewrite !Z.div_mul by lia.
  assert (0 < q) by nia. rewrite Z.gcd_comm. apply Z.divide_gcd_iff; [lia|]. exists (a / Z.gcd a b * k * Z.gcd a b).
  rewrite Hq at 2. ring.
Qed.

(** A fraction times a multiple of its denominator is an integer. *)
Lemma Rat_Mul_multiple a b m :
  0 < b -> 0 < m -> (b | m) -> Rat_Mul (rat_norm a b) (Rat_SetInt m) = mkRat (a * (m / b)) 1.
Proof.
  intros Hb Hm Hd. pose proof (gcd_multiple a b m Hb Hd) as Hg. unfold rat_norm at 1. rewrite (proj2 (Z.eqb_neq b 0)) by lia.
  destruct (Z.eqb_spec a 0) as [->|Ha]; [done|]. unfold Rat_Mul, Rat_SetInt, rat_norm. cbn [Num Denom].
  pose proof (gcd_pos a b Hb) as Hg0.
  destruct (Z.gcd_divide_l a b) as [x Hx]. destruct (Z.gcd_divide_r a b) as [y Hy]. set (g := Z.gcd a b) in *.
  rewrite Z.mul_1_r, Hg. destruct Hd as [k ->].
  assert (a / g = x) as -> by (rewrite Hx; by apply Z.div_mul; lia). assert (b / g = y) as -> by (rewrite Hy; by apply Z.div_mul; lia).
  assert (0 < y) by nia. assert (x <> 0) by nia. assert (0 < k) by nia.
  rewrite (proj2 (Z.eqb_neq _ 0)) by nia. rewrite (proj2 (Z.eqb_neq y 0)) by lia.
  rewrite Z.div_same, Z.div_mul by lia. f_equal. rewrite Hy, Hx.
  replace (x * (k * (y * g))) with (x * g * k * y) by ring. by rewrite Z.div_mul by lia.
Qed.

(** ** Digits *)

Lemma dec_value_pad s k : dec_value 0 (s +:+ repeat_byte "0" k) = dec_value 0 s * 10 ^ Z.of_nat k.
Proof.
  assert (Hz : forall k acc, dec_value acc (repeat_byte "0" k) = acc * 10 ^ Z.of_nat k).
  { clear. induction k as [|k IH]; intros acc; [cbn; lia|]. cbn [repeat_byte dec_value].
    rewrite IH, Nat2Z.inj_succ, Z.pow_succ_r by lia. change (byte_of "0" - 48) with 0. ring. }
  enough (forall acc, dec_value acc (s +:+ repeat_byte "0" k) = dec_value acc s * 10 ^ Z.of_nat k) by done.
  induction s as [|c s IH]; intros acc; [apply Hz|]. apply IH.
Qed.
