(* ===== verification/Inflate.v ===== *)
(** * Decompression ([compress/flate], [compress/gzip], [hash/crc32])

    Go's library as the embedded API document uses it: the DEFLATE decoder with its
    three kinds of blocks and its checks on Huffman codes, the gzip reader with
    optional header fields, checksums and concatenated members, and CRC-32.  The
    text of a [flate.CorruptInputError] is modelled without its offset. *)

From S2P Require Import Prelude GoStr JsonDecode.
From Stdlib Require Import Ascii String.

(** ** CRC-32 (IEEE) *)

(** One bit of the reflected polynomial. *)
Definition crc_bit (c : Z) : Z :=
  if Z.odd c then Z.lxor (Z.shiftr c 1) 3988292384 else Z.shiftr c 1.

Definition crc_byte (c : Z) (b : ascii) : Z := Nat.iter 8 crc_bit (Z.lxor c (byte_of b)).

Fixpoint crc_bytes (c : Z) (s : string) : Z :=
  match s with EmptyString => c | String b s => crc_bytes (crc_byte c b) s end.

(** [crc32.ChecksumIEEE]. *)
Definition ChecksumIEEE (s : string) : Z := Z.lxor (crc_bytes 4294967295 s) 4294967295.

(** The check value of the standard. *)
Example crc_check : ChecksumIEEE "123456789" = 3421780262.
Proof. vm_compute. reflexivity. Qed.

(** ** Reading bits *)

Definition ErrUnexpectedEOF : err := ErrSentinel "unexpected EOF".
Definition ErrCorrupt : err := ErrMsg "flate: corrupt input".

(** The bits of the current byte that are not consumed, least significant first,
    and the bytes after it. *)
Record bitr := mkBitr { br_bits : list bool; br_rest : string }.

(** Readers of bits. *)
Definition Bits (A : Type) : Type := bitr -> res (A * bitr).

#[global] Instance Bits_ret : MRet Bits := fun A a r => Ok (a, r).
#[global] Instance Bits_bind : MBind Bits := fun A B k m r =>
  match m r with Ok (a, r') => k a r' | Err e => Err e end.

Definition corrupt {A} : Bits A := fun _ => Err ErrCorrupt.

Definition byte_bits (c : ascii) : list bool := (fun i => Z.testbit (byte_of c) (Z.of_nat i)) <$> seq 0 8.

Definition next_bit : Bits bool := fun r =>
  match br_bits r with
  | b :: bs => Ok (b, mkBitr bs (br_rest r))
  | [] =>
    match br_rest r with
    | EmptyString => Err ErrUnexpectedEOF
    | String c s => match byte_bits c with b :: bs => Ok (b, mkBitr bs s) | [] => Err ErrUnexpectedEOF end
    end
  end.

(** An [n]-bit number, least significant bit first. *)
Fixpoint read_bits (n : nat) : Bits Z :=
  match n with
  | O => mret 0
  | S n => b ← next_bit; v ← read_bits n; mret (Z.b2z b + 2 * v)
  end.

(** ** Huffman codes *)

(** A canonical code: how many symbols have codes of 1, 2, ... 15 bits, and the
    symbols in the order of their codes. *)
Record huffman := mkHuffman { h_counts : list Z; h_symbols : list Z }.

Definition symbols_of (lens : list Z) (len : Z) : list Z :=
  fst <$> List.filter (fun p => p.2 =? len) (zip (Z.of_nat <$> seq 0 (List.length lens)) lens).

Definition code_lengths : list Z := Z.of_nat <$> seq 1 15.

(** The codes left over when the counts are allotted; negative: too many codes. *)
Fixpoint codes_left (left : Z) (counts : list Z) : Z :=
  match counts with
  | [] => left
  | n :: counts => let left := 2 * left - n in if left <? 0 then left else codes_left left counts
  end.

(** [huffmanDecoder.init]: the code is complete, or empty, or a single code of one
    bit. *)
Definition huffman_init (lens : list Z) : option huffman :=
  let syms : list (list Z) := symbols_of lens <$> code_lengths in
  let counts : list Z := (fun l => Z.of_nat (List.length l)) <$> syms in
  let used := Zsum id counts in
  let left := codes_left 1 counts in
  if (left =? 0) || (used =? 0) || ((used =? 1) && (default 0 (head counts) =? 1))
  then Some (mkHuffman counts (List.concat syms)) else None.

(** [huffSym]: bits are taken until the code of some symbol is complete, or no code
    can be. *)
Fixpoint decode_code (counts : list Z) (symbols : list Z) (code first index : Z) : Bits Z :=
  match counts with
  | [] => corrupt
  | n :: counts' =>
    if forallb (Z.eqb 0) counts then corrupt else
    b ← next_bit;
    let code := code + Z.b2z b in
    if code - n <? first then
      match symbols !! Z.to_nat (index + (code - first)) with Some s => mret s | None => corrupt end
    else decode_code counts' symbols (2 * code) (2 * (first + n)) (index + n)
  end.

Definition huffSym (h : huffman) : Bits Z := decode_code (h_counts h) (h_symbols h) 0 0 0.

(** ** Blocks *)

(** The output so far, newest byte first. *)
Definition output : Type := list ascii.

(** [length] bytes from [dist] back, which may overlap what is being written. *)
Fixpoint copy_back (length : nat) (dist : nat) (out : output) : option output :=
  match length with
  | O => Some out
  | S n => match out !! pred dist with Some c => copy_back n dist (c :: out) | None => None end
  end.

(** The length a symbol from 257 on stands for: a base and a number of extra bits. *)
Definition length_code (v : Z) : option (Z * nat) :=
  if v <? 265 then Some (v - 254, 0%nat)
  else if v <? 269 then Some (v * 2 - 519, 1%nat)
  else if v <? 273 then Some (v * 4 - 1057, 2%nat)
  else if v <? 277 then Some (v * 8 - 2149, 3%nat)
  else if v <? 281 then Some (v * 16 - 4365, 4%nat)
  else if v <? 285 then Some (v * 32 - 8861, 5%nat)
  else if v <? 286 then Some (258, 0%nat)
  else None.

(** The distance; without a distance code its symbol is five bits, most significant
    first. *)
Definition read_distance (h2 : option huffman) : Bits Z :=
  dist ← match h2 with
         | Some h => huffSym h
         | None => v ← read_bits 5;
             mret (foldl (fun acc i => 2 * acc + Z.b2z (Z.testbit v (Z.of_nat i))) 0 (seq 0 5))
         end;
  if dist <? 4 then mret (dist + 1)
  else if dist <? 30 then
    let nb := Z.to_nat (Z.shiftr (dist - 2) 1) in
    extra ← read_bits nb;
    mret (2 ^ Z.of_nat (S nb) + 1 + (2 ^ Z.of_nat nb * (dist mod 2) + extra))
  else corrupt.

(** [huffmanBlock]; every symbol takes a bit at least, so the bits of the input are
    enough fuel. *)
Fixpoint huffman_block (fuel : nat) (h1 : huffman) (h2 : option huffman) (out : output) : Bits output :=
  match fuel with
  | O => corrupt
  | S fuel =>
    v ← huffSym h1;
    if v <? 256 then huffman_block fuel h1 h2 (chr v :: out)
    else if v =? 256 then mret out
    else match length_code v with
    | None => corrupt
    | Some (base, n) =>
      extra ← read_bits n;
      dist ← read_distance h2;
      match copy_back (Z.to_nat (base + extra)) (Z.to_nat dist) out with
      | Some out => huffman_block fuel h1 h2 out
      | None => corrupt
      end
    end
  end.

Definition fixed_lengths : list Z := replicate 144 8 ++ replicate 112 9 ++ replicate 24 7 ++ replicate 8 8.

(** The order in which the lengths of the code of code lengths are sent. *)
Definition code_order : list nat := [16; 17; 18; 0; 8; 7; 9; 6; 10; 5; 11; 4; 12; 3; 13; 2; 14; 1; 15]%nat.

Fixpoint read_list (n w : nat) : Bits (list Z) :=
  match n with O => mret [] | S n => v ← read_bits w; l ← read_list n w; mret (v :: l) end.

(** The code lengths of literals and distances, newest first, [left] still to come. *)
Fixpoint read_lengths (fuel : nat) (h : huffman) (left : nat) (acc : list Z) : Bits (list Z) :=
  match fuel, left with
  | _, O => mret (reverse acc)
  | O, _ => corrupt
  | S fuel, _ =>
    x ← huffSym h;
    if x <? 16 then read_lengths fuel h (pred left) (x :: acc)
    else
      p ← (if x =? 16 then
             match acc with
             | [] => corrupt
             | b :: _ => r ← read_bits 2; mret (3 + r, b)
             end
           else if x =? 17 then r ← read_bits 3; mret (3 + r, 0)
           else r ← read_bits 7; mret (11 + r, 0));
      let '(rep, b) := p in
      if (left <? Z.to_nat rep)%nat then corrupt
      else read_lengths fuel h (left - Z.to_nat rep) (replicate (Z.to_nat rep) b ++ acc)
  end.

Definition dynamic_codes : Bits (huffman * huffman) :=
  nlit ← read_bits 5;
  if 29 <? nlit then corrupt else
  ndist ← read_bits 5;
  if 29 <? ndist then corrupt else
  nclen ← read_bits 4;
  cl ← read_list (Z.to_nat nclen + 4) 3;
  let lens := foldl (fun acc p => <[p.1 := p.2]> acc) (replicate 19 0) (zip code_order cl) in
  match huffman_init lens with
  | None => corrupt
  | Some h =>
    let nl := (Z.to_nat nlit + 257)%nat in
    let n := (nl + (Z.to_nat ndist + 1))%nat in
    ls ← read_lengths n h n [];
    match huffman_init (take nl ls), huffman_init (drop nl ls) with
    | Some h1, Some h2 => mret (h1, h2)
    | _, _ => corrupt
    end
  end.

Fixpoint le_word (s : string) : Z :=
  match s with EmptyString => 0 | String c s => byte_of c + 256 * le_word s end.

(** The first [n] bytes, if there are so many. *)
Fixpoint split_bytes (n : nat) (s : string) : option (string * string) :=
  match n, s with
  | O, _ => Some ("", s)
  | S n, String c s => match split_bytes n s with Some (a, b) => Some (String c a, b) | None => None end
  | S _, EmptyString => None
  end.

Fixpoint push_bytes (s : string) (out : output) : output :=
  match s with EmptyString => out | String c s => push_bytes s (c :: out) end.

(** [dataBlock]: the rest of the current byte is skipped. *)
Definition stored_block (out : output) : Bits output := fun r =>
  match split_bytes 4 (br_rest r) with
  | None => Err ErrUnexpectedEOF
  | Some (head, s) =>
    let n := le_word (str_take 2 head) in
    if negb (le_word (str_drop 2 head) =? 65535 - n) then Err ErrCorrupt
    else match split_bytes (Z.to_nat n) s with
    | None => Err ErrUnexpectedEOF
    | Some (data, s) => Ok (push_bytes data out, mkBitr [] s)
    end
  end.

(** [nextBlock] and the blocks after it, up to the final one. *)
Fixpoint blocks (fuel : nat) (all : nat) (out : output) : Bits output :=
  match fuel with
  | O => corrupt
  | S fuel =>
    final ← next_bit;
    typ ← read_bits 2;
    out ← (if typ =? 0 then stored_block out
           else if typ =? 1 then
             match huffman_init fixed_lengths with Some h => huffman_block all h None out | None => corrupt end
           else if typ =? 2 then
             hs ← dynamic_codes; huffman_block all hs.1 (Some hs.2) out
           else corrupt);
    if (final : bool) then mret out else blocks fuel all out
  end.

Fixpoint string_of_output (out : output) (acc : string) : string :=
  match out with [] => acc | c :: out => string_of_output out (String c acc) end.

(** [flate.NewReader] read to its end: the data, and what follows the last byte. *)
Definition inflate (s : string) : res (string * string) :=
  let fuel := (8 * String.length s + 1)%nat in
  match blocks fuel fuel [] (mkBitr [] s) with
  | Err e => Err e
  | Ok (out, r) => Ok (string_of_output out "", br_rest r)
  end.

(** ** gzip *)

Definition ErrGzipHeader : err := ErrSentinel "gzip: invalid header".
Definition ErrGzipChecksum : err := ErrSentinel "gzip: invalid checksum".
Definition io_EOF : err := ErrSentinel "EOF".

(** A terminated string of the header, at most 512 bytes with its zero: the bytes
    read and the rest. *)
Fixpoint header_string (n : nat) (s : string) : res (string * string) :=
  match n with
  | O => Err ErrGzipHeader
  | S n =>
    match s with
    | EmptyString => Err ErrUnexpectedEOF
    | String c s =>
      if byte_of c =? 0 then Ok (String c "", s)
      else match header_string n s with Ok (a, b) => Ok (String c a, b) | Err e => Err e end
    end
  end.

Definition header_bytes (n : nat) (s : string) : res (string * string) :=
  match split_bytes n s with Some p => Ok p | None => Err ErrUnexpectedEOF end.

(** An optional field of the header: the bytes read so far and the rest. *)
Definition optional_field (present : bool) (field : string -> res (string * string)) (x : string * string) : res (string * string) :=
  if present then match field x.2 with Ok (a, s) => Ok (x.1 +:+ a, s) | Err e => Err e end else Ok x.

(** [readHeader]: what follows the header. *)
Definition readHeader (s : string) : res string :=
  match split_bytes 10 s with
  | None => Err (if bool_decide (s = "") then io_EOF else ErrUnexpectedEOF)
  | Some (h, s) =>
    let b i := match str_drop i h with String c _ => byte_of c | EmptyString => 0 end in
    if negb ((b 0%nat =? 31) && (b 1%nat =? 139) && (b 2%nat =? 8)) then Err ErrGzipHeader
    else
      let flag i := Z.testbit (b 3%nat) i in
      let extra s := match header_bytes 2 s with
                     | Ok (n, s) => match header_bytes (Z.to_nat (le_word n)) s with Ok (d, s) => Ok (n +:+ d, s) | Err e => Err e end
                     | Err e => Err e
                     end in
      match optional_field (flag 2) extra (h, s) with
      | Err e => Err e
      | Ok x =>
        match optional_field (flag 3) (header_string 512) x with
        | Err e => Err e
        | Ok x =>
          match optional_field (flag 4) (header_string 512) x with
          | Err e => Err e
          | Ok (h, s) =>
            if flag 1 then
              match header_bytes 2 s with
              | Err e => Err e
              | Ok (d, s) => if le_word d =? ChecksumIEEE h mod 2 ^ 16 then Ok s else Err ErrGzipHeader
              end
            else Ok s
          end
        end
      end
  end.

(** Reading to the end: the data of the member whose header has been read, its
    trailer, and the members after it. *)
Fixpoint read_members (fuel : nat) (s : string) : res string :=
  match fuel with
  | O => Err ErrUnexpectedEOF
  | S fuel =>
    match inflate s with
    | Err e => Err e
    | Ok (data, s) =>
      match split_bytes 8 s with
      | None => Err ErrUnexpectedEOF
      | Some (t, s) =>
        if negb ((le_word (str_take 4 t) =? ChecksumIEEE data) &&
                 (le_word (str_drop 4 t) =? Z.of_nat (String.length data) mod 2 ^ 32)) then Err ErrGzipChecksum
        else match readHeader s with
        | Err e => if bool_decide (e = io_EOF) then Ok data else Err e
        | Ok s => match read_members fuel s with Ok more => Ok (data +:+ more) | Err e => Err e end
        end
      end
    end
  end.
