(* ===== verification/SplParser.v ===== *)
(** * Decoding SPL transfers ([internal/chain/spl_parser.go])

    Public keys, signatures and the message of a transaction come from the
    solana-go library: [Solana] collects what the code calls of it, [SolanaOk]
    what it relies on. *)

From S2P Require Import Prelude GoStr GoUrl.

(** A public key and a transaction signature are their bytes, as one number. *)
Definition PublicKey : Type := N.
Definition TxSignature : Type := N.

(** [solana.CompiledInstruction]. *)
Record CompiledInstruction := mkIx { ProgramIDIndex : Z; Accounts : list Z; Data : list Z }.

(** [solana.Transaction]: its instructions and its static account keys. *)
Record Transaction := mkTx { Instructions : list CompiledInstruction; AccountKeys : list PublicKey }.

Class Solana := {
  TokenProgramID : PublicKey;
  PublicKey_String : PublicKey -> string;
  PublicKeyFromBase58 : string -> res PublicKey;
  Signature_String : TxSignature -> string;
  SignatureFromBase58 : string -> res TxSignature;
  ResolveProgramIDIndex : Transaction -> Z -> res PublicKey;
  AccountMetaList : Transaction -> res (list PublicKey)
}.

(** Base58 texts determine the bytes; they are letters and digits. *)
Class SolanaOk (S : Solana) : Prop := {
  pubkey_roundtrip k : @PublicKeyFromBase58 S (@PublicKey_String S k) = Ok k;
  pubkey_alnum k : @PublicKey_String S k <> "" /\ all_bytes is_alnum (@PublicKey_String S k) = true;
  signature_roundtrip s : @SignatureFromBase58 S (@Signature_String S s) = Ok s
}.

Definition splTransferCheckedDiscriminator : Z := 12.

Record SPLTransfer := mkSPLTransfer {
  Source : PublicKey; Mint : PublicKey; Dest : PublicKey; Authority : PublicKey;
  Amount : Z; Decimals : Z
}.

Definition ErrNoSPLTransfer : err := ErrSentinel "chain: no SPL TransferChecked instruction".

(** [binary.LittleEndian.Uint64] of the bytes. *)
Fixpoint le_value (bs : list Z) : Z :=
  match bs with
  | [] => 0
  | b :: bs => b + 256 * le_value bs
  end.

Section parser.
Context `{Solana}.

(** The closure [resolve] of the decoder. *)
Definition resolve (keys : list PublicKey) (idx : Z) : res PublicKey :=
  match keys !! Z.to_nat idx with
  | None => Err (ErrMsg ("account index " +:+ FormatInt idx +:+ " out of range ("
                         +:+ FormatInt (Z.of_nat (length keys)) +:+ " keys)"))
  | Some k => Ok k
  end.

(** [ix.Accounts[i]], after the length check. *)
Definition account (ix : CompiledInstruction) (i : nat) : Z := nth i (Accounts ix) 0.

Definition decodeTransferChecked (tx : Transaction) (ix : CompiledInstruction) : res SPLTransfer :=
  let data := Data ix in
  if Z.of_nat (length data) <? 10 then
    Err (ErrMsg ("chain: TransferChecked data too short (" +:+ FormatInt (Z.of_nat (length data)) +:+ " bytes)"))
  else
    let amount := le_value (take 8 (drop 1 data)) in
    let decimals := nth 9 data 0 in
    if Z.of_nat (length (Accounts ix)) <? 4 then
      Err (ErrMsg ("chain: TransferChecked needs ≥4 accounts, got " +:+ FormatInt (Z.of_nat (length (Accounts ix)))))
    else match AccountMetaList tx with
    | Err e => Err (ErrWrap "chain: resolve account metas" e)
    | Ok keys =>
      match resolve keys (account ix 0) with
      | Err e => Err e
      | Ok src =>
        match resolve keys (account ix 1) with
        | Err e => Err e
        | Ok mint =>
          match resolve keys (account ix 2) with
          | Err e => Err e
          | Ok dst =>
            match resolve keys (account ix 3) with
            | Err e => Err e
            | Ok auth => Ok (mkSPLTransfer src mint dst auth amount decimals)
            end
          end
        end
      end
    end.

(** The instruction the parser stops at. *)
Definition is_transfer_checked (ix : CompiledInstruction) : bool :=
  match Data ix with
  | b :: _ => b =? splTransferCheckedDiscriminator
  | [] => false
  end.

(** The loop of [ParseSPLTransferChecked] from instruction [i] on. *)
Fixpoint parse_from (tx : Transaction) (i : Z) (ixs : list CompiledInstruction) : res SPLTransfer :=
  match ixs with
  | [] => Err ErrNoSPLTransfer
  | ix :: ixs =>
    match ResolveProgramIDIndex tx (ProgramIDIndex ix) with
    | Err e => Err (ErrWrap ("chain: resolve program id on ix " +:+ FormatInt i) e)
    | Ok progID =>
      if negb (N.eqb progID TokenProgramID) then parse_from tx (i + 1) ixs
      else if negb (is_transfer_checked ix) then parse_from tx (i + 1) ixs
      else decodeTransferChecked tx ix
    end
  end.

Definition ParseSPLTransferChecked (tx : option Transaction) : res SPLTransfer :=
  match tx with
  | None => Err (ErrMsg "chain: nil transaction")
  | Some tx => parse_from tx 0 (Instructions tx)
  end.

(** The loop of [ReferencesIn]; [seen] is the set of hits so far. *)
Fixpoint collect_refs (known : gset PublicKey) (seen : gset PublicKey) (metas : list PublicKey)
    : list PublicKey :=
  match metas with
  | [] => []
  | m :: metas =>
    if negb (bool_decide (m ∈ known)) then collect_refs known seen metas
    else if bool_decide (m ∈ seen) then collect_refs known seen metas
    else m :: collect_refs known ({[ m ]} ∪ seen) metas
  end.

Definition ReferencesIn (tx : option Transaction) (known : gset PublicKey) : list PublicKey :=
  match tx with
  | None => []
  | Some tx =>
    if bool_decide (size known = 0%nat) then []
    else match AccountMetaList tx with
    | Err _ => []
    | Ok metas => collect_refs known ∅ metas
    end
  end.

(** ** Lemmas *)

Lemma collect_refs_spec known seen metas k :
  k ∈ collect_refs known seen metas <-> k ∈ metas /\ k ∈ known /\ k ∉ seen.
Proof.
  revert seen. induction metas as [|m metas IH]; intros seen; cbn [collect_refs]; [set_solver|].
  repeat case_bool_decide; cbn [negb]; rewrite ?elem_of_cons, ?IH, ?elem_of_union, ?elem_of_singleton;
    destruct (decide (k = m)) as [->|]; naive_solver.
Qed.

Lemma collect_refs_nodup known seen metas : NoDup (collect_refs known seen metas).
Proof.
  revert seen. induction metas as [|m metas IH]; intros seen; cbn [collect_refs]; [constructor|].
  repeat case_bool_decide; cbn [negb]; try apply IH. constructor; [|apply IH].
  rewrite collect_refs_spec. set_solver.
Qed.

Lemma references_in_spec tx known metas k :
  AccountMetaList tx = Ok metas -> k ∈ ReferencesIn (Some tx) known <-> k ∈ metas /\ k ∈ known.
Proof.
  intros Hm. unfold ReferencesIn. rewrite Hm. case_bool_decide as Hs.
  - apply size_empty_inv in Hs. set_solver.
  - rewrite collect_refs_spec. set_solver.
Qed.

(** An instruction the parser passes over. *)
Definition skipped (tx : Transaction) (ix : CompiledInstruction) : Prop :=
  exists p, ResolveProgramIDIndex tx (ProgramIDIndex ix) = Ok p /\
    (p <> TokenProgramID \/ is_transfer_checked ix = false).

Lemma parse_from_skips tx i pre ixs :
  Forall (skipped tx) pre -> exists j, parse_from tx i (pre ++ ixs) = parse_from tx j ixs.
Proof.
  intros Hpre. revert i. induction Hpre as [|ix pre (p & Hp & Hs) _ IH]; intros i; [by exists i|].
  cbn [app parse_from]. rewrite Hp. destruct (N.eqb_spec p TokenProgramID) as [->|]; cbn [negb]; [|apply IH].
  destruct Hs as [|Hs]; [done|]. rewrite Hs. cbn [negb]. apply IH.
Qed.
End parser.

(** Eight little-endian bytes of an unsigned integer. *)
Fixpoint le_bytes (k : nat) (n : Z) : list Z :=
  match k with
  | O => []
  | S k => n mod 256 :: le_bytes k (n / 256)
  end.

Lemma le_bytes_length k n : length (le_bytes k n) = k.
Proof. revert n. induction k; intros n; simpl; [done|by rewrite IHk]. Qed.

Lemma le_value_bytes k n : 0 <= n < 256 ^ Z.of_nat k -> le_value (le_bytes k n) = n.
Proof.
  revert n. induction k as [|k IH]; intros n Hn; [simpl in *; lia|]. cbn [le_bytes le_value].
  rewrite Nat2Z.inj_succ, Z.pow_succ_r in Hn by lia. rewrite IH; [|zlia].
  pose proof (Z.div_mod n 256 ltac:(lia)). lia.
Qed.

(** The instruction a conforming wallet sends: tag, amount, decimals; accounts
    source, mint, destination, authority, then references. *)
Definition transfer_ix (prog src mint dst auth : Z) (refs : list Z) (amount decimals : Z)
    : CompiledInstruction :=
  mkIx prog (src :: mint :: dst :: auth :: refs)
    (splTransferCheckedDiscriminator :: le_bytes 8 amount ++ [decimals]).

Section theorems.
Context `{Solana}.

Lemma parse_transfer tx pre post prog src mint dst auth refs amount decimals keys k0 k1 k2 k3 :
  Instructions tx = pre ++ transfer_ix prog src mint dst auth refs amount decimals :: post ->
  Forall (skipped tx) pre ->
  ResolveProgramIDIndex tx prog = Ok TokenProgramID -> AccountMetaList tx = Ok keys ->
  keys !! Z.to_nat src = Some k0 -> keys !! Z.to_nat mint = Some k1 ->
  keys !! Z.to_nat dst = Some k2 -> keys !! Z.to_nat auth = Some k3 ->
  0 <= amount < 2 ^ 64 ->
  ParseSPLTransferChecked (Some tx) = Ok (mkSPLTransfer k0 k1 k2 k3 amount decimals).
Proof.
  intros Hix Hpre Hprog Hkeys H0 H1 H2 H3 Ha. cbn [ParseSPLTransferChecked]. rewrite Hix.
  destruct (parse_from_skips tx 0 pre (transfer_ix prog src mint dst auth refs amount decimals :: post) Hpre) as [j ->].
  cbn [parse_from transfer_ix ProgramIDIndex]. rewrite Hprog, N.eqb_refl. cbn [negb].
  unfold is_transfer_checked. cbn [Data transfer_ix]. rewrite Z.eqb_refl. cbn [negb].
  unfold decodeTransferChecked. rewrite Hkeys.
  cbn [Data Accounts transfer_ix account nth]. unfold resolve, account. cbn [Accounts transfer_ix nth].
  rewrite H0, H1, H2, H3. rewrite (proj2 (Z.ltb_ge _ 10)) by (cbn [length]; rewrite length_app, le_bytes_length; simpl; lia).
  rewrite (proj2 (Z.ltb_ge _ 4)) by (cbn [length]; lia). 
  change (drop 1 (?x :: ?l)) with l. rewrite (take_app_length' _ _ 8) by (by rewrite le_bytes_length).
  rewrite le_value_bytes by lia. repeat f_equal.
Qed.

(** The parser inverts the wire format: in a transaction whose first
    TransferChecked instruction of the token program encodes an amount, decimals
    and four account indices, [ParseSPLTransferChecked] returns exactly those
    accounts, the full [uint64] amount and the decimals, whatever other
    instructions come before or after. *)
Theorem Parse_transfer_roundtrip tx pre post prog src mint dst auth refs amount decimals keys k0 k1 k2 k3 :
  Instructions tx = pre ++ transfer_ix prog src mint dst auth refs amount decimals :: post ->
  Forall (skipped tx) pre ->
  ResolveProgramIDIndex tx prog = Ok TokenProgramID -> AccountMetaList tx = Ok keys ->
  keys !! Z.to_nat src = Some k0 -> keys !! Z.to_nat mint = Some k1 ->
  keys !! Z.to_nat dst = Some k2 -> keys !! Z.to_nat auth = Some k3 ->
  0 <= amount < 2 ^ 64 ->
  ParseSPLTransferChecked (Some tx) = Ok (mkSPLTransfer k0 k1 k2 k3 amount decimals).
Proof. apply parse_transfer. Qed.

(** [ReferencesIn] returns each known reference that occurs among the account
    keys of the transaction, and no other key, without repetition. *)
Theorem ReferencesIn_spec tx known metas :
  AccountMetaList tx = Ok metas ->
  NoDup (ReferencesIn (Some tx) known) /\
  forall k, k ∈ ReferencesIn (Some tx) known <-> k ∈ metas /\ k ∈ known.
Proof.
  intros Hm. split; [|intros k; by apply references_in_spec]. unfold ReferencesIn. rewrite Hm.
  case_bool_decide; [constructor|apply collect_refs_nodup].
Qed.
End theorems.

(** ** A concrete library

    Keys printed in decimal and looked up among the static keys; the examples of
    the development use it. *)
Definition index_key (tx : Transaction) (i : Z) : res PublicKey :=
  match AccountKeys tx !! Z.to_nat i with
  | Some k => Ok k
  | None => Err (ErrMsg "program index not found")
  end.

Definition parse_key (s : string) : res N :=
  let z := dec_value 0 s in
  if String.eqb (FormatUint z) s then Ok (Z.to_N z) else Err (ErrMsg "decode").

Definition example_solana : Solana := {|
  TokenProgramID := 7%N;
  PublicKey_String k := FormatUint (Z.of_N k);
  PublicKeyFromBase58 := parse_key;
  Signature_String k := FormatUint (Z.of_N k);
  SignatureFromBase58 := parse_key;
  ResolveProgramIDIndex := index_key;
  AccountMetaList tx := Ok (AccountKeys tx)
|}.

Lemma example_solana_ok : SolanaOk example_solana.
Proof.
  assert (Hrt : forall k, parse_key (FormatUint (Z.of_N k)) = Ok k).
  { intros k. unfold parse_key. rewrite dec_value_FormatUint, String.eqb_refl, N2Z.id by lia. done. }
  split; [exact Hrt| |exact Hrt]. intros k. split; [apply FormatUint_nonempty|]. simpl.
  pose proof (all_digits_FormatUint (Z.of_N k) ltac:(lia)) as Hd. induction (FormatUint (Z.of_N k)) as [|c s IH]; [done|].
  cbn [all_digits all_bytes] in *. apply andb_true_iff in Hd as [Hc Hd]. rewrite IH by done. bools. destruct Hc as [d Hc].
  unfold digit_val in Hc. unfold is_alnum. by destruct ((48 <=? byte_of c) && (byte_of c <=? 57)).
Qed.

(** Keys: payer's token account 101, mint 102, hot wallet 103, payer 104,
    reference 105, the token program, a memo program. *)
Definition example_tx : Transaction :=
  mkTx [ mkIx 6 [] [109; 101; 109; 111]; transfer_ix 5 0 1 2 3 [4] 1005025125 6 ]
    [101; 102; 103; 104; 105; 7; 8]%N.

Lemma Parse_transfer_roundtrip_witness :
  @ParseSPLTransferChecked example_solana (Some example_tx) = Ok (mkSPLTransfer 101%N 102%N 103%N 104%N 1005025125 6).
Proof.
  apply (@Parse_transfer_roundtrip example_solana example_tx [mkIx 6 [] [109; 101; 109; 111]] []
    5 0 1 2 3 [4] 1005025125 6 (AccountKeys example_tx)); try reflexivity; [|lia].
  constructor; [|constructor]. exists 8%N. split; [reflexivity|]. left. discriminate.
Defined.

Lemma ReferencesIn_spec_witness :
  NoDup (@ReferencesIn example_solana (Some example_tx) {[ 105%N; 99%N ]}) /\
  105%N ∈ @ReferencesIn example_solana (Some example_tx) {[ 105%N; 99%N ]}.
Proof.
  destruct (@ReferencesIn_spec example_solana example_tx {[ 105%N; 99%N ]} (AccountKeys example_tx) eq_refl)
    as [Hnd Hin].
  split; [exact Hnd|]. apply Hin. split; [|set_solver]. vm_compute. by repeat constructor.
Defined.
