(* ===== verification/PayUrl.v ===== *)
(** * Solana Pay transfer-request URLs ([internal/solanapay/url.go])

    [BuildURL] and [ParseURL] over net/url. *)

From S2P Require Import Prelude GoStr GoJson GoUrl SplParser.
From Stdlib Require Import Ascii String.

Record URLParams := mkURLParams {
  Recipient : PublicKey; SPLToken : option PublicKey; up_Amount : string; References : list PublicKey;
  Label : string; Message : string; Memo : string
}.

Definition ErrInvalidURL : err := ErrSentinel "solanapay: invalid transfer-request URL".

(** [key.IsZero()]. *)
Definition IsZero (k : PublicKey) : bool := N.eqb k 0.

Section urls.
Context `{Solana}.

(** [if v != "" { q.Set(k, v) }]. *)
Definition set_nonempty (q : Values) (k v : string) : Values := if bool_decide (v = "") then q else Values_Set q k v.

(** The loop over the references. *)
Fixpoint add_references (q : Values) (refs : list PublicKey) : res Values :=
  match refs with
  | [] => Ok q
  | r :: refs =>
    if IsZero r then Err (ErrMsg "solanapay: reference public key is zero")
    else add_references (Values_Add q "reference" (PublicKey_String r)) refs
  end.

Definition set_token (q : Values) (mint : option PublicKey) : res Values :=
  match mint with
  | None => Ok q
  | Some mint =>
    if IsZero mint then Err (ErrMsg "solanapay: spl-token mint is zero")
    else Ok (Values_Set q "spl-token" (PublicKey_String mint))
  end.

Definition BuildURL (p : URLParams) : res string :=
  if IsZero (Recipient p) then Err (ErrMsg "solanapay: recipient public key is required")
  else
    match set_token (set_nonempty [] "amount" (up_Amount p)) (SPLToken p) with
    | Err e => Err e
    | Ok q =>
      match add_references q (References p) with
      | Err e => Err e
      | Ok q =>
        let q := set_nonempty q "label" (Label p) in
        let q := set_nonempty q "message" (Message p) in
        let q := set_nonempty q "memo" (Memo p) in
        Ok (URL_String (opaque_URL "solana" (PublicKey_String (Recipient p)) (Values_Encode q)))
      end
    end.

(** [fmt.Errorf("%w: what: %w", ErrInvalidURL, err)]: the chain of the sentinel is
    kept, the cause as text. *)
Definition invalid (what : string) : err := ErrSuffix ErrInvalidURL what.

Fixpoint parse_references (refs : list string) : res (list PublicKey) :=
  match refs with
  | [] => Ok []
  | s :: refs =>
    match PublicKeyFromBase58 s with
    | Err e => Err (invalid ("reference: " +:+ Error e))
    | Ok k => match parse_references refs with Ok ks => Ok (k :: ks) | Err e => Err e end
    end
  end.

Definition parse_token (s : string) : res (option PublicKey) :=
  if bool_decide (s = "") then Ok None
  else match PublicKeyFromBase58 s with
  | Err e => Err (invalid ("spl-token: " +:+ Error e))
  | Ok mint => Ok (Some mint)
  end.

Definition ParseURL (s : string) : res URLParams :=
  if bool_decide (s = "") then Err ErrInvalidURL
  else match url_Parse s with
  | Err e => Err (invalid (Error e))
  | Ok u =>
    if negb (String.eqb (Scheme u) "solana") then Err (invalid ("scheme " +:+ Quote_q (Scheme u)))
    else if bool_decide (Opaque u = "") then Err (invalid "missing recipient")
    else match PublicKeyFromBase58 (Opaque u) with
    | Err e => Err (invalid ("recipient: " +:+ Error e))
    | Ok recipient =>
      let q := ParseQuery (RawQuery u) in
      match parse_token (Values_Get q "spl-token") with
      | Err e => Err e
      | Ok mint =>
        match parse_references (values q "reference") with
        | Err e => Err e
        | Ok refs =>
          Ok (mkURLParams recipient mint (Values_Get q "amount") refs
                (Values_Get q "label") (Values_Get q "message") (Values_Get q "memo"))
        end
      end
    end
  end.

(** ** Lemmas *)

Lemma values_set_nonempty q k k' v :
  values (set_nonempty q k' v) k =
    if String.eqb k' k then (if bool_decide (v = "") then values q k else [v]) else values q k.
Proof.
  unfold set_nonempty. case_bool_decide as Hv; [by destruct (String.eqb k' k)|apply values_Set].
Qed.

Lemma add_references_values q refs q' k :
  add_references q refs = Ok q' ->
  values q' k = values q k ++ (if String.eqb "reference" k then PublicKey_String <$> refs else []).
Proof.
  revert q. induction refs as [|r refs IH]; intros q; cbn [add_references].
  - intros [= ->]. destruct (String.eqb _ k); by rewrite app_nil_r.
  - destruct (IsZero r); [done|]. intros Hq. rewrite (IH _ Hq), values_Add, <- app_assoc. f_equal.
    by destruct (String.eqb "reference" k).
Qed.

Lemma set_token_values q mint q' k :
  set_token q mint = Ok q' ->
  values q' k = if String.eqb "spl-token" k then match mint with Some m => [PublicKey_String m] | None => values q k end
                else values q k.
Proof.
  unfold set_token. destruct mint as [m|]; [|intros [= ->]; by destruct (String.eqb _ k)].
  destruct (IsZero m); [done|]. intros [= <-]. apply values_Set.
Qed.

(** The query of a built URL. *)
Definition url_values (p : URLParams) (q : Values) : Prop :=
  forall k, values q k =
    (if String.eqb k "amount" then (if bool_decide (up_Amount p = "") then [] else [up_Amount p]) else []) ++
    (if String.eqb k "spl-token" then match SPLToken p with Some m => [PublicKey_String m] | None => [] end else []) ++
    (if String.eqb k "reference" then PublicKey_String <$> References p else []) ++
    (if String.eqb k "label" then (if bool_decide (Label p = "") then [] else [Label p]) else []) ++
    (if String.eqb k "message" then (if bool_decide (Message p = "") then [] else [Message p]) else []) ++
    (if String.eqb k "memo" then (if bool_decide (Memo p = "") then [] else [Memo p]) else []).

Lemma BuildURL_inv p s :
  BuildURL p = Ok s ->
  exists q, url_values p q /\ s = URL_String (opaque_URL "solana" (PublicKey_String (Recipient p)) (Values_Encode q)).
Proof.
  unfold BuildURL. destruct (IsZero (Recipient p)); [done|].
  destruct (set_token _ _) as [q1|] eqn:E1; [|done]. destruct (add_references q1 _) as [q2|] eqn:E2; [|done].
  intros [= <-]. eexists. split; [|reflexivity]. intros k.
  rewrite !values_set_nonempty, (add_references_values _ _ _ _ E2), (set_token_values _ _ _ _ E1), values_set_nonempty.
  change (values [] k) with (@nil string). rewrite !(String.eqb_sym k).
  destruct (String.eqb_spec "amount" k) as [<-|]; [cbn; by rewrite !app_nil_r|].
  destruct (String.eqb_spec "spl-token" k) as [<-|]; [cbn; by destruct (SPLToken p)|].
  destruct (String.eqb_spec "reference" k) as [<-|]; [cbn; by rewrite !app_nil_r|].
  destruct (String.eqb_spec "label" k) as [<-|]; [cbn; by case_bool_decide|].
  destruct (String.eqb_spec "message" k) as [<-|]; [cbn; by case_bool_decide|].
  destruct (String.eqb_spec "memo" k) as [<-|]; [cbn; by case_bool_decide|]. done.
Qed.

Lemma head_singleton (b : bool) (v : string) : default "" (head (if b then [] else [v])) = if b then "" else v.
Proof. by destruct b. Qed.

Lemma parse_references_text `{!SolanaOk _} refs : parse_references (PublicKey_String <$> refs) = Ok refs.
Proof. induction refs as [|r refs IH]; [done|]. cbn [parse_references fmap list_fmap]. by rewrite pubkey_roundtrip, IH. Qed.

Lemma url_parses_back `{!SolanaOk _} p s : BuildURL p = Ok s -> ParseURL s = Ok p.
Proof.
  intros (q & Hq & ->)%BuildURL_inv. destruct (pubkey_alnum (Recipient p)) as [Hne Hal]. unfold ParseURL.
  rewrite bool_decide_false by done. rewrite url_Parse_String by done. unfold opaque_URL. cbn [Scheme Opaque RawQuery].
  change (negb (String.eqb "solana" "solana")) with false. rewrite bool_decide_false by done. cbv iota.
  rewrite pubkey_roundtrip, parse_Encode. unfold Values_Get. rewrite !values_sorted, !Hq. cbn -[bool_decide].
  rewrite !app_nil_r, parse_references_text, !head_singleton. unfold parse_token.
  assert (Htok : forall m, PublicKey_String m <> "") by (intros m; apply pubkey_alnum).
  assert (Hv : forall v, (if bool_decide (v = "") then "" else v) = v) by (intros v; by case_bool_decide).
  destruct p as [rcp tok am refs lab msg memo]. cbn in *. rewrite !Hv. destruct tok as [m|]; cbn -[bool_decide].
  - by rewrite bool_decide_false, pubkey_roundtrip.
  - done.
Qed.

(** C36: URLs parse back: whatever [BuildURL] renders, [ParseURL] reads back as the
    same parameters, for every label, message, memo and amount text (any bytes)
    and any number of references. *)
Theorem ParseURL_BuildURL `{!SolanaOk _} p s : BuildURL p = Ok s -> ParseURL s = Ok p.
Proof. apply url_parses_back. Qed.

(** A URL is built exactly when no key is zero. *)
Lemma BuildURL_ok p :
  IsZero (Recipient p) = false -> (forall m, SPLToken p = Some m -> IsZero m = false) ->
  Forall (fun k => IsZero k = false) (References p) -> exists s, BuildURL p = Ok s.
Proof.
  intros Hr Hm Hrefs. unfold BuildURL. rewrite Hr. unfold set_token.
  assert (Hadd : forall q, exists q', add_references q (References p) = Ok q').
  { induction (References p) as [|k ks IH]; intros q; [by eexists|]. apply Forall_cons in Hrefs as [Hk Hks].
    cbn [add_references]. rewrite Hk. by apply IH. }
  destruct (SPLToken p) as [m|].
  - rewrite (Hm m eq_refl). destruct (Hadd (Values_Set (set_nonempty [] "amount" (up_Amount p)) "spl-token" (PublicKey_String m))) as [q' ->].
    by eexists.
  - destruct (Hadd (set_nonempty [] "amount" (up_Amount p))) as [q' ->]. by eexists.
Qed.
End urls.

(** ** Witness *)

Definition example_url_params : URLParams :=
  mkURLParams 103%N (Some 102%N) "1005.025125" [105%N; 106%N] "Warung & Co" "Order #7" "".

Lemma ParseURL_BuildURL_witness :
  @BuildURL example_solana example_url_params =
    Ok "solana:103?amount=1005.025125&label=Warung+%26+Co&message=Order+%237&reference=105&reference=106&spl-token=102" /\
  @ParseURL example_solana
    "solana:103?amount=1005.025125&label=Warung+%26+Co&message=Order+%237&reference=105&reference=106&spl-token=102" =
    Ok example_url_params.
Proof.
  split; [vm_compute; reflexivity|].
  apply (@ParseURL_BuildURL example_solana example_solana_ok example_url_params). vm_compute. reflexivity.
Defined.
