(* ===== verification/Reference.v ===== *)
(** * Reference keypairs ([internal/solanapay/reference.go])

    A fresh keypair per payment intent, its private key sealed with AES-256-GCM. *)

From S2P Require Import Prelude GoStr Sha256 MockBank Models World AesGcm GoUrl SplParser.
From Stdlib Require Import Ascii String.

(** What the code uses of solana-go's keys and of the random source:
    [random_private_key n] and [random_bytes n len] are the n-th draw. *)
Class Keys := {
  random_private_key : N -> res string;
  random_bytes : N -> nat -> res string;
  PrivateKey_PublicKey : string -> PublicKey;
  PrivateKey_IsValid : string -> bool;
  FindAssociatedTokenAddress : PublicKey -> PublicKey -> res PublicKey
}.

(** Drawn keys are valid, have a non-zero public key and do not repeat; a full read
    has the length asked for; derived accounts are not zero. *)
Class KeysOk (K : Keys) : Prop := {
  random_key_valid n p : @random_private_key K n = Ok p -> @PrivateKey_IsValid K p = true;
  random_key_nonzero n p : @random_private_key K n = Ok p -> @PrivateKey_PublicKey K p <> 0%N;
  random_key_fresh n n' p p' : @random_private_key K n = Ok p -> @random_private_key K n' = Ok p' ->
    @PrivateKey_PublicKey K p = @PrivateKey_PublicKey K p' -> n = n';
  random_bytes_length n len s : @random_bytes K n len = Ok s -> String.length s = len
}.

(** The n-th draw of a random source. *)
Definition draw {A} (f : N -> res A) : M A := fun w => (f (w_rng w), set_rng w (w_rng w + 1)%N).

Definition referenceVersion : ascii := ascii_of_N 1.

(** The AEAD is determined by its key. *)
Record Allocator := mkAllocator { enc_key : string }.
Record Reference := mkReference { Pubkey : PublicKey; SecretEnc : string }.

Definition NewAllocator (key : string) : res Allocator :=
  if negb (String.length key =? 32)%nat then
    Err (ErrMsg ("solanapay: reference enc key must be 32 bytes, got " +:+ FormatUint (Z.of_nat (String.length key))))
  else Ok (mkAllocator key).

Section allocator.
Context `{Keys} (a : Allocator).

Definition seal (priv : string) : M string :=
  nonce ← map_err (ErrWrap "solanapay: nonce") (draw (fun n => random_bytes n NonceSize));
  mret (String referenceVersion (nonce +:+ Seal (enc_key a) nonce priv)).

Definition Allocate : M Reference :=
  priv ← map_err (ErrWrap "solanapay: generate keypair") (draw random_private_key);
  blob ← seal priv;
  mret (mkReference (PrivateKey_PublicKey priv) blob).

Definition Reveal (blob : string) : res string :=
  match blob with
  | EmptyString => Err (ErrMsg "solanapay: empty ciphertext")
  | String version rest =>
    if negb (Ascii.eqb version referenceVersion) then
      Err (ErrMsg ("solanapay: unsupported reference blob version 0x" +:+ hex (String version "")))
    else if (String.length blob <? 1 + NonceSize + Overhead)%nat then Err (ErrMsg "solanapay: ciphertext too short")
    else
      let nonce := str_prefix NonceSize rest in
      let ct := str_suffix NonceSize rest in
      match Open (enc_key a) nonce ct with
      | Err e => Err (ErrWrap "solanapay: decrypt" e)
      | Ok pt =>
        if negb (PrivateKey_IsValid pt) then Err (ErrMsg "solanapay: decrypted key is not a valid ed25519 private key")
        else Ok pt
      end
  end.

(** ** Lemmas *)

(** The layout of a sealed blob. *)
Definition sealed (nonce priv : string) : string := String referenceVersion (nonce +:+ Seal (enc_key a) nonce priv).

Lemma reveal_sealed nonce priv :
  String.length nonce = NonceSize -> PrivateKey_IsValid priv = true -> Reveal (sealed nonce priv) = Ok priv.
Proof.
  intros Hn Hv. unfold Reveal, sealed. rewrite Ascii.eqb_refl. cbn [negb].
  assert (Hlen : String.length (String referenceVersion (nonce +:+ Seal (enc_key a) nonce priv)) =
    (1 + NonceSize + (String.length priv + Overhead))%nat) by (cbn [String.length]; rewrite length_app_str, Seal_length; lia).
  rewrite Hlen, (proj2 (Nat.ltb_ge _ _)) by lia. rewrite <- Hn, str_prefix_app, str_suffix_app, Open_Seal, Hv. done.
Qed.

Lemma reveal_inv blob priv :
  Reveal blob = Ok priv ->
  exists nonce, String.length nonce = NonceSize /\ PrivateKey_IsValid priv = true /\ blob = sealed nonce priv.
Proof.
  unfold Reveal. destruct blob as [|v rest]; [done|]. destruct (Ascii.eqb_spec v referenceVersion) as [->|]; [|done]. cbn [negb].
  destruct (Nat.ltb_spec (String.length (String referenceVersion rest)) (1 + NonceSize + Overhead)) as [|Hlen]; [done|].
  destruct (Open _ _ _) as [pt|] eqn:E; [|done]. destruct (PrivateKey_IsValid pt) eqn:Hv; [|done]. intros [= <-].
  exists (str_prefix NonceSize rest). apply Open_sound in E. split_and!; [|done|].
  - cbn [String.length] in Hlen. assert (Hp : forall k t, (k <= String.length t)%nat -> String.length (str_prefix k t) = k).
    { intros k. induction k as [|k IH]; intros [|c t] Hk; simpl in *; try lia. by rewrite IH by lia. }
    apply Hp. lia.
  - unfold sealed. rewrite <- E. f_equal.
    assert (Hs : forall k t, str_prefix k t +:+ str_suffix k t = t).
    { intros k. induction k as [|k IH]; intros [|c t]; try done. exact (f_equal (String c) (IH t)). }
    by rewrite Hs.
Qed.

(** C35: Exactly the sealed keys are revealed: a blob decrypts to a private key if
    and only if it is the version byte, a nonce of twelve bytes and the AES-GCM
    sealing of that valid key under the allocator's key and that nonce; every
    other blob (empty, unknown version, truncated, tampered, another key, not a
    key) is an error. *)
Theorem Reveal_iff_sealed blob priv :
  Reveal blob = Ok priv <->
  exists nonce, String.length nonce = NonceSize /\ PrivateKey_IsValid priv = true /\ blob = sealed nonce priv.
Proof. split; [apply reveal_inv|]. intros (nonce & Hn & Hv & ->). by apply reveal_sealed. Qed.

Lemma Allocate_Ok ref w w' :
  Allocate w = (Ok ref, w') ->
  exists priv nonce, random_private_key (w_rng w) = Ok priv /\ random_bytes (w_rng w + 1) NonceSize = Ok nonce /\
    ref = mkReference (PrivateKey_PublicKey priv) (sealed nonce priv) /\ w' = set_rng w (w_rng w + 2)%N.
Proof.
  unfold Allocate, seal, draw, mbind, M_bind, map_err. destruct (random_private_key (w_rng w)) as [priv|] eqn:E1; [|done].
  cbn. destruct (random_bytes (w_rng w + 1) NonceSize) as [nonce|] eqn:E2; [|done]. intros [= <- <-].
  exists priv, nonce. split_and!; try done. unfold set_rng. simpl. f_equal. lia.
Qed.

(** An allocated secret can be recovered: revealing the sealed secret of a fresh
    reference gives a valid private key whose public key is the reference. *)
Theorem Reveal_Allocate `{!KeysOk _} ref w w' :
  Allocate w = (Ok ref, w') ->
  exists priv, Reveal (SecretEnc ref) = Ok priv /\ PrivateKey_PublicKey priv = Pubkey ref /\ PrivateKey_IsValid priv = true.
Proof.
  intros (priv & nonce & Hp & Hn & -> & _)%Allocate_Ok. exists priv. cbn [SecretEnc Pubkey].
  pose proof (random_key_valid _ _ Hp). split_and!; [|done|done]. apply reveal_sealed; [by eapply random_bytes_length|done].
Qed.
End allocator.

(** ** Witnesses *)

(** Keys are 64-byte texts that carry their number. *)
Definition example_keys : Keys := {|
  random_private_key n := Ok (repeat_byte "k" (N.to_nat n + 1));
  random_bytes n len := Ok (repeat_byte "r" len);
  PrivateKey_PublicKey p := N.of_nat (String.length p);
  PrivateKey_IsValid p := negb (String.eqb p "");
  FindAssociatedTokenAddress w m := Ok (w * 1000 + m)%N
|}.

Lemma repeat_byte_len b k : String.length (repeat_byte b k) = k.
Proof. induction k; simpl; congruence. Qed.

Lemma example_keys_ok : KeysOk example_keys.
Proof.
  split; simpl.
  - intros n p [= <-]. by rewrite Nat.add_1_r.
  - intros n p [= <-]. rewrite repeat_byte_len. lia.
  - intros n n' p p' [= <-] [= <-]. rewrite !repeat_byte_len. lia.
  - intros n len s [= <-]. apply repeat_byte_len.
Qed.

Definition example_allocator : Allocator := mkAllocator (repeat_byte "K" 32).

Lemma Reveal_Allocate_witness :
  exists ref priv, (@Allocate example_keys example_allocator (world_at 0 empty_db)).1 = Ok ref /\
    @Reveal example_keys example_allocator (SecretEnc ref) = Ok priv /\ N.of_nat (String.length priv) = Pubkey ref.
Proof.
  destruct (@Allocate example_keys example_allocator (world_at 0 empty_db)) as [[ref|e] w'] eqn:E; [|vm_compute in E; discriminate E].
  destruct (@Reveal_Allocate example_keys example_allocator example_keys_ok ref (world_at 0 empty_db) w' E) as (priv & Hr & Hp & _).
  exists ref, priv. split; [reflexivity|]. split; [exact Hr|exact Hp].
Defined.
