(* ===== verification/Watcher.v ===== *)
(** * The chain watcher ([internal/chain/watcher.go])

    The watcher asks a Solana RPC endpoint for transactions, recognises deposits
    to the hot wallet, stores them in [onchain_payments] and, when a deposit is
    final and linked to an intent, enqueues the settlement saga in the same
    transaction.  The endpoint is the interface [RPCClient]; its answers may
    depend on anything, and [RPCClientOk] says that asking writes neither the
    database nor the bank's books. *)

From S2P Require Import Prelude GoStr MockBank Models World GoJson Queries Ledger Payout Saga SagaSteps SplParser.

(** ** The RPC interface *)

(** [rpc.CommitmentType] is a string. *)
Definition CommitmentType : Type := string.
Definition CommitmentConfirmed : CommitmentType := "confirmed".
Definition CommitmentFinalized : CommitmentType := "finalized".

(** [rpc.ErrNotFound]. *)
Definition RpcErrNotFound : err := ErrSentinel "not found".

(** [rpc.GetTransactionResult]: slot, block time, whether [Meta.Err] is set, and
    the transaction envelope, which may be absent or fail to decode. *)
Record GetTransactionResult := mkTxResult {
  Slot : Z; BlockTime : option Z; MetaErr : bool; Envelope : option (res Transaction)
}.

(** A listed signature and whether its transaction failed. *)
Record TransactionSignature := mkTxSig { ts_Signature : TxSignature; ts_Err : bool }.

Record RPCClient := mkRPC {
  GetTransaction : TxSignature -> CommitmentType -> M (option GetTransactionResult);
  GetSignaturesForAddress : PublicKey -> Z -> CommitmentType -> M (list TransactionSignature)
}.

Class RPCClientOk (r : RPCClient) : Prop := {
  rpc_tx_db sig c : keeps eq (GetTransaction r sig c);
  rpc_sigs_db acct limit c : keeps eq (GetSignaturesForAddress r acct limit c);
  rpc_tx_world sig c : offline (GetTransaction r sig c);
  rpc_sigs_world acct limit c : offline (GetSignaturesForAddress r acct limit c)
}.

(** ** The watcher *)

Record WatcherConfig := mkWatcherConfig {
  HotWalletATA : PublicKey; cfg_Mint : PublicKey; ExpectedDecimals : Z;
  RefreshInterval : Z; PollInterval : Z; PromoteInterval : Z;
  PollLimit : Z; PromoteBatchSize : Z
}.

Record Watcher := mkWatcher {
  w_rpc : RPCClient; w_cfg : WatcherConfig; w_refs : gmap PublicKey uuid
}.

Definition default_pos (v d : Z) : Z := if v <=? 0 then d else v.

Definition NewWatcher (r : RPCClient) (cfg : WatcherConfig) : Watcher :=
  mkWatcher r
    (mkWatcherConfig (HotWalletATA cfg) (cfg_Mint cfg) (ExpectedDecimals cfg)
       (default_pos (RefreshInterval cfg) (10 * ns_per_s))
       (default_pos (PollInterval cfg) (15 * ns_per_s))
       (default_pos (PromoteInterval cfg) (10 * ns_per_s))
       (default_pos (PollLimit cfg) 20)
       (default_pos (PromoteBatchSize cfg) 50))
    ∅.

Definition commitmentToDB (c : CommitmentType) : SolanaCommitment :=
  if String.eqb c CommitmentConfirmed then CConfirmed
  else if String.eqb c CommitmentFinalized then CFinalized
  else CProcessed.

(** [uuid.Nil] stands for no intent. *)
Definition intentIDPtr (id : uuid) : option uuid := if N.eqb id 0 then None else Some id.

Section watcher.
Context `{Env} `{Solana} (wt : Watcher).

(** The map built from the rows; a later row with the same key overwrites. *)
Definition add_reference (next : gmap PublicKey uuid) (row : uuid * option string) : gmap PublicKey uuid :=
  match row.2 with
  | None => next
  | Some text =>
    match PublicKeyFromBase58 text with
    | Err _ => next
    | Ok pub => <[pub := row.1]> next
    end
  end.

(** On success the whole map is replaced. *)
Definition RefreshReferences : M Watcher :=
  rows ← map_err (ErrWrap "chain: list active references") ListActiveReferenceIntents;
  mret (mkWatcher (w_rpc wt) (w_cfg wt) (foldl add_reference ∅ rows)).

Definition matchReference (tx : Transaction) : uuid * option PublicKey :=
  match ReferencesIn (Some tx) (dom (w_refs wt)) with
  | [] => (0%N, None)
  | pub :: _ => (default 0%N (w_refs wt !! pub), Some pub)
  end.

(** The transaction of [ProcessSignature]: upsert, and enqueue of the saga when
    the row is final and linked. *)
Definition record_deposit (sig : TxSignature) (commitment : CommitmentType) (resp : GetTransactionResult)
    (transfer : SPLTransfer) (intent : option uuid) (refPtr : option string) : M unit :=
  with_tx "chain: begin tx" "chain: commit tx" (
    row ← map_err (ErrWrap ("chain: upsert onchain_payment " +:+ Signature_String sig))
      (UpsertOnchainPayment (Signature_String sig) (wrap64 (Slot resp)) (BlockTime resp)
         (PublicKey_String (Source transfer)) (PublicKey_String (Dest transfer))
         (PublicKey_String (Mint transfer)) (Amount transfer) refPtr
         (commitmentToDB commitment) intent);
    match op_commitment row, op_intent_id row with
    | CFinalized, Some i =>
      _ ← map_err (ErrWrap ("chain: enqueue saga run for " +:+ Signature_String sig))
        (EnqueueSagaRun i KindSettlement FirstStep);
      mret tt
    | _, _ => mret tt
    end).

(** The checks on a parsed transfer, in the order of the code; [None] is an early
    [return nil]. *)
Definition accept_transfer (transfer : SPLTransfer) : res (option SPLTransfer) :=
  if negb (N.eqb (Dest transfer) (HotWalletATA (w_cfg wt))) then Ok None
  else if negb (N.eqb (Mint transfer) (cfg_Mint (w_cfg wt))) then Ok None
  else if negb (Decimals transfer =? ExpectedDecimals (w_cfg wt)) then
    Err (ErrMsg ("chain: mint decimals mismatch: tx=" +:+ FormatInt (Decimals transfer)
                 +:+ " want=" +:+ FormatInt (ExpectedDecimals (w_cfg wt))))
  else if 2 ^ 63 - 1 <? Amount transfer then
    Err (ErrMsg ("chain: amount " +:+ FormatInt (Amount transfer) +:+ " exceeds int64 range"))
  else Ok (Some transfer).

(** A decoded transaction. *)
Definition process_tx (sig : TxSignature) (commitment : CommitmentType) (resp : GetTransactionResult)
    (tx : Transaction) : M unit :=
  match ParseSPLTransferChecked (Some tx) with
  | Err e =>
    if errors_is ErrNoSPLTransfer e then mret tt
    else throw (ErrWrap ("chain: parse transfer " +:+ Signature_String sig) e)
  | Ok transfer =>
    accepted ← lift_res (accept_transfer transfer);
    match accepted with
    | None => mret tt
    | Some transfer =>
      let '(intentID, refPub) := matchReference tx in
      record_deposit sig commitment resp transfer (intentIDPtr intentID) (PublicKey_String <$> refPub)
    end
  end.

Definition ProcessSignature (sig : TxSignature) (commitment : CommitmentType) : M unit :=
  answer ← try (GetTransaction (w_rpc wt) sig commitment);
  match answer with
  | Err e =>
    if errors_is RpcErrNotFound e then mret tt
    else throw (ErrWrap ("chain: getTransaction " +:+ Signature_String sig) e)
  | Ok None => mret tt
  | Ok (Some resp) =>
    match Envelope resp with
    | None => mret tt
    | Some envelope =>
      if MetaErr resp then mret tt
      else match envelope with
      | Err e => throw (ErrWrap ("chain: decode transaction " +:+ Signature_String sig) e)
      | Ok tx => process_tx sig commitment resp tx
      end
    end
  end.

(** A loop that processes signatures and only logs their errors. *)
Fixpoint process_all (sigs : list TxSignature) (commitment : CommitmentType) : M unit :=
  match sigs with
  | [] => mret tt
  | sig :: sigs => _ ← try (ProcessSignature sig commitment); process_all sigs commitment
  end.

(** Rows whose signature does not decode are skipped. *)
Definition row_signatures (rows : list OnchainPayment) : list TxSignature :=
  omap (fun r => match SignatureFromBase58 (op_signature r) with Ok s => Some s | Err _ => None end) rows.

Definition PromoteUnfinalized : M unit :=
  rows ← map_err (ErrWrap "chain: list unfinalized")
    (ListUnfinalizedOnchainPayments (PromoteBatchSize (w_cfg wt)));
  process_all (row_signatures rows) CommitmentFinalized.

(** Signatures of transactions that did not fail. *)
Definition live_signatures (sigs : list TransactionSignature) : list TxSignature :=
  ts_Signature <$> List.filter (fun s => negb (ts_Err s)) sigs.

(** [keys] enumerates the references: Go iterates over the map in any order. *)
Fixpoint poll_keys (keys : list PublicKey) : M unit :=
  match keys with
  | [] => mret tt
  | ref :: keys =>
    answer ← try (GetSignaturesForAddress (w_rpc wt) ref (PollLimit (w_cfg wt)) CommitmentConfirmed);
    _ ← match answer with
        | Err _ => mret tt
        | Ok sigs => process_all (live_signatures sigs) CommitmentConfirmed
        end;
    poll_keys keys
  end.

Definition PollReferences (keys : list PublicKey) : M unit := poll_keys keys.

(** What one connection attempt does: the dial or the subscription fails, or it
    delivers notifications until [Recv] fails. *)
Inductive session :=
  | DialFailed (e : err)
  | SubscribeFailed (e : err)
  | Streamed (msgs : list TransactionSignature) (e : err).

Definition runSubscription (s : session) : M unit :=
  match s with
  | DialFailed e => throw e
  | SubscribeFailed e => throw (ErrWrap "logsSubscribe" e)
  | Streamed msgs e =>
    _ ← process_all (live_signatures msgs) CommitmentConfirmed;
    throw e
  end.

(** [context.Canceled]. *)
Definition ErrCanceled : err := ErrSentinel "context canceled".

(** [time.After]. *)
Definition sleep (d : Z) : M unit := fun w => (Ok tt, set_now w (w_now w + d)).

(** [subscribeLoop] over the connection attempts it makes, with the delay before
    the next one; the list ends where the observation does. *)
Fixpoint subscribe_from (backoff : Z) (sessions : list session) : M unit :=
  match sessions with
  | [] => mret tt
  | s :: sessions =>
    r ← try (runSubscription s);
    match r with
    | Ok _ => mret tt
    | Err e =>
      if errors_is ErrCanceled e then throw e
      else
        _ ← sleep backoff;
        subscribe_from (if backoff <? 30 * ns_per_s then backoff * 2 else backoff) sessions
    end
  end.

Definition subscribeLoop (sessions : list session) : M unit := subscribe_from ns_per_s sessions.
End watcher.

(** ** Recording a deposit *)

(** The columns a deposit is identified by. *)
Definition same_deposit (p p' : OnchainPayment) : Prop :=
  op_signature p' = op_signature p /\ op_slot p' = op_slot p /\ op_block_time p' = op_block_time p /\
  op_from_ata p' = op_from_ata p /\ op_to_ata p' = op_to_ata p /\ op_mint p' = op_mint p /\
  op_amount p' = op_amount p /\ op_reference_pubkey p' = op_reference_pubkey p /\
  op_created_at p' = op_created_at p.

(** A row after any number of upserts of its signature: nothing but the
    commitment and the link change, the first only forward, the second only from
    unset to set. *)
Record advanced (p p' : OnchainPayment) : Prop := {
  adv_same : same_deposit p p';
  adv_commitment : commitment_rank (op_commitment p) <= commitment_rank (op_commitment p');
  adv_intent i : op_intent_id p = Some i -> op_intent_id p' = Some i
}.

#[global] Instance advanced_preorder : PreOrder advanced.
Proof.
  split.
  - intros p. split; [done|lia|auto].
  - intros p1 p2 p3 [(?&?&?&?&?&?&?&?&?) Hc Hi] [(?&?&?&?&?&?&?&?&?) Hc' Hi'].
    split; [unfold same_deposit; split_and!; congruence|lia|auto].
Qed.

Lemma merge_advanced c i now p : advanced p (merge_payment c i now p).
Proof.
  split; [done| |intros j Hj; simpl; by rewrite Hj]. simpl. destruct (Z.ltb_spec (commitment_rank (op_commitment p)) (commitment_rank c)); lia.
Qed.

(** Deposits are never dropped, only advanced. *)
Definition deposits_advance (d d' : DB) : Prop :=
  forall p, p ∈ onchain_payments d -> exists p', p' ∈ onchain_payments d' /\ advanced p p'.

#[global] Instance deposits_advance_preorder : PreOrder deposits_advance.
Proof.
  split; [intros d p Hp; by exists p|]. intros d1 d2 d3 H1 H2 p Hp.
  destruct (H1 p Hp) as (p1 & Hp1 & A1), (H2 p1 Hp1) as (p2 & Hp2 & A2). exists p2. split; [done|by etransitivity].
Qed.

#[global] Instance deposits_advance_runs : Frames deposits_advance set_saga_runs.
Proof. intros d t p Hp. by exists p. Qed.

(** A saga run of the intent exists. *)
Definition has_run (d : DB) (i : uuid) : Prop :=
  exists r, r ∈ saga_runs d /\ run_of_intent i KindSettlement r = true.

(** One row per signature, and every final linked deposit has its saga. *)
Record deposits_ok (d : DB) : Prop := {
  dep_nodup : NoDup (op_signature <$> onchain_payments d);
  dep_armed p i : p ∈ onchain_payments d -> op_commitment p = CFinalized -> op_intent_id p = Some i -> has_run d i
}.

(** The row an upsert inserts. *)
Definition new_payment sig slot bt fa ta mt amt ref c i now : OnchainPayment :=
  mkOnchainPayment sig slot bt fa ta mt amt ref c i now now.

Section deposits.
Context `{Env}.

(** What a successful upsert leaves in the table. *)
Record upserted (sig : string) (c : SolanaCommitment) (i : option uuid) (fresh p' : OnchainPayment)
    (d d' : DB) : Prop := {
  up_table : exists t, d' = set_onchain_payments d t;
  up_in : p' ∈ onchain_payments d';
  up_sig : op_signature p' = sig;
  up_rank : commitment_rank c <= commitment_rank (op_commitment p');
  up_link : is_Some i -> is_Some (op_intent_id p');
  up_advance : deposits_advance d d';
  up_origin : (find_row (payment_by_sig sig) (onchain_payments d) = None /\ p' = fresh) \/
              (exists p, p ∈ onchain_payments d /\ advanced p p');
  up_nodup : NoDup (op_signature <$> onchain_payments d) -> NoDup (op_signature <$> onchain_payments d');
  up_rest : NoDup (op_signature <$> onchain_payments d) -> forall q, q ∈ onchain_payments d' ->
    q = p' \/ (q ∈ onchain_payments d /\ op_signature q <> sig)
}.

Lemma upsert_merged sig c i now d p fresh :
  find_row (payment_by_sig sig) (onchain_payments d) = Some p ->
  upserted sig c i fresh (merge_payment c i now p) d
    (set_onchain_payments d (update_where (payment_by_sig sig) (merge_payment c i now) (onchain_payments d))).
Proof.
  intros Hfind. pose proof (find_row_Some _ _ _ Hfind) as [Hin Hsig%String.eqb_eq].
  split; simpl.
  - eauto.
  - pose proof (update_where_elem_of (payment_by_sig sig) (merge_payment c i now) _ p Hin) as Hm.
    by rewrite (proj2 (String.eqb_eq _ _) Hsig : payment_by_sig sig p = true) in Hm.
  - done.
  - case_match; bools; lia.
  - intros Hi. by destruct (op_intent_id p).
  - intros q Hq. exists (if payment_by_sig sig q then merge_payment c i now q else q).
    split; [by apply update_where_elem_of|]. case_match; [apply merge_advanced|reflexivity].
  - right. exists p. split; [done|apply merge_advanced].
  - intros Hnd. by rewrite fmap_update_where.
  - intros Hnd q (q0 & -> & Hq0)%list_elem_of_fmap.
    destruct (payment_by_sig sig q0) eqn:E; [left|right].
    + apply String.eqb_eq in E. by rewrite (NoDup_fmap_elem op_signature _ q0 p Hnd Hq0 Hin ltac:(congruence)).
    + split; [done|]. by apply String.eqb_neq in E.
Qed.

Lemma upsert_inserted sig c i fresh d :
  find_row (payment_by_sig sig) (onchain_payments d) = None -> op_signature fresh = sig ->
  op_commitment fresh = c -> op_intent_id fresh = i ->
  upserted sig c i fresh fresh d (set_onchain_payments d (onchain_payments d ++ [fresh])).
Proof.
  intros Hfind Hsig <- <-.
  assert (Hnew : forall q, q ∈ onchain_payments d -> op_signature q <> sig).
  { intros q Hq E. pose proof (find_row_None _ _ _ Hfind Hq) as Hn. by apply String.eqb_neq in Hn. }
  split; simpl; try done; eauto.
  - apply elem_of_app. right. by apply list_elem_of_singleton.
  - intros q Hq. exists q. split; [apply elem_of_app; by left|reflexivity].
  - intros Hnd. apply NoDup_snoc; [done|]. rewrite Hsig. intros (q & E & Hq)%list_elem_of_fmap. by eapply Hnew.
  - intros _ q [Hq| ->%list_elem_of_singleton]%elem_of_app; [right|by left]. split; [done|by apply Hnew].
Qed.

Lemma upsert_Ok sig slot bt fa ta mt amt ref c i w p' w' :
  UpsertOnchainPayment sig slot bt fa ta mt amt ref c i w = (Ok p', w') ->
  0 < amt /\ upserted sig c i (new_payment sig slot bt fa ta mt amt ref c i (w_now w)) p' (w_db w) (w_db w').
Proof.
  intros (Hres & Hd & _)%stmt_Ok. cbv beta zeta in Hres, Hd. destruct ((slot <? 0) || (amt <=? 0)) eqn:Hg; [done|]. bools.
  split; [lia|].
  destruct (find_row (payment_by_sig sig) (onchain_payments (w_db w))) as [p|] eqn:Hfind;
    match type of Hres with context [intent_exists ?a ?b] => destruct (intent_exists a b) end; simplify_eq/=; rewrite Hd.
  - by apply upsert_merged.
  - by apply upsert_inserted.
Qed.

Lemma enqueue_Ok i k st w r w' :
  EnqueueSagaRun i k st w = (Ok r, w') ->
  (exists t, w_db w' = set_saga_runs (w_db w) t) /\ run_of_intent i k r = true /\
  saga_runs (w_db w) `prefix_of` saga_runs (w_db w') /\ r ∈ saga_runs (w_db w').
Proof.
  intros (Hres & Hd & _)%stmt_Ok. cbv beta zeta in Hres, Hd. rewrite Hd.
  destruct (find_row (run_of_intent i k) (saga_runs (w_db w))) as [r0|] eqn:Hfind; simpl in Hres |- *.
  - simplify_eq. pose proof (find_row_Some _ _ _ Hfind) as [Hin Hr]. split_and!; try done.
    exists (saga_runs (w_db w)). by destruct (w_db w).
  - destruct (find_row (by_id pi_id i) _); [|done]. destruct (pk_taken _ _ _); [done|]. simplify_eq/=.
    split_and!; [eauto| |by apply prefix_snoc|apply elem_of_app; right; by apply list_elem_of_singleton].
    unfold run_of_intent. simpl. by rewrite N.eqb_refl, String.eqb_refl.
Qed.

Lemma has_run_prefix d d' i : saga_runs d `prefix_of` saga_runs d' -> has_run d i -> has_run d' i.
Proof. intros Hp (r & Hr & Hi). exists r. split; [by eapply elem_of_prefix|done]. Qed.

Context `{Solana}.

(** The database after a recorded deposit: the upsert, and new saga runs only. *)
Record recorded (sig : TxSignature) (c : CommitmentType) (resp : GetTransactionResult) (tr : SPLTransfer)
    (i : option uuid) (ref : option string) (now : Z) (p' : OnchainPayment) (d d' : DB) : Prop := {
  rec_amount : 0 < Amount tr;
  rec_upserted : upserted (Signature_String sig) (commitmentToDB c) i
    (new_payment (Signature_String sig) (wrap64 (Slot resp)) (BlockTime resp)
       (PublicKey_String (Source tr)) (PublicKey_String (Dest tr)) (PublicKey_String (Mint tr))
       (Amount tr) ref (commitmentToDB c) i now) p' d (set_saga_runs d' (saga_runs d));
  rec_runs : saga_runs d `prefix_of` saga_runs d';
  rec_armed j : op_commitment p' = CFinalized -> op_intent_id p' = Some j -> has_run d' j
}.

Lemma record_body_Ok sig c resp tr i ref w u w' :
  (row ← map_err (ErrWrap ("chain: upsert onchain_payment " +:+ Signature_String sig))
      (UpsertOnchainPayment (Signature_String sig) (wrap64 (Slot resp)) (BlockTime resp)
         (PublicKey_String (Source tr)) (PublicKey_String (Dest tr))
         (PublicKey_String (Mint tr)) (Amount tr) ref (commitmentToDB c) i);
   match op_commitment row, op_intent_id row with
   | CFinalized, Some j =>
     _ ← map_err (ErrWrap ("chain: enqueue saga run for " +:+ Signature_String sig))
       (EnqueueSagaRun j KindSettlement FirstStep);
     mret tt
   | _, _ => mret tt
   end) w = (Ok u, w') ->
  exists p', recorded sig c resp tr i ref (w_now w) p' (w_db w) (w_db w').
Proof.
  intros (p' & w1 & Hup%map_err_Ok & Hrest)%bind_Ok.
  apply upsert_Ok in Hup as (Hamt & Hup). pose proof (up_table _ _ _ _ _ _ _ Hup) as [t Ht].
  exists p'.
  assert (Hkeep : w1 = w' -> (op_commitment p' = CFinalized -> op_intent_id p' = None) ->
    recorded sig c resp tr i ref (w_now w) p' (w_db w) (w_db w')).
  { intros <- Hno. split; [done| |by rewrite Ht|].
    - rewrite Ht in Hup |- *. by destruct (w_db w).
    - intros j Hc Hj. by rewrite (Hno Hc) in Hj. }
  destruct (op_commitment p') eqn:Hc, (op_intent_id p') as [j|] eqn:Hj; minv; try by apply Hkeep.
  match goal with H : EnqueueSagaRun _ _ _ _ = (Ok ?r, ?w') |- _ =>
    apply enqueue_Ok in H as ((t2 & E2) & Hr & Hpre & Hin); rename w' into w2 end.
  split; [done| | |].
  - replace (set_saga_runs (w_db w2) (saga_runs (w_db w))) with (w_db w1); [done|].
    rewrite E2, Ht. by destruct (w_db w).
  - rewrite Ht in Hpre. done.
  - intros j' _ Hj'. simplify_eq. eexists. split; [done|done].
Qed.

Lemma record_deposit_db sig c resp tr i ref w :
  let w' := (record_deposit sig c resp tr i ref w).2 in
  w_db w' = w_db w \/ exists now p', recorded sig c resp tr i ref now p' (w_db w) (w_db w').
Proof.
  simpl. unfold record_deposit.
  match goal with |- context [with_tx ?b ?m ?body w] => destruct (with_tx_db b m body w) as [Hd|(a & w0 & w1 & Hbody & Hw0 & Hd & _)] end;
    [by left|right].
  rewrite Hd. apply record_body_Ok in Hbody as [p' Hp]. exists (w_now w0), p'. by rewrite <- Hw0.
Qed.

(** Recording keeps the invariant. *)
Lemma recorded_ok sig c resp tr i ref now p' d d' :
  recorded sig c resp tr i ref now p' d d' -> deposits_ok d -> deposits_ok d'.
Proof.
  intros [Hamt Hup Hpre Harm] [Hnd Hall]. split.
  - by apply (up_nodup _ _ _ _ _ _ _ Hup) in Hnd.
  - intros q j Hq Hc Hj. destruct (up_rest _ _ _ _ _ _ _ Hup Hnd q Hq) as [->|[Hq' _]]; [by apply Harm|].
    eapply has_run_prefix; [done|]. by eapply Hall.
Qed.

Lemma recorded_advance sig c resp tr i ref now p' d d' :
  recorded sig c resp tr i ref now p' d d' -> deposits_advance d d'.
Proof. intros [_ Hup _ _] p Hp. by destruct (up_advance _ _ _ _ _ _ _ Hup p Hp) as (q & Hq & A); exists q. Qed.
End deposits.

(** ** Processing a signature *)

Section process.
Context `{Env} `{Solana} (wt : Watcher) `{Hrpc : !RPCClientOk (w_rpc wt)}.

Lemma accept_transfer_Some tr tr' :
  accept_transfer wt tr = Ok (Some tr') ->
  tr' = tr /\ Dest tr = HotWalletATA (w_cfg wt) /\ Mint tr = cfg_Mint (w_cfg wt) /\
  Decimals tr = ExpectedDecimals (w_cfg wt) /\ Amount tr <= int64_max.
Proof.
  unfold accept_transfer. destruct (N.eqb_spec (Dest tr) (HotWalletATA (w_cfg wt))); [|done].
  destruct (N.eqb_spec (Mint tr) (cfg_Mint (w_cfg wt))); [|done].
  destruct (Z.eqb_spec (Decimals tr) (ExpectedDecimals (w_cfg wt))); [|done]. simpl negb. cbv iota.
  destruct (Z.ltb_spec (2 ^ 63 - 1) (Amount tr)); [done|]. intros; simplify_eq. by split_and!.
Qed.

(** Either the database is as before, or the endpoint reported a successful
    transaction with a transfer to the hot wallet, and that transfer was recorded. *)
Definition genuine (sig : TxSignature) (c : CommitmentType) (w : World) (resp : GetTransactionResult)
    (tx : Transaction) (tr : SPLTransfer) : Prop :=
  (GetTransaction (w_rpc wt) sig c w).1 = Ok (Some resp) /\
  Envelope resp = Some (Ok tx) /\ MetaErr resp = false /\
  ParseSPLTransferChecked (Some tx) = Ok tr /\
  Dest tr = HotWalletATA (w_cfg wt) /\ Mint tr = cfg_Mint (w_cfg wt) /\
  Decimals tr = ExpectedDecimals (w_cfg wt) /\ Amount tr <= int64_max.

Lemma process_db sig c w :
  let w' := (ProcessSignature wt sig c w).2 in
  w_db w' = w_db w \/
  exists resp tx tr now p',
    genuine sig c w resp tx tr /\
    recorded sig c resp tr (intentIDPtr (matchReference wt tx).1)
      (PublicKey_String <$> (matchReference wt tx).2) now p' (w_db w) (w_db w').
Proof.
  simpl. unfold ProcessSignature, mbind, M_bind, try. pose proof (rpc_tx_db (r := w_rpc wt) sig c w) as Hdb.
  destruct (GetTransaction (w_rpc wt) sig c w) as [answer w1] eqn:Hget. simpl in Hdb.
  destruct answer as [[resp|]|e]; [|by left|by left; case_match].
  destruct (Envelope resp) as [[tx|e]|] eqn:Henv; [|by left; case_match|by left].
  destruct (MetaErr resp) eqn:Hmeta; [by left|]. unfold process_tx.
  destruct (ParseSPLTransferChecked (Some tx)) as [tr|e] eqn:Hparse; [|by left; case_match].
  unfold mbind, M_bind, lift_res. destruct (accept_transfer wt tr) as [[tr'|]|e] eqn:Hacc; [|by left..].
  apply accept_transfer_Some in Hacc as (-> & Hd & Hm & Hdec & Ha).
  destruct (matchReference wt tx) as [intentID refPub] eqn:Hmatch.
  destruct (record_deposit_db sig c resp tr (intentIDPtr intentID) (PublicKey_String <$> refPub) w1)
    as [->|(now & p' & Hrec)]; [by left|right].
  exists resp, tx, tr, now, p'. split.
  - unfold genuine. rewrite Hget. by split_and!.
  - rewrite Hmatch, Hdb. exact Hrec.
Qed.

(** Processing keeps the invariant and only advances deposits. *)
Definition deposits_step (d d' : DB) : Prop :=
  deposits_advance d d' /\ saga_runs d `prefix_of` saga_runs d' /\ (deposits_ok d -> deposits_ok d').

#[global] Instance deposits_step_preorder : PreOrder deposits_step.
Proof.
  split; [intros d; by split_and!|]. intros d1 d2 d3 (?&?&?) (?&?&?). split_and!; [by etransitivity..|auto].
Qed.

Lemma keeps_ProcessSignature sig c : keeps deposits_step (ProcessSignature wt sig c).
Proof.
  intros w. destruct (process_db sig c w) as [->|(resp & tx & tr & now & p' & _ & Hrec)]; [reflexivity|].
  split_and!; [by eapply recorded_advance|by destruct Hrec|by eapply recorded_ok].
Qed.

Lemma keeps_RefreshReferences (R : DB -> DB -> Prop) `{!PreOrder R} : keeps R (RefreshReferences wt).
Proof. apply keeps_bind; [apply _|apply keeps_map_err, keeps_select, _|intros; apply keeps_ret, _]. Qed.
End process.

(** ** Operations as sequences of processed signatures *)

Section operations.
Context `{Env} `{Solana}.

(** The operations of a watcher, which its loops run in any order. *)
Inductive watch_op (wt : Watcher) : M unit -> Prop :=
  | op_process sig c : watch_op wt (ProcessSignature wt sig c)
  | op_poll keys : keys ≡ₚ elements (dom (w_refs wt)) -> watch_op wt (PollReferences wt keys)
  | op_promote : watch_op wt (PromoteUnfinalized wt)
  | op_subscribe sessions : watch_op wt (subscribeLoop wt sessions)
  | op_refresh : watch_op wt (_ ← RefreshReferences wt; mret tt).

Context (wt : Watcher) `{Hrpc : !RPCClientOk (w_rpc wt)}.

(** Every operation keeps what processing a signature keeps. *)
Section lift.
Context (R : DB -> DB -> Prop) `{!PreOrder R} (Hproc : forall sig c, keeps R (ProcessSignature wt sig c)).

Lemma keeps_rpc_eq {A} (m : M A) : keeps eq m -> keeps R m.
Proof. intros Hm w. by rewrite <- (Hm w). Qed.

Lemma keeps_process_all sigs c : keeps R (process_all wt sigs c).
Proof.
  induction sigs as [|sig sigs IH]; simpl; [apply keeps_ret, _|].
  apply keeps_bind; [apply _|by apply keeps_try|intros _; apply IH].
Qed.

Lemma keeps_poll_keys keys : keeps R (poll_keys wt keys).
Proof.
  induction keys as [|k keys IH]; simpl; [apply keeps_ret, _|].
  apply keeps_bind; [apply _|apply keeps_try, keeps_rpc_eq, rpc_sigs_db|].
  intros [sigs|e]; (apply keeps_bind; [apply _| |intros _; apply IH]);
    [apply keeps_process_all|apply keeps_ret, _].
Qed.

Lemma keeps_subscribe_from b sessions : keeps R (subscribe_from wt b sessions).
Proof.
  revert b. induction sessions as [|s ss IH]; intros b; simpl; [apply keeps_ret, _|].
  apply keeps_bind; [apply _|apply keeps_try|].
  - destruct s; simpl; try (apply keeps_throw, _).
    apply keeps_bind; [apply _|apply keeps_process_all|intros _; apply keeps_throw, _].
  - intros [u|e]; [apply keeps_ret, _|]. case_match; [apply keeps_throw, _|].
    apply keeps_bind; [apply _|intros w; simpl; reflexivity|intros _; apply IH].
Qed.

Lemma keeps_watch_op m : watch_op wt m -> keeps R m.
Proof.
  intros [sig c|keys _| |sessions|]; [done|apply keeps_poll_keys| |apply keeps_subscribe_from|].
  - apply keeps_bind; [apply _|apply keeps_map_err, keeps_select, _|]. intros rows. apply keeps_process_all.
  - apply keeps_bind; [apply _|apply keeps_RefreshReferences, _|]. intros. apply keeps_ret, _.
Qed.
End lift.

(** The watcher writes with two statements only. *)
Lemma keeps_ProcessSignature_of (R : DB -> DB -> Prop) `{!PreOrder R} sig c :
  (forall s l b f t m a r c i, keeps R (UpsertOnchainPayment s l b f t m a r c i)) ->
  (forall i k s, keeps R (EnqueueSagaRun i k s)) -> keeps R (ProcessSignature wt sig c).
Proof.
  intros Hu He. unfold ProcessSignature. apply keeps_bind; [apply _|apply keeps_try, keeps_rpc_eq, rpc_tx_db; apply _|].
  intros [[resp|]|e]; [|keeps_auto..]. unfold process_tx, record_deposit.
  destruct (Envelope resp) as [[tx|e]|]; [|keeps_auto..]. destruct (MetaErr resp); keeps_auto.
Qed.

Lemma keeps_ProcessSignature_frame (R : DB -> DB -> Prop) `{!PreOrder R}
    `{!Frames R set_onchain_payments} `{!Frames R set_saga_runs} sig c :
  keeps R (ProcessSignature wt sig c).
Proof.
  apply keeps_ProcessSignature_of; [apply _|intros; apply keeps_UpsertOnchainPayment; apply _
    |intros; apply keeps_EnqueueSagaRun; apply _].
Qed.

(** It talks to no bank. *)
Lemma offline_ProcessSignature sig c : offline (ProcessSignature wt sig c).
Proof.
  unfold ProcessSignature. apply wkeeps_bind; [apply _|apply wkeeps_try, rpc_tx_world|].
  intros [[resp|]|e]; [|wkeeps_auto..]. unfold process_tx, record_deposit.
  destruct (Envelope resp) as [[tx|e]|]; [|wkeeps_auto..]. destruct (MetaErr resp); wkeeps_auto.
Qed.

Lemma offline_process_all sigs c : offline (process_all wt sigs c).
Proof.
  induction sigs as [|sig sigs IH]; simpl; [apply wkeeps_ret, _|].
  apply wkeeps_bind; [apply _|apply wkeeps_try, offline_ProcessSignature|intros _; apply IH].
Qed.

Lemma offline_poll_keys keys : offline (poll_keys wt keys).
Proof.
  induction keys as [|k keys IH]; simpl; [apply wkeeps_ret, _|].
  apply wkeeps_bind; [apply _|apply wkeeps_try, rpc_sigs_world|].
  intros [sigs|e]; (apply wkeeps_bind; [apply _| |intros _; apply IH]);
    [apply offline_process_all|apply wkeeps_ret, _].
Qed.

Lemma offline_subscribe_from b sessions : offline (subscribe_from wt b sessions).
Proof.
  revert b. induction sessions as [|s ss IH]; intros b; simpl; [apply wkeeps_ret, _|].
  apply wkeeps_bind; [apply _|apply wkeeps_try|].
  - destruct s; simpl; try (apply wkeeps_throw, _).
    apply wkeeps_bind; [apply _|apply offline_process_all|intros _; apply wkeeps_throw, _].
  - intros [u|e]; [apply wkeeps_ret, _|]. case_match; [apply wkeeps_throw, _|].
    apply wkeeps_bind; [apply _|intros w; done|intros _; apply IH].
Qed.

Lemma offline_watch_op m : watch_op wt m -> offline m.
Proof.
  intros [sig c|keys _| |sessions|]; [apply offline_ProcessSignature|apply offline_poll_keys| |apply offline_subscribe_from|].
  - apply wkeeps_bind; [apply _|apply wkeeps_map_err, wkeeps_stmt, _|]. intros rows. apply offline_process_all.
  - unfold RefreshReferences. wkeeps_auto.
Qed.
End operations.

(** ** Sequences of operations *)

Section watching.
Context `{Env} `{Solana}.

(** Operations of any watchers (restarts and refreshed references included), at
    any times. *)
Definition watching : World -> World -> Prop :=
  rtc (fun w w' => exists wt m t, RPCClientOk (w_rpc wt) /\ watch_op wt m /\ (m (set_now w t)).2 = w').

Lemma watching_step w w' : watching w w' -> deposits_step (w_db w) (w_db w').
Proof.
  induction 1 as [|w w1 w2 (wt & m & t & Hrpc & Hop & <-) _ IH]; [reflexivity|]. etransitivity; [|exact IH].
  apply (keeps_watch_op wt deposits_step (fun sig c => keeps_ProcessSignature wt sig c) m Hop (set_now w t)).
Qed.

(** C22: Deposits only advance: through any sequence of watcher operations, with any
    answers of the RPC endpoint and any database faults, no recorded deposit is
    lost or altered; its commitment never goes back and its intent, once linked,
    stays. *)
Theorem deposits_monotone w w' p :
  watching w w' -> p ∈ onchain_payments (w_db w) ->
  exists p', p' ∈ onchain_payments (w_db w') /\ advanced p p'.
Proof. intros Hw Hp. by apply (proj1 (watching_step w w' Hw)). Qed.

(** C12: Only deposits are credited: a row that [ProcessSignature] adds or changes
    carries the signature it was called with, the endpoint reported a successful
    transaction whose first TransferChecked pays the hot wallet in the configured
    mint and decimals, and the row either advances an existing row of that
    signature or holds that transfer's accounts and positive amount, linked to
    the intent of the first known reference among the transaction's keys. *)
Theorem ProcessSignature_sound wt sig c w q :
  RPCClientOk (w_rpc wt) -> NoDup (op_signature <$> onchain_payments (w_db w)) ->
  q ∈ onchain_payments (w_db (ProcessSignature wt sig c w).2) -> q ∉ onchain_payments (w_db w) ->
  exists resp tx tr,
    genuine wt sig c w resp tx tr /\ 0 < Amount tr /\ op_signature q = Signature_String sig /\
    ((exists p, p ∈ onchain_payments (w_db w) /\ advanced p q) \/
     (op_amount q = Amount tr /\ op_to_ata q = PublicKey_String (HotWalletATA (w_cfg wt)) /\
      op_mint q = PublicKey_String (cfg_Mint (w_cfg wt)) /\ op_commitment q = commitmentToDB c /\
      op_intent_id q = intentIDPtr (matchReference wt tx).1)).
Proof.
  intros Hrpc Hnd Hin Hout. destruct (process_db wt sig c w) as [E|(resp & tx & tr & now & p' & Hg & Hrec)].
  { by rewrite E in Hin. }
  exists resp, tx, tr. destruct Hrec as [Hamt Hup _ _].
  destruct (up_rest _ _ _ _ _ _ _ Hup Hnd q Hin) as [->|[? _]]; [|done].
  split; [done|]. split; [done|]. split; [by apply Hup|].
  destruct (up_origin _ _ _ _ _ _ _ Hup) as [[_ ->]|Hp]; [right|by left].
  destruct Hg as (_ & _ & _ & _ & <- & <- & _). by split_and!.
Qed.
End watching.

(** ** A final deposit starts its settlement *)

Section finalize.
Context `{Env} `{Solana} (wt : Watcher).

(** Every linked deposit refers to an intent: the foreign key of the table. *)
Definition links_exist (d : DB) : Prop :=
  forall p j, p ∈ onchain_payments d -> op_intent_id p = Some j -> intent_exists d (Some j) = true.

Lemma upsert_run sig slot bt fa ta mt amt ref c i w :
  w_faults w = [] -> 0 <= slot -> 0 < amt -> links_exist (w_db w) -> intent_exists (w_db w) i = true ->
  exists p' t, UpsertOnchainPayment sig slot bt fa ta mt amt ref c i w =
    (Ok p', set_db w (set_onchain_payments (w_db w) t)) /\
    op_intent_id p' = match find_row (payment_by_sig sig) (onchain_payments (w_db w)) ≫= op_intent_id with
                      | Some j => Some j | None => i end.
Proof.
  intros Hf Hs Ha Hfk Hi. unfold UpsertOnchainPayment. rewrite stmt_run by done.
  rewrite (proj2 (Z.ltb_ge slot 0)), (proj2 (Z.leb_gt amt 0)) by lia. cbn [orb].
  destruct (find_row (payment_by_sig sig) (onchain_payments (w_db w))) as [p|] eqn:Hfind.
  - pose proof (find_row_Some _ _ _ Hfind) as [Hp _].
    assert (intent_exists (w_db w) (op_intent_id (merge_payment c i (w_now w) p)) = true) as ->.
    { simpl. destruct (op_intent_id p) as [j|] eqn:Hj; [|done]. by eapply Hfk. }
    simpl. rewrite N.add_0_r. destruct w. by eexists _, _.
  - rewrite Hi. simpl. rewrite N.add_0_r. destruct w. by eexists _, _.
Qed.

(** The run of intent [i] that [EnqueueSagaRun] finds or creates. *)
Definition started (i : uuid) (w w' : World) : Prop :=
  has_run (w_db w) i \/
  exists r, r ∈ saga_runs (w_db w') /\ sr_intent_id r = i /\ sr_current_step r = FirstStep /\
    sr_step_attempts r = 0 /\ claimable (w_now w) r = true.

Lemma enqueue_run i w :
  w_faults w = [] -> intent_exists (w_db w) (Some i) = true ->
  pk_taken sr_id (gen_uuid (w_rng w)) (saga_runs (w_db w)) = false ->
  exists r t, let w' := set_db (set_rng w (w_rng w + 1)%N) (set_saga_runs (w_db w) t) in
    EnqueueSagaRun i KindSettlement FirstStep w = (Ok r, w') /\ started i w w'.
Proof.
  intros Hf Hi Hpk. unfold EnqueueSagaRun. rewrite stmt_run by done. cbv beta.
  destruct (find_row (run_of_intent i KindSettlement) (saga_runs (w_db w))) as [r|] eqn:Hfind.
  - exists r, (saga_runs (w_db w)). simpl. split; [by destruct w as [[] ? ? ? ? ? ?]|left].
    apply find_row_Some in Hfind as [? ?]. by exists r.
  - apply bool_decide_eq_true in Hi as [pi Hpi]. rewrite Hpi, Hpk.
    eexists _, _. simpl. split; [done|right]. eexists. split; [apply elem_of_app; right; by apply list_elem_of_singleton|].
    split_and!; try done. unfold claimable. simpl. by rewrite Z.leb_refl.
Qed.

Lemma triggers_same_postings d d' : postings d' = postings d -> deferred_triggers d d' = true.
Proof. intros E. unfold deferred_triggers. by rewrite E, drop_all. Qed.

Lemma commitment_final c : commitment_rank CFinalized <= commitment_rank c -> c = CFinalized.
Proof. destruct c; simpl; lia || done. Qed.

Lemma record_deposit_run sig resp tr i ref w :
  w_faults w = [] -> 0 <= Slot resp < 2 ^ 63 -> 0 < Amount tr -> links_exist (w_db w) ->
  intent_exists (w_db w) (Some i) = true ->
  (forall p j, p ∈ onchain_payments (w_db w) -> op_signature p = Signature_String sig ->
     op_intent_id p = Some j -> j = i) ->
  pk_taken sr_id (gen_uuid (w_rng w)) (saga_runs (w_db w)) = false ->
  exists p' w', record_deposit sig CommitmentFinalized resp tr (Some i) ref w = (Ok tt, w') /\
    p' ∈ onchain_payments (w_db w') /\ op_signature p' = Signature_String sig /\
    op_commitment p' = CFinalized /\ op_intent_id p' = Some i /\ started i w w'.
Proof.
  intros Hf Hs Ha Hfk Hi Hsame Hpk. unfold record_deposit.
  assert (Hslot : wrap64 (Slot resp) = Slot resp)
    by (apply wrap64_id, is_int64_spec; unfold int64_min, int64_max; lia).
  edestruct (upsert_run (Signature_String sig) (wrap64 (Slot resp)) (BlockTime resp)
    (PublicKey_String (Source tr)) (PublicKey_String (Dest tr)) (PublicKey_String (Mint tr)) (Amount tr) ref
    (commitmentToDB CommitmentFinalized) (Some i) w) as (p' & t & Hup & Hlink); [done|lia|done..|].
  set (w1 := set_db w (set_onchain_payments (w_db w) t)) in *.
  pose proof Hup as [_ Hupd]%upsert_Ok. change (w_db w1) with (set_onchain_payments (w_db w) t) in Hupd.
  assert (Hfin : op_commitment p' = CFinalized) by (apply commitment_final, (up_rank _ _ _ _ _ _ _ Hupd)).
  assert (Hpi : op_intent_id p' = Some i).
  { rewrite Hlink. destruct (find_row _ _) as [p|] eqn:Hfind; [|done]. simpl.
    destruct (op_intent_id p) as [j|] eqn:Hj; [|done]. apply find_row_Some in Hfind as [Hp Hps%String.eqb_eq].
    by rewrite (Hsame p j Hp Hps Hj). }
  destruct (enqueue_run i w1) as (r & t2 & Henq & Hst); [exact Hf|exact Hi|exact Hpk|].
  exists p', (set_db (set_rng w1 (w_rng w1 + 1)%N) (set_saga_runs (w_db w1) t2)). split.
  { apply with_tx_run; [done| |done|].
    - erewrite bind_run by (unfold map_err; by rewrite Hup). rewrite Hfin, Hpi.
      erewrite bind_run by (unfold map_err; by rewrite Henq). done.
    - by apply triggers_same_postings. }
  split; [exact (up_in _ _ _ _ _ _ _ Hupd)|]. split; [exact (up_sig _ _ _ _ _ _ _ Hupd)|]. done.
Qed.

(** C9: A final deposit starts its settlement: with a reachable database, when the
    endpoint reports a finalized transaction that pays the hot wallet and carries
    the reference of an existing intent, [ProcessSignature] succeeds, the deposit
    is recorded as final and linked to that intent, and the intent has a saga
    run; a newly created one stands at the first step and can be claimed at once. *)
Theorem final_deposit_settles sig w resp tx tr i pub :
  w_faults w = [] -> GetTransaction (w_rpc wt) sig CommitmentFinalized w = (Ok (Some resp), w) ->
  genuine wt sig CommitmentFinalized w resp tx tr -> 0 < Amount tr -> 0 <= Slot resp < 2 ^ 63 ->
  matchReference wt tx = (i, Some pub) -> i <> 0%N ->
  links_exist (w_db w) -> intent_exists (w_db w) (Some i) = true ->
  (forall p j, p ∈ onchain_payments (w_db w) -> op_signature p = Signature_String sig ->
     op_intent_id p = Some j -> j = i) ->
  pk_taken sr_id (gen_uuid (w_rng w)) (saga_runs (w_db w)) = false ->
  exists p' w', ProcessSignature wt sig CommitmentFinalized w = (Ok tt, w') /\
    p' ∈ onchain_payments (w_db w') /\ op_signature p' = Signature_String sig /\
    op_commitment p' = CFinalized /\ op_intent_id p' = Some i /\ started i w w'.
Proof.
  intros Hf Hget (_ & Henv & Hmeta & Hparse & Hd & Hm & Hdec & Hmax) Ha Hs Hmatch Hi Hfk Hex Hsame Hpk.
  destruct (record_deposit_run sig resp tr i (Some (PublicKey_String pub)) w) as (p' & w' & Hrun & Hrest); [done..|].
  exists p', w'. split; [|done]. unfold ProcessSignature, mbind, M_bind, try. rewrite Hget, Henv, Hmeta.
  unfold process_tx. rewrite Hparse. unfold accept_transfer.
  rewrite Hd, Hm, Hdec, !N.eqb_refl, Z.eqb_refl. unfold int64_max in Hmax.
  cbn [negb]. rewrite (proj2 (Z.ltb_ge (2 ^ 63 - 1) (Amount tr))) by lia.
  unfold mbind, M_bind, lift_res. rewrite Hmatch. unfold intentIDPtr. rewrite (proj2 (N.eqb_neq i 0)) by done. exact Hrun.
Qed.
End finalize.

(** ** The reference map *)

Section refresh.
Context `{Env} `{Solana} (wt : Watcher).

(** The intents deposits are matched against. *)
Definition active (p : PaymentIntent) : Prop := pi_state p = IPending \/ pi_state p = IFunded.

Definition refers_to (p : PaymentIntent) (pub : PublicKey) : Prop :=
  exists text, pi_reference_pubkey p = Some text /\ PublicKeyFromBase58 text = Ok pub.

Lemma add_references_lookup rows m pub i :
  foldl add_reference m rows !! pub = Some i ->
  m !! pub = Some i \/ exists text, (i, Some text) ∈ rows /\ PublicKeyFromBase58 text = Ok pub.
Proof.
  revert m. induction rows as [|[j ref] rows IH]; intros m Hl; [by left|]. simpl in Hl.
  apply IH in Hl as [Hl|(text & Hin & Ht)]; [|right; exists text; split; [by apply list_elem_of_further|done]].
  unfold add_reference in Hl. simpl in Hl. destruct ref as [text|]; [|by left].
  destruct (PublicKeyFromBase58 text) as [k|] eqn:Ht; [|by left].
  apply lookup_insert_Some in Hl as [[-> ->]|[_ Hl]]; [right|by left].
  exists text. split; [apply list_elem_of_here|done].
Qed.

Lemma add_references_present rows m pub :
  is_Some (m !! pub) \/ (exists i text, (i, Some text) ∈ rows /\ PublicKeyFromBase58 text = Ok pub) ->
  is_Some (foldl add_reference m rows !! pub).
Proof.
  revert m. induction rows as [|[j ref] rows IH]; intros m Hp; simpl.
  - destruct Hp as [Hp|(i & text & Hin & _)]; [done|]. by apply elem_of_nil in Hin.
  - apply IH. destruct Hp as [Hp|(i & text & Hin & Ht)].
    + left. unfold add_reference. simpl. repeat case_match; try done. rewrite lookup_insert. case_decide; eauto.
    + apply elem_of_cons in Hin as [E|Hin]; [left|right; eauto]. simplify_eq. unfold add_reference. simpl.
      rewrite Ht, lookup_insert_eq. eauto.
Qed.

Lemma active_row_spec d i text :
  (i, Some text) ∈ ((fun p => (pi_id p, pi_reference_pubkey p)) <$>
    order_by pi_created_at
      (select_where (fun p => bool_decide (pi_state p = IPending \/ pi_state p = IFunded) &&
                              bool_decide (is_Some (pi_reference_pubkey p))) (payment_intents d))) <->
  exists p, p ∈ payment_intents d /\ active p /\ pi_id p = i /\ pi_reference_pubkey p = Some text.
Proof.
  rewrite list_elem_of_fmap. split.
  - intros (p & E & Hp). simplify_eq. apply elem_of_order_by, elem_of_select in Hp as [Hp Hs]. bools. eauto.
  - intros (p & Hp & Ha & <- & Ht). exists p. split; [by rewrite Ht|]. apply elem_of_order_by, elem_of_select.
    split; [done|]. rewrite !bool_decide_true; [done|rewrite Ht; eauto|done].
Qed.

(** Refreshing loads exactly the live references: the new map sends a key to the
    id of a pending or funded intent whose stored reference is that key, it covers
    the reference of every such intent, and nothing else of the watcher or the
    database changes. *)
Theorem RefreshReferences_live w :
  w_faults w = [] ->
  exists wt', RefreshReferences wt w = (Ok wt', w) /\ w_cfg wt' = w_cfg wt /\ w_rpc wt' = w_rpc wt /\
    (forall pub i, w_refs wt' !! pub = Some i ->
       exists p, p ∈ payment_intents (w_db w) /\ active p /\ pi_id p = i /\ refers_to p pub) /\
    (forall p pub, p ∈ payment_intents (w_db w) -> active p -> refers_to p pub -> is_Some (w_refs wt' !! pub)).
Proof.
  intros Hf. eexists. split.
  { unfold RefreshReferences, ListActiveReferenceIntents.
    erewrite bind_run by (unfold map_err; by rewrite select_run). reflexivity. }
  split_and!; [done..| |].
  - intros pub i [Hl|(text & Hin & Ht)]%add_references_lookup; [by rewrite lookup_empty in Hl|].
    apply active_row_spec in Hin as (p & Hp & Ha & Hi & Htext). exists p. split_and!; try done. by exists text.
  - intros p pub Hp Ha (text & Htext & Ht). apply add_references_present. right. exists (pi_id p), text.
    split; [|done]. apply active_row_spec. eauto.
Qed.
End refresh.

(** ** Witnesses *)

Section watcher_examples.
#[local] Existing Instance example_env.
#[local] Existing Instance example_solana.

(** An endpoint that knows one transaction. *)
Definition example_result : GetTransactionResult := mkTxResult 250000000 (Some 0) false (Some (Ok example_tx)).
Definition example_rpc : RPCClient :=
  mkRPC (fun _ _ => mret (Some example_result)) (fun _ _ _ => mret [mkTxSig 900%N false]).

#[local] Instance example_rpc_ok : RPCClientOk example_rpc.
Proof. by split; intros; intros w. Qed.

Definition example_intent : PaymentIntent :=
  mkPaymentIntent 51%N 50%N "order-1" 16200000 1005025125 52%N (Some "105") None None IPending 0 0.

Definition watch_world : World := world_at 5 (set_payment_intents empty_db [example_intent]).

Definition example_config : WatcherConfig := mkWatcherConfig 103%N 102%N 6 0 0 0 0 0.

(** The watcher after its first refresh. *)
Definition example_watcher : Watcher :=
  match (RefreshReferences (NewWatcher example_rpc example_config) watch_world).1 with
  | Ok wt => wt
  | Err _ => NewWatcher example_rpc example_config
  end.

Definition watch_world_1 : World :=
  Eval vm_compute in (ProcessSignature example_watcher 900%N CommitmentFinalized watch_world).2.

(** A confirmed notification of the same signature, arriving late. *)
Definition watch_world_2 : World :=
  Eval vm_compute in (ProcessSignature example_watcher 900%N CommitmentConfirmed watch_world_1).2.

Definition example_deposit : OnchainPayment :=
  Eval vm_compute in default (new_payment "" 0 None "" "" "" 0 None CProcessed None 0)
    (head (onchain_payments (w_db watch_world_1))).

Definition example_transfer : SPLTransfer := mkSPLTransfer 101%N 102%N 103%N 104%N 1005025125 6.

Lemma example_genuine : genuine example_watcher 900%N CommitmentFinalized watch_world example_result example_tx example_transfer.
Proof. by split_and!; vm_compute. Qed.

Lemma watching_example : watching watch_world_1 watch_world_2.
Proof.
  apply rtc_once. exists example_watcher, (ProcessSignature example_watcher 900%N CommitmentConfirmed), 5.
  split; [apply example_rpc_ok|]. split; [apply op_process|vm_compute; reflexivity].
Qed.

Lemma deposits_monotone_witness :
  exists p', p' ∈ onchain_payments (w_db watch_world_2) /\ advanced example_deposit p'.
Proof. apply (deposits_monotone watch_world_1); [apply watching_example|vm_compute; constructor]. Defined.

Lemma ProcessSignature_sound_witness :
  exists resp tx tr, genuine example_watcher 900%N CommitmentFinalized watch_world resp tx tr /\ 0 < Amount tr.
Proof.
  destruct (ProcessSignature_sound example_watcher 900%N CommitmentFinalized watch_world example_deposit)
    as (resp & tx & tr & Hg & Ha & _).
  - apply example_rpc_ok.
  - constructor.
  - vm_compute. constructor.
  - apply not_elem_of_nil.
  - exists resp, tx, tr. split; [exact Hg|exact Ha].
Defined.

Lemma final_deposit_settles_witness :
  exists p' w', ProcessSignature example_watcher 900%N CommitmentFinalized watch_world = (Ok tt, w') /\
    op_commitment p' = CFinalized /\ op_intent_id p' = Some 51%N.
Proof.
  destruct (final_deposit_settles example_watcher 900%N watch_world example_result example_tx example_transfer 51%N 105%N)
    as (p' & w' & Hrun & _ & _ & Hc & Hi & _).
  - reflexivity.
  - reflexivity.
  - apply example_genuine.
  - simpl. lia.
  - simpl. lia.
  - vm_compute. reflexivity.
  - discriminate.
  - intros p j Hp. by apply elem_of_nil in Hp.
  - reflexivity.
  - intros p j Hp. by apply elem_of_nil in Hp.
  - reflexivity.
  - exists p', w'. split; [exact Hrun|]. split; [exact Hc|exact Hi].
Defined.

Lemma RefreshReferences_live_witness :
  exists wt', RefreshReferences (NewWatcher example_rpc example_config) watch_world = (Ok wt', watch_world).
Proof.
  destruct (RefreshReferences_live (NewWatcher example_rpc example_config) watch_world eq_refl) as (wt' & Hrun & _).
  exists wt'. exact Hrun.
Defined.
End watcher_examples.
