(* ===== verification/Recon.v ===== *)
(** * Reconciliation ([internal/recon/walker.go])

    One pass compares the token balance the RPC endpoint reports for the hot
    wallet with the ledger's balance of the hot wallet account. *)

From S2P Require Import Prelude GoStr MockBank Models World Queries Ledger SplParser Watcher.

(** [rpc.GetTokenAccountBalanceResult]: the result or its value may be nil; the
    amount is a decimal text. *)
Definition TokenBalanceFetcher : Type := PublicKey -> CommitmentType -> M (option (option string)).

Record Report := mkReport {
  rep_HotWalletATA : PublicKey; rep_Mint : PublicKey; OnChainAmount : Z; LedgerAmount : Z;
  Difference : Z; Status : string; GeneratedAt : Z
}.

Record Walker := mkWalker {
  wk_rpc : TokenBalanceFetcher; hotWalletATA : PublicKey; wk_mint : PublicKey; wk_commitment : CommitmentType
}.

(** [pool] and [rpc] are nil when absent; the zero key is the zero value. *)
Definition NewWalker (pool : bool) (rpc : option TokenBalanceFetcher) (ata mint : PublicKey) : res Walker :=
  if negb pool then Err (ErrMsg "recon: pool is required")
  else match rpc with
  | None => Err (ErrMsg "recon: rpc client is required")
  | Some rpc =>
    if N.eqb ata 0 then Err (ErrMsg "recon: hot wallet ATA is required")
    else if N.eqb mint 0 then Err (ErrMsg "recon: mint is required")
    else Ok (mkWalker rpc ata mint CommitmentFinalized)
  end.

Section walker.
Context `{Env} (wk : Walker).

Definition fetchOnChainBalance : M Z :=
  answer ← wk_rpc wk (hotWalletATA wk) (wk_commitment wk);
  match answer with
  | Some (Some amount) => lift_res (ParseInt 64 amount)
  | _ => throw (ErrMsg "empty response")
  end.

Definition Walk : M Report :=
  onChain ← map_err (ErrWrap "recon: fetch on-chain") fetchOnChainBalance;
  row ← map_err (ErrWrap "recon: ledger balance")
    (AccountBalanceByCode AccountHotWalletUSDC CurrencyUSDC);
  now ← get_now;
  let difference := wrap64 (onChain - abr_balance row) in
  mret (mkReport (hotWalletATA wk) (wk_mint wk) onChain (abr_balance row) difference
          (if difference =? 0 then "ok" else "diverged") now).
End walker.

(** ** Lemmas *)

Lemma ParseInt_int64 s z : ParseInt 64 s = Ok z -> is_int64 z = true.
Proof. intros E%ParseInt_range; [|done]. rewrite is_int64_spec. unfold int64_min, int64_max. change (64 - 1) with 63 in E. lia. Qed.

Lemma wrap64_sub_zero a b : is_int64 a = true -> is_int64 b = true -> (wrap64 (a - b) = 0 <-> a = b).
Proof.
  rewrite !is_int64_spec. unfold int64_min, int64_max. intros Ha Hb. rewrite wrap64_zero. split; [|intros ->; by rewrite Z.sub_diag].
  intros E. apply Z.mod_divide in E as [k Hk]; [|done]. assert (k = 0) by lia. lia.
Qed.

Lemma account_balance_row_Ok d a row :
  account_balance_row d a = Ok row -> abr_balance row = account_sum d a /\ is_int64 (account_sum d a) = true.
Proof. unfold account_balance_row. destruct (is_int64 (account_sum d a)) eqn:E; intros; simplify_eq; done. Qed.

Section theorems.
Context `{Env}.

(** A report tells the truth about the books: whenever [Walk] returns a report,
    its ledger amount is the signed sum of the hot wallet's postings, its status
    is ok exactly when that sum equals the amount parsed from the endpoint's
    answer (the 64-bit difference cannot wrap to zero), the difference is exact
    for non-negative amounts, and the database is untouched. *)
Theorem Walk_reports wk w rep w' :
  (forall ata c, keeps eq (wk_rpc wk ata c)) -> Walk wk w = (Ok rep, w') ->
  w_db w' = w_db w /\
  (exists hot, hot ∈ accounts (w_db w) /\ acc_code hot = AccountHotWalletUSDC /\ acc_currency hot = CurrencyUSDC /\
     LedgerAmount rep = account_sum (w_db w) hot) /\
  (exists w1 text, wk_rpc wk (hotWalletATA wk) (wk_commitment wk) w = (Ok (Some (Some text)), w1) /\
     ParseInt 64 text = Ok (OnChainAmount rep)) /\
  (Status rep = "ok" <-> OnChainAmount rep = LedgerAmount rep) /\
  (0 <= OnChainAmount rep -> 0 <= LedgerAmount rep -> Difference rep = OnChainAmount rep - LedgerAmount rep).
Proof.
  intros Hrpc (onChain & w1 & Hfetch%map_err_Ok & Hrest)%bind_Ok.
  apply bind_Ok in Hfetch as (answer & w2 & Hget & Hans).
  destruct answer as [[text|]|]; [|done..]. apply lift_res_Ok in Hans as [Hparse ->].
  assert (Hd : w_db w2 = w_db w) by (pose proof (Hrpc (hotWalletATA wk) (wk_commitment wk) w) as Hk; by rewrite Hget in Hk).
  apply bind_Ok in Hrest as (row & w3 & Hrow%map_err_Ok & Hrest).
  apply select_Ok in Hrow as (Hrow & Hd3 & _). rewrite Hd in Hrow.
  destruct (find_row (account_by_code AccountHotWalletUSDC CurrencyUSDC) (accounts (w_db w))) as [hot|] eqn:Hhot; [|done].
  apply account_balance_row_Ok in Hrow as [Hbal Hint].
  apply find_row_Some in Hhot as [Hin Hcode]. unfold account_by_code in Hcode.
  apply andb_true_iff in Hcode as [Hc%String.eqb_eq Hcur%String.eqb_eq].
  pose proof (ParseInt_int64 _ _ Hparse) as Hon. rewrite <- Hbal in Hint.
  unfold get_now, mbind, M_bind, mret, M_ret in Hrest. simplify_eq/=.
  split; [congruence|]. split; [eauto|]. split; [eauto|]. split.
  - rewrite <- wrap64_sub_zero by done. destruct (Z.eqb_spec (wrap64 (onChain - abr_balance row)) 0); naive_solver.
  - intros ? ?. apply wrap64_id. rewrite is_int64_spec in *. unfold int64_min, int64_max in *. lia.
Qed.
End theorems.

(** ** Witness *)

Definition example_walker : Walker :=
  mkWalker (fun _ _ => mret (Some (Some "1005025125"))) 103%N 102%N CommitmentFinalized.

Definition recon_world : World := world_at 7 seeded_db.

Definition recon_report : Report :=
  Eval vm_compute in
    match (Walk (H := example_env) example_walker recon_world).1 with
    | Ok r => r
    | Err _ => mkReport 0%N 0%N 0 0 0 "" 0
    end.

Lemma Walk_reports_witness : Status recon_report = "ok" <-> OnChainAmount recon_report = LedgerAmount recon_report.
Proof.
  destruct (@Walk_reports example_env example_walker recon_world recon_report recon_world) as (_ & _ & _ & Hs & _).
  - intros ata c w. reflexivity.
  - vm_compute. reflexivity.
  - exact Hs.
Defined.
