(* ===== verification/Webhook.v ===== *)
(** * Webhook signing and delivery ([internal/webhook])

    [Sign] and [Verify] of sign.go with the header parser, and the sender the
    outbox dispatcher uses. *)

From S2P Require Import Prelude GoStr Sha256 MockBank Models World Http GoJson Queries Outbox.
From Stdlib Require Import Ascii String.

(** ** sign.go *)

Definition SignatureHeader : string := "Selatpay-Signature".
Definition SignatureScheme : string := "v1".
Definition DefaultTolerance : Z := 5 * 60 * ns_per_s.
Definition ErrEmptySecret : err := ErrSentinel "webhook: signing secret is empty".

(** The signed bytes. *)
Definition signed_text (unix : Z) (body : string) : string := FormatInt unix +:+ "." +:+ body.

Definition Sign (secret body : string) (ts : Z) : res string :=
  if bool_decide (secret = "") then Err ErrEmptySecret
  else
    let unix := ts / ns_per_s in
    let sum := hmac_sha256 secret (signed_text unix body) in
    Ok ("t=" +:+ FormatInt unix +:+ "," +:+ SignatureScheme +:+ "=" +:+ hex sum).

(** The strings between the separators. *)
Fixpoint splitOn (s : string) (sep : ascii) : list string :=
  match s with
  | EmptyString => [""]
  | String c s =>
    if Ascii.eqb c sep then "" :: splitOn s sep
    else match splitOn s sep with
    | [] => [String c ""]
    | p :: ps => String c p :: ps
    end
  end.

Definition is_blank_byte (c : ascii) : bool := Ascii.eqb c " " || Ascii.eqb c "009".

Fixpoint trim_left (s : string) : string :=
  match s with
  | EmptyString => ""
  | String c s' => if is_blank_byte c then trim_left s' else s
  end.

Fixpoint trim_right (s : string) : string :=
  match s with
  | EmptyString => ""
  | String c s =>
    let t := trim_right s in
    if is_blank_byte c && bool_decide (t = "") then "" else String c t
  end.

Definition trimSpace (s : string) : string := trim_right (trim_left s).

(** The key and value around the first ['='], found by [indexByte]. *)
Definition key_value (part : string) : option (string * string) := cut_byte "=" part.

(** The variables of the parsing loop. *)
Record parsed := mkParsed { p_ts : Z; p_macHex : string; p_hasTS : bool }.

Fixpoint parse_parts (parts : list string) (st : parsed) : res parsed :=
  match parts with
  | [] => Ok st
  | part :: parts =>
    match key_value (trimSpace part) with
    | None => parse_parts parts st
    | Some (key, val) =>
      if String.eqb key "t" then
        match ParseInt 64 val with
        | Err e => Err (ErrWrap "webhook: bad timestamp" e)
        | Ok n => parse_parts parts (mkParsed n (p_macHex st) true)
        end
      else if String.eqb key SignatureScheme then
        parse_parts parts (mkParsed (p_ts st) val (p_hasTS st))
      else parse_parts parts st
    end
  end.

Definition parseSignatureHeader (s : string) : res (Z * string) :=
  if bool_decide (s = "") then Err (ErrMsg "webhook: empty signature header")
  else match parse_parts (splitOn s ",") (mkParsed 0 "" false) with
  | Err e => Err e
  | Ok st =>
    if negb (p_hasTS st) then Err (ErrMsg "webhook: missing t= in signature header")
    else if bool_decide (p_macHex st = "") then Err (ErrMsg "webhook: missing v1= in signature header")
    else match hex_decode (p_macHex st) with
    | Err e => Err (ErrWrap "webhook: bad signature hex" e)
    | Ok mac => Ok (p_ts st, mac)
    end
  end.

(** The text of the tolerance is left out. *)
Definition ErrOutsideTolerance : err := ErrMsg "webhook: signature timestamp outside tolerance".
Definition ErrSignatureMismatch : err := ErrMsg "webhook: signature mismatch".

Definition Verify (secret body header : string) (now tolerance : Z) : res unit :=
  if bool_decide (secret = "") then Err ErrEmptySecret
  else match parseSignatureHeader header with
  | Err e => Err e
  | Ok (ts, mac) =>
    let age0 := time_Sub now (time_Unix ts) in
    let age := if age0 <? 0 then duration_neg age0 else age0 in
    if (0 <? tolerance) && (tolerance <? age) then Err ErrOutsideTolerance
    else if negb (String.eqb mac (hmac_sha256 secret (signed_text ts body))) then Err ErrSignatureMismatch
    else Ok tt
  end.

(** ** Lemmas *)

Lemma splitOn_no_sep s sep : no_byte sep s -> splitOn s sep = [s].
Proof.
  unfold no_byte. induction s as [|c s IH]; [done|]. cbn [has_byte splitOn]. intros Hs.
  apply orb_false_iff in Hs as [-> Hs]. by rewrite IH.
Qed.

Lemma splitOn_app s t sep : no_byte sep s -> splitOn (s +:+ String sep t) sep = s :: splitOn t sep.
Proof.
  unfold no_byte. induction s as [|c s IH]; intros Hs.
  - simpl. by rewrite Ascii.eqb_refl.
  - cbn [has_byte] in Hs. apply orb_false_iff in Hs as [Hc Hs].
    change (String c s +:+ String sep t) with (String c (s +:+ String sep t)). cbn [splitOn]. by rewrite Hc, IH.
Qed.

Lemma trim_right_clean s : no_byte " " s -> no_byte "009" s -> trim_right s = s.
Proof.
  unfold no_byte. induction s as [|c s IH]; [done|]. cbn [has_byte trim_right].
  intros [H1 H2]%orb_false_iff [H3 H4]%orb_false_iff. unfold is_blank_byte. by rewrite H1, H3, IH.
Qed.

Lemma trimSpace_clean s : no_byte " " s -> no_byte "009" s -> trimSpace s = s.
Proof.
  intros H1 H2. unfold trimSpace. replace (trim_left s) with s; [by apply trim_right_clean|].
  destruct s as [|c s]; [done|]. unfold no_byte in *. cbn [has_byte trim_left] in *.
  apply orb_false_iff in H1 as [H1 _], H2 as [H2 _]. unfold is_blank_byte. by rewrite H1, H2.
Qed.

(** The parser inverts the header format. *)
Lemma parse_header unix mac :
  is_int64 unix = true -> mac <> "" ->
  parseSignatureHeader ("t=" +:+ FormatInt unix +:+ "," +:+ SignatureScheme +:+ "=" +:+ hex mac) = Ok (unix, mac).
Proof.
  intros Hu Hmac. unfold parseSignatureHeader. rewrite bool_decide_false by done.
  change ("t=" +:+ ?x) with (String "t" (String "=" x)).
  change ("," +:+ SignatureScheme +:+ "=" +:+ hex mac) with (String "," ("v1=" +:+ hex mac)).
  assert (Hn : forall b, digit_val b = None -> b <> "-"%char -> b <> "t"%char -> b <> "="%char ->
    no_byte b ("t=" +:+ FormatInt unix)).
  { intros b H1 H2 H3 H4. pose proof (no_byte_FormatInt b unix H1 H2) as Hb. unfold no_byte in *.
    change ("t=" +:+ FormatInt unix) with (String "t" (String "=" (FormatInt unix))). cbn [has_byte].
    rewrite Hb. destruct (Ascii.eqb_spec "t" b); [by subst|]. destruct (Ascii.eqb_spec "=" b); [by subst|done]. }
  assert (Hh : forall b, from_hex_char b = None -> b <> "v"%char -> b <> "1"%char -> b <> "="%char ->
    no_byte b ("v1=" +:+ hex mac)).
  { intros b H1 H2 H3 H4. pose proof (hex_no_byte b mac H1) as Hb. unfold no_byte in *.
    change ("v1=" +:+ hex mac) with (String "v" (String "1" (String "=" (hex mac)))). cbn [has_byte]. rewrite Hb.
    destruct (Ascii.eqb_spec "v" b); [by subst|]. destruct (Ascii.eqb_spec "1" b); [by subst|].
    destruct (Ascii.eqb_spec "=" b); [by subst|done]. }
  change (String "t" (String "=" (FormatInt unix +:+ String "," ("v1=" +:+ hex mac))))
    with (("t=" +:+ FormatInt unix) +:+ String "," ("v1=" +:+ hex mac)).
  rewrite splitOn_app by by apply Hn. rewrite splitOn_no_sep by by apply Hh.
  cbn [parse_parts]. rewrite !trimSpace_clean by (by apply Hn || by apply Hh).
  change (key_value ("t=" +:+ FormatInt unix)) with (Some ("t", FormatInt unix)). cbv iota beta.
  change (String.eqb "t" "t") with true. cbv iota. rewrite ParseInt_FormatInt by done.
  change (key_value ("v1=" +:+ hex mac)) with (Some ("v1", hex mac)). cbv iota beta.
  change (String.eqb "v1" "t") with false. change (String.eqb "v1" SignatureScheme) with true. cbv iota.
  cbn [p_hasTS p_ts p_macHex negb]. rewrite bool_decide_false by (intros E%hex_empty; done). by rewrite hex_decode_hex.
Qed.

Lemma sign_header secret body ts header :
  Sign secret body ts = Ok header -> is_int64 (ts / ns_per_s) = true ->
  secret <> "" /\
  parseSignatureHeader header =
    Ok (ts / ns_per_s, hmac_sha256 secret (signed_text (ts / ns_per_s) body)).
Proof.
  unfold Sign. case_bool_decide as Hs; [done|]. intros E Hu. injection E as <-. split; [done|].
  apply parse_header; [done|apply hmac_nonempty].
Qed.

(** Seconds [time.Unix] represents without wrapping. *)
Definition unix_range (secs : Z) : Prop := int64_min <= secs <= int64_max - 62135596800.

Lemma time_Unix_exact secs : unix_range secs -> time_Unix secs = secs * ns_per_s.
Proof.
  unfold unix_range, int64_min, int64_max. intros Hs. unfold time_Unix. rewrite wrap64_id; [f_equal; lia|].
  apply is_int64_spec. unfold int64_min, int64_max. lia.
Qed.

Lemma signed_text_inj ts ts' body body' :
  signed_text ts body = signed_text ts' body' -> ts = ts' /\ body = body'.
Proof.
  unfold signed_text. change ("." +:+ ?x) with (String "." x). intros E.
  assert (Hcut : cut_byte "." (FormatInt ts +:+ String "." body) = Some (FormatInt ts, body))
    by (apply cut_byte_sep, no_byte_FormatInt; done).
  rewrite E, cut_byte_sep in Hcut by (apply no_byte_FormatInt; done). injection Hcut as Hts Hb.
  split; [by apply FormatInt_inj in Hts|done].
Qed.

Lemma verify_signed_header secret body ts now tolerance header :
  Sign secret body ts = Ok header -> unix_range (ts / ns_per_s) -> 0 < tolerance ->
  int64_min < now - ts / ns_per_s * ns_per_s <= int64_max ->
  Verify secret body header now tolerance =
    if tolerance <? Z.abs (now - ts / ns_per_s * ns_per_s) then Err ErrOutsideTolerance else Ok tt.
Proof.
  intros Hsign Hu Htol Hd. assert (Hi : is_int64 (ts / ns_per_s) = true)
    by (apply is_int64_spec; unfold unix_range, int64_max in *; lia).
  destruct (sign_header _ _ _ _ Hsign Hi) as [Hs Hp]. unfold Verify. rewrite bool_decide_false by done.
  rewrite Hp, time_Unix_exact by done. set (d := now - ts / ns_per_s * ns_per_s) in *.
  assert (Hd64 : is_int64 d = true) by (apply is_int64_spec; lia).
  assert (Hsub : time_Sub now (ts / ns_per_s * ns_per_s) = d) by (unfold time_Sub; fold d; by rewrite Hd64).
  rewrite Hsub, (proj2 (Z.ltb_lt 0 tolerance)) by lia.
  replace (if d <? 0 then duration_neg d else d) with (Z.abs d).
  2: { destruct (Z.ltb_spec d 0); [|lia]. unfold duration_neg. rewrite wrap64_id; [lia|].
       apply is_int64_spec. unfold int64_min, int64_max in *. lia. }
  rewrite String.eqb_refl. cbn [andb negb]. by destruct (tolerance <? Z.abs d).
Qed.

(** What is signed verifies, exactly within the tolerance: the header [Sign]
    produces is accepted by [Verify] with the same secret and body when the
    receiver's clock is within the tolerance of the signed second, and refused as
    too old or too new otherwise (clocks less than 292 years apart). *)
Theorem Verify_Sign secret body ts now tolerance header :
  Sign secret body ts = Ok header -> unix_range (ts / ns_per_s) -> 0 < tolerance ->
  int64_min < now - ts / ns_per_s * ns_per_s <= int64_max ->
  Verify secret body header now tolerance =
    if tolerance <? Z.abs (now - ts / ns_per_s * ns_per_s) then Err ErrOutsideTolerance else Ok tt.
Proof. apply verify_signed_header. Qed.

(** A timestamp more than 292 years ahead defeats the tolerance: the age
    saturates at the smallest duration, whose negation is itself, so [Verify]
    accepts the header whatever the tolerance. *)
Theorem far_future_verifies secret body ts now tolerance header :
  Sign secret body ts = Ok header -> unix_range (ts / ns_per_s) -> 0 < tolerance ->
  now - ts / ns_per_s * ns_per_s <= int64_min ->
  Verify secret body header now tolerance = Ok tt.
Proof.
  intros Hsign Hu Htol Hd. assert (Hi : is_int64 (ts / ns_per_s) = true)
    by (apply is_int64_spec; unfold unix_range, int64_max in *; lia).
  destruct (sign_header _ _ _ _ Hsign Hi) as [Hs Hp]. unfold Verify. rewrite bool_decide_false by done.
  rewrite Hp, time_Unix_exact by done. set (u := ts / ns_per_s * ns_per_s) in *.
  assert (Hsub : time_Sub now u = int64_min).
  { unfold time_Sub. destruct (is_int64 (now - u)) eqn:E; [apply is_int64_spec in E; lia|].
    rewrite (proj2 (Z.ltb_lt now u)) by (unfold int64_min in *; lia). done. }
  rewrite Hsub. change (if int64_min <? 0 then duration_neg int64_min else int64_min) with int64_min.
  rewrite (proj2 (Z.ltb_ge tolerance int64_min)) by (unfold int64_min; lia).
  rewrite andb_false_r, String.eqb_refl. done.
Qed.

Lemma verify_mac secret body header now tol :
  Verify secret body header now tol = Ok tt ->
  exists ts, parseSignatureHeader header = Ok (ts, hmac_sha256 secret (signed_text ts body)).
Proof.
  unfold Verify. case_bool_decide; [done|]. destruct (parseSignatureHeader header) as [[ts mac]|]; [|done].
  case_match; [done|]. destruct (String.eqb_spec mac (hmac_sha256 secret (signed_text ts body))) as [->|]; [|done]. eauto.
Qed.

(** A signature binds the timestamp and the body: two messages that verify under
    one secret with headers carrying the same MAC have the same timestamp and
    body, or exhibit two texts with the same HMAC-SHA256 under that secret. *)
Theorem webhook_signature_binds secret body body' header header' now now' tol tol' ts ts' mac :
  Verify secret body header now tol = Ok tt -> Verify secret body' header' now' tol' = Ok tt ->
  parseSignatureHeader header = Ok (ts, mac) -> parseSignatureHeader header' = Ok (ts', mac) ->
  (ts = ts' /\ body = body') \/
  (signed_text ts body <> signed_text ts' body' /\
   hmac_sha256 secret (signed_text ts body) = hmac_sha256 secret (signed_text ts' body')).
Proof.
  intros (u & Hu)%verify_mac (u' & Hu')%verify_mac Hp Hp'. rewrite Hp in Hu. rewrite Hp' in Hu'. simplify_eq.
  destruct (decide (signed_text u body = signed_text u' body')) as [E|]; [left|right; auto].
  by apply signed_text_inj in E.
Qed.

(** ** sender.go *)

Definition MerchantHeader : string := "X-Selatpay-Merchant".

Record HttpRequest := mkHttpRequest { req_URL : string; req_Body : string; req_Header : gmap string string }.

(** Forwarding of the producer's headers, in the order the map is visited. *)
Definition forward_headers (h : gmap string string) (fs : list (string * string)) : gmap string string :=
  foldl (fun h kv => if String.eqb kv.1 MerchantHeader then h else Header_Set h kv.1 kv.2) h fs.

(** [Config]: an absent client or clock takes the default. *)
Record SenderConfig := mkSenderConfig { sc_Client : option (HttpRequest -> M Z); sc_Clock : option (M Z) }.
Record WebhookSender := mkWebhookSender { ws_client : HttpRequest -> M Z; ws_clock : M Z }.

(** [default_client] is an [http.Client] with a timeout of ten seconds. *)
Definition NewSender (default_client : HttpRequest -> M Z) (pool : bool) (cfg : SenderConfig) : res WebhookSender :=
  if negb pool then Err (ErrMsg "webhook: pool is required")
  else Ok (mkWebhookSender (default default_client (sc_Client cfg)) (default get_now (sc_Clock cfg))).

Section sender.
(** [uuid.Parse]; the text Postgres returns for a [jsonb] value;
    [http.NewRequestWithContext]'s check of the URL; [client.Do], which returns
    the status code. *)
Context `{Env} (uuid_Parse : string -> res uuid) (jsonb_text : json -> string)
  (check_url : string -> option err) (client_Do : HttpRequest -> M Z) (clock : M Z).

(** The request for a message, signed at [now]. *)
Definition webhook_request (msg : Message) (url secret : string) (now : Z) : res HttpRequest :=
  match Sign secret (jsonb_text (msg_Payload msg)) now with
  | Err e => Err (ErrWrap "webhook: sign" e)
  | Ok signature =>
    match check_url url with
    | Some e => Err (ErrWrap "webhook: build request" e)
    | None =>
      let h := Header_Set (Header_Set ∅ "Content-Type" "application/json") SignatureHeader signature in
      Ok (mkHttpRequest url (jsonb_text (msg_Payload msg)) (forward_headers h (map_to_list (msg_Headers msg))))
    end
  end.

Definition Send : Sender := fun msg =>
  let merchantIDStr := default "" (msg_Headers msg !! MerchantHeader) in
  if bool_decide (merchantIDStr = "") then mret tt
  else match uuid_Parse merchantIDStr with
  | Err _ => mret tt
  | Ok merchantID =>
    cfg ← try (GetMerchantWebhookConfig merchantID);
    match cfg with
    | Err e => if errors_is ErrNoRows e then mret tt else throw (ErrWrap "webhook: load config" e)
    | Ok (_, webhookUrl, webhookSecret) =>
      let url := default "" webhookUrl in
      let secret := default "" webhookSecret in
      if bool_decide (url = "") || bool_decide (secret = "") then mret tt
      else
        now ← clock;
        req ← lift_res (webhook_request msg url secret now);
        status ← map_err (ErrWrap "webhook: post") (client_Do req);
        if (200 <=? status) && (status <? 300) then mret tt
        else throw (ErrMsg ("webhook: receiver responded " +:+ FormatInt status))
    end
  end.

(** A client that only talks HTTP, and a clock. *)
Class ClientOk : Prop := {
  client_db req : keeps eq (client_Do req);
  client_quiet req : quiet (client_Do req);
  clock_db : keeps eq clock;
  clock_quiet : quiet clock
}.

Lemma keeps_Send (R : DB -> DB -> Prop) `{!PreOrder R} msg : ClientOk -> keeps R (Send msg).
Proof.
  intros Hc. unfold Send. pose proof (fun req => keeps_eq R _ (client_db req)). pose proof (keeps_eq R _ clock_db).
  case_bool_decide; [keeps_auto|]. destruct (uuid_Parse _); [|keeps_auto].
  apply keeps_bind; [apply _|keeps_auto|]. intros [[[id url] secret]|e]; keeps_auto.
Qed.

Lemma quiet_Send msg : ClientOk -> quiet (Send msg).
Proof.
  intros Hc. unfold Send. pose proof client_quiet. pose proof clock_quiet.
  case_bool_decide; [wkeeps_auto|]. destruct (uuid_Parse _); [|wkeeps_auto].
  apply wkeeps_bind; [apply _|apply wkeeps_try, wkeeps_stmt, _|]. intros [[[id url] secret]|e]; wkeeps_auto.
Qed.

(** The webhook sender keeps the contract the dispatcher asks of senders. *)
#[global] Instance webhook_sender_ok : ClientOk -> SenderOk Send.
Proof. intros Hc. split; [intros msg; apply keeps_Send; [apply _|done]|]. intros msg w. by apply quiet_Send. Qed.

(** ** Lemmas *)

Lemma forward_lookup fs h k :
  (forall k' v, (k', v) ∈ fs -> k' <> MerchantHeader -> CanonicalHeaderKey k' <> k) ->
  forward_headers h fs !! k = h !! k.
Proof.
  revert h. induction fs as [|[k' v] fs IH]; intros h Hk; [done|]. cbn [forward_headers foldl].
  change (foldl _ ?h0 fs) with (forward_headers h0 fs). rewrite IH by (intros; by eapply Hk; [apply list_elem_of_further|]).
  simpl. destruct (String.eqb_spec k' MerchantHeader); [done|]. unfold Header_Set. rewrite lookup_insert_ne; [done|].
  by apply (Hk k' v); [apply list_elem_of_here|].
Qed.

(** C27: Receivers can verify what they get: every request the sender builds carries
    the payload as its body and, unless the producer set its own signature
    header, a signature header that [Verify] accepts with the merchant's secret
    while the receiver's clock is within the tolerance of the signing second. *)
Theorem webhook_request_verifies msg url secret now req later tolerance :
  webhook_request msg url secret now = Ok req ->
  (forall k v, msg_Headers msg !! k = Some v -> CanonicalHeaderKey k <> SignatureHeader) ->
  unix_range (now / ns_per_s) -> 0 < tolerance <= int64_max ->
  Z.abs (later - now / ns_per_s * ns_per_s) <= tolerance ->
  req_Body req = jsonb_text (msg_Payload msg) /\
  exists header, req_Header req !! SignatureHeader = Some header /\
    Verify secret (req_Body req) header later tolerance = Ok tt.
Proof.
  unfold webhook_request. intros Hreq Hk Hu Htol Habs.
  destruct (Sign secret (jsonb_text (msg_Payload msg)) now) as [header|e] eqn:Hsign; [|done].
  destruct (check_url url); [done|]. injection Hreq as <-. split; [done|]. exists header. split.
  - cbn [req_Header]. rewrite forward_lookup.
    + unfold Header_Set. change (CanonicalHeaderKey SignatureHeader) with SignatureHeader. apply lookup_insert_eq.
    + intros k v Hin _. apply elem_of_map_to_list in Hin. by apply (Hk k v).
  - cbn [req_Body]. rewrite (verify_signed_header secret _ now later tolerance header); [|done|done|lia|unfold int64_min, int64_max in *; lia].
    rewrite (proj2 (Z.ltb_ge _ _)) by lia. done.
Qed.
End sender.

(** ** Witnesses *)

Definition webhook_ts : Z := 1700000000 * ns_per_s.
Definition webhook_header : string :=
  Eval vm_compute in match Sign "whsec" "{}" webhook_ts with Ok h => h | Err _ => "" end.

Lemma Verify_Sign_witness :
  Verify "whsec" "{}" webhook_header (webhook_ts + 6 * 60 * ns_per_s) DefaultTolerance = Err ErrOutsideTolerance.
Proof.
  apply (Verify_Sign "whsec" "{}" webhook_ts (webhook_ts + 6 * 60 * ns_per_s) DefaultTolerance webhook_header).
  - vm_compute. reflexivity.
  - split; vm_compute; discriminate.
  - reflexivity.
  - split; vm_compute; [reflexivity|discriminate].
Defined.

(** The last second of the year 9999, seen in 2023. *)
Definition far_ts : Z := 253402300799 * ns_per_s.
Definition far_header : string :=
  Eval vm_compute in match Sign "whsec" "{}" far_ts with Ok h => h | Err _ => "" end.

Lemma far_future_verifies_witness : Verify "whsec" "{}" far_header webhook_ts DefaultTolerance = Ok tt.
Proof.
  apply (far_future_verifies "whsec" "{}" far_ts webhook_ts DefaultTolerance far_header).
  - vm_compute. reflexivity.
  - split; vm_compute; discriminate.
  - reflexivity.
  - vm_compute. discriminate.
Defined.

Lemma webhook_signature_binds_witness :
  (1700000000 = 1700000000 /\ "{}" = "{}") \/ signed_text 1700000000 "{}" <> signed_text 1700000000 "{}".
Proof.
  destruct (webhook_signature_binds "whsec" "{}" "{}" webhook_header webhook_header webhook_ts webhook_ts
    DefaultTolerance DefaultTolerance 1700000000 1700000000
    (hmac_sha256 "whsec" (signed_text 1700000000 "{}"))) as [HE|[HN _]].
  1-4: vm_compute; reflexivity.
  - left. exact HE.
  - right. exact HN.
Defined.

(** A completion event on its way to a merchant. *)
Definition webhook_message : Message :=
  mkMessage 1%N "intent.completed" None JNull
    (<["X-Selatpay-Topic" := "intent.completed"]> (<[MerchantHeader := "50"]> ∅)) 0 0.

Definition example_request : HttpRequest :=
  match webhook_request (fun _ => "{}") (fun _ => None) webhook_message "https://shop.example/hook" "whsec" webhook_ts with
  | Ok r => r
  | Err _ => mkHttpRequest "" "" ∅
  end.

Lemma webhook_request_verifies_witness :
  exists header, req_Header example_request !! SignatureHeader = Some header /\
    Verify "whsec" (req_Body example_request) header (webhook_ts + ns_per_s) DefaultTolerance = Ok tt.
Proof.
  destruct (webhook_request_verifies (fun _ => "{}") (fun _ => None) webhook_message "https://shop.example/hook" "whsec"
    webhook_ts example_request (webhook_ts + ns_per_s) DefaultTolerance) as [_ Hv].
  - vm_compute. reflexivity.
  - intros k v. unfold webhook_message. cbn [msg_Headers]. rewrite !lookup_insert_Some, lookup_empty.
    intros [[<- _]|[_ [[<- _]|[_ Hn]]]]; [vm_compute; discriminate..|discriminate Hn].
  - split; vm_compute; discriminate.
  - split; vm_compute; [reflexivity|discriminate].
  - vm_compute. discriminate.
  - exact Hv.
Defined.
