(* ===== verification/Idempotency.v ===== *)
(** * Idempotent requests ([internal/idempotency])

    The middleware that replays the stored response of a mutating request, over
    the [Store] interface and its Postgres implementation.  The capture writer
    records exactly the status and the bytes the handler writes. *)

From S2P Require Import Prelude GoStr Sha256 MockBank Models World Http Queries Outbox.

(** ** store.go *)

Definition ErrNotFound : err := ErrSentinel "idempotency: key not found".

(** A nil response body is [None]. *)
Record IRecord := mkRecord {
  MerchantID : uuid; RKey : string; RequestHash : string; StatusCode : Z; ResponseBody : option string
}.

(** The [Store] interface: [Put] returns the winning record and whether it is
    ours. *)
Record Store := mkStore {
  store_Get : uuid -> string -> M IRecord;
  store_Put : IRecord -> M (IRecord * bool)
}.

Definition HashRequest (body : string) : string := sha256 body.

(** ** store_pg.go *)

Section pg.
Context `{Env}.

Definition record_of_row (row : IdempotencyKey) : IRecord :=
  mkRecord (ik_merchant_id row) (ik_key row) (ik_request_hash row) (ik_status_code row) (Some (ik_response_body row)).

Definition PGStore_Get (merchantID : uuid) (key : string) : M IRecord :=
  row ← map_err (fun e => if errors_is ErrNoRows e then ErrNotFound else ErrWrap "get idempotency" e)
    (GetIdempotencyKey merchantID key);
  mret (record_of_row row).

(** The insert; a nil body is [NULL], which the column refuses. *)
Definition insert_record (r : IRecord) : M IdempotencyKey :=
  match ResponseBody r with
  | Some body => InsertIdempotencyKey (MerchantID r) (RKey r) (RequestHash r) (wrap32 (StatusCode r)) body
  | None => stmt (fun _ _ d => (Err (ErrPg "23502"), 0%N, d))
  end.

Definition PGStore_Put (r : IRecord) : M (IRecord * bool) :=
  inserted ← try (insert_record r);
  match inserted with
  | Ok row => mret (record_of_row row, true)
  | Err e =>
    if negb (errors_is ErrNoRows e) then throw (ErrWrap "insert idempotency" e)
    else
      existing ← map_err (ErrWrap "fetch conflict winner") (PGStore_Get (MerchantID r) (RKey r));
      mret (existing, false)
  end.

Definition NewPGStore : Store := mkStore PGStore_Get PGStore_Put.
End pg.

(** ** middleware.go *)

Definition HeaderKey : string := "Idempotency-Key".

Definition isMutating (method : string) : bool :=
  String.eqb method "POST" || String.eqb method "PUT" || String.eqb method "PATCH" || String.eqb method "DELETE".

(** The key a request carries. *)
Definition IdemKey (r : Request) : string := Header_Get (req_Headers r) HeaderKey.

Section middleware.
Context `{Env} (store : Store) (resolver : Request -> option uuid).

(** Running the handler and storing what it answered. *)
Definition capture (merchantID : uuid) (key body : string) (next : http_Handler) (r : Request) : M Response :=
  resp ← next r;
  if 500 <=? resp_Status resp then mret resp
  else
    _ ← try (store_Put store (mkRecord merchantID key (HashRequest body) (resp_Status resp) (resp_Body resp)));
    mret resp.

(** The stored response: the status and the bytes, with the replay marker as the
    only header. *)
Definition replay (rec : IRecord) : Response :=
  mkResponse (StatusCode rec) (Header_Set ∅ "Idempotent-Replay" "true") (ResponseBody rec).

Definition Handler (next : http_Handler) : http_Handler := fun r =>
  if negb (isMutating (Method r)) then next r
  else
    let key := IdemKey r in
    if bool_decide (key = "") then next r
    else match resolver r with
    | None => mret (http_Error "unauthenticated" 401)
    | Some merchantID =>
      match Body r with
      | Err _ => mret (http_Error "read body" 400)
      | Ok body =>
        let r := with_body r body in
        existing ← try (store_Get store merchantID key);
        match existing with
        | Ok rec =>
          if negb (String.eqb (RequestHash rec) (HashRequest body)) then
            mret (http_Error "idempotency key reused with a different request body" 409)
          else mret (replay rec)
        | Err e =>
          if errors_is ErrNotFound e then capture merchantID key body next r
          else mret (http_Error "idempotency lookup failed" 500)
        end
      end
    end.
End middleware.

(** ** What a store promises

    The durable store is a write-once map: [Get] reads it, the first [Put] of a
    key wins and later ones are told the winner.  A key that Postgres cannot store
    as text is refused. *)

Definition records : Type := uuid -> string -> option IRecord.

Definition spec_Get (v : records) (m : uuid) (k : string) : res IRecord :=
  match v m k with
  | Some rec => Ok rec
  | None => Err (if text_ok k then ErrNotFound else ErrWrap "get idempotency" (ErrPg "22021"))
  end.

Definition spec_insert (v : records) (r : IRecord) : records := fun m k =>
  if N.eqb (MerchantID r) m && String.eqb (RKey r) k then Some r else v m k.

Definition spec_Put (v : records) (r : IRecord) : (IRecord * bool) * records :=
  match v (MerchantID r) (RKey r) with
  | Some rec => ((rec, false), v)
  | None => ((r, true), spec_insert v r)
  end.

(** The records of the table, under the keys it can be asked for. *)
Definition view (d : DB) : records := fun m k =>
  if text_ok k then record_of_row <$> find_row (idem_key m k) (idempotency_keys d) else None.

(** The status column is an INTEGER. *)
Definition int32_keys (d : DB) : Prop :=
  Forall (fun row => - 2 ^ 31 <= ik_status_code row < 2 ^ 31) (idempotency_keys d).

(** Stored responses stay: rows are appended, never changed. *)
Definition keys_kept (d d' : DB) : Prop :=
  idempotency_keys d `prefix_of` idempotency_keys d' /\ (int32_keys d -> int32_keys d').

#[global] Instance keys_kept_preorder : PreOrder keys_kept.
Proof.
  split; [by intros d|]. intros d1 d2 d3 [H1 H2] [H3 H4]. split; [by etransitivity|auto].
Qed.

(** A record the table can hold. *)
Definition storable (r : IRecord) : Prop :=
  (is_Some (ResponseBody r) /\ - 2 ^ 31 <= StatusCode r < 2 ^ 31) /\ text_ok (RKey r) = true.

(** The contract of a [Store] that keeps [inv]: with any faults its answers agree
    with the table and it only adds rows; without faults it is the write-once
    map. *)
Class StoreOk `{Env} (store : Store) (inv : World -> Prop) : Prop := {
  inv_stable w w' :
    inv w -> keys_kept (w_db w) (w_db w') -> rd_keys (w_redis w') ⊆ rd_keys (w_redis w) -> inv w';
  get_inv m k w : inv w -> inv (store_Get store m k w).2;
  get_db m k w : w_db (store_Get store m k w).2 = w_db w;
  get_quiet m k w : quiet_rel w (store_Get store m k w).2;
  get_rng m k w : w_rng (store_Get store m k w).2 = w_rng w;
  get_offline m k w : offline_rel w (store_Get store m k w).2;
  get_sound m k w rec : inv w -> (store_Get store m k w).1 = Ok rec -> view (w_db w) m k = Some rec;
  get_missing m k w e :
    inv w -> (store_Get store m k w).1 = Err e -> errors_is ErrNotFound e = true -> view (w_db w) m k = None;
  get_run m k w : inv w -> w_faults w = [] -> (store_Get store m k w).1 = spec_Get (view (w_db w)) m k;
  put_inv r w : inv w -> inv (store_Put store r w).2;
  put_kept r w : keys_kept (w_db w) (w_db (store_Put store r w).2);
  put_quiet r w : quiet_rel w (store_Put store r w).2;
  put_offline r w : offline_rel w (store_Put store r w).2;
  put_only_keys r w : w_db (store_Put store r w).2 =
    set_idempotency_keys (w_db w) (idempotency_keys (w_db (store_Put store r w).2));
  put_sound r w stored created : inv w -> (store_Put store r w).1 = Ok (stored, created) ->
    view (w_db (store_Put store r w).2) (MerchantID stored) (RKey stored) = Some stored;
  put_run r w : inv w -> w_faults w = [] -> storable r ->
    (store_Put store r w).1 = Ok (spec_Put (view (w_db w)) r).1 /\
    forall m k, view (w_db (store_Put store r w).2) m k = (spec_Put (view (w_db w)) r).2 m k
}.

(** ** The Postgres store keeps the contract *)

Lemma view_kept d d' m k rec : keys_kept d d' -> view d m k = Some rec -> view d' m k = Some rec.
Proof.
  unfold view. intros [Hk _]. destruct (text_ok k); [|done]. destruct (find_row (idem_key m k) (idempotency_keys d)) as [row|] eqn:E; [|done].
  by rewrite (prefix_find_row _ _ _ _ Hk E).
Qed.

Section pg_store.
Context `{Env}.

Lemma wrap32_range z : - 2 ^ 31 <= wrap32 z < 2 ^ 31.
Proof. unfold wrap32. pose proof (Z.mod_pos_bound (z + 2 ^ 31) (2 ^ 32) ltac:(lia)). lia. Qed.

Lemma keys_kept_insert m k h s b : keeps keys_kept (InsertIdempotencyKey m k h (wrap32 s) b).
Proof.
  apply keeps_stmt; [apply _|]. intros now rng d. simpl. do 2 (case_match; simpl; [reflexivity|]). split; [apply prefix_snoc|].
  intros Hd. apply Forall_app. split; [done|]. constructor; [apply wrap32_range|constructor].
Qed.
#[local] Hint Resolve keys_kept_insert : keeps.

Lemma keys_kept_Put r : keeps keys_kept (PGStore_Put r).
Proof. unfold PGStore_Put, PGStore_Get, insert_record. destruct (ResponseBody r); keeps_auto. Qed.

Lemma pg_quiet_Get m k : quiet (PGStore_Get m k).
Proof. unfold PGStore_Get. wkeeps_auto. Qed.
#[local] Hint Resolve pg_quiet_Get : wkeeps.

Lemma pg_quiet_Put r : quiet (PGStore_Put r).
Proof. unfold PGStore_Put, insert_record. destruct (ResponseBody r); wkeeps_auto. Qed.

Lemma pg_offline_Get m k : offline (PGStore_Get m k).
Proof. unfold PGStore_Get. wkeeps_auto. Qed.

Lemma pg_offline_Put r : offline (PGStore_Put r).
Proof. pose proof pg_offline_Get. unfold PGStore_Put, insert_record. destruct (ResponseBody r); wkeeps_auto. Qed.

Lemma pg_get_run m k w : w_faults w = [] -> PGStore_Get m k w = (spec_Get (view (w_db w)) m k, w).
Proof.
  intros Hf. unfold PGStore_Get, GetIdempotencyKey, mbind, M_bind, map_err, spec_Get, view. rewrite select_run by done.
  destruct (text_ok k); [|done]. by destruct (find_row _ _).
Qed.

(** With or without faults, a lookup that is not a failure is the table's. *)
Lemma pg_get_any m k w :
  (PGStore_Get m k w).1 = spec_Get (view (w_db w)) m k \/
  exists e, (PGStore_Get m k w).1 = Err e /\ errors_is ErrNotFound e = false.
Proof.
  unfold PGStore_Get, GetIdempotencyKey, select, stmt, pop_fault, mbind, M_bind, map_err, spec_Get, view.
  destruct (w_faults w) as [|[] fs]; simpl; try destruct (text_ok k); try destruct (find_row _ _); simpl; eauto.
Qed.

Lemma pg_get_same m k w : w_db (PGStore_Get m k w).2 = w_db w.
Proof.
  enough (Hk : keeps eq (PGStore_Get m k)) by (symmetry; apply Hk).
  unfold PGStore_Get. assert (PreOrder (@eq DB)) by (split; congruence). keeps_auto.
Qed.

Lemma pg_get_rng m k w : w_rng (PGStore_Get m k w).2 = w_rng w.
Proof.
  unfold PGStore_Get, GetIdempotencyKey, select, stmt, pop_fault, mbind, M_bind, map_err.
  destruct (w_faults w) as [|[] fs]; simpl; try destruct (text_ok k); try destruct (find_row _ _); simpl; lia.
Qed.

(** The rest of the database. *)
Definition only_keys (d d' : DB) : Prop := set_idempotency_keys d (idempotency_keys d') = d'.

#[global] Instance only_keys_preorder : PreOrder only_keys.
Proof.
  split; [by intros []|]. intros d1 d2 d3 H1 H2. unfold only_keys in *. rewrite <- H2, <- H1. done.
Qed.

Lemma pg_put_only_keys r : keeps only_keys (PGStore_Put r).
Proof.
  assert (forall m k h s b, keeps only_keys (InsertIdempotencyKey m k h s b)).
  { intros. apply keeps_stmt; [apply _|]. intros now rng d. simpl. do 2 (case_match; simpl; [reflexivity|]). done. }
  unfold PGStore_Put, PGStore_Get, insert_record. destruct (ResponseBody r); keeps_auto.
Qed.

Lemma view_snoc d row m k :
  text_ok (ik_key row) = true -> find_row (idem_key (ik_merchant_id row) (ik_key row)) (idempotency_keys d) = None ->
  view (set_idempotency_keys d (idempotency_keys d ++ [row])) m k = spec_insert (view d) (record_of_row row) m k.
Proof.
  intros Ht Hn. unfold view, spec_insert. simpl. destruct (text_ok k) eqn:Hok.
  2: { destruct (N.eqb _ _); [|done]. simpl. destruct (String.eqb_spec (ik_key row) k); congruence. }
  destruct (N.eqb_spec (ik_merchant_id row) m) as [<-|Hm]; simpl.
  - destruct (String.eqb_spec (ik_key row) k) as [<-|Hk].
    + rewrite find_row_app_None by done. unfold idem_key. simpl. by rewrite N.eqb_refl, String.eqb_refl.
    + destruct (find_row (idem_key (ik_merchant_id row) k) (idempotency_keys d)) as [r|] eqn:E.
      * by rewrite (find_row_app_Some _ _ _ _ E).
      * rewrite find_row_app_None by done. unfold idem_key. simpl. rewrite N.eqb_refl. by destruct (String.eqb_spec (ik_key row) k).
  - destruct (find_row (idem_key m k) (idempotency_keys d)) as [r|] eqn:E.
    + by rewrite (find_row_app_Some _ _ _ _ E).
    + rewrite find_row_app_None by done. unfold idem_key. simpl. by destruct (N.eqb_spec (ik_merchant_id row) m).
Qed.

Lemma pg_put_run r w :
  w_faults w = [] -> storable r ->
  (PGStore_Put r w).1 = Ok (spec_Put (view (w_db w)) r).1 /\
  forall m k, view (w_db (PGStore_Put r w).2) m k = (spec_Put (view (w_db w)) r).2 m k.
Proof.
  intros Hf [[[body Hb] Hs] Ht]. destruct r as [m k h st b]. simpl in *. subst b.
  unfold PGStore_Put, insert_record, InsertIdempotencyKey, spec_Put. cbn [ResponseBody MerchantID RKey RequestHash StatusCode].
  unfold mbind at 1 3, M_bind at 1 3, try. rewrite stmt_run by done.
  assert (view (w_db w) m k = record_of_row <$> find_row (idem_key m k) (idempotency_keys (w_db w))) as ->
    by (unfold view; by rewrite Ht).
  rewrite Ht. cbn [negb].
  destruct (find_row (idem_key m k) (idempotency_keys (w_db w))) as [row|] eqn:E; simpl.
  - unfold mbind, M_bind, map_err. rewrite pg_get_run by done. simpl. unfold spec_Get, view. simpl. rewrite Ht, E. simpl. done.
  - rewrite wrap32_id by (unfold int32_max; lia). split; [done|]. intros m' k'. rewrite view_snoc by (exact Ht || exact E). reflexivity.
Qed.

Lemma record_key m k d rec : view d m k = Some rec -> MerchantID rec = m /\ RKey rec = k.
Proof.
  unfold view. destruct (text_ok k); [|done].
  destruct (find_row _ _) as [row|] eqn:E; [|done]. apply find_row_Some in E as [_ E].
  intros [= <-]. unfold idem_key in E. apply andb_true_iff in E as [Hm Hk].
  split; [by apply N.eqb_eq|by apply String.eqb_eq].
Qed.

Lemma view_inserted d row :
  text_ok (ik_key row) = true -> find_row (idem_key (ik_merchant_id row) (ik_key row)) (idempotency_keys d) = None ->
  view (set_idempotency_keys d (idempotency_keys d ++ [row])) (ik_merchant_id row) (ik_key row) = Some (record_of_row row).
Proof. intros Ht Hn. rewrite view_snoc by done. unfold spec_insert. simpl. by rewrite N.eqb_refl, String.eqb_refl. Qed.

(** What [Put] returns is stored. *)
Lemma pg_put_sound r w stored created :
  (PGStore_Put r w).1 = Ok (stored, created) ->
  view (w_db (PGStore_Put r w).2) (MerchantID stored) (RKey stored) = Some stored.
Proof.
  intros Hrun. destruct (PGStore_Put r w) as [res w'] eqn:E. simpl in *. subst res. unfold PGStore_Put in E. minv.
  case_match; minv.
  - unfold insert_record in *. destruct (ResponseBody r) as [body|]; apply stmt_Ok in H0 as [Hres (Hd & _)]; [|done].
    rewrite Hd. simpl in *. destruct (text_ok (RKey r)) eqn:Ht; [|done]. simpl in *. case_match; [done|]. simplify_eq/=.
    match goal with |- view (set_idempotency_keys _ (_ ++ [?row])) _ _ = _ => by apply (view_inserted (w_db w) row) end.
  - destruct (negb _); minv. match goal with H : PGStore_Get ?m ?k ?w0 = _ |- _ =>
      destruct (pg_get_any m k w0) as [E|(e' & E & _)]; pose proof (pg_get_same m k w0) as Hd; rewrite H in E, Hd end; [|done].
    simpl in *. rewrite Hd. unfold spec_Get in E. destruct (view _ (MerchantID r) (RKey r)) as [rec|] eqn:Hv; [|done].
    injection E as ->. by destruct (record_key _ _ _ _ Hv) as [-> ->].
Qed.

#[global] Instance PGStore_ok : StoreOk NewPGStore (fun _ => True).
Proof.
  split; try done; cbn [NewPGStore store_Get store_Put].
  - intros m k w. apply pg_get_same.
  - intros m k w. apply pg_quiet_Get.
  - intros m k w. apply pg_get_rng.
  - intros m k. apply pg_offline_Get.
  - intros m k w rec _ Hrun. destruct (pg_get_any m k w) as [E|(e & E & _)]; rewrite E in Hrun; [|done].
    unfold spec_Get in Hrun. destruct (view _ m k); congruence.
  - intros m k w e _ Hrun He. destruct (pg_get_any m k w) as [E|(e' & E & He')]; rewrite E in Hrun; [|congruence].
    unfold spec_Get in Hrun. destruct (view _ m k); [done|]. injection Hrun as <-. destruct (text_ok k); done.
  - intros m k w _ Hf. by rewrite pg_get_run.
  - intros r w. apply keys_kept_Put.
  - intros r w. apply pg_quiet_Put.
  - intros r. apply pg_offline_Put.
  - intros r w. symmetry. apply (pg_put_only_keys r w).
  - intros r w stored created _. apply pg_put_sound.
  - intros r w _. apply pg_put_run.
Qed.
End pg_store.

(** ** The middleware *)

(** A handler that leaves the stored keys alone. *)
Definition leaves_keys (next : http_Handler) : Prop := forall r w,
  keys_kept (w_db w) (w_db (next r w).2) /\ rd_keys (w_redis (next r w).2) ⊆ rd_keys (w_redis w).

Definition mismatch : Response := http_Error "idempotency key reused with a different request body" 409.

Section middleware_spec.
Context `{Env} (store : Store) (inv : World -> Prop) `{!StoreOk store inv} (resolver : Request -> option uuid).

(** A request the middleware handles: mutating, with a key that the store can hold,
    a merchant and a readable body. *)
Definition keyed (r : Request) (m : uuid) (key body : string) : Prop :=
  isMutating (Method r) = true /\ IdemKey r = key /\ key <> "" /\ resolver r = Some m /\ Body r = Ok body /\
  text_ok key = true.

Lemma handler_keyed next r m key body :
  keyed r m key body ->
  Handler store resolver next r =
    (existing ← try (store_Get store m key);
     match existing with
     | Ok rec =>
       if negb (String.eqb (RequestHash rec) (HashRequest body)) then mret mismatch else mret (replay rec)
     | Err e =>
       if errors_is ErrNotFound e then capture store m key body next r
       else mret (http_Error "idempotency lookup failed" 500)
     end).
Proof.
  intros (Hm & <- & Hk & HM & Hb & _). unfold Handler. rewrite Hm, bool_decide_false, HM, Hb by done. by rewrite with_body_same.
Qed.

(** The answer to a request whose key is stored. *)
Lemma handler_stored next r m key body rec w :
  keyed r m key body -> inv w -> w_faults w = [] -> view (w_db w) m key = Some rec ->
  exists w', Handler store resolver next r w =
    (Ok (if String.eqb (RequestHash rec) (HashRequest body) then replay rec else mismatch), w') /\ w_db w' = w_db w.
Proof.
  intros Hr Hi Hf Hrec. rewrite (handler_keyed _ _ _ _ _ Hr). pose proof (get_run m key w Hi Hf) as Hg.
  pose proof (get_db (store:=store) m key w) as Hd. unfold spec_Get in Hg. rewrite Hrec in Hg.
  unfold mbind, M_bind, try. destruct (store_Get store m key w) as [res w']. simpl in *. subst res. exists w'.
  by destruct (String.eqb _ _).
Qed.

(** A first request is answered by its handler, and the answer is stored. *)
Lemma handler_first next r m key body resp w w1 :
  keyed r m key body -> inv w -> w_faults w = [] -> view (w_db w) m key = None -> leaves_keys next ->
  next r (store_Get store m key w).2 = (Ok resp, w1) -> w_faults w1 = [] -> view (w_db w1) m key = None ->
  0 <= resp_Status resp < 500 -> is_Some (resp_Body resp) ->
  exists w', Handler store resolver next r w = (Ok resp, w') /\ inv w' /\ w_faults w' = [] /\
    w_db w' = set_idempotency_keys (w_db w1) (idempotency_keys (w_db w')) /\
    view (w_db w') m key = Some (mkRecord m key (HashRequest body) (resp_Status resp) (resp_Body resp)).
Proof.
  intros Hr Hi Hf Hnone Hl Hnext Hf1 Hnone1 Hst Hbody. rewrite (handler_keyed _ _ _ _ _ Hr).
  pose proof (get_run m key w Hi Hf) as Hg. pose proof (get_inv m key w Hi) as Hi'. unfold spec_Get in Hg.
  rewrite Hnone, (proj2 (proj2 (proj2 (proj2 (proj2 Hr))))) in Hg.
  unfold mbind at 1, M_bind at 1, try. destruct (store_Get store m key w) as [res w0]. simpl in *. subst res.
  change (errors_is ErrNotFound ErrNotFound) with true. cbv iota. unfold capture. erewrite bind_run by exact Hnext.
  rewrite (proj2 (Z.leb_gt 500 (resp_Status resp))) by lia.
  assert (Hi1 : inv w1) by (destruct (Hl r w0) as [H1 H2]; rewrite Hnext in *; by eapply inv_stable).
  set (rec := mkRecord _ _ _ _ _).
  destruct (put_run rec w1 Hi1 Hf1) as [Hp Hv]; [split; [split; [done|simpl; lia]|apply Hr]|].
  pose proof (put_inv rec w1 Hi1) as Hi2. pose proof (put_only_keys (store:=store) rec w1) as Ho.
  pose proof (put_quiet (store:=store) rec w1) as [_ Hq]. unfold mbind, M_bind, try.
  destruct (store_Put store rec w1) as [res w2]. simpl in *. exists w2. split_and!; [done|done|auto|done|].
  rewrite Hv. unfold spec_Put. cbn [MerchantID RKey rec]. rewrite Hnone1. simpl. unfold spec_insert. simpl.
  by rewrite N.eqb_refl, String.eqb_refl.
Qed.

(** One request, whatever its handler and the faults. *)
Lemma handler_preserves next r w :
  leaves_keys next -> inv w ->
  inv (Handler store resolver next r w).2 /\ keys_kept (w_db w) (w_db (Handler store resolver next r w).2).
Proof.
  intros Hl Hi. assert (Hnext : forall r' w, inv w -> inv (next r' w).2 /\ keys_kept (w_db w) (w_db (next r' w).2)).
  { intros r' w' Hi'. destruct (Hl r' w') as [H1 H2]. split; [by eapply inv_stable|done]. }
  assert (Hstay : forall (resp : Response) w, inv w -> inv ((mret resp : M Response) w).2 /\ keys_kept (w_db w) (w_db ((mret resp : M Response) w).2))
    by (intros; split; [done|reflexivity]).
  unfold Handler. destruct (negb _); [by apply Hnext|]. case_bool_decide; [by apply Hnext|].
  destruct (resolver r) as [m|]; [|by apply Hstay]. destruct (Body r) as [body|]; [|by apply Hstay].
  unfold mbind at 1 2, M_bind at 1 2, try. pose proof (get_inv m (IdemKey r) w Hi) as Hi1.
  pose proof (get_db (store:=store) m (IdemKey r) w) as Hd.
  destruct (store_Get store m (IdemKey r) w) as [[rec|e] w1]; simpl in Hi1, Hd; rewrite <- Hd.
  - destruct (negb _); by apply Hstay.
  - destruct (errors_is _ _); [|by apply Hstay]. unfold capture, mbind, M_bind, try.
    destruct (Hnext (with_body r body) w1 Hi1) as [Hi2 Hk2].
    destruct (next (with_body r body) w1) as [[resp|e2] w2]; simpl in *; [|done].
    destruct (500 <=? _); [done|]. set (rec := mkRecord _ _ _ _ _). pose proof (put_inv rec w2 Hi2). pose proof (put_kept rec w2).
    destruct (store_Put store rec w2); simpl in *. split; [done|by etransitivity].
Qed.

(** Other requests through the same middleware, with any handlers that leave the
    keys alone; between them time passes, faults are drawn and the cache loses
    keys or becomes unreachable. *)
Inductive traffic (w : World) : World -> Prop :=
  | traffic_idle t fs rd : rd_keys rd ⊆ rd_keys (w_redis w) -> traffic w (set_redis (set_faults (set_now w t) fs) rd)
  | traffic_request next r : leaves_keys next -> traffic w (Handler store resolver next r w).2.

Definition serving : World -> World -> Prop := rtc traffic.

Lemma serving_kept w w' : serving w w' -> inv w -> inv w' /\ keys_kept (w_db w) (w_db w').
Proof.
  induction 1 as [|w w1 w2 Hstep _ IH]; intros Hi; [by split|].
  assert (inv w1 /\ keys_kept (w_db w) (w_db w1)) as [Hi1 Hk1].
  { destruct Hstep as [t fs rd Hrd|next r Hn].
    - split; [by eapply inv_stable|reflexivity].
    - by apply handler_preserves. }
  destruct (IH Hi1) as [Hi2 Hk2]. split; [done|]. etransitivity; [exact Hk1|exact Hk2].
Qed.

(** A retried request takes effect once, over any store that keeps the store
    contract: when the first request with a key was answered below 500 and
    recorded, every later request of that merchant with that key, after any other
    traffic, cache outage or eviction, gets the recorded status and body, marked
    as a replay, if its body has the same hash, and a 409 otherwise; in both cases
    its handler does not run and the database does not change. *)
Theorem retried_request_replayed next r m key body resp w w1 :
  keyed r m key body -> inv w -> w_faults w = [] -> view (w_db w) m key = None -> leaves_keys next ->
  next r (store_Get store m key w).2 = (Ok resp, w1) -> w_faults w1 = [] -> view (w_db w1) m key = None ->
  0 <= resp_Status resp < 500 -> is_Some (resp_Body resp) ->
  exists w', Handler store resolver next r w = (Ok resp, w') /\
    forall w2 next' r' body', serving w' w2 -> w_faults w2 = [] -> keyed r' m key body' ->
      exists w3, Handler store resolver next' r' w2 =
        (Ok (if String.eqb (HashRequest body) (HashRequest body')
             then mkResponse (resp_Status resp) (Header_Set ∅ "Idempotent-Replay" "true") (resp_Body resp)
             else mismatch), w3) /\ w_db w3 = w_db w2.
Proof.
  intros Hr Hi Hf Hnone Hl Hnext Hf1 Hnone1 Hst Hbody.
  destruct (handler_first next r m key body resp w w1) as (w' & Hrun & Hi' & _ & _ & Hv); [done..|].
  exists w'. split; [done|]. intros w2 next' r' body' Hserve Hf2 Hr'.
  destruct (serving_kept _ _ Hserve Hi') as [Hi2 Hk2].
  apply (handler_stored next' r' m key body' _ w2 Hr' Hi2 Hf2 (view_kept _ _ _ _ _ Hk2 Hv)).
Qed.
End middleware_spec.

(** ** Concurrent duplicates *)

Section race.
#[local] Existing Instance example_env.

Definition race_request : Request := mkRequest "POST" "/v1/payment_intents" "" {["Idempotency-Key" := ["k-1"]]} (Ok "{}") (Some 50%N) None.

(** A handler with a visible effect: it inserts a quote. *)
Definition race_handler : http_Handler := fun _ =>
  _ ← CreateQuote "USDC/IDR" 16200 0 50 100 "sig"; mret (mkResponse 201 ∅ (Some "{}")).

Definition race_world : World := world_at 0 empty_db.

(** Two requests in flight with the same key both take effect: when the second
    request is served completely between the lookup and the handler of the first,
    the handler runs twice.  The key is claimed only after the response, so there
    is no in-progress state to refuse the second request with. *)
Theorem concurrent_duplicates_run_twice :
  (PGStore_Get 50%N "k-1" race_world).1 = Err ErrNotFound /\
  let w1 := (Handler NewPGStore ctx_Merchant race_handler race_request race_world).2 in
  let w2 := (capture NewPGStore 50%N "k-1" "{}" race_handler race_request w1).2 in
  length (quotes (w_db w1)) = 1%nat /\ length (quotes (w_db w2)) = 2%nat /\
  length (idempotency_keys (w_db w2)) = 1%nat.
Proof. vm_compute. auto. Qed.

Lemma race_handler_leaves : leaves_keys race_handler.
Proof.
  intros r w. unfold race_handler, CreateQuote, stmt, pop_fault, mbind, M_bind.
  destruct (w_faults w) as [|[] fs]; simpl; repeat case_match; simplify_eq/=; (split; [split; [reflexivity|done]|reflexivity]).
Qed.

Lemma retried_request_replayed_witness :
  exists w', Handler NewPGStore ctx_Merchant race_handler race_request race_world = (Ok (mkResponse 201 ∅ (Some "{}")), w') /\
    exists w3, Handler NewPGStore ctx_Merchant race_handler race_request w' =
      (Ok (mkResponse 201 (Header_Set ∅ "Idempotent-Replay" "true") (Some "{}")), w3) /\ w_db w3 = w_db w'.
Proof.
  assert (Hk : keyed ctx_Merchant race_request 50%N "k-1" "{}") by (repeat split; discriminate).
  destruct (retried_request_replayed NewPGStore (fun _ => True) ctx_Merchant race_handler race_request 50%N "k-1" "{}"
    (mkResponse 201 ∅ (Some "{}")) race_world (race_handler race_request race_world).2 Hk) as (w' & Hrun & Hlater);
    try reflexivity; try exact I; [exact race_handler_leaves|simpl; lia|eexists; reflexivity|].
  exists w'. split; [exact Hrun|]. apply (Hlater w' race_handler race_request "{}"); [apply rtc_refl| |exact Hk].
  assert (E : (Handler NewPGStore ctx_Merchant race_handler race_request race_world).2 = w') by (rewrite Hrun; reflexivity).
  rewrite <- E. vm_compute. reflexivity.
Defined.
End race.
