(* ===== verification/IdemCache.v ===== *)
(** * The Redis cache of stored responses ([internal/idempotency/store_cache.go])

    [CachedStore] over any [Store].  Redis answers, fails or loses replies
    according to its script; its keys expire and may be evicted.  The cache is
    coherent when an entry that decodes is the record of the durable store, and
    then the cached store keeps the store's contract. *)

From S2P Require Import Prelude GoStr MockBank Models World GoJson JsonDecode Http Queries Idempotency.
From Stdlib Require Import Ascii String.

(** ** go-redis *)

Definition redis_Nil : err := ErrSentinel "redis: nil".

Definition pop_redis (w : World) : redis_event * World :=
  match rd_events (w_redis w) with
  | [] => (RdOk, w)
  | e :: es => (e, set_redis w (mkRedis (rd_keys (w_redis w)) es))
  end.

(** [rdb.Get(ctx, k).Bytes()]; a key past its expiry is absent. *)
Definition redis_Get (k : string) : M string := fun w =>
  let '(ev, w) := pop_redis w in
  match ev with
  | RdOk =>
    match rd_keys (w_redis w) !! k with
    | Some (raw, exp) =>
      if match exp with Some t => t <=? w_now w | None => false end then (Err redis_Nil, w) else (Ok raw, w)
    | None => (Err redis_Nil, w)
    end
  | _ => (Err ErrConn, w)
  end.

(** [rdb.Set(ctx, k, v, ttl).Err()]: a ttl that is not positive sets no expiry. *)
Definition redis_Set (k v : string) (ttl : Z) : M unit := fun w =>
  let '(ev, w) := pop_redis w in
  let exp := if 0 <? ttl then Some (w_now w + ttl) else None in
  let w' := set_redis w (mkRedis (<[k := (v, exp)]> (rd_keys (w_redis w))) (rd_events (w_redis w))) in
  match ev with
  | RdOk => (Ok tt, w')
  | RdFail => (Err ErrConn, w)
  | RdLost => (Err ErrConn, w')
  end.

(** ** store_cache.go *)

Record cachePayload := mkPayload { cp_RequestHash : option string; cp_StatusCode : Z; cp_ResponseBody : option string }.

(** [json.Marshal] of a payload. *)
Definition payload_json (p : cachePayload) : json :=
  JObj [("h", json_bytes (cp_RequestHash p)); ("s", JNum (cp_StatusCode p)); ("b", json_bytes (cp_ResponseBody p))].

(** [json.Unmarshal] into a fresh payload. *)
Definition payload_Unmarshal (raw : string) : option cachePayload :=
  match whole_value raw with
  | Some VNull => Some (mkPayload None 0 None)
  | Some (VObj fs) =>
    match set_all set_bytes None (field_values "h" fs), set_all set_int 0 (field_values "s" fs),
          set_all set_bytes None (field_values "b" fs) with
    | Some h, Some s, Some b => Some (mkPayload h s b)
    | _, _, _ => None
    end
  | _ => None
  end.

(** The record of a payload; a nil hash compares like an empty one. *)
Definition payload_record (m : uuid) (k : string) (p : cachePayload) : IRecord :=
  mkRecord m k (default "" (cp_RequestHash p)) (cp_StatusCode p) (cp_ResponseBody p).

Section cache.
Context `{Env} (inner : Store) (ttl : Z).

Definition cacheKey (m : uuid) (k : string) : string := "idemp:" +:+ uuid_string m +:+ ":" +:+ k.

Definition warm (ck : string) (r : IRecord) : M unit :=
  _ ← try (redis_Set ck (Marshal (payload_json (mkPayload (Some (RequestHash r)) (StatusCode r) (ResponseBody r)))) ttl);
  mret tt.

(** Reading through to the durable store. *)
Definition read_through (m : uuid) (k : string) : M IRecord :=
  rec ← store_Get inner m k;
  _ ← warm (cacheKey m k) rec;
  mret rec.

Definition CachedStore_Get (m : uuid) (k : string) : M IRecord :=
  cached ← try (redis_Get (cacheKey m k));
  match cached with
  | Ok raw =>
    match payload_Unmarshal raw with
    | Some p => mret (payload_record m k p)
    | None => read_through m k
    end
  | Err _ => read_through m k
  end.

Definition CachedStore_Put (r : IRecord) : M (IRecord * bool) :=
  '(stored, created) ← store_Put inner r;
  _ ← warm (cacheKey (MerchantID stored) (RKey stored)) stored;
  mret (stored, created).

Definition NewCachedStore : Store := mkStore CachedStore_Get CachedStore_Put.
End cache.

(** ** Coherence *)

Section coherence.
Context `{Env} `{!EnvOk _}.

(** Every entry that decodes is the record of the durable store. *)
Definition entries_ok (w : World) : Prop := forall m k raw exp p,
  rd_keys (w_redis w) !! cacheKey m k = Some (raw, exp) -> payload_Unmarshal raw = Some p ->
  view (w_db w) m k = Some (payload_record m k p).

Definition coherent (w : World) : Prop := int32_keys (w_db w) /\ entries_ok w.

Lemma cacheKey_inj m k m' k' : cacheKey m k = cacheKey m' k' -> m = m' /\ k = k'.
Proof.
  unfold cacheKey. intros E. injection E as E. change (":" +:+ ?x) with (String ":" x) in E.
  change ("" +:+ ?x) with x in E.
  pose proof (cut_byte_sep ":" (uuid_string m) k (uuid_string_no_colon m)) as H1.
  rewrite E, cut_byte_sep in H1 by apply uuid_string_no_colon. injection H1 as Hm Hk.
  split; [by apply (inj uuid_string)|done].
Qed.

(** A payload survives the cache. *)
Lemma payload_roundtrip h s b :
  is_int64 s = true -> payload_Unmarshal (Marshal (payload_json (mkPayload h s b))) = Some (mkPayload h s b).
Proof.
  intros Hs. unfold payload_Unmarshal. set (j := payload_json _).
  assert (Hv : whole_value (Marshal j) = Some (embed j)).
  { apply whole_value_Marshal.
    - cbn [j payload_json valid_json forallb fst snd cp_RequestHash cp_StatusCode cp_ResponseBody]. by rewrite !json_bytes_valid.
    - by destruct h, b. }
  rewrite Hv. cbn [j payload_json embed map fst snd cp_RequestHash cp_StatusCode cp_ResponseBody].
  change (field_values "h" _) with [embed (json_bytes h)]. change (field_values "s" _) with [VNum (FormatInt s)].
  change (field_values "b" _) with [embed (json_bytes b)]. cbn [set_all set_int].
  by rewrite !set_bytes_json, ParseInt_FormatInt.
Qed.

Lemma pop_redis_spec w :
  w_db (pop_redis w).2 = w_db w /\ w_rng (pop_redis w).2 = w_rng w /\ w_now (pop_redis w).2 = w_now w /\ w_faults (pop_redis w).2 = w_faults w /\
  rd_keys (w_redis (pop_redis w).2) = rd_keys (w_redis w).
Proof. unfold pop_redis. by destruct (rd_events _). Qed.

Lemma redis_Get_spec k w :
  let w' := (redis_Get k w).2 in
  (w_db w' = w_db w /\ w_rng w' = w_rng w /\ w_now w' = w_now w /\ w_faults w' = w_faults w /\
   rd_keys (w_redis w') = rd_keys (w_redis w)) /\
  forall raw, (redis_Get k w).1 = Ok raw -> exists exp, rd_keys (w_redis w) !! k = Some (raw, exp).
Proof.
  unfold redis_Get. pose proof (pop_redis_spec w) as Hp. destruct (pop_redis w) as [ev w0]. simpl in Hp.
  destruct ev; simpl; [|done..]. destruct Hp as (Hd & Hg & Hn & Hf & Hk). rewrite Hk.
  destruct (rd_keys (w_redis w) !! k) as [[raw exp]|]; [|done]. destruct (match exp with Some _ => _ | None => _ end); simpl; [done|].
  split; [done|]. intros ? [= <-]. eauto.
Qed.

(** Warming writes one entry or none. *)
Lemma warm_spec ttl ck rec w :
  let w' := (warm ttl ck rec w).2 in
  (warm ttl ck rec w).1 = Ok tt /\ w_db w' = w_db w /\ w_now w' = w_now w /\ w_faults w' = w_faults w /\
  w_rng w' = w_rng w /\ (rd_keys (w_redis w') = rd_keys (w_redis w) \/
   exists exp, rd_keys (w_redis w') =
     <[ck := (Marshal (payload_json (mkPayload (Some (RequestHash rec)) (StatusCode rec) (ResponseBody rec))), exp)]>
       (rd_keys (w_redis w))).
Proof.
  unfold warm, redis_Set, mbind, M_bind, try. pose proof (pop_redis_spec w) as Hp. destruct (pop_redis w) as [ev w0]. simpl in Hp.
  destruct Hp as (Hd & Hg & Hn & Hf & Hk).
  destruct ev; simpl; (split_and!; [done|done|done|done|done|]); rewrite <- Hk; [right; by eexists|by left|right; by eexists].
Qed.

(** Records of the table carry their own key. *)
Lemma view_record d m k rec :
  int32_keys d -> view d m k = Some rec -> MerchantID rec = m /\ RKey rec = k /\ is_int64 (StatusCode rec) = true.
Proof.
  intros Hi. unfold view. destruct (text_ok k); [|done]. destruct (find_row _ _) as [row|] eqn:E; [|done]. apply find_row_Some in E as [Hin E].
  intros [= <-]. unfold idem_key in E. apply andb_true_iff in E as [Hm Hk]. simpl.
  split_and!; [by apply N.eqb_eq|by apply String.eqb_eq|].
  unfold int32_keys in Hi. rewrite Forall_forall in Hi. specialize (Hi _ Hin). apply is_int64_spec. unfold int64_min, int64_max. lia.
Qed.

Lemma warm_coherent ttl m k rec w :
  coherent w -> view (w_db w) m k = Some rec -> coherent (warm ttl (cacheKey m k) rec w).2.
Proof.
  intros [Hi Hc] Hv. destruct (warm_spec ttl (cacheKey m k) rec w) as (_ & Hd & _ & _ & _ & Hk). split; [by rewrite Hd|].
  intros m' k' raw exp p Hl Hp. rewrite Hd. destruct Hk as [Hk|[exp' Hk]]; rewrite Hk in Hl; [by eapply Hc|].
  apply lookup_insert_Some in Hl as [[E Hl]|[_ Hl]]; [|by eapply Hc].
  apply cacheKey_inj in E as [<- <-]. apply (f_equal fst) in Hl. cbn [fst] in Hl. subst raw. destruct (view_record _ _ _ _ Hi Hv) as (Hm & HK & Hs).
  rewrite payload_roundtrip in Hp by done. injection Hp as <-. rewrite Hv. destruct rec. simpl in *. by subst.
Qed.

(** ** The contract *)

Lemma coherent_stable w w' :
  coherent w -> keys_kept (w_db w) (w_db w') -> rd_keys (w_redis w') ⊆ rd_keys (w_redis w) -> coherent w'.
Proof.
  intros [Hi Hc] Hk Hr. split; [by apply Hk|]. intros m k raw exp p Hl Hp. apply (view_kept (w_db w)); [done|].
  eapply Hc; [|done]. by eapply lookup_weaken.
Qed.

(** A durable store that does not use the cache. *)
Context (inner : Store) `{!StoreOk inner (fun _ => True)} (ttl : Z).
Hypothesis get_redis : forall m k w, w_redis (store_Get inner m k w).2 = w_redis w.
Hypothesis put_redis : forall r w, w_redis (store_Put inner r w).2 = w_redis w.

Lemma get_coherent m k w : coherent w -> coherent (store_Get inner m k w).2.
Proof.
  intros Hc. eapply coherent_stable; [exact Hc| |by rewrite get_redis]. rewrite (get_db (store:=inner)). reflexivity.
Qed.

Lemma put_coherent r w : coherent w -> coherent (store_Put inner r w).2.
Proof. intros Hc. eapply coherent_stable; [exact Hc|apply (put_kept (store:=inner))|by rewrite put_redis]. Qed.

(** Reading through answers what the durable store answers, and leaves the cache
    coherent. *)
Lemma read_through_spec m k w :
  coherent w ->
  let w' := (read_through inner ttl m k w).2 in
  (read_through inner ttl m k w).1 = (store_Get inner m k w).1 /\
  w_db w' = w_db w /\ quiet_rel w w' /\ coherent w'.
Proof.
  intros Hc. pose proof (get_coherent m k w Hc) as Hc1. pose proof (get_db (store:=inner) m k w) as Hd.
  pose proof (get_quiet (store:=inner) m k w) as Hq. pose proof (fun rec => get_sound (store:=inner) m k w rec I) as Hs.
  unfold read_through, mbind, M_bind. destruct (store_Get inner m k w) as [[rec|e] w1]; simpl in *; [|done].
  pose proof (warm_coherent ttl m k rec w1 Hc1 ltac:(rewrite Hd; by apply Hs)) as Hc2.
  destruct (warm_spec ttl (cacheKey m k) rec w1) as (Hr & Hd2 & Hn2 & Hf2 & _).
  destruct (warm ttl (cacheKey m k) rec w1) as [r2 w2]. simpl in *. subst r2. unfold mret, M_ret; simpl; split_and!; [done|congruence| |done].
  destruct Hq as [Hq1 Hq2]. split; [congruence|]. intros Hf. rewrite Hf2. auto.
Qed.

(** A cached lookup answers what the durable store holds or what it answers. *)
Lemma cached_get_spec m k w :
  coherent w ->
  let run := CachedStore_Get inner ttl m k w in
  w_db run.2 = w_db w /\ quiet_rel w run.2 /\ coherent run.2 /\
  ((exists rec, run.1 = Ok rec /\ view (w_db w) m k = Some rec) \/
   exists w0, run.1 = (store_Get inner m k w0).1 /\ w_db w0 = w_db w /\ w_faults w0 = w_faults w).
Proof.
  intros Hc. unfold CachedStore_Get, mbind, M_bind, try.
  destruct (redis_Get_spec (cacheKey m k) w) as [(Hd & _ & Hn & Hf & Hk) Hraw].
  assert (Hc0 : coherent (redis_Get (cacheKey m k) w).2).
  { eapply coherent_stable; [exact Hc|rewrite Hd; reflexivity|by rewrite Hk]. }
  destruct (redis_Get (cacheKey m k) w) as [rr w0]. simpl in *.
  assert (Hthrough : let run := read_through inner ttl m k w0 in
    w_db run.2 = w_db w /\ quiet_rel w run.2 /\ coherent run.2 /\
    ((exists rec, run.1 = Ok rec /\ view (w_db w) m k = Some rec) \/
     exists w0, run.1 = (store_Get inner m k w0).1 /\ w_db w0 = w_db w /\ w_faults w0 = w_faults w)).
  { destruct (read_through_spec m k w0 Hc0) as (Hr & Hd1 & [Hq1 Hq2] & Hc1). cbv zeta. split_and!; [congruence| |done|].
    - split; [congruence|]. rewrite <- Hf. auto.
    - right. exists w0. split_and!; congruence. }
  destruct rr as [raw|e]; [|exact Hthrough]. destruct (Hraw raw eq_refl) as [exp Hl].
  destruct (payload_Unmarshal raw) as [p|] eqn:Hp; [|exact Hthrough]. simpl. split_and!; [done| |done|].
  - split; [done|congruence].
  - left. eexists. split; [done|]. destruct Hc as [_ Hc]. by eapply Hc.
Qed.

(** Redis is not the bank. *)
Lemma offline_redis_Get k : offline (redis_Get k).
Proof. intros w. unfold redis_Get, pop_redis. repeat case_match; simplify_eq/=; done. Qed.

Lemma offline_warm ck rec : offline (warm ttl ck rec).
Proof.
  assert (offline (redis_Set ck (Marshal (payload_json (mkPayload (Some (RequestHash rec)) (StatusCode rec) (ResponseBody rec)))) ttl)).
  { intros w. unfold redis_Set, pop_redis. destruct (rd_events (w_redis w)) as [|[] es]; done. }
  unfold warm. wkeeps_auto.
Qed.

Lemma offline_cached_Get m k : offline (CachedStore_Get inner ttl m k).
Proof.
  pose proof offline_redis_Get. pose proof offline_warm. assert (offline (store_Get inner m k)) by (intros w; apply (get_offline (store:=inner))).
  unfold CachedStore_Get, read_through. wkeeps_auto.
Qed.

Lemma offline_cached_Put r : offline (CachedStore_Put inner ttl r).
Proof.
  pose proof offline_warm. assert (offline (store_Put inner r)) by (intros w; apply (put_offline (store:=inner))).
  unfold CachedStore_Put. wkeeps_auto.
Qed.

(** Without coherence a lookup still changes nothing but the cache. *)
Definition only_cache (w w' : World) : Prop := w_db w' = w_db w /\ quiet_rel w w' /\ w_rng w' = w_rng w.

Lemma read_through_db m k w : only_cache w (read_through inner ttl m k w).2.
Proof.
  unfold read_through, mbind, M_bind. pose proof (get_db (store:=inner) m k w) as Hd. pose proof (get_rng (store:=inner) m k w) as Hg.
  pose proof (get_quiet (store:=inner) m k w) as [Hn Hf]. destruct (store_Get inner m k w) as [[rec|e] w1]; simpl in *; [|done].
  destruct (warm_spec ttl (cacheKey m k) rec w1) as (Hr & Hd2 & Hn2 & Hf2 & Hg2 & _).
  destruct (warm ttl (cacheKey m k) rec w1) as [rw w2]. simpl in *. subst rw. simpl.
  split_and!; [simpl; congruence| |simpl; congruence]. split; [simpl; congruence|]. intros E. simpl. rewrite Hf2. auto.
Qed.

Lemma cached_get_db m k w : only_cache w (CachedStore_Get inner ttl m k w).2.
Proof.
  unfold CachedStore_Get, mbind, M_bind, try.
  destruct (redis_Get_spec (cacheKey m k) w) as [(Hd & Hg & Hn & Hf & _) _]. destruct (redis_Get (cacheKey m k) w) as [rr w0]. simpl in *.
  assert (Hq0 : only_cache w w0) by (split_and!; [done|split; congruence|done]).
  destruct (read_through_db m k w0) as (H1 & H2 & H3).
  assert (Hq1 : only_cache w (read_through inner ttl m k w0).2)
    by (destruct Hq0 as (? & ? & ?); split_and!; [congruence|by etransitivity|congruence]).
  destruct rr as [raw|]; [destruct (payload_Unmarshal raw)|]; done.
Qed.

Lemma cached_put_spec r w :
  let run := CachedStore_Put inner ttl r w in
  run.1 = (store_Put inner r w).1 /\ w_db run.2 = w_db (store_Put inner r w).2 /\ quiet_rel w run.2.
Proof.
  unfold CachedStore_Put, mbind, M_bind. pose proof (put_quiet (store:=inner) r w) as Hq.
  destruct (store_Put inner r w) as [[[stored created]|e] w1]; simpl in *; [|done].
  destruct (warm_spec ttl (cacheKey (MerchantID stored) (RKey stored)) stored w1) as (Hr & Hd & Hn & Hf & _).
  destruct (warm _ _ _ _) as [r2 w2]. simpl in *. subst r2. unfold mret, M_ret; simpl; split_and!; [done|done|].
  destruct Hq as [Hq1 Hq2]. split; [congruence|]. intros. rewrite Hf. auto.
Qed.

Lemma cached_put_coherent r w : coherent w -> coherent (CachedStore_Put inner ttl r w).2.
Proof.
  intros Hc. pose proof (put_coherent r w Hc) as Hc1. unfold CachedStore_Put, mbind, M_bind.
  pose proof (fun s c => put_sound (store:=inner) r w s c I) as Hs.
  destruct (store_Put inner r w) as [[[stored created]|e] w1]; simpl in *; [|done].
  pose proof (warm_coherent ttl _ _ stored w1 Hc1 (Hs _ _ eq_refl)) as Hc2.
  destruct (warm_spec ttl (cacheKey (MerchantID stored) (RKey stored)) stored w1) as (Hr & _).
  destruct (warm _ _ _ _) as [r2 w2]. simpl in *. by subst r2.
Qed.

(** The cached store keeps the contract of the durable one, whatever Redis does. *)
Lemma cached_store_ok : StoreOk (NewCachedStore inner ttl) coherent.
Proof.
  split; cbn [NewCachedStore store_Get store_Put].
  - apply coherent_stable.
  - intros m k w Hc. apply (cached_get_spec m k w Hc).
  - intros m k w. apply cached_get_db.
  - intros m k w. apply cached_get_db.
  - intros m k w. apply cached_get_db.
  - apply offline_cached_Get.
  - intros m k w rec Hc Hrun. destruct (cached_get_spec m k w Hc) as (_ & _ & _ & [(rec' & E & Hv)|(w0 & E & Hd & _)]).
    + congruence.
    + rewrite E in Hrun. rewrite <- Hd. by apply (get_sound (store:=inner) m k w0 rec I).
  - intros m k w e Hc Hrun He. destruct (cached_get_spec m k w Hc) as (_ & _ & _ & [(rec' & E & Hv)|(w0 & E & Hd & _)]).
    + congruence.
    + rewrite E in Hrun. rewrite <- Hd. by apply (get_missing (store:=inner) m k w0 e I).
  - intros m k w Hc Hf. destruct (cached_get_spec m k w Hc) as (_ & _ & _ & [(rec' & E & Hv)|(w0 & E & Hd & Hf0)]); rewrite E.
    + unfold spec_Get. by rewrite Hv.
    + rewrite <- Hd. apply (get_run (store:=inner)); [done|congruence].
  - apply cached_put_coherent.
  - intros r w. destruct (cached_put_spec r w) as (_ & -> & _). apply (put_kept (store:=inner)).
  - intros r w. apply cached_put_spec.
  - apply offline_cached_Put.
  - intros r w. destruct (cached_put_spec r w) as (_ & -> & _). apply (put_only_keys (store:=inner)).
  - intros r w stored created _ Hrun. destruct (cached_put_spec r w) as (E & -> & _). rewrite E in Hrun.
    by eapply (put_sound (store:=inner)).
  - intros r w _ Hf Hr. destruct (cached_put_spec r w) as (-> & -> & _). by apply (put_run (store:=inner)).
Qed.
End coherence.

(** The deployed store: the cache over Postgres. *)
Section deployed.
Context `{Env} `{!EnvOk _} (ttl : Z).

Lemma pg_get_redis m k w : w_redis (PGStore_Get m k w).2 = w_redis w.
Proof.
  unfold PGStore_Get, GetIdempotencyKey, select, stmt, pop_fault, mbind, M_bind, map_err.
  destruct (w_faults w) as [|[] fs]; simpl; try done; destruct (text_ok k); try done; by destruct (find_row _ _).
Qed.

Lemma insert_redis r w : w_redis (insert_record r w).2 = w_redis w.
Proof.
  unfold insert_record, InsertIdempotencyKey, stmt, pop_fault. by destruct (ResponseBody r), (w_faults w) as [|[] fs].
Qed.

Lemma pg_put_redis r w : w_redis (PGStore_Put r w).2 = w_redis w.
Proof.
  pose proof (insert_redis r w) as Hi. unfold PGStore_Put, mbind, M_bind, try, map_err.
  destruct (insert_record r w) as [[row|e] w1]; simpl in *; [done|]. destruct (negb _); [done|].
  pose proof (pg_get_redis (MerchantID r) (RKey r) w1) as Hg. destruct (PGStore_Get _ _ w1) as [[] w2]; simpl in *; congruence.
Qed.

#[global] Instance CachedStore_ok : StoreOk (NewCachedStore NewPGStore ttl) coherent.
Proof. apply cached_store_ok; [apply _|apply pg_get_redis|apply pg_put_redis]. Qed.
End deployed.

(** ** Refinement of the write-once map *)

(** Maps with the same records. *)
#[global] Instance records_equiv : Equiv records := fun v v' => forall m k, v m k = v' m k.

#[global] Instance records_equivalence : Equivalence (≡@{records}).
Proof. split; [by intros v m k|by intros v v' E m k|intros v1 v2 v3 E1 E2 m k; by rewrite E1]. Qed.

#[global] Instance spec_Get_proper m k : Proper ((≡) ==> (=)) (fun v => spec_Get v m k).
Proof. intros v v' E. unfold spec_Get. by rewrite E. Qed.

#[global] Instance spec_insert_proper : Proper ((≡) ==> (=) ==> (≡)) spec_insert.
Proof. intros v v' E r ? <- m k. unfold spec_insert. by rewrite E. Qed.

(** Operations of the interface and their answers; before each one time passes,
    Redis may lose keys and gets a new script of events. *)
Inductive store_op := OpGet (m : uuid) (k : string) | OpPut (r : IRecord).
Inductive answer := AnsGet (r : res IRecord) | AnsPut (r : res (IRecord * bool)).
Record event := mkEvent { ev_now : Z; ev_redis : list redis_event; ev_evict : list string; ev_op : store_op }.

Definition disturb (e : event) (w : World) : World :=
  set_redis (set_now w (ev_now e))
    (mkRedis (foldr delete (rd_keys (w_redis w)) (ev_evict e)) (ev_redis e)).

Fixpoint run_store (store : Store) (es : list event) (w : World) : list answer :=
  match es with
  | [] => []
  | e :: es =>
    match ev_op e with
    | OpGet m k => let '(r, w') := store_Get store m k (disturb e w) in AnsGet r :: run_store store es w'
    | OpPut r => let '(r, w') := store_Put store r (disturb e w) in AnsPut r :: run_store store es w'
    end
  end.

Fixpoint run_spec (es : list event) (v : records) : list answer :=
  match es with
  | [] => []
  | e :: es =>
    match ev_op e with
    | OpGet m k => AnsGet (spec_Get v m k) :: run_spec es v
    | OpPut r => let '(a, v') := spec_Put v r in AnsPut (Ok a) :: run_spec es v'
    end
  end.

#[global] Instance run_spec_proper es : Proper ((≡) ==> (=)) (run_spec es).
Proof.
  induction es as [|[t rd ev [m k|r]] es IH]; intros v v' E; [done|..]; cbn [run_spec ev_op].
  - f_equal; [f_equal; by apply spec_Get_proper|by apply IH].
  - unfold spec_Put. rewrite <- (E (MerchantID r)). destruct (v (MerchantID r) (RKey r)); f_equal; apply IH; [done|].
    by apply spec_insert_proper.
Qed.

Section refinement.
Context `{Env} (store : Store) (inv : World -> Prop) `{!StoreOk store inv}.

Lemma disturb_inv e w : inv w -> inv (disturb e w).
Proof.
  intros Hi. eapply inv_stable; [exact Hi|reflexivity|]. simpl. induction (ev_evict e) as [|k ks IH]; [done|]. simpl.
  etransitivity; [apply delete_subseteq|done].
Qed.

Lemma store_refines es w :
  inv w -> w_faults w = [] -> Forall (fun e => forall r, ev_op e = OpPut r -> storable r) es ->
  run_store store es w = run_spec es (view (w_db w)).
Proof.
  revert w. induction es as [|e es IH]; intros w Hi Hf Hes; [done|]. apply Forall_cons in Hes as [He Hes].
  pose proof (disturb_inv e w Hi) as Hi1. assert (Hf1 : w_faults (disturb e w) = []) by done. cbn [run_store run_spec].
  destruct (ev_op e) as [m k|r].
  - pose proof (get_run m k _ Hi1 Hf1) as Hr. pose proof (get_inv m k _ Hi1) as Hi2. pose proof (get_db (store:=store) m k (disturb e w)) as Hd.
    destruct (get_quiet (store:=store) m k (disturb e w)) as [_ Hf2].
    destruct (store_Get store m k (disturb e w)) as [a w2]. simpl in *. subst a. rewrite IH by auto. by rewrite Hd.
  - destruct (put_run r _ Hi1 Hf1 (He r eq_refl)) as [Hr Hv]. pose proof (put_inv r _ Hi1) as Hi2.
    destruct (put_quiet (store:=store) r (disturb e w)) as [_ Hf2].
    destruct (store_Put store r (disturb e w)) as [a w2]. simpl in *. subst a. rewrite IH by auto.
    destruct (spec_Put (view (w_db w)) r) as [a v']. simpl in *. f_equal. by apply run_spec_proper.
Qed.
End refinement.

(** C13: The cache is invisible: the Redis-cached store over Postgres answers every
    sequence of lookups and inserts exactly as the abstract write-once map of
    records does, whatever Redis loses, evicts or expires and however long the
    pauses, starting from a coherent cache (an empty one is), while Postgres answers
    and for records its columns can hold (a body, an INTEGER status, a key that is
    text); a lookup of any other key is refused by both. *)
Theorem cached_store_refines `{Env} `{!EnvOk _} ttl es w :
  coherent w -> w_faults w = [] -> Forall (fun e => forall r, ev_op e = OpPut r -> storable r) es ->
  run_store (NewCachedStore NewPGStore ttl) es w = run_spec es (view (w_db w)).
Proof. apply store_refines, _. Qed.

Section example.
#[local] Existing Instance example_env.
#[local] Existing Instance example_env_ok.

(** A first response, a duplicate with another body, and lookups with Redis up,
    down, and after an eviction. *)
Definition example_record : IRecord := mkRecord 50%N "k-1" (HashRequest "{}") 201 (Some "{}").
Definition example_events : list event := [
  mkEvent 10 [] [] (OpGet 50%N "k-1");
  mkEvent 20 [RdLost] [] (OpPut example_record);
  mkEvent 30 [] [] (OpPut (mkRecord 50%N "k-1" (HashRequest "[]") 409 (Some "no")));
  mkEvent 40 [RdFail; RdOk] [] (OpGet 50%N "k-1");
  mkEvent 50 [] ["idemp:50:k-1"] (OpGet 50%N "k-1")].

Lemma coherent_empty t d : int32_keys d -> coherent (world_at t d).
Proof. intros Hd. split; [done|]. intros m k raw exp p Hl. discriminate Hl. Qed.

Lemma cached_store_refines_witness :
  run_store (NewCachedStore NewPGStore (24 * 3600 * ns_per_s)) example_events (world_at 0 empty_db) =
    [AnsGet (Err ErrNotFound); AnsPut (Ok (example_record, true)); AnsPut (Ok (example_record, false));
     AnsGet (Ok example_record); AnsGet (Ok example_record)].
Proof.
  rewrite (cached_store_refines (24 * 3600 * ns_per_s) example_events (world_at 0 empty_db)).
  - vm_compute. reflexivity.
  - apply coherent_empty. constructor.
  - reflexivity.
  - unfold example_events. repeat (apply Forall_cons; split); try apply Forall_nil_2; cbn [ev_op]; intros r E;
      try discriminate E; injection E as <-; (split; [split; [eexists; reflexivity|simpl; lia]|vm_compute; reflexivity]).
Defined.
End example.
