(* ===== verification/Auth.v ===== *)
(** * Request authentication ([internal/auth])

    The HMAC middleware with its timestamp parser, and the Postgres key store. *)

From S2P Require Import Prelude GoStr Sha256 MockBank Models World Http GoJson Queries.
From Stdlib Require Import Ascii String.

Implicit Types (s raw : string).

(** ** time.Parse(time.RFC3339, ...)

    Go's general parser, which accepts a superset of RFC 3339: an hour of one
    digit, a comma before the fraction, offsets up to 24:60.  (The fast path of
    [time.Parse] accepts a subset with the same instants.) *)

Definition digit2 s : option (Z * string) :=
  match s with
  | String a (String b r) =>
    match digit_val a, digit_val b with Some x, Some y => Some (10 * x + y, r) | _, _ => None end
  | _ => None
  end.

(** [getnum(s, false)]: one digit is enough. *)
Definition digit12 s : option (Z * string) :=
  match digit2 s with
  | Some p => Some p
  | None => match s with String a r => match digit_val a with Some x => Some (x, r) | None => None end | _ => None end
  end.

Definition digit4 s : option (Z * string) :=
  match digit2 s with
  | Some (x, r) => match digit2 r with Some (y, r) => Some (100 * x + y, r) | None => None end
  | None => None
  end.

(** The separator [b]. *)
Definition sep (b : ascii) s : option string :=
  match s with String c r => if Ascii.eqb c b then Some r else None | _ => None end.

Definition leap (y : Z) : bool := (y mod 4 =? 0) && (negb (y mod 100 =? 0) || (y mod 400 =? 0)).

Definition daysIn (m y : Z) : Z :=
  if m =? 2 then (if leap y then 29 else 28)
  else if (m =? 4) || (m =? 6) || (m =? 9) || (m =? 11) then 30 else 31.

(** Days from 1970-01-01 to a date of the proleptic Gregorian calendar. *)
Definition days_from_civil (y m d : Z) : Z :=
  let y' := if m <=? 2 then y - 1 else y in
  let era := y' / 400 in
  let yoe := y' mod 400 in
  let doy := (153 * ((m + 9) mod 12) + 2) / 5 + d - 1 in
  era * 146097 + (yoe * 365 + yoe / 4 - yoe / 100 + doy) - 719468.

(** The digits of a fraction and the rest. *)
Fixpoint fraction (k : nat) (acc : Z) s : Z * string :=
  match s with
  | String c r =>
    match digit_val c with
    | Some d => match k with O => fraction O acc r | S k => fraction k (acc * 10 + d) r end
    | None => (acc * 10 ^ Z.of_nat k, s)
    end
  | EmptyString => (acc * 10 ^ Z.of_nat k, "")
  end.

(** A fraction in nanoseconds, if the text has one: the digits after the ninth are
    dropped. *)
Definition nanoseconds s : Z * string :=
  match s with
  | String c (String d _ as r) =>
    if (Ascii.eqb c "." || Ascii.eqb c ",") && bool_decide (is_Some (digit_val d)) then fraction 9 0 r else (0, s)
  | _ => (0, s)
  end.

(** [Z07:00]: the offset in seconds. *)
Definition zone s : option (Z * string) :=
  match s with
  | String c r =>
    if Ascii.eqb c "Z" then Some (0, r)
    else
      '(hr, r) ← digit2 r; r ← sep ":" r; '(mm, r) ← digit2 r;
      if (24 <? hr) || (60 <? mm) then None
      else
        let off := (hr * 60 + mm) * 60 in
        if Ascii.eqb c "+" then Some (off, r) else if Ascii.eqb c "-" then Some (- off, r) else None
  | _ => None
  end.

(** The instant in nanoseconds since the epoch. *)
Definition Parse_RFC3339 s : option Z :=
  '(y, s) ← digit4 s; s ← sep "-" s;
  '(mo, s) ← digit2 s; s ← sep "-" s;
  '(d, s) ← digit2 s; s ← sep "T" s;
  '(h, s) ← digit12 s; s ← sep ":" s;
  '(mi, s) ← digit2 s; s ← sep ":" s;
  '(sec, s) ← digit2 s;
  let '(ns, s) := nanoseconds s in
  '(off, s) ← zone s;
  if bool_decide (s = "") && (1 <=? mo) && (mo <=? 12) && (1 <=? d) && (d <=? daysIn mo y) &&
     (h <? 24) && (mi <? 60) && (sec <? 60)
  then Some ((days_from_civil y mo d * 86400 + h * 3600 + mi * 60 + sec - off) * ns_per_s + ns)
  else None.

Example parse_rfc3339_z : Parse_RFC3339 "2026-04-24T00:00:00Z" = Some (1776988800 * ns_per_s).
Proof. vm_compute. reflexivity. Qed.
Example parse_rfc3339_offset : Parse_RFC3339 "2026-04-24T7:00:00,5+07:00" = Some (1776988800 * ns_per_s + 500000000).
Proof. vm_compute. reflexivity. Qed.
Example parse_rfc3339_feb : Parse_RFC3339 "2023-02-29T00:00:00Z" = None.
Proof. vm_compute. reflexivity. Qed.

(** ** hmac.go *)

Definition HeaderKeyID : string := "X-Selatpay-Key-Id".
Definition HeaderTimestamp : string := "X-Selatpay-Timestamp".
Definition HeaderSignature : string := "X-Selatpay-Signature".
Definition MaxClockSkew : Z := 5 * 60 * ns_per_s.

Definition ErrMissingHeaders : err := ErrSentinel "auth: missing required HMAC headers".
Definition ErrBadTimestamp : err := ErrSentinel "auth: timestamp unparseable or outside allowed clock skew".
Definition ErrUnknownKey : err := ErrSentinel "auth: unknown or revoked key id".
Definition ErrBadSignature : err := ErrSentinel "auth: signature does not match request".
Definition ErrBodyRead : err := ErrSentinel "auth: failed to read request body".

(** The [KeyStore] interface: a key id gives the merchant and the signing secret. *)
Record KeyStore := mkKeyStore { Lookup : string -> M (uuid * string) }.

Definition parseTimestamp raw : res Z :=
  match Parse_RFC3339 raw with
  | Some t => Ok t
  | None =>
    match ParseInt 64 raw with
    | Ok secs => Ok (time_Unix secs)
    | Err _ => Err (ErrMsg "unparseable timestamp")
    end
  end.

Definition absDuration (d : Z) : Z := if d <? 0 then duration_neg d else d.

(** The signed text. *)
Definition canonical (method path timestamp body : string) : string :=
  timestamp +:+ newline +:+ method +:+ newline +:+ path +:+ newline +:+ hex (sha256 body).

Definition Sign (secret method path timestamp body : string) : string :=
  hmac_sha256 secret (canonical method path timestamp body).

Definition writeAuthError (status : Z) (code msg : string) : Response :=
  mkResponse status (Header_Set ∅ "Content-Type" "application/json")
    (Some ("{" +:+ Quote_q "code" +:+ ":" +:+ Quote_q code +:+ "," +:+ Quote_q "message" +:+ ":" +:+ Quote_q msg +:+ "}")).

(** The request the next handler gets. *)
Definition with_merchant (r : Request) (body : string) (m : uuid) (keyID : string) : Request :=
  mkRequest (Method r) (URL_Path r) (URL_RawPath r) (req_Headers r) (Ok body) (Some m) (Some keyID).

Definition Middleware (store : KeyStore) (next : http_Handler) : http_Handler := fun r =>
  let keyID := Header_Get (req_Headers r) HeaderKeyID in
  let tsStr := Header_Get (req_Headers r) HeaderTimestamp in
  let sigHex := Header_Get (req_Headers r) HeaderSignature in
  let bad_timestamp := mret (writeAuthError 401 "bad_timestamp" (Error ErrBadTimestamp)) in
  if bool_decide (keyID = "") || bool_decide (tsStr = "") || bool_decide (sigHex = "") then
    mret (writeAuthError 401 "missing_credentials" (Error ErrMissingHeaders))
  else match parseTimestamp tsStr with
  | Err _ => bad_timestamp
  | Ok ts =>
    now ← get_now;
    if MaxClockSkew <? absDuration (time_Sub now ts) then bad_timestamp
    else match Body r with
    | Err _ => mret (writeAuthError 400 "bad_body" (Error ErrBodyRead))
    | Ok body =>
      found ← try (Lookup store keyID);
      match found with
      | Err _ => mret (writeAuthError 401 "unknown_key" (Error ErrUnknownKey))
      | Ok (merchantID, secret) =>
        let expected := Sign secret (Method r) (URL_Path r) tsStr body in
        match hex_decode sigHex with
        | Ok provided =>
          if String.eqb expected provided then next (with_merchant r body merchantID keyID)
          else mret (writeAuthError 401 "bad_signature" (Error ErrBadSignature))
        | Err _ => mret (writeAuthError 401 "bad_signature" (Error ErrBadSignature))
        end
      end
    end
  end.

Definition MerchantFromContext (r : Request) : option uuid := ctx_Merchant r.
Definition KeyIDFromContext (r : Request) : option string := ctx_KeyID r.

(** ** pgstore.go *)

Section pgstore.
Context `{Env}.

Definition PGKeyStore_Lookup (keyID : string) : M (uuid * string) :=
  row ← map_err (fun e => if errors_is ErrNoRows e then ErrUnknownKey else ErrWrap "lookup api key" e)
    (GetActiveAPIKeyByKeyID keyID);
  mret (ak_merchant_id row.1, ak_secret_hash row.1).

Definition NewPGKeyStore : KeyStore := mkKeyStore PGKeyStore_Lookup.
End pgstore.

Definition DeriveSecret (pepper raw : string) : string := hmac_sha256 pepper raw.

(** [rand.Read] of 32 bytes, given by their source. *)
Definition GenerateRawSecret (rand : res string) : res (string * string) :=
  match rand with Err e => Err e | Ok raw => Ok (raw, hex raw) end.

(** ** Timestamps have no line breaks *)

Abbreviation nl := (ascii_of_N 10) (only parsing).

(** [r] is what is left of [s] after bytes other than a line break. *)
Definition consumed (s r : string) : Prop := exists pre, s = pre +:+ r /\ no_byte nl pre.

Lemma consumed_refl s : consumed s s.
Proof. by exists "". Qed.

Lemma consumed_cons c s r : c <> nl -> consumed s r -> consumed (String c s) r.
Proof.
  intros Hc (pre & -> & Hp). exists (String c pre). split; [done|]. unfold no_byte in *. cbn [has_byte]. rewrite Hp.
  by destruct (Ascii.eqb_spec c nl).
Qed.

Lemma no_byte_app b s (t : string) : no_byte b s -> no_byte b t -> no_byte b (s +:+ t).
Proof.
  unfold no_byte. induction s as [|c s IH]; intros Hs Ht; [done|]. change (String c s +:+ t) with (String c (s +:+ t)).
  cbn [has_byte] in *. apply orb_false_iff in Hs as [-> Hs]. by apply IH.
Qed.

Lemma consumed_trans s r q : consumed s r -> consumed r q -> consumed s q.
Proof.
  intros (p & -> & Hp) (p' & -> & Hp'). exists (p +:+ p'). split; [apply string_app_assoc|by apply no_byte_app].
Qed.

Lemma consumed_empty s : consumed s "" -> no_byte nl s.
Proof. intros (p & -> & Hp). by apply no_byte_app. Qed.

Lemma digit_not_nl c d : digit_val c = Some d -> c <> nl.
Proof. intros Hd ->. done. Qed.

Lemma digit2_consumed s x r : digit2 s = Some (x, r) -> consumed s r.
Proof.
  unfold digit2. destruct s as [|a [|b r']]; try done. destruct (digit_val a) eqn:Ha, (digit_val b) eqn:Hb; try done.
  intros [= _ ->]. eauto using consumed_cons, digit_not_nl, consumed_refl.
Qed.

Lemma digit12_consumed s x r : digit12 s = Some (x, r) -> consumed s r.
Proof.
  unfold digit12. destruct (digit2 s) as [[y r']|] eqn:E; [intros [= _ ->]; by eapply digit2_consumed|].
  destruct s as [|a s]; [done|]. destruct (digit_val a) eqn:Ha; [|done]. intros [= _ ->].
  eauto using consumed_cons, digit_not_nl, consumed_refl.
Qed.

Lemma digit4_consumed s x r : digit4 s = Some (x, r) -> consumed s r.
Proof.
  unfold digit4. destruct (digit2 s) as [[y r1]|] eqn:E; [|done]. destruct (digit2 r1) as [[z r2]|] eqn:E'; [|done].
  intros [= _ ->]. eauto using consumed_trans, digit2_consumed.
Qed.

Lemma sep_consumed b s r : b <> nl -> sep b s = Some r -> consumed s r.
Proof.
  intros Hb. unfold sep. destruct s as [|c s]; [done|]. destruct (Ascii.eqb_spec c b) as [->|]; [|done]. intros [= ->].
  by apply consumed_cons, consumed_refl.
Qed.

Lemma fraction_consumed s k acc : consumed s (fraction k acc s).2.
Proof.
  revert k acc. induction s as [|c s IH]; intros k acc; [apply consumed_refl|]. cbn [fraction].
  destruct (digit_val c) eqn:Hc; [|apply consumed_refl]. destruct k; (apply consumed_cons; [by eapply digit_not_nl|apply IH]).
Qed.

Lemma nanoseconds_consumed s : consumed s (nanoseconds s).2.
Proof.
  unfold nanoseconds. destruct s as [|c [|d s]]; try apply consumed_refl.
  destruct (_ && _) eqn:E; [|apply consumed_refl]. apply andb_true_iff in E as [E _]. apply consumed_cons; [|apply fraction_consumed].
  intros ->. done.
Qed.

Lemma zone_consumed s x r : zone s = Some (x, r) -> consumed s r.
Proof.
  unfold zone. destruct s as [|c s]; [done|]. destruct (Ascii.eqb_spec c "Z") as [->|_].
  - intros [= _ ->]. by apply consumed_cons, consumed_refl.
  - destruct (digit2 s) as [[hr s1]|] eqn:E1; [|done]. simpl. destruct (sep ":" s1) as [s2|] eqn:E2; [|done]. simpl.
    destruct (digit2 s2) as [[mm s3]|] eqn:E3; [|done]. simpl. destruct (_ || _); [done|].
    assert (Hs : consumed s s3) by (apply sep_consumed in E2; [|done]; eauto using consumed_trans, digit2_consumed).
    destruct (Ascii.eqb_spec c "+") as [->|_]; [intros [= _ ->]; by apply consumed_cons|].
    destruct (Ascii.eqb_spec c "-") as [->|_]; [intros [= _ ->]; by apply consumed_cons|done].
Qed.

Lemma Parse_RFC3339_consumed s t : Parse_RFC3339 s = Some t -> consumed s "".
Proof.
  unfold Parse_RFC3339. intros E.
  repeat match type of E with
  | (?p ≫= _) = Some _ => destruct p as [[? ?]|] eqn:? in E; [cbn [mbind option_bind] in E|done]
  | (?p ≫= _) = Some _ => destruct p eqn:? in E; [cbn [mbind option_bind] in E|done]
  | (let '(_, _) := nanoseconds ?s in _) = _ =>
    let H := fresh in pose proof (nanoseconds_consumed s) as H; destruct (nanoseconds s) as [? ?]; cbn [snd] in H
  end.
  destruct (bool_decide _) eqn:Hb; [|done]. apply bool_decide_eq_true in Hb. subst.
  repeat match goal with
  | H : digit2 ?s = Some (_, ?r) |- _ => apply digit2_consumed in H
  | H : digit4 ?s = Some (_, ?r) |- _ => apply digit4_consumed in H
  | H : digit12 ?s = Some (_, ?r) |- _ => apply digit12_consumed in H
  | H : zone ?s = Some (_, ?r) |- _ => apply zone_consumed in H
  | H : sep _ ?s = Some ?r |- _ => apply sep_consumed in H; [|done]
  end.
  repeat (eapply consumed_trans; [eassumption|]). apply consumed_refl.
Qed.

Lemma parse_digits_all max acc s v : parse_digits max acc s = Ok v -> all_digits s = true.
Proof.
  revert acc. induction s as [|c s IH]; intros acc E; [done|]. cbn [parse_digits all_digits] in *.
  destruct (digit_val c) as [d|]; [|done]. case_match; [done|]. rewrite bool_decide_true by done. by eapply IH.
Qed.

Lemma ParseInt_no_nl raw z : ParseInt 64 raw = Ok z -> no_byte nl raw.
Proof.
  assert (Hu : forall u n, ParseUint u = Ok n -> no_byte nl u).
  { intros u n. unfold ParseUint. destruct u as [|c u]; [done|]. intros E%parse_digits_all. by apply no_byte_digits. }
  unfold ParseInt. destruct raw as [|c u]; [done|].
  assert (Hcons : forall c u, c <> nl -> no_byte nl u -> no_byte nl (String c u)).
  { intros c' u' Hc Hu'. unfold no_byte in *. cbn [has_byte]. rewrite Hu'. by destruct (Ascii.eqb_spec c' nl). }
  intros E. destruct c as [[] [] [] [] [] [] [] []];
    match type of E with context [ParseUint ?u] => destruct (ParseUint u) eqn:Hp; [|done] end;
    apply Hu in Hp; try exact Hp; by apply Hcons.
Qed.

Lemma parseTimestamp_no_nl raw t : parseTimestamp raw = Ok t -> no_byte nl raw.
Proof.
  unfold parseTimestamp. destruct (Parse_RFC3339 raw) eqn:E.
  - intros _. by eapply consumed_empty, Parse_RFC3339_consumed.
  - destruct (ParseInt 64 raw) eqn:E'; [|done]. intros _. by eapply ParseInt_no_nl.
Qed.

(** ** The gate *)

(** The text names the instant [ts]: in RFC 3339, or else as Unix seconds. *)
Definition denotes raw (ts : Z) : Prop :=
  Parse_RFC3339 raw = Some ts \/
  (Parse_RFC3339 raw = None /\ exists secs, ParseInt 64 raw = Ok secs /\ ts = time_Unix secs).

(** Five minutes in nanoseconds either way; a timestamp 2^63 nanoseconds (292 years)
    or more ahead is let through as well. *)
Definition clocks_agree (now ts : Z) : Prop := Z.abs (now - ts) <= 300 * 1000000000 \/ now - ts <= - 2 ^ 63.

(** The request carries a key id, a timestamp that agrees with the clock [now], and
    the hex HMAC-SHA256, under [secret], of four lines: its timestamp, method, path
    and the hex SHA-256 of its body. *)
Definition signed_with (secret : string) (now : Z) (r : Request) (body : string) : Prop :=
  let header := Header_Get (req_Headers r) in
  Body r = Ok body /\ header "X-Selatpay-Key-Id" <> "" /\
  (exists ts, denotes (header "X-Selatpay-Timestamp") ts /\ clocks_agree now ts) /\
  hex_decode (header "X-Selatpay-Signature") =
    Ok (hmac_sha256 secret (header "X-Selatpay-Timestamp" +:+ newline +:+ Method r +:+ newline +:+ URL_Path r
                            +:+ newline +:+ hex (sha256 body))).

(** The same by the code's own functions. *)
Definition checked (secret : string) (now : Z) (r : Request) (body : string) : Prop :=
  Body r = Ok body /\ Header_Get (req_Headers r) HeaderKeyID <> "" /\
  exists ts, parseTimestamp (Header_Get (req_Headers r) HeaderTimestamp) = Ok ts /\
    absDuration (time_Sub now ts) <= MaxClockSkew /\
    hex_decode (Header_Get (req_Headers r) HeaderSignature) =
      Ok (Sign secret (Method r) (URL_Path r) (Header_Get (req_Headers r) HeaderTimestamp) body).

Lemma parseTimestamp_denotes raw ts : parseTimestamp raw = Ok ts <-> denotes raw ts.
Proof.
  unfold parseTimestamp, denotes. destruct (Parse_RFC3339 raw); [naive_solver|].
  destruct (ParseInt 64 raw); naive_solver.
Qed.

Lemma skew_agrees now ts : absDuration (time_Sub now ts) <= MaxClockSkew <-> clocks_agree now ts.
Proof.
  unfold absDuration, time_Sub, duration_neg, clocks_agree, MaxClockSkew, ns_per_s.
  destruct (is_int64 (now - ts)) eqn:E.
  - apply is_int64_spec in E. unfold int64_min, int64_max in E. destruct (Z.ltb_spec (now - ts) 0); [|lia].
    destruct (decide (now - ts = - 2 ^ 63)) as [->|]; [vm_compute; naive_solver|].
    rewrite wrap64_id; [lia|]. apply is_int64_spec. unfold int64_min, int64_max. lia.
  - apply not_true_iff_false in E. rewrite is_int64_spec in E. unfold int64_min, int64_max in *.
    destruct (Z.ltb_spec now ts) as [Hlt|Hge].
    + assert (now - ts <= - 2 ^ 63) by lia. split; [lia|]. intros _. vm_compute. discriminate.
    + split; [|lia]. intros Hle. exfalso. revert Hle. by vm_compute.
Qed.

Lemma signed_checked secret now r body : signed_with secret now r body <-> checked secret now r body.
Proof.
  unfold signed_with, checked. cbv zeta. unfold Sign, canonical, HeaderKeyID, HeaderTimestamp, HeaderSignature.
  setoid_rewrite parseTimestamp_denotes. setoid_rewrite skew_agrees. naive_solver.
Qed.

Lemma parseTimestamp_nonempty raw t : parseTimestamp raw = Ok t -> raw <> "".
Proof. intros E ->. done. Qed.

Lemma signature_nonempty sigHex secret method path ts body :
  hex_decode sigHex = Ok (Sign secret method path ts body) -> sigHex <> "".
Proof. intros E ->. injection E as E. symmetry in E. by apply hmac_nonempty in E. Qed.

Section gate.
Context (store : KeyStore).

(** The key store's answer about the key a request names. *)
Definition lookup_key (r : Request) : M (uuid * string) := Lookup store (Header_Get (req_Headers r) HeaderKeyID).

Lemma middleware_accepts next r w m secret body :
  (lookup_key r w).1 = Ok (m, secret) -> signed_with secret (w_now w) r body ->
  Middleware store next r w =
    next (with_merchant r body m (Header_Get (req_Headers r) HeaderKeyID)) (lookup_key r w).2.
Proof.
  intros Hl (Hb & Hk & ts & Hts & Hskew & Hsig)%signed_checked. unfold Middleware.
  rewrite !bool_decide_false by eauto using parseTimestamp_nonempty, signature_nonempty. cbn [orb].
  rewrite Hts. erewrite bind_run by reflexivity. rewrite (proj2 (Z.ltb_ge _ _)) by done. rewrite Hb.
  unfold mbind, M_bind, try. unfold lookup_key in *. destruct (Lookup store _ w) as [res w1]. simpl in *. subst res.
  rewrite Hsig, String.eqb_refl. done.
Qed.

Lemma middleware_refuses r w :
  ~ (exists m secret body, (lookup_key r w).1 = Ok (m, secret) /\ signed_with secret (w_now w) r body) ->
  exists resp w', (w' = w \/ w' = (lookup_key r w).2) /\ resp_Status resp ∈ [400; 401] /\
    forall next, Middleware store next r w = (Ok resp, w').
Proof.
  assert (H400 : (400 : Z) ∈ [400; 401]) by apply list_elem_of_here.
  assert (H401 : (401 : Z) ∈ [400; 401]) by apply list_elem_of_further, list_elem_of_here.
  intros Hno. unfold Middleware. set (keyID := Header_Get (req_Headers r) HeaderKeyID) in *.
  set (tsStr := Header_Get (req_Headers r) HeaderTimestamp) in *. set (sigHex := Header_Get (req_Headers r) HeaderSignature) in *.
  destruct (bool_decide (keyID = "") || bool_decide (tsStr = "") || bool_decide (sigHex = "")) eqn:Hmiss;
    [eexists _, w; split_and!; [by left| |reflexivity]; done|].
  destruct (parseTimestamp tsStr) as [ts|] eqn:Hts; [|eexists _, w; split_and!; [by left| |reflexivity]; done].
  unfold mbind at 1, M_bind at 1, get_now. cbv iota beta.
  destruct (MaxClockSkew <? absDuration (time_Sub (w_now w) ts)) eqn:Hskew;
    [eexists _, w; split_and!; [by left| |reflexivity]; done|].
  destruct (Body r) as [body|] eqn:Hb; [|eexists _, w; split_and!; [by left| |reflexivity]; done].
  unfold mbind, M_bind, try. fold (lookup_key r). unfold lookup_key in *. fold keyID in Hno |- *.
  destruct (Lookup store keyID w) as [[[m secret]|e] w1];
    [|eexists _, w1; split_and!; [by right| |reflexivity]; done]. simpl in *.
  destruct (hex_decode sigHex) as [provided|] eqn:Hsig; [|eexists _, w1; split_and!; [by right| |reflexivity]; done].
  destruct (String.eqb_spec (Sign secret (Method r) (URL_Path r) tsStr body) provided) as [E|];
    [|eexists _, w1; split_and!; [by right| |reflexivity]; done].
  exfalso. apply Hno. exists m, secret, body. split; [done|]. apply signed_checked. split; [done|]. split.
  - apply orb_false_iff in Hmiss as [[Hk _]%orb_false_iff _]. by apply bool_decide_eq_false in Hk.
  - exists ts. split; [done|]. split; [by apply Z.ltb_ge|]. subst. exact Hsig.
Qed.

Lemma signed_dec secret now r body :
  Body r = Ok body -> signed_with secret now r body \/ ~ signed_with secret now r body.
Proof.
  intros Hb. rewrite signed_checked. unfold checked.
  destruct (decide (Header_Get (req_Headers r) HeaderKeyID = "")) as [E|Hk]; [right; by intros (_ & ? & _)|].
  destruct (parseTimestamp _) as [ts|] eqn:Hts; [|right; intros (_ & _ & ? & ? & _); congruence].
  destruct (decide (absDuration (time_Sub now ts) <= MaxClockSkew)) as [Hskew|Hskew];
    [|right; intros (_ & _ & ts' & [= <-] & ? & _); by apply Hskew].
  destruct (hex_decode _) as [p|] eqn:Hsig; [|right; by intros (_ & _ & ? & _ & _ & ?)].
  destruct (decide (p = Sign secret (Method r) (URL_Path r) (Header_Get (req_Headers r) HeaderTimestamp) body)) as [->|Hne].
  - left. eauto 10.
  - right. intros (_ & _ & ? & _ & _ & [= ?]). done.
Qed.

(** C10: Only authentic requests get through, and all of them do: the middleware
    runs the next handler, with the key's merchant on the context and the body it
    checked, exactly when the key store knows the key and the request carries the
    HMAC-SHA256 of its timestamp, method, path and body hash under the key's secret,
    with a timestamp at most five minutes from the clock or at least 2^63 nanoseconds
    ahead of it (the subtraction saturates there); otherwise it answers 400 or 401
    and the next handler has no say in the response or the state. *)
Theorem auth_gate r w :
  (exists m secret body, (lookup_key r w).1 = Ok (m, secret) /\ signed_with secret (w_now w) r body /\
     forall next, Middleware store next r w =
       next (with_merchant r body m (Header_Get (req_Headers r) HeaderKeyID)) (lookup_key r w).2) \/
  (~ (exists m secret body, (lookup_key r w).1 = Ok (m, secret) /\ signed_with secret (w_now w) r body) /\
   exists resp w', (w' = w \/ w' = (lookup_key r w).2) /\ resp_Status resp ∈ [400; 401] /\
     forall next, Middleware store next r w = (Ok resp, w')).
Proof.
  assert (Hdec : (exists m secret body, (lookup_key r w).1 = Ok (m, secret) /\ signed_with secret (w_now w) r body) \/
    ~ (exists m secret body, (lookup_key r w).1 = Ok (m, secret) /\ signed_with secret (w_now w) r body)).
  { destruct ((lookup_key r w).1) as [[m secret]|e]; [|right; intros (m & s & b & E & _); done].
    destruct (Body r) as [body|] eqn:Hb; [|right; intros (? & ? & ? & _ & E & _); congruence].
    destruct (signed_dec secret (w_now w) r body Hb) as [Hs|Hs]; [left; eauto|right].
    intros (? & ? & body' & [= <- <-] & Hs'). assert (body' = body) as -> by (destruct Hs' as [E _]; congruence). done. }
  destruct Hdec as [(m & secret & body & Hl & Hs)|Hno].
  - left. exists m, secret, body. split_and!; [done|done|]. intros next. by apply (middleware_accepts next r w m secret body).
  - right. split; [done|]. by apply middleware_refuses.
Qed.
End gate.

(** ** Keys in Postgres *)

(** The row [GetActiveAPIKeyByKeyID] reads: not revoked, of an existing merchant, under
    a key id that is text. *)
Definition active_key (d : DB) (keyID : string) : option ApiKey :=
  if negb (text_ok keyID) then None else
  match find_row (fun k => String.eqb (ak_key_id k) keyID && bool_decide (ak_revoked_at k = None)) (api_keys d) with
  | Some k => match find_row (by_id m_id (ak_merchant_id k)) (merchants d) with Some _ => Some k | None => None end
  | None => None
  end.

Section pg_gate.
Context `{Env}.

Lemma pg_lookup_run keyID w :
  w_faults w = [] ->
  PGKeyStore_Lookup keyID w =
    (match active_key (w_db w) keyID with
     | Some k => Ok (ak_merchant_id k, ak_secret_hash k)
     | None => Err (if text_ok keyID then ErrUnknownKey else ErrWrap "lookup api key" (ErrPg "22021"))
     end, w).
Proof.
  intros Hf. unfold PGKeyStore_Lookup, GetActiveAPIKeyByKeyID, active_key, mbind, M_bind, map_err. rewrite select_run by done.
  destruct (text_ok keyID); [|done]. cbn [negb].
  destruct (find_row _ (api_keys (w_db w))) as [k|]; [|done]. by destruct (find_row _ (merchants (w_db w))).
Qed.

(** The headers of a client that signs with [secret] at Unix second [secs]. *)
Definition client_headers (keyID secret method path : string) (secs : Z) (body : string) : Header :=
  <[HeaderSignature := [hex (Sign secret method path (FormatInt secs) body)]]>
    (<[HeaderTimestamp := [FormatInt secs]]> (<[HeaderKeyID := [keyID]]> ∅)).

Definition client_request (keyID secret method path : string) (secs : Z) (body : string) : Request :=
  mkRequest method path "" (client_headers keyID secret method path secs body) (Ok body) None None.

Lemma client_header_values keyID secret method path secs body :
  let h := client_headers keyID secret method path secs body in
  Header_Get h HeaderKeyID = keyID /\ Header_Get h HeaderTimestamp = FormatInt secs /\
  Header_Get h HeaderSignature = hex (Sign secret method path (FormatInt secs) body).
Proof.
  cbv zeta. unfold Header_Get, client_headers.
  change (CanonicalHeaderKey HeaderKeyID) with HeaderKeyID. change (CanonicalHeaderKey HeaderTimestamp) with HeaderTimestamp.
  change (CanonicalHeaderKey HeaderSignature) with HeaderSignature. by simplify_map_eq.
Qed.

(** A decimal number is not an RFC 3339 text. *)
Lemma FormatInt_not_RFC3339 z : Parse_RFC3339 (FormatInt z) = None.
Proof.
  assert (Hsep : forall s, all_digits s = true -> sep "-" s = None).
  { intros [|c s] Hs; [done|]. cbn [all_digits sep] in *. destruct (Ascii.eqb_spec c "-") as [->|]; done. }
  assert (H2 : forall s x r, all_digits s = true -> digit2 s = Some (x, r) -> all_digits r = true).
  { intros [|a [|b s]] x r Hs; try done. cbn [all_digits digit2] in *. destruct (digit_val a), (digit_val b); try done.
    intros [= _ <-]. by apply andb_true_iff in Hs as [_ [_ Hs]%andb_true_iff]. }
  unfold FormatInt. destruct (Z.ltb_spec z 0).
  - unfold Parse_RFC3339, digit4. change ("-" +:+ FormatUint (- z)) with (String "-" (FormatUint (- z))).
    assert (digit2 (String "-" (FormatUint (- z))) = None) as -> by (by destruct (FormatUint (- z))). done.
  - pose proof (all_digits_FormatUint z ltac:(lia)) as Hd. unfold Parse_RFC3339, digit4.
    destruct (digit2 (FormatUint z)) as [[x r]|] eqn:E; [|done]. destruct (digit2 r) as [[y r']|] eqn:E'; [|done].
    cbn [mbind option_bind]. by rewrite (Hsep r') by eauto.
Qed.

Lemma parseTimestamp_FormatInt secs : is_int64 secs = true -> parseTimestamp (FormatInt secs) = Ok (time_Unix secs).
Proof. intros Hs. unfold parseTimestamp. by rewrite FormatInt_not_RFC3339, ParseInt_FormatInt. Qed.

(** The skew the server computes for a client's second. *)
Definition client_skew (now secs : Z) : Z := absDuration (time_Sub now (time_Unix secs)).

Lemma client_accepted next k keyID method path secs body w :
  w_faults w = [] -> active_key (w_db w) keyID = Some k -> keyID <> "" -> is_int64 secs = true ->
  client_skew (w_now w) secs <= MaxClockSkew ->
  let r := client_request keyID (ak_secret_hash k) method path secs body in
  Middleware NewPGKeyStore next r w = next (with_merchant r body (ak_merchant_id k) keyID) w.
Proof.
  intros Hf Hk Hid Hs Hskew r. destruct (client_header_values keyID (ak_secret_hash k) method path secs body) as (E1 & E2 & E3).
  assert (Hl : lookup_key NewPGKeyStore r w = (Ok (ak_merchant_id k, ak_secret_hash k), w)).
  { unfold lookup_key. cbn [r client_request req_Headers]. rewrite E1. cbn [Lookup NewPGKeyStore]. by rewrite pg_lookup_run, Hk. }
  rewrite (middleware_accepts NewPGKeyStore next r w (ak_merchant_id k) (ak_secret_hash k) body).
  - rewrite Hl. cbn [r client_request req_Headers snd]. by rewrite E1.
  - by rewrite Hl.
  - apply signed_checked. unfold checked. cbn [r client_request req_Headers Body Method URL_Path]. rewrite E1, E2, E3. split_and!; [done|done|].
    exists (time_Unix secs). rewrite parseTimestamp_FormatInt by done. split_and!; [done|done|apply hex_decode_hex].
Qed.

Lemma client_refused next keyID secret method path secs body w :
  keyID <> "" -> is_int64 secs = true -> MaxClockSkew < client_skew (w_now w) secs ->
  Middleware NewPGKeyStore next (client_request keyID secret method path secs body) w =
    (Ok (writeAuthError 401 "bad_timestamp" (Error ErrBadTimestamp)), w).
Proof.
  intros Hid Hs Hskew. destruct (client_header_values keyID secret method path secs body) as (E1 & E2 & E3).
  unfold Middleware. cbn [client_request req_Headers]. rewrite E1, E2, E3.
  rewrite !bool_decide_false; [|intros E; by apply hex_empty, hmac_nonempty in E| |done].
  - cbn [orb]. rewrite parseTimestamp_FormatInt by done. erewrite bind_run by reflexivity.
    unfold client_skew in Hskew. by rewrite (proj2 (Z.ltb_lt _ _)).
  - apply (parseTimestamp_nonempty _ (time_Unix secs)). by apply parseTimestamp_FormatInt.
Qed.

(** Within 292 years of the clock the skew is the distance. *)
Lemma client_skew_exact now secs :
  int64_min <= secs <= int64_max - 62135596800 -> int64_min < now - secs * ns_per_s <= int64_max ->
  client_skew now secs = Z.abs (now - secs * ns_per_s).
Proof.
  intros Hs Hd. unfold client_skew, absDuration. assert (Hu : time_Unix secs = secs * ns_per_s).
  { unfold time_Unix. rewrite wrap64_id; [f_equal; lia|]. apply is_int64_spec. unfold int64_min, int64_max in *. lia. }
  rewrite Hu. unfold time_Sub. set (d := now - secs * ns_per_s) in *.
  rewrite (proj2 (is_int64_spec d)) by lia. destruct (Z.ltb_spec d 0); [|lia].
  unfold duration_neg. rewrite wrap64_id; [lia|]. apply is_int64_spec. unfold int64_min, int64_max in *. lia.
Qed.

(** A client that signs with the secret stored for its active key gets through
    exactly while its clock is within five minutes of the server's: then its
    request reaches the handler as the key's merchant with the body it sent, and
    otherwise it is answered 401 [bad_timestamp] (clocks less than 292 years
    apart).  The stored value is all the client needs: the pepper plays no part. *)
Theorem client_request_authenticated next k keyID method path secs body w :
  w_faults w = [] -> active_key (w_db w) keyID = Some k -> keyID <> "" ->
  int64_min <= secs <= int64_max - 62135596800 -> int64_min < w_now w - secs * ns_per_s <= int64_max ->
  let r := client_request keyID (ak_secret_hash k) method path secs body in
  Middleware NewPGKeyStore next r w =
    if MaxClockSkew <? Z.abs (w_now w - secs * ns_per_s)
    then (Ok (writeAuthError 401 "bad_timestamp" (Error ErrBadTimestamp)), w)
    else next (with_merchant r body (ak_merchant_id k) keyID) w.
Proof.
  intros Hf Hk Hid Hs Hd r. assert (Hi : is_int64 secs = true) by (apply is_int64_spec; unfold int64_max in *; lia).
  pose proof (client_skew_exact _ _ Hs Hd) as Hskew.
  destruct (Z.ltb_spec MaxClockSkew (Z.abs (w_now w - secs * ns_per_s))).
  - apply client_refused; [done|done|lia].
  - apply client_accepted; [done|done|done|done|lia].
Qed.

(** A timestamp more than 292 years ahead defeats the clock check: the
    difference saturates at the smallest duration, whose negation is itself, so
    the request is accepted whatever the skew limit. *)
Theorem far_future_accepted next k keyID method path secs body w :
  w_faults w = [] -> active_key (w_db w) keyID = Some k -> keyID <> "" ->
  int64_min <= secs <= int64_max - 62135596800 -> w_now w - secs * ns_per_s <= int64_min ->
  let r := client_request keyID (ak_secret_hash k) method path secs body in
  Middleware NewPGKeyStore next r w = next (with_merchant r body (ak_merchant_id k) keyID) w.
Proof.
  intros Hf Hk Hid Hs Hd r. assert (Hi : is_int64 secs = true) by (apply is_int64_spec; unfold int64_max in *; lia).
  apply client_accepted; [done|done|done|done|]. unfold client_skew.
  assert (Hu : time_Unix secs = secs * ns_per_s).
  { unfold time_Unix. rewrite wrap64_id; [f_equal; lia|]. apply is_int64_spec. unfold int64_min, int64_max in *. lia. }
  rewrite Hu. assert (Hsub : time_Sub (w_now w) (secs * ns_per_s) = int64_min).
  { unfold time_Sub. destruct (is_int64 (w_now w - secs * ns_per_s)) eqn:E; [apply is_int64_spec in E; lia|].
    rewrite (proj2 (Z.ltb_lt _ _)) by (unfold int64_min in *; lia). done. }
  rewrite Hsub. vm_compute. discriminate.
Qed.
End pg_gate.

(** ** What a signature binds *)

Lemma signed_request_inj method path ts body method' path' ts' body' :
  no_byte nl ts -> no_byte nl ts' -> no_byte nl method -> no_byte nl method' ->
  canonical method path ts body = canonical method' path' ts' body' ->
  ts = ts' /\ method = method' /\ path = path' /\ sha256 body = sha256 body'.
Proof.
  intros H1 H2 H3 H4 E. unfold canonical in E.
  repeat match type of E with context [newline +:+ ?x] => change (newline +:+ x) with (String nl x) in E end.
  pose proof (cut_byte_sep nl ts (method +:+ String nl (path +:+ String nl (hex (sha256 body)))) H1) as C.
  rewrite E, cut_byte_sep in C by done. apply (inj Some), pair_equal_spec in C as [-> E1].
  pose proof (cut_byte_sep nl method (path +:+ String nl (hex (sha256 body))) H3) as C.
  rewrite <- E1, cut_byte_sep in C by done. apply (inj Some), pair_equal_spec in C as [-> E2].
  apply split_last_byte in E2 as [-> E3]; [|by apply hex_no_byte..]. split_and!; try done.
  pose proof (hex_decode_hex (sha256 body)) as D. rewrite <- E3, hex_decode_hex in D. by injection D.
Qed.

(** C31: A signature binds the request: two requests accepted under one secret with
    the same signature header have the same timestamp, method, path and body, or
    they exhibit a SHA-256 collision of bodies or two signed texts with the same
    HMAC.  (A method is a token, so it has no line break; the timestamp has none
    because it parses; a line break in the path is harmless.) *)
Theorem request_signature_binds secret r r' body body' now now' :
  signed_with secret now r body -> signed_with secret now' r' body' ->
  no_byte nl (Method r) -> no_byte nl (Method r') ->
  Header_Get (req_Headers r) HeaderSignature = Header_Get (req_Headers r') HeaderSignature ->
  (Header_Get (req_Headers r) HeaderTimestamp = Header_Get (req_Headers r') HeaderTimestamp /\
   Method r = Method r' /\ URL_Path r = URL_Path r' /\ body = body') \/
  (body <> body' /\ sha256 body = sha256 body') \/
  (let text r body := canonical (Method r) (URL_Path r) (Header_Get (req_Headers r) HeaderTimestamp) body in
   text r body <> text r' body' /\ hmac_sha256 secret (text r body) = hmac_sha256 secret (text r' body')).
Proof.
  intros (_ & _ & ts & Hts & _ & Hsig)%signed_checked (_ & _ & ts' & Hts' & _ & Hsig')%signed_checked Hm Hm' E. rewrite E, Hsig' in Hsig. injection Hsig as Hmac.
  apply parseTimestamp_no_nl in Hts, Hts'. unfold Sign in Hmac. cbv zeta.
  set (text r body := canonical (Method r) (URL_Path r) (Header_Get (req_Headers r) HeaderTimestamp) body).
  destruct (decide (text r body = text r' body')) as [Et|Hne]; [|by right; right].
  apply signed_request_inj in Et as (? & ? & ? & Hb); [|done..]. destruct (decide (body = body')); [by left|right; by left].
Qed.

(** ** Witnesses *)

Section witnesses.
#[local] Existing Instance example_env.

Definition example_key : ApiKey := mkApiKey 1%N 50%N "demo-key-001" (DeriveSecret "pepper" "raw secret") 0 None.
Definition example_merchant : Merchant := mkMerchant 50%N "Demo Merchant" 0 None None None None None.
Definition auth_db : DB := set_api_keys (set_merchants empty_db [example_merchant]) [example_key].
Definition auth_world : World := world_at (1700000000 * ns_per_s) auth_db.
Definition example_client (secs : Z) : Request :=
  client_request "demo-key-001" (ak_secret_hash example_key) "GET" "/v1/payment_intents/7" secs "".
(** Answers with the merchant it sees. *)
Definition whoami : http_Handler := fun r => mret (mkResponse 200 ∅ (uuid_string <$> ctx_Merchant r)).

Lemma client_request_authenticated_witness :
  Middleware NewPGKeyStore whoami (example_client 1700000120) auth_world = (Ok (mkResponse 200 ∅ (Some "50")), auth_world) /\
  Middleware NewPGKeyStore whoami (example_client 1700000301) auth_world =
    (Ok (writeAuthError 401 "bad_timestamp" (Error ErrBadTimestamp)), auth_world).
Proof.
  split.
  - etransitivity; [apply (client_request_authenticated whoami example_key "demo-key-001" "GET" "/v1/payment_intents/7" 1700000120 "" auth_world)|].
    1-3: vm_compute; (reflexivity || discriminate).
    + split; vm_compute; discriminate.
    + split; vm_compute; [reflexivity|discriminate].
    + reflexivity.
  - etransitivity; [apply (client_request_authenticated whoami example_key "demo-key-001" "GET" "/v1/payment_intents/7" 1700000301 "" auth_world)|].
    1-3: vm_compute; (reflexivity || discriminate).
    + split; vm_compute; discriminate.
    + split; vm_compute; [reflexivity|discriminate].
    + reflexivity.
Defined.

Lemma far_future_accepted_witness :
  Middleware NewPGKeyStore whoami (example_client 253402300799) auth_world = (Ok (mkResponse 200 ∅ (Some "50")), auth_world).
Proof.
  etransitivity; [apply (far_future_accepted whoami example_key "demo-key-001" "GET" "/v1/payment_intents/7" 253402300799 "" auth_world)|].
  1-3: vm_compute; (reflexivity || discriminate).
  - split; vm_compute; discriminate.
  - vm_compute. discriminate.
  - reflexivity.
Defined.

Lemma example_signed : signed_with (ak_secret_hash example_key) (1700000000 * ns_per_s) (example_client 1700000000) "".
Proof.
  apply signed_checked. split; [reflexivity|]. split; [discriminate|]. exists (1700000000 * ns_per_s). split_and!; vm_compute; (reflexivity || discriminate).
Qed.

Lemma request_signature_binds_witness :
  URL_Path (example_client 1700000000) = "/v1/payment_intents/7".
Proof.
  destruct (request_signature_binds (ak_secret_hash example_key) (example_client 1700000000) (example_client 1700000000) "" ""
    (1700000000 * ns_per_s) (1700000000 * ns_per_s) example_signed example_signed eq_refl eq_refl eq_refl)
    as [(_ & _ & Hp & _)|[[Hb _]|[Hb _]]]; [exact Hp|exfalso; apply Hb; reflexivity|exfalso; apply Hb; reflexivity].
Defined.
End witnesses.
