(* ===== verification/Api.v ===== *)
(** * The HTTP API ([internal/api], [internal/api/apispec])

    The handlers, the JSON they read and write, the generated parameter wrappers
    and routes, and the router that puts authentication and idempotency in front
    of them.  A handler that returns an error has panicked; the router's
    [Recoverer] turns that into a 500. *)

From S2P Require Import Prelude GoStr Sha256 MockBank Models World Http GoJson JsonDecode Queries Quoter AesGcm GoUrl Mux SolanaPay SplParser PayUrl Reference Idempotency IdemCache Auth.
From Stdlib Require Import Ascii String.

(** ** apispec.gen.go: the types of the API *)

Record CreatePaymentIntentRequest := mkCreateRequest {
  AmountIdr : Z; Description : option string; ExternalRef : string
}.

Record apispec_Quote := mkApiQuote {
  aq_ExpiresAt : Z; aq_Id : uuid; aq_Pair : string; aq_Rate : string; aq_SpreadBps : Z
}.

Record apispec_PaymentIntent := mkApiIntent {
  ai_AmountIdr : Z; ai_CreatedAt : Z; ai_ExternalRef : string; ai_Id : uuid; ai_MerchantId : uuid;
  ai_Quote : apispec_Quote; ai_QuotedAmountUsdc : Z; ai_RecipientAta : option string;
  ai_ReferencePubkey : option string; ai_SolanaPayUrl : option string; ai_State : string
}.

(** [PaymentIntentState.Valid]. *)
Definition PaymentIntentState_Valid (e : string) : bool :=
  String.eqb e "completed" || String.eqb e "expired" || String.eqb e "failed" || String.eqb e "funded" ||
  String.eqb e "paid_out" || String.eqb e "pending" || String.eqb e "settling".

(** [json.NewDecoder(r.Body).Decode(&body)] into a zero request; [None]: an error. *)
Definition decode_create_request (text : string) : option CreatePaymentIntentRequest :=
  match first_value text with
  | Some VNull => Some (mkCreateRequest 0 None "")
  | Some (VObj fs) =>
    match set_all set_int 0 (field_values "amount_idr" fs), set_all set_string_ptr None (field_values "description" fs),
          set_all set_string "" (field_values "external_ref" fs) with
    | Some a, Some d, Some e => Some (mkCreateRequest a d e)
    | _, _, _ => None
    end
  | _ => None
  end.

(** An [omitempty] pointer field. *)
Definition omit_nil (k : string) (v : option string) : list (string * json) :=
  match v with Some s => [(k, JStr s)] | None => [] end.

Section api.
(** Outside the repository: the text of an instant in the server's time zone; the
    text of the JSON decoder's error; the generated code's binding of a path
    parameter to a UUID and of a header to a string; the answer of net/http's mux
    to a request that matches no pattern. *)
Context `{Env} `{Solana} `{Keys}
  (time_text : Z -> string) (decode_error : string -> string)
  (bind_uuid : string -> res uuid) (bind_string : string -> res string) (not_routed : Request -> Response).

Definition quote_json (q : apispec_Quote) : json :=
  JObj [("expires_at", JStr (time_text (aq_ExpiresAt q))); ("id", JStr (uuid_string (aq_Id q)));
        ("pair", JStr (aq_Pair q)); ("rate", JStr (aq_Rate q)); ("spread_bps", JNum (aq_SpreadBps q))].

Definition intent_json (p : apispec_PaymentIntent) : json :=
  JObj ([("amount_idr", JNum (ai_AmountIdr p)); ("created_at", JStr (time_text (ai_CreatedAt p)));
         ("external_ref", JStr (ai_ExternalRef p)); ("id", JStr (uuid_string (ai_Id p)));
         ("merchant_id", JStr (uuid_string (ai_MerchantId p))); ("quote", quote_json (ai_Quote p));
         ("quoted_amount_usdc", JNum (ai_QuotedAmountUsdc p))]
        ++ omit_nil "recipient_ata" (ai_RecipientAta p) ++ omit_nil "reference_pubkey" (ai_ReferencePubkey p)
        ++ omit_nil "solana_pay_url" (ai_SolanaPayUrl p) ++ [("state", JStr (ai_State p))]).

(** ** errors.go *)

(** [json.NewEncoder(w).Encode] ends the text with a newline. *)
Definition writeJSON (status : Z) (v : json) : Response :=
  mkResponse status (Header_Set ∅ "Content-Type" "application/json") (Some (Marshal v +:+ newline)).

Definition writeError (status : Z) (code msg : string) : Response :=
  writeJSON status (JObj [("code", JStr code); ("message", JStr msg)]).

(** ** handlers.go *)

Record Handlers := mkHandlers {
  h_Quoter : Quoter; h_Allocator : Allocator;
  HotWalletPubkey : PublicKey; USDCMint : PublicKey; h_USDCDecimals : Z;
  SolanaPayLabel : string; SolanaPayMessage : string
}.

Definition Healthz : http_Handler := fun _ =>
  mret (mkResponse 200 (Header_Set ∅ "Content-Type" "text/plain") (Some "ok")).

Definition validateCreateRequest (r : CreatePaymentIntentRequest) : res unit :=
  if is_blank (ExternalRef r) then Err (ErrMsg "external_ref is required")
  else if (128 <? String.length (ExternalRef r))%nat then Err (ErrMsg "external_ref exceeds 128 characters")
  else if AmountIdr r <=? 0 then Err (ErrMsg "amount_idr must be positive")
  else Ok tt.

Definition formatRate (num scale : Z) : string :=
  if scale <=? 0 then FormatInt num
  else
    let str := FormatInt num in
    let n := Z.of_nat (String.length str) in
    if n <=? scale then "0." +:+ repeat_byte "0" (Z.to_nat (scale - n)) +:+ str
    else str_take (Z.to_nat (n - scale)) str +:+ "." +:+ str_drop (Z.to_nat (n - scale)) str.

Section handlers.
Context (h : Handlers).

(** [None]: formatting the amount panics. *)
Definition buildPayURL (p : PaymentIntent) : option (res string) :=
  match pi_reference_pubkey p with
  | None => Some (Ok "")
  | Some ref =>
    if bool_decide (ref = "") then Some (Ok "")
    else match PublicKeyFromBase58 ref with
    | Err e => Some (Err e)
    | Ok refPub =>
      let msg := if bool_decide (SolanaPayMessage h = "") then "Order " +:+ pi_external_ref p else SolanaPayMessage h in
      match FormatAmount (wrapu64 (pi_quoted_amount_usdc p)) (h_USDCDecimals h) with
      | None => None
      | Some amount =>
        Some (BuildURL (mkURLParams (HotWalletPubkey h) (Some (USDCMint h)) amount [refPub] (SolanaPayLabel h) msg ""))
      end
    end
  end.

Definition intentToAPI (p : PaymentIntent) (q : Models.Quote) : option apispec_PaymentIntent :=
  match buildPayURL p with
  | None => None
  | Some url =>
    Some (mkApiIntent (pi_amount_idr p) (pi_created_at p) (pi_external_ref p) (pi_id p) (pi_merchant_id p)
      (mkApiQuote (q_expires_at q) (q_id q) (q_pair q) (formatRate (q_rate_num q) (q_rate_scale q)) (q_spread_bps q))
      (pi_quoted_amount_usdc p) (pi_recipient_ata p) (pi_reference_pubkey p)
      (match url with Ok u => if bool_decide (u = "") then None else Some u | Err _ => None end)
      (PaymentIntentState_string (pi_state p)))
  end.

Definition ErrPanic : err := ErrMsg "panic".

(** [writeJSON(w, status, h.intentToAPI(p, q))]. *)
Definition write_intent (status : Z) (p : PaymentIntent) (q : Models.Quote) : M Response :=
  match intentToAPI p q with
  | Some out => mret (writeJSON status (intent_json out))
  | None => throw ErrPanic
  end.

(** Pricing, reference and insertion of a new intent. *)
Definition create_new (merchantID : uuid) (body : CreatePaymentIntentRequest) : M Response :=
  qt ← try (Issue (h_Quoter h) PairUSDCIDR (AmountIdr body));
  match qt with
  | Err e => mret (writeError 500 "quote_failed" (Error e))
  | Ok qt =>
    ref ← try (Allocate (h_Allocator h));
    match ref with
    | Err e => mret (writeError 500 "allocate_reference" (Error e))
    | Ok ref =>
      match FindAssociatedTokenAddress (HotWalletPubkey h) (USDCMint h) with
      | Err e => mret (writeError 500 "derive_ata" (Error e))
      | Ok ata =>
        created ← try (CreatePaymentIntent merchantID (ExternalRef body) (AmountIdr body) (AmountUSDC qt) (ID qt)
          IPending (Some (PublicKey_String (Pubkey ref))) (Some (SecretEnc ref)) (Some (PublicKey_String ata)));
        match created with
        | Err e => mret (writeError 500 "create_intent" (Error e))
        | Ok created =>
          dbQuote ← try (GetQuote (pi_quote_id created));
          match dbQuote with
          | Err e => mret (writeError 500 "fetch_quote" (Error e))
          | Ok dbQuote => write_intent 201 created dbQuote
          end
        end
      end
    end
  end.

Definition Handlers_CreatePaymentIntent : http_Handler := fun r =>
  match MerchantFromContext r with
  | None => mret (writeError 401 "unauthenticated" "no merchant on context")
  | Some merchantID =>
    match match Body r with Ok text => decode_create_request text | Err _ => None end with
    | None => mret (writeError 400 "invalid_json" (match Body r with Ok text => decode_error text | Err e => Error e end))
    | Some body =>
      match validateCreateRequest body with
      | Err e => mret (writeError 400 "invalid_request" (Error e))
      | Ok _ =>
        existing ← try (GetPaymentIntentByMerchantRef merchantID (ExternalRef body));
        match existing with
        | Ok existing =>
          quote ← try (GetQuote (pi_quote_id existing));
          match quote with
          | Err e => mret (writeError 500 "fetch_quote" (Error e))
          | Ok quote => write_intent 200 existing quote
          end
        | Err e =>
          if negb (errors_is ErrNoRows e) then mret (writeError 500 "lookup" (Error e))
          else create_new merchantID body
        end
      end
    end
  end.

Definition not_found : Response := writeError 404 "not_found" "payment intent not found".

Definition Handlers_GetPaymentIntent (id : uuid) : http_Handler := fun r =>
  match MerchantFromContext r with
  | None => mret (writeError 401 "unauthenticated" "no merchant on context")
  | Some merchantID =>
    intent ← try (GetPaymentIntentByID id);
    match intent with
    | Err e => if errors_is ErrNoRows e then mret not_found else mret (writeError 500 "fetch_intent" (Error e))
    | Ok intent =>
      if negb (N.eqb (pi_merchant_id intent) merchantID) then mret not_found
      else
        quote ← try (GetQuote (pi_quote_id intent));
        match quote with
        | Err e => mret (writeError 500 "fetch_quote" (Error e))
        | Ok quote => write_intent 200 intent quote
        end
    end
  end.

(** ** apispec.gen.go: wrappers and routes *)

(** The default [ErrorHandlerFunc]. *)
Definition param_error (msg : string) : Response := http_Error msg 400.

Definition wrapper_CreatePaymentIntent : http_Handler := fun r =>
  match req_Headers r !! CanonicalHeaderKey "Idempotency-Key" with
  | Some [v] =>
    match bind_string v with
    | Err e => mret (param_error ("Invalid format for parameter Idempotency-Key: " +:+ Error e))
    | Ok _ => Handlers_CreatePaymentIntent r
    end
  | Some vs =>
    mret (param_error ("Expected one value for Idempotency-Key, got " +:+ FormatUint (Z.of_nat (List.length vs))))
  | None => Handlers_CreatePaymentIntent r
  end.

Definition wrapper_GetPaymentIntent (id : string) : http_Handler := fun r =>
  match bind_uuid id with
  | Err e => mret (param_error ("Invalid format for parameter id: " +:+ Error e))
  | Ok id => Handlers_GetPaymentIntent id r
  end.

Definition intents_path : string := "/v1/payment_intents".

(** The mux of the generated code: a pattern for [GET] also matches [HEAD].  Requests
    no pattern matches are [not_routed]: the mux answers them itself, with a redirect
    to the clean path, a 404 or a 405. *)
Definition apispec_Handler : http_Handler := fun r =>
  let get := String.eqb (Method r) "GET" || String.eqb (Method r) "HEAD" in
  match (if get then mux_match "/healthz" r else None),
        (if String.eqb (Method r) "POST" then mux_match intents_path r else None),
        (if get then mux_match (intents_path +:+ "/{id}") r else None) with
  | Some _, _, _ => Healthz r
  | _, Some _, _ => wrapper_CreatePaymentIntent r
  | _, _, Some [id] => wrapper_GetPaymentIntent id r
  | _, _, _ => mret (not_routed r)
  end.

(** ** server.go *)

(** The store of the middleware: cached when there is a Redis client. *)
Definition idempotency_store (redis : bool) (ttl : Z) : Store :=
  if redis then NewCachedStore NewPGStore (if ttl <=? 0 then 24 * 3600 * ns_per_s else ttl) else NewPGStore.

(** chi's [Recoverer]: a panic is answered 500 with no body. *)
Definition Recoverer (next : http_Handler) : http_Handler := fun r w =>
  match next r w with
  | (Ok resp, w') => (Ok resp, w')
  | (Err _, w') => (Ok (mkResponse 500 ∅ None), w')
  end.

(** The methods chi knows; any other is answered before the routes. *)
Definition chi_methods : list string :=
  ["CONNECT"; "DELETE"; "GET"; "HEAD"; "OPTIONS"; "PATCH"; "POST"; "PUT"; "TRACE"].

(** The path chi routes by: as sent, where that is recorded. *)
Definition chi_path (r : Request) : string := if String.eqb (URL_RawPath r) "" then URL_Path r else URL_RawPath r.

(** [r.Mount("/", ...)] takes every path that starts with a slash. *)
Definition NewRouter (store : KeyStore) (redis : bool) (ttl : Z) : http_Handler :=
  Recoverer (fun r =>
    if negb (bool_decide (Method r ∈ chi_methods)) then mret (mkResponse 405 ∅ (Some ""))
    else if String.eqb (Method r) "GET" && String.eqb (chi_path r) "/healthz" then Healthz r
    else if negb (String.prefix "/" (chi_path r)) then mret (http_Error "404 page not found" 404)
    else Auth.Middleware store
      (Idempotency.Handler (idempotency_store redis ttl) MerchantFromContext apispec_Handler) r).
End handlers.
End api.
