(* ===== verification/ApiSpec.v ===== *)
(** * What the API promises

    Theorems about the handlers of Api.v: the rate text, the payment URL, the
    creation of an intent, repeated creation, tenant isolation, and the whole
    router. *)

From S2P Require Import Prelude GoStr Sha256 MockBank Models World Http GoJson JsonDecode Queries Quoter AesGcm GoUrl SolanaPay SplParser PayUrl Reference Idempotency IdemCache Auth Api.
From Stdlib Require Import Ascii String.

(** ** The rate text *)

Lemma dec_value_app s t acc : dec_value acc (s +:+ t) = dec_value (dec_value acc s) t.
Proof. revert acc. induction s as [|c s IH]; intros acc; [done|]. rewrite str_app_cons. apply IH. Qed.

Lemma all_digits_take n s : all_digits s = true -> all_digits (str_take n s) = true.
Proof.
  intros Hs. rewrite <- (str_take_drop n s), all_digits_app in Hs. by apply andb_true_iff in Hs as [? _].
Qed.

Lemma all_digits_drop n s : all_digits s = true -> all_digits (str_drop n s) = true.
Proof.
  intros Hs. rewrite <- (str_take_drop n s), all_digits_app in Hs. by apply andb_true_iff in Hs as [_ ?].
Qed.

Lemma rate_text num scale :
  0 <= num -> 0 < scale ->
  exists whole frac, formatRate num scale = whole +:+ "." +:+ frac /\ whole <> "" /\
    all_digits whole = true /\ all_digits frac = true /\ Z.of_nat (String.length frac) = scale /\
    dec_value 0 whole * 10 ^ scale + dec_value 0 frac = num.
Proof.
  intros Hn Hs. unfold formatRate. rewrite (proj2 (Z.leb_gt scale 0)) by lia.
  assert (HF : FormatInt num = FormatUint num) by (unfold FormatInt; by rewrite (proj2 (Z.ltb_ge num 0))).
  rewrite HF. pose proof (all_digits_FormatUint num Hn) as Hd. pose proof (dec_value_FormatUint num Hn) as Hv.
  set (str := FormatUint num) in *. destruct (Z.leb_spec (Z.of_nat (String.length str)) scale) as [Hle|Hgt].
  - exists "0", (repeat_byte "0" (Z.to_nat (scale - Z.of_nat (String.length str))) +:+ str).
    split_and!; [done|done|done| | |].
    + by rewrite all_digits_app, all_digits_zeros.
    + rewrite string_length_app, repeat_byte_length. lia.
    + rewrite dec_value_zeros, Hv. change (dec_value 0 "0") with 0. lia.
  - set (k := Z.to_nat (Z.of_nat (String.length str) - scale)).
    assert (Hfrac : Z.of_nat (String.length (str_drop k str)) = scale) by (rewrite str_drop_length; lia).
    exists (str_take k str), (str_drop k str). split_and!; [done| | | |done|].
    + intros E. pose proof (str_take_drop k str) as H. rewrite E in H. change ("" +:+ ?x) with x in H.
      rewrite H in Hfrac. lia.
    + by apply all_digits_take.
    + by apply all_digits_drop.
    + assert (E : dec_value 0 str = dec_value (dec_value 0 (str_take k str)) (str_drop k str))
        by (rewrite <- (str_take_drop k str) at 1; apply dec_value_app).
      rewrite (dec_value_acc (str_drop k str)), Hfrac in E. lia.
Qed.

(** The rate shown to clients is the rate: for a stored rate (a non-negative
    number, any scale) the text is plain decimal digits with exactly [scale]
    digits after the point, at least one before it, and value num / 10^scale;
    without a scale it is the number itself. *)
Theorem formatRate_exact num scale :
  0 <= num ->
  (scale <= 0 /\ formatRate num scale = FormatInt num) \/
  (0 < scale /\ exists whole frac, formatRate num scale = whole +:+ "." +:+ frac /\ whole <> "" /\
    all_digits whole = true /\ all_digits frac = true /\ Z.of_nat (String.length frac) = scale /\
    dec_value 0 whole * 10 ^ scale + dec_value 0 frac = num).
Proof.
  intros Hn. destruct (Z.leb_spec scale 0).
  - left. split; [done|]. unfold formatRate. by rewrite (proj2 (Z.leb_le scale 0)).
  - right. split; [done|]. by apply rate_text.
Qed.

Lemma formatRate_exact_witness :
  formatRate 617 7 = "0.0000617" /\
  exists whole frac, formatRate 617 7 = whole +:+ "." +:+ frac /\ dec_value 0 whole * 10 ^ 7 + dec_value 0 frac = 617.
Proof.
  split; [reflexivity|]. destruct (formatRate_exact 617 7) as [[Hs _]|(_ & whole & frac & E & _ & _ & _ & _ & Hv)]; [lia|lia|].
  exists whole, frac. split; [exact E|exact Hv].
Defined.

(** ** The payment URL *)

Section pay_url.
Context `{Solana} `{!SolanaOk _} (h : Handlers).

(** A deployment the URL can be built for. *)
Record handlers_ok : Prop := {
  ho_wallet : HotWalletPubkey h <> 0%N;
  ho_mint : USDCMint h <> 0%N;
  ho_decimals : 0 <= h_USDCDecimals h <= 19
}.

(** An intent with a reference key. *)
Definition referenced (p : PaymentIntent) (ref : PublicKey) : Prop :=
  pi_reference_pubkey p = Some (PublicKey_String ref) /\ ref <> 0%N /\ 0 < pi_quoted_amount_usdc p < 2 ^ 63.

Lemma IsZero_false k : k <> 0%N -> IsZero k = false.
Proof. unfold IsZero. intros Hk. by apply N.eqb_neq. Qed.

Lemma pay_url p ref :
  handlers_ok -> referenced p ref ->
  exists url up, buildPayURL h p = Some (Ok url) /\ url <> "" /\ ParseURL url = Ok up /\
    Recipient up = HotWalletPubkey h /\ SPLToken up = Some (USDCMint h) /\ References up = [ref] /\
    ParseAmount (up_Amount up) (h_USDCDecimals h) = Ok (pi_quoted_amount_usdc p).
Proof.
  intros [Hw Hm Hd] (Hp & Hr & Hq). unfold buildPayURL. rewrite Hp.
  rewrite bool_decide_false by apply pubkey_alnum. rewrite pubkey_roundtrip.
  assert (Hu : wrapu64 (pi_quoted_amount_usdc p) = pi_quoted_amount_usdc p) by (unfold wrapu64; apply Z.mod_small; lia).
  rewrite Hu. destruct (amount_parses_back (pi_quoted_amount_usdc p) (h_USDCDecimals h)) as (amount & -> & Ha); [lia|lia|].
  set (up := mkURLParams _ _ _ _ _ _ _).
  destruct (BuildURL_ok up) as [url Hurl]; [by apply IsZero_false|intros m [= <-]; by apply IsZero_false
    |constructor; [by apply IsZero_false|constructor]|].
  exists url, up. rewrite Hurl. split_and!; try done.
  - intros ->. by apply url_parses_back in Hurl.
  - by apply url_parses_back.
Qed.

(** C24: The payer is asked for the quoted amount: for an intent with a reference
    key, the URL shown to the payer parses to a transfer to the hot wallet in the
    configured mint, tagged with exactly the intent's reference, whose amount
    text denotes the quoted USDC amount to the unit. *)
Theorem pay_url_asks_quoted_amount p ref :
  handlers_ok -> referenced p ref ->
  exists url up, buildPayURL h p = Some (Ok url) /\ url <> "" /\ ParseURL url = Ok up /\
    Recipient up = HotWalletPubkey h /\ SPLToken up = Some (USDCMint h) /\ References up = [ref] /\
    ParseAmount (up_Amount up) (h_USDCDecimals h) = Ok (pi_quoted_amount_usdc p).
Proof. apply pay_url. Qed.

Lemma intentToAPI_referenced p q ref :
  handlers_ok -> referenced p ref -> exists out url, intentToAPI h p q = Some out /\
    buildPayURL h p = Some (Ok url) /\ ai_SolanaPayUrl out = Some url.
Proof.
  intros Hh Hp. destruct (pay_url p ref Hh Hp) as (url & up & Hb & Hne & _). unfold intentToAPI. rewrite Hb.
  eexists _, url. split_and!; [reflexivity|done|]. simpl. by rewrite bool_decide_false.
Qed.
End pay_url.

(** ** Creating intents *)

Section create.
Context `{Env} `{Solana} `{!SolanaOk _} `{Keys} `{!KeysOk _}
  (time_text : Z -> string) (decode_error : string -> string) (h : Handlers).

Abbreviation create := (Handlers_CreatePaymentIntent time_text decode_error h).
Abbreviation fetch := (Handlers_GetPaymentIntent time_text h).

(** A request of merchant [m] whose body decodes and validates. *)
Definition create_request (r : Request) (m : uuid) (body : CreatePaymentIntentRequest) : Prop :=
  ctx_Merchant r = Some m /\ (exists text, Body r = Ok text /\ decode_create_request text = Some body) /\
  validateCreateRequest body = Ok tt.

Lemma create_request_amount r m body : create_request r m body -> 0 < AmountIdr body.
Proof.
  intros (_ & _ & Hv). unfold validateCreateRequest in Hv.
  do 2 (case_match; [done|]). destruct (Z.leb_spec (AmountIdr body) 0); [done|lia].
Qed.

Lemma create_lookup r m body w :
  create_request r m body ->
  create r w =
    (existing ← try (GetPaymentIntentByMerchantRef m (ExternalRef body));
     match existing with
     | Ok existing =>
       quote ← try (GetQuote (pi_quote_id existing));
       match quote with
       | Err e => mret (writeError 500 "fetch_quote" (Error e))
       | Ok quote => write_intent time_text h 200 existing quote
       end
     | Err e =>
       if negb (errors_is ErrNoRows e) then mret (writeError 500 "lookup" (Error e))
       else create_new time_text h m body
     end) w.
Proof.
  intros (Hm & (text & Hb & Ht) & Hv). unfold Handlers_CreatePaymentIntent, MerchantFromContext. by rewrite Hm, Hb, Ht, Hv.
Qed.

(** The conditions a creation depends on: a reachable database, a known merchant,
    a reference that Postgres can store as text, a price, random sources that work and fresh identifiers. *)
Record can_create (m : uuid) (body : CreatePaymentIntentRequest) (rate : Rate) (usdc : Z) (priv nonce : string)
    (ata : PublicKey) (w : World) : Prop := {
  cc_faults : w_faults w = [];
  cc_merchant : is_Some (find_row (by_id m_id m) (merchants (w_db w)));
  cc_text : text_ok (ExternalRef body) = true;
  cc_fresh : find_row (intent_by_ref m (ExternalRef body)) (payment_intents (w_db w)) = None;
  cc_pool : qr_pool (h_Quoter h) = true;
  cc_clock : qr_now (h_Quoter h) = get_now;
  cc_rate : qr_provider (h_Quoter h) PairUSDCIDR w = (Ok rate, w);
  cc_scale : 0 <= Scale rate <= 18;
  cc_price : QuoteAmount (AmountIdr body) rate (qr_spreadBps (h_Quoter h)) = Ok usdc;
  cc_key : random_private_key (w_rng w + 2) = Ok priv;
  cc_nonce : random_bytes (w_rng w + 3) NonceSize = Ok nonce;
  cc_ata : FindAssociatedTokenAddress (HotWalletPubkey h) (USDCMint h) = Ok ata;
  cc_quote_id : pk_taken q_id (gen_uuid (w_rng w + 1)) (quotes (w_db w)) = false;
  cc_intent_id : pk_taken pi_id (gen_uuid (w_rng w + 4)) (payment_intents (w_db w)) = false
}.

(** The rows a creation adds. *)
Definition created_quote (body : CreatePaymentIntentRequest) (rate : Rate) (usdc : Z) (w : World) : Models.Quote :=
  let q := h_Quoter h in
  issued_row q PairUSDCIDR rate
    (signQuote (qr_signingKey q) (mkIssued (gen_uuid (w_rng w)) PairUSDCIDR rate (qr_spreadBps q)
      (w_now w + qr_ttl q) "" (AmountIdr body) usdc (w_now w))) w.

Definition created_intent (m : uuid) (body : CreatePaymentIntentRequest) (usdc : Z) (priv nonce : string)
    (ata : PublicKey) (w : World) : PaymentIntent :=
  mkPaymentIntent (gen_uuid (w_rng w + 4)) m (ExternalRef body) (AmountIdr body) usdc (gen_uuid (w_rng w + 1))
    (Some (PublicKey_String (PrivateKey_PublicKey priv))) (Some (sealed (h_Allocator h) nonce priv))
    (Some (PublicKey_String ata)) IPending (w_now w) (w_now w).

Definition created_db m body rate usdc priv nonce ata (w : World) : DB :=
  set_payment_intents (set_quotes (w_db w) (quotes (w_db w) ++ [created_quote body rate usdc w]))
    (payment_intents (w_db w) ++ [created_intent m body usdc priv nonce ata w]).

Lemma pk_not_taken {A} (f : A -> uuid) id t x : pk_taken f id t = false -> f x = id -> find_row (by_id f id) (t ++ [x]) = Some x.
Proof.
  unfold pk_taken. intros Hn Hx. rewrite find_row_app_None.
  - unfold by_id. simpl. by rewrite Hx, N.eqb_refl.
  - destruct (find_row (by_id f id) t) as [y|] eqn:E; [|done]. apply find_row_Some in E as [Hin Hy].
    assert (existsb (by_id f id) t = true) by (apply existsb_exists; exists y; split; [by apply list_elem_of_In|done]). congruence.
Qed.

Lemma quote_amount_range idr rate s v : QuoteAmount idr rate s = Ok v -> 0 < v < 2 ^ 63.
Proof.
  unfold QuoteAmount. intros Hq. repeat (case_match; [done|]). injection Hq as <-. bools.
  unfold is_int64, int64_max in *. destruct (_ && _) eqn:E; [|done]. lia.
Qed.

Lemma created_referenced m body rate usdc priv nonce ata w :
  can_create m body rate usdc priv nonce ata w ->
  referenced (created_intent m body usdc priv nonce ata w) (PrivateKey_PublicKey priv).
Proof.
  intros Hc. pose proof (quote_amount_range _ _ _ _ (cc_price _ _ _ _ _ _ _ _ Hc)).
  split_and!; [done|eapply random_key_nonzero, cc_key; exact Hc|simpl; lia|simpl; lia].
Qed.

Lemma create_new_run m body rate usdc priv nonce ata w :
  handlers_ok h -> 0 < AmountIdr body -> can_create m body rate usdc priv nonce ata w ->
  exists out w',
    create_new time_text h m body w = (Ok (writeJSON 201 (intent_json time_text out)), w') /\
    intentToAPI h (created_intent m body usdc priv nonce ata w) (created_quote body rate usdc w) = Some out /\
    w_db w' = created_db m body rate usdc priv nonce ata w /\ w_faults w' = [] /\ w_redis w' = w_redis w.
Proof.
  intros Hh Hidr Hc. set (quote := created_quote body rate usdc w). set (intent := created_intent m body usdc priv nonce ata w).
  pose proof (quote_amount_range _ _ _ _ (cc_price _ _ _ _ _ _ _ _ Hc)) as Husdc.
  pose proof (created_referenced m body rate usdc priv nonce ata w Hc : referenced intent _) as Href.
  destruct (intentToAPI_referenced h intent quote _ Hh Href) as (out & _ & Hout & _).
  unfold create_new.
  unfold mbind at 1, M_bind at 1, try at 1.
  rewrite (issue_run (h_Quoter h) PairUSDCIDR (AmountIdr body) rate usdc w) by apply Hc.
  set (w1 := set_db _ _). cbv iota beta.
  assert (Halloc : Allocate (h_Allocator h) w1 =
    (Ok (mkReference (PrivateKey_PublicKey priv) (sealed (h_Allocator h) nonce priv)), set_rng w1 (w_rng w + 4)%N)).
  { unfold Allocate, seal, draw, mbind, M_bind, map_err. replace (w_rng w1) with (w_rng w + 2)%N by (simpl; lia).
    rewrite (cc_key _ _ _ _ _ _ _ _ Hc). cbn. replace (w_rng w + 2 + 1)%N with (w_rng w + 3)%N by lia.
    rewrite (cc_nonce _ _ _ _ _ _ _ _ Hc). f_equal. unfold set_rng. simpl. f_equal. lia. }
  unfold mbind at 1, M_bind at 1, try at 1. rewrite Halloc. cbv iota beta.
  rewrite (cc_ata _ _ _ _ _ _ _ _ Hc). set (w2 := set_rng w1 _).
  destruct (cc_merchant _ _ _ _ _ _ _ _ Hc) as [mrow Hmrow].
  assert (Hquote : find_row (by_id q_id (q_id quote)) (quotes (w_db w2)) = Some quote)
    by (apply pk_not_taken; [apply Hc|done]).
  assert (Hcreate : CreatePaymentIntent m (ExternalRef body) (AmountIdr body) usdc (q_id quote) IPending
    (Some (PublicKey_String (PrivateKey_PublicKey priv))) (Some (sealed (h_Allocator h) nonce priv))
    (Some (PublicKey_String ata)) w2 = (Ok intent, set_db (set_rng w2 (w_rng w2 + 1)%N) (created_db m body rate usdc priv nonce ata w))).
  { unfold CreatePaymentIntent. rewrite stmt_run by apply Hc. rewrite Hquote, (cc_text _ _ _ _ _ _ _ _ Hc). cbn [negb].
    change (payment_intents (w_db w2)) with (payment_intents (w_db w)). change (merchants (w_db w2)) with (merchants (w_db w)).
    rewrite (cc_fresh _ _ _ _ _ _ _ _ Hc), Hmrow. change (w_rng w2) with (w_rng w + 4)%N. rewrite (cc_intent_id _ _ _ _ _ _ _ _ Hc).
    rewrite (proj2 (Z.leb_gt (AmountIdr body) 0)), (proj2 (Z.leb_gt usdc 0)) by lia. done. }
  unfold mbind at 1, M_bind at 1, try at 1. cbn [AmountUSDC ID set_row set_signature Pubkey SecretEnc].
  change (q_id (issued_row _ _ _ _ _)) with (q_id quote). rewrite Hcreate. cbv iota beta.
  set (w3 := set_db _ _). unfold mbind, M_bind, try. unfold GetQuote. rewrite select_run by apply Hc.
  change (quotes (w_db w3)) with (quotes (w_db w2)). change (pi_quote_id intent) with (q_id quote). rewrite Hquote. cbn [Queries.one].
  unfold write_intent. rewrite Hout. exists out, w3. split_and!; [done|done|done|apply Hc|done].
Qed.

(** C17: Creation works and is priced: a valid request for a new reference is answered
    201 and adds exactly one quote and one pending intent that belongs to the
    caller, carries the requested rupiah amount, the USDC price of [QuoteAmount]
    and the id of that quote, a fresh reference key with its sealed secret and the
    hot wallet's token account; the response is that intent, payment URL
    included. *)
Theorem create_intent_created r m body rate usdc priv nonce ata w :
  handlers_ok h -> create_request r m body -> can_create m body rate usdc priv nonce ata w ->
  exists out url w',
    create r w = (Ok (writeJSON 201 (intent_json time_text out)), w') /\
    w_db w' = created_db m body rate usdc priv nonce ata w /\
    intentToAPI h (created_intent m body usdc priv nonce ata w) (created_quote body rate usdc w) = Some out /\
    buildPayURL h (created_intent m body usdc priv nonce ata w) = Some (Ok url) /\ ai_SolanaPayUrl out = Some url.
Proof.
  intros Hh Hr Hc. rewrite (create_lookup r m body) by done.
  unfold mbind at 1, M_bind at 1, try at 1. unfold GetPaymentIntentByMerchantRef. rewrite select_run by apply Hc.
  rewrite (cc_text _ _ _ _ _ _ _ _ Hc), (cc_fresh _ _ _ _ _ _ _ _ Hc). cbn [Queries.one]. change (negb (errors_is ErrNoRows ErrNoRows)) with false. cbv iota beta.
  destruct (create_new_run m body rate usdc priv nonce ata w Hh (create_request_amount _ _ _ Hr) Hc) as (out & w' & Hrun & Hout & Hdb & _).
  rewrite Hrun.
  destruct (intentToAPI_referenced h _ (created_quote body rate usdc w) _ Hh (created_referenced _ _ _ _ _ _ _ _ Hc)) as (out' & url & Hout' & Hb & Hurl).
  assert (out' = out) as -> by congruence. exists out, url, w'. by split_and!.
Qed.

(** A reference names one intent: a creation request for a reference the
    merchant already used is answered 200 with the stored intent and its quote,
    whatever amount it asks for, and changes nothing. *)
Theorem create_intent_repeated r m body p q ref w :
  handlers_ok h -> w_faults w = [] -> create_request r m body -> text_ok (ExternalRef body) = true ->
  find_row (intent_by_ref m (ExternalRef body)) (payment_intents (w_db w)) = Some p ->
  find_row (by_id q_id (pi_quote_id p)) (quotes (w_db w)) = Some q -> referenced p ref ->
  exists out, intentToAPI h p q = Some out /\ create r w = (Ok (writeJSON 200 (intent_json time_text out)), w).
Proof.
  intros Hh Hf Hr Ht Hp Hq Href. destruct (intentToAPI_referenced h p q ref Hh Href) as (out & _ & Hout & _).
  exists out. split; [done|]. rewrite (create_lookup r m body) by done.
  unfold mbind, M_bind, try, GetPaymentIntentByMerchantRef, GetQuote. rewrite select_run, Ht, Hp by done. cbn [Queries.one]. cbv iota beta.
  rewrite select_run, Hq by done. cbn [Queries.one]. unfold write_intent. by rewrite Hout.
Qed.

(** ** Tenant isolation *)

(** The intents of one merchant. *)
Definition own_intents (m : uuid) (d : DB) : list PaymentIntent :=
  List.filter (fun p => N.eqb (pi_merchant_id p) m) (payment_intents d).

Definition unique_intents (d : DB) : Prop := NoDup (pi_id <$> payment_intents d).

Lemma find_unique d p : unique_intents d -> p ∈ payment_intents d -> find_row (by_id pi_id (pi_id p)) (payment_intents d) = Some p.
Proof.
  unfold unique_intents. intros Hnd Hp. destruct (find_row_is_Some (by_id pi_id (pi_id p)) _ _ Hp) as [p' Hf]; [unfold by_id; apply N.eqb_refl|].
  rewrite Hf. f_equal. apply find_row_Some in Hf as [Hin Hid]. unfold by_id in Hid. apply N.eqb_eq in Hid.
  apply list_elem_of_lookup in Hp as [i Hi], Hin as [j Hj].
  assert (Ei : (pi_id <$> payment_intents d) !! i = Some (pi_id p)) by (rewrite list_lookup_fmap, Hi; done).
  assert (Ej : (pi_id <$> payment_intents d) !! j = Some (pi_id p)) by (rewrite list_lookup_fmap, Hj; simpl; by f_equal).
  assert (i = j) as <- by (by eapply NoDup_lookup). congruence.
Qed.

(** What a merchant finds under an id. *)
Definition own_intent (m id : uuid) (d : DB) : option PaymentIntent :=
  match find_row (by_id pi_id id) (payment_intents d) with
  | Some p => if N.eqb (pi_merchant_id p) m then Some p else None
  | None => None
  end.

Lemma own_intent_Some m id d p :
  unique_intents d -> own_intent m id d = Some p <-> p ∈ own_intents m d /\ pi_id p = id.
Proof.
  intros Hnd. unfold own_intent, own_intents. split.
  - destruct (find_row _ _) as [p'|] eqn:E; [|done]. apply find_row_Some in E as [Hin Hid].
    destruct (N.eqb (pi_merchant_id p') m) eqn:Hm; [|done]. intros [= <-].
    split; [apply list_elem_of_In, filter_In; split; [by apply list_elem_of_In|done]|by apply N.eqb_eq in Hid].
  - intros [Hin <-]. apply list_elem_of_In, filter_In in Hin as [Hin Hm]. apply list_elem_of_In in Hin.
    by rewrite find_unique, Hm.
Qed.

Lemma fetch_run id r m w :
  w_faults w = [] -> ctx_Merchant r = Some m ->
  fetch id r w =
    match own_intent m id (w_db w) with
    | None => (Ok not_found, w)
    | Some p =>
      match find_row (by_id q_id (pi_quote_id p)) (quotes (w_db w)) with
      | None => (Ok (writeError 500 "fetch_quote" (Error ErrNoRows)), w)
      | Some q => write_intent time_text h 200 p q w
      end
    end.
Proof.
  intros Hf Hm. unfold Handlers_GetPaymentIntent, MerchantFromContext, own_intent. rewrite Hm.
  unfold mbind, M_bind, try, GetPaymentIntentByID, GetQuote. rewrite select_run by done.
  destruct (find_row (by_id pi_id id) (payment_intents (w_db w))) as [p|]; [|done]. cbn [Queries.one]. cbv iota beta.
  destruct (N.eqb (pi_merchant_id p) m); [|done]. cbn [negb]. rewrite select_run by done.
  by destruct (find_row (by_id q_id (pi_quote_id p)) (quotes (w_db w))).
Qed.

(** C18: Intents do not leak across tenants: what a merchant gets for an id depends
    only on its own intents and the quotes.  Two databases that differ in the
    intents of other merchants are indistinguishable to it, so an id of another
    merchant is answered exactly like an id that does not exist. *)
Theorem fetch_isolates_tenants id r m w w' :
  w_faults w = [] -> w_faults w' = [] -> ctx_Merchant r = Some m ->
  unique_intents (w_db w) -> unique_intents (w_db w') ->
  own_intents m (w_db w) = own_intents m (w_db w') -> quotes (w_db w) = quotes (w_db w') ->
  (fetch id r w).1 = (fetch id r w').1 /\
  (own_intents m (w_db w) = [] -> (fetch id r w).1 = Ok not_found).
Proof.
  intros Hf Hf' Hm Hu Hu' Hown Hq. rewrite !(fetch_run id r m) by done.
  assert (E : own_intent m id (w_db w) = own_intent m id (w_db w')).
  { apply option_eq. intros p. rewrite !own_intent_Some, Hown by done. done. }
  rewrite <- E, <- Hq. split.
  - destruct (own_intent m id (w_db w)) as [p|]; [|done]. destruct (find_row _ _) as [q|]; [|done].
    unfold write_intent. by destruct (intentToAPI h p q).
  - intros Hnil. destruct (own_intent m id (w_db w)) as [p|] eqn:Ep; [|done].
    apply own_intent_Some in Ep as [Hin _]; [|done]. rewrite Hnil in Hin. by apply elem_of_nil in Hin.
Qed.
End create.
