(* ===== verification/ApiRouter.v ===== *)
(** * The router end to end

    Authentication, idempotency and the handlers composed as [NewRouter] does. *)

From S2P Require Import Prelude GoStr Sha256 MockBank Models World Http GoJson JsonDecode Queries Quoter AesGcm GoUrl Mux SolanaPay SplParser PayUrl Reference Idempotency IdemCache Auth Api ApiSpec.
From Stdlib Require Import Ascii String.

(** ** What the handlers touch *)

#[global] Instance keys_kept_quotes : Frames keys_kept set_quotes. Proof. by intros d t. Qed.
#[global] Instance keys_kept_intents : Frames keys_kept set_payment_intents. Proof. by intros d t. Qed.

(** The statements with which requests write: quotes, pending intents, idempotency
    keys. *)
Class ApiWrites `{Env} (R : DB -> DB -> Prop) : Prop := {
  api_quote p n s b e g : keeps R (CreateQuote p n s b e g);
  api_intent m ref idr usdc q pub sec ata : keeps R (CreatePaymentIntent m ref idr usdc q IPending pub sec ata);
  api_key m k hash status body : keeps R (InsertIdempotencyKey m k hash status body)
}.

#[global] Instance api_writes_frames `{Env} (R : DB -> DB -> Prop) `{!PreOrder R} `{!Frames R set_quotes}
  `{!Frames R set_payment_intents} `{!Frames R set_idempotency_keys} : ApiWrites R | 10.
Proof. split; intros; [apply keeps_CreateQuote|apply keeps_CreatePaymentIntent|apply keeps_InsertIdempotencyKey]; apply _. Qed.

(** One such statement, as it commits by itself between the statements of other
    requests and processes. *)
Inductive api_write `{Env} : M unit -> Prop :=
  | write_quote p n s b e g : api_write (_ ← try (CreateQuote p n s b e g); mret tt)
  | write_pending m ref idr usdc q pub sec ata :
      api_write (_ ← try (CreatePaymentIntent m ref idr usdc q IPending pub sec ata); mret tt)
  | write_key m k hash status body : api_write (_ ← try (InsertIdempotencyKey m k hash status body); mret tt).

Lemma keeps_api_write `{Env} (R : DB -> DB -> Prop) `{!PreOrder R} `{!ApiWrites R} m : api_write m -> keeps R m.
Proof. intros [| |]; (apply keeps_bind; [apply _|apply keeps_try|intros; apply keeps_ret; apply _]);
  [apply api_quote|apply api_intent|apply api_key]. Qed.

Lemma offline_api_write `{Env} m : api_write m -> offline m.
Proof. intros [| |]; wkeeps_auto. Qed.

Section frames.
Context `{Env} `{Solana} `{Keys}
  (time_text : Z -> string) (decode_error : string -> string)
  (bind_uuid : string -> res uuid) (bind_string : string -> res string) (not_routed : Request -> Response)
  (h : Handlers) `{!ProviderOk (h_Quoter h)}.

Abbreviation api := (apispec_Handler time_text decode_error bind_uuid bind_string not_routed h).

Section db.
Context (R : DB -> DB -> Prop) `{!PreOrder R}.
Hypothesis keeps_quote : forall p n s b e g, keeps R (CreateQuote p n s b e g).
Hypothesis keeps_insert : forall m ref idr usdc q pub sec ata,
  keeps R (CreatePaymentIntent m ref idr usdc q IPending pub sec ata).

Lemma keeps_draw {A} (f : N -> res A) : keeps R (draw f).
Proof. intros w. unfold draw. simpl. reflexivity. Qed.
#[local] Hint Resolve keeps_draw : keeps.

Lemma keeps_Allocate a : keeps R (Allocate a).
Proof. unfold Allocate, seal. keeps_auto. Qed.

Lemma keeps_write_intent status p q : keeps R (write_intent time_text h status p q).
Proof. unfold write_intent. keeps_auto. Qed.
#[local] Hint Resolve keeps_Allocate keeps_write_intent : keeps.

Lemma keeps_create_new m body : keeps R (create_new time_text h m body).
Proof. unfold create_new. pose proof (keeps_Issue R (h_Quoter h) PairUSDCIDR (AmountIdr body) _ keeps_quote). keeps_auto. Qed.

Lemma keeps_create r : keeps R (Handlers_CreatePaymentIntent time_text decode_error h r).
Proof. unfold Handlers_CreatePaymentIntent. pose proof keeps_create_new. keeps_auto. Qed.

Lemma keeps_fetch id r : keeps R (Handlers_GetPaymentIntent time_text h id r).
Proof. unfold Handlers_GetPaymentIntent. keeps_auto. Qed.

(** Requests write quotes and pending intents only. *)
Lemma keeps_api r : keeps R (api r).
Proof.
  unfold apispec_Handler, wrapper_CreatePaymentIntent, wrapper_GetPaymentIntent, Healthz.
  pose proof keeps_create. pose proof keeps_fetch. keeps_auto.
Qed.
End db.

Section world.
Context (R : World -> World -> Prop) `{!WorldRel R}.

Lemma wkeeps_draw {A} (f : N -> res A) : wkeeps R (draw f).
Proof. intros w. apply wr_rng. Qed.
#[local] Hint Resolve wkeeps_draw : wkeeps.

Lemma wkeeps_Allocate a : wkeeps R (Allocate a).
Proof. unfold Allocate, seal. wkeeps_auto. Qed.

Lemma wkeeps_write_intent status p q : wkeeps R (write_intent time_text h status p q).
Proof. unfold write_intent. wkeeps_auto. Qed.
#[local] Hint Resolve wkeeps_Allocate wkeeps_write_intent : wkeeps.

Lemma wkeeps_create_new m body : wkeeps R (create_new time_text h m body).
Proof. unfold create_new. pose proof (wkeeps_Issue R (h_Quoter h) PairUSDCIDR (AmountIdr body) _). wkeeps_auto. Qed.

Lemma wkeeps_create r : wkeeps R (Handlers_CreatePaymentIntent time_text decode_error h r).
Proof. unfold Handlers_CreatePaymentIntent. pose proof wkeeps_create_new. wkeeps_auto. Qed.

Lemma wkeeps_fetch id r : wkeeps R (Handlers_GetPaymentIntent time_text h id r).
Proof. unfold Handlers_GetPaymentIntent. wkeeps_auto. Qed.

Lemma wkeeps_api r : wkeeps R (api r).
Proof.
  unfold apispec_Handler, wrapper_CreatePaymentIntent, wrapper_GetPaymentIntent, Healthz.
  pose proof wkeeps_create. pose proof wkeeps_fetch. wkeeps_auto.
Qed.
End world.

Lemma api_leaves_keys : leaves_keys api.
Proof.
  intros r w. split; [apply keeps_api; [apply _|intros; apply keeps_CreateQuote; apply _|intros; apply keeps_CreatePaymentIntent; apply _]|]. pose proof (wkeeps_api uncached_rel r w) as E. unfold uncached_rel in E. by rewrite E.
Qed.
End frames.

(** ** The store of the router *)

Section store.
Context `{Env} `{!EnvOk _}.

#[global] Instance PGStore_coherent : StoreOk NewPGStore coherent.
Proof.
  pose proof PGStore_ok as P. split.
  - apply coherent_stable.
  - intros m k w. apply (get_coherent NewPGStore), pg_get_redis.
  - apply P.
  - apply P.
  - apply P.
  - apply P.
  - intros m k w rec _. by apply P.
  - intros m k w e _. by apply P.
  - intros m k w _. by apply P.
  - intros r w. apply (put_coherent NewPGStore), pg_put_redis.
  - apply P.
  - apply P.
  - apply P.
  - apply P.
  - intros r w stored created _. by apply P.
  - intros r w _. by apply P.
Qed.

Lemma keeps_store_Put (R : DB -> DB -> Prop) `{!PreOrder R} `{!ApiWrites R} redis ttl rec :
  keeps R (store_Put (idempotency_store redis ttl) rec).
Proof.
  assert (Hpg : keeps R (PGStore_Put rec)).
  { pose proof api_key. unfold PGStore_Put, PGStore_Get, insert_record. destruct (ResponseBody rec); keeps_auto. }
  unfold idempotency_store. destruct redis; [|done]. intros w.
  destruct (cached_put_spec NewPGStore (if ttl <=? 0 then 24 * 3600 * ns_per_s else ttl) rec w) as (_ & E & _).
  cbn [store_Put NewCachedStore]. rewrite E. apply Hpg.
Qed.

Lemma idempotency_store_ok redis ttl : StoreOk (idempotency_store redis ttl) coherent.
Proof. unfold idempotency_store. destruct redis; apply _. Qed.
End store.

(** ** What a whole request touches *)

Section router_frames.
Context `{Env} `{!EnvOk _} `{Solana} `{Keys}
  (time_text : Z -> string) (decode_error : string -> string)
  (bind_uuid : string -> res uuid) (bind_string : string -> res string) (not_routed : Request -> Response)
  (h : Handlers) `{!ProviderOk (h_Quoter h)} (redis : bool) (ttl : Z).

Abbreviation router := (NewRouter time_text decode_error bind_uuid bind_string not_routed h NewPGKeyStore redis ttl).

Lemma keeps_router (R : DB -> DB -> Prop) `{!PreOrder R} `{!ApiWrites R} r : keeps R (router r).
Proof.
  pose proof (idempotency_store_ok redis ttl) as Hok.
  assert (Hget : forall m k, keeps R (store_Get (idempotency_store redis ttl) m k)) by (intros m k w; rewrite get_db; reflexivity).
  assert (Hput : forall rec, keeps R (store_Put (idempotency_store redis ttl) rec))
    by (intros; by apply keeps_store_Put).
  pose proof (keeps_api time_text decode_error bind_uuid bind_string not_routed h R api_quote api_intent) as Hapi.
  intros w. unfold NewRouter, Recoverer. match goal with |- context [if ?b then _ else ?m] => set (run := if b then _ else m) end.
  assert (Hrun : keeps R run) by (subst run; unfold Healthz, Middleware, Handler, capture; cbn [Lookup NewPGKeyStore]; unfold PGKeyStore_Lookup, GetActiveAPIKeyByKeyID; keeps_auto).
  specialize (Hrun w). change (R (w_db w) (w_db (match run w with (Ok resp, w') => (Ok resp, w') | (Err _, w') => (Ok (mkResponse 500 ∅ None), w') end).2)).
  by destruct (run w) as [[] ?].
Qed.

Lemma offline_router r : offline (router r).
Proof.
  pose proof (idempotency_store_ok redis ttl) as Hok.
  assert (Hget : forall m k, offline (store_Get (idempotency_store redis ttl) m k)) by (intros m k w; apply get_offline).
  assert (Hput : forall rec, offline (store_Put (idempotency_store redis ttl) rec)) by (intros rec w; apply put_offline).
  pose proof (wkeeps_api time_text decode_error bind_uuid bind_string not_routed h offline_rel) as Hapi.
  intros w. unfold NewRouter, Recoverer. match goal with |- context [if ?b then _ else ?m] => set (run := if b then _ else m) end.
  assert (Hrun : offline run) by (subst run; unfold Healthz, Middleware, Handler, capture; cbn [Lookup NewPGKeyStore]; unfold PGKeyStore_Lookup; wkeeps_auto).
  specialize (Hrun w). change (offline_rel w (match run w with (Ok resp, w') => (Ok resp, w') | (Err _, w') => (Ok (mkResponse 500 ∅ None), w') end).2).
  by destruct (run w) as [[] ?].
Qed.
End router_frames.

(** ** A creation and its retries *)

Section end_to_end.
Context `{Env} `{!EnvOk _} `{Solana} `{!SolanaOk _} `{Keys} `{!KeysOk _}
  (time_text : Z -> string) (decode_error : string -> string)
  (bind_uuid : string -> res uuid) (bind_string : string -> res string) (not_routed : Request -> Response)
  (h : Handlers) `{!ProviderOk (h_Quoter h)} (redis : bool) (ttl : Z).

Abbreviation api := (apispec_Handler time_text decode_error bind_uuid bind_string not_routed h).
Abbreviation router := (NewRouter time_text decode_error bind_uuid bind_string not_routed h NewPGKeyStore redis ttl).
Abbreviation store := (idempotency_store redis ttl).

(** A signed creation request with an idempotency key. *)
Definition keyed_post (r : Request) (secret : string) (now : Z) (key text : string) : Prop :=
  Method r = "POST" /\ (URL_Path r = intents_path /\ URL_RawPath r = "") /\
  req_Headers r !! "Idempotency-Key" = Some [key] /\ (key <> "" /\ text_ok key = true) /\ signed_with secret now r text.

(** The key the request names is active and belongs to [m]. *)
Definition sent_by (r : Request) (m : uuid) (d : DB) (k : ApiKey) : Prop :=
  active_key d (Header_Get (req_Headers r) HeaderKeyID) = Some k /\ ak_merchant_id k = m.

(** The request the handlers see. *)
Definition seen (r : Request) (text : string) (m : uuid) : Request :=
  with_merchant r text m (Header_Get (req_Headers r) HeaderKeyID).

Lemma router_post r m k key text w :
  w_faults w = [] -> sent_by r m (w_db w) k -> keyed_post r (ak_secret_hash k) (w_now w) key text ->
  router r w = match Handler store MerchantFromContext api (seen r text m) w with
               | (Ok resp, w') => (Ok resp, w') | (Err _, w') => (Ok (mkResponse 500 ∅ None), w') end.
Proof.
  intros Hf [Hk Hm] (HM & HP & _ & _ & Hs). unfold NewRouter, Recoverer, chi_path. rewrite HM, (proj1 HP), (proj2 HP).
  change (bool_decide ("POST" ∈ chi_methods)) with true. change (String.eqb "POST" "GET") with false.
  change (String.prefix "/" _) with true. cbn [andb negb].
  assert (Hl : lookup_key NewPGKeyStore r w = (Ok (m, ak_secret_hash k), w))
    by (unfold lookup_key; cbn [Lookup NewPGKeyStore]; by rewrite pg_lookup_run, Hk, Hm by done).
  rewrite (middleware_accepts NewPGKeyStore _ r w m (ak_secret_hash k) text); [by rewrite Hl|by rewrite Hl|done].
Qed.

Lemma seen_keyed r m k key text now :
  keyed_post r (ak_secret_hash k) now key text -> keyed MerchantFromContext (seen r text m) m key text.
Proof.
  intros (HM & HP & Hh & [Hne Ht] & Hs). split_and!; try done.
  - unfold isMutating. simpl. by rewrite HM.
  - unfold IdemKey, Header_Get. cbn [req_Headers seen with_merchant]. change (CanonicalHeaderKey HeaderKey) with "Idempotency-Key". by rewrite Hh.
Qed.

Lemma mux_intents r : URL_Path r = intents_path -> URL_RawPath r = "" -> mux_match intents_path r = Some [].
Proof. intros HP HR. unfold mux_match, mux_path. rewrite HP, HR. vm_compute. reflexivity. Qed.

(** The generated mux hands a creation to its handler. *)
Lemma api_post r text m key secret now :
  keyed_post r secret now key text -> bind_string key = Ok key ->
  api (seen r text m) = Handlers_CreatePaymentIntent time_text decode_error h (seen r text m).
Proof.
  intros (HM & HP & Hh & Hne & Hs) Hb. unfold apispec_Handler.
  rewrite (mux_intents (seen r text m)) by apply HP. cbn [seen with_merchant Method]. rewrite HM.
  change (String.eqb "POST" "GET" || String.eqb "POST" "HEAD") with false. rewrite String.eqb_refl.
  unfold wrapper_CreatePaymentIntent. cbn [seen with_merchant req_Headers].
  change (CanonicalHeaderKey "Idempotency-Key") with "Idempotency-Key". by rewrite Hh, Hb.
Qed.

Lemma can_create_same m body rate usdc priv nonce ata w w' :
  (forall w, qr_provider (h_Quoter h) PairUSDCIDR w = (Ok rate, w)) ->
  w_db w' = w_db w -> w_rng w' = w_rng w -> w_faults w' = [] ->
  can_create h m body rate usdc priv nonce ata w -> can_create h m body rate usdc priv nonce ata w'.
Proof. intros Hp Hd Hr Hf []. split; rewrite ?Hd, ?Hr; done. Qed.

(** C6: One payment intent per retried request, through the whole stack: a signed
    creation with an idempotency key passes authentication, creates one quote and
    one intent for the key's merchant and is answered 201; whatever other traffic
    follows, with Redis present, absent, losing keys or down, any later signed
    request of that merchant with the same key and body is answered with the same
    status and body, marked as a replay, and creates nothing.  (The replay does
    not carry the Content-Type of the original.) *)
Theorem retried_creation_creates_once r m k key text body rate usdc priv nonce ata w :
  handlers_ok h -> coherent w ->
  sent_by r m (w_db w) k -> keyed_post r (ak_secret_hash k) (w_now w) key text -> bind_string key = Ok key ->
  decode_create_request text = Some body -> validateCreateRequest body = Ok tt ->
  (forall w, qr_provider (h_Quoter h) PairUSDCIDR w = (Ok rate, w)) ->
  can_create h m body rate usdc priv nonce ata w -> view (w_db w) m key = None ->
  exists out w',
    router r w = (Ok (writeJSON 201 (intent_json time_text out)), w') /\
    payment_intents (w_db w') = payment_intents (w_db w) ++ [created_intent h m body usdc priv nonce ata w] /\
    quotes (w_db w') = quotes (w_db w) ++ [created_quote h body rate usdc w] /\
    forall w2 r' k', serving store MerchantFromContext w' w2 -> w_faults w2 = [] ->
      sent_by r' m (w_db w2) k' -> keyed_post r' (ak_secret_hash k') (w_now w2) key text ->
      exists w3, router r' w2 =
        (Ok (mkResponse 201 (Header_Set ∅ "Idempotent-Replay" "true")
               (resp_Body (writeJSON 201 (intent_json time_text out)))), w3) /\ w_db w3 = w_db w2.
Proof.
  intros Hh Hcoh Hsent Hpost Hbind Hdec Hval Hprov Hc Hnone. pose proof (idempotency_store_ok redis ttl) as Hok.
  pose proof (cc_faults _ _ _ _ _ _ _ _ _ Hc) as Hf. pose proof (seen_keyed r m k key text _ Hpost) as Hkeyed.
  set (w0 := (store_Get store m key w).2).
  assert (Hd0 : w_db w0 = w_db w) by apply (get_db (store:=store)). assert (Hg0 : w_rng w0 = w_rng w) by apply (get_rng (store:=store)).
  destruct (get_quiet (store:=store) m key w) as [Hn0 Hf0]. fold w0 in Hn0, Hf0. specialize (Hf0 Hf).
  assert (Hc0 : can_create h m body rate usdc priv nonce ata w0) by (by eapply can_create_same).
  assert (Hcr : create_request (seen r text m) m body) by (split_and!; [done|by exists text|done]).
  destruct (create_new_run time_text h m body rate usdc priv nonce ata w0 Hh (create_request_amount _ _ _ Hcr) Hc0)
    as (out & w1 & Hnew & _ & Hdb1 & Hf1 & _).
  assert (Hrun : api (seen r text m) w0 = (Ok (writeJSON 201 (intent_json time_text out)), w1)).
  { rewrite (api_post _ _ _ _ _ _ Hpost Hbind), (create_lookup time_text decode_error h _ m body) by done.
    unfold mbind, M_bind, try, GetPaymentIntentByMerchantRef. rewrite select_run by done.
    rewrite (cc_text _ _ _ _ _ _ _ _ _ Hc0), (cc_fresh _ _ _ _ _ _ _ _ _ Hc0). cbn [Queries.one]. exact Hnew. }
  assert (Hdb1' : w_db w1 = created_db h m body rate usdc priv nonce ata w)
    by (rewrite Hdb1; unfold created_db, created_quote, issued_row, created_intent; by rewrite Hd0, Hg0, Hn0).
  destruct (handler_first store coherent MerchantFromContext api (seen r text m) m key text
    (writeJSON 201 (intent_json time_text out)) w w1 Hkeyed Hcoh Hf Hnone
    (api_leaves_keys _ _ _ _ _ _) Hrun Hf1) as (w' & Hrun' & Hcoh' & Hf' & Hdb' & Hview);
    [by rewrite Hdb1'|simpl; lia|by eexists|].
  exists out, w'. split_and!.
  - rewrite (router_post r m k key text) by done. by rewrite Hrun'.
  - rewrite Hdb'. simpl. by rewrite Hdb1'.
  - rewrite Hdb'. simpl. by rewrite Hdb1'.
  - intros w2 r' k' Hserve Hf2 Hsent' Hpost'.
    destruct (serving_kept store coherent MerchantFromContext _ _ Hserve Hcoh') as [Hcoh2 Hk2].
    destruct (handler_stored store coherent MerchantFromContext api (seen r' text m) m key text _ w2
      (seen_keyed r' m k' key text _ Hpost') Hcoh2 Hf2 (view_kept _ _ _ _ _ Hk2 Hview)) as (w3 & Hrun3 & Hdb3).
    exists w3. rewrite (router_post r' m k' key text) by done. rewrite Hrun3. cbn [RequestHash]. by rewrite String.eqb_refl.
Qed.
End end_to_end.

(** ** Witnesses: the demo merchant orders *)

Section example.
#[local] Existing Instance example_env.
#[local] Existing Instance example_env_ok.
#[local] Existing Instance example_solana.
#[local] Existing Instance example_solana_ok.
#[local] Existing Instance example_keys.
#[local] Existing Instance example_keys_ok.

Definition example_handlers : Handlers :=
  mkHandlers demo_quoter example_allocator 103%N 102%N 6 "Selatpay" "".

Lemma example_handlers_ok : handlers_ok example_handlers.
Proof. split; simpl; (discriminate || lia). Qed.

#[local] Instance demo_provider_ok : ProviderOk (h_Quoter example_handlers).
Proof.
  split; simpl.
  - intros pair w. unfold MockProvider_Rate. by case_match.
  - intros pair R HR. unfold MockProvider_Rate. case_match; wkeeps_auto.
  - by intros w.
  - intros R HR. wkeeps_auto.
Qed.

Definition order_text : string :=
  Marshal (JObj [("external_ref", JStr "order-1"); ("amount_idr", JNum 16200000)]).
Definition order_body : CreatePaymentIntentRequest := mkCreateRequest 16200000 None "order-1".

(** The client signs at second [secs]. *)
Definition order_request (secs : Z) : Request :=
  mkRequest "POST" intents_path ""
    (<["Idempotency-Key" := ["run-1"]]>
      (client_headers "demo-key-001" (ak_secret_hash example_key) "POST" intents_path secs order_text))
    (Ok order_text) None None.

Definition order_world : World := world_at (1700000000 * ns_per_s) auth_db.

Lemma order_decodes : decode_create_request order_text = Some order_body.
Proof. vm_compute. reflexivity. Qed.

Definition order_priv : string := Eval vm_compute in repeat_byte "k" 3.
Definition order_nonce : string := Eval vm_compute in repeat_byte "r" 12.

Lemma order_can_create :
  can_create example_handlers 50%N order_body (mkRate 16200 0) 1005025125 order_priv order_nonce 103102%N order_world.
Proof. split; try reflexivity; [eexists; reflexivity|simpl; lia]. Qed.

Lemma order_post secs : secs = 1700000000 \/ secs = 1700000100 ->
  keyed_post (order_request secs) (ak_secret_hash example_key) (secs * ns_per_s) "run-1" order_text.
Proof.
  intros Hs. split_and!; [reflexivity|reflexivity|reflexivity|reflexivity|discriminate|reflexivity|].
  apply signed_checked. split; [reflexivity|]. split; [discriminate|]. exists (secs * ns_per_s).
  destruct Hs as [-> | ->]; split_and!; vm_compute; (reflexivity || discriminate).
Qed.

(** The merchant on the context. *)
Definition order_seen : Request := seen (order_request 1700000000) order_text 50%N.

Lemma order_create_request : create_request order_seen 50%N order_body.
Proof. split_and!; [reflexivity|exists order_text; split; [reflexivity|apply order_decodes]|reflexivity]. Qed.

Definition order_intent : PaymentIntent :=
  created_intent example_handlers 50%N order_body 1005025125 order_priv order_nonce 103102%N order_world.
Definition order_quote : Models.Quote := created_quote example_handlers order_body (mkRate 16200 0) 1005025125 order_world.

Lemma pay_url_asks_quoted_amount_witness :
  buildPayURL example_handlers order_intent =
    Some (Ok "solana:103?amount=1005.025125&label=Selatpay&message=Order+order-1&reference=3&spl-token=102") /\
  exists url up, buildPayURL example_handlers order_intent = Some (Ok url) /\ ParseURL url = Ok up /\
    ParseAmount (up_Amount up) 6 = Ok 1005025125.
Proof.
  split; [vm_compute; reflexivity|].
  destruct (pay_url_asks_quoted_amount example_handlers order_intent 3%N) as (url & up & Hb & _ & Hp & _ & _ & _ & Ha).
  - apply example_handlers_ok.
  - split_and!; [reflexivity|discriminate|reflexivity|reflexivity].
  - exists url, up. split; [exact Hb|]. split; [exact Hp|exact Ha].
Defined.

Lemma create_intent_created_witness :
  exists resp w', Handlers_CreatePaymentIntent (fun _ => "t") (fun _ => "e") example_handlers order_seen order_world = (Ok resp, w') /\
    resp_Status resp = 201 /\ payment_intents (w_db w') = [order_intent].
Proof.
  destruct (create_intent_created (fun _ => "t") (fun _ => "e") example_handlers order_seen 50%N order_body (mkRate 16200 0)
    1005025125 order_priv order_nonce 103102%N order_world example_handlers_ok order_create_request order_can_create)
    as (out & url & w' & Hrun & Hdb & _).
  eexists _, w'. split; [exact Hrun|]. split; [reflexivity|]. rewrite Hdb. reflexivity.
Defined.

(** The world after the order. *)
Definition ordered_world : World :=
  world_at (1700000050 * ns_per_s) (created_db example_handlers 50%N order_body (mkRate 16200 0) 1005025125 order_priv order_nonce 103102%N order_world).

Lemma create_intent_repeated_witness :
  exists out, Handlers_CreatePaymentIntent (fun _ => "t") (fun _ => "e") example_handlers order_seen ordered_world =
    (Ok (writeJSON 200 (intent_json (fun _ => "t") out)), ordered_world) /\ ai_AmountIdr out = 16200000.
Proof.
  destruct (create_intent_repeated (fun _ => "t") (fun _ => "e") example_handlers order_seen 50%N order_body order_intent order_quote 3%N ordered_world)
    as (out & Hout & Hrun).
  - apply example_handlers_ok.
  - reflexivity.
  - apply order_create_request.
  - vm_compute. reflexivity.
  - vm_compute. reflexivity.
  - vm_compute. reflexivity.
  - split_and!; [reflexivity|discriminate|reflexivity|reflexivity].
  - exists out. split; [exact Hrun|]. assert (E : intentToAPI example_handlers order_intent order_quote = Some out) by exact Hout.
    unfold intentToAPI in E. destruct (buildPayURL example_handlers order_intent); [|discriminate E]. injection E as <-. reflexivity.
Defined.

(** Another merchant asks for the order. *)
Definition stranger_request : Request := mkRequest "GET" "/v1/payment_intents/5" "" ∅ (Ok "") (Some 51%N) None.

Lemma fetch_isolates_tenants_witness :
  (Handlers_GetPaymentIntent (fun _ => "t") example_handlers 5%N stranger_request ordered_world).1 =
  (Handlers_GetPaymentIntent (fun _ => "t") example_handlers 5%N stranger_request
    (set_db ordered_world (set_payment_intents (w_db ordered_world) []))).1 /\
  (Handlers_GetPaymentIntent (fun _ => "t") example_handlers 5%N stranger_request ordered_world).1 = Ok not_found.
Proof.
  destruct (fetch_isolates_tenants (fun _ => "t") example_handlers 5%N stranger_request 51%N ordered_world
    (set_db ordered_world (set_payment_intents (w_db ordered_world) []))) as [HE HN]; try reflexivity.
  - apply NoDup_singleton.
  - constructor.
  - split; [exact HE|]. apply HN. reflexivity.
Defined.

Lemma retried_creation_creates_once_witness :
  exists out w', NewRouter (fun _ => "t") (fun _ => "e") (fun _ => Ok 0%N) Ok (fun _ => http_Error "404 page not found" 404)
      example_handlers NewPGKeyStore true 0 (order_request 1700000000) order_world =
      (Ok (writeJSON 201 (intent_json (fun _ => "t") out)), w') /\
    payment_intents (w_db w') = [order_intent] /\
    exists w3, NewRouter (fun _ => "t") (fun _ => "e") (fun _ => Ok 0%N) Ok (fun _ => http_Error "404 page not found" 404)
      example_handlers NewPGKeyStore true 0 (order_request 1700000100)
      (set_redis (set_faults (set_now w' (1700000100 * ns_per_s)) []) (mkRedis ∅ [])) =
      (Ok (mkResponse 201 (Header_Set ∅ "Idempotent-Replay" "true")
             (resp_Body (writeJSON 201 (intent_json (fun _ => "t") out)))), w3) /\ w_db w3 = w_db w'.
Proof.
  destruct (retried_creation_creates_once (fun _ => "t") (fun _ => "e") (fun _ => Ok 0%N) Ok (fun _ => http_Error "404 page not found" 404)
    example_handlers true 0 (order_request 1700000000) 50%N example_key "run-1" order_text order_body (mkRate 16200 0) 1005025125
    order_priv order_nonce 103102%N order_world) as (out & w' & Hrun & Hint & Hq & Hlater).
  - apply example_handlers_ok.
  - apply coherent_empty. constructor.
  - split; reflexivity.
  - apply order_post. left. reflexivity.
  - reflexivity.
  - apply order_decodes.
  - reflexivity.
  - reflexivity.
  - apply order_can_create.
  - reflexivity.
  - exists out, w'. split; [exact Hrun|]. split; [rewrite Hint; reflexivity|].
    assert (Hdb : api_keys (w_db w') = [example_key] /\ merchants (w_db w') = [example_merchant]).
    { assert (E : (NewRouter (fun _ => "t") (fun _ => "e") (fun _ => Ok 0%N) Ok (fun _ => http_Error "404 page not found" 404)
        example_handlers NewPGKeyStore true 0 (order_request 1700000000) order_world).2 = w') by (rewrite Hrun; reflexivity).
      rewrite <- E. vm_compute. split; reflexivity. }
    destruct (Hlater (set_redis (set_faults (set_now w' (1700000100 * ns_per_s)) []) (mkRedis ∅ [])) (order_request 1700000100) example_key)
      as (w3 & Hrun3 & Hdb3).
    + apply rtc_once, traffic_idle. apply map_empty_subseteq.
    + reflexivity.
    + split; [|reflexivity]. unfold active_key. simpl. rewrite (proj1 Hdb), (proj2 Hdb). reflexivity.
    + apply order_post. right. reflexivity.
    + exists w3. split; [exact Hrun3|exact Hdb3].
Defined.
End example.
