(* ===== verification/StrictServer.v ===== *)
(** * The generated server code in full ([internal/api/apispec/apispec.gen.go])

    Api.v models the part the program runs: the wrappers and routes around its own
    handlers.  Here is the generic code they come from, over any [ServerInterface],
    with its options and errors, and the strict server, which turns functions from
    request objects to response objects into such an interface.  The program's
    routes are an instance of the generic ones ([apispec_Handler_generated]); its
    creation handler is not a strict one ([repeated_creation_undocumented]). *)

From S2P Require Import Prelude GoStr Sha256 MockBank Models World Http GoJson JsonDecode Queries Quoter AesGcm GoUrl Mux SolanaPay SplParser PayUrl Reference Idempotency IdemCache Auth Api ApiSpec ApiRouter.
From Stdlib Require Import Ascii String.

(** ** Errors of parameter binding *)

Inductive ParamError :=
  | UnescapedCookieParamError (ParamName : string) (e : err)
  | UnmarshalingParamError (ParamName : string) (e : err)
  | RequiredParamError (ParamName : string)
  | RequiredHeaderError (ParamName : string) (e : err)
  | InvalidParamFormatError (ParamName : string) (e : err)
  | TooManyValuesForParamError (ParamName : string) (Count : Z).

(** [e.Error()]. *)
Definition ParamError_Error (e : ParamError) : string :=
  match e with
  | UnescapedCookieParamError p _ => "error unescaping cookie parameter '" +:+ p +:+ "'"
  | UnmarshalingParamError p e => "Error unmarshaling parameter " +:+ p +:+ " as JSON: " +:+ Error e
  | RequiredParamError p => "Query argument " +:+ p +:+ " is required, but not found"
  | RequiredHeaderError p _ => "Header parameter " +:+ p +:+ " is required, but not found"
  | InvalidParamFormatError p e => "Invalid format for parameter " +:+ p +:+ ": " +:+ Error e
  | TooManyValuesForParamError p n => "Expected one value for " +:+ p +:+ ", got " +:+ FormatUint n
  end.

(** [e.Unwrap()], where the type has the method. *)
Definition ParamError_Unwrap (e : ParamError) : option err :=
  match e with
  | UnescapedCookieParamError _ e | UnmarshalingParamError _ e | RequiredHeaderError _ e | InvalidParamFormatError _ e => Some e
  | RequiredParamError _ | TooManyValuesForParamError _ _ => None
  end.

(** ** The server interface and its routes *)

Record CreatePaymentIntentParams := mkCreateParams { IdempotencyKey_param : option string }.

Record ServerInterface := mkServerInterface {
  si_Healthz : http_Handler;
  si_CreatePaymentIntent : CreatePaymentIntentParams -> http_Handler;
  si_GetPaymentIntent : uuid -> http_Handler
}.

Definition MiddlewareFunc : Type := http_Handler -> http_Handler.

Record ServerInterfaceWrapper := mkServerInterfaceWrapper {
  siw_Handler : ServerInterface; HandlerMiddlewares : list MiddlewareFunc;
  siw_ErrorHandlerFunc : Request -> ParamError -> Response
}.

(** [for _, middleware := range ... { handler = middleware(handler) }]: the last one
    is the outermost. *)
Definition wrap_all (ms : list MiddlewareFunc) (h : http_Handler) : http_Handler :=
  fold_left (fun handler middleware => middleware handler) ms h.

(** A nil [BaseRouter] or [ErrorHandlerFunc] is [None]. *)
Record StdHTTPServerOptions := mkStdOptions {
  BaseURL : string; BaseRouter : option http_Handler; Middlewares : list MiddlewareFunc;
  std_ErrorHandlerFunc : option (Request -> ParamError -> Response)
}.

Section generated.
Context (bind_uuid : string -> res uuid) (bind_string : string -> res string) (not_routed : Request -> Response).

Definition siw_Healthz (siw : ServerInterfaceWrapper) : http_Handler :=
  wrap_all (HandlerMiddlewares siw) (si_Healthz (siw_Handler siw)).

Definition siw_CreatePaymentIntent (siw : ServerInterfaceWrapper) : http_Handler := fun r =>
  let serve p := wrap_all (HandlerMiddlewares siw) (si_CreatePaymentIntent (siw_Handler siw) (mkCreateParams p)) r in
  match req_Headers r !! CanonicalHeaderKey "Idempotency-Key" with
  | None => serve None
  | Some [v] =>
    match bind_string v with
    | Err e => mret (siw_ErrorHandlerFunc siw r (InvalidParamFormatError "Idempotency-Key" e))
    | Ok key => serve (Some key)
    end
  | Some valueList =>
    mret (siw_ErrorHandlerFunc siw r (TooManyValuesForParamError "Idempotency-Key" (Z.of_nat (List.length valueList))))
  end.

Definition siw_GetPaymentIntent (siw : ServerInterfaceWrapper) (id : string) : http_Handler := fun r =>
  match bind_uuid id with
  | Err e => mret (siw_ErrorHandlerFunc siw r (InvalidParamFormatError "id" e))
  | Ok id => wrap_all (HandlerMiddlewares siw) (si_GetPaymentIntent (siw_Handler siw) id) r
  end.

(** The default error handler: [http.Error(w, err.Error(), 400)]. *)
Definition default_param_error : Request -> ParamError -> Response := fun _ e => http_Error (ParamError_Error e) 400.

(** The patterns are registered on [m]; a request none of them matches is answered
    by the patterns [m] had before, or as net/http's new mux does.  (net/http
    panics when patterns conflict; those of [m] are taken not to.  [BaseURL] is taken
    to be a path without a host or wildcards.) *)
Definition HandlerWithOptions (si : ServerInterface) (options : StdHTTPServerOptions) : http_Handler := fun r =>
  let siw := mkServerInterfaceWrapper si (Middlewares options) (default default_param_error (std_ErrorHandlerFunc options)) in
  let get := String.eqb (Method r) "GET" || String.eqb (Method r) "HEAD" in
  let rest := match BaseRouter options with Some m => m r | None => mret (not_routed r) end in
  match (if get then mux_match (BaseURL options +:+ "/healthz") r else None),
        (if String.eqb (Method r) "POST" then mux_match (BaseURL options +:+ intents_path) r else None),
        (if get then mux_match (BaseURL options +:+ intents_path +:+ "/{id}") r else None) with
  | Some _, _, _ => siw_Healthz siw r
  | _, Some _, _ => siw_CreatePaymentIntent siw r
  | _, _, Some [id] => siw_GetPaymentIntent siw id r
  | _, _, _ => rest
  end.

Definition apispec_HandlerOf (si : ServerInterface) : http_Handler := HandlerWithOptions si (mkStdOptions "" None [] None).
Definition HandlerFromMux (si : ServerInterface) (m : http_Handler) : http_Handler :=
  HandlerWithOptions si (mkStdOptions "" (Some m) [] None).
Definition HandlerFromMuxWithBaseURL (si : ServerInterface) (m : http_Handler) (baseURL : string) : http_Handler :=
  HandlerWithOptions si (mkStdOptions baseURL (Some m) [] None).
End generated.

(** ** Response writers *)

(** Headers still open; the status and headers sent, if any; the bytes written; and
    whether the connection is gone, which makes writes fail. *)
Record ResponseWriter := mkWriter {
  rw_header : gmap string string; rw_sent : option (Z * gmap string string);
  rw_body : option string; rw_gone : bool
}.

Definition new_writer (gone : bool) : ResponseWriter := mkWriter ∅ None None gone.

(** [w.Header().Set(k, v)]. *)
Definition rw_Set (w : ResponseWriter) (k v : string) : ResponseWriter :=
  mkWriter (Header_Set (rw_header w) k v) (rw_sent w) (rw_body w) (rw_gone w).

(** Only the first [WriteHeader] counts; it sends the headers set so far. *)
Definition WriteHeader (w : ResponseWriter) (status : Z) : ResponseWriter :=
  match rw_sent w with
  | Some _ => w
  | None => mkWriter (rw_header w) (Some (status, rw_header w)) (rw_body w) (rw_gone w)
  end.

Definition rw_Write (w : ResponseWriter) (s : string) : ResponseWriter * res unit :=
  let w := WriteHeader w 200 in
  if rw_gone w then (w, Err ErrConn)
  else (mkWriter (rw_header w) (rw_sent w) (Some (default "" (rw_body w) +:+ s)) (rw_gone w), Ok tt).

(** [http.Error]. *)
Definition rw_Error (w : ResponseWriter) (msg : string) (status : Z) : ResponseWriter :=
  (rw_Write (WriteHeader (rw_Set (rw_Set w "Content-Type" "text/plain; charset=utf-8") "X-Content-Type-Options" "nosniff") status)
     (msg +:+ newline)).1.

(** What was sent when the handler returned. *)
Definition sent (w : ResponseWriter) : Response :=
  match rw_sent w with
  | Some (status, header) => mkResponse status header (rw_body w)
  | None => mkResponse 200 (rw_header w) (rw_body w)
  end.

(** ** The strict server *)

(** [Details] is a map, encoded in the order of its keys. *)
Record apispec_Error := mkApiError { ae_Code : string; ae_Details : option (list (string * json)); ae_Message : string }.

Definition error_json (e : apispec_Error) : json :=
  JObj ([("code", JStr (ae_Code e))] ++ match ae_Details e with Some d => [("details", JObj d)] | None => [] end
        ++ [("message", JStr (ae_Message e))]).

Record HealthzRequestObject := mkHealthzRequest {}.
Record CreatePaymentIntentRequestObject := mkCreateRequestObject {
  cr_Params : CreatePaymentIntentParams; cr_Body : option CreatePaymentIntentRequest
}.
Record GetPaymentIntentRequestObject := mkGetRequestObject { gr_Id : uuid }.

Inductive HealthzResponseObject := Healthz200TextResponse (s : string).
Inductive CreatePaymentIntentResponseObject :=
  | CreatePaymentIntent201JSONResponse (p : apispec_PaymentIntent)
  | CreatePaymentIntent400JSONResponse (e : apispec_Error)
  | CreatePaymentIntent401JSONResponse (e : apispec_Error)
  | CreatePaymentIntent409JSONResponse (e : apispec_Error).
Inductive GetPaymentIntentResponseObject :=
  | GetPaymentIntent200JSONResponse (p : apispec_PaymentIntent)
  | GetPaymentIntent404JSONResponse (e : apispec_Error).

(** The [interface{}] values strict middlewares pass on. *)
Inductive any :=
  | AnyNil
  | AnyHealthzRequest (r : HealthzRequestObject)
  | AnyCreateRequest (r : CreatePaymentIntentRequestObject)
  | AnyGetRequest (r : GetPaymentIntentRequestObject)
  | AnyHealthz (r : HealthzResponseObject)
  | AnyCreate (r : CreatePaymentIntentResponseObject)
  | AnyGet (r : GetPaymentIntentResponseObject)
  | AnyOther (type_name : string).

(** A handler may write to [w] itself; an error of [M] is a panic. *)
Definition StrictHandlerFunc : Type := ResponseWriter -> Request -> any -> M (ResponseWriter * res any).
Definition StrictMiddlewareFunc : Type := StrictHandlerFunc -> string -> StrictHandlerFunc.

(** A nil response object is [None]. *)
Record StrictServerInterface := mkStrictServer {
  ssi_Healthz : Request -> HealthzRequestObject -> M (res (option HealthzResponseObject));
  ssi_CreatePaymentIntent : Request -> CreatePaymentIntentRequestObject -> M (res (option CreatePaymentIntentResponseObject));
  ssi_GetPaymentIntent : Request -> GetPaymentIntentRequestObject -> M (res (option GetPaymentIntentResponseObject))
}.

Record StrictHTTPServerOptions := mkStrictOptions {
  RequestErrorHandlerFunc : ResponseWriter -> Request -> err -> ResponseWriter;
  ResponseErrorHandlerFunc : ResponseWriter -> Request -> err -> ResponseWriter
}.

Record strictHandler := mkStrictHandler {
  sh_ssi : StrictServerInterface; sh_middlewares : list StrictMiddlewareFunc; sh_options : StrictHTTPServerOptions
}.

Section strict.
Context `{Env} (time_text : Z -> string) (decode_error : string -> string).
(** The dynamic type of a value, as [%T] prints it. *)
Context (type_name : any -> string).

Definition visit_json (status : Z) (v : json) (w : ResponseWriter) : ResponseWriter * res unit :=
  rw_Write (WriteHeader (rw_Set w "Content-Type" "application/json") status) (Marshal v +:+ newline).

Definition VisitHealthzResponse (r : HealthzResponseObject) (w : ResponseWriter) : ResponseWriter * res unit :=
  match r with
  | Healthz200TextResponse s => rw_Write (WriteHeader (rw_Set w "Content-Type" "text/plain") 200) s
  end.

Definition VisitCreatePaymentIntentResponse (r : CreatePaymentIntentResponseObject) (w : ResponseWriter) : ResponseWriter * res unit :=
  match r with
  | CreatePaymentIntent201JSONResponse p => visit_json 201 (intent_json time_text p) w
  | CreatePaymentIntent400JSONResponse e => visit_json 400 (error_json e) w
  | CreatePaymentIntent401JSONResponse e => visit_json 401 (error_json e) w
  | CreatePaymentIntent409JSONResponse e => visit_json 409 (error_json e) w
  end.

Definition VisitGetPaymentIntentResponse (r : GetPaymentIntentResponseObject) (w : ResponseWriter) : ResponseWriter * res unit :=
  match r with
  | GetPaymentIntent200JSONResponse p => visit_json 200 (intent_json time_text p) w
  | GetPaymentIntent404JSONResponse e => visit_json 404 (error_json e) w
  end.

Definition default_strict_options : StrictHTTPServerOptions :=
  mkStrictOptions (fun w _ e => rw_Error w (Error e) 400) (fun w _ e => rw_Error w (Error e) 500).

(** The end of the three operations: [visit] is the type assertion to the
    operation's response type and its Visit method, [None] when it fails. *)
Definition finish (sh : strictHandler) (r : Request) (visit : any -> option (ResponseWriter -> ResponseWriter * res unit))
    (answer : ResponseWriter * res any) : Response :=
  let failed w e := ResponseErrorHandlerFunc (sh_options sh) w r e in
  let '(w, response) := answer in
  sent match response with
  | Err e => failed w e
  | Ok response =>
    match visit response with
    | Some write => match write w with (w, Err e) => failed w e | (w, Ok _) => w end
    | None =>
      match response with
      | AnyNil => w
      | _ => failed w (ErrMsg ("unexpected response type: " +:+ type_name response))
      end
    end
  end.

Definition with_middlewares (sh : strictHandler) (op : string) (h : StrictHandlerFunc) : StrictHandlerFunc :=
  fold_left (fun handler middleware => middleware handler op) (sh_middlewares sh) h.

(** A request object of another type makes the assertion panic. *)
Definition strict_Healthz (sh : strictHandler) (gone : bool) : http_Handler := fun r =>
  answer ← with_middlewares sh "Healthz" (fun w r request =>
    match request with
    | AnyHealthzRequest o =>
      res ← ssi_Healthz (sh_ssi sh) r o;
      mret (w, match res with Err e => Err e | Ok o => Ok (from_option AnyHealthz AnyNil o) end)
    | _ => throw ErrPanic
    end) (new_writer gone) r (AnyHealthzRequest mkHealthzRequest);
  mret (finish sh r (fun a => match a with AnyHealthz o => Some (VisitHealthzResponse o) | _ => None end) answer).

Definition strict_CreatePaymentIntent (sh : strictHandler) (gone : bool) (params : CreatePaymentIntentParams) : http_Handler := fun r =>
  match match Body r with Ok text => decode_create_request text | Err _ => None end with
  | None =>
    let e := match Body r with Ok text => ErrMsg (decode_error text) | Err e => e end in
    mret (sent (RequestErrorHandlerFunc (sh_options sh) (new_writer gone) r (ErrWrap "can't decode JSON body" e)))
  | Some body =>
    answer ← with_middlewares sh "CreatePaymentIntent" (fun w r request =>
      match request with
      | AnyCreateRequest o =>
        res ← ssi_CreatePaymentIntent (sh_ssi sh) r o;
        mret (w, match res with Err e => Err e | Ok o => Ok (from_option AnyCreate AnyNil o) end)
      | _ => throw ErrPanic
      end) (new_writer gone) r (AnyCreateRequest (mkCreateRequestObject params (Some body)));
    mret (finish sh r (fun a => match a with AnyCreate o => Some (VisitCreatePaymentIntentResponse o) | _ => None end) answer)
  end.

Definition strict_GetPaymentIntent (sh : strictHandler) (gone : bool) (id : uuid) : http_Handler := fun r =>
  answer ← with_middlewares sh "GetPaymentIntent" (fun w r request =>
    match request with
    | AnyGetRequest o =>
      res ← ssi_GetPaymentIntent (sh_ssi sh) r o;
      mret (w, match res with Err e => Err e | Ok o => Ok (from_option AnyGet AnyNil o) end)
    | _ => throw ErrPanic
    end) (new_writer gone) r (AnyGetRequest (mkGetRequestObject id));
  mret (finish sh r (fun a => match a with AnyGet o => Some (VisitGetPaymentIntentResponse o) | _ => None end) answer).

Definition server_of (sh : strictHandler) (gone : bool) : ServerInterface :=
  mkServerInterface (strict_Healthz sh gone) (strict_CreatePaymentIntent sh gone) (strict_GetPaymentIntent sh gone).

Definition NewStrictHandlerWithOptions (ssi : StrictServerInterface) (ms : list StrictMiddlewareFunc) (options : StrictHTTPServerOptions) :
  bool -> ServerInterface := server_of (mkStrictHandler ssi ms options).
Definition NewStrictHandler (ssi : StrictServerInterface) (ms : list StrictMiddlewareFunc) : bool -> ServerInterface :=
  server_of (mkStrictHandler ssi ms default_strict_options).

(** ** What a strict server can answer *)

(** The body of a strict creation, without middlewares. *)
Lemma strict_create_run ssi params r w text body o w' :
  Body r = Ok text -> decode_create_request text = Some body ->
  ssi_CreatePaymentIntent ssi r (mkCreateRequestObject params (Some body)) w = (Ok (Ok (Some o)), w') ->
  si_CreatePaymentIntent (NewStrictHandler ssi [] false) params r w =
    (Ok match o with
        | CreatePaymentIntent201JSONResponse p => writeJSON 201 (intent_json time_text p)
        | CreatePaymentIntent400JSONResponse e => writeJSON 400 (error_json e)
        | CreatePaymentIntent401JSONResponse e => writeJSON 401 (error_json e)
        | CreatePaymentIntent409JSONResponse e => writeJSON 409 (error_json e)
        end, w').
Proof.
  intros Hb Hd Hs. cbn. unfold strict_CreatePaymentIntent. rewrite Hb, Hd.
  unfold with_middlewares, mbind, M_bind. cbn. rewrite Hs. by destruct o.
Qed.

(** The statuses a client can see: those of the document, 400 and 500 from the error
    handlers, and 200 with an empty body for a nil response. *)
Lemma strict_create_statuses ssi gone params r w resp w' :
  si_CreatePaymentIntent (NewStrictHandler ssi [] gone) params r w = (Ok resp, w') ->
  resp_Status resp ∈ [201; 400; 401; 409; 500] \/ resp = mkResponse 200 ∅ None.
Proof.
  cbn. unfold strict_CreatePaymentIntent. destruct (match Body r with Ok text => _ | Err _ => _ end) as [body|]; cbn.
  2: (intros [= <- <-]; left; cbn; destruct gone; set_solver).
  unfold with_middlewares, mbind, M_bind. cbn.
  destruct (ssi_CreatePaymentIntent _ _ _ _) as [[[[o|]|e1]|e1] w1]; cbn; try discriminate; intros [= <- <-]; try by right.
  all: left; destruct gone; try destruct o; cbn; set_solver.
Qed.
End strict.

(** ** The program's server *)

Section program.
Context `{Env} `{Solana} `{!SolanaOk _} `{Keys} `{!KeysOk _}
  (time_text : Z -> string) (decode_error : string -> string)
  (bind_uuid : string -> res uuid) (bind_string : string -> res string) (not_routed : Request -> Response)
  (type_name : any -> string) (h : Handlers).

(** [*Handlers] as a [ServerInterface]; the idempotency key on the parameters is not used. *)
Definition handlers_interface : ServerInterface :=
  mkServerInterface Healthz (fun _ => Handlers_CreatePaymentIntent time_text decode_error h) (Handlers_GetPaymentIntent time_text h).

(** The program's routes are [apispec.Handler(h)]. *)
Theorem apispec_Handler_generated r :
  apispec_Handler time_text decode_error bind_uuid bind_string not_routed h r =
  apispec_HandlerOf bind_uuid bind_string not_routed handlers_interface r.
Proof.
  set (siw := mkServerInterfaceWrapper handlers_interface [] default_param_error).
  assert (Hc : siw_CreatePaymentIntent bind_string siw r = wrapper_CreatePaymentIntent time_text decode_error bind_string h r).
  { unfold siw_CreatePaymentIntent, wrapper_CreatePaymentIntent. destruct (req_Headers r !! _) as [[|v [|]]|]; try done. }
  assert (Hg : forall id, siw_GetPaymentIntent bind_uuid siw id r = wrapper_GetPaymentIntent time_text bind_uuid h id r).
  { intros id. unfold siw_GetPaymentIntent, wrapper_GetPaymentIntent. by destruct (bind_uuid id). }
  unfold apispec_HandlerOf, HandlerWithOptions, apispec_Handler. cbv zeta.
  cbn [BaseURL BaseRouter Middlewares std_ErrorHandlerFunc default]. fold siw. rewrite Hc.
  set (get := String.eqb (Method r) "GET" || _).
  change ("" +:+ ?s) with s.
  by repeat case_match; simplify_eq; rewrite ?Hg.
Qed.

(** The hand-written creation handler leaves the contract of the API document: no
    server generated from the document, whatever implements its operation, can
    answer a repeated creation as the handler does, with a 200 and the stored
    intent; every status it can send is 201, 400, 401, 409 or 500, or it sends an
    empty 200. *)
Theorem repeated_creation_undocumented ssi gone params r m body p q ref w :
  handlers_ok h -> w_faults w = [] -> create_request r m body -> text_ok (ExternalRef body) = true ->
  find_row (intent_by_ref m (ExternalRef body)) (payment_intents (w_db w)) = Some p ->
  find_row (by_id q_id (pi_quote_id p)) (quotes (w_db w)) = Some q -> referenced p ref ->
  exists resp, Handlers_CreatePaymentIntent time_text decode_error h r w = (Ok resp, w) /\ resp_Status resp = 200 /\
    (si_CreatePaymentIntent (NewStrictHandler time_text decode_error type_name ssi [] gone) params r w).1 <> Ok resp.
Proof.
  intros Hh Hf Hr Ht Hp Hq Href.
  destruct (create_intent_repeated time_text decode_error h r m body p q ref w Hh Hf Hr Ht Hp Hq Href) as (out & _ & Hrun).
  eexists. split; [exact Hrun|]. split; [done|].
  destruct (si_CreatePaymentIntent _ params r w) as [res w'] eqn:E. cbn [fst]. intros ->.
  apply strict_create_statuses in E as [Hs|Hs]; [|discriminate Hs].
  cbn in Hs. by apply (bool_decide_pack _) in Hs.
Qed.
End program.

(** ** Witness: the demo order, sent twice *)

Section strict_example.
#[local] Existing Instance example_env.
#[local] Existing Instance example_solana.
#[local] Existing Instance example_solana_ok.
#[local] Existing Instance example_keys.
#[local] Existing Instance example_keys_ok.

(** A strict implementation that reports the conflict the document provides for. *)
Definition conflict_ssi : StrictServerInterface := mkStrictServer
  (fun _ _ => mret (Ok (Some (Healthz200TextResponse "ok"))))
  (fun _ o => mret (Ok (Some (CreatePaymentIntent409JSONResponse
    (mkApiError "conflict" None (from_option ExternalRef "" (cr_Body o)))))))
  (fun _ _ => mret (Err (ErrMsg "no"))).

Lemma repeated_creation_undocumented_witness :
  let strict := NewStrictHandler (fun _ => "t") (fun _ => "e") (fun _ => "any") conflict_ssi [] false in
  exists resp, Handlers_CreatePaymentIntent (fun _ => "t") (fun _ => "e") example_handlers order_seen ordered_world = (Ok resp, ordered_world) /\
    resp_Status resp = 200 /\
    (si_CreatePaymentIntent strict (mkCreateParams None) order_seen ordered_world).1 <> Ok resp /\
    (si_CreatePaymentIntent strict (mkCreateParams None) order_seen ordered_world).1 =
      Ok (writeJSON 409 (JObj [("code", JStr "conflict"); ("message", JStr "order-1")])).
Proof.
  destruct (repeated_creation_undocumented (fun _ => "t") (fun _ => "e") (fun _ => "any") example_handlers conflict_ssi false
    (mkCreateParams None) order_seen 50%N order_body order_intent order_quote 3%N ordered_world) as (resp & Hrun & Hs & Hne).
  - apply example_handlers_ok.
  - reflexivity.
  - apply order_create_request.
  - vm_compute. reflexivity.
  - vm_compute. reflexivity.
  - vm_compute. reflexivity.
  - split_and!; [reflexivity|discriminate|reflexivity|reflexivity].
  - exists resp. split; [exact Hrun|]. split; [exact Hs|]. split; [exact Hne|]. vm_compute. reflexivity.
Defined.
End strict_example.
