(* ===== verification/System.v ===== *)
(** * The running system

    The processes of the deployment (watchers, orchestrator workers, outbox
    dispatchers, API servers) share the database.  A step of the system is one
    operation of one process: a dispatcher pass, a processed signature, one unit
    of a worker's tick (its claim, the transaction of its step, the bookkeeping of
    a failure, for a run it may have claimed long ago), an API request or one
    writing statement of it.  Between steps time passes and the environment
    chooses faults, RPC answers and what happens to bank requests.
    [system_ok] is the invariant of every reachable state. *)

From S2P Require Import Prelude GoStr Sha256 MockBank Models World GoJson Queries Ledger Backoff Payout Outbox Saga SagaSteps Settlement HappyPath Scenarios Quoter SplParser Watcher Http Reference Idempotency IdemCache Auth Api ApiRouter.

(** ** Runs survive every writer of [saga_runs] *)

(** Deposits are untouched and no intent loses its run. *)
Definition settle_rel (d d' : DB) : Prop :=
  onchain_payments d' = onchain_payments d /\ forall i, has_run d i -> has_run d' i.

#[global] Instance settle_rel_preorder : PreOrder settle_rel.
Proof. split; [by split|]. intros d1 d2 d3 [E1 H1] [E2 H2]. split; [congruence|auto]. Qed.

#[global] Instance settle_rel_payouts : Frames settle_rel set_payouts. Proof. done. Qed.
#[global] Instance settle_rel_intents : Frames settle_rel set_payment_intents. Proof. done. Qed.
#[global] Instance settle_rel_quotes : Frames settle_rel set_quotes. Proof. done. Qed.
#[global] Instance settle_rel_outbox : Frames settle_rel set_outbox. Proof. done. Qed.
#[global] Instance settle_rel_entries : Frames settle_rel set_journal_entries. Proof. done. Qed.
#[global] Instance settle_rel_postings : Frames settle_rel set_postings. Proof. done. Qed.

Lemma settle_rel_ok d d' : settle_rel d d' -> deposits_ok d -> deposits_ok d'.
Proof. intros [E Hr] [Hnd Ha]. split; rewrite E; [done|]. intros p i Hp Hc Hi. apply Hr. by eapply Ha. Qed.

Section runs.
Context `{Env}.

Lemma settle_rel_update d P f :
  (forall r, sr_intent_id (f r) = sr_intent_id r /\ sr_saga_kind (f r) = sr_saga_kind r) ->
  settle_rel d (set_saga_runs d (update_where P f (saga_runs d))).
Proof.
  intros Hf. split; [done|]. intros i (r & Hr & Hi). exists (if P r then f r else r).
  split; [by apply update_where_elem_of|]. destruct (P r); [|done]. unfold run_of_intent in *.
  by destruct (Hf r) as [-> ->].
Qed.

Ltac solve_settle :=
  intros; apply keeps_stmt; [apply _|]; intros; simpl; repeat case_match; simpl;
  first [reflexivity | by apply settle_rel_update].

Lemma settle_AdvanceSagaStep id s : keeps settle_rel (AdvanceSagaStep id s).
Proof. solve_settle. Qed.
Lemma settle_ClaimDueSagaRun o l : keeps settle_rel (ClaimDueSagaRun o l).
Proof. solve_settle. Qed.
Lemma settle_CompleteSagaRun id : keeps settle_rel (CompleteSagaRun id).
Proof. solve_settle. Qed.
Lemma settle_FailSagaRun id e : keeps settle_rel (FailSagaRun id e).
Proof. solve_settle. Qed.
Lemma settle_ScheduleSagaRetry id t e : keeps settle_rel (ScheduleSagaRetry id t e).
Proof. solve_settle. Qed.
#[local] Hint Resolve settle_AdvanceSagaStep settle_ClaimDueSagaRun settle_CompleteSagaRun
  settle_FailSagaRun settle_ScheduleSagaRetry : keeps.

Lemma settle_PostTx e : keeps settle_rel (PostTx e).
Proof.
  assert (forall id ls, keeps settle_rel (insert_lines id ls)) as Hl
    by (intros id ls; induction ls as [|l ls IH]; simpl; keeps_auto).
  unfold PostTx, postWith. keeps_auto.
Qed.

Lemma settle_step deps name st run :
  rails_ok deps -> Registry_Get (settlement_registry deps) name = Some st -> keeps settle_rel (Execute st run).
Proof.
  intros Hr [[_ ->]|[[_ ->]|[[_ ->]|[_ ->]]]]%settlement_steps; simpl.
  - apply keeps_CreditDeposit; try apply _. apply settle_PostTx.
  - apply keeps_TriggerPayout; try apply _; done.
  - apply keeps_ApplyPayoutResult; try apply _. apply settle_PostTx.
  - apply keeps_EmitCompleted; apply _.
Qed.

Lemma settle_op r deps m :
  rails_ok deps -> registry r = settlement_registry deps -> worker_op r m -> keeps settle_rel m.
Proof.
  intros Hr Hreg [|name st run Hget|id cause|run e].
  - unfold claim. keeps_auto.
  - rewrite Hreg in Hget. pose proof (settle_step deps _ st run Hr Hget). unfold executeStep. keeps_auto.
  - unfold failRun. keeps_auto.
  - unfold handleFailure, failRun, scheduleRetry, Delay. keeps_auto.
Qed.
End runs.

(** ** The invariant *)

Section system.
Context `{Env} `{Solana}.

(** Balanced books; one row per deposit and a saga for every final linked one;
    every payout recorded as succeeded paid by the bank, and no key paid twice. *)
Record system_ok (w : World) : Prop := {
  sys_books : books_ok (w_db w);
  sys_deposits : deposits_ok (w_db w);
  sys_backed : backed_world w
}.

Definition sound {A} (m : M A) : Prop := forall w, system_ok w -> system_ok (m w).2.

#[global] Instance keeps_backed_quotes ks : Frames (keeps_backed ks) set_quotes.
Proof. by apply keeps_backed_frame. Qed.
#[global] Instance keeps_backed_onchain ks : Frames (keeps_backed ks) set_onchain_payments.
Proof. by apply keeps_backed_frame. Qed.

(** Code that keeps away from the bank, the ledger and the payouts. *)
Lemma sound_offline {A} (m : M A) :
  offline m -> keeps same_ledger m -> keeps (fun d d' => deposits_ok d -> deposits_ok d') m ->
  (forall ks, keeps (keeps_backed ks) m) -> sound m.
Proof.
  intros Ho Hl Hd Hb w [Hbooks Hdep Hback]. split.
  - exact (books_same_ledger _ _ (Hl w) Hbooks).
  - by apply Hd.
  - by apply safe_offline.
Qed.

Lemma settle_deposits {A} (m : M A) : keeps settle_rel m -> keeps (fun d d' => deposits_ok d -> deposits_ok d') m.
Proof. intros Hm w. apply settle_rel_ok, Hm. Qed.

Lemma sound_op r deps m :
  rails_ok deps -> registry r = settlement_registry deps -> worker_op r m -> sound m.
Proof.
  intros Hr Hreg Hop w [Hbooks Hdep Hback]. split.
  - apply (keeps_books_op r m); [rewrite Hreg; by apply settlement_registry_ok|done..].
  - eapply settle_rel_ok; [by eapply settle_op|done].
  - by apply (safe_op r deps m).
Qed.

Lemma sound_watch_op wt m : RPCClientOk (w_rpc wt) -> watch_op wt m -> sound m.
Proof.
  intros Hrpc Hop. apply sound_offline.
  - by eapply offline_watch_op.
  - apply (keeps_watch_op wt same_ledger (fun sig c => keeps_ProcessSignature_frame wt same_ledger sig c) m Hop).
  - intros w. apply (keeps_watch_op wt deposits_step (fun sig c => keeps_ProcessSignature wt sig c) m Hop w).
  - intros ks.
    apply (keeps_watch_op wt (keeps_backed ks)
      (fun sig c => keeps_ProcessSignature_frame wt (keeps_backed ks) sig c) m Hop).
Qed.

(** ** The dispatcher *)

Lemma keeps_drain (R : DB -> DB -> Prop) `{!PreOrder R} cfg send :
  (forall rows, keeps R (dispatch_rows cfg send rows)) -> keeps R (drainOnce cfg send).
Proof.
  intros Hrows w. unfold drainOnce. pose proof (pop_fault_db w) as E. destruct (pop_fault w) as [flt w0]. simpl in E.
  rewrite <- E. destruct flt; simpl; [|reflexivity..].
  destruct (ClaimDueOutbox _ _ w0) as [[rows|e] w1] eqn:Ec; [|simpl; reflexivity].
  assert (Ed : w_db w1 = w_db w0) by (by apply stmt_Ok in Ec as (_ & -> & _)).
  destruct rows as [|row rows]; [simpl; reflexivity|].
  pose proof (Hrows (row :: rows) w1) as Hk. rewrite Ed in Hk.
  destruct (dispatch_rows cfg send (row :: rows) w1) as [[u|e] w2]; simpl in *; [|reflexivity].
  destruct (commit_cases (w_db w0) w2) as [(w3 & -> & Hd)|(e & w3 & -> & [Hd|Hd])]; simpl; rewrite Hd;
    [done|reflexivity|done].
Qed.

Lemma keeps_drainOnce (R : DB -> DB -> Prop) `{!PreOrder R} `{!Frames R set_outbox} cfg send :
  SenderOk send -> keeps R (drainOnce cfg send).
Proof. intros Hs. apply keeps_drain; [apply _|]. intros. by apply keeps_dispatch_rows. Qed.

Lemma offline_dispatch_rows cfg send rows :
  (forall msg, offline (send msg)) -> offline (dispatch_rows cfg send rows).
Proof.
  intros Hs. induction rows as [|row rows IH]; simpl; [wkeeps_auto|]. apply wkeeps_bind; [apply _| |done].
  unfold dispatch_row, retry_delay, computeBackoff. wkeeps_auto.
Qed.

Lemma offline_drainOnce cfg send : (forall msg, offline (send msg)) -> offline (drainOnce cfg send).
Proof.
  intros Hs w. unfold drainOnce. pose proof (wr_pop (R := offline_rel) w) as Hp. destruct (pop_fault w) as [flt w0]. simpl in Hp.
  destruct flt; simpl; [|done..]. etransitivity; [exact Hp|].
  assert (Hc' : offline_rel w0 (ClaimDueOutbox (dc_Topic cfg) (dc_BatchSize cfg) w0).2)
    by (unfold ClaimDueOutbox; apply (wkeeps_stmt offline_rel)).
  destruct (ClaimDueOutbox _ _ w0) as [[[|row rows]|e] w1]; cbn [snd] in *; [done| |done].
  pose proof (offline_dispatch_rows cfg send (row :: rows) Hs w1) as Hd.
  destruct (dispatch_rows cfg send (row :: rows) w1) as [[u|e] w2]; cbn [snd] in *; (etransitivity; [exact Hc'|]);
    (etransitivity; [exact Hd|]); [|apply wr_db].
  pose proof (wkeeps_commit offline_rel (w_db w0) w2) as Hcm. by destruct (commit _ w2) as [[] ?].
Qed.

Lemma sound_drainOnce cfg send :
  SenderOk send -> (forall msg, offline (send msg)) -> sound (drainOnce cfg send).
Proof.
  intros Hs Ho. apply sound_offline; [by apply offline_drainOnce|apply keeps_drainOnce; (done || apply _)
    |apply settle_deposits, keeps_drainOnce; (done || apply _)|intros ks; apply keeps_drainOnce; (done || apply _)].
Qed.

(** ** The API *)

#[global] Instance settle_rel_keys : Frames settle_rel set_idempotency_keys. Proof. done. Qed.
#[global] Instance same_ledger_keys : Frames same_ledger set_idempotency_keys. Proof. done. Qed.
#[global] Instance keeps_backed_keys ks : Frames (keeps_backed ks) set_idempotency_keys.
Proof. by apply keeps_backed_frame. Qed.

Lemma sound_router `{!EnvOk _} `{Keys} time_text decode_error bind_uuid bind_string not_routed h redis ttl r :
  ProviderOk (h_Quoter h) ->
  sound (NewRouter time_text decode_error bind_uuid bind_string not_routed h NewPGKeyStore redis ttl r).
Proof.
  intros Hq. apply sound_offline; [by apply offline_router|apply keeps_router; apply _
    |apply settle_deposits, keeps_router; apply _|intros ks; apply keeps_router; apply _].
Qed.

Lemma sound_api_write m : api_write m -> sound m.
Proof.
  intros Hm. apply sound_offline; [by apply offline_api_write|apply keeps_api_write; (done || apply _)
    |apply settle_deposits, keeps_api_write; (done || apply _)|intros ks; apply keeps_api_write; (done || apply _)].
Qed.

(** A statement that writes the intents only. *)
Lemma sound_intents {A} (m : M A) :
  offline m -> (forall R (_ : PreOrder R) (_ : Frames R set_payment_intents), keeps R m) -> sound m.
Proof.
  intros Ho Hm. apply sound_offline; [done|apply Hm; apply _|apply settle_deposits, Hm; apply _|intros ks; apply Hm; apply _].
Qed.

(** ** Reachable states *)

Inductive system_step (w : World) : World -> Prop :=
  | step_env t n fs js ns rd :
      (forall status b, NetForeign status b ∈ ns -> status < 200 \/ 300 <= status) ->
      system_step w (set_redis (set_net (set_jitter (set_faults (set_rng (set_now w t) n) fs) js) ns) rd)
  | step_work r deps m :
      rails_ok deps -> registry r = settlement_registry deps -> worker_op r m -> system_step w (m w).2
  | step_drain cfg send :
      SenderOk send -> (forall msg, offline (send msg)) -> system_step w (drainOnce cfg send w).2
  | step_watch wt m : RPCClientOk (w_rpc wt) -> watch_op wt m -> system_step w (m w).2
  | step_api `{!EnvOk _} `{Keys} time_text decode_error bind_uuid bind_string not_routed h redis ttl r :
      ProviderOk (h_Quoter h) ->
      system_step w (NewRouter time_text decode_error bind_uuid bind_string not_routed h NewPGKeyStore redis ttl r w).2
  | step_api_write m : api_write m -> system_step w (m w).2
  | step_set_reference id pub sec ata : system_step w (UpdatePaymentIntentReference id pub sec ata w).2.

(** A whole tick, undisturbed. *)
Lemma tick_steps r deps w :
  rails_ok deps -> registry r = settlement_registry deps -> rtc system_step w (Tick r w).2.
Proof.
  intros Hr Hreg. generalize (tick_ops r w). generalize (Tick r w).2. intros w' Hs.
  induction Hs as [w|w w1 w2 (m & Hop & ->) _ IH]; [apply rtc_refl|]. eapply rtc_l; [by eapply step_work|exact IH].
Qed.

Lemma system_step_ok w w' : system_step w w' -> system_ok w -> system_ok w'.
Proof.
  intros [t n fs js ns rd Hns|r deps m Hr Hreg Hop|cfg send Hs Ho|wt m Hrpc Hop|HE HK tt de bu bs nr h redis ttl r Hq
         |m Hm|id pub sec ata] Hok.
  - destruct Hok as [Hb Hd [H1 H2 H3]]. by split.
  - by eapply sound_op.
  - by apply sound_drainOnce.
  - by eapply sound_watch_op.
  - by apply sound_router.
  - by apply sound_api_write.
  - apply sound_intents; [|intros; apply keeps_UpdatePaymentIntentReference; apply _|done]. apply wkeeps_stmt, _.
Qed.

Lemma system_steps_ok w w' : rtc system_step w w' -> system_ok w -> system_ok w'.
Proof. induction 1 as [|w w1 w2 Hstep _ IH]; [done|]. intros Hok. by eapply IH, system_step_ok. Qed.

(** C1: The invariant of the whole system: from any consistent state, whatever
    watchers, settlement workers, dispatchers and API requests (through the whole
    router) do, in whatever order, workers interleaved between the transactions of
    their ticks and requests between their statements, stale workers included, with any database faults, any
    answers of the RPC endpoint, any state of Redis and any loss of bank requests or responses, every reachable state has
    balanced books, exactly one row per deposit with a saga run for every final
    linked one, and a bank disbursement behind every payout it calls succeeded,
    no payout key being paid twice. *)
Theorem system_invariant w w' : rtc system_step w w' -> system_ok w -> system_ok w'.
Proof. apply system_steps_ok. Qed.
End system.

(** ** Witness: a deposit arrives *)

Section system_example.
#[local] Existing Instance example_env.
#[local] Existing Instance example_solana.

Lemma watch_world_ok : system_ok watch_world.
Proof.
  split.
  - split; [split; [apply NoDup_nil_2..|]|done]. intros p Hp. by apply elem_of_nil in Hp.
  - split; [constructor|]. intros p i Hp. by apply elem_of_nil in Hp.
  - split; [apply bank_inv_newServer|intros st b Hin; by apply elem_of_nil in Hin|].
    intros p Hp. by apply elem_of_nil in Hp.
Qed.

Lemma system_invariant_witness : system_ok watch_world_1 /\ has_run (w_db watch_world_1) 51%N.
Proof.
  assert (Hok : system_ok watch_world_1).
  { apply (system_invariant watch_world); [|apply watch_world_ok]. apply rtc_once.
    replace watch_world_1 with (ProcessSignature example_watcher 900%N CommitmentFinalized watch_world).2
      by (vm_compute; reflexivity).
    apply (step_watch watch_world example_watcher); [apply example_rpc_ok|apply op_process]. }
  split; [exact Hok|]. eapply dep_armed; [apply Hok|apply list_elem_of_here|reflexivity|reflexivity].
Defined.
(** Ticks of the settlement example. *)
Definition demo_ticks (n : nat) : World := Nat.iter n (fun w => (Tick demo_runner w).2) (demo_world 62038464).

Lemma demo_ticks_steps n : rtc system_step (demo_world 62038464) (demo_ticks n).
Proof.
  induction n as [|n IH]; [apply rtc_refl|]. etransitivity; [exact IH|]. cbn [demo_ticks Nat.iter].
  destruct demo_settlement as (deps & Hr & Hreg). by eapply tick_steps.
Qed.


Lemma demo_system_ok : system_ok (demo_world 62038464).
Proof.
  split; [apply demo_books| |apply demo_backed]. split; [apply NoDup_singleton|].
  intros p i Hp%list_elem_of_singleton _. subst p. intros [= <-].
  exists (demo_run FirstStep). split; [apply list_elem_of_here|reflexivity].
Qed.
End system_example.
