(* ===== verification/Schema.v ===== *)
(** * The schema as a type

    [schema_ok] states the constraints of the migrations ([PRIMARY KEY], [UNIQUE],
    [REFERENCES], [CHECK], the posting currency trigger, the width of the retry
    counters) as a property of a database value; the width of the [BIGINT] columns and
    of [status_code] is not part of it.  The statements of Queries.v enforce it, as
    Postgres does, and the theorems about the dashboard and the API's answers start
    from it. *)

From S2P Require Import Prelude GoStr Sha256 MockBank Models World GoJson Queries Ledger Backoff Payout Outbox Saga SagaSteps Settlement HappyPath Scenarios Quoter SplParser Watcher Http Reference Idempotency IdemCache Auth Api ApiSpec ApiRouter System.

(** ** Constraints *)

(** [PRIMARY KEY], [UNIQUE]. *)
Definition keyed_by {A B} (key : A -> B) (t : list A) : Prop := NoDup (key <$> t).

(** [REFERENCES]. *)
Definition refers {A} (f : A -> uuid) (t : list A) (ids : list uuid) : Prop := Forall (fun r => f r ∈ ids) t.

(** An [INTEGER] counter with [CHECK (n >= 0)]. *)
Definition counter (n : Z) : Prop := 0 <= n <= int32_max.

Definition quote_checked (q : Models.Quote) : Prop :=
  0 < q_rate_num q /\ 0 <= q_rate_scale q <= 18 /\ 0 <= q_spread_bps q <= 10000.

Definition deposit_checked (ids : list uuid) (p : OnchainPayment) : Prop :=
  0 <= op_slot p /\ 0 < op_amount p /\ forall i, op_intent_id p = Some i -> i ∈ ids.

Definition posting_checked (accs : list Account) (p : Posting) : Prop :=
  0 < p_amount p /\ exists a, a ∈ accs /\ acc_id a = p_account_id p /\ acc_currency a = p_currency p.

Record schema_ok (d : DB) : Prop := {
  accounts_pk : keyed_by acc_id (accounts d);
  accounts_unique : keyed_by (fun a => (acc_code a, acc_currency a)) (accounts d);
  entries_pk : keyed_by je_id (journal_entries d);
  entries_unique : keyed_by je_external_ref (journal_entries d);
  postings_pk : keyed_by p_id (postings d);
  postings_entry : refers p_entry_id (postings d) (je_id <$> journal_entries d);
  postings_checked : Forall (posting_checked (accounts d)) (postings d);
  merchants_pk : keyed_by m_id (merchants d);
  keys_pk : keyed_by ak_id (api_keys d);
  keys_unique : keyed_by ak_key_id (api_keys d);
  keys_merchant : refers ak_merchant_id (api_keys d) (m_id <$> merchants d);
  idempotency_pk : keyed_by (fun k => (ik_merchant_id k, ik_key k)) (idempotency_keys d);
  quotes_pk : keyed_by q_id (quotes d);
  quotes_checked : Forall quote_checked (quotes d);
  intents_pk : keyed_by pi_id (payment_intents d);
  intents_unique : keyed_by (fun p => (pi_merchant_id p, pi_external_ref p)) (payment_intents d);
  intents_merchant : refers pi_merchant_id (payment_intents d) (m_id <$> merchants d);
  intents_quote : refers pi_quote_id (payment_intents d) (q_id <$> quotes d);
  intents_checked : Forall (fun p => 0 < pi_amount_idr p /\ 0 < pi_quoted_amount_usdc p) (payment_intents d);
  deposits_pk : keyed_by op_signature (onchain_payments d);
  deposits_checked : Forall (deposit_checked (pi_id <$> payment_intents d)) (onchain_payments d);
  runs_pk : keyed_by sr_id (saga_runs d);
  runs_unique : keyed_by (fun r => (sr_intent_id r, sr_saga_kind r)) (saga_runs d);
  runs_intent : refers sr_intent_id (saga_runs d) (pi_id <$> payment_intents d);
  runs_checked : Forall (fun r => counter (sr_step_attempts r)) (saga_runs d);
  outbox_pk : keyed_by ob_id (outbox d);
  outbox_checked : Forall (fun o => counter (ob_attempts o)) (outbox d);
  payouts_pk : keyed_by po_id (payouts d);
  payouts_unique : keyed_by po_intent_id (payouts d);
  payouts_intent : refers po_intent_id (payouts d) (pi_id <$> payment_intents d);
  payouts_checked : Forall (fun p => 0 < po_amount_idr p /\ counter (po_attempts p)) (payouts d)
}.

Definition schema_step (d d' : DB) : Prop := schema_ok d -> schema_ok d'.

#[global] Instance schema_step_preorder : PreOrder schema_step.
Proof. split; unfold schema_step; [by intros d|intros d1 d2 d3; auto]. Qed.

(** ** Rows added and rows changed *)

Section rows.
Context {A : Type}.
Implicit Types (t : list A) (P : A -> bool).

Lemma keyed_update {B} (key : A -> B) P f t :
  (forall r, key (f r) = key r) -> keyed_by key t -> keyed_by key (update_where P f t).
Proof. intros Hf. unfold keyed_by. by rewrite fmap_update_where. Qed.

Lemma Forall_update (Q : A -> Prop) P f t :
  (forall r, P r = true -> Q r -> Q (f r)) -> Forall Q t -> Forall Q (update_where P f t).
Proof.
  intros Hf HQ. apply Forall_fmap. eapply Forall_impl; [exact HQ|]. intros r Hr. simpl.
  destruct (P r) eqn:E; auto.
Qed.

(** An update keyed by a unique column changes the row that was found. *)
Lemma Forall_update_found {B} (Q : A -> Prop) (key : A -> B) i P f t s :
  keyed_by key t -> (forall r, P r = true -> key r = i) -> find_row P t = Some s -> (Q s -> Q (f s)) ->
  Forall Q t -> Forall Q (update_where P f t).
Proof.
  intros Hk HP [Hs HPs]%find_row_Some Hf HQ. apply Forall_fmap, Forall_forall. intros r Hr. simpl.
  pose proof (proj1 (Forall_forall _ _) HQ r Hr) as HQr. destruct (P r) eqn:E; [|done].
  assert (r = s) as -> by (apply (NoDup_fmap_elem key t); [done..|by rewrite !HP]). auto.
Qed.

Lemma Forall_snoc' (Q : A -> Prop) t r : Q r -> Forall Q t -> Forall Q (t ++ [r]).
Proof. intros. apply Forall_app. auto. Qed.

Lemma keyed_find {B} (key : A -> B) P t r :
  (forall x, key x = key r -> P x = true) -> find_row P t = None -> keyed_by key t -> keyed_by key (t ++ [r]).
Proof.
  intros HP Hn Hk. apply NoDup_snoc; [done|]. intros (x & E & Hx)%list_elem_of_fmap.
  pose proof (find_row_None _ _ _ Hn Hx) as Hf. rewrite HP in Hf; [done|congruence].
Qed.

Lemma keyed_fresh (key : A -> uuid) t r :
  pk_taken key (key r) t = false -> keyed_by key t -> keyed_by key (t ++ [r]).
Proof. intros Hf Hk. apply NoDup_snoc; [done|]. by apply pk_taken_false. Qed.

Lemma by_id_ref (f : A -> uuid) i t r : find_row (by_id f i) t = Some r -> i ∈ f <$> t.
Proof. intros [Hr E%N.eqb_eq]%find_row_Some. apply list_elem_of_fmap. eauto. Qed.
End rows.

Lemma refers_more {A} (f : A -> uuid) t ids ids' : ids ⊆ ids' -> refers f t ids -> refers f t ids'.
Proof. intros Hs Hr. eapply Forall_impl; [exact Hr|]. simpl. auto. Qed.

Lemma ids_snoc {A} (f : A -> uuid) t r : f <$> t ⊆ f <$> (t ++ [r]).
Proof. rewrite fmap_app. set_solver. Qed.


(** ** Statements *)

Section statements.
Context `{Env}.

(** A statement: the tables it leaves alone are as they were; for the one it
    writes, the keys of changed rows are the old ones. *)
Ltac schema_cases :=
  intros; apply keeps_stmt; [apply _|]; intros now rng d; cbn; repeat case_match; cbn; try reflexivity;
  intros []; split; cbn; try assumption; unfold refers.
Ltac changed_rows :=
  schema_cases; try (apply keyed_update; [done|assumption]);
  try (apply Forall_update; [|assumption]; intros ? _; done).

Lemma schema_AdvanceSagaStep id s : keeps schema_step (AdvanceSagaStep id s).
Proof. changed_rows. Qed.
Lemma schema_CompleteSagaRun id : keeps schema_step (CompleteSagaRun id).
Proof. changed_rows. Qed.
Lemma schema_FailSagaRun id e : keeps schema_step (FailSagaRun id e).
Proof. changed_rows. Qed.
Lemma schema_ClaimDueSagaRun o l : keeps schema_step (ClaimDueSagaRun o l).
Proof. changed_rows. Qed.

Lemma by_id_eq {A} (f : A -> uuid) i r : by_id f i r = true -> f r = i.
Proof. apply N.eqb_eq. Qed.

(** A counter that a checked update increments. *)
Ltac counted :=
  eapply Forall_update_found; [|intros ?; apply by_id_eq|eassumption| |assumption];
  [assumption|cbn; unfold counter in *; lia].
Ltac added_rows :=
  schema_cases; try (apply Forall_snoc'; [|assumption]);
  try (eapply keyed_fresh; eassumption); try (eapply by_id_ref; eassumption); try (cbn; unfold counter, int32_max; lia).

Lemma schema_ScheduleSagaRetry id t e : keeps schema_step (ScheduleSagaRetry id t e).
Proof. changed_rows. counted. Qed.

Lemma schema_EnqueueSagaRun i k s : keeps schema_step (EnqueueSagaRun i k s).
Proof.
  added_rows. eapply keyed_find; [|eassumption..]. cbn. intros x [= <- <-].
  unfold run_of_intent. by rewrite N.eqb_refl, String.eqb_refl.
Qed.

Lemma schema_MarkPayoutFailed id e : keeps schema_step (MarkPayoutFailed id e).
Proof. changed_rows. Qed.
Lemma schema_MarkPayoutSubmitting id : keeps schema_step (MarkPayoutSubmitting id).
Proof. changed_rows. counted. Qed.
Lemma schema_MarkPayoutSucceeded id r : keeps schema_step (MarkPayoutSucceeded id r).
Proof. changed_rows. Qed.
Lemma schema_ResetPayoutToPending id e : keeps schema_step (ResetPayoutToPending id e).
Proof. changed_rows. Qed.

Lemma schema_UpsertPayout i rail a : keeps schema_step (UpsertPayout i rail a).
Proof.
  added_rows. eapply keyed_find; [|eassumption..]. cbn. intros x <-. apply N.eqb_refl.
Qed.

Lemma schema_UpdatePaymentIntentState id s : keeps schema_step (UpdatePaymentIntentState id s).
Proof. changed_rows; by rewrite fmap_update_where. Qed.
Lemma schema_UpdatePaymentIntentReference id p k t : keeps schema_step (UpdatePaymentIntentReference id p k t).
Proof. changed_rows; by rewrite fmap_update_where. Qed.

(** More intents leave the references to them valid. *)
Lemma deposits_more ids ids' t : ids ⊆ ids' -> Forall (deposit_checked ids) t -> Forall (deposit_checked ids') t.
Proof. intros Hs Ht. eapply Forall_impl; [exact Ht|]. intros p (H1 & H2 & H3). split_and!; auto. Qed.

Lemma schema_CreatePaymentIntent m r a u q s p k t : keeps schema_step (CreatePaymentIntent m r a u q s p k t).
Proof.
  added_rows; try (eapply refers_more; [apply ids_snoc|assumption]); try (eapply deposits_more; [apply ids_snoc|assumption]).
  eapply keyed_find; [|eassumption..]. cbn. intros x [= <- <-].
  unfold intent_by_ref. by rewrite N.eqb_refl, String.eqb_refl.
Qed.

Lemma schema_CreateQuote p n s b e g : keeps schema_step (CreateQuote p n s b e g).
Proof.
  added_rows; try (eapply refers_more; [apply ids_snoc|assumption]). unfold quote_checked. cbn. lia.
Qed.

Lemma intent_exists_ref d i j : intent_exists d i = true -> i = Some j -> j ∈ pi_id <$> payment_intents d.
Proof. intros Hi ->. apply bool_decide_eq_true in Hi as [p Hp]. by eapply by_id_ref. Qed.

Lemma payment_by_sig_eq s r : payment_by_sig s r = true -> op_signature r = s.
Proof. apply String.eqb_eq. Qed.

Lemma schema_UpsertOnchainPayment s l b f t m a r c i : keeps schema_step (UpsertOnchainPayment s l b f t m a r c i).
Proof.
  apply keeps_stmt; [apply _|]. intros now _ d. destruct (_ || _) eqn:Hc; [reflexivity|].
  apply orb_false_iff in Hc as [Hl%Z.ltb_ge Ha%Z.leb_gt].
  destruct (find_row (payment_by_sig s) (onchain_payments d)) as [o|] eqn:Ho; cbv zeta;
    (destruct (intent_exists d _) eqn:Hi; [|reflexivity]); intros []; split; cbn [set_onchain_payments snd onchain_payments];
    try assumption.
  - by apply keyed_update.
  - eapply Forall_update_found; [eassumption|apply payment_by_sig_eq|eassumption| |assumption].
    intros (H1 & H2 & H3). split_and!; [done..|]. intros j Hj. by eapply intent_exists_ref.
  - eapply keyed_find; [|eassumption..]. cbn. intros x <-. apply String.eqb_refl.
  - apply Forall_snoc'; [|assumption]. split_and!; [done..|]. intros j Hj. by eapply intent_exists_ref.
Qed.

Lemma schema_MarkOutboxDelivered id : keeps schema_step (MarkOutboxDelivered id).
Proof. changed_rows. Qed.
Lemma schema_PublishOutbox t a p h : keeps schema_step (PublishOutbox t a p h).
Proof. added_rows. Qed.
Lemma schema_ScheduleOutboxRetry id t e : keeps schema_step (ScheduleOutboxRetry id t e).
Proof. changed_rows. counted. Qed.

Lemma schema_InsertIdempotencyKey m k h s b : keeps schema_step (InsertIdempotencyKey m k h s b).
Proof.
  added_rows. eapply keyed_find; [|eassumption..]. cbn. intros x [= <- <-].
  unfold idem_key. by rewrite N.eqb_refl, String.eqb_refl.
Qed.

Lemma schema_DeleteExpiredIdempotencyKeys t : keeps schema_step (DeleteExpiredIdempotencyKeys t).
Proof. schema_cases. by apply NoDup_select. Qed.

Lemma schema_CreateMerchant n : keeps schema_step (CreateMerchant n).
Proof. added_rows; eapply refers_more; [apply ids_snoc|assumption|apply ids_snoc|assumption]. Qed.

Lemma schema_CreateAPIKey m k h : keeps schema_step (CreateAPIKey m k h).
Proof. added_rows. eapply keyed_find; [|eassumption..]. cbn. intros x <-. apply String.eqb_refl. Qed.

Lemma postings_more accs accs' t : accs ⊆ accs' -> Forall (posting_checked accs) t -> Forall (posting_checked accs') t.
Proof. intros Hs Ht. eapply Forall_impl; [exact Ht|]. intros p (H1 & a & Ha & E). split; [done|]. exists a. auto. Qed.

Lemma schema_CreateAccount c ty cur : keeps schema_step (CreateAccount c ty cur).
Proof.
  added_rows.
  - eapply keyed_find; [|eassumption..]. cbn. intros x [= <- <-]. unfold account_by_code. by rewrite !String.eqb_refl.
  - eapply postings_more; [|eassumption]. intros x Hx. apply elem_of_app. by left.
Qed.

Lemma schema_CreateJournalEntry r k e i : keeps schema_step (CreateJournalEntry r k e i).
Proof.
  added_rows.
  - eapply keyed_find; [|eassumption..]. cbn. intros x <-. apply String.eqb_refl.
  - eapply refers_more; [apply ids_snoc|assumption].
Qed.

Lemma schema_InsertPosting e a am cur dir : keeps schema_step (InsertPosting e a am cur dir).
Proof.
  added_rows. split; [cbn; lia|].
  match goal with H1 : find_row (by_id acc_id a) _ = Some ?x |- _ => exists x; apply find_row_Some in H1 as [? ?%N.eqb_eq] end.
  split_and!; [done..|]. cbn. by match goal with H : negb _ = false |- _ => apply negb_false_iff, String.eqb_eq in H end.
Qed.
End statements.

#[local] Hint Resolve schema_AdvanceSagaStep schema_CompleteSagaRun schema_FailSagaRun schema_ClaimDueSagaRun
  schema_ScheduleSagaRetry schema_EnqueueSagaRun schema_MarkPayoutFailed schema_MarkPayoutSubmitting
  schema_MarkPayoutSucceeded schema_ResetPayoutToPending schema_UpsertPayout schema_UpdatePaymentIntentState
  schema_UpdatePaymentIntentReference schema_CreatePaymentIntent schema_CreateQuote schema_UpsertOnchainPayment
  schema_MarkOutboxDelivered schema_PublishOutbox schema_ScheduleOutboxRetry schema_InsertIdempotencyKey
  schema_CreateJournalEntry schema_InsertPosting : keeps.

#[global] Instance schema_api `{Env} : ApiWrites schema_step.
Proof. split; intros; auto with keeps. Qed.

(** ** Operations *)

Section operations.
Context `{Env}.

Lemma schema_PostTx e : keeps schema_step (PostTx e).
Proof.
  assert (forall id ls, keeps schema_step (insert_lines id ls)) as Hl
    by (intros id ls; induction ls as [|l ls IH]; simpl; keeps_auto).
  unfold PostTx, postWith. keeps_auto.
Qed.

Lemma schema_account code cur : keeps schema_step (GetAccountByCodeTx code cur).
Proof. unfold GetAccountByCodeTx. keeps_auto. Qed.
#[local] Hint Resolve schema_PostTx schema_account : keeps.

Lemma schema_TriggerPayout deps run : rails_ok deps -> keeps schema_step (TriggerPayout_Execute deps run).
Proof.
  intros Hr. assert (forall intent recipient po, keeps schema_step (submit_payout deps run intent recipient po)).
  { intros. unfold submit_payout, settle_outcome, advanceIntentToSettling. destruct (po_state po); [| |keeps_auto..].
    all: apply keeps_bind_res; [apply _|]; intros rail Hg;
      pose proof (fun req => keeps_eq schema_step (rail_Submit rail req) (rail_db (RailOk := Hr _ _ Hg) req)); keeps_auto. }
  unfold TriggerPayout_Execute. keeps_auto.
Qed.

Lemma schema_settlement deps name st run :
  rails_ok deps -> Registry_Get (settlement_registry deps) name = Some st -> keeps schema_step (Execute st run).
Proof.
  intros Hr [[_ ->]|[[_ ->]|[[_ ->]|[_ ->]]]]%settlement_steps; simpl.
  - unfold CreditDeposit_Execute. keeps_auto.
  - by apply schema_TriggerPayout.
  - unfold ApplyPayoutResult_Execute, postFXSwapUSDC, postPayoutDisbursedIDR. keeps_auto.
  - unfold EmitCompleted_Execute, Publish. keeps_auto.
Qed.

Lemma schema_op r deps m :
  rails_ok deps -> registry r = settlement_registry deps -> worker_op r m -> keeps schema_step m.
Proof.
  intros Hr Hreg [|name st run Hget|id cause|run e].
  - unfold claim. keeps_auto.
  - rewrite Hreg in Hget. pose proof (schema_settlement deps _ st run Hr Hget). unfold executeStep. keeps_auto.
  - unfold failRun. keeps_auto.
  - unfold handleFailure, failRun, scheduleRetry, Delay. keeps_auto.
Qed.

Lemma schema_drain cfg send : SenderOk send -> keeps schema_step (drainOnce cfg send).
Proof.
  intros Hs. apply keeps_drain; [apply _|]. intros rows.
  induction rows as [|row rows IH]; simpl; [keeps_auto|]. apply keeps_bind; [apply _| |done].
  unfold dispatch_row. pose proof (fun msg => keeps_eq schema_step (send msg) (send_db msg)).
  pose proof (keeps_retry_delay cfg schema_step). keeps_auto.
Qed.

Context `{Solana}.

Lemma schema_ProcessSignature wt sig c : RPCClientOk (w_rpc wt) -> keeps schema_step (ProcessSignature wt sig c).
Proof.
  intros Hrpc. apply keeps_ProcessSignature_of; [done|apply _|intros; apply schema_UpsertOnchainPayment
    |intros; apply schema_EnqueueSagaRun].
Qed.

Lemma schema_system_step w w' : system_step w w' -> schema_step (w_db w) (w_db w').
Proof.
  intros [t n fs js ns rd Hns|r deps m Hr Hreg Hop|cfg send Hs Ho|wt m Hrpc Hop|HE HK tt de bu bs nr h redis ttl r Hq
         |m Hm|id pub sec ata].
  - done.
  - by eapply schema_op.
  - by apply schema_drain.
  - apply (keeps_watch_op wt schema_step (fun sig c => schema_ProcessSignature wt sig c _) m Hop).
  - apply keeps_router; apply _.
  - apply keeps_api_write; (done || apply _).
  - apply schema_UpdatePaymentIntentReference.
Qed.

(** Hence databases reached from one with these properties have them. *)
Lemma schema_steps w w' : rtc system_step w w' -> schema_ok (w_db w) -> schema_ok (w_db w').
Proof. induction 1 as [|w w1 w2 Hs _ IH]; [done|]. intros Hok. by eapply IH, schema_system_step. Qed.
End operations.

(** ** The world of the examples *)

Section schema_example.
#[local] Existing Instance example_env.
#[local] Existing Instance example_solana.

Lemma demo_schema amount : 0 < amount -> schema_ok (demo_db amount).
Proof.
  intros Ha. split; cbn.
  all: lazymatch goal with
       | |- keyed_by _ _ => apply (bool_decide_unpack _); vm_compute; reflexivity
       | |- Forall _ [] => constructor
       | |- refers _ [] _ => constructor
       | _ => constructor; [|constructor]
       end.
  all: try (vm_compute; (by left || done)); try (by apply list_elem_of_here).
  all: unfold quote_checked, counter, deposit_checked, int32_max; cbn; try lia.
  split_and!; [lia|lia|]. intros i [= <-]. apply list_elem_of_here.
Qed.
End schema_example.
