(* ===== verification/Querier.v ===== *)
(** * The statements as an interface ([internal/db/sqlc/querier.go], [internal/db/sqlc/db.go])

    [Querier] is the set of statements the generated interface offers; each of them
    keeps the constraints of the schema. *)

From S2P Require Import Prelude GoStr MockBank Models World Queries Scenarios Schema.

Section querier.
Context `{Env}.

(** The methods of the interface; [New] and [WithTx] run the same statements on a
    pool or in a transaction. *)
Inductive Querier : forall {A : Type}, M A -> Prop :=
  | q_AccountBalance id : Querier (AccountBalance id)
  | q_AccountBalanceByCode code currency : Querier (AccountBalanceByCode code currency)
  | q_AdvanceSagaStep id step : Querier (AdvanceSagaStep id step)
  | q_ClaimDueOutbox topic limit : Querier (ClaimDueOutbox topic limit)
  | q_ClaimDueSagaRun owner lease : Querier (ClaimDueSagaRun owner lease)
  | q_CompleteSagaRun id : Querier (CompleteSagaRun id)
  | q_CountOnchainPaymentsByIntent intent : Querier (CountOnchainPaymentsByIntent intent)
  | q_CreateAPIKey merchant key_id secret_hash : Querier (CreateAPIKey merchant key_id secret_hash)
  | q_CreateAccount code type currency : Querier (CreateAccount code type currency)
  | q_CreateJournalEntry external_ref kind description intent_id : Querier (CreateJournalEntry external_ref kind description intent_id)
  | q_CreateMerchant name : Querier (CreateMerchant name)
  | q_CreatePaymentIntent merchant external_ref amount_idr quoted quote state ref_pub ref_secret ata : Querier (CreatePaymentIntent merchant external_ref amount_idr quoted quote state ref_pub ref_secret ata)
  | q_CreateQuote pair rate_num rate_scale spread_bps expires_at signature : Querier (CreateQuote pair rate_num rate_scale spread_bps expires_at signature)
  | q_DeleteExpiredIdempotencyKeys created_before : Querier (DeleteExpiredIdempotencyKeys created_before)
  | q_EnqueueSagaRun intent kind step : Querier (EnqueueSagaRun intent kind step)
  | q_FailSagaRun id last_error : Querier (FailSagaRun id last_error)
  | q_GetAccountByCodeCurrency code currency : Querier (GetAccountByCodeCurrency code currency)
  | q_GetAccountByID id : Querier (GetAccountByID id)
  | q_GetActiveAPIKeyByKeyID key_id : Querier (GetActiveAPIKeyByKeyID key_id)
  | q_GetFinalizedDepositForIntent intent : Querier (GetFinalizedDepositForIntent intent)
  | q_GetIdempotencyKey merchant key : Querier (GetIdempotencyKey merchant key)
  | q_GetJournalEntryByExternalRef ref : Querier (GetJournalEntryByExternalRef ref)
  | q_GetMerchantByID id : Querier (GetMerchantByID id)
  | q_GetMerchantWebhookConfig id : Querier (GetMerchantWebhookConfig id)
  | q_GetOnchainPaymentBySignature sig : Querier (GetOnchainPaymentBySignature sig)
  | q_GetOutboxByID id : Querier (GetOutboxByID id)
  | q_GetPaymentIntentByID id : Querier (GetPaymentIntentByID id)
  | q_GetPaymentIntentByMerchantRef merchant ref : Querier (GetPaymentIntentByMerchantRef merchant ref)
  | q_GetPayoutByIntent intent : Querier (GetPayoutByIntent intent)
  | q_GetQuote id : Querier (GetQuote id)
  | q_GetSagaRunByID id : Querier (GetSagaRunByID id)
  | q_GetSagaRunByIntent intent kind : Querier (GetSagaRunByIntent intent kind)
  | q_InsertIdempotencyKey merchant key hash status resp : Querier (InsertIdempotencyKey merchant key hash status resp)
  | q_InsertPosting entry account amount currency direction : Querier (InsertPosting entry account amount currency direction)
  | q_ListAccounts text_le : Querier (ListAccounts text_le)
  | q_ListActiveReferenceIntents : Querier (ListActiveReferenceIntents)
  | q_ListJournalEntriesByIntent intent : Querier (ListJournalEntriesByIntent intent)
  | q_ListOnchainPaymentsByIntent intent : Querier (ListOnchainPaymentsByIntent intent)
  | q_ListOutboxByAggregate agg : Querier (ListOutboxByAggregate agg)
  | q_ListPaymentIntentsRecent limit : Querier (ListPaymentIntentsRecent limit)
  | q_ListPostingsByEntry entry : Querier (ListPostingsByEntry entry)
  | q_ListSagaRunsByState state limit : Querier (ListSagaRunsByState state limit)
  | q_ListUndeliveredOutbox limit : Querier (ListUndeliveredOutbox limit)
  | q_ListUnfinalizedOnchainPayments limit : Querier (ListUnfinalizedOnchainPayments limit)
  | q_MarkOutboxDelivered id : Querier (MarkOutboxDelivered id)
  | q_MarkPayoutFailed id last_error : Querier (MarkPayoutFailed id last_error)
  | q_MarkPayoutSubmitting id : Querier (MarkPayoutSubmitting id)
  | q_MarkPayoutSucceeded id rail_reference : Querier (MarkPayoutSucceeded id rail_reference)
  | q_PublishOutbox topic agg payload headers : Querier (PublishOutbox topic agg payload headers)
  | q_ResetPayoutToPending id last_error : Querier (ResetPayoutToPending id last_error)
  | q_ScheduleOutboxRetry id next last_error : Querier (ScheduleOutboxRetry id next last_error)
  | q_ScheduleSagaRetry id next last_error : Querier (ScheduleSagaRetry id next last_error)
  | q_UpdatePaymentIntentReference id pub secret ata : Querier (UpdatePaymentIntentReference id pub secret ata)
  | q_UpdatePaymentIntentState id state : Querier (UpdatePaymentIntentState id state)
  | q_UpsertOnchainPayment sig slot block_time from_ata to_ata mint amount ref_pub commitment intent : Querier (UpsertOnchainPayment sig slot block_time from_ata to_ata mint amount ref_pub commitment intent)
  | q_UpsertPayout intent rail amount : Querier (UpsertPayout intent rail amount).

(** Every method keeps the schema. *)
Lemma Querier_schema A (m : M A) : Querier m -> keeps schema_step m.
Proof.
  intros Hq. destruct Hq; eauto using schema_AdvanceSagaStep, schema_CompleteSagaRun, schema_FailSagaRun, schema_ClaimDueSagaRun,
    schema_ScheduleSagaRetry, schema_EnqueueSagaRun, schema_MarkPayoutFailed, schema_MarkPayoutSubmitting, schema_MarkPayoutSucceeded,
    schema_ResetPayoutToPending, schema_UpsertPayout, schema_UpdatePaymentIntentState, schema_UpdatePaymentIntentReference,
    schema_CreatePaymentIntent, schema_CreateQuote, schema_UpsertOnchainPayment, schema_MarkOutboxDelivered, schema_PublishOutbox,
    schema_ScheduleOutboxRetry, schema_InsertIdempotencyKey, schema_DeleteExpiredIdempotencyKeys, schema_CreateMerchant,
    schema_CreateAPIKey, schema_CreateAccount, schema_CreateJournalEntry, schema_InsertPosting.
  all: first [apply keeps_ClaimDueOutbox | apply keeps_select]; apply _.
Qed.
End querier.
