(* ===== verification/ApiDoc.v ===== *)
(** * The embedded API document ([internal/api/apispec/apispec.gen.go])

    The generated code carries the OpenAPI document it was generated from, as base64
    of gzip of JSON.  Here the text is decoded by evaluation, and the document is
    compared with the server: its operations are the routes, its responses are
    those of the strict server, its references resolve.  The kin-openapi loader is a
    parameter. *)

From S2P Require Import Prelude GoStr Sha256 MockBank Models World Http GoJson JsonDecode Queries Quoter AesGcm GoUrl Mux SolanaPay Inflate SplParser PayUrl Reference Idempotency IdemCache Auth Api ApiSpec ApiRouter StrictServer.
From Stdlib Require Import Ascii String.

(** ** The embedded text *)

Definition swaggerSpec : list string := [
  "H4sIAAAAAAAC/7RY724buRF/lQFb4BJA/2zHbiKjH3xO0xjnw/nsBChgGbrRcqTlZZdkyFnFaiCgT9Pv";
  "fYU+Sp+kGK7+rbRJfMU1X7LaHZK/+c3Mb4b+rDJXemfJclTDz8pjwJKYQvp1pan0jslmix9oIW+MVUOV";
  "E2oKqqMslqSGu2ZdseuomOVUoiwo8fGa7IxzNTw+Pe0oXnhZEjkYO1PL5bKjAkXvbKR05F9CcEEeMmeZ";
  "LMsjel+YDNk42/81Oivvtif8MdBUDdUf+ltP+vXX2K93S6doilkwXjZRQ3UT3KSgEtZnKzFZrZJNLwMh";
  "0w0uSrJ8lZDc0seKYgLkg/MU2NSQsXSV5bHRCXfznIv0DYyFq9e3UBrrAlTWcIRnofIG8/P0IccI1kGs";
  "Jl35+rynOmrqQomshspYPnuhOqo01pRVqYZHGxqNZZpRUPv+NXg/HQwOeO8oemQKFotxom8f948Ushwt";
  "d2Ml5JMGLVkhECKbDIw+Fz8+VgSeApQrc8G9c/LR8csEe/P7MP4S/o+VCaTV8L4JqrPL7MNmqZv8ShmL";
  "C5tcacYjc5rkf3rE0hc1TXMsjB6HVQhb6NDEaIo6nloboQGLm519OVTUgqGkGHGWzvu6awnV1r7Nn0a6";
  "fSvPDtLjMCWylMR6jNxYoJGpy6Yk9YS0ODAwurFZVRndts86I8ZPtP9YOaZvlfPPyWhtrccrRqqos8MU";
  "fn/3+hJwU3+N2jui7hmIwTnc3VyDpsyUWMQ/n7VX3iG1gTLjDVkeI+Ph2d9jpNOXgDG6zEgMgN0HsoBZ";
  "lvBoCmZOGqbBlfAsdwyfsCiIOwnUyJbG8vMe3BJXwYqdC6BN9AUuzlemEQJpEzM3pwCGgXMqIxVziiOb";
  "tuWc4P3t9XdiuAILaDVEX3RrNFNDhY69kRUpr4oCJ1ItjUTfBijQlALZjMa+mnyou0Gb012ykuoaSB+f";
  "nh69gs1C8NWkMBl8oAUgM2Z54kWAjiw9esqEKGe7WY7GAge0cUqhB+9ygk/IWU5BBNuJk6DJuyjBnBsc";
  "2RnxnZlZ5CpQfOPChdaBYgScobFR2DFRDn6is9EVaHHscTGuQnHo6l36Dje42MDsrsRFOIdn9QbD//zj";
  "n89TIDwuKHwXV7Eb2czZWJUUe3ATKEponDC05QqLwtUtLzWHUNmnQmesC4ms9Ip75clq+dZR08pqkuqL";
  "xFzU7zwaPXaVaKIUXEGcLOjRJ+HqqCmagvSOXn1B31JZ71Z95ytq3lrBaxFY+9AQsDa9/HmtGU2drLHH";
  "3yR7T1QpjyY0W8vV69u+1GybdVhFopk7r2uxgdpOCgDnzmiYFg4Zgqus7nIwHp5Rb9aDkRr0BoPB4Ozo";
  "TyOV5Okw5D4Q6vHEx/3GcHJcN+TV3CD77MwRg0NlawtqcnrlTeOwzi7VhwESZJRVwfDiTgS8js7bErOL";
  "SqaBfWKkzDOpjwBR9I3zQAT1sBmHIwvwt+4dFcge05zZvdIAsJk9ujFznnSSF6PJspkaCnvL3pmSImPp";
  "4fbN5cnJyStwAd5b8wiRMmd1PIeyigwTgk+Gc2Ph3/86GQzi3jYbrYGcHuHtjxeX3bu3F8enZyByLMZf";
  "+Meb80cjCyVx7nR69Mh5eog5Hp+ePZs4vXieKr515G7Dsk0N9Ebm8DT3Gjt1h1xfBhdjd+KCFrZZFCVz";
  "xkJSBpIpBC5urnpwURRQVowsqUpWe2dsaj0pR0Z21/W1AGLFudBfy9c5ZIX0HoknSp+zDIGkk3UjTkXy";
  "OBhpWjF3VaEFAaCFX/YuFb+sEgGchZuf7t7VasiGUxWuyRDQqqPmFGLt56B31BtIjThPFr1RQ3WSXkla";
  "c54ysp8TFpz/XZ5nlERD5CShv9JqqN6uvu9dVY4Hg72LCtMj932BZu+K0nLpaYbjpx8a5aKG9w8dFauy";
  "xLBQQ3Vt5mSlnfngJvVdpT8/6vt6XhybBKC+v7nY4kDLbSYRsL3r3bcPXluT/t5dcPlQKwVF/t7pxe92";
  "Y/vKxWvZVCfpf8uDkBz9bkiadLUErYaqJbte1KnQtt0G3/oyKtZHv8n61ZOtl7tZU+MDhFWegFm70po+";
  "/c9GL79YA38l/kb+JJ2SotqqVGofzYjt/m3gG+22TrGvFtz/MbpSkkL+i/+N/DfEWX7APUykN9XH7RT7";
  "ble8fxC/I4X5mtgmrmuXYQGa5qqj0myqcmY/7PdlXixyF3n4cvByoJYPy/8GAAD//wYA/RPdEQAA"
].

(** [strings.Join(l, "")]. *)
Definition join_all (l : list string) : string := foldr String.append "" l.

(** [base64.StdEncoding.DecodeString]; the offset in its error is left out. *)
Definition DecodeString (s : string) : res string :=
  match b64_decode s with Some t => Ok t | None => Err (ErrMsg "illegal base64 data") end.

Definition decodeSpec (spec : list string) : res string :=
  match DecodeString (join_all spec) with
  | Err e => Err (ErrWrap "error base64 decoding spec" e)
  | Ok zipped =>
    match readHeader zipped with
    | Err e => Err (ErrWrap "error decompressing spec" e)
    | Ok zr =>
      match read_members (String.length zipped) zr with
      | Err e => Err (ErrWrap "error decompressing spec" e)
      | Ok buf => Ok buf
      end
    end
  end.

(** [rawSpec]: decoded once, when the package is loaded. *)
Definition rawSpec : res string := decodeSpec swaggerSpec.

(** The synthetic file system: the document under its path, if it has one. *)
Definition PathToRawSpec (pathToFile : string) : gmap string (res string) :=
  if (0 <? String.length pathToFile)%nat then {[ pathToFile := rawSpec ]} else ∅.

(** [loader.ReadFromURIFunc]. *)
Definition read_uri (resolvePath : gmap string (res string)) (url : string) : res string :=
  let pathToFile := path_Clean url in
  match resolvePath !! pathToFile with
  | None => Err (ErrMsg ("path not found: " +:+ pathToFile))
  | Some spec => spec
  end.

(** [LoadFromData] is the loader of kin-openapi, with external references allowed and
    read by its first argument. *)
Definition GetSwagger {T} (LoadFromData : (string -> res string) -> string -> res T) : res T :=
  let resolvePath := PathToRawSpec "" in
  match rawSpec with
  | Err e => Err e
  | Ok specData => LoadFromData (read_uri resolvePath) specData
  end.

(** ** The document *)

Definition document : option jval := match rawSpec with Ok t => whole_value t | Err _ => None end.

(** The value it has, by evaluation. *)
Definition doc : jval := Eval vm_compute in default VNull document.

Lemma document_decodes : document = Some doc.
Proof. vm_compute. reflexivity. Qed.

Definition jget (k : string) (v : jval) : option jval :=
  match v with VObj fs => snd <$> List.find (fun kv => String.eqb kv.1 k) fs | _ => None end.

Definition fields (v : jval) : list (string * jval) := match v with VObj fs => fs | _ => [] end.

(** The value under a list of names. *)
Definition jpath (ks : list string) (v : option jval) : option jval := foldl (fun v k => v ≫= jget k) v ks.

(** A reference inside the document, [#/a/b/c]. *)
Definition resolve_ref (root : jval) (ref : string) : option jval :=
  match split_on "/" ref with "#" :: ks => jpath ks (Some root) | _ => None end.

(** Every reference of a value. *)
Fixpoint refs_of (v : jval) : list string :=
  match v with
  | VArr l => flat_map refs_of l
  | VObj fs => flat_map (fun kv => match kv with
                                   | ("$ref", VStr r) => [r]
                                   | (_, x) => refs_of x
                                   end) fs
  | _ => []
  end.

(** The loader has nothing external to read: every reference resolves inside. *)
Lemma references_resolve : (List.length (refs_of doc), forallb (fun r => bool_decide (is_Some (resolve_ref doc r))) (refs_of doc)) = (10%nat, true).
Proof. vm_compute. reflexivity. Qed.

(** ** Operations *)

Record Operation := mkOperation { op_method : string; op_path : string; op_id : string; op_statuses : list string }.

Definition operations (root : jval) : list Operation :=
  flat_map (fun p =>
    (fun m => mkOperation m.1 p.1 (match jget "operationId" m.2 with Some (VStr s) => s | _ => "" end)
                (fst <$> fields (default VNull (jget "responses" m.2)))) <$> fields p.2)
    (fields (default VNull (jget "paths" root))).

(** The document's path items name methods in lower case. *)
Definition method_name (o : Operation) : string :=
  match op_method o with "get" => "GET" | "post" => "POST" | m => m end.

(** An operation, against a method and a path: the values of the path parameters. *)
Definition match_operation (o : Operation) (method : string) (r : Request) : option (list string) :=
  if String.eqb (method_name o) method then mux_match (op_path o) r else None.

(** The operation asked for, with the values of its path parameters. *)
Fixpoint asked (ops : list Operation) (method : string) (r : Request) : option (string * list string) :=
  match ops with
  | [] => None
  | o :: ops => match match_operation o method r with Some ps => Some (op_id o, ps) | None => asked ops method r end
  end.

Section serve.
Context (bind_uuid : string -> res uuid) (bind_string : string -> res string) (not_routed : Request -> Response).

(** A server that follows the document: a request with this method is served by the
    operation it asks for, with the binding of its parameters; when no operation is
    asked for, the mux answers. *)
Definition serve_document (root : jval) (si : ServerInterface) (method : string) : http_Handler := fun r =>
  let siw := mkServerInterfaceWrapper si [] default_param_error in
  match asked (operations root) method r with
  | Some ("Healthz", []) => siw_Healthz siw r
  | Some ("CreatePaymentIntent", []) => siw_CreatePaymentIntent bind_string siw r
  | Some ("GetPaymentIntent", [id]) => siw_GetPaymentIntent bind_uuid siw id r
  | _ => mret (not_routed r)
  end.
End serve.

(** ** The routes are the operations of the document *)

Definition documented : list Operation := [
  mkOperation "get" "/healthz" "Healthz" ["200"];
  mkOperation "post" "/v1/payment_intents" "CreatePaymentIntent" ["201"; "400"; "401"; "409"];
  mkOperation "get" "/v1/payment_intents/{id}" "GetPaymentIntent" ["200"; "404"]].

Lemma operations_documented : operations doc = documented.
Proof. vm_compute. reflexivity. Qed.

Section routes.
Context `{Env} `{Solana} `{Keys} (time_text : Z -> string) (decode_error : string -> string)
  (bind_uuid : string -> res uuid) (bind_string : string -> res string) (not_routed : Request -> Response) (h : Handlers).

(** A pattern without wildcards gives no values. *)
Lemma match_literal pat segs vs :
  forallb (fun x => negb (is_wildcard x)) pat = true -> match_pattern pat segs = Some vs -> vs = [].
Proof.
  revert segs. induction pat as [|x pat IH]; intros [|s segs]; cbn; try congruence.
  intros [Hx%negb_true_iff Hp]%andb_true_iff. rewrite Hx. case_match; [by apply IH|done].
Qed.

Lemma mux_match_literal pattern r vs :
  forallb (fun x => negb (is_wildcard x)) (path_segments pattern) = true -> mux_match pattern r = Some vs -> vs = [].
Proof. unfold mux_match. intros Hl E. destruct (mux_path r) as [segs|]; [by eapply match_literal|done]. Qed.

Lemma asked_documented method r :
  asked documented method r =
    if String.eqb method "GET" then
      match mux_match "/healthz" r, mux_match (intents_path +:+ "/{id}") r with
      | Some _, _ => Some ("Healthz", [])
      | None, Some ids => Some ("GetPaymentIntent", ids)
      | None, None => None
      end
    else if String.eqb method "POST" then (fun _ => ("CreatePaymentIntent", [])) <$> mux_match intents_path r
    else None.
Proof.
  unfold documented, asked, match_operation, method_name. cbn [op_method op_path op_id].
  change "/v1/payment_intents" with intents_path. change "/v1/payment_intents/{id}" with (intents_path +:+ "/{id}").
  rewrite !(String.eqb_sym _ method). destruct (String.eqb_spec method "GET") as [->|HG].
  - change (String.eqb "GET" "POST") with false. cbv iota.
    destruct (mux_match "/healthz" r) as [vs|] eqn:E; [by rewrite (mux_match_literal "/healthz" _ _ eq_refl E)|]. by case_match.
  - destruct (String.eqb method "POST"); [|done].
    destruct (mux_match intents_path r) as [vs|] eqn:E; [|done]. by rewrite (mux_match_literal intents_path _ _ eq_refl E).
Qed.

(** C19: The server serves its document: the OpenAPI document embedded in the
    generated code, unpacked from its base64 and gzip and read as JSON, names three
    operations, and every request is answered by the one whose method and path
    template match it, with its path parameter; a [HEAD] request, which the document
    does not list, is answered as [GET] is.  A request that matches none, or whose
    path is not the clean one, is answered by the mux and reaches no operation. *)
Theorem served_as_documented r :
  exists root, document = Some root /\ List.length (operations root) = 3%nat /\
    apispec_Handler time_text decode_error bind_uuid bind_string not_routed h r =
    serve_document bind_uuid bind_string not_routed root (handlers_interface time_text decode_error h)
      (if String.eqb (Method r) "HEAD" then "GET" else Method r) r.
Proof.
  exists doc. split; [apply document_decodes|]. split; [reflexivity|].
  unfold serve_document. rewrite operations_documented, asked_documented, apispec_Handler_generated.
  unfold apispec_HandlerOf, HandlerWithOptions. cbv zeta. cbn [BaseURL BaseRouter Middlewares std_ErrorHandlerFunc default].
  change ("" +:+ ?s) with s.
  assert (Hget : forall m, m = "GET" \/ m = "HEAD" ->
    (String.eqb m "GET" || String.eqb m "HEAD", String.eqb m "POST", if String.eqb m "HEAD" then "GET" else m) = (true, false, "GET"))
    by (by intros ? [-> | ->]).
  destruct (String.eqb (Method r) "GET" || String.eqb (Method r) "HEAD") eqn:Hm.
  - apply orb_true_iff in Hm. rewrite !String.eqb_eq in Hm. injection (Hget _ Hm) as _ -> ->.
    rewrite String.eqb_refl. destruct (mux_match "/healthz" r); [done|].
    by destruct (mux_match (intents_path +:+ "/{id}") r) as [[|? [|]]|].
  - apply orb_false_iff in Hm as [Hg ->]. rewrite Hg. destruct (String.eqb (Method r) "POST"); [|done].
    by destruct (mux_match intents_path r).
Qed.
End routes.
