(* ===== verification/ApiConform.v ===== *)
(** * The answers of the API and the schemas of its document

    [conforms] reads the schemas of the embedded document (types, enumerations,
    required properties, bounds, references) as a test on JSON values.  Every body
    the handlers write passes the test of the schema the document gives for it. *)

From S2P Require Import Prelude GoStr Sha256 MockBank Models World Http GoJson JsonDecode Queries Quoter AesGcm GoUrl SolanaPay Inflate SplParser PayUrl Reference Idempotency IdemCache Auth Api ApiSpec ApiRouter StrictServer System Schema ApiDoc.
From Stdlib Require Import Ascii String.

(** ** Schemas *)

(** The number of characters of a text: a byte that starts none counts as one. *)
Fixpoint rune_count (fuel : nat) (s : string) : Z :=
  match fuel, s with
  | S fuel, String _ _ => 1 + rune_count fuel (str_drop (Nat.max 1 (rune_len s)) s)
  | _, _ => 0
  end.

Definition bound (k : string) (schema : jval) : option Z :=
  match jget k schema with Some (VNum raw) => match ParseInt 64 raw with Ok z => Some z | Err _ => None end | _ => None end.

Definition at_least (b : option Z) (z : Z) : bool := match b with Some b => b <=? z | None => true end.
Definition at_most (b : option Z) (z : Z) : bool := match b with Some b => z <=? b | None => true end.

Definition is_string (s : string) (v : jval) : bool := match v with VStr t => String.eqb t s | _ => false end.

Definition type_ok (schema : jval) (j : json) : bool :=
  match jget "type" schema, j with
  | None, _ => true
  | Some t, JStr _ => is_string "string" t
  | Some t, JNum _ => is_string "integer" t || is_string "number" t
  | Some t, JBool _ => is_string "boolean" t
  | Some t, JArr _ => is_string "array" t
  | Some t, JObj _ => is_string "object" t
  | Some t, JNull => is_string "null" t
  end.

Definition value_ok (schema : jval) (j : json) : bool :=
  match j with
  | JStr s =>
    let n := rune_count (String.length s) s in
    at_least (bound "minLength" schema) n && at_most (bound "maxLength" schema) n &&
    match jget "enum" schema with Some (VArr l) => existsb (is_string s) l | _ => true end
  | JNum z => at_least (bound "minimum" schema) z && at_most (bound "maximum" schema) z
  | _ => true
  end.

Definition required_ok (schema : jval) (fs : list (string * json)) : bool :=
  match jget "required" schema with
  | Some (VArr ks) => forallb (fun k => existsb (fun kv => is_string kv.1 k) fs) ks
  | _ => true
  end.

(** [fuel] bounds the nesting of properties and references. *)
Fixpoint conforms (fuel : nat) (root schema : jval) (j : json) : bool :=
  match fuel with
  | O => false
  | S fuel =>
    match jget "$ref" schema with
    | Some (VStr r) => match resolve_ref root r with Some s => conforms fuel root s j | None => false end
    | _ =>
      type_ok schema j && value_ok schema j &&
      match j with
      | JObj fs =>
        required_ok schema fs &&
        forallb (fun kv =>
          match jget "properties" schema ≫= jget kv.1 with
          | Some s => conforms fuel root s kv.2
          | None => true
          end) fs
      | JArr l => match jget "items" schema with Some s => forallb (conforms fuel root s) l | None => true end
      | _ => true
      end
    end
  end.

(** The schema of the JSON body of a response: its own, or that of the response it
    refers to. *)
Definition body_schema (root response : jval) : option jval :=
  jpath ["content"; "application/json"; "schema"]
    (match jget "$ref" response with Some (VStr r) => resolve_ref root r | _ => Some response end).

(** The response the document gives to an operation for a status. *)
Definition response_of (root : jval) (path method status : string) : option jval :=
  jpath ["paths"; path; method; "responses"; status] (Some root).

Definition response_schema (root : jval) (path method status : string) : option jval :=
  response_of root path method status ≫= body_schema root.

Definition conforms_to (root : jval) (schema : option jval) (j : json) : bool :=
  match schema with Some s => conforms 6 root s j | None => false end.

(** ** Bodies *)

Section bodies.
Context `{Env} `{Solana} `{Keys} (time_text : Z -> string) (decode_error : string -> string) (h : Handlers).

Definition intent_schema : jval := VObj [("$ref", VStr "#/components/schemas/PaymentIntent")].
Definition error_schema : jval := VObj [("$ref", VStr "#/components/schemas/Error")].

Lemma error_conforms code msg : conforms 6 doc error_schema (JObj [("code", JStr code); ("message", JStr msg)]) = true.
Proof.
  cbv -[rune_count]. reflexivity.
Qed.

Lemma intent_conforms p q out :
  quote_checked q -> intentToAPI h p q = Some out -> conforms 6 doc intent_schema (intent_json time_text out) = true.
Proof.
  intros (_ & _ & Hs) Hout. unfold intentToAPI in Hout. destruct (buildPayURL h p) as [url|]; [|done]. injection Hout as <-.
  unfold intent_json, omit_nil. cbn [ai_RecipientAta ai_ReferencePubkey ai_SolanaPayUrl ai_State ai_AmountIdr ai_CreatedAt ai_ExternalRef ai_Id ai_MerchantId ai_Quote ai_QuotedAmountUsdc].
  generalize (match url with Ok u => if bool_decide (u = "") then None else Some u | Err _ => None end). intros u.
  assert (Hlo : (0 <=? q_spread_bps q) = true) by (apply Z.leb_le; lia).
  assert (Hhi : (q_spread_bps q <=? 10000) = true) by (apply Z.leb_le; lia).
  generalize dependent (q_spread_bps q). intros b _ Hlo Hhi.
  destruct (pi_recipient_ata p), (pi_reference_pubkey p), u, (pi_state p).
  all: cbv -[rune_count at_least at_most formatRate uuid_string]; unfold at_least, at_most; rewrite Hlo, Hhi; reflexivity.
Qed.

(** ** Answers *)

(** Computations that keep the schema, and whose values satisfy [P]. *)
Definition yields {A} (P : A -> Prop) (m : M A) : Prop := forall w, schema_ok (w_db w) ->
  schema_ok (w_db (m w).2) /\ match (m w).1 with Ok a => P a | Err _ => True end.

Lemma yields_ret {A} (P : A -> Prop) a : P a -> yields P (mret a).
Proof. by intros HP w Hw. Qed.

Lemma yields_throw {A} (P : A -> Prop) e : yields P (throw e).
Proof. by intros w Hw. Qed.

Lemma yields_bind {A B} (Q : A -> Prop) (P : B -> Prop) (m : M A) k :
  yields Q m -> (forall a, Q a -> yields P (k a)) -> yields P (m ≫= k).
Proof.
  intros Hm Hk w Hw. unfold mbind, M_bind. specialize (Hm w Hw). destruct (m w) as [[a|e] w1]; cbn in *; destruct Hm as [Hw1 Ha]; [by apply Hk|done].
Qed.

Lemma yields_try {A} (Q : A -> Prop) (m : M A) : yields Q m -> yields (fun r => match r with Ok a => Q a | Err _ => True end) (try m).
Proof. intros Hm w Hw. specialize (Hm w Hw). unfold try. by destruct (m w) as [r w1]. Qed.

Lemma yields_keeps {A} (m : M A) : keeps schema_step m -> yields (fun _ => True) m.
Proof. intros Hm w Hw. split; [by apply (Hm w)|by case_match]. Qed.

Lemma yields_GetQuote id : yields quote_checked (GetQuote id).
Proof.
  intros w Hw. split; [apply (keeps_select schema_step (fun d => Queries.one (find_row (by_id q_id id) (quotes d))) w), Hw|].
  destruct (GetQuote id w) as [[q|e] w1] eqn:E; [|done]. apply select_Ok in E as [Eq _]. cbn [fst].
  destruct (find_row _ _) as [q'|] eqn:Ef; [|done]. injection Eq as <-.
  apply find_row_Some in Ef as [Hq _]. eapply Forall_forall; [|exact Hq]. apply Hw.
Qed.

(** An answer of an operation: JSON of the schema the document gives for its status,
    or one of the [extra] answers the document does not have. *)
Definition answer_ok (root : jval) (path method : string) (extra : list (Z * jval)) (resp : Response) : Prop :=
  exists j, resp = writeJSON (resp_Status resp) j /\
    match response_schema root path method (FormatUint (resp_Status resp)) with
    | Some s => conforms_to root (Some s) j = true
    | None => exists s, (resp_Status resp, s) ∈ extra /\ conforms_to root (Some s) j = true
    end.

(** The schema of a status. *)
Definition answers_with (path method : string) (extra : list (Z * jval)) (status : Z) (s : jval) : Prop :=
  response_schema doc path method (FormatUint status) = Some s \/
  response_schema doc path method (FormatUint status) = None /\ (status, s) ∈ extra.

Lemma answer_json path method extra status s j :
  answers_with path method extra status s -> conforms 6 doc s j = true -> answer_ok doc path method extra (writeJSON status j).
Proof.
  intros Hs Hj. exists j. split; [done|]. cbn [resp_Status writeJSON].
  destruct Hs as [->|[-> Hin]]; [done|]. by exists s.
Qed.

Lemma yields_error path method extra status code msg :
  answers_with path method extra status error_schema -> yields (answer_ok doc path method extra) (mret (writeError status code msg)).
Proof. intros Hs. apply yields_ret. by eapply answer_json, error_conforms. Qed.

Lemma yields_intent path method extra status p q :
  answers_with path method extra status intent_schema -> quote_checked q ->
  yields (answer_ok doc path method extra) (write_intent time_text h status p q).
Proof.
  intros Hs Hq. unfold write_intent. destruct (intentToAPI h p q) as [out|] eqn:E; [|apply yields_throw].
  apply yields_ret. by eapply answer_json, intent_conforms.
Qed.

Definition creation_extra : list (Z * jval) := [(200, intent_schema); (500, error_schema)].
Definition fetch_extra : list (Z * jval) := [(401, error_schema); (500, error_schema)].

Ltac status_solve :=
  solve [left; vm_compute; reflexivity
        |right; split; [vm_compute; reflexivity|]; repeat (apply list_elem_of_here || apply list_elem_of_further)].

(** The rest of an answer once a statement has been tried. *)
Ltac answer :=
  repeat first
    [ apply yields_error; status_solve
    | apply yields_intent; [status_solve|done]
    | progress case_match ].

Context `{!ProviderOk (h_Quoter h)}.

Lemma yields_tried {A B} (P : B -> Prop) (m : M A) (k : res A -> M B) :
  keeps schema_step m -> (forall r, yields P (k r)) -> yields P (try m ≫= k).
Proof. intros Hm Hk. eapply yields_bind; [by eapply yields_try, yields_keeps|]. by intros r _. Qed.

Lemma yields_quoted {B} (P : B -> Prop) id (k : res Models.Quote -> M B) :
  (forall q, quote_checked q -> yields P (k (Ok q))) -> (forall e, yields P (k (Err e))) -> yields P (try (GetQuote id) ≫= k).
Proof. intros Hq He. eapply yields_bind; [apply yields_try, yields_GetQuote|]. intros [q|e]; auto. Qed.

Lemma create_new_answers m body :
  yields (answer_ok doc intents_path "post" creation_extra) (create_new time_text h m body).
Proof.
  unfold create_new. destruct (FindAssociatedTokenAddress _ _) as [ata|e].
  all: apply yields_tried; [apply keeps_Issue; [apply _|done|intros; apply schema_CreateQuote]|intros qt]; answer.
  all: apply yields_tried; [apply keeps_Allocate; apply _|intros ref]; answer.
  apply yields_tried; [apply schema_CreatePaymentIntent|intros created]. answer.
  apply yields_quoted; intros; answer.
Qed.

Lemma creation_answers r :
  yields (answer_ok doc intents_path "post" creation_extra) (Handlers_CreatePaymentIntent time_text decode_error h r).
Proof.
  unfold Handlers_CreatePaymentIntent. answer.
  all: apply yields_tried; [apply keeps_select; apply _|intros existing]; answer; try apply create_new_answers.
  all: apply yields_quoted; intros; answer.
Qed.

Lemma fetch_answers id r :
  yields (answer_ok doc "/v1/payment_intents/{id}" "get" fetch_extra) (Handlers_GetPaymentIntent time_text h id r).
Proof.
  unfold Handlers_GetPaymentIntent, not_found. answer.
  apply yields_tried; [apply keeps_select; apply _|intros intent]. answer.
  apply yields_quoted; intros; answer.
Qed.

(** C20: Every answer has the shape the document promises: on a database that
    satisfies its constraints, whatever the request and whatever faults occur, the
    body of each answer of the creation and fetch handlers is JSON that passes the
    schema the embedded document gives for the answer's status (types, required
    properties, the enumeration of states, the bounds of the spread).  The only
    answers outside the document are 200 with an intent for a repeated creation,
    401 for a fetch, and 500, and these pass the schemas of an intent and of an
    error. *)
Theorem answers_conform root r w :
  document = Some root -> schema_ok (w_db w) ->
  (forall resp w', Handlers_CreatePaymentIntent time_text decode_error h r w = (Ok resp, w') ->
     answer_ok root intents_path "post" creation_extra resp) /\
  (forall id resp w', Handlers_GetPaymentIntent time_text h id r w = (Ok resp, w') ->
     answer_ok root "/v1/payment_intents/{id}" "get" fetch_extra resp).
Proof.
  rewrite document_decodes. intros [= <-] Hw. split.
  - intros resp w' E. destruct (creation_answers r w Hw) as [_ Ha]. by rewrite E in Ha.
  - intros id resp w' E. destruct (fetch_answers id r w Hw) as [_ Ha]. by rewrite E in Ha.
Qed.
End bodies.

(** ** Witness: the demo order *)

(** A body without its required properties, or of another type, or with a state
    outside the enumeration, is refused. *)
Example conforms_refuses :
  conforms 6 doc error_schema (JObj [("code", JStr "c")]) = false /\
  conforms 6 doc error_schema (JObj [("code", JNum 5); ("message", JStr "m")]) = false /\
  conforms 6 doc (VObj [("$ref", VStr "#/components/schemas/CreatePaymentIntentRequest")])
    (JObj [("external_ref", JStr ""); ("amount_idr", JNum 1)]) = false /\
  conforms 6 doc (VObj [("$ref", VStr "#/components/schemas/CreatePaymentIntentRequest")])
    (JObj [("external_ref", JStr "é"); ("amount_idr", JNum 1)]) = true.
Proof. vm_compute. repeat split. Qed.

Section conform_example.
#[local] Existing Instance example_env.
#[local] Existing Instance example_solana.
#[local] Existing Instance example_solana_ok.
#[local] Existing Instance example_keys.
#[local] Existing Instance example_keys_ok.
#[local] Existing Instance demo_provider_ok.

Lemma order_schema : schema_ok (w_db order_world).
Proof.
  split; cbn.
  all: lazymatch goal with
       | |- keyed_by _ _ => apply (bool_decide_unpack _); vm_compute; reflexivity
       | |- Forall _ [] => constructor
       | |- refers _ [] _ => constructor
       | _ => constructor; [|constructor]
       end.
  all: vm_compute; by left.
Qed.

Definition order_answer : Response :=
  match (Handlers_CreatePaymentIntent (fun _ => "t") (fun _ => "e") example_handlers order_seen order_world).1 with
  | Ok resp => resp | Err _ => mkResponse 0 ∅ None end.

Lemma answers_conform_witness :
  resp_Status order_answer = 201 /\ answer_ok doc intents_path "post" creation_extra order_answer.
Proof.
  split; [vm_compute; reflexivity|].
  eapply (proj1 (answers_conform (fun _ => "t") (fun _ => "e") example_handlers doc order_seen order_world document_decodes order_schema)).
  vm_compute. reflexivity.
Defined.
End conform_example.
