(* ===== verification/Lifecycle.v ===== *)
(** * The life of a payment intent

    Reference machine: an intent does not exist, is created pending, and is then
    funded, settling, paid out and completed, in that order.  Every step of the
    system, a whole transaction at a time, is matched by steps of that machine,
    intent by intent (Interference.v lets transactions overlap), and an intent never
    changes in anything but its state and its deposit address.  The other
    two states of the schema, [expired] and [failed], are never entered: nothing
    writes the first, and the transaction that writes the second is rolled back. *)

From S2P Require Import Prelude GoStr Sha256 MockBank Models World GoJson Queries Ledger Backoff Payout Outbox Saga SagaSteps Settlement HappyPath Scenarios Quoter SplParser Watcher Http Reference Idempotency IdemCache Auth Api ApiSpec ApiRouter System.

(** ** The reference machine *)

Inductive state_edge : PaymentIntentState -> PaymentIntentState -> Prop :=
  | edge_fund : state_edge IPending IFunded
  | edge_settle : state_edge IFunded ISettling
  | edge_pay : state_edge ISettling IPaidOut
  | edge_complete : state_edge IPaidOut ICompleted.

(** [None]: no such intent. *)
Inductive life_edge : option PaymentIntentState -> option PaymentIntentState -> Prop :=
  | life_create : life_edge None (Some IPending)
  | life_state s s' : state_edge s s' -> life_edge (Some s) (Some s').

(** The abstraction: what the database says of an intent. *)
Definition intent_state (d : DB) (id : uuid) : option PaymentIntentState :=
  pi_state <$> find_row (by_id pi_id id) (payment_intents d).

(** The position of a state along the machine, none for the two it has not. *)
Definition stage (s : PaymentIntentState) : option nat :=
  match s with
  | IPending => Some 0%nat | IFunded => Some 1%nat | ISettling => Some 2%nat
  | IPaidOut => Some 3%nat | ICompleted => Some 4%nat
  | _ => None
  end.

Lemma edges_stage s s' : rtc state_edge s s' -> s = s' \/ exists n m, stage s = Some n /\ stage s' = Some m /\ (n < m)%nat.
Proof.
  induction 1 as [s|s1 s2 s3 He _ IH]; [by left|]. right.
  destruct IH as [<-|(n & m & Hn & Hm & Hlt)]; destruct He; simplify_eq/=; eexists _, _; (split_and!; [done|done|lia]).
Qed.

(** ** Rows *)

(** Everything but the state and the deposit address of an intent is fixed. *)
Definition terms (p : PaymentIntent) :=
  (pi_id p, pi_merchant_id p, pi_external_ref p, pi_amount_idr p, pi_quoted_amount_usdc p, pi_quote_id p, pi_created_at p).

Definition intent_adv (p p' : PaymentIntent) : Prop := terms p' = terms p /\ rtc state_edge (pi_state p) (pi_state p').

#[global] Instance intent_adv_preorder : PreOrder intent_adv.
Proof.
  split; [by split; [|apply rtc_refl]|]. intros p1 p2 p3 [T1 E1] [T2 E2]. split; [congruence|by etransitivity].
Qed.

(** Existing intents advance, new ones come after them. *)
Definition intents_adv (d d' : DB) : Prop :=
  exists kept new, payment_intents d' = kept ++ new /\ Forall2 intent_adv (payment_intents d) kept /\
    Forall (fun p => rtc state_edge IPending (pi_state p)) new.

#[global] Instance intents_adv_preorder : PreOrder intents_adv.
Proof.
  split; [intros d; exists (payment_intents d), []; by rewrite app_nil_r|].
  intros d1 d2 d3 (k1 & n1 & E1 & K1 & N1) (k2 & n2 & E2 & K2 & N2).
  rewrite E1 in K2. apply Forall2_app_inv_l in K2 as (k2a & k2b & Ka & Kb & ->).
  exists k2a, (k2b ++ n2). split_and!; [by rewrite E2, app_assoc|by etransitivity|].
  apply Forall_app. split; [|done]. apply Forall_forall. intros p' Hp'.
  apply list_elem_of_lookup in Hp' as [i Hi]. destruct (Forall2_lookup_r _ _ _ _ _ Kb Hi) as (p & Hp & [_ He]).
  etransitivity; [|exact He]. exact (proj1 (Forall_lookup _ _) N1 _ _ Hp).
Qed.

Definition life_rel (d d' : DB) : Prop := unique_intents d -> unique_intents d' /\ intents_adv d d'.

#[global] Instance life_rel_preorder : PreOrder life_rel.
Proof.
  split; [by split|]. intros d1 d2 d3 H1 H2 [K2 A2]%H1. destruct (H2 K2) as [K3 A3]. split; [done|by etransitivity].
Qed.

Lemma life_same_intents d d' : payment_intents d' = payment_intents d -> life_rel d d'.
Proof.
  intros E K. split; [unfold unique_intents; by rewrite E|].
  exists (payment_intents d), []. rewrite app_nil_r. by split_and!.
Qed.

Lemma life_find d d' id :
  intents_adv d d' ->
  match find_row (by_id pi_id id) (payment_intents d) with
  | Some p => exists p', find_row (by_id pi_id id) (payment_intents d') = Some p' /\ intent_adv p p'
  | None => forall p', find_row (by_id pi_id id) (payment_intents d') = Some p' -> rtc state_edge IPending (pi_state p')
  end.
Proof.
  intros (kept & new & -> & HF & Hnew).
  assert (Hk : match find_row (by_id pi_id id) (payment_intents d) with
          | Some p => exists p', find_row (by_id pi_id id) kept = Some p' /\ intent_adv p p'
          | None => find_row (by_id pi_id id) kept = None end).
  { induction HF as [|p p' l l' Hadv HF IH]; simpl; [done|].
    assert (by_id pi_id id p' = by_id pi_id id p) as -> by (unfold by_id; destruct Hadv as [[=] _]; congruence).
    destruct (by_id pi_id id p); eauto. }
  destruct (find_row _ (payment_intents d)) as [p|].
  - destruct Hk as (p' & Hf & Hadv). exists p'. split; [by apply find_row_app_Some|done].
  - intros p'. rewrite find_row_app_None by done. intros [Hin _]%find_row_Some.
    by apply (proj1 (Forall_forall _ _) Hnew).
Qed.

Lemma lift_edges s s' : rtc state_edge s s' -> rtc life_edge (Some s) (Some s').
Proof. induction 1; [apply rtc_refl|]. eapply rtc_l; [by apply life_state|done]. Qed.

Lemma life_abs d d' id : intents_adv d d' -> rtc life_edge (intent_state d id) (intent_state d' id).
Proof.
  intros Hl%(life_find _ _ id). unfold intent_state. destruct (find_row _ (payment_intents d)) as [p|]; simpl.
  - destruct Hl as (p' & -> & [_ He]). by apply lift_edges.
  - destruct (find_row _ (payment_intents d')) as [p'|]; simpl; [|apply rtc_refl].
    eapply rtc_l; [apply life_create|]. by apply lift_edges, Hl.
Qed.

(** ** Statements and transactions *)

Definition same_intents (d d' : DB) : Prop := payment_intents d' = payment_intents d.
#[global] Instance same_intents_preorder : PreOrder same_intents.
Proof. split; [done|]. intros d1 d2 d3 H1 H2. unfold same_intents in *. congruence. Qed.
#[global] Instance same_intents_payouts : Frames same_intents set_payouts. Proof. done. Qed.
#[global] Instance same_intents_quotes : Frames same_intents set_quotes. Proof. done. Qed.
#[global] Instance same_intents_outbox : Frames same_intents set_outbox. Proof. done. Qed.
#[global] Instance same_intents_entries : Frames same_intents set_journal_entries. Proof. done. Qed.
#[global] Instance same_intents_postings : Frames same_intents set_postings. Proof. done. Qed.
#[global] Instance same_intents_runs : Frames same_intents set_saga_runs. Proof. done. Qed.
#[global] Instance same_intents_onchain : Frames same_intents set_onchain_payments. Proof. done. Qed.
#[global] Instance same_intents_keys : Frames same_intents set_idempotency_keys. Proof. done. Qed.

Lemma keeps_life_same {A} (m : M A) : keeps same_intents m -> keeps life_rel m.
Proof. intros Hm w. apply life_same_intents, Hm. Qed.

#[global] Instance life_quotes : Frames life_rel set_quotes. Proof. intros d t. by apply life_same_intents. Qed.
#[global] Instance life_keys : Frames life_rel set_idempotency_keys. Proof. intros d t. by apply life_same_intents. Qed.

(** [R] holds of the database a successful run leaves, when the intent [id] is in
    state [s] at its start. *)
Definition wins (R : DB -> DB -> Prop) (G : DB -> Prop) {A} (m : M A) : Prop :=
  forall w a w', G (w_db w) -> m w = (Ok a, w') -> R (w_db w) (w_db w').

(** The transaction of a failing body is rolled back. *)
Lemma keeps_with_tx_wins (R : DB -> DB -> Prop) `{!PreOrder R} {A} b c (m : M A) :
  wins R (fun _ => True) m -> keeps R (with_tx b c m).
Proof.
  intros Hm w. unfold with_tx. pose proof (pop_fault_db w) as E. destruct (pop_fault w) as [flt w0]. simpl in E.
  rewrite <- E. destruct flt; simpl; [|reflexivity..].
  destruct (m w0) as [[a|e] w1] eqn:Em; simpl; [|reflexivity].
  pose proof (Hm _ _ _ I Em) as HR.
  destruct (commit_cases (w_db w0) w1) as [(w3 & -> & Hd)|(e & w3 & -> & [Hd|Hd])]; simpl; rewrite Hd;
    [done|reflexivity|done].
Qed.

Section statements.
Context `{Env}.

(** The state of an intent, read earlier in the transaction. *)
Definition in_state (id : uuid) (s : PaymentIntentState) (d : DB) : Prop :=
  forall p, find_row (by_id pi_id id) (payment_intents d) = Some p -> pi_state p = s.

Definition advances (G : DB -> Prop) {A} (m : M A) : Prop := wins life_rel G m.

Lemma advances_keeps G {A} (m : M A) : keeps same_intents m -> advances G m.
Proof. intros Hm w a w' _ E. pose proof (Hm w) as K. rewrite E in K. by apply life_same_intents. Qed.

Lemma advances_throw G {A} e : advances G (@throw A e).
Proof. intros w a w' _. discriminate. Qed.

Lemma advances_map_err G {A} f (m : M A) : advances G m -> advances G (map_err f m).
Proof. intros Hm w a w' HG E%map_err_Ok. by eapply Hm. Qed.

(** Statements that leave the intents alone keep what was read. *)
Lemma advances_frame id s {A B} (m : M A) (k : A -> M B) :
  keeps same_intents m -> (forall a, advances (in_state id s) (k a)) -> advances (in_state id s) (m ≫= k).
Proof.
  intros Hm Hk w b w' HG (a & w1 & E1 & E2)%bind_Ok. pose proof (Hm w) as K. rewrite E1 in K. simpl in K.
  etransitivity; [by apply life_same_intents|]. eapply Hk; [|exact E2]. unfold in_state. by rewrite K.
Qed.

(** The last statement that touches the intents. *)
Lemma advances_last G {A B} (m : M A) (k : A -> M B) :
  advances G m -> (forall a, keeps same_intents (k a)) -> advances G (m ≫= k).
Proof.
  intros Hm Hk w b w' HG (a & w1 & E1 & E2)%bind_Ok. pose proof (Hk a w1) as K. rewrite E2 in K.
  etransitivity; [by eapply Hm|by apply life_same_intents].
Qed.

Lemma advances_bind_res G {A B} f (r : res A) (k : A -> M B) :
  (forall a, r = Ok a -> advances G (k a)) -> advances G (map_err f (lift_res r) ≫= k).
Proof. intros Hk w b w' HG (a & w1 & [-> ->]%map_err_Ok%lift_res_Ok & E2)%bind_Ok. by eapply Hk. Qed.

(** Reading the intent. *)
Lemma advances_read f id {B} (k : PaymentIntent -> M B) :
  (forall p, pi_id p = id -> advances (in_state id (pi_state p)) (k p)) ->
  advances (fun _ => True) (map_err f (GetPaymentIntentByID id) ≫= k).
Proof.
  intros Hk w b w' _ (p & w1 & E1%map_err_Ok & E2)%bind_Ok.
  apply select_Ok in E1 as (Ef & Ed & _). unfold Queries.one in Ef.
  destruct (find_row _ _) as [q|] eqn:Hf; [|done]. injection Ef as ->.
  rewrite <- Ed. eapply Hk; [|rewrite Ed|exact E2].
  - by apply find_row_Some in Hf as [_ ?%N.eqb_eq].
  - intros q Hq. congruence.
Qed.

Lemma advances_UpdatePaymentIntentState id s s' :
  state_edge s s' -> advances (in_state id s) (UpdatePaymentIntentState id s').
Proof.
  intros He w a w' HG E. apply stmt_Ok in E as (Ea & Ed & _). simpl in *. rewrite Ed.
  intros K. unfold unique_intents, intents_adv. cbn [payment_intents set_payment_intents].
  split; [by rewrite fmap_update_where|]. eexists _, []. rewrite app_nil_r. split_and!; [reflexivity| |done].
  unfold update_where. apply Forall2_fmap_r, Forall_Forall2_diag, Forall_forall. intros p Hp. unfold compose.
  destruct (by_id pi_id id p) eqn:Hid; [|reflexivity]. split; [done|]. simpl. apply rtc_once.
  destruct (find_row_is_Some _ _ _ Hp Hid) as [q Hq]. rewrite <- (HG q Hq) in He.
  pose proof (find_row_Some _ _ _ Hq) as [Hin Hqid]. apply N.eqb_eq in Hid, Hqid.
  rewrite <- (NoDup_fmap_elem pi_id _ q p K Hin Hp) in * by congruence. done.
Qed.

Lemma life_UpdatePaymentIntentReference id pub sec ata : keeps life_rel (UpdatePaymentIntentReference id pub sec ata).
Proof.
  apply keeps_stmt; [apply _|]. intros now rng d K. unfold unique_intents, intents_adv. cbn.
  split; [by rewrite fmap_update_where|]. eexists _, []. rewrite app_nil_r. split_and!; [reflexivity| |done].
  unfold update_where. apply Forall2_fmap_r, Forall_Forall2_diag, Forall_forall. intros p Hp. unfold compose.
  destruct (by_id pi_id id p); [|reflexivity]. by split; [|apply rtc_refl].
Qed.

Lemma life_CreatePaymentIntent m ref idr usdc q pub sec ata :
  keeps life_rel (CreatePaymentIntent m ref idr usdc q IPending pub sec ata).
Proof.
  apply keeps_stmt; [apply _|]. intros now rng d. cbn. repeat case_match; try (cbn; reflexivity). cbn. intros K.
  unfold unique_intents, intents_adv. cbn. split.
  - apply NoDup_snoc; [done|]. cbn. by apply pk_taken_false.
  - exists (payment_intents d), [mkPaymentIntent (gen_uuid rng) m ref idr usdc q pub sec ata IPending now now].
    split_and!; [done..|]. apply Forall_singleton, rtc_refl.
Qed.
End statements.

#[global] Instance life_api `{Env} : ApiWrites life_rel.
Proof.
  split; intros; [apply keeps_CreateQuote; apply _|apply life_CreatePaymentIntent|apply keeps_InsertIdempotencyKey; apply _].
Qed.

(** ** The settlement steps *)

Section steps.
Context `{Env}.

Lemma same_intents_PostTx e : keeps same_intents (PostTx e).
Proof.
  assert (forall id ls, keeps same_intents (insert_lines id ls)) as Hl
    by (intros id ls; induction ls as [|l ls IH]; simpl; keeps_auto).
  unfold PostTx, postWith. keeps_auto.
Qed.

Lemma same_intents_account code cur : keeps same_intents (GetAccountByCodeTx code cur).
Proof. unfold GetAccountByCodeTx. keeps_auto. Qed.
#[local] Hint Resolve same_intents_PostTx same_intents_account : keeps.

(** Statements that leave the intents alone, one after the other. *)
Ltac frame_step := apply advances_frame; [solve [keeps_auto]|intros ?].

(** [if intent.State == s { UPDATE ... SET state = s' }; return]. *)
Lemma advances_guarded id s s' f (p : PaymentIntent) {A} (r : A) :
  state_edge s s' ->
  advances (in_state id (pi_state p))
    (if bool_decide (pi_state p = s) then
       _ ← map_err f (UpdatePaymentIntentState id s'); mret r
     else mret r).
Proof.
  intros He. case_bool_decide as Hs; [|apply advances_keeps, keeps_ret, _].
  rewrite Hs. apply advances_last; [by apply advances_map_err, advances_UpdatePaymentIntentState|].
  intros. apply keeps_ret, _.
Qed.

Lemma advances_CreditDeposit run : advances (fun _ => True) (CreditDeposit_Execute run).
Proof.
  apply advances_read. intros p _. do 4 frame_step. by apply advances_guarded, edge_fund.
Qed.

Lemma advances_ApplyPayoutResult run : advances (fun _ => True) (ApplyPayoutResult_Execute run).
Proof.
  apply advances_read. intros p _. frame_step. destruct (negb _); [apply advances_throw|].
  frame_step. cbv zeta. destruct (_ <? _); [apply advances_throw|]. unfold postFXSwapUSDC, postPayoutDisbursedIDR.
  do 2 frame_step. by apply advances_guarded, edge_pay.
Qed.

Lemma advances_EmitCompleted run : advances (fun _ => True) (EmitCompleted_Execute run).
Proof.
  apply advances_read. intros p _. unfold Publish. apply advances_last; [|intros; keeps_auto].
  case_bool_decide as Hs; [|apply advances_keeps, keeps_ret, _].
  rewrite Hs. by apply advances_map_err, advances_UpdatePaymentIntentState, edge_complete.
Qed.

Lemma advances_settle_outcome run p po res :
  advances (in_state (pi_id p) (pi_state p)) (settle_outcome run p po res).
Proof.
  unfold settle_outcome. destruct (sres_outcome res).
  - frame_step. by apply advances_guarded, edge_settle.
  - frame_step. apply advances_throw.
  - intros w a w' _ E. minv.
  - apply advances_throw.
Qed.

(** The rails leave the database alone. *)
Lemma advances_submit deps run p recipient po :
  rails_ok deps -> advances (in_state (pi_id p) (pi_state p)) (submit_payout deps run p recipient po).
Proof.
  intros Hr. unfold submit_payout.
  destruct (po_state po); [| |by apply advances_guarded, edge_settle|apply advances_throw].
  all: apply advances_bind_res; intros rail Hg;
    pose proof (fun req => keeps_eq same_intents (rail_Submit rail req) (rail_db (RailOk := Hr _ _ Hg) req));
    do 2 frame_step; apply advances_settle_outcome.
Qed.

Lemma advances_TriggerPayout deps run : rails_ok deps -> advances (fun _ => True) (TriggerPayout_Execute deps run).
Proof. intros Hr. apply advances_read. intros p <-. do 3 frame_step. by apply advances_submit. Qed.

Lemma advances_step deps name st run :
  rails_ok deps -> Registry_Get (settlement_registry deps) name = Some st -> advances (fun _ => True) (Execute st run).
Proof.
  intros Hr [[_ ->]|[[_ ->]|[[_ ->]|[_ ->]]]]%settlement_steps; simpl.
  - apply advances_CreditDeposit.
  - by apply advances_TriggerPayout.
  - apply advances_ApplyPayoutResult.
  - apply advances_EmitCompleted.
Qed.

Lemma life_op r deps m :
  rails_ok deps -> registry r = settlement_registry deps -> worker_op r m -> keeps life_rel m.
Proof.
  intros Hr Hreg [|name st run Hget|id cause|run e].
  - apply keeps_life_same. unfold claim. keeps_auto.
  - rewrite Hreg in Hget. pose proof (advances_step deps _ st run Hr Hget) as Hst.
    apply keeps_bind; [apply _| |intros; keeps_auto].
    apply keeps_try, keeps_with_tx_wins; [apply _|]. apply advances_last; [by apply advances_map_err|intros; keeps_auto].
  - apply keeps_life_same. unfold failRun. keeps_auto.
  - apply keeps_life_same. unfold handleFailure, failRun, scheduleRetry, Delay. keeps_auto.
Qed.

(** ** Every step of the system *)

Context `{Solana}.

Lemma life_step w w' : system_step w w' -> life_rel (w_db w) (w_db w').
Proof.
  intros [t n fs js ns rd Hns|r deps m Hr Hreg Hop|cfg send Hs Ho|wt m Hrpc Hop|HE HK tt de bu bs nr h redis ttl r Hq
         |m Hm|id pub sec ata].
  - by apply life_same_intents.
  - by eapply life_op.
  - apply life_same_intents. by apply (keeps_drainOnce same_intents).
  - apply life_same_intents.
    apply (keeps_watch_op wt same_intents (fun sig c => keeps_ProcessSignature_frame wt same_intents sig c) m Hop).
  - apply keeps_router; apply _.
  - apply keeps_api_write; (done || apply _).
  - apply life_UpdatePaymentIntentReference.
Qed.

Lemma life_steps w w' : rtc system_step w w' -> life_rel (w_db w) (w_db w').
Proof. induction 1 as [|w w1 w2 Hs _ IH]; [reflexivity|]. etransitivity; [by apply life_step|done]. Qed.

(** C3: The system refines the life cycle of an intent: in any order of whole
    transactions of watchers, workers, dispatchers and API requests, and under any
    faults, each intent only moves along none, pending, funded, settling, paid out,
    completed, and its merchant, reference, amounts and quote never change.  An
    intent is thus never marked failed or expired.  (This is what a SERIALIZABLE
    database gives; at READ COMMITTED it takes leases that hold, see
    Interference.v.) *)
Theorem intents_refine_lifecycle w w' :
  rtc system_step w w' -> unique_intents (w_db w) ->
  (forall id, rtc life_edge (intent_state (w_db w) id) (intent_state (w_db w') id)) /\
  (forall id p, find_row (by_id pi_id id) (payment_intents (w_db w)) = Some p ->
     exists p', find_row (by_id pi_id id) (payment_intents (w_db w')) = Some p' /\ terms p' = terms p /\
       (pi_state p' = pi_state p \/
        exists n n', stage (pi_state p) = Some n /\ stage (pi_state p') = Some n' /\ (n < n')%nat)).
Proof.
  intros Hs%life_steps Hu. destruct (Hs Hu) as [_ Ha]. split; [intros id; by apply life_abs|].
  intros id p Hp. pose proof (life_find _ _ id Ha) as Hf. rewrite Hp in Hf. destruct Hf as (p' & Hf & Ht & He).
  exists p'. split_and!; [done..|]. apply edges_stage in He as [->|He]; auto.
Qed.
End steps.

(** ** Witness: the settlement of one intent *)

Section life_example.
#[local] Existing Instance example_env.
#[local] Existing Instance example_solana.

Lemma intents_refine_lifecycle_witness :
  intent_state (w_db (demo_ticks 4)) 4001%N = Some ICompleted /\
  rtc life_edge (Some IPending) (Some ICompleted) /\
  (exists p', find_row (by_id pi_id 4001%N) (payment_intents (w_db (demo_ticks 4))) = Some p' /\ terms p' = terms demo_intent).
Proof.
  assert (E : intent_state (w_db (demo_ticks 4)) 4001%N = Some ICompleted) by (vm_compute; reflexivity).
  destruct (intents_refine_lifecycle (demo_world 62038464) (demo_ticks 4) (demo_ticks_steps 4)) as [Hl Ht];
    [apply NoDup_singleton|].
  split_and!; [exact E| |].
  - rewrite <- E. exact (Hl 4001%N).
  - destruct (Ht 4001%N demo_intent) as (p' & Hf & Hp & _); [vm_compute; reflexivity|]. exact (ex_intro _ p' (conj Hf Hp)).
Defined.
End life_example.
