(* ===== verification/Interference.v ===== *)
(** * Transactions of the saga under interference

    Postgres' default level, READ COMMITTED, shows every statement what is committed
    when the statement starts, so other transactions can commit between two
    statements of a settlement step.  Lifecycle.v runs the transactions of the
    system one after the other; here a step's transaction is a sequence of
    statements and the database may change before each of them.  While nobody else
    moves its intent, which the lease of its run is for, a step still only advances
    it; a worker whose lease ran out in the middle of its step takes a completed
    intent back to funded. *)

From S2P Require Import Prelude GoStr MockBank Models World GoJson Queries Ledger Backoff Payout Outbox Saga SagaSteps Settlement HappyPath Scenarios ApiSpec System Lifecycle.

(** ** Programs *)

(** A sequence of statements; an error of one ends the program. *)
Inductive prog (A : Type) : Type :=
  | Done (r : res A)
  | Then {X : Type} (m : M X) (k : X -> prog A).
Arguments Done {A} r.
Arguments Then {A X} m k.

(** Run without interference. *)
Fixpoint denote {A} (p : prog A) : M A :=
  match p with
  | Done r => lift_res r
  | Then m k => x ← m; denote (k x)
  end.

(** Run with what others commit before each statement; the script is as good as
    empty where it ends. *)
Fixpoint interleave {A} (envs : list (DB -> DB)) (p : prog A) : M A :=
  match p with
  | Done r => lift_res r
  | Then m k => fun w =>
    match m (match envs with f :: _ => set_db w (f (w_db w)) | [] => w end) with
    | (Ok x, w') => interleave (tail envs) (k x) w'
    | (Err e, w') => (Err e, w')
    end
  end.

(** Nobody else commits anything: the two agree. *)
Lemma interleave_nil {A} (p : prog A) w : interleave [] p w = denote p w.
Proof.
  revert w. induction p as [r|X m k IH]; intros w; [done|]. cbn. unfold mbind, M_bind.
  destruct (m w) as [[x|e] w']; [apply IH|done].
Qed.

(** ** The steps as programs *)

Section programs.
Context `{Env}.

(** [if intent.State == s { UPDATE ... }; return]. *)
Definition guarded_prog {A} (intent : PaymentIntent) (s s' : PaymentIntentState) (f : err -> err) (id : uuid) (r : A) : prog A :=
  if bool_decide (pi_state intent = s) then Then (map_err f (UpdatePaymentIntentState id s')) (fun _ => Done (Ok r))
  else Done (Ok r).

Definition credit_prog (run : Run) : prog StepResult :=
  let intentID := run_IntentID run in
  Then (map_err
    (not_found_or (Terminal (ErrMsg ("credit_deposit: intent " +:+ uuid_string intentID +:+ " not found")))
       "credit_deposit: load intent")
    (GetPaymentIntentByID intentID)) (fun intent =>
  Then (map_err
    (not_found_or (ErrMsg ("credit_deposit: no finalized deposit for intent " +:+ uuid_string intentID))
       "credit_deposit: load deposit")
    (GetFinalizedDepositForIntent intentID)) (fun deposit =>
  Then (map_err (terminal_wrap "credit_deposit: hot wallet account")
    (GetAccountByCodeTx AccountHotWalletUSDC CurrencyUSDC)) (fun hotWallet =>
  Then (map_err (terminal_wrap "credit_deposit: liability account")
    (GetAccountByCodeTx AccountLiabilityUserFunds CurrencyUSDC)) (fun userFunds =>
  Then (map_err (ErrWrap "credit_deposit: post journal")
    (PostTx (deposit_credit_entry intentID (op_signature deposit) (op_amount deposit) hotWallet userFunds))) (fun _ =>
  guarded_prog intent IPending IFunded (ErrWrap "credit_deposit: advance intent state") intentID
    (mkStepResult StepTriggerPayout)))))).

Definition settling_prog (intent : PaymentIntent) : prog StepResult :=
  guarded_prog intent IFunded ISettling (ErrWrap "trigger_payout: advance state") (pi_id intent)
    (mkStepResult StepApplyPayoutResult).

(** Every outcome but success ends in an error. *)
Definition submit_prog (deps : Deps) (run : Run) (intent : PaymentIntent) (recipient : Recipient) (po : Payout) : prog StepResult :=
  match po_state po with
  | PoSucceeded => settling_prog intent
  | PoFailed =>
    Done (Err (Terminal (ErrMsg ("trigger_payout: payout already failed: " +:+ deref (po_last_error po)))))
  | _ =>
    Then (map_err (terminal_wrap "trigger_payout") (lift_res (Router_Get (PayoutRails deps) (po_rail po)))) (fun rail =>
    Then (map_err (ErrWrap "trigger_payout: mark submitting") (MarkPayoutSubmitting (po_id po))) (fun _ =>
    Then (map_err (ErrWrap "trigger_payout: rail submit") (rail_Submit rail (payout_request run intent po recipient))) (fun result =>
    match sres_outcome result with
    | OutcomeSuccess =>
      Then (map_err (ErrWrap "trigger_payout: mark succeeded")
        (MarkPayoutSucceeded (po_id po) (nullableString (sres_rail_reference result)))) (fun _ => settling_prog intent)
    | _ => Then (settle_outcome run intent po result) (fun r => Done (Ok r))
    end)))
  end.

Definition trigger_prog (deps : Deps) (run : Run) : prog StepResult :=
  let intentID := run_IntentID run in
  Then (map_err
    (not_found_or (Terminal (ErrMsg ("trigger_payout: intent " +:+ uuid_string intentID +:+ " not found")))
       "trigger_payout: load intent")
    (GetPaymentIntentByID intentID)) (fun intent =>
  Then (map_err (ErrWrap "trigger_payout: load merchant") (GetMerchantByID (pi_merchant_id intent))) (fun merchant =>
  Then (map_err (terminal_wrap "trigger_payout") (lift_res (recipientFromMerchant merchant))) (fun recipient =>
  Then (map_err (ErrWrap "trigger_payout: upsert payout")
    (UpsertPayout intentID MockIDRBankName (pi_amount_idr intent))) (fun po =>
  submit_prog deps run intent recipient po)))).

Definition apply_prog (run : Run) : prog StepResult :=
  let intentID := run_IntentID run in
  Then (map_err (ErrWrap "apply_payout_result: load intent") (GetPaymentIntentByID intentID)) (fun intent =>
  Then (map_err
    (not_found_or (Terminal (ErrMsg ("apply_payout_result: payout missing for intent " +:+ uuid_string intentID)))
       "apply_payout_result: load payout")
    (GetPayoutByIntent intentID)) (fun po =>
  if negb (bool_decide (po_state po = PoSucceeded)) then
    Done (Err (Terminal (ErrMsg ("apply_payout_result: payout state " +:+ PayoutState_string (po_state po)))))
  else
    Then (map_err (ErrWrap "apply_payout_result: load quote") (GetQuote (pi_quote_id intent))) (fun quote =>
    let midIDR := computeMidIDR (pi_quoted_amount_usdc intent) (q_rate_num quote) (q_rate_scale quote) in
    let spreadIDR := wrap64 (midIDR - po_amount_idr po) in
    if spreadIDR <? 0 then
      Done (Err (Terminal (ErrMsg ("apply_payout_result: negative spread (mid=" +:+ FormatInt midIDR +:+
                                   " paid=" +:+ FormatInt (po_amount_idr po) +:+ ")"))))
    else
      Then (postFXSwapUSDC intentID (pi_quoted_amount_usdc intent) po) (fun _ =>
      Then (postPayoutDisbursedIDR intentID midIDR (po_amount_idr po) spreadIDR po) (fun _ =>
      guarded_prog intent ISettling IPaidOut (ErrWrap "apply_payout_result: advance state") intentID
        (mkStepResult StepEmitCompleted)))))).

Definition emit_prog (run : Run) : prog StepResult :=
  let intentID := run_IntentID run in
  let publish updated :=
    Then (map_err (ErrWrap "emit_completed: publish outbox")
      (Publish "intent.completed" (Some (pi_id updated)) (Some (completed_event updated)) (completed_headers updated)))
      (fun _ => Done (Ok (mkStepResult ""))) in
  Then (map_err (ErrWrap "emit_completed: load intent") (GetPaymentIntentByID intentID)) (fun intent =>
  if bool_decide (pi_state intent = IPaidOut) then
    Then (map_err (ErrWrap "emit_completed: advance state") (UpdatePaymentIntentState intentID ICompleted)) publish
  else publish intent).

(** The program of a step. *)
Definition step_prog (deps : Deps) (name : string) (run : Run) : option (prog StepResult) :=
  if String.eqb name StepCreditDeposit then Some (credit_prog run)
  else if String.eqb name StepTriggerPayout then Some (trigger_prog deps run)
  else if String.eqb name StepApplyPayoutResult then Some (apply_prog run)
  else if String.eqb name StepEmitCompleted then Some (emit_prog run)
  else None.

(** ** They are the steps *)

Lemma denote_guarded {A} intent s s' f id (r : A) w :
  denote (guarded_prog intent s s' f id r) w =
    (if bool_decide (pi_state intent = s) then _ ← map_err f (UpdatePaymentIntentState id s'); mret r else mret r) w.
Proof. unfold guarded_prog. by case_bool_decide. Qed.

Lemma bind_ext {A B} (m : M A) (k k' : A -> M B) w : (forall a w, k a w = k' a w) -> (m ≫= k) w = (m ≫= k') w.
Proof. intros Hk. unfold mbind, M_bind. destruct (m w) as [[a|e] w']; [apply Hk|done]. Qed.

Lemma bind_ret {A} (m : M A) w : (x ← m; lift_res (Ok x)) w = m w.
Proof. unfold mbind, M_bind. by destruct (m w) as [[a|e] w']. Qed.

Ltac same_bind := apply bind_ext; intros ? ?.

Lemma denote_credit run w : denote (credit_prog run) w = CreditDeposit_Execute run w.
Proof. unfold credit_prog, CreditDeposit_Execute. cbn [denote]. do 5 same_bind. apply denote_guarded. Qed.

Lemma denote_trigger deps run w : denote (trigger_prog deps run) w = TriggerPayout_Execute deps run w.
Proof.
  unfold trigger_prog, TriggerPayout_Execute. cbn [denote]. do 4 same_bind.
  unfold submit_prog, submit_payout. destruct (po_state _); [| |apply denote_guarded|done].
  all: cbn [denote]; do 3 same_bind; unfold settle_outcome; destruct (sres_outcome _); cbn [denote].
  all: try (same_bind; apply denote_guarded).
  all: by rewrite bind_ret.
Qed.

Lemma denote_apply run w : denote (apply_prog run) w = ApplyPayoutResult_Execute run w.
Proof.
  unfold apply_prog, ApplyPayoutResult_Execute. cbn [denote]. do 2 same_bind. destruct (negb _); [done|].
  cbn [denote]. same_bind. cbv zeta. destruct (_ <? 0); [done|]. cbn [denote]. do 2 same_bind. apply denote_guarded.
Qed.

Lemma denote_emit run w : denote (emit_prog run) w = EmitCompleted_Execute run w.
Proof. unfold emit_prog, EmitCompleted_Execute. cbn [denote]. same_bind. case_bool_decide; done. Qed.

Lemma step_prog_denotes deps name st run :
  Registry_Get (settlement_registry deps) name = Some st ->
  exists p, step_prog deps name run = Some p /\ forall w, denote p w = Execute st run w.
Proof.
  intros [[-> ->]|[[-> ->]|[[-> ->]|[-> ->]]]]%settlement_steps; (eexists; split; [reflexivity|]); intros w; cbn [Execute].
  - apply denote_credit.
  - apply denote_trigger.
  - apply denote_apply.
  - apply denote_emit.
Qed.
End programs.

(** ** Interference that leaves an intent alone *)

(** What the others may commit: any intents advance, but this one stays in its
    state. *)
Definition spares (id : uuid) (f : DB -> DB) : Prop :=
  forall d, life_rel d (f d) /\ intent_state (f d) id = intent_state d id.

Section interference.
Context `{Env} (id : uuid).

(** A successful run only advances intents, when [id] is in state [s] at its start
    (if it is known). *)
Definition iadvances (s : option PaymentIntentState) {A} (p : prog A) : Prop :=
  forall envs w a w', Forall (spares id) envs -> (forall x, s = Some x -> in_state id x (w_db w)) ->
    interleave envs p w = (Ok a, w') -> life_rel (w_db w) (w_db w').

Lemma in_state_spared f x d : spares id f -> in_state id x d -> in_state id x (f d).
Proof.
  intros Hf Hx p Hp. destruct (Hf d) as [_ E]. unfold intent_state in E. rewrite Hp in E. cbn in E.
  destruct (find_row _ (payment_intents d)) as [q|] eqn:Hq; [|done]. injection E as E. rewrite E. by apply Hx.
Qed.

(** The world a statement sees after the others have committed. *)
Lemma spared_world envs s w :
  Forall (spares id) envs -> (forall x, s = Some x -> in_state id x (w_db w)) ->
  let w0 := match envs with f :: _ => set_db w (f (w_db w)) | [] => w end in
  life_rel (w_db w) (w_db w0) /\ (forall x, s = Some x -> in_state id x (w_db w0)) /\ Forall (spares id) (tail envs).
Proof.
  intros Hs Hx. destruct Hs as [|f envs Hf Hs]; [by split_and!|]. cbn. split_and!; [apply Hf| |done].
  intros x Ex. by apply in_state_spared; [|apply Hx].
Qed.

(** A statement and the rest of the program. *)
Lemma iadvances_then s {A X} (s' : X -> option PaymentIntentState) (m : M X) (k : X -> prog A) :
  (forall w x w', (forall y, s = Some y -> in_state id y (w_db w)) -> m w = (Ok x, w') ->
     life_rel (w_db w) (w_db w') /\ (forall y, s' x = Some y -> in_state id y (w_db w'))) ->
  (forall x, iadvances (s' x) (k x)) -> iadvances s (Then m k).
Proof.
  intros Hm Hk envs w a w' Henv Hs. cbn [interleave].
  destruct (spared_world envs s w Henv Hs) as (H1 & H2 & H3). cbv zeta in *.
  destruct (m _) as [[x|e] w1] eqn:Em; [|done]. intros Hrun. destruct (Hm _ _ _ H2 Em) as [H4 H5].
  etransitivity; [exact H1|]. etransitivity; [exact H4|]. by eapply Hk.
Qed.

Lemma iadvances_done s {A} (r : res A) : iadvances s (Done r).
Proof. intros envs w a w' _ _ [= _ <-]. reflexivity. Qed.

(** Statements that leave the intents alone keep what was read. *)
Lemma iadvances_frame s {A X} (m : M X) (k : X -> prog A) :
  keeps same_intents m -> (forall x, iadvances s (k x)) -> iadvances s (Then m k).
Proof.
  intros Hm. apply (iadvances_then s (fun _ => s)). intros w x w' Hs E. pose proof (Hm w) as K. rewrite E in K. cbn in K.
  split; [by apply life_same_intents|]. intros y Ey. unfold in_state. rewrite K. by apply Hs.
Qed.

(** The result of a pure computation is known to the rest. *)
Lemma iadvances_res s f {A X} (r : res X) (k : X -> prog A) :
  (forall x, r = Ok x -> iadvances s (k x)) -> iadvances s (Then (map_err f (lift_res r)) k).
Proof.
  intros Hk envs w a w' Henv Hs. cbn [interleave].
  destruct (spared_world envs s w Henv Hs) as (H1 & H2 & H3). cbv zeta in *.
  destruct r as [x|e]; cbn; [|done]. intros Hrun. etransitivity; [exact H1|]. by eapply Hk.
Qed.

(** Reading the intent. *)
Lemma iadvances_read f {A} (k : PaymentIntent -> prog A) :
  (forall p, pi_id p = id -> iadvances (Some (pi_state p)) (k p)) ->
  iadvances None (Then (map_err f (GetPaymentIntentByID id)) k).
Proof.
  intros Hk envs w a w' Henv Hs. cbn [interleave].
  destruct (spared_world envs None w Henv Hs) as (H1 & _ & H3). cbv zeta in *. set (w0 := match envs with [] => _ | _ => _ end) in *.
  destruct (map_err _ _ w0) as [[p|e] w1] eqn:E; [|done]. intros Hrun. apply map_err_Ok, select_Ok in E as (Ef & Ed & _).
  unfold Queries.one in Ef. destruct (find_row _ _) as [q|] eqn:Hf; [|done]. injection Ef as ->.
  etransitivity; [exact H1|]. rewrite <- Ed. eapply Hk; [|exact H3| |exact Hrun].
  - by apply find_row_Some in Hf as [_ ?%N.eqb_eq].
  - intros x [= <-] r Hr. rewrite Ed in Hr. congruence.
Qed.

(** The guarded update that ends a step. *)
Lemma iadvances_guarded p s s' f {A} (r : A) :
  state_edge s s' -> iadvances (Some (pi_state p)) (guarded_prog p s s' f id r).
Proof.
  intros He. unfold guarded_prog. case_bool_decide as Hp; [|apply iadvances_done]. rewrite Hp.
  apply (iadvances_then _ (fun _ => None)); [|intros; apply iadvances_done].
  intros w x w' Hs E%map_err_Ok. split; [|done]. eapply advances_UpdatePaymentIntentState; [exact He| |exact E]. by apply Hs.
Qed.
End interference.

(** ** The steps under interference *)

Section steps.
Context `{Env}.
#[local] Hint Resolve same_intents_PostTx same_intents_account : keeps.

Ltac frame := apply iadvances_frame; [solve [keeps_auto]|intros ?].

Lemma iadvances_credit run : iadvances (run_IntentID run) None (credit_prog run).
Proof. apply iadvances_read. intros p _. do 4 frame. by apply iadvances_guarded, edge_fund. Qed.

Lemma iadvances_apply run : iadvances (run_IntentID run) None (apply_prog run).
Proof.
  apply iadvances_read. intros p _. frame. destruct (negb _); [apply iadvances_done|]. frame. cbv zeta.
  destruct (_ <? 0); [apply iadvances_done|]. unfold postFXSwapUSDC, postPayoutDisbursedIDR. do 2 frame.
  by apply iadvances_guarded, edge_pay.
Qed.

Lemma iadvances_emit run : iadvances (run_IntentID run) None (emit_prog run).
Proof.
  assert (Hpub : forall s p, iadvances (run_IntentID run) s
    (Then (map_err (ErrWrap "emit_completed: publish outbox")
       (Publish "intent.completed" (Some (pi_id p)) (Some (completed_event p)) (completed_headers p)))
       (fun _ => Done (Ok (mkStepResult ""))))).
  { intros s p. unfold Publish. frame. apply iadvances_done. }
  apply iadvances_read. intros p _. case_bool_decide as Hp; [rewrite Hp|apply Hpub].
  apply (iadvances_then _ _ (fun _ => None)); [|intros; apply Hpub].
  intros w x w' Hs E%map_err_Ok. split; [|done].
  eapply advances_UpdatePaymentIntentState; [apply edge_complete| |exact E]. by apply Hs.
Qed.

(** The rails leave the database alone. *)
Lemma iadvances_submit deps run p recipient po :
  rails_ok deps -> iadvances (pi_id p) (Some (pi_state p)) (submit_prog deps run p recipient po).
Proof.
  intros Hr. unfold submit_prog, settling_prog.
  destruct (po_state po); [| |by apply iadvances_guarded, edge_settle|apply iadvances_done].
  all: apply iadvances_res; intros rail Hg;
    pose proof (fun req => keeps_eq same_intents (rail_Submit rail req) (rail_db (RailOk := Hr _ _ Hg) req)); do 2 frame;
    destruct (sres_outcome _) eqn:Ho; [frame; by apply iadvances_guarded, edge_settle|..].
  all: intros envs w a w' _ _; cbn [interleave]; match goal with |- context [settle_outcome ?r ?i ?p ?x ?w0] =>
    destruct (settle_not_success r i p x w0) as (? & ? & ->); [by rewrite Ho|done] end.
Qed.

Lemma iadvances_trigger deps run :
  rails_ok deps -> iadvances (run_IntentID run) None (trigger_prog deps run).
Proof. intros Hr. apply iadvances_read. intros p <-. do 3 frame. by apply iadvances_submit. Qed.

End steps.

(** ** A worker that lost its lease *)

Section stale_example.
#[local] Existing Instance example_env.

(** The worker claims the first step. *)
Definition stale_claim : res Run * World := claim demo_runner (demo_world 62038464).
Definition stale_run : Run := match stale_claim.1 with Ok run => run | Err _ => toRun (demo_run "") end.
Definition stale_world : World := set_rng stale_claim.2 1000%N.

(** More than a minute later, when the lease has run out, another worker takes the
    run through all of its steps. *)
Definition taken_over (d : DB) : DB :=
  w_db (Nat.iter 4 (fun w => tick_at (100 * second) w) (set_db stale_claim.2 d)).

(** The others commit nothing before the first four statements of the step, which
    read, and the take-over before the fifth. *)
Definition take_over : list (DB -> DB) := [fun d => d; fun d => d; fun d => d; fun d => d; taken_over].

(** The transaction of the stale worker: its step, and the run handed on. *)
Definition stale_transaction : res SagaRun * World :=
  (r ← interleave take_over (credit_prog stale_run); AdvanceSagaStep (run_ID stale_run) (NextStep r)) stale_world.


(** Under a lease that holds, another worker settles another intent meanwhile. *)
Definition other_intent : PaymentIntent :=
  mkPaymentIntent 4002%N 2001%N "order-2" 500000 31019232 3001%N None None None IFunded 0 0.

Definition two_intents : World := set_db stale_world (set_payment_intents (w_db stale_world) [demo_intent; other_intent]).

Definition other_settles (d : DB) : DB :=
  set_payment_intents d (update_where (fun p => N.eqb (pi_id p) 4002%N && bool_decide (pi_state p = IFunded))
    (set_pi_state ISettling 0) (payment_intents d)).

Lemma other_spares : spares 4001%N other_settles.
Proof.
  intros d. split.
  - intros K. unfold unique_intents, intents_adv, other_settles. cbn [payment_intents set_payment_intents].
    split; [by rewrite fmap_update_where|]. eexists _, []. rewrite app_nil_r. split_and!; [reflexivity| |done].
    unfold update_where. apply Forall2_fmap_r, Forall_Forall2_diag, Forall_forall. intros p Hp. unfold compose.
    destruct (_ && _) eqn:E; [|reflexivity]. apply andb_true_iff in E as [_ E%bool_decide_eq_true]. split; [done|].
    cbn. rewrite E. apply rtc_once, edge_settle.
  - unfold intent_state, other_settles. cbn [payment_intents set_payment_intents].
    induction (payment_intents d) as [|p l IH]; [done|]. cbn. unfold by_id in *.
    destruct (N.eqb_spec (pi_id p) 4002) as [E|E]; cbn [andb].
    + destruct (bool_decide _); cbn [pi_id set_pi_state find_row]; rewrite E; exact IH.
    + destruct (N.eqb (pi_id p) 4001); [done|exact IH].
Qed.

End stale_example.
