(* ===== verification/Template.v ===== *)
(** * html/template, as far as the dashboard uses it

    The lexer and parser of the actions, the collection of the files' templates,
    execution with its error texts, and the escaping that depends on where an
    action stands.  Execution writes as it goes: what was written before an error
    stays written. *)

From S2P Require Import Prelude GoStr GoJson JsonDecode GoUrl.
From Stdlib Require Import Ascii String.

Set Warnings "-register-all".

Implicit Types (s : string).

(** ** Values *)

(** What a template is executed on.  [TTime] is a [time.Time] ([None] is the zero
    time), [TBytes] a byte array, [TPtr] a [*string], [TNil] a nil pointer to a
    struct (a pointer to a struct is otherwise the struct). *)
Inductive tval :=
  | TStr (s : string)
  | TInt (z : Z)
  | TBool (b : bool)
  | TTime (t : option Z)
  | TBytes (bs : string)
  | TPtr (p : option string)
  | TNil (type : string)
  | TStruct (type : string) (fields : list (string * tval))
  | TMap (entries : list (string * tval))
  | TList (l : list tval).

(** ** Syntax *)

(** An argument or a call; a field keeps the offset of its text in the file. *)
Inductive texpr :=
  | EDot
  | EField (pos : nat) (path : list string)
  | EStr (s : string)
  | ECall (fn : string) (args : list texpr).

(** An action knows whether it stands inside the value of a URL attribute. *)
Inductive tnode :=
  | NText (s : string)
  | NAction (url : bool) (e : texpr)
  | NIf (c : texpr) (th el : list tnode)
  | NRange (e : texpr) (body el : list tnode)
  | NWith (e : texpr) (body el : list tnode)
  | NTemplate (name : string) (arg : texpr).

(** ** Lexing *)

Inductive item := IText (s : string) | IAction (pos : nat) (s : string).

(** Cut at the first occurrence of the two bytes [b b]. *)
Fixpoint cut_pair (b : ascii) s : option (string * string) :=
  match s with
  | String c (String d s' as s1) =>
    if Ascii.eqb c b && Ascii.eqb d b then Some ("", s')
    else match cut_pair b s1 with Some (l, r) => Some (String c l, r) | None => None end
  | _ => None
  end.

(** Text and actions in turn; an action's offset is that of its first byte. *)
Fixpoint lex (fuel pos : nat) s : option (list item) :=
  match fuel with
  | O => None
  | S fuel =>
    match cut_pair "{" s with
    | None => Some (if bool_decide (s = "") then [] else [IText s])
    | Some (l, r) =>
      match cut_pair "}" r with
      | None => None
      | Some (a, r) =>
        let start := (pos + String.length l + 2)%nat in
        items ← lex fuel (start + String.length a + 2) r;
        Some ((if bool_decide (l = "") then [] else [IText l]) ++ IAction start a :: items)
      end
    end
  end.

Inductive token := KField (pos : nat) (path : list string) | KDot | KStr (s : string) | KIdent (s : string) | KOpen | KClose | KPipe.

(** The bytes up to one that ends a word. *)
Fixpoint word s : string * string :=
  match s with
  | EmptyString => ("", "")
  | String c r => if has_byte c " ()|" then ("", s) else let '(w, r) := word r in (String c w, r)
  end.

Fixpoint tokens (fuel pos : nat) s : option (list token) :=
  match fuel, s with
  | O, _ => None
  | S _, EmptyString => Some []
  | S fuel, String c r =>
    if Ascii.eqb c " " then tokens fuel (S pos) r
    else if Ascii.eqb c "(" then cons KOpen <$> tokens fuel (S pos) r
    else if Ascii.eqb c ")" then cons KClose <$> tokens fuel (S pos) r
    else if Ascii.eqb c "|" then cons KPipe <$> tokens fuel (S pos) r
    else if Ascii.eqb c quote_char then
      match cut_byte quote_char r with
      | Some (q, r) => cons (KStr q) <$> tokens fuel (pos + String.length q + 2) r
      | None => None
      end
    else
      let '(w, r) := word s in
      let next := tokens fuel (pos + String.length w) r in
      if Ascii.eqb c "." then
        cons (if bool_decide (w = ".") then KDot else KField pos (split_on "." (str_drop 1 w))) <$> next
      else cons (KIdent w) <$> next
  end.

(** ** Parsing *)

(** Operands up to a closing parenthesis or the end; the first may be a function.
    A pipe appends what is in front of it to the call behind it. *)
Fixpoint operands (fuel : nat) (ts : list token) : option (list texpr * list token) :=
  match fuel with
  | O => None
  | S fuel =>
    match ts with
    | KField p f :: ts => '(es, ts) ← operands fuel ts; Some (EField p f :: es, ts)
    | KDot :: ts => '(es, ts) ← operands fuel ts; Some (EDot :: es, ts)
    | KStr s :: ts => '(es, ts) ← operands fuel ts; Some (EStr s :: es, ts)
    | KOpen :: ts =>
      '(e, ts) ← pipeline fuel ts;
      match ts with
      | KClose :: ts => '(es, ts) ← operands fuel ts; Some (e :: es, ts)
      | _ => None
      end
    | _ => Some ([], ts)
    end
  end
with command (fuel : nat) (piped : option texpr) (ts : list token) : option (texpr * list token) :=
  match fuel with
  | O => None
  | S fuel =>
    match ts with
    | KIdent f :: ts => '(es, ts) ← operands fuel ts; Some (ECall f (es ++ option_list piped), ts)
    | _ =>
      '(es, ts) ← operands fuel ts;
      match es, piped with [e], None => Some (e, ts) | _, _ => None end
    end
  end
with pipeline (fuel : nat) (ts : list token) : option (texpr * list token) :=
  match fuel with
  | O => None
  | S fuel =>
    '(e, ts) ← command fuel None ts;
    match ts with
    | KPipe :: ts => command fuel (Some e) ts
    | _ => Some (e, ts)
    end
  end.

Definition parse_pipeline (ts : list token) : option texpr :=
  '(e, rest) ← pipeline (4 * List.length ts + 4) ts;
  match rest with [] => Some e | _ => None end.

(** The text in front of an action leaves it inside the quoted value of an [href]:
    the last quote opens one. *)
Fixpoint last_attr (before : string) (acc : option string) s : option string :=
  match s with
  | EmptyString => acc
  | String c s =>
    last_attr (before +:+ String c "")
      (if Ascii.eqb c quote_char then match acc with None => Some before | Some _ => None end else acc) s
  end.
Definition in_href s : bool :=
  match last_attr "" None s with
  | Some before => let n := (String.length before - 5)%nat in String.eqb (str_drop n before) "href="
  | None => false
  end.

(** How a list of nodes ended. *)
Inductive tend := EndEOF | EndEnd | EndElse.

Definition trees : Type := list (string * list tnode).

(** The nodes up to the end of the list, and the templates defined on the way (the
    first argument is the text in front). *)
Fixpoint parse_list (fuel : nat) (prev : string) (items : list item)
    : option (list tnode * tend * list item * trees) :=
  match fuel with
  | O => None
  | S fuel =>
    match items with
    | [] => Some ([], EndEOF, [], [])
    | IText s :: items =>
      '(ns, e, items, ts) ← parse_list fuel s items; Some (NText s :: ns, e, items, ts)
    | IAction pos a :: items =>
      toks ← tokens (S (String.length a)) pos a;
      let rest items n := '(ns, e, items, ts) ← parse_list fuel "" items; Some (n :: ns, e, items, ts) in
      let action (_ : unit) := e ← parse_pipeline toks; rest items (NAction (in_href prev) e) in
      match toks with
      | KIdent k :: args =>
        if String.eqb k "end" then Some ([], EndEnd, items, [])
        else if String.eqb k "else" then Some ([], EndElse, items, [])
        else if String.eqb k "define" then
          match args with
          | [KStr name] =>
            '(body, e, items, ts) ← parse_list fuel "" items;
            match e with
            | EndEnd => '(ns, e, items, ts') ← parse_list fuel "" items; Some (ns, e, items, ts ++ (name, body) :: ts')
            | _ => None
            end
          | _ => None
          end
        else if String.eqb k "block" then
          match args with
          | KStr name :: arg =>
            arg ← parse_pipeline arg;
            '(body, e, items, ts) ← parse_list fuel "" items;
            match e with
            | EndEnd =>
              '(ns, e, items, ts') ← rest items (NTemplate name arg); Some (ns, e, items, ts ++ (name, body) :: ts')
            | _ => None
            end
          | _ => None
          end
        else if String.eqb k "template" then
          match args with
          | KStr name :: arg => arg ← parse_pipeline arg; rest items (NTemplate name arg)
          | _ => None
          end
        else if String.eqb k "if" || String.eqb k "range" || String.eqb k "with" then
          c ← parse_pipeline args;
          '(th, e, items, ts) ← parse_list fuel "" items;
          '(el, items, ts') ←
            match e with
            | EndEnd => Some ([], items, [])
            | EndElse =>
              '(el, e, items, ts) ← parse_list fuel "" items;
              match e with EndEnd => Some (el, items, ts) | _ => None end
            | EndEOF => None
            end;
          let n := if String.eqb k "if" then NIf c th el else if String.eqb k "range" then NRange c th el else NWith c th el in
          '(ns, e, items, ts'') ← rest items n; Some (ns, e, items, ts ++ ts' ++ ts'')
        else action tt
      | _ => action tt
      end
    end
  end.

(** A template with the name and the text of the file it was parsed from. *)
Record tmpl := mkTmpl { t_name : string; t_file : string; t_text : string; t_nodes : list tnode }.

(** The templates of one file: its own under its base name, and those it defines. *)
Definition parse_file (name text : string) : option (list tmpl) :=
  items ← lex (S (String.length text)) 0 text;
  '(ns, e, _, ts) ← parse_list (S (2 * List.length items)) "" items;
  match e with
  | EndEOF => Some ((fun '(n, ns) => mkTmpl n name text ns) <$> (name, ns) :: ts)
  | _ => None
  end.

(** [parse.IsEmptyTree]: nothing but white space. *)
Definition is_empty_tree (ns : list tnode) : bool :=
  forallb (fun n => match n with NText s => bool_decide (skip_ws s = "") | _ => false end) ns.

Definition lookup_tmpl (set : list tmpl) (name : string) : option tmpl :=
  List.find (fun t => String.eqb (t_name t) name) set.

(** [AddParseTree]: a later template of a name takes the place of the earlier one,
    unless it is empty. *)
Definition add_tmpl (set : list tmpl) (new : tmpl) : list tmpl :=
  match lookup_tmpl set (t_name new) with
  | None => set ++ [new]
  | Some old =>
    if is_empty_tree (t_nodes new) then set
    else (fun t => if String.eqb (t_name t) (t_name new) then new else t) <$> set
  end.

(** [ParseFS]: the files in the order of their names. *)
Fixpoint parse_files (set : list tmpl) (files : list (string * string)) : option (list tmpl) :=
  match files with
  | [] => Some set
  | (name, text) :: files => ts ← parse_file name text; parse_files (foldl add_tmpl set ts) files
  end.

(** ** Escaping *)

Definition replacement_char : string := encode_rune replacement.

Definition escape_char (c : ascii) : string :=
  let b := byte_of c in
  if b =? 0 then replacement_char
  else if b =? 34 then "&#34;"
  else if b =? 38 then "&amp;"
  else if b =? 39 then "&#39;"
  else if b =? 43 then "&#43;"
  else if b =? 60 then "&lt;"
  else if b =? 62 then "&gt;"
  else String c "".

(** [htmlReplacer], for text, for quoted attributes and for a title. *)
Fixpoint html_escape s : string :=
  match s with EmptyString => "" | String c s => escape_char c +:+ html_escape s end.

Definition is_hex (c : ascii) : bool := bool_decide (is_Some (unhex c)).

(** [urlnormalizer]: bytes that may not stand in a URL are percent-encoded. *)
Fixpoint url_normalize s : string :=
  match s with
  | EmptyString => ""
  | String c r =>
    let keep :=
      unreserved c || has_byte c "!#$&*+,/:;=?@[]" ||
      (Ascii.eqb c "%" && match r with String a (String b _) => is_hex a && is_hex b | _ => false end) in
    (if keep then String c "" else String "%" (String (hex_digit (byte_of c / 16)) (String (hex_digit (byte_of c mod 16)) "")))
    +:+ url_normalize r
  end.

(** ** Execution *)

(** The text of a printed value; the templates print strings and numbers only. *)
Definition sprint (v : tval) : option string :=
  match v with TStr s => Some s | TInt z => Some (FormatInt z) | _ => None end.

Definition truth (v : tval) : bool :=
  match v with
  | TStr s => negb (bool_decide (s = ""))
  | TInt z => negb (z =? 0)
  | TBool b => b
  | TBytes bs => negb (bool_decide (bs = ""))
  | TPtr p => bool_decide (is_Some p)
  | TNil _ => false
  | TTime _ | TStruct _ _ => true
  | TMap l => negb (bool_decide (List.length l = 0%nat))
  | TList l => negb (bool_decide (List.length l = 0%nat))
  end.

Definition type_text (v : tval) : string :=
  match v with
  | TStr _ => "string" | TInt _ => "int64" | TBool _ => "bool" | TTime _ => "time.Time" | TBytes _ => "[16]uint8"
  | TPtr _ => "*string" | TNil t => t | TStruct t _ => t | TMap _ => "map[string]interface {}" | TList _ => "slice"
  end.

Definition assoc (k : string) (l : list (string * tval)) : option tval :=
  snd <$> List.find (fun kv => String.eqb kv.1 k) l.

(** [evalField]; a missing key of a map prints as nothing. *)
Definition get_field (v : tval) (name : string) : res tval :=
  match v with
  | TStruct ty fs =>
    match assoc name fs with
    | Some v => Ok v
    | None => Err (ErrMsg ("can't evaluate field " +:+ name +:+ " in type " +:+ ty))
    end
  | TMap es => Ok (default (TStr "") (assoc name es))
  | TNil ty => Err (ErrMsg ("nil pointer evaluating " +:+ ty +:+ "." +:+ name))
  | v => Err (ErrMsg ("can't evaluate field " +:+ name +:+ " in type " +:+ type_text v))
  end.

Fixpoint get_path (v : tval) (path : list string) : res tval :=
  match path with
  | [] => Ok v
  | n :: path => match get_field v n with Ok v => get_path v path | Err e => Err e end
  end.

(** Line and column of an offset. *)
Fixpoint location (line col : Z) (pos : nat) s : string :=
  match pos, s with
  | S pos, String c s => if Ascii.eqb c "010" then location (line + 1) 0 pos s else location line (col + 1) pos s
  | _, _ => FormatInt line +:+ ":" +:+ FormatInt col
  end.

Definition path_text (path : list string) : string := foldr (fun n s => "." +:+ n +:+ s) "" path.

Section exec.
Context (funcs : string -> list tval -> option tval) (set : list tmpl).

(** An execution error names the file, the place, the template and the node. *)
Definition exec_error (t : tmpl) (pos : nat) (node msg : string) : err :=
  ErrMsg ("template: " +:+ t_file t +:+ ":" +:+ location 1 0 pos (t_text t) +:+ ": executing "
          +:+ Quote_q (t_name t) +:+ " at <" +:+ node +:+ ">: " +:+ msg).

(** The arguments from left to right. *)
Definition eval_list (ev : texpr -> res tval) : list texpr -> res (list tval) :=
  fix go args :=
    match args with
    | [] => Ok []
    | a :: args =>
      match ev a with
      | Err e => Err e
      | Ok v => match go args with Ok vs => Ok (v :: vs) | Err e => Err e end
      end
    end.

Fixpoint eval (t : tmpl) (dot : tval) (e : texpr) : res tval :=
  match e with
  | EDot => Ok dot
  | EField pos path =>
    match get_path dot path with
    | Ok v => Ok v
    | Err e => Err (exec_error t pos (path_text path) (Error e))
    end
  | EStr s => Ok (TStr s)
  | ECall fn args =>
    match eval_list (eval t dot) args with
    | Err e => Err e
    | Ok vs => match funcs fn vs with Some v => Ok v | None => Err (ErrMsg ("error calling " +:+ fn)) end
    end
  end.

(** The escaped text of an action. *)
Definition emit (url : bool) (v : tval) : option string :=
  s ← sprint v; Some (html_escape (if url then url_normalize s else s)).

(** One after the other, up to the first error. *)
Definition seq_out {A} (f : A -> string * option err) : list A -> string * option err :=
  fix go l :=
    match l with
    | [] => ("", None)
    | a :: l =>
      match f a with
      | (o, Some e) => (o, Some e)
      | (o, None) => let '(o', e) := go l in (o +:+ o', e)
      end
    end.

(** What was written, and the error that stopped it.  [fuel] bounds the nesting. *)
Fixpoint exec (fuel : nat) (t : tmpl) (dot : tval) (ns : list tnode) : string * option err :=
  match fuel with
  | O => ("", Some (ErrMsg "exceeded maximum template depth"))
  | S fuel =>
    let branch (e : texpr) (k : tval -> string * option err) : string * option err :=
      match eval t dot e with Err e => ("", Some e) | Ok v => k v end in
    seq_out (fun n =>
      match n with
      | NText s => (s, None)
      | NAction url e =>
        branch e (fun v => match emit url v with
                           | Some s => (s, None)
                           | None => ("", Some (ErrMsg ("can't print " +:+ type_text v)))
                           end)
      | NIf c th el => branch c (fun v => exec fuel t dot (if truth v then th else el))
      | NRange e body el =>
        branch e (fun v =>
          match v with
          | TList [] => exec fuel t dot el
          | TList l => seq_out (fun v => exec fuel t v body) l
          | _ => ("", Some (ErrMsg ("range can't iterate over " +:+ type_text v)))
          end)
      | NWith e body el => branch e (fun v => if truth v then exec fuel t v body else exec fuel t dot el)
      | NTemplate name arg =>
        branch arg (fun v =>
          match lookup_tmpl set name with
          | Some t => exec fuel t v (t_nodes t)
          | None => ("", Some (ErrMsg ("template " +:+ Quote_q name +:+ " not defined")))
          end)
      end) ns
  end.

(** The deepest nesting of the dashboard's templates is seven. *)
Definition exec_fuel : nat := 20.

(** [ExecuteTemplate]. *)
Definition ExecuteTemplate (name : string) (data : tval) : string * option err :=
  match lookup_tmpl set name with
  | Some t => exec exec_fuel t data (t_nodes t)
  | None => ("", Some (ErrMsg ("html/template: " +:+ Quote_q name +:+ " is undefined")))
  end.
End exec.

(** ** Escaping is sound

    The markup of a page is its angle brackets and quotes.  Executing a template on
    two values that differ only in the texts and numbers they hold writes the same
    markup: data cannot open or close a tag or an attribute. *)

Definition is_markup (c : ascii) : bool := let b := byte_of c in (b =? 34) || (b =? 39) || (b =? 60) || (b =? 62).

Fixpoint markup s : string :=
  match s with EmptyString => "" | String c s => if is_markup c then String c (markup s) else markup s end.

Lemma markup_app s s' : markup (s +:+ s') = markup s +:+ markup s'.
Proof.
  induction s as [|c s IH]; [done|]. change (String c s +:+ s') with (String c (s +:+ s')). cbn [markup].
  destruct (is_markup c); [|done]. exact (f_equal (String c) IH).
Qed.

Lemma markup_escape s : markup (html_escape s) = "".
Proof.
  induction s as [|c s IH]; [done|]. cbn [html_escape]. rewrite markup_app, IH.
  destruct c as [[] [] [] [] [] [] [] []]; reflexivity.
Qed.

(** Values of the same shape.  [C] are the field names conditions look at: there the
    truth agrees. *)
Inductive same_shape (C : string -> bool) : tval -> tval -> Prop :=
  | ss_str s s' : same_shape C (TStr s) (TStr s')
  | ss_int z z' : same_shape C (TInt z) (TInt z')
  | ss_bool b b' : same_shape C (TBool b) (TBool b')
  | ss_time t t' : same_shape C (TTime t) (TTime t')
  | ss_bytes b b' : same_shape C (TBytes b) (TBytes b')
  | ss_ptr p p' : same_shape C (TPtr p) (TPtr p')
  | ss_nil ty : same_shape C (TNil ty) (TNil ty)
  | ss_struct ty fs fs' :
      Forall2 (fun a b => a.1 = b.1 /\ same_shape C a.2 b.2 /\ (C a.1 = true -> truth a.2 = truth b.2)) fs fs' ->
      same_shape C (TStruct ty fs) (TStruct ty fs')
  | ss_map fs fs' :
      Forall2 (fun a b => a.1 = b.1 /\ same_shape C a.2 b.2 /\ (C a.1 = true -> truth a.2 = truth b.2)) fs fs' ->
      same_shape C (TMap fs) (TMap fs')
  | ss_list l l' : Forall2 (same_shape C) l l' -> same_shape C (TList l) (TList l').

(** A format is a literal; a condition is a field of [C]. *)
Fixpoint checked_expr (e : texpr) : bool :=
  match e with
  | ECall fn args =>
    (negb (String.eqb fn "printf") || match args with EStr _ :: _ => true | _ => false end) && forallb checked_expr args
  | _ => true
  end.

Definition checked_cond (C : string -> bool) (e : texpr) : bool :=
  match e with EField _ path => match last path with Some n => C n | None => false end | _ => false end.

Fixpoint checked_node (C : string -> bool) (n : tnode) : bool :=
  match n with
  | NText _ => true
  | NAction _ e => checked_expr e
  | NIf c th el => checked_cond C c && forallb (checked_node C) th && forallb (checked_node C) el
  | NRange e body el => checked_expr e && forallb (checked_node C) body && forallb (checked_node C) el
  | NWith e body el => checked_cond C e && forallb (checked_node C) body && forallb (checked_node C) el
  | NTemplate _ arg => checked_expr arg
  end.

Section noninterference.
Context (funcs : string -> list tval -> option tval) (set : list tmpl) (C : string -> bool).

(** Functions map arguments of the same shape to results of the same shape. *)
Definition respects : Prop := forall fn vs vs',
  Forall2 (same_shape C) vs vs' -> (fn = "printf" -> head vs = head vs') ->
  option_Forall2 (same_shape C) (funcs fn vs) (funcs fn vs').

Hypothesis Hfuncs : respects.
Hypothesis Hset : forall t, t ∈ set -> forallb (checked_node C) (t_nodes t) = true.

(** The result of evaluating, or the same error. *)
Definition same_result (P : tval -> tval -> Prop) (r r' : res tval) : Prop :=
  match r, r' with Ok v, Ok v' => P v v' | Err e, Err e' => e = e' | _, _ => False end.

Definition same_field (n : string) (v v' : tval) : Prop := same_shape C v v' /\ (C n = true -> truth v = truth v').

Lemma assoc_shape n fs fs' :
  Forall2 (fun a b => a.1 = b.1 /\ same_shape C a.2 b.2 /\ (C a.1 = true -> truth a.2 = truth b.2)) fs fs' ->
  option_Forall2 (same_field n) (assoc n fs) (assoc n fs').
Proof.
  unfold assoc. induction 1 as [|[k v] [k' v'] fs fs' (E & Hs & Ht) _ IH]; [constructor|]. cbn in *. subst k'.
  destruct (String.eqb_spec k n) as [->|]; [by repeat constructor|exact IH].
Qed.

Lemma get_field_shape n v v' : same_shape C v v' -> same_result (same_field n) (get_field v n) (get_field v' n).
Proof.
  intros Hv. destruct Hv as [| | | | | | |ty fs fs' Hf|fs fs' Hf|]; try reflexivity.
  - pose proof (assoc_shape n _ _ Hf) as Ha. cbn. destruct Ha; [done|reflexivity].
  - pose proof (assoc_shape n _ _ Hf) as Ha. cbn. destruct Ha; [done|]. split; [constructor|done].
Qed.

Lemma get_path_shape path v v' : same_shape C v v' ->
  same_result (fun a b => same_shape C a b /\ match last path with Some n => C n = true -> truth a = truth b | None => True end)
    (get_path v path) (get_path v' path).
Proof.
  revert v v'. induction path as [|n path IH]; intros v v' Hv; [done|]. cbn [get_path].
  pose proof (get_field_shape n v v' Hv) as Hn. destruct (get_field v n) as [a|], (get_field v' n) as [b|]; try done.
  destruct Hn as [Hs Ht]. destruct path as [|m path]; [done|]. exact (IH a b Hs).
Qed.

Lemma texpr_nested_ind (P : texpr -> Prop) :
  P EDot -> (forall p path, P (EField p path)) -> (forall s, P (EStr s)) ->
  (forall fn args, Forall P args -> P (ECall fn args)) -> forall e, P e.
Proof.
  intros Hd Hf Hs Hc. fix IH 1. intros [| | |fn args]; [done..|]. apply Hc.
  induction args as [|a args IHa]; constructor; [apply IH|exact IHa].
Qed.

(** Argument lists of the same shape, equal in front where the first argument is a
    literal. *)
Definition same_args (r r' : res (list tval)) (args : list texpr) : Prop :=
  match r, r' with
  | Ok vs, Ok vs' => Forall2 (same_shape C) vs vs' /\ match args with EStr _ :: _ => head vs = head vs' | _ => True end
  | Err e, Err e' => e = e'
  | _, _ => False
  end.

Lemma eval_list_shape (ev ev' : texpr -> res tval) args :
  Forall (fun a => same_result (same_shape C) (ev a) (ev' a) /\ (forall s, a = EStr s -> ev a = ev' a)) args ->
  same_args (eval_list ev args) (eval_list ev' args) args.
Proof.
  induction 1 as [|a args [Hr Hlit] _ IH]; [by split|]. cbn [eval_list].
  destruct (ev a) as [v|e] eqn:E1, (ev' a) as [v'|e'] eqn:E2; try done.
  destruct (eval_list ev args) as [vs|e], (eval_list ev' args) as [vs'|e']; try done.
  destruct IH as [IH _]. split; [by constructor|]. destruct a; try done. cbn.
  specialize (Hlit s eq_refl). by injection Hlit as ->.
Qed.

Lemma eval_shape t e dot dot' :
  checked_expr e = true -> same_shape C dot dot' ->
  same_result (same_shape C) (eval funcs t dot e) (eval funcs t dot' e) /\
  (forall s, e = EStr s -> eval funcs t dot e = eval funcs t dot' e).
Proof.
  intros He Hd. revert He. induction e as [|p path|s|fn args IH] using texpr_nested_ind; intros He.
  - done.
  - split; [|done]. cbn. pose proof (get_path_shape path dot dot' Hd) as Hp.
    destruct (get_path dot path), (get_path dot' path); cbn in *; try done; [apply Hp|by subst].
  - split; [constructor|done].
  - split; [|done]. cbn [eval checked_expr] in *. apply andb_true_iff in He as [Hpf Hargs].
    assert (Hv : same_args (eval_list (eval funcs t dot) args) (eval_list (eval funcs t dot') args) args).
    { apply eval_list_shape. clear Hpf. revert Hargs. rewrite forallb_forall, Forall_forall. intros Hargs.
      rewrite Forall_forall in IH. intros a Ha. apply IH, Hargs; [done|]. by apply list_elem_of_In. }
    destruct (eval_list (eval funcs t dot) args) as [vs|e1], (eval_list (eval funcs t dot') args) as [vs'|e2];
      unfold same_args in Hv; try done.
    destruct Hv as [Hv Hh].
    assert (Hp : fn = "printf" -> head vs = head vs').
    { intros ->. cbn in Hpf. by destruct args as [|[] ?]. }
    destruct (Hfuncs fn vs vs' Hv Hp); [done|reflexivity].
Qed.

(** The same markup and the same error. *)
Definition same_out (r r' : string * option err) : Prop := markup r.1 = markup r'.1 /\ r.2 = r'.2.

Lemma seq_out_shape {A B} (f : A -> string * option err) (f' : B -> string * option err) l l' :
  Forall2 (fun a b => same_out (f a) (f' b)) l l' -> same_out (seq_out f l) (seq_out f' l').
Proof.
  induction 1 as [|a b l l' [Hm He] _ [IHm IHe]]; [done|]. cbn [seq_out].
  destruct (f a) as [o [e|]], (f' b) as [o' [e'|]]; cbn in *; try done.
  destruct (seq_out f l) as [p x], (seq_out f' l') as [p' x']; cbn in *. split; [cbn; by rewrite !markup_app, Hm, IHm|done].
Qed.

Lemma cond_shape t e dot dot' :
  checked_cond C e = true -> same_shape C dot dot' ->
  same_result (fun v v' => same_shape C v v' /\ truth v = truth v') (eval funcs t dot e) (eval funcs t dot' e).
Proof.
  intros He Hd. destruct e as [|p path| |]; try done. cbn in *. pose proof (get_path_shape path dot dot' Hd) as Hp.
  destruct (get_path dot path), (get_path dot' path); cbn in *; try done; [|by subst].
  destruct (last path); [|done]. naive_solver.
Qed.

Lemma emit_shape url v v' : same_shape C v v' ->
  match emit url v, emit url v' with
  | Some s, Some s' => markup s = "" /\ markup s' = ""
  | None, None => type_text v = type_text v'
  | _, _ => False
  end.
Proof. intros Hv. destruct Hv; cbn; try done; split; apply markup_escape. Qed.

Lemma lookup_tmpl_elem name t : lookup_tmpl set name = Some t -> t ∈ set.
Proof. intros [H _]%find_some. by apply list_elem_of_In. Qed.

(** Texts, numbers, times and bytes of the data do not change the markup. *)
Lemma exec_shape fuel t dot dot' ns :
  forallb (checked_node C) ns = true -> same_shape C dot dot' ->
  same_out (exec funcs set fuel t dot ns) (exec funcs set fuel t dot' ns).
Proof.
  revert t dot dot' ns. induction fuel as [|fuel IH]; intros t dot dot' ns Hns Hd; [done|]. cbn [exec].
  apply seq_out_shape, Forall_Forall2_diag, Forall_forall. intros n Hn.
  rewrite forallb_forall in Hns. specialize (Hns n (proj1 (list_elem_of_In _ _) Hn)).
  destruct n as [s|url e|c th el|e body el|e body el|name arg]; cbn [checked_node] in Hns; rewrite ?andb_true_iff in Hns.
  - done.
  - destruct (eval_shape t e dot dot' Hns Hd) as [He _]. destruct (eval _ _ dot e), (eval _ _ dot' e); cbn in He; try done; [|by subst].
    pose proof (emit_shape url _ _ He) as Hm. destruct (emit url a), (emit url a0); try done.
    + split; [cbn; naive_solver congruence|done].
    + split; [done|]. cbn. by rewrite Hm.
  - destruct Hns as [[Hc Hth] Hel]. pose proof (cond_shape t c dot dot' Hc Hd) as He.
    destruct (eval _ _ dot c), (eval _ _ dot' c); cbn in He; try done; [|by subst].
    destruct He as [_ ->]. apply IH; [|done]. by destruct (truth a0).
  - destruct Hns as [[Hc Hth] Hel]. destruct (eval_shape t e dot dot' Hc Hd) as [He _].
    destruct (eval _ _ dot e), (eval _ _ dot' e); cbn in He; try done; [|by subst].
    destruct He as [| | | | | | | | |l l' Hl]; try done. destruct Hl as [|v v' l l' Hv Hl]; [by apply IH|].
    apply seq_out_shape. constructor; [by apply IH|]. eapply Forall2_impl; [exact Hl|]. intros. by apply IH.
  - destruct Hns as [[Hc Hth] Hel]. pose proof (cond_shape t e dot dot' Hc Hd) as He.
    destruct (eval _ _ dot e), (eval _ _ dot' e); cbn in He; try done; [|by subst].
    destruct He as [Hs ->]. destruct (truth a0); by apply IH.
  - destruct (eval_shape t arg dot dot' Hns Hd) as [He _].
    destruct (eval _ _ dot arg), (eval _ _ dot' arg); cbn in He; try done; [|by subst].
    destruct (lookup_tmpl set name) as [t'|] eqn:El; [|done]. apply IH; [|done]. by apply Hset, (lookup_tmpl_elem name).
Qed.

Lemma ExecuteTemplate_shape name dot dot' :
  same_shape C dot dot' -> same_out (ExecuteTemplate funcs set name dot) (ExecuteTemplate funcs set name dot').
Proof.
  intros Hd. unfold ExecuteTemplate. destruct (lookup_tmpl set name) as [t|] eqn:El; [|done].
  apply exec_shape; [|done]. by apply Hset, (lookup_tmpl_elem name).
Qed.
End noninterference.
