(* ===== verification/Dashboard.v ===== *)
(** * The dashboard ([internal/dashboard], [cmd/selatpayd/dashboard.go])

    The embedded templates, the queries behind a page, the two handlers and the
    formatting functions.  The templates are the files' text, with a backquote for
    each double quote. *)

From S2P Require Import Prelude GoStr Sha256 MockBank Models World Http GoJson JsonDecode Queries GoUrl Saga Scenarios Template Schema.
From Stdlib Require Import Ascii String.

(** ** templates/*.html *)

Definition unquote_byte (c : ascii) : ascii := if Ascii.eqb c "`" then quote_char else c.
Fixpoint unquote (s : string) : string :=
  match s with EmptyString => "" | String c s => String (unquote_byte c) (unquote s) end.

Definition detail_html : string := unquote "{{template `layout` .}}
{{define `content`}}
<h1>{{.Title}}</h1>

<div class=`summary`>
  <div><span class=`label`>State</span><span class=`state state-{{.Intent.State}}`>{{.Intent.State}}</span></div>
  <div><span class=`label`>External Ref</span>{{.Intent.ExternalRef}}</div>
  <div><span class=`label`>Amount IDR</span>{{.Intent.AmountIdr}}</div>
  <div><span class=`label`>Quoted USDC</span>{{.Intent.QuotedAmountUsdc}}</div>
  <div><span class=`label`>Merchant</span>{{.Merchant.Name}}</div>
  <div><span class=`label`>Created</span>{{fmtTime .Intent.CreatedAt.Time}}</div>
</div>

<h2>Quote</h2>
<table>
  <tr><th>Pair</th><td>{{.Quote.Pair}}</td>
      <th>Rate</th><td>{{.Quote.RateNum}} / 10^{{.Quote.RateScale}}</td>
      <th>Spread bps</th><td>{{.Quote.SpreadBps}}</td>
      <th>Expires</th><td>{{fmtTime .Quote.ExpiresAt.Time}}</td>
  </tr>
</table>

<h2>On-chain Payments</h2>
<table>
  <thead>
    <tr><th>Signature</th><th>Slot</th><th>Amount</th><th>Commitment</th><th>Block Time</th></tr>
  </thead>
  <tbody>
    {{range .Onchain}}
    <tr>
      <td class=`mono`>{{shortUUID .Signature}}&hellip;</td>
      <td>{{.Slot}}</td>
      <td>{{.Amount}}</td>
      <td>{{.Commitment}}</td>
      <td>{{if .BlockTime.Valid}}{{fmtTime .BlockTime.Time}}{{else}}<span class=`muted`>unconfirmed</span>{{end}}</td>
    </tr>
    {{else}}
    <tr><td colspan=`5` class=`muted`>no on-chain payments yet</td></tr>
    {{end}}
  </tbody>
</table>

<h2>Journal Entries</h2>
{{range .Entries}}
<h3 class=`mono`>{{.Entry.Kind}} <span class=`muted`>({{shortUUID (printf `%x` .Entry.ID.Bytes)}}&hellip;)</span></h3>
{{if .Entry.Description}}<p class=`muted`>{{deref .Entry.Description}}</p>{{end}}
<table>
  <thead>
    <tr><th>Account</th><th>Direction</th><th>Amount</th><th>Currency</th></tr>
  </thead>
  <tbody>
    {{range .Postings}}
    <tr>
      <td class=`mono`>{{.AccountCode}}</td>
      <td>{{.Posting.Direction}}</td>
      <td>{{.Posting.Amount}}</td>
      <td>{{.Posting.Currency}}</td>
    </tr>
    {{end}}
  </tbody>
</table>
{{else}}
<p class=`muted`>no journal entries posted yet</p>
{{end}}

<h2>Payout</h2>
{{with .Payout}}
<table>
  <tr><th>State</th><td><span class=`state state-{{.State}}`>{{.State}}</span></td>
      <th>Rail</th><td>{{.Rail}}</td>
      <th>Amount IDR</th><td>{{.AmountIdr}}</td>
      <th>Attempts</th><td>{{.Attempts}}</td>
  </tr>
  <tr><th>Reference</th><td colspan=`3`>{{deref .RailReference}}</td>
      <th>Last Error</th><td>{{deref .LastError}}</td>
  </tr>
</table>
{{else}}
<p class=`muted`>no payout row yet</p>
{{end}}

<h2>Saga</h2>
{{with .Saga}}
<table>
  <tr><th>State</th><td><span class=`state state-{{.State}}`>{{.State}}</span></td>
      <th>Current Step</th><td class=`mono`>{{.CurrentStep}}</td>
      <th>Attempts</th><td>{{.StepAttempts}}</td>
      <th>Lease</th><td>{{deref .LeaseOwner}}</td>
  </tr>
  {{if .LastError}}
  <tr><th>Last Error</th><td colspan=`7`>{{deref .LastError}}</td></tr>
  {{end}}
</table>
{{else}}
<p class=`muted`>no saga run for this intent</p>
{{end}}

<h2>Outbox Events</h2>
<table>
  <thead>
    <tr><th>ID</th><th>Topic</th><th>Attempts</th><th>Delivered</th><th>Created</th></tr>
  </thead>
  <tbody>
    {{range .Outbox}}
    <tr>
      <td class=`mono`>{{shortUUID (printf `%x` .ID.Bytes)}}&hellip;</td>
      <td>{{.Topic}}</td>
      <td>{{.Attempts}}</td>
      <td>{{if .DeliveredAt.Valid}}{{fmtTime .DeliveredAt.Time}}{{else}}<span class=`muted`>pending</span>{{end}}</td>
      <td>{{fmtTime .CreatedAt.Time}}</td>
    </tr>
    {{else}}
    <tr><td colspan=`5` class=`muted`>no outbox messages</td></tr>
    {{end}}
  </tbody>
</table>
{{end}}
".

Definition index_html : string := unquote "{{template `layout` .}}
{{define `content`}}
<h1>Recent Payment Intents</h1>
<p class=`muted`>Showing the {{.Limit}} most recent intents.</p>
<table>
  <thead>
    <tr>
      <th>ID</th>
      <th>External Ref</th>
      <th>Amount IDR</th>
      <th>USDC</th>
      <th>State</th>
      <th>Created</th>
    </tr>
  </thead>
  <tbody>
    {{range .Intents}}
    <tr>
      <td class=`mono`><a href=`/intents/{{.ID.Bytes | printf `%x`}}`>{{shortUUID (printf `%x` .ID.Bytes)}}&hellip;</a></td>
      <td>{{.ExternalRef}}</td>
      <td>{{.AmountIdr}}</td>
      <td>{{.QuotedAmountUsdc}}</td>
      <td><span class=`state state-{{.State}}`>{{.State}}</span></td>
      <td>{{fmtTime .CreatedAt.Time}}</td>
    </tr>
    {{else}}
    <tr><td colspan=`6` class=`muted`>no intents yet</td></tr>
    {{end}}
  </tbody>
</table>
{{end}}
".

Definition layout_html : string := unquote "{{define `layout`}}<!doctype html>
<html lang=`en`>
<head>
<meta charset=`utf-8`>
<title>{{.Title}}</title>
<style>
body { font-family: -apple-system, system-ui, sans-serif; margin: 24px; color: #1a1a1a; }
h1, h2 { font-weight: 600; }
h2 { margin-top: 32px; border-bottom: 1px solid #ddd; padding-bottom: 4px; }
table { border-collapse: collapse; width: 100%; margin-top: 8px; font-size: 13px; }
th, td { border: 1px solid #e2e2e2; padding: 6px 10px; text-align: left; vertical-align: top; }
th { background: #f5f5f5; font-weight: 600; }
tr:hover td { background: #fafafa; }
a { color: #0a55a8; text-decoration: none; }
a:hover { text-decoration: underline; }
.state { font-family: ui-monospace, monospace; padding: 2px 6px; border-radius: 3px; background: #eef; }
.state-completed { background: #e6f7ec; color: #1a6b39; }
.state-failed { background: #fdecec; color: #8a1a1a; }
.state-pending, .state-funded, .state-settling, .state-paid_out { background: #fff5d6; color: #6b4a00; }
.muted { color: #888; }
.mono { font-family: ui-monospace, monospace; font-size: 12px; }
.summary { display: flex; gap: 16px; flex-wrap: wrap; }
.summary > div { background: #fafafa; border: 1px solid #eee; padding: 8px 12px; border-radius: 4px; min-width: 200px; }
.summary .label { display: block; font-size: 11px; color: #888; text-transform: uppercase; letter-spacing: 0.5px; margin-bottom: 4px; }
</style>
</head>
<body>
<header><a href=`/`>&larr; intents</a></header>
{{block `content` .}}{{end}}
</body>
</html>{{end}}
".

(** The embedded files in the order [ParseFS] reads them. *)
Definition templatesFS : list (string * string) :=
  [("detail.html", detail_html); ("index.html", index_html); ("layout.html", layout_html)].

(** ** funcMap *)

(** [t.UTC().Format("2006-01-02 15:04:05 UTC")]. *)
Definition format_seconds (t : Z) : string :=
  let secs := t / ns_per_s in
  let sod := secs mod 86400 in
  let '(y, m, d) := civil_from_days (secs / 86400) in
  pad_zero 4 y +:+ "-" +:+ pad_zero 2 m +:+ "-" +:+ pad_zero 2 d +:+ " " +:+
  pad_zero 2 (sod / 3600) +:+ ":" +:+ pad_zero 2 (sod mod 3600 / 60) +:+ ":" +:+ pad_zero 2 (sod mod 60) +:+ " UTC".

(** The first instant of the year 1, which [IsZero] recognises. *)
Definition zero_time : Z := -62135596800 * ns_per_s.

Definition fmtTime (t : option Z) : string :=
  match t with None => "" | Some t => if t =? zero_time then "" else format_seconds t end.
Definition deref (p : option string) : string := default "" p.
Definition shortUUID (s : string) : string := if (String.length s <? 8)%nat then s else str_take 8 s.

(** The functions of the map, and the built-in [printf] on a byte array. *)
Definition funcMap (fn : string) (args : list tval) : option tval :=
  if String.eqb fn "fmtTime" then match args with [TTime t] => Some (TStr (fmtTime t)) | _ => None end
  else if String.eqb fn "deref" then match args with [TPtr p] => Some (TStr (deref p)) | _ => None end
  else if String.eqb fn "shortUUID" then match args with [TStr s] => Some (TStr (shortUUID s)) | _ => None end
  else if String.eqb fn "printf" then
    match args with [TStr f; TBytes bs] => if String.eqb f "%x" then Some (TStr (hex bs)) else None | _ => None end
  else None.

(** ** Rows as template data *)

(** The sixteen bytes of a UUID, most significant first. *)
Fixpoint be_bytes (k : nat) (n : N) : string :=
  match k with
  | O => ""
  | S k => be_bytes k (n / 256)%N +:+ String (ascii_of_N (n mod 256)) ""
  end.
Definition uuid_bytes (u : uuid) : string := be_bytes 16 u.

Definition v_uuid (u : option uuid) : tval :=
  TStruct "pgtype.UUID" [("Bytes", TBytes (uuid_bytes (default 0%N u))); ("Valid", TBool (bool_decide (is_Some u)))].
Definition v_time (t : option Z) : tval :=
  TStruct "pgtype.Timestamptz" [("Time", TTime t); ("Valid", TBool (bool_decide (is_Some t)))].

(** The structs of models.go, without their byte-slice columns, which no template
    names. *)
Definition v_intent (p : PaymentIntent) : tval := TStruct "dbq.PaymentIntent" [
  ("ID", v_uuid (Some (pi_id p))); ("MerchantID", v_uuid (Some (pi_merchant_id p))); ("ExternalRef", TStr (pi_external_ref p));
  ("AmountIdr", TInt (pi_amount_idr p)); ("QuotedAmountUsdc", TInt (pi_quoted_amount_usdc p));
  ("QuoteID", v_uuid (Some (pi_quote_id p))); ("ReferencePubkey", TPtr (pi_reference_pubkey p));
  ("RecipientAta", TPtr (pi_recipient_ata p)); ("State", TStr (PaymentIntentState_string (pi_state p)));
  ("CreatedAt", v_time (Some (pi_created_at p))); ("UpdatedAt", v_time (Some (pi_updated_at p)))].

Definition v_quote (q : Models.Quote) : tval := TStruct "dbq.Quote" [
  ("ID", v_uuid (Some (q_id q))); ("Pair", TStr (q_pair q)); ("RateNum", TInt (q_rate_num q)); ("RateScale", TInt (q_rate_scale q));
  ("SpreadBps", TInt (q_spread_bps q)); ("ExpiresAt", v_time (Some (q_expires_at q))); ("CreatedAt", v_time (Some (q_created_at q)))].

Definition v_merchant (m : Merchant) : tval := TStruct "dbq.Merchant" [
  ("ID", v_uuid (Some (m_id m))); ("Name", TStr (m_name m)); ("CreatedAt", v_time (Some (m_created_at m)));
  ("BankCode", TPtr (m_bank_code m)); ("BankAccountNumber", TPtr (m_bank_account_number m));
  ("BankAccountName", TPtr (m_bank_account_name m)); ("WebhookUrl", TPtr (m_webhook_url m))].

Definition v_onchain (o : OnchainPayment) : tval := TStruct "dbq.OnchainPayment" [
  ("Signature", TStr (op_signature o)); ("Slot", TInt (op_slot o)); ("BlockTime", v_time (op_block_time o));
  ("FromAta", TStr (op_from_ata o)); ("ToAta", TStr (op_to_ata o)); ("Mint", TStr (op_mint o)); ("Amount", TInt (op_amount o));
  ("ReferencePubkey", TPtr (op_reference_pubkey o)); ("Commitment", TStr (SolanaCommitment_string (op_commitment o)));
  ("IntentID", v_uuid (op_intent_id o)); ("CreatedAt", v_time (Some (op_created_at o))); ("UpdatedAt", v_time (Some (op_updated_at o)))].

Definition v_entry (e : JournalEntry) : tval := TStruct "dbq.JournalEntry" [
  ("ID", v_uuid (Some (je_id e))); ("ExternalRef", TStr (je_external_ref e)); ("Kind", TStr (je_kind e));
  ("Description", TPtr (je_description e)); ("IntentID", v_uuid (je_intent_id e)); ("CreatedAt", v_time (Some (je_created_at e)))].

Definition v_posting (p : Posting) : tval := TStruct "dbq.Posting" [
  ("ID", v_uuid (Some (p_id p))); ("JournalEntryID", v_uuid (Some (p_entry_id p))); ("AccountID", v_uuid (Some (p_account_id p)));
  ("Amount", TInt (p_amount p)); ("Currency", TStr (p_currency p)); ("Direction", TStr (PostingDirection_string (p_direction p)));
  ("CreatedAt", v_time (Some (p_created_at p)))].

Definition v_payout (p : Payout) : tval := TStruct "dbq.Payout" [
  ("ID", v_uuid (Some (po_id p))); ("IntentID", v_uuid (Some (po_intent_id p))); ("Rail", TStr (po_rail p));
  ("AmountIdr", TInt (po_amount_idr p)); ("State", TStr (PayoutState_string (po_state p)));
  ("RailReference", TPtr (po_rail_reference p)); ("LastError", TPtr (po_last_error p)); ("Attempts", TInt (po_attempts p));
  ("CreatedAt", v_time (Some (po_created_at p))); ("UpdatedAt", v_time (Some (po_updated_at p)))].

Definition v_saga (r : SagaRun) : tval := TStruct "dbq.SagaRun" [
  ("ID", v_uuid (Some (sr_id r))); ("IntentID", v_uuid (Some (sr_intent_id r))); ("SagaKind", TStr (sr_saga_kind r));
  ("CurrentStep", TStr (sr_current_step r)); ("State", TStr (SagaState_string (sr_state r)));
  ("StepAttempts", TInt (sr_step_attempts r)); ("NextRunAt", v_time (Some (sr_next_run_at r)));
  ("LeaseOwner", TPtr (sr_lease_owner r)); ("LeaseUntil", v_time (sr_lease_until r)); ("LastError", TPtr (sr_last_error r));
  ("CreatedAt", v_time (Some (sr_created_at r))); ("UpdatedAt", v_time (Some (sr_updated_at r)))].

Definition v_outbox (o : Models.Outbox) : tval := TStruct "dbq.Outbox" [
  ("ID", v_uuid (Some (ob_id o))); ("Topic", TStr (ob_topic o)); ("AggregateID", v_uuid (ob_aggregate_id o));
  ("CreatedAt", v_time (Some (ob_created_at o))); ("NextAttemptAt", v_time (Some (ob_next_attempt_at o)));
  ("DeliveredAt", v_time (ob_delivered_at o)); ("Attempts", TInt (ob_attempts o)); ("LastError", TPtr (ob_last_error o))].

(** ** The server *)

Record postingView := mkPostingView { pv_Posting : Posting; pv_AccountCode : string }.
Record journalEntryView := mkEntryView { jv_Entry : JournalEntry; jv_Postings : list postingView }.
Record intentView := mkIntentView {
  iv_Title : string; iv_Intent : PaymentIntent; iv_Quote : Models.Quote; iv_Onchain : list OnchainPayment;
  iv_Entries : list journalEntryView; iv_Payout : option Payout; iv_Saga : option SagaRun;
  iv_Outbox : list Models.Outbox; iv_Merchant : Merchant
}.

Definition v_posting_view (v : postingView) : tval :=
  TStruct "dashboard.postingView" [("Posting", v_posting (pv_Posting v)); ("AccountCode", TStr (pv_AccountCode v))].
Definition v_entry_view (v : journalEntryView) : tval :=
  TStruct "dashboard.journalEntryView" [("Entry", v_entry (jv_Entry v)); ("Postings", TList (v_posting_view <$> jv_Postings v))].
Definition v_ptr {A} (type : string) (f : A -> tval) (p : option A) : tval := match p with Some a => f a | None => TNil type end.
Definition v_view (v : intentView) : tval := TStruct "dashboard.intentView" [
  ("Title", TStr (iv_Title v)); ("Intent", v_intent (iv_Intent v)); ("Quote", v_quote (iv_Quote v));
  ("Onchain", TList (v_onchain <$> iv_Onchain v)); ("Entries", TList (v_entry_view <$> iv_Entries v));
  ("Payout", v_ptr "*dbq.Payout" v_payout (iv_Payout v)); ("Saga", v_ptr "*dbq.SagaRun" v_saga (iv_Saga v));
  ("Outbox", TList (v_outbox <$> iv_Outbox v)); ("Merchant", v_merchant (iv_Merchant v))].

(** The data of the index page. *)
Definition v_index (rows : list PaymentIntent) (limit : Z) : tval := TMap [
  ("Title", TStr "Selatpay Dashboard"); ("Intents", TList (v_intent <$> rows)); ("Limit", TInt limit)].

(** The parsed templates; the pool is the world's database. *)
Record Server := mkServer { templates : list tmpl }.

Definition NewServer (pool : bool) : res Server :=
  if negb pool then Err (ErrMsg "dashboard: pool is required")
  else match parse_files [] templatesFS with
  | None => Err (ErrWrap "dashboard: parse templates" (ErrMsg "template"))
  | Some set => Ok (mkServer set)
  end.

(** A request of the dashboard: the method, the path and the raw query. *)
Record DRequest := mkDRequest { d_Method : string; d_Path : string; d_Query : string }.

Section server.
Context `{Env} (uuid_Parse : string -> res uuid) (not_routed : DRequest -> Response) (srv : Server).

(** [render]: the first byte written sends the status 200 with the headers, so an
    error after it is only appended to the page. *)
Definition render (name : string) (data : tval) : Response :=
  let html := Header_Set ∅ "Content-Type" "text/html; charset=utf-8" in
  match ExecuteTemplate funcMap (templates srv) name data with
  | (page, None) => mkResponse 200 html (Some page)
  | (page, Some e) =>
    if bool_decide (page = "") then http_Error ("render: " +:+ Error e) 500
    else mkResponse 200 html (Some (page +:+ "render: " +:+ Error e +:+ newline))
  end.

(** The [limit] parameter: a number from 1 to 500, or 50. *)
Definition index_limit (query : string) : Z :=
  let v := Values_Get (ParseQuery query) "limit" in
  if bool_decide (v = "") then 50
  else match ParseInt 32 v with
  | Ok n => if (0 <? n) && (n <=? 500) then n else 50
  | Err _ => 50
  end.

Definition handleIndex (r : DRequest) : M Response :=
  let limit := index_limit (d_Query r) in
  rows ← try (ListPaymentIntentsRecent limit);
  match rows with
  | Err e => mret (http_Error ("list intents: " +:+ Error e) 500)
  | Ok rows => mret (render "index.html" (v_index rows limit))
  end.

(** The inner loop over the postings of an entry. *)
Fixpoint load_postings (ps : list Posting) : M (list postingView) :=
  match ps with
  | [] => mret []
  | p :: ps =>
    acct ← GetAccountByID (p_account_id p);
    rest ← load_postings ps;
    mret (mkPostingView p (acc_code acct) :: rest)
  end.

(** The loop over the journal entries. *)
Fixpoint load_entries (es : list JournalEntry) : M (list journalEntryView) :=
  match es with
  | [] => mret []
  | e :: es =>
    postings ← ListPostingsByEntry (je_id e);
    pviews ← load_postings postings;
    rest ← load_entries es;
    mret (mkEntryView e pviews :: rest)
  end.

(** [if x, err := ...; err == nil {...} else if !errors.Is(err, pgx.ErrNoRows)]. *)
Definition optional {A} (m : M A) : M (option A) :=
  r ← try m;
  match r with
  | Ok a => mret (Some a)
  | Err e => if errors_is ErrNoRows e then mret None else throw e
  end.

Definition loadIntentView (id : uuid) : M intentView :=
  intent ← GetPaymentIntentByID id;
  merchant ← GetMerchantByID (pi_merchant_id intent);
  quote ← GetQuote (pi_quote_id intent);
  onchain ← ListOnchainPaymentsByIntent id;
  entryRows ← ListJournalEntriesByIntent id;
  entries ← load_entries entryRows;
  payout ← optional (GetPayoutByIntent id);
  saga ← optional (GetSagaRunByIntent id KindSettlement);
  outbox ← ListOutboxByAggregate id;
  mret (mkIntentView ("Intent " +:+ uuid_string id) intent quote onchain entries payout saga outbox merchant).

Definition handleIntent (param : string) (r : DRequest) : M Response :=
  match uuid_Parse param with
  | Err _ => mret (http_Error "bad intent id" 400)
  | Ok id =>
    view ← try (loadIntentView id);
    match view with
    | Err e =>
      if errors_is ErrNoRows e then mret (http_Error "404 page not found" 404)
      else mret (http_Error ("load intent: " +:+ Error e) 500)
    | Ok view => mret (render "detail.html" (v_view view))
    end
  end.

(** The handler of [/healthz] sets no content type; net/http sniffs it. *)
Definition handleHealthz : M Response := mret (mkResponse 200 ∅ (Some ("ok" +:+ newline))).

(** The parameter of [/intents/{id}]: one segment, which chi requires not to be
    empty. *)
Definition intent_param (path : string) : option string :=
  match drop_prefix "/intents/" path with
  | Some id => if bool_decide (id = "") || has_byte "/" id then None else Some id
  | None => None
  end.

(** The routes; chi answers what none of them matches. *)
Definition ServeHTTP (r : DRequest) : M Response :=
  if negb (String.eqb (d_Method r) "GET") then mret (not_routed r)
  else if String.eqb (d_Path r) "/" then handleIndex r
  else if String.eqb (d_Path r) "/healthz" then handleHealthz
  else match intent_param (d_Path r) with
  | Some id => handleIntent id r
  | None => mret (not_routed r)
  end.
End server.

(** ** The pages *)

(** The embedded templates parse, and these are the templates of the server: the
    name [content] is the one of index.html. *)
Definition embedded : list tmpl := Eval vm_compute in default [] (parse_files [] templatesFS).

Lemma templates_parse : NewServer true = Ok (mkServer embedded).
Proof. vm_compute. reflexivity. Qed.

Example content_of_index : t_file <$> lookup_tmpl embedded "content" = Some "index.html".
Proof. reflexivity. Qed.

(** The fields conditions look at. *)
Definition condition_field (n : string) : bool :=
  String.eqb n "Valid" || String.eqb n "Description" || String.eqb n "Payout" || String.eqb n "Saga" || String.eqb n "LastError".

Lemma embedded_checked t : t ∈ embedded -> forallb (checked_node condition_field) (t_nodes t) = true.
Proof.
  assert (Hall : forallb (fun t => forallb (checked_node condition_field) (t_nodes t)) embedded = true) by (vm_compute; reflexivity).
  rewrite forallb_forall in Hall. intros Ht. by apply Hall, list_elem_of_In.
Qed.

Lemma funcMap_respects : respects funcMap condition_field.
Proof.
  intros fn vs vs' Hvs Hp. unfold funcMap.
  destruct (String.eqb_spec fn "fmtTime"); [|destruct (String.eqb_spec fn "deref"); [|destruct (String.eqb_spec fn "shortUUID");
    [|destruct (String.eqb_spec fn "printf") as [->|]; [specialize (Hp eq_refl)|constructor]]]].
  all: destruct Hvs as [|v v' vs vs' Hv Hvs]; [constructor|].
  all: destruct Hv; try (constructor; fail).
  4: destruct Hvs as [|v1 v1' vs vs' Hv1 Hvs]; [constructor|]; destruct Hv1; try (constructor; fail).
  all: destruct Hvs; try (constructor; fail); try (do 2 constructor; fail).
  injection Hp as ->. destruct (String.eqb s' "%x"); repeat constructor.
Qed.

Lemma seq_out_ok {A} (f : A -> string * option err) l :
  Forall (fun a => (f a).2 = None) l -> (seq_out f l).2 = None.
Proof.
  induction 1 as [|a l Ha _ IH]; [done|]. cbn [seq_out]. destruct (f a) as [o [e|]]; [done|].
  by destruct (seq_out f l).
Qed.

(** The nodes of the index page around its rows. *)
Definition index_content : tmpl := Eval vm_compute in default (mkTmpl "" "" "" []) (lookup_tmpl embedded "content").
Definition index_row : list tnode := Eval vm_compute in
  match t_nodes index_content with [_; _; _; NRange _ body _; _] => body | _ => [] end.

(** A row renders whatever the intent holds. *)
Lemma row_renders p fuel : (exec funcMap embedded (S fuel) index_content (v_intent p) index_row).2 = None.
Proof. vm_compute. reflexivity. Qed.

Lemma content_renders rows limit fuel :
  (exec funcMap embedded (S (S fuel)) index_content (v_index rows limit) (t_nodes index_content)).2 = None.
Proof.
  cbn [exec]. apply seq_out_ok. unfold index_content at 2. cbn [t_nodes]. fold index_content.
  apply Forall_cons; split; [done|]. apply Forall_cons; split; [reflexivity|]. apply Forall_cons; split; [done|].
  apply Forall_cons; split; [|by repeat constructor].
  change (eval funcMap index_content (v_index rows limit) (EField ?p ["Intents"])) with (Ok (TList (v_intent <$> rows))).
  cbv iota. destruct rows as [|p rows]; [vm_compute; reflexivity|]. cbn [fmap list_fmap]. apply seq_out_ok.
  apply Forall_cons; split; [exact (row_renders p fuel)|]. apply Forall_fmap, Forall_true. intros x. exact (row_renders x fuel).
Qed.

Definition page_layout : tmpl := Eval vm_compute in default (mkTmpl "" "" "" []) (lookup_tmpl embedded "layout").
Definition index_file : tmpl := Eval vm_compute in default (mkTmpl "" "" "" []) (lookup_tmpl embedded "index.html").

Lemma lookup_content : lookup_tmpl embedded "content" = Some index_content.
Proof. reflexivity. Qed.
Lemma lookup_layout : lookup_tmpl embedded "layout" = Some page_layout.
Proof. reflexivity. Qed.
Lemma lookup_index : lookup_tmpl embedded "index.html" = Some index_file.
Proof. reflexivity. Qed.

(** A list of nodes renders when each of them does. *)
Lemma exec_ok fuel t dot ns :
  Forall (fun n => (exec funcMap embedded (S fuel) t dot [n]).2 = None) ns ->
  (exec funcMap embedded (S fuel) t dot ns).2 = None.
Proof.
  cbn [exec]. intros H. apply seq_out_ok. eapply Forall_impl; [exact H|]. cbn [seq_out]. intros n Hn.
  match type of Hn with context [match ?x with (_, _) => _ end] => destruct x as [o [e|]] end; [discriminate Hn|done].
Qed.

(** Calling a template renders when the template does. *)
Lemma template_ok fuel t dot name t' :
  lookup_tmpl embedded name = Some t' -> (exec funcMap embedded fuel t' dot (t_nodes t')).2 = None ->
  (exec funcMap embedded (S fuel) t dot [NTemplate name EDot]).2 = None.
Proof.
  intros Hl He. cbn [exec seq_out eval]. rewrite Hl. destruct (exec _ _ fuel _ _ _) as [o [e|]]; [discriminate He|done].
Qed.

Lemma layout_renders rows limit fuel :
  (exec funcMap embedded (S (S (S fuel))) page_layout (v_index rows limit) (t_nodes page_layout)).2 = None.
Proof.
  apply exec_ok. repeat (apply Forall_cons; split; [first [reflexivity|eapply template_ok; [exact lookup_content|apply content_renders]]|]).
  constructor.
Qed.

Lemma index_renders rows limit : exists page, ExecuteTemplate funcMap embedded "index.html" (v_index rows limit) = (page, None).
Proof.
  enough (H : (ExecuteTemplate funcMap embedded "index.html" (v_index rows limit)).2 = None)
    by (destruct (ExecuteTemplate _ _ _ _) as [page e]; cbn in H; subst e; by exists page).
  unfold ExecuteTemplate. rewrite lookup_index. apply exec_ok.
  repeat (apply Forall_cons; split; [first [reflexivity|eapply template_ok; [exact lookup_layout|apply layout_renders]]|]).
  constructor.
Qed.

(** ** Shapes *)

Lemma shape_uuid u u' : same_shape condition_field (v_uuid (Some u)) (v_uuid (Some u')).
Proof. repeat constructor. Qed.
Lemma shape_time t t' : same_shape condition_field (v_time (Some t)) (v_time (Some t')).
Proof. repeat constructor. Qed.

Lemma shape_intent p p' : same_shape condition_field (v_intent p) (v_intent p').
Proof.
  constructor. repeat (apply Forall2_cons; split; [split; [done|]; split; [|done]|]); try apply shape_uuid; try apply shape_time; try constructor.
Qed.

Lemma shape_index rows rows' limit limit' :
  List.length rows = List.length rows' -> same_shape condition_field (v_index rows limit) (v_index rows' limit').
Proof.
  intros Hl. constructor. apply Forall2_cons; split; [by repeat constructor|].
  apply Forall2_cons; split; [split; [done|]; split; [|done]; constructor|by repeat constructor].
  revert rows' Hl. induction rows as [|p rows IH]; intros [|p' rows'] Hl; try done.
  cbn [fmap list_fmap]. apply Forall2_cons; split; [apply shape_intent|]. apply IH. by injection Hl.
Qed.

(** C28: The index page is rendered for any intents and none of their data is markup:
    for every list of rows the template runs to its end, and two lists of the same
    length give pages with exactly the same angle brackets and quotes, so an
    external reference chosen by a merchant cannot open a tag or leave an
    attribute. *)
Theorem index_page rows rows' limit limit' :
  List.length rows = List.length rows' ->
  exists page page',
    ExecuteTemplate funcMap embedded "index.html" (v_index rows limit) = (page, None) /\
    ExecuteTemplate funcMap embedded "index.html" (v_index rows' limit') = (page', None) /\
    markup page = markup page'.
Proof.
  intros Hl. destruct (index_renders rows limit) as [page Hp]. destruct (index_renders rows' limit') as [page' Hp'].
  exists page, page'. split; [done|]. split; [done|].
  destruct (ExecuteTemplate_shape funcMap embedded condition_field funcMap_respects embedded_checked "index.html"
              _ _ (shape_index rows rows' limit limit' Hl)) as [Hm _].
  by rewrite Hp, Hp' in Hm.
Qed.

(** ** The detail page *)

(** The place of the field of index.html that the data of the detail page lacks. *)
Definition limit_error : err :=
  ErrMsg ("template: index.html:4:31: executing " +:+ Quote_q "content" +:+
          " at <.Limit>: can't evaluate field Limit in type dashboard.intentView").

(** What is written before the error: the head of the layout with the title, and the
    heading of the index. *)
Definition detail_head (title : string) : string :=
  (ExecuteTemplate funcMap embedded "detail.html" (TStruct "dashboard.intentView" [("Title", TStr title)])).1.

Lemma detail_executes v :
  ExecuteTemplate funcMap embedded "detail.html" (v_view v) = (detail_head (iv_Title v), Some limit_error).
Proof. vm_compute. reflexivity. Qed.

Lemma detail_head_nonempty title : detail_head title <> "".
Proof.
  assert (exists rest, detail_head title = String "<" rest) as [rest ->] by (eexists; vm_compute; reflexivity). done.
Qed.

Section theorems.
Context `{Env} (uuid_Parse : string -> res uuid) (not_routed : DRequest -> Response).

Abbreviation srv := (mkServer embedded).

(** ** Nothing is written *)

Section keeps.
Context (R : DB -> DB -> Prop) `{!PreOrder R}.

Lemma keeps_optional {A} (m : M A) : keeps R m -> keeps R (optional m).
Proof. intros Hm. unfold optional. keeps_auto. Qed.

Lemma keeps_load_postings ps : keeps R (load_postings ps).
Proof. induction ps as [|p ps IH]; cbn [load_postings]; [|unfold GetAccountByID]; keeps_auto. Qed.

Lemma keeps_load_entries es : keeps R (load_entries es).
Proof.
  induction es as [|e es IH]; cbn [load_entries]; [|unfold ListPostingsByEntry]; pose proof keeps_load_postings; keeps_auto.
Qed.

Lemma keeps_loadIntentView id : keeps R (loadIntentView id).
Proof.
  pose proof keeps_load_entries. pose proof (@keeps_optional Payout). pose proof (@keeps_optional SagaRun).
  unfold loadIntentView, GetPaymentIntentByID, GetMerchantByID, GetQuote, ListOnchainPaymentsByIntent,
    ListJournalEntriesByIntent, ListOutboxByAggregate, GetPayoutByIntent, GetSagaRunByIntent. keeps_auto.
Qed.

Lemma keeps_dashboard s r : keeps R (ServeHTTP uuid_Parse not_routed s r).
Proof.
  unfold ServeHTTP, handleIndex, handleIntent, handleHealthz, ListPaymentIntentsRecent. pose proof keeps_loadIntentView. keeps_auto.
Qed.
End keeps.

Lemma wkeeps_load_postings (R : World -> World -> Prop) `{!WorldRel R} ps : wkeeps R (load_postings ps).
Proof. induction ps as [|p ps IH]; cbn [load_postings]; wkeeps_auto. Qed.

Lemma wkeeps_load_entries (R : World -> World -> Prop) `{!WorldRel R} es : wkeeps R (load_entries es).
Proof. induction es as [|e es IH]; cbn [load_entries]; pose proof (wkeeps_load_postings R); wkeeps_auto. Qed.

Lemma wkeeps_dashboard (R : World -> World -> Prop) `{!WorldRel R} s r : wkeeps R (ServeHTTP uuid_Parse not_routed s r).
Proof.
  unfold ServeHTTP, handleIndex, handleIntent, handleHealthz, loadIntentView, optional.
  pose proof (wkeeps_load_entries R). wkeeps_auto.
Qed.

(** The dashboard is read-only: no request, whatever its method, path and query,
    and whatever the templates of the server, changes a row of the database or
    reaches the bank. *)
Theorem dashboard_read_only s r w :
  w_db (ServeHTTP uuid_Parse not_routed s r w).2 = w_db w /\
  w_bank (ServeHTTP uuid_Parse not_routed s r w).2 = w_bank w.
Proof.
  split.
  - symmetry. apply (keeps_dashboard eq s r w).
  - apply (wkeeps_dashboard offline_rel s r w).
Qed.

(** ** Answers *)

Lemma referenced_row {A} (f : A -> uuid) t id : id ∈ f <$> t -> exists r, find_row (by_id f id) t = Some r /\ f r = id.
Proof.
  intros (r & -> & Hr)%list_elem_of_fmap. destruct (find_row_is_Some (by_id f (f r)) t r Hr) as [r' Hr']; [apply N.eqb_refl|].
  exists r'. split; [done|]. apply find_row_Some in Hr' as [_ E]. by apply N.eqb_eq.
Qed.

Lemma load_postings_run ps w :
  w_faults w = [] -> Forall (posting_checked (accounts (w_db w))) ps ->
  exists vs, load_postings ps w = (Ok vs, w) /\ pv_Posting <$> vs = ps.
Proof.
  intros Hf. induction 1 as [|p ps (_ & a & Ha & Hid & _) _ (vs & IH & Hvs)]; [by exists []|].
  cbn [load_postings]. unfold GetAccountByID, mbind, M_bind. rewrite select_run by done.
  destruct (referenced_row acc_id (accounts (w_db w)) (p_account_id p)) as (r & -> & _).
  { rewrite <- Hid. by apply list_elem_of_fmap_2. }
  cbn [Queries.one]. rewrite IH. eexists. split; [reflexivity|]. cbn. by rewrite Hvs.
Qed.

Lemma load_entries_run es w :
  w_faults w = [] -> Forall (posting_checked (accounts (w_db w))) (postings (w_db w)) ->
  exists vs, load_entries es w = (Ok vs, w) /\ jv_Entry <$> vs = es.
Proof.
  intros Hf Hp. induction es as [|e es (vs & IH & Hvs)]; [by exists []|].
  cbn [load_entries]. unfold ListPostingsByEntry, mbind, M_bind. rewrite select_run by done.
  destruct (load_postings_run (order_by p_created_at (order_by (fun p => Z.of_N (p_id p))
    (select_where (by_id p_entry_id (je_id e)) (postings (w_db w))))) w Hf)
    as (ps & Hps & _).
  { apply Forall_forall. intros p Hin. apply elem_of_order_by, elem_of_order_by, elem_of_select in Hin as [Hin _].
    rewrite Forall_forall in Hp. by apply Hp. }
  rewrite Hps, IH. eexists. split; [reflexivity|]. cbn. by rewrite Hvs.
Qed.

Lemma optional_run {A} (f : DB -> option A) w :
  w_faults w = [] -> optional (select (fun d => Queries.one (f d))) w = (Ok (f (w_db w)), w).
Proof.
  intros Hf. unfold optional, try, mbind, M_bind. rewrite select_run by done. by destruct (f (w_db w)).
Qed.

(** With the constraints of the schema, everything about an intent can be loaded. *)
Lemma view_loads id w :
  schema_ok (w_db w) -> w_faults w = [] -> id ∈ pi_id <$> payment_intents (w_db w) ->
  exists v, loadIntentView id w = (Ok v, w) /\ iv_Title v = "Intent " +:+ uuid_string id /\ pi_id (iv_Intent v) = id.
Proof.
  intros Hs Hf Hid. destruct (referenced_row pi_id _ _ Hid) as (p & Hp & Hpid). apply find_row_Some in Hp as Hin. destruct Hin as [Hin _].
  pose proof (intents_merchant _ Hs) as Hm. pose proof (intents_quote _ Hs) as Hq. unfold refers in *. rewrite Forall_forall in Hm, Hq.
  destruct (referenced_row m_id _ _ (Hm p Hin)) as (m & Hm' & _). destruct (referenced_row q_id _ _ (Hq p Hin)) as (q & Hq' & _).
  destruct (load_entries_run (order_by je_created_at (select_where (fun j => bool_decide (je_intent_id j = Some id))
              (journal_entries (w_db w)))) w Hf (postings_checked _ Hs)) as (es & Hes & _).
  unfold loadIntentView, mbind, M_bind. unfold GetPaymentIntentByID. rewrite select_run, Hp by done. cbn [Queries.one].
  unfold GetMerchantByID. rewrite select_run, Hm' by done. cbn [Queries.one]. unfold GetQuote. rewrite select_run, Hq' by done. cbn [Queries.one].
  unfold ListOnchainPaymentsByIntent, ListJournalEntriesByIntent. rewrite !select_run by done. rewrite Hes.
  unfold GetPayoutByIntent, GetSagaRunByIntent, ListOutboxByAggregate. rewrite !optional_run, select_run by done.
  eexists. split; [reflexivity|]. done.
Qed.

Definition html_header : gmap string string := Header_Set ∅ "Content-Type" "text/html; charset=utf-8".

Lemma intent_param_segment s : s <> "" -> no_byte "/" s -> intent_param ("/intents/" +:+ s) = Some s.
Proof. intros Hne Hs. unfold intent_param. change (drop_prefix "/intents/" _) with (Some s). cbv iota. rewrite bool_decide_false by done. by rewrite Hs. Qed.

(** C29: The detail page does not show an intent: for every intent of a database that
    satisfies its constraints, the request for its page loads all its rows and is
    then answered with status 200, the head of the page with the title, the heading
    of the index and the text of a template error, because the template named
    [content] is the one of index.html; nothing else of the intent is shown. *)
Theorem detail_page_fails param id query w :
  schema_ok (w_db w) -> w_faults w = [] -> id ∈ pi_id <$> payment_intents (w_db w) ->
  param <> "" -> no_byte "/" param -> uuid_Parse param = Ok id ->
  ServeHTTP uuid_Parse not_routed srv (mkDRequest "GET" ("/intents/" +:+ param) query) w =
    (Ok (mkResponse 200 html_header
       (Some (detail_head ("Intent " +:+ uuid_string id) +:+ "render: " +:+ Error limit_error +:+ newline))), w).
Proof.
  intros Hs Hf Hid Hne Hsl Hu. destruct (view_loads id w Hs Hf Hid) as (v & Hv & Ht & _).
  unfold ServeHTTP. cbn [d_Method d_Path]. change (negb (String.eqb "GET" "GET")) with false. cbv iota.
  rewrite !(proj2 (String.eqb_neq _ _)) by done. rewrite intent_param_segment by done.
  unfold handleIntent. rewrite Hu. unfold try, mbind, M_bind. rewrite Hv. unfold render. cbn [templates].
  rewrite detail_executes, Ht. rewrite bool_decide_false by apply detail_head_nonempty. reflexivity.
Qed.

(** An unknown intent is answered 404. *)
Lemma detail_page_missing param id query w :
  w_faults w = [] -> ~ id ∈ pi_id <$> payment_intents (w_db w) ->
  param <> "" -> no_byte "/" param -> uuid_Parse param = Ok id ->
  ServeHTTP uuid_Parse not_routed srv (mkDRequest "GET" ("/intents/" +:+ param) query) w =
    (Ok (http_Error "404 page not found" 404), w).
Proof.
  intros Hf Hid Hne Hsl Hu. unfold ServeHTTP. cbn [d_Method d_Path]. change (negb (String.eqb "GET" "GET")) with false. cbv iota.
  rewrite !(proj2 (String.eqb_neq _ _)) by done. rewrite intent_param_segment by done.
  unfold handleIntent. rewrite Hu. unfold try, mbind, M_bind, loadIntentView, mbind, M_bind, GetPaymentIntentByID.
  rewrite select_run by done. destruct (find_row (by_id pi_id id) (payment_intents (w_db w))) as [p|] eqn:E; [|done].
  apply find_row_Some in E as [Hin Hp]. apply N.eqb_eq in Hp. exfalso. apply Hid. rewrite <- Hp. by apply list_elem_of_fmap_2.
Qed.

Lemma index_limit_range query : 1 <= index_limit query <= 500.
Proof.
  unfold index_limit. case_bool_decide; [lia|]. destruct (ParseInt 32 _) as [n|]; [|lia].
  destruct (_ && _) eqn:E; [|lia]. bools. lia.
Qed.

(** The index shows the newest intents, at most the limit. *)
Lemma index_answers query w :
  w_faults w = [] -> exists page,
  ServeHTTP uuid_Parse not_routed srv (mkDRequest "GET" "/" query) w = (Ok (mkResponse 200 html_header (Some page)), w) /\
  ExecuteTemplate funcMap embedded "index.html"
    (v_index (take (Z.to_nat (index_limit query)) (order_by (fun p => - pi_created_at p) (payment_intents (w_db w)))) (index_limit query))
    = (page, None).
Proof.
  intros Hf. unfold ServeHTTP, handleIndex. cbn [d_Method d_Path d_Query].
  change (negb (String.eqb "GET" "GET")) with false. change (String.eqb "/" "/") with true. cbv iota zeta.
  unfold try, mbind, M_bind, ListPaymentIntentsRecent. rewrite select_run by done.
  match goal with |- context [v_index ?rows ?l] => destruct (index_renders rows l) as [page Hp] end.
  exists page. split; [|exact Hp]. unfold render. cbn [templates]. by rewrite Hp.
Qed.

(** [uuid.Parse] reads the 32 hexadecimal digits of a UUID without dashes. *)
Definition parses_hex : Prop := forall u, (u < 2 ^ 128)%N -> uuid_Parse (hex (uuid_bytes u)) = Ok u.

Lemma hex_nonempty u : hex (uuid_bytes u) <> "".
Proof.
  intros E%hex_empty. unfold uuid_bytes in E. cbn [be_bytes] in E. revert E.
  generalize (be_bytes 15 (u / 256)). intros s. by destruct s.
Qed.

(** A link of the index asks for the intent of its row. *)
Lemma link_resolves u query :
  (u < 2 ^ 128)%N -> parses_hex ->
  ServeHTTP uuid_Parse not_routed srv (mkDRequest "GET" ("/intents/" +:+ hex (uuid_bytes u)) query) =
  handleIntent uuid_Parse srv (hex (uuid_bytes u)) (mkDRequest "GET" ("/intents/" +:+ hex (uuid_bytes u)) query) /\
  uuid_Parse (hex (uuid_bytes u)) = Ok u.
Proof.
  intros Hu Hp. split; [|by apply Hp]. unfold ServeHTTP. cbn [d_Method d_Path].
  change (negb (String.eqb "GET" "GET")) with false. cbv iota. rewrite !(proj2 (String.eqb_neq _ _)) by done.
  rewrite intent_param_segment; [done|apply hex_nonempty|by apply hex_no_byte].
Qed.
End theorems.

(** ** Witnesses *)

Section example.
#[local] Existing Instance example_env.

Definition tagged_intent (ref : string) : PaymentIntent :=
  mkPaymentIntent 4001%N 50%N ref 1000 2000 60%N None None None IFunded (1700000000 * ns_per_s) (1700000000 * ns_per_s).

Lemma index_page_witness : exists page page',
  ExecuteTemplate funcMap embedded "index.html" (v_index [tagged_intent "<script>alert('x')</script>"] 50) = (page, None) /\
  ExecuteTemplate funcMap embedded "index.html" (v_index [tagged_intent "order-1"] 10) = (page', None) /\ markup page = markup page'.
Proof. apply (index_page [tagged_intent "<script>alert('x')</script>"] [tagged_intent "order-1"] 50 10). reflexivity. Defined.

(** Identifiers in decimal, as [example_env] prints them. *)
Definition decimal_Parse (s : string) : res uuid := match ParseUint s with Ok n => Ok (Z.to_N n) | Err e => Err e end.

Lemma detail_page_fails_witness : exists w,
  (ServeHTTP decimal_Parse (fun _ => http_Error "" 404) (mkServer embedded) (mkDRequest "GET" "/intents/4001" "") w).1 =
    Ok (mkResponse 200 html_header (Some (detail_head "Intent 4001" +:+ "render: " +:+ Error limit_error +:+ newline))).
Proof.
  exists (demo_world 62038464).
  change "/intents/4001" with ("/intents/" +:+ "4001").
  rewrite (detail_page_fails decimal_Parse (fun _ => http_Error "" 404) "4001" 4001%N "" (demo_world 62038464)).
  - reflexivity.
  - apply demo_schema. reflexivity.
  - reflexivity.
  - apply list_elem_of_here.
  - discriminate.
  - reflexivity.
  - reflexivity.
Defined.
End example.
