(* ===== verification/Config.v ===== *)
(** * Configuration ([internal/config/config.go])

    The environment as a map, [Load] with its defaults and checks, and the parts of
    the standard library it uses: [time.ParseDuration] with its binary64 fraction,
    [strconv.ParseInt] and [hex.DecodeString]. *)

From S2P Require Import Prelude GoStr Sha256.
From Stdlib Require Import Ascii String SpecFloat.

(** ** time.ParseDuration *)

Section duration.
Implicit Types s : string.

Definition two63 : Z := 2 ^ 63.

(** [leadingInt]: the digits in front, or none when they overflow. *)
Fixpoint leadingInt (x : Z) s : option (Z * string) :=
  match s with
  | String c s' =>
    match digit_val c with
    | Some d =>
      if two63 / 10 <? x then None
      else let x' := x * 10 + d in if two63 <? x' then None else leadingInt x' s'
    | None => Some (x, s)
    end
  | EmptyString => Some (x, s)
  end.

(** [leadingFraction]: the digits as an integer, how many of them count, and the
    rest; digits past the range of [uint64] are skipped. *)
Fixpoint leadingFraction (x k : Z) (overflow : bool) s : Z * Z * string :=
  match s with
  | String c s' =>
    match digit_val c with
    | Some d =>
      if overflow then leadingFraction x k true s'
      else if (two63 - 1) / 10 <? x then leadingFraction x k true s'
      else let y := x * 10 + d in
        if two63 <? y then leadingFraction x k true s' else leadingFraction y (k + 1) false s'
    | None => (x, k, s)
    end
  | EmptyString => (x, k, s)
  end.

Definition unit_byte c : bool := negb (Ascii.eqb c "." || bool_decide (is_Some (digit_val c))).

Fixpoint span_unit s : string * string :=
  match s with
  | String c s' => if unit_byte c then let '(u, r) := span_unit s' in (String c u, r) else ("", s)
  | EmptyString => ("", "")
  end.

Definition bytes2 (a b : Z) (s : string) : string :=
  String (ascii_of_N (Z.to_N a)) (String (ascii_of_N (Z.to_N b)) s).

(** [unitMap]; the two spellings of micro are U+00B5 and U+03BC. *)
Definition unit_ns (u : string) : option Z :=
  if String.eqb u "ns" then Some 1
  else if String.eqb u "us" then Some 1000
  else if String.eqb u (bytes2 194 181 "s") then Some 1000
  else if String.eqb u (bytes2 206 188 "s") then Some 1000
  else if String.eqb u "ms" then Some 1000000
  else if String.eqb u "s" then Some ns_per_s
  else if String.eqb u "m" then Some (60 * ns_per_s)
  else if String.eqb u "h" then Some (3600 * ns_per_s)
  else None.

(** [float64] in its specification: 53 bits of precision, exponents up to 1024,
    rounding to the nearest even. *)
Definition float64 (n : Z) : spec_float := binary_normalize 53 1024 n 0 false.

(** [uint64(x)] of a non-negative finite value. *)
Definition truncate (x : spec_float) : Z :=
  match x with
  | S754_finite false m e => if 0 <=? e then Z.pos m * 2 ^ e else Z.pos m / 2 ^ (- e)
  | _ => 0
  end.

(** [uint64(float64(f) * (float64(unit) / scale))], where [scale] is ten to the
    [k], which a [float64] holds exactly for the [k] that occur. *)
Definition fraction_ns (f k unit : Z) : Z :=
  truncate (SFmul 53 1024 (float64 f) (SFdiv 53 1024 (float64 unit) (float64 (10 ^ k)))).

(** One round of the loop: a number and its unit. *)
Definition duration_term s : option (Z * string) :=
  match leadingInt 0 s with
  | None => None
  | Some (v, s1) =>
    let pre := negb (String.length s1 =? String.length s)%nat in
    let '(f, k, s2, post) :=
      match s1 with
      | String "." s1' =>
        let '(f, k, s2) := leadingFraction 0 0 false s1' in
        (f, k, s2, negb (String.length s2 =? String.length s1')%nat)
      | _ => (0, 0, s1, false)
      end in
    if negb pre && negb post then None
    else
      let '(u, s3) := span_unit s2 in
      match unit_ns u with
      | None => None
      | Some unit =>
        if two63 / unit <? v then None
        else
          let v := v * unit in
          if 0 <? f then
            let v := wrapu64 (v + fraction_ns f k unit) in
            if two63 <? v then None else Some (v, s3)
          else Some (v, s3)
      end
  end.

(** The loop; each round consumes at least the unit, so the length of the text is
    enough fuel. *)
Fixpoint duration_terms (fuel : nat) (d : Z) s : option Z :=
  match s, fuel with
  | EmptyString, _ => Some d
  | _, O => None
  | _, S fuel =>
    match duration_term s with
    | None => None
    | Some (v, s') =>
      let d := wrapu64 (d + v) in
      if two63 <? d then None else duration_terms fuel d s'
    end
  end.

Definition ParseDuration s : option Z :=
  let '(neg, u) :=
    match s with
    | String "-" u => (true, u)
    | String "+" u => (false, u)
    | _ => (false, s)
    end in
  if String.eqb u "0" then Some 0
  else if String.eqb u "" then None
  else match duration_terms (String.length u) 0 u with
  | None => None
  | Some d => if neg then Some (wrap64 (- d)) else if two63 - 1 <? d then None else Some d
  end.
End duration.

Example parse_60s : ParseDuration "60s" = Some (60 * ns_per_s).
Proof. reflexivity. Qed.
Example parse_mixed : ParseDuration "-1h2m3.5s" = Some (- (3723500 * 1000000)).
Proof. vm_compute. reflexivity. Qed.
Example parse_third_hour : ParseDuration "0.333333333333333333h" = Some 1199999999999.
Proof. vm_compute. reflexivity. Qed.
Example parse_half : ParseDuration ".5" = None.
Proof. reflexivity. Qed.
Example parse_max : ParseDuration "9223372036854775807ns" = Some (two63 - 1).
Proof. vm_compute. reflexivity. Qed.
Example parse_over : ParseDuration "9223372036854775808ns" = None.
Proof. vm_compute. reflexivity. Qed.
(** Two terms of 2^63 nanoseconds wrap around to zero. *)
Example parse_wraps : ParseDuration "9223372036854775808ns9223372036854775808ns" = Some 0.
Proof. vm_compute. reflexivity. Qed.

(** ** config.go *)

(** The variables that are set. *)
Definition Environ : Type := gmap string string.

Record Config := mkCfg {
  c_Env : string; c_LogLevel : string; HTTPAddr : string; DashboardAddr : string;
  DBURL : string; RedisAddr : string; OTLPEndpoint : string; ServiceName : string;
  SolanaRPCURL : string; SolanaWSURL : string; c_SolanaCommitment : string; c_USDCMint : string;
  HotWalletSecretBase58 : string; c_HotWalletPubkey : string;
  QuoteHMACSecret : string; WebhookHMACSecret : string; APIKeyPepper : string;
  ReferenceEncKey : string; c_SolanaPayLabel : string; c_SolanaPayMessage : string;
  QuoteTTL : Z; QuoteSpreadBps : Z; MockBankURL : string; HTTPReadTimeout : Z; HTTPWriteTimeout : Z
}.

Section load.
Context (env : Environ).

Definition getEnv (k def : string) : string := default def (env !! k).
Definition os_Getenv (k : string) : string := getEnv k "".

Definition getDuration (k : string) (def : Z) : Z :=
  match env !! k with Some v => default def (ParseDuration v) | None => def end.

Definition getInt32 (k : string) (def : Z) : Z :=
  match env !! k with
  | Some v => match ParseInt 32 v with Ok n => n | Err _ => def end
  | None => def
  end.

(** No value stands for a nil slice, which has length zero. *)
Definition decodeRefEncKey (raw : string) : res string :=
  if String.eqb raw "" then Ok ""
  else match hex_decode raw with
  | Ok k => Ok k
  | Err e => Err (ErrWrap "SELATPAY_REFERENCE_ENC_KEY is not valid hex" e)
  end.

Definition validate (c : Config) : res unit :=
  if String.eqb (DBURL c) "" then Err (ErrMsg "SELATPAY_DB_URL is required")
  else if String.eqb (QuoteHMACSecret c) "" then Err (ErrMsg "SELATPAY_QUOTE_HMAC_SECRET is required")
  else if String.eqb (WebhookHMACSecret c) "" then Err (ErrMsg "SELATPAY_WEBHOOK_HMAC_SECRET is required")
  else if String.eqb (APIKeyPepper c) "" then Err (ErrMsg "SELATPAY_API_KEY_PEPPER is required")
  else if negb (String.length (ReferenceEncKey c) =? 32)%nat then
    Err (ErrMsg "SELATPAY_REFERENCE_ENC_KEY must be 32 bytes of hex (64 chars)")
  else Ok tt.

(** The literal of [Load]. *)
Definition config_of (refKey : string) : Config := mkCfg
  (getEnv "SELATPAY_ENV" "local") (getEnv "SELATPAY_LOG_LEVEL" "info")
  (getEnv "SELATPAY_HTTP_ADDR" ":8080") (getEnv "SELATPAY_DASHBOARD_ADDR" ":8081")
  (getEnv "SELATPAY_DB_URL" "") (getEnv "SELATPAY_REDIS_ADDR" "localhost:6379")
  (getEnv "SELATPAY_OTEL_EXPORTER_OTLP_ENDPOINT" "") (getEnv "SELATPAY_OTEL_SERVICE_NAME" "selatpayd")
  (getEnv "SELATPAY_SOLANA_RPC_URL" "https://api.devnet.solana.com")
  (getEnv "SELATPAY_SOLANA_WS_URL" "wss://api.devnet.solana.com")
  (getEnv "SELATPAY_SOLANA_COMMITMENT" "finalized")
  (getEnv "SELATPAY_USDC_MINT" "4zMMC9srt5Ri5X14GAgXhaHii3GnPAEERYPJgZJDncDU")
  (os_Getenv "SELATPAY_HOT_WALLET_SECRET_BASE58") (os_Getenv "SELATPAY_HOT_WALLET_PUBKEY")
  (getEnv "SELATPAY_QUOTE_HMAC_SECRET" "") (getEnv "SELATPAY_WEBHOOK_HMAC_SECRET" "")
  (getEnv "SELATPAY_API_KEY_PEPPER" "") refKey
  (getEnv "SELATPAY_SOLANA_PAY_LABEL" "Selatpay") (getEnv "SELATPAY_SOLANA_PAY_MESSAGE" "")
  (getDuration "SELATPAY_QUOTE_TTL" (60 * ns_per_s)) (getInt32 "SELATPAY_QUOTE_SPREAD_BPS" 50)
  (getEnv "SELATPAY_MOCK_BANK_URL" "http://localhost:9100")
  (getDuration "SELATPAY_HTTP_READ_TIMEOUT" (10 * ns_per_s))
  (getDuration "SELATPAY_HTTP_WRITE_TIMEOUT" (30 * ns_per_s)).

Definition Load : res Config :=
  match decodeRefEncKey (os_Getenv "SELATPAY_REFERENCE_ENC_KEY") with
  | Err e => Err e
  | Ok refKey =>
    let c := config_of refKey in
    match validate c with Err e => Err e | Ok _ => Ok c end
  end.
End load.

(** ** Durations fit their type *)

Lemma leadingInt_rest x s v r : leadingInt x s = Some (v, r) -> (String.length r <= String.length s)%nat.
Proof.
  revert x. induction s as [|c s IH]; intros x; cbn; [by intros [= <- <-]|].
  destruct (digit_val c); [|by intros [= <- <-]]. repeat case_match; try done. intros E%IH. lia.
Qed.

Lemma leadingFraction_rest x k o s f k' r :
  leadingFraction x k o s = (f, k', r) -> (String.length r <= String.length s)%nat.
Proof.
  revert x k o. induction s as [|c s IH]; intros x k o; cbn; [by intros [= <- <- <-]|].
  destruct (digit_val c); [|by intros [= <- <- <-]]. repeat case_match; intros E%IH; lia.
Qed.

Lemma span_unit_rest s u r : span_unit s = (u, r) -> (String.length u + String.length r = String.length s)%nat.
Proof.
  revert u r. induction s as [|c s IH]; intros u r; cbn; [by intros [= <- <-]|].
  destruct (unit_byte c); [|by intros [= <- <-]]. destruct (span_unit s) as [u1 r1]. intros [= <- <-].
  cbn. by rewrite <- (IH _ _ eq_refl).
Qed.

(** Every round consumes its unit. *)
Lemma duration_term_rest s v r : duration_term s = Some (v, r) -> (String.length r < String.length s)%nat.
Proof.
  unfold duration_term. destruct (leadingInt 0 s) as [[v0 s1]|] eqn:E1; [|done]. apply leadingInt_rest in E1.
  set (t := match s1 with String "." _ => _ | _ => _ end). destruct t as [[[f k] s2] post] eqn:Et.
  assert (H2 : (String.length s2 <= String.length s1)%nat).
  { subst t. destruct s1 as [|[[] [] [] [] [] [] [] []] s1']; try (by injection Et as _ _ <- _).
    destruct (leadingFraction 0 0 false s1') as [[f' k'] s2'] eqn:E2. injection Et as _ _ <- _.
    apply leadingFraction_rest in E2. cbn. lia. }
  destruct (_ && _); [done|]. destruct (span_unit s2) as [u s3] eqn:E3. apply span_unit_rest in E3.
  destruct (unit_ns u) as [unit|] eqn:Eu; [|done]. assert (u <> "") by (intros ->; done).
  assert (0 < String.length u)%nat by (destruct u; [done|cbn; lia]).
  repeat case_match; try done; intros [= _ <-]; lia.
Qed.

(** The length of the text is enough fuel: more changes nothing. *)
Lemma duration_terms_fuel fuel d s :
  (String.length s <= fuel)%nat -> duration_terms fuel d s = duration_terms (String.length s) d s.
Proof.
  remember (String.length s) as n eqn:Hn. assert (Hs : (String.length s <= n)%nat) by lia. clear Hn.
  revert fuel d s Hs. induction n as [|n IH]; intros fuel d s Hs Hf.
  - destruct s; [by destruct fuel|cbn in Hs; lia].
  - destruct s as [|c s]; [by destruct fuel|]. destruct fuel as [|fuel]; [lia|]. cbn [duration_terms].
    destruct (duration_term (String c s)) as [[v r]|] eqn:E; [|done]. apply duration_term_rest in E.
    destruct (_ <? _); [done|]. apply IH; lia.
Qed.

Lemma duration_terms_range fuel d s d' :
  0 <= d <= two63 -> duration_terms fuel d s = Some d' -> 0 <= d' <= two63.
Proof.
  revert d s. induction fuel as [|fuel IH]; intros d [|c s] Hd; cbn [duration_terms]; try (by intros [= <-]); try done.
  destruct (duration_term _) as [[v r]|]; [|done]. destruct (Z.ltb_spec two63 (wrapu64 (d + v))); [done|].
  apply IH. unfold wrapu64 in *. pose proof (Z.mod_pos_bound (d + v) (2 ^ 64) ltac:(lia)). lia.
Qed.

Lemma ParseDuration_int64 s d : ParseDuration s = Some d -> is_int64 d = true.
Proof.
  unfold ParseDuration. set (t := match s with String "-" _ => _ | _ => _ end). destruct t as [neg u].
  rewrite is_int64_spec. unfold int64_min, int64_max.
  destruct (String.eqb u "0"); [intros [= <-]; lia|]. destruct (String.eqb u ""); [done|].
  destruct (duration_terms _ _ _) as [d0|] eqn:E; [|done]. apply duration_terms_range in E; [|unfold two63; lia].
  destruct neg.
  - intros [= <-]. unfold wrap64. pose proof (Z.mod_pos_bound (- d0 + 2 ^ 63) (2 ^ 64) ltac:(lia)). lia.
  - destruct (Z.ltb_spec (two63 - 1) d0); [done|]. intros [= <-]. unfold two63 in *. lia.
Qed.

(** ** What [Load] accepts *)

Lemma getDuration_int64 env k def : is_int64 def = true -> is_int64 (getDuration env k def) = true.
Proof.
  intros Hd. unfold getDuration. destruct (env !! k) as [v|]; [|done].
  destruct (ParseDuration v) eqn:E; [by eapply ParseDuration_int64|done].
Qed.

Lemma getInt32_range env k def : - 2 ^ 31 <= def < 2 ^ 31 -> - 2 ^ 31 <= getInt32 env k def < 2 ^ 31.
Proof.
  intros Hd. unfold getInt32. destruct (env !! k) as [v|]; [|done].
  destruct (ParseInt 32 v) eqn:E; [by apply ParseInt_range in E; [|done]|done].
Qed.

(** Everything start-up relies on. *)
Record loaded (env : Environ) (c : Config) : Prop := {
  ld_env : c = config_of env (ReferenceEncKey c);
  ld_key : hex_decode (os_Getenv env "SELATPAY_REFERENCE_ENC_KEY") = Ok (ReferenceEncKey c);
  ld_len : String.length (ReferenceEncKey c) = 32%nat;
  ld_db : DBURL c <> "";
  ld_secrets : QuoteHMACSecret c <> "" /\ WebhookHMACSecret c <> "" /\ APIKeyPepper c <> ""
}.

Lemma validate_ok c :
  validate c = Ok tt <-> DBURL c <> "" /\ QuoteHMACSecret c <> "" /\ WebhookHMACSecret c <> "" /\ APIKeyPepper c <> "" /\
    String.length (ReferenceEncKey c) = 32%nat.
Proof.
  unfold validate.
  destruct (String.eqb_spec (DBURL c) ""), (String.eqb_spec (QuoteHMACSecret c) ""),
    (String.eqb_spec (WebhookHMACSecret c) ""), (String.eqb_spec (APIKeyPepper c) ""),
    (Nat.eqb_spec (String.length (ReferenceEncKey c)) 32); cbn; naive_solver.
Qed.

Lemma decode_key raw k :
  String.length k = 32%nat -> decodeRefEncKey raw = Ok k <-> hex_decode raw = Ok k.
Proof.
  intros Hk. unfold decodeRefEncKey. destruct (String.eqb_spec raw "") as [->|]; cbn.
  - split; intros [= <-]; done.
  - destruct (hex_decode raw); naive_solver.
Qed.

(** [Load] accepts an environment exactly when the database URL and the three
    secrets are non-empty and the reference key is the hex of 32 bytes; every
    other variable falls back to its default, and the durations and the spread it
    yields fit their types. *)
Theorem Load_accepts env c :
  (Load env = Ok c <-> loaded env c) /\
  (Load env = Ok c -> is_int64 (QuoteTTL c) = true /\ is_int64 (HTTPReadTimeout c) = true /\
     is_int64 (HTTPWriteTimeout c) = true /\ - 2 ^ 31 <= QuoteSpreadBps c < 2 ^ 31).
Proof.
  unfold Load. split.
  - split.
    + destruct (decodeRefEncKey _) as [k|e] eqn:E; [|done]. cbv zeta. destruct (validate _) as [[]|] eqn:Hv; [|done].
      intros [= <-]. apply validate_ok in Hv as (H1 & H2 & H3 & H4 & H5).
      split; [done| |done|done|done]. by apply decode_key.
    + intros [Hc Hk Hl Hd Hs]. rewrite (proj2 (decode_key _ _ Hl) Hk). cbv zeta.
      assert (Hv : validate c = Ok tt) by (apply validate_ok; naive_solver). rewrite <- Hc, Hv. done.
  - destruct (decodeRefEncKey _) as [k|e]; [|done]. cbv zeta. destruct (validate _); [|done]. intros [= <-]. cbn.
    split_and!; try (apply getDuration_int64; reflexivity); apply getInt32_range; lia.
Qed.
