(* ===== verification/BankServer.v ===== *)
(** * The bank as a server ([cmd/mockidrbank/main.go])

    Routing, and requests that overlap: [handlePayouts] takes the mutex once to
    look the key up and once to store the reply, so another request can run in
    between.  Alone, a request is the atomic handler of MockBank.v. *)

From S2P Require Import Prelude GoStr MockBank Config.

(** ** Routing *)

(** [s.write]: the body is JSON. *)
Definition bank_write (code : Z) (b : submitResponse) : Z * http_body := (code, BodyJSON b).

(** The mux of [newServer]: two exact paths, any method. *)
Definition bank_ServeHTTP (s : server) (fresh path : string) (r : payout_http_request) : server * (Z * http_body) :=
  if String.eqb path "/payouts" then handlePayouts s fresh r
  else if String.eqb path "/healthz" then (s, (200, BodyText ("ok" +:+ newline)))
  else (s, MockBank.http_Error 404 "404 page not found").

(** The address the bank listens on: an empty variable counts. *)
Definition bank_addr (env : Environ) : string := getEnv env "MOCK_BANK_ADDR" ":9100".

(** ** Overlapping requests *)

(** Where a request is: before the lookup, past it without a hit, or answered. *)
Inductive request_pc := QLookup | QDecide | QAnswered (resp : Z * http_body).

Record in_flight := mkInFlight { fl_request : payout_http_request; fl_fresh : string; fl_pc : request_pc }.

(** From the method check to the end of the lookup. *)
Definition request_lookup (s : server) (r : payout_http_request) : server * request_pc :=
  if negb (String.eqb (hr_method r) "POST") then (s, QAnswered (MockBank.http_Error 405 "method not allowed"))
  else if String.eqb (hr_idempotency_key r) "" then
    (s, QAnswered (MockBank.http_Error 400 "X-Idempotency-Key header required"))
  else match bank_lookup s (hr_idempotency_key r) with
  | Some cached =>
    (bank_log s (CachedReply (hr_idempotency_key r) (statusCode cached)),
     QAnswered (bank_write (statusCode cached) (body cached)))
  | None => (s, QDecide)
  end.

(** Reading the body, deciding, storing and answering. *)
Definition request_decide (s : server) (fresh : string) (r : payout_http_request) : server * request_pc :=
  let continue_with req :=
    let '(code, payload) := bank_decide fresh (hr_fail r) req in
    (bank_log (bank_store s (hr_idempotency_key r) (mkCachedResponse code payload))
       (PayoutDecision (hr_idempotency_key r) req code), QAnswered (bank_write code payload)) in
  match hr_body r with
  | ReqUnreadable => (s, QAnswered (MockBank.http_Error 400 "read body"))
  | ReqMalformed => (s, QAnswered (MockBank.http_Error 400 "decode body"))
  | ReqEmpty => continue_with zeroRequest
  | ReqJSON req => continue_with req
  end.

(** One step of the bank: some request in flight moves on. *)
Inductive bank_step : server * list in_flight -> server * list in_flight -> Prop :=
  | step_lookup s s' pc pre post f : fl_pc f = QLookup -> request_lookup s (fl_request f) = (s', pc) ->
      bank_step (s, pre ++ f :: post) (s', pre ++ mkInFlight (fl_request f) (fl_fresh f) pc :: post)
  | step_decide s s' pc pre post f : fl_pc f = QDecide -> request_decide s (fl_fresh f) (fl_request f) = (s', pc) ->
      bank_step (s, pre ++ f :: post) (s', pre ++ mkInFlight (fl_request f) (fl_fresh f) pc :: post).

(** A request that runs without another in between is the atomic handler. *)
Theorem request_alone s fresh r :
  handlePayouts s fresh r =
    let '(s1, pc) := request_lookup s r in
    match pc with
    | QAnswered resp => (s1, resp)
    | _ => match request_decide s1 fresh r with (s2, QAnswered resp) => (s2, resp) | (s2, _) => (s2, MockBank.http_Error 500 "") end
    end.
Proof.
  unfold handlePayouts, request_lookup, request_decide, bank_write. destruct (negb _); [done|]. destruct (String.eqb _ ""); [done|].
  destruct (bank_lookup s _); [done|]. destruct (hr_body r); try done; by destruct (bank_decide _ _ _).
Qed.

(** Two requests under one key that overlap are both paid: both lookups miss, both
    decide, and the answers carry different references, although the key is
    documented to deduplicate.  The log has two disbursements for the key. *)
Theorem overlapping_requests_pay_twice s r req fresh fresh' :
  hr_method r = "POST" -> hr_idempotency_key r <> "" -> hr_body r = ReqJSON req -> hr_fail r = "" ->
  cache s !! hr_idempotency_key r = None -> fresh <> fresh' ->
  exists s' resp resp',
    rtc bank_step (s, [mkInFlight r fresh QLookup; mkInFlight r fresh' QLookup])
                  (s', [mkInFlight r fresh (QAnswered resp); mkInFlight r fresh' (QAnswered resp')]) /\
    resp <> resp' /\ disbursed s' = disbursed s ++ [(hr_idempotency_key r, req); (hr_idempotency_key r, req)].
Proof.
  intros Hm Hk Hb Hf Hc Hfr.
  assert (Hl : forall s0, cache s0 !! hr_idempotency_key r = None -> request_lookup s0 r = (s0, QDecide)).
  { intros s0 H0. unfold request_lookup, bank_lookup. by rewrite Hm, String.eqb_refl, (proj2 (String.eqb_neq _ _) Hk), H0. }
  set (reply f := mkSubmitResponse ("MIDR-" +:+ f) "succeeded" ("paid " +:+ FormatInt (req_amount_idr req) +:+ " IDR to " +:+ req_account_number req)).
  set (after s0 f := bank_log (bank_store s0 (hr_idempotency_key r) (mkCachedResponse 200 (reply f)))
                       (PayoutDecision (hr_idempotency_key r) req 200)).
  assert (Hd : forall s0 f, request_decide s0 f r = (after s0 f, QAnswered (bank_write 200 (reply f)))).
  { intros s0 f. unfold request_decide, bank_decide. by rewrite Hb, Hf. }
  exists (after (after s fresh) fresh'), (bank_write 200 (reply fresh)), (bank_write 200 (reply fresh')). split_and!.
  - eapply rtc_l; [apply (step_lookup s s QDecide [] [mkInFlight r fresh' QLookup]); [done|by apply Hl]|].
    eapply rtc_l; [apply (step_lookup s s QDecide [mkInFlight r fresh QDecide] []); [done|by apply Hl]|].
    eapply rtc_l; [apply (step_decide s (after s fresh) (QAnswered (bank_write 200 (reply fresh))) [] [mkInFlight r fresh' QDecide] (mkInFlight r fresh QDecide)); [done|apply Hd]|].
    eapply rtc_once. cbn [fl_request fl_fresh app].
    eapply (step_decide _ _ _ [mkInFlight r fresh (QAnswered (bank_write 200 (reply fresh)))] [] (mkInFlight r fresh' QDecide)); [done|apply Hd].
  - intros [= E]. by apply Hfr.
  - assert (Ha : forall s0 f, disbursed (after s0 f) = disbursed s0 ++ [(hr_idempotency_key r, req)])
      by (intros s0 f; unfold after; by erewrite disbursed_log_app by reflexivity).
    by rewrite !Ha, <- app_assoc.
Qed.

(** ** Witness *)

Definition pay_request : payout_http_request :=
  mkPayoutHttpRequest "POST" "key-1" "" (ReqJSON (mkSubmitRequest "i" "p" 1500000 "014" "123" "Budi" "")).

Lemma overlapping_requests_pay_twice_witness :
  exists s' resp resp',
    rtc bank_step (newServer, [mkInFlight pay_request "a" QLookup; mkInFlight pay_request "b" QLookup])
                  (s', [mkInFlight pay_request "a" (QAnswered resp); mkInFlight pay_request "b" (QAnswered resp')]) /\
    resp <> resp' /\ (fst <$> disbursed s') = ["key-1"; "key-1"].
Proof.
  destruct (overlapping_requests_pay_twice newServer pay_request (mkSubmitRequest "i" "p" 1500000 "014" "123" "Budi" "") "a" "b")
    as (s' & resp & resp' & Hs & Hne & Hd); [reflexivity|discriminate|reflexivity|reflexivity|reflexivity|discriminate|].
  exists s', resp, resp'. split; [exact Hs|]. split; [exact Hne|]. rewrite Hd. reflexivity.
Defined.
