(* ===== verification/Serving.v ===== *)
(** * Serving and shutting down ([cmd/selatpayd/api.go], [cmd/selatpayd/dashboard.go], [cmd/mockidrbank/main.go])

    The three HTTP servers of the repository share one shape: a goroutine serves
    and reports on a channel of capacity one, the caller selects between the end of
    its context and that report, and on the former shuts the server down and waits
    for the report.  The deferred calls that close the database pool and the Redis
    client once the caller has returned are not part of this. *)

From S2P Require Import Prelude.

Definition ErrServerClosed : err := ErrSentinel "http: Server closed".

(** Where the caller is; [MReturned] carries what it returns. *)
Inductive main_pc := MSelect | MShutdown | MReceive | MReturned (r : option err).

(** [sv_serving]: the goroutine is inside [ListenAndServe]; [sv_chan]: the report
    in the channel; [sv_done]: the context has ended; [sv_closed]: [Shutdown] has
    been called. *)
Record Serving := mkServing {
  sv_serving : bool; sv_chan : option (option err); sv_done : bool; sv_closed : bool; sv_main : main_pc
}.

Definition serving_init : Serving := mkServing true None false false MSelect.

(** What the goroutine reports of the error [ListenAndServe] returned. *)
Definition report (e : err) : option err := if errors_is ErrServerClosed e then None else Some e.

Section serving.
(** Whether an error of [Shutdown] is returned (the API) or dropped (the dashboard
    and the bank). *)
Context (strict : bool).

(** Steps of the program.  [ListenAndServe] returns [ErrServerClosed] once the
    server is shut down; [Shutdown] returns nil, or an error when the requests in
    flight outlast its deadline. *)
Inductive serving_step : Serving -> Serving -> Prop :=
  | g_closed c d m : serving_step (mkServing true c d true m) (mkServing false (Some (report ErrServerClosed)) d true m)
  | m_done v c b : serving_step (mkServing v c true b MSelect) (mkServing v c true true MShutdown)
  | m_report v r d b : serving_step (mkServing v (Some r) d b MSelect) (mkServing v None d b (MReturned r))
  | m_shutdown v c d b : serving_step (mkServing v c d b MShutdown) (mkServing v c d b MReceive)
  | m_shutdown_err v c d b e :
      serving_step (mkServing v c d b MShutdown) (mkServing v c d b (if strict then MReturned (Some e) else MReceive))
  | m_receive v r d b : serving_step (mkServing v (Some r) d b MReceive) (mkServing v None d b (MReturned r)).

(** What happens to it: the context ends, or serving fails. *)
Inductive serving_event : Serving -> Serving -> Prop :=
  | e_done v c d b m : serving_event (mkServing v c d b m) (mkServing v c true b m)
  | e_failed c d b m e : errors_is ErrServerClosed e = false ->
      serving_event (mkServing true c d b m) (mkServing false (Some (report e)) d b m).

Definition serving_run : Serving -> Serving -> Prop := rtc (fun x y => serving_step x y \/ serving_event x y).

(** The goroutine reports once, and the caller takes the report once. *)
Record serving_ok (x : Serving) : Prop := {
  so_chan : sv_serving x = true -> sv_chan x = None;
  so_report : sv_serving x = false -> sv_chan x = None -> exists r, sv_main x = MReturned r;
  so_closed : match sv_main x with MShutdown | MReceive => sv_closed x = true | _ => True end
}.

Lemma serving_ok_run x : serving_run serving_init x -> serving_ok x.
Proof.
  intros Hr. assert (H0 : serving_ok serving_init) by by split. revert H0. induction Hr as [|x y z Hs _ IH]; [done|].
  intros [Hc Hrep Hcl]. apply IH. clear IH.
  destruct Hs as [Hs|Hs]; destruct Hs; cbn in *; (split; cbn; [naive_solver|intros Hv Hn|]); try done; eauto.
  all: try (destruct (Hrep Hv Hn); done). all: destruct strict; eauto; by destruct (Hrep Hv Hn).
Qed.

(** Steps left until the caller returns. *)
Definition serving_measure (x : Serving) : nat :=
  (if sv_serving x then 1 else 0) + match sv_main x with MSelect => 3 | MShutdown => 2 | MReceive => 1 | MReturned _ => 0 end.

Lemma serving_step_measure x y : serving_step x y -> (serving_measure y < serving_measure x)%nat.
Proof. intros Hs. destruct Hs; unfold serving_measure; cbn; try lia. destruct strict; lia. Qed.

Lemma serving_steps_measure n x y : nsteps serving_step n x y -> (n + serving_measure y <= serving_measure x)%nat.
Proof. induction 1 as [|n x y z Hs _ IH]; [lia|]. apply serving_step_measure in Hs. lia. Qed.

Lemma serving_progress x :
  serving_ok x -> sv_done x = true -> (exists r, sv_main x = MReturned r) \/ exists y, serving_step x y.
Proof.
  intros [Hc Hrep Hcl] Hd. destruct x as [v c d b m]. cbn in *. subst d. destruct m as [| | |r].
  - right. eexists. apply m_done.
  - right. eexists. apply m_shutdown.
  - right. subst b. destruct v; [rewrite Hc by done; eexists; apply g_closed|].
    destruct c as [r|]; [eexists; apply m_receive|]. by destruct (Hrep eq_refl eq_refl).
  - left. eauto.
Qed.

(** C34: Shutting down always ends: once its context has ended, a server of the
    repository, wherever it is, returns after at most four of its own steps,
    whatever it was doing and whether or not serving failed meanwhile; it is never
    stuck waiting for the report of its goroutine. *)
Theorem serving_stops x :
  serving_run serving_init x -> sv_done x = true ->
  (exists y r, rtc serving_step x y /\ sv_main y = MReturned r) /\
  (forall y, rtc serving_step x y -> (exists r, sv_main y = MReturned r) \/ exists z, serving_step y z) /\
  (forall n y, nsteps serving_step n x y -> (n <= 4)%nat).
Proof.
  intros Hr Hd.
  assert (Hok : forall y, rtc serving_step x y -> serving_ok y /\ sv_done y = true).
  { intros y Hy. split.
    - apply serving_ok_run. etrans; [exact Hr|]. eapply rtc_subrel; [|exact Hy]. intros a b Hs. by left.
    - revert Hd. clear Hr. induction Hy as [|a b c Hs _ IH]; [done|]. intros Ha. apply IH. by destruct Hs. }
  split_and!.
  - clear Hr. assert (Hn : exists n, (serving_measure x <= n)%nat) by by exists (serving_measure x). destruct Hn as [n Hn].
    revert x Hd Hok Hn. induction n as [|n IH]; intros x Hd Hok Hn.
    all: destruct (serving_progress x) as [[r Hm]|[y Hy]]; [apply Hok; reflexivity|done|exists x, r; by split; [apply rtc_refl|]|].
    all: pose proof (serving_step_measure x y Hy); try lia.
    destruct (IH y) as (z & r & Hz & Hm); [by apply Hok, rtc_once| |lia|].
    + intros z Hz. apply Hok. by eapply rtc_l.
    + exists z, r. split; [by eapply rtc_l|done].
  - intros y Hy. by apply serving_progress; apply Hok.
  - intros n y Hn. apply serving_steps_measure in Hn.
    unfold serving_measure in Hn. destruct (sv_serving x), (sv_main x), (sv_serving y), (sv_main y); lia.
Qed.
End serving.

(** ** The three servers *)

(** [runAPI] returns an error of [Shutdown]; [runDashboard] and the bank's [main]
    drop it and wait for the report. *)
Definition api_serving : Serving -> Serving -> Prop := serving_step true.
Definition dashboard_serving : Serving -> Serving -> Prop := serving_step false.
Definition bank_serving : Serving -> Serving -> Prop := serving_step false.

(** ** Exit status *)

(** [main] of the bank. *)
Definition bank_exit (r : option err) : Z := match r with None => 0 | Some _ => 1 end.

(** A server that is asked to stop while it serves, with no request outlasting the
    deadline, returns no error. *)
Lemma clean_stop strict : exists x, rtc (serving_step strict) (mkServing true None true false MSelect) x /\ sv_main x = MReturned None.
Proof.
  eexists. split; [|shelve].
  eapply rtc_l; [apply m_done|]. eapply rtc_l; [apply m_shutdown|]. eapply rtc_l; [apply g_closed|]. eapply rtc_l; [apply m_receive|].
  apply rtc_refl.
  Unshelve. reflexivity.
Qed.

Lemma serving_stops_witness : exists y r, rtc (serving_step true) (mkServing true None true false MSelect) y /\ sv_main y = MReturned r.
Proof.
  apply (serving_stops true (mkServing true None true false MSelect)); [|reflexivity].
  apply rtc_once. right. apply e_done.
Defined.
