(* ===== verification/Runtime.v ===== *)
(** * The runtime around the components ([internal/db/uuid.go], [internal/db/pool.go], [internal/obs], [internal/chain/client.go], [internal/solanapay/qr.go])

    Conversions of UUIDs to and from the driver, the connection pool, the logger
    and the tracer of a process, the RPC client wrapper and the QR code.  The
    libraries behind them are parameters. *)

From S2P Require Import Prelude GoStr Models World GoUrl SplParser Watcher.
From Stdlib Require Import Ascii String.

(** ** internal/db/uuid.go *)

(** [pgtype.UUID]. *)
Record pgtype_UUID := mkPgUUID { pg_Bytes : uuid; pg_Valid : bool }.

Definition uuid_Nil : uuid := 0%N.

Definition PgUUID (id : uuid) : pgtype_UUID := mkPgUUID id true.
Definition PgUUIDPtr (id : option uuid) : pgtype_UUID :=
  match id with None => mkPgUUID uuid_Nil false | Some id => mkPgUUID id true end.
Definition FromPgUUID (p : pgtype_UUID) : uuid := if negb (pg_Valid p) then uuid_Nil else pg_Bytes p.
Definition FromPgUUIDPtr (p : pgtype_UUID) : option uuid := if negb (pg_Valid p) then None else Some (pg_Bytes p).

(** A nullable column holds an [option], as the rows of Models.v have it: going to
    the driver and back is the identity, and only the pointer conversion keeps a
    null apart from the nil UUID. *)
Theorem uuid_column id (o : option uuid) :
  FromPgUUID (PgUUID id) = id /\ FromPgUUIDPtr (PgUUIDPtr o) = o /\
  FromPgUUIDPtr (PgUUID id) = Some id /\ FromPgUUID (PgUUIDPtr o) = default uuid_Nil o.
Proof. by destruct o. Qed.

(** ** internal/db/pool.go *)

Definition minute_ns : Z := 60 * ns_per_s.

(** The settings of [pgxpool.Config] the code sets, and the rest of the parsed text. *)
Record PoolConfig := mkPoolConfig {
  pc_dsn : string; MaxConns : Z; MinConns : Z; MaxConnLifetime : Z; MaxConnIdleTime : Z; HealthCheckPeriod : Z
}.

(** What the code calls of pgxpool: a pool is its configuration. *)
Record PgxPool := mkPgxPool {
  ParseConfig : string -> res PoolConfig; NewWithConfig : PoolConfig -> res unit; Ping : PoolConfig -> res unit
}.

Definition pool_settings (c : PoolConfig) : PoolConfig :=
  mkPoolConfig (pc_dsn c) 16 2 (60 * minute_ns) (10 * minute_ns) (30 * ns_per_s).

(** The pool, or an error and whether a pool that was made is closed again. *)
Definition open_pool (pgx : PgxPool) (dsn : string) : res PoolConfig * bool :=
  match ParseConfig pgx dsn with
  | Err e => (Err (ErrWrap "parse dsn" e), false)
  | Ok cfg =>
    let cfg := pool_settings cfg in
    match NewWithConfig pgx cfg with
    | Err e => (Err (ErrWrap "new pool" e), false)
    | Ok _ =>
      match Ping pgx cfg with
      | Err e => (Err (ErrWrap "ping" e), true)
      | Ok _ => (Ok cfg, false)
      end
    end
  end.

Definition OpenPool (pgx : PgxPool) (dsn : string) : res PoolConfig := (open_pool pgx dsn).1.

(** A pool that is returned answered a ping and has the limits of the code; one that
    did not answer is closed. *)
Lemma OpenPool_spec pgx dsn :
  match OpenPool pgx dsn with
  | Ok c => MaxConns c = 16 /\ MinConns c = 2 /\ NewWithConfig pgx c = Ok tt /\ Ping pgx c = Ok tt
  | Err e => (exists c, NewWithConfig pgx (pool_settings c) = Ok tt /\ ParseConfig pgx dsn = Ok c) <-> (open_pool pgx dsn).2 = true
  end.
Proof.
  unfold OpenPool, open_pool. destruct (ParseConfig pgx dsn) as [c|e]; [|split; [by intros (? & _ & ?)|done]].
  destruct (NewWithConfig pgx (pool_settings c)) as [[]|e] eqn:En; [|cbn; split; [intros (c' & Hn & [= <-]); congruence|done]].
  destruct (Ping pgx (pool_settings c)) as [[]|e] eqn:Ep; [done|]. cbn. split; [done|]. eauto.
Qed.

(** ** internal/obs *)

(** The levels of [log/slog]. *)
Definition LevelDebug : Z := -4.
Definition LevelInfo : Z := 0.
Definition LevelWarn : Z := 4.
Definition LevelError : Z := 8.

Definition parseLevel (s : string) : Z :=
  let s := lower_text s in
  if String.eqb s "debug" then LevelDebug
  else if String.eqb s "warn" || String.eqb s "warning" then LevelWarn
  else if String.eqb s "error" then LevelError
  else LevelInfo.

(** A logger: the least level it writes, whether it adds the source, and whether it
    writes JSON or text.  No letter of [local] folds to one outside ASCII. *)
Record Logger := mkLogger { lg_level : Z; lg_source : bool; lg_json : bool }.

Definition NewLogger (level env : string) : Logger :=
  let lvl := parseLevel level in
  mkLogger lvl (lvl <=? LevelDebug) (negb (String.eqb (ToLower env) "local")).

(** What is installed globally: the service, the environment and the endpoint, with
    batches of two seconds and every span sampled. *)
Record TracerProvider := mkTracer { tr_service : string; tr_env : string; tr_endpoint : string; tr_batch : Z; tr_always : bool }.

(** The libraries: merging the resource and connecting the exporter. *)
Record Otel := mkOtel { otel_resource : string -> string -> res unit; otlp_exporter : string -> res unit }.

(** [None]: tracing is off. *)
Definition SetupTracing (lib : Otel) (serviceName endpoint env : string) : res (option TracerProvider) :=
  if bool_decide (endpoint = "") then Ok None
  else match otel_resource lib serviceName env with
  | Err e => Err (ErrWrap "otel resource" e)
  | Ok _ =>
    match otlp_exporter lib endpoint with
    | Err e => Err (ErrWrap "otlp exporter" e)
    | Ok _ => Ok (Some (mkTracer serviceName env endpoint (2 * ns_per_s) true))
    end
  end.

(** ** internal/chain/client.go *)

Record Client := mkClient { Client_RPC : RPCClient; wsURL : string }.

(** Making a client dials nothing. *)
Definition NewClient (rpc_New : string -> RPCClient) (rpcURL wsURL : string) : Client := mkClient (rpc_New rpcURL) wsURL.

Definition DialWS {ws : Type} (ws_Connect : string -> res ws) (c : Client) : res ws :=
  match ws_Connect (wsURL c) with
  | Ok wc => Ok wc
  | Err e => Err (ErrWrap ("chain: ws connect " +:+ wsURL c) e)
  end.

(** ** internal/solanapay/qr.go *)

(** The library encodes the text at a level of error correction and a size. *)
Inductive RecoveryLevel := Low | Medium | High | Highest.

Definition QRPNG (qrcode_Encode : string -> RecoveryLevel -> Z -> res string) (url : string) (size : Z) : res string :=
  if bool_decide (url = "") then Err (ErrMsg "solanapay: empty URL")
  else if size <=? 0 then Err (ErrMsg ("solanapay: qr size must be positive, got " +:+ FormatInt size))
  else match qrcode_Encode url High size with
  | Ok png => Ok png
  | Err e => Err (ErrWrap "solanapay: qr encode" e)
  end.

(** An image is only returned for a text and a positive size, at level H. *)
Lemma QRPNG_ok enc url size png :
  QRPNG enc url size = Ok png <-> url <> "" /\ 0 < size /\ enc url High size = Ok png.
Proof.
  unfold QRPNG. case_bool_decide; [naive_solver|]. destruct (Z.leb_spec size 0); [naive_solver lia|].
  destruct (enc url High size); naive_solver.
Qed.

Example levels : parseLevel <$> ["DEBUG"; "Warning"; "error"; "verbose"; ""] = [LevelDebug; LevelWarn; LevelError; LevelInfo; LevelInfo].
Proof. reflexivity. Qed.
