(* ===== verification/Seed.v ===== *)
(** * Provisioning a merchant ([scripts/seed])

    The tool inserts a merchant with its webhook configuration and an API key
    derived from the pepper, in one transaction, and prints the secrets.  The
    secret it prints is the one the API server accepts. *)

From S2P Require Import Prelude GoStr Sha256 MockBank Models World GoJson Queries SplParser Http Reference Auth.

(** What the tool prints. *)
Record seed_output := mkSeedOutput {
  out_merchant_id : string; out_merchant_name : string; out_key_id : string; out_raw_secret_hex : string;
  out_sign_secret_hex : string; out_webhook_url : string; out_webhook_secret_hex : string
}.

Section seed.
Context `{Env} `{Keys}.

(** [INSERT INTO merchants (name, webhook_url, webhook_secret) ... RETURNING id]. *)
Definition insert_merchant (name url secret : string) : M uuid :=
  stmt (fun now rng d =>
    if negb (text_ok name && text_ok url) then (pg_err "22021", 0%N, d) else
    if pk_taken m_id (gen_uuid rng) (merchants d) then (pg_err "23505", 1%N, d) else
    let m := mkMerchant (gen_uuid rng) name now None None None (Some url) (Some secret) in
    (Ok (m_id m), 1%N, set_merchants d (merchants d ++ [m]))).

Definition generateSecretHex : M (string * string) :=
  buf ← draw (fun n => random_bytes n 32);
  mret (buf, hex buf).

Definition seed_deriveSecret (pepper raw : string) : string := hmac_sha256 pepper raw.

(** [run] after the flags: [connect] is the error of opening the pool, if any. *)
Definition seed_run (connect : option err) (pepper merchantName webhookURL keyID : string) : M seed_output :=
  if String.eqb pepper "" then throw (ErrMsg "--pepper is required (or SELATPAY_API_KEY_PEPPER env)")
  else
    '(rawSecret, secretHex) ← map_err (ErrWrap "rand secret") generateSecretHex;
    let derived := seed_deriveSecret pepper rawSecret in
    '(webhookSecret, _) ← map_err (ErrWrap "rand webhook secret") generateSecretHex;
    match connect with
    | Some e => throw (ErrWrap "pgx connect" e)
    | None =>
      merchantID ← with_tx "begin tx" "commit" (
        merchantID ← map_err (ErrWrap "insert merchant") (insert_merchant merchantName webhookURL webhookSecret);
        _ ← map_err (ErrWrap "insert api_key") (CreateAPIKey merchantID keyID derived);
        mret merchantID);
      mret (mkSeedOutput (uuid_string merchantID) merchantName keyID secretHex (hex derived) webhookURL (hex webhookSecret))
    end.

(** The key a successful run leaves. *)
Lemma seed_key connect pepper name url keyID w out w' :
  seed_run connect pepper name url keyID w = (Ok out, w') ->
  exists k, active_key (w_db w') keyID = Some k /\ out_merchant_id out = uuid_string (ak_merchant_id k) /\
    out_sign_secret_hex out = hex (ak_secret_hash k) /\ out_key_id out = keyID /\
    exists raw, out_raw_secret_hex out = hex raw /\ ak_secret_hash k = DeriveSecret pepper raw.
Proof.
  unfold seed_run. destruct (String.eqb pepper ""); [done|].
  intros ([raw rawHex] & w1 & H1%map_err_Ok & Hrun)%bind_Ok.
  apply bind_Ok in Hrun as ([wsec wsecHex] & w2 & H2%map_err_Ok & Hrun).
  destruct connect as [e|]; [done|]. apply bind_Ok in Hrun as (m & w3 & Htx & Hret). minv.
  apply with_tx_Ok in Htx as (w4 & w5 & E4 & Hbody & ->).
  apply bind_Ok in Hbody as (m' & w6 & Hm%map_err_Ok & Hbody). minv.
  match goal with E : CreateAPIKey _ _ _ _ = (Ok ?x, _) |- _ => rename x into key; rename E into Hk end.
  apply stmt_Ok in Hm as (Em & Edm & _). apply stmt_Ok in Hk as (Ek & Edk & _).
  cbn in Em, Edm. destruct (text_ok name && text_ok url); [|done]. cbn [negb] in Em, Edm. destruct (pk_taken m_id _ _) eqn:Hpm; [done|]. cbn in Em, Edm. injection Em as Em.
  cbn in Ek, Edk. destruct (text_ok keyID) eqn:Htext; [|done]. cbn [negb] in Ek, Edk. destruct (find_row _ (api_keys (w_db w6))) as [|] eqn:Hfk; [done|].
  destruct (find_row (by_id m_id _) (merchants (w_db w6))) as [mer|] eqn:Hfm; [|done].
  destruct (pk_taken ak_id _ _); [done|]. cbn in Ek, Edk. injection Ek as <-.
  exists (mkApiKey (gen_uuid (w_rng w6)) m' keyID (seed_deriveSecret pepper raw) (w_now w6) None).
  split_and!; [|done|done|done|].
  - rewrite Edk. unfold active_key. rewrite Htext. cbn [negb api_keys merchants set_api_keys].
    rewrite find_row_app_None.
    + cbn. rewrite String.eqb_refl. cbn. by rewrite Hfm.
    + destruct (find_row _ _) as [k'|] eqn:E in |- *; [|done]. apply find_row_Some in E as [Hin [Hid _]%andb_true_iff].
      by rewrite (find_row_None _ _ _ Hfk Hin) in Hid.
  - exists raw. split; [|done]. unfold generateSecretHex in H1. by minv.
Qed.

(** What the tool prints works: after a successful run, a request signed with
    the printed signing secret under the printed key id, at a clock within the
    allowed skew, reaches the handler behind the authentication middleware as the
    printed merchant; and the signing secret is the HMAC of the printed raw secret
    under the pepper, as the key store derives it. *)
Theorem seeded_key_authenticates connect pepper name url keyID w out w' :
  seed_run connect pepper name url keyID w = (Ok out, w') -> keyID <> "" -> w_faults w' = [] ->
  exists secret raw m, hex_decode (out_sign_secret_hex out) = Ok secret /\
    hex_decode (out_raw_secret_hex out) = Ok raw /\ secret = DeriveSecret pepper raw /\
    out_merchant_id out = uuid_string m /\
    forall next method path secs body, is_int64 secs = true -> client_skew (w_now w') secs <= MaxClockSkew ->
      let r := client_request (out_key_id out) secret method path secs body in
      Middleware NewPGKeyStore next r w' = next (with_merchant r body m keyID) w'.
Proof.
  intros (k & Hk & Hm & Hs & Hid & raw & Hraw & Hd)%seed_key Hne Hf.
  exists (ak_secret_hash k), raw, (ak_merchant_id k). rewrite Hs, Hraw, !hex_decode_hex, Hid. split_and!; [done..|].
  intros next method path secs body Hsecs Hskew. by apply client_accepted.
Qed.
End seed.

(** ** Witness *)

Section seed_example.
#[local] Existing Instance example_env.
#[local] Existing Instance example_keys.

Definition seed_world : World := world_at (1700000000 * ns_per_s) empty_db.
Definition seeded : res seed_output * World :=
  seed_run None "pepper" "Demo Merchant" "http://localhost:9999/webhook" "demo-key-001" seed_world.

Definition seeded_output : seed_output :=
  match seeded.1 with Ok out => out | Err _ => mkSeedOutput "" "" "" "" "" "" "" end.

Lemma seeded_ok : seeded = (Ok seeded_output, seeded.2).
Proof. vm_compute. reflexivity. Qed.

Lemma seeded_key_authenticates_witness :
  exists secret m, Middleware NewPGKeyStore whoami (client_request "demo-key-001" secret "GET" "/healthz" 1700000010 "") seeded.2 =
    (Ok (mkResponse 200 ∅ (Some (uuid_string m))), seeded.2).
Proof.
  destruct (seeded_key_authenticates None "pepper" "Demo Merchant" "http://localhost:9999/webhook" "demo-key-001" seed_world
              seeded_output seeded.2) as (secret & raw & m & _ & _ & _ & _ & Hreq).
  - exact seeded_ok.
  - done.
  - vm_compute. reflexivity.
  - exists secret, m. change (out_key_id seeded_output) with "demo-key-001" in Hreq.
    rewrite Hreq; [reflexivity|reflexivity|vm_compute; discriminate].
Defined.
End seed_example.
