(* ===== verification/Processes.v ===== *)
(** * The long-running processes

    The loops that decide when the operations of the other files run: the saga
    runner's [Run], the watcher's [Run] with its four goroutines, and the outbox
    dispatcher's [Run], which first takes the advisory lock of its topic on a
    connection it keeps.  Each is a program counter and a step relation; a
    deployment is any number of them over one database server, with contexts
    cancelled, connections broken and requests served in between.  Its executions
    are executions of [System.system_step], and a topic never has two owners. *)

From S2P Require Import Prelude GoStr Sha256 MockBank Models World GoJson Queries Ledger Backoff Payout Outbox Saga SagaSteps Settlement HappyPath Scenarios Quoter SplParser Watcher Http Reference Idempotency IdemCache Auth Api ApiRouter System.

(** ** Advisory locks of the server

    Session-level locks: exclusive between sessions, counted within one, released
    when the session ends. *)

Record PG := mkPG { pg_live : gset N; pg_locks : gmap Z (N * nat) }.

Definition pg_try_advisory_lock (s : N) (k : Z) (p : PG) : bool * PG :=
  match pg_locks p !! k with
  | None => (true, mkPG (pg_live p) (<[k := (s, 1%nat)]> (pg_locks p)))
  | Some (s', n) =>
    if N.eqb s' s then (true, mkPG (pg_live p) (<[k := (s, S n)]> (pg_locks p))) else (false, p)
  end.

(** Unlocking what is not held is a warning. *)
Definition pg_advisory_unlock (s : N) (k : Z) (p : PG) : PG :=
  match pg_locks p !! k with
  | Some (s', n) =>
    if N.eqb s' s then
      mkPG (pg_live p) (if (n <=? 1)%nat then delete k (pg_locks p) else <[k := (s, (n - 1)%nat)]> (pg_locks p))
    else p
  | None => p
  end.

Definition end_session (s : N) (p : PG) : PG :=
  mkPG (pg_live p ∖ {[s]}) (filter (fun kv => kv.2.1 <> s) (pg_locks p)).

(** What processes share: the world, the server's sessions, and the connections
    checked out of pools. *)
Record Shared := mkShared { sh_world : World; sh_pg : PG; sh_busy : gset N }.

Definition set_world (x : Shared) (w : World) : Shared := mkShared w (sh_pg x) (sh_busy x).
Definition set_pg (x : Shared) (p : PG) : Shared := mkShared (sh_world x) p (sh_busy x).

(** [pool.Acquire]: an idle connection of the pool or a new one. *)
Definition acquire (s : N) (x : Shared) : Shared :=
  mkShared (sh_world x) (mkPG ({[s]} ∪ pg_live (sh_pg x)) (pg_locks (sh_pg x))) ({[s]} ∪ sh_busy x).

(** [conn.Release]: the session lives on in the pool, its locks with it. *)
Definition release (s : N) (x : Shared) : Shared := mkShared (sh_world x) (sh_pg x) (sh_busy x ∖ {[s]}).

(** ** dispatcher.go: [Run] *)

Inductive dispatcher_pc :=
  | DTop                        (** the head of [Run]'s loop *)
  | DAcquire                    (** the head of [acquireWithLock]'s loop *)
  | DTry (s : N)                (** a connection acquired, before [tryLock] *)
  | DSleep                      (** the topic is taken: waiting [LockRetryEvery] *)
  | DOwned (s : N)              (** the head of [runOwnedLoop]'s loop *)
  | DWait (s : N) (wait : Z)    (** between two passes *)
  | DRelease (s : N) (e : err)  (** [runOwnedLoop] has returned [e] *)
  | DStopped (e : err).         (** [Run] has returned [e] *)

Section dispatcher.
Context `{Env} (hashtext : string -> Z) (cfg : DispatcherConfig) (send : Sender).

Definition lock_key (topic : string) : Z := hashtext ("outbox.dispatcher." +:+ topic).

Definition tryLock (s : N) (p : PG) : bool * PG := pg_try_advisory_lock s (lock_key (dc_Topic cfg)) p.
Definition releaseLock (s : N) (p : PG) : PG := pg_advisory_unlock s (lock_key (dc_Topic cfg)) p.

(** How [Run] returns an error of [acquireWithLock]. *)
Definition acquire_failed (e : err) : err := if errors_is ErrCanceled e then e else ErrWrap "outbox: acquire lock" e.

(** After [releaseLock] and [conn.Release]. *)
Definition after_owned (e : err) : dispatcher_pc := if errors_is ErrCanceled e then DStopped e else DTop.

(** [done]: the context of the process is cancelled.  A [select] on it and a timer
    may take either branch once it is. *)
Inductive dispatcher_step (done : bool) (x : Shared) : dispatcher_pc -> dispatcher_pc -> Shared -> Prop :=
  | d_top_done : done = true -> dispatcher_step done x DTop (DStopped ErrCanceled) x
  | d_top : done = false -> dispatcher_step done x DTop DAcquire x
  | d_acquire_done : done = true -> dispatcher_step done x DAcquire (DStopped ErrCanceled) x
  | d_acquire_err e : dispatcher_step done x DAcquire (DStopped (acquire_failed e)) x
  | d_acquire s : s ∉ sh_busy x -> dispatcher_step done x DAcquire (DTry s) (acquire s x)
  | d_try_err s e p' :
      (** the query fails, before or after the server has run it *)
      (p' = sh_pg x \/ s ∈ pg_live (sh_pg x) /\ p' = (tryLock s (sh_pg x)).2) ->
      dispatcher_step done x (DTry s) (DStopped (acquire_failed e)) (release s (set_pg x p'))
  | d_try_ok s p' :
      s ∈ pg_live (sh_pg x) -> tryLock s (sh_pg x) = (true, p') ->
      dispatcher_step done x (DTry s) (DOwned s) (set_pg x p')
  | d_try_taken s p' :
      s ∈ pg_live (sh_pg x) -> tryLock s (sh_pg x) = (false, p') ->
      dispatcher_step done x (DTry s) DSleep (release s (set_pg x p'))
  | d_sleep_done : done = true -> dispatcher_step done x DSleep (DStopped ErrCanceled) x
  | d_sleep : dispatcher_step done x DSleep DAcquire x
  | d_owned_done s : done = true -> dispatcher_step done x (DOwned s) (DRelease s ErrCanceled) x
  | d_drain s b w' :
      s ∈ pg_live (sh_pg x) -> drainOnce cfg send (sh_world x) = (Ok b, w') ->
      dispatcher_step done x (DOwned s)
        (DWait s (if b then dc_PollInterval cfg else dc_IdleBackoff cfg)) (set_world x w')
  | d_drain_err s e w' :
      s ∈ pg_live (sh_pg x) -> drainOnce cfg send (sh_world x) = (Err e, w') ->
      dispatcher_step done x (DOwned s) (DRelease s e) (set_world x w')
  | d_drain_broken s :
      (** the connection is gone: [BeginTx] fails *)
      s ∉ pg_live (sh_pg x) ->
      dispatcher_step done x (DOwned s) (DRelease s (ErrWrap "begin claim tx" ErrConn)) x
  | d_wait_done s t : done = true -> dispatcher_step done x (DWait s t) (DRelease s ErrCanceled) x
  | d_wait s t : dispatcher_step done x (DWait s t) (DOwned s) x
  | d_release s e p' :
      (** a failing unlock is only logged *)
      (p' = sh_pg x \/ p' = releaseLock s (sh_pg x)) ->
      dispatcher_step done x (DRelease s e) (after_owned e) (release s (set_pg x p')).
End dispatcher.

(** ** runner.go: [Run] *)

Inductive runner_pc :=
  | RTop
  | RClaimed (run : Run)              (** [claim] has returned: the lease is running *)
  | RFailing (run : Run) (e : err)    (** [executeStep] has returned [e] *)
  | RWait (wait : Z)
  | RStopped.

(** [Run] with its [Tick] taken apart: other processes run between the claim, the
    transaction of the step and the bookkeeping of a failure.  A failed tick is
    logged and did no work. *)
Inductive runner_step `{Env} (r : Runner) (done : bool) (w : World) : runner_pc -> runner_pc -> World -> Prop :=
  | r_done : done = true -> runner_step r done w RTop RStopped w
  | r_claim run w' : done = false -> claim r w = (Ok run, w') -> runner_step r done w RTop (RClaimed run) w'
  | r_claim_err e w' :
      done = false -> claim r w = (Err e, w') -> runner_step r done w RTop (RWait (Saga.IdleBackoff (Saga.cfg r))) w'
  | r_unknown run w' :
      Registry_Get (registry r) (run_CurrentStep run) = None ->
      failRun (run_ID run) (ErrMsg ("unknown step " +:+ Quote_q (run_CurrentStep run))) w = (Ok tt, w') ->
      runner_step r done w (RClaimed run) (RWait (Saga.PollInterval (Saga.cfg r))) w'
  | r_execute run st w' :
      Registry_Get (registry r) (run_CurrentStep run) = Some st -> executeStep st run w = (Ok tt, w') ->
      runner_step r done w (RClaimed run) (RWait (Saga.PollInterval (Saga.cfg r))) w'
  | r_execute_err run st e w' :
      Registry_Get (registry r) (run_CurrentStep run) = Some st -> executeStep st run w = (Err e, w') ->
      runner_step r done w (RClaimed run) (RFailing run e) w'
  | r_failure run e w' :
      handleFailure r run e w = (Ok tt, w') ->
      runner_step r done w (RFailing run e) (RWait (Saga.PollInterval (Saga.cfg r))) w'
  | r_wait_done t : done = true -> runner_step r done w (RWait t) RStopped w
  | r_wait t : runner_step r done w (RWait t) RTop w.

(** ** watcher.go: [Run] and its loops *)

Inductive subscribe_pc :=
  | SNoDialer                   (** [dialWS == nil]: waits for the context *)
  | SDial (backoff : Z)         (** the head of [subscribeLoop]'s loop *)
  | SStream (backoff : Z)       (** inside [runSubscription]'s receive loop *)
  | SWait (backoff : Z)         (** the subscription is lost *)
  | SStopped.

(** The watcher with its reference map, shared by the goroutines, and where they
    are; [started] after the initial refresh. *)
Record watcher_pc := mkWatcherPc {
  wp_watcher : Watcher; wp_started : bool; wp_refresh : bool; wp_poll : bool; wp_promote : bool; wp_subscribe : subscribe_pc
}.

(** [NewWatcher] and the start of [Run]. *)
Definition watcher_boot (wt : Watcher) (dialer : bool) : watcher_pc :=
  mkWatcherPc wt false true true true (if dialer then SDial ns_per_s else SNoDialer).

(** A subscription that fails: [Canceled] ends the loop. *)
Definition subscription_lost (backoff : Z) (e : err) : subscribe_pc :=
  if errors_is ErrCanceled e then SStopped else SWait backoff.

Definition next_backoff (backoff : Z) : Z := if backoff <? 30 * ns_per_s then backoff * 2 else backoff.

Inductive subscribe_step `{Env} `{Solana} (wt : Watcher) (done : bool) (w : World)
    : subscribe_pc -> subscribe_pc -> World -> Prop :=
  | s_idle_done : done = true -> subscribe_step wt done w SNoDialer SStopped w
  | s_dial_done b : done = true -> subscribe_step wt done w (SDial b) SStopped w
  | s_dial_err b e : done = false -> subscribe_step wt done w (SDial b) (subscription_lost b e) w
  | s_subscribe_err b e :
      done = false -> subscribe_step wt done w (SDial b) (subscription_lost b (ErrWrap "logsSubscribe" e)) w
  | s_dial b : done = false -> subscribe_step wt done w (SDial b) (SStream b) w
  | s_recv b sig r w' :
      (** errors of [ProcessSignature] are logged *)
      ProcessSignature wt sig CommitmentConfirmed w = (r, w') -> subscribe_step wt done w (SStream b) (SStream b) w'
  | s_recv_failed_tx b : subscribe_step wt done w (SStream b) (SStream b) w
  | s_recv_err b e : subscribe_step wt done w (SStream b) (subscription_lost b e) w
  | s_wait_done b : done = true -> subscribe_step wt done w (SWait b) SStopped w
  | s_wait b : subscribe_step wt done w (SWait b) (SDial (next_backoff b)) w.

Section watcher.
Context `{Env} `{Solana}.

(** A refresh replaces the map, a failed one leaves it. *)
Definition refreshed (wt : Watcher) (w : World) : Watcher :=
  match (RefreshReferences wt w).1 with Ok wt' => wt' | Err _ => wt end.

Inductive watcher_step (done : bool) (w : World) (p : watcher_pc) : watcher_pc -> World -> Prop :=
  | w_start :
      wp_started p = false ->
      watcher_step done w p
        (mkWatcherPc (refreshed (wp_watcher p) w) true (wp_refresh p) (wp_poll p) (wp_promote p) (wp_subscribe p))
        (RefreshReferences (wp_watcher p) w).2
  | w_refresh :
      wp_started p = true -> wp_refresh p = true ->
      watcher_step done w p
        (mkWatcherPc (refreshed (wp_watcher p) w) true true (wp_poll p) (wp_promote p) (wp_subscribe p))
        (RefreshReferences (wp_watcher p) w).2
  | w_refresh_done :
      wp_started p = true -> done = true ->
      watcher_step done w p (mkWatcherPc (wp_watcher p) true false (wp_poll p) (wp_promote p) (wp_subscribe p)) w
  | w_poll keys r w' :
      wp_started p = true -> wp_poll p = true -> keys ≡ₚ elements (dom (w_refs (wp_watcher p))) ->
      PollReferences (wp_watcher p) keys w = (r, w') -> watcher_step done w p p w'
  | w_poll_done :
      wp_started p = true -> done = true ->
      watcher_step done w p (mkWatcherPc (wp_watcher p) true (wp_refresh p) false (wp_promote p) (wp_subscribe p)) w
  | w_promote r w' :
      wp_started p = true -> wp_promote p = true -> PromoteUnfinalized (wp_watcher p) w = (r, w') ->
      watcher_step done w p p w'
  | w_promote_done :
      wp_started p = true -> done = true ->
      watcher_step done w p (mkWatcherPc (wp_watcher p) true (wp_refresh p) (wp_poll p) false (wp_subscribe p)) w
  | w_subscribe s' w' :
      wp_started p = true -> subscribe_step (wp_watcher p) done w (wp_subscribe p) s' w' ->
      watcher_step done w p (mkWatcherPc (wp_watcher p) true (wp_refresh p) (wp_poll p) (wp_promote p) s') w'.

(** ** Deployments *)

Inductive process :=
  | PDispatcher (cfg : DispatcherConfig) (send : Sender) (pc : dispatcher_pc)
  | PRunner (r : Runner) (pc : runner_pc)
  | PWatcher (p : watcher_pc).

Context (hashtext : string -> Z).

Inductive process_step (done : bool) (x : Shared) : process -> process -> Shared -> Prop :=
  | p_dispatcher cfg send pc pc' x' :
      dispatcher_step hashtext cfg send done x pc pc' x' ->
      process_step done x (PDispatcher cfg send pc) (PDispatcher cfg send pc') x'
  | p_runner r pc pc' w' :
      runner_step r done (sh_world x) pc pc' w' -> process_step done x (PRunner r pc) (PRunner r pc') (set_world x w')
  | p_watcher p p' w' :
      watcher_step done (sh_world x) p p' w' -> process_step done x (PWatcher p) (PWatcher p') (set_world x w').

Record Deployment := mkDeployment {
  dp_shared : Shared; dp_cancelled : gset nat; dp_procs : gmap nat process
}.

(** Processes over the parts the system relation knows. *)
Definition process_ok (p : process) : Prop :=
  match p with
  | PDispatcher _ send _ => SenderOk send /\ forall msg, offline (send msg)
  | PRunner r _ => exists deps, rails_ok deps /\ registry r = settlement_registry deps
  | PWatcher p => RPCClientOk (w_rpc (wp_watcher p))
  end.

(** A process at the start of its [Run]. *)
Definition booting (p : process) : bool :=
  match p with
  | PDispatcher _ _ DTop | PRunner _ RTop => true
  | PWatcher p =>
    negb (wp_started p) && wp_refresh p && wp_poll p && wp_promote p &&
    match wp_subscribe p with SNoDialer => true | SDial b => b =? ns_per_s | _ => false end
  | _ => false
  end.

(** The connection a dispatcher has checked out. *)
Definition held (p : process) : option N :=
  match p with
  | PDispatcher _ _ (DTry s | DOwned s | DWait s _ | DRelease s _) => Some s
  | _ => None
  end.

(** The connections of a dead process are gone. *)
Definition died (p : process) (x : Shared) : Shared :=
  match held p with Some s => release s (set_pg x (end_session s (sh_pg x))) | None => x end.

Inductive deploy_step (st : Deployment) : Deployment -> Prop :=
  | dep_process i p p' x' :
      dp_procs st !! i = Some p -> process_step (bool_decide (i ∈ dp_cancelled st)) (dp_shared st) p p' x' ->
      deploy_step st (mkDeployment x' (dp_cancelled st) (<[i := p']> (dp_procs st)))
  | dep_crash i p :
      (** a process dies where it stands *)
      dp_procs st !! i = Some p ->
      deploy_step st (mkDeployment (died p (dp_shared st)) (dp_cancelled st) (delete i (dp_procs st)))
  | dep_start i p :
      dp_procs st !! i = None -> booting p = true -> process_ok p ->
      deploy_step st (mkDeployment (dp_shared st) (dp_cancelled st ∖ {[i]}) (<[i := p]> (dp_procs st)))
  | dep_cancel i :
      deploy_step st (mkDeployment (dp_shared st) ({[i]} ∪ dp_cancelled st) (dp_procs st))
  | dep_broken s :
      (** a connection breaks and the server ends its session *)
      deploy_step st (mkDeployment (set_pg (dp_shared st) (end_session s (sh_pg (dp_shared st)))) (dp_cancelled st) (dp_procs st))
  | dep_system w' :
      (** the rest of the system: time, faults, API requests *)
      system_step (sh_world (dp_shared st)) w' ->
      deploy_step st (mkDeployment (set_world (dp_shared st) w') (dp_cancelled st) (dp_procs st)).

Definition deployment_ok (st : Deployment) : Prop := map_Forall (fun _ => process_ok) (dp_procs st).

(** ** Executions are executions of the system *)

Lemma refreshed_rpc wt w : w_rpc (refreshed wt w) = w_rpc wt.
Proof.
  unfold refreshed. destruct (RefreshReferences wt w) as [[wt'|e] w'] eqn:E; [|done]. simpl.
  unfold RefreshReferences in E. by minv.
Qed.

Lemma refresh_system wt w : RPCClientOk (w_rpc wt) -> system_step w (RefreshReferences wt w).2.
Proof.
  intros Hrpc. replace (RefreshReferences wt w).2 with ((_ ← RefreshReferences wt; mret tt) w).2
    by (unfold mbind, M_bind; by destruct (RefreshReferences wt w) as [[] ?]).
  by apply (step_watch w wt), op_refresh.
Qed.

Lemma watch_system wt (m : M unit) w r w' :
  RPCClientOk (w_rpc wt) -> watch_op wt m -> m w = (r, w') -> system_step w w'.
Proof. intros Hrpc Hop E. replace w' with (m w).2 by (by rewrite E). by eapply step_watch. Qed.

Lemma subscribe_refines wt done w s s' w' :
  RPCClientOk (w_rpc wt) -> subscribe_step wt done w s s' w' -> rtc system_step w w'.
Proof.
  intros Hrpc Hs. destruct Hs as [| | | | |b sig r w' E| | | |]; try apply rtc_refl.
  eapply rtc_once, watch_system; [exact Hrpc|apply op_process|exact E].
Qed.

Lemma watcher_refines done w p p' w' :
  RPCClientOk (w_rpc (wp_watcher p)) -> watcher_step done w p p' w' ->
  rtc system_step w w' /\ w_rpc (wp_watcher p') = w_rpc (wp_watcher p).
Proof.
  intros Hrpc [H1|H1 H2|H1 H2|keys r w1 H1 H2 Hk E|H1 H2|r w1 H1 H2 E|H1 H2|s' w1 H1 Hs]; simpl;
    rewrite ?refreshed_rpc; (split; [|done]); try apply rtc_refl.
  1-2: by apply rtc_once, refresh_system.
  - eapply rtc_once, watch_system; [exact Hrpc|by apply op_poll|exact E].
  - eapply rtc_once, watch_system; [exact Hrpc|apply op_promote|exact E].
  - by eapply subscribe_refines.
Qed.

Lemma dispatcher_refines cfg send done x pc pc' x' :
  SenderOk send -> (forall msg, offline (send msg)) -> dispatcher_step hashtext cfg send done x pc pc' x' ->
  rtc system_step (sh_world x) (sh_world x').
Proof.
  intros Hs Ho Hd.
  assert (Hdrain : forall r w', drainOnce cfg send (sh_world x) = (r, w') -> rtc system_step (sh_world x) w').
  { intros r w' E. apply rtc_once. replace w' with (drainOnce cfg send (sh_world x)).2 by (by rewrite E). by apply step_drain. }
  destruct Hd; simpl; try apply rtc_refl; by eapply Hdrain.
Qed.

Lemma runner_refines r deps done w pc pc' w' :
  rails_ok deps -> registry r = settlement_registry deps -> runner_step r done w pc pc' w' -> rtc system_step w w'.
Proof.
  intros Hr Hreg Hs.
  assert (Hop : forall m w', worker_op r m -> (m w).2 = w' -> rtc system_step w w').
  { intros m w1 Hm <-. apply rtc_once. by eapply step_work. }
  destruct Hs as [|run w' Hd E|e w' Hd E|run w' Hg E|run st w' Hg E|run st e w' Hg E|run e w' E| |]; try apply rtc_refl.
  1,2: apply (Hop _ _ (op_claim r)); unfold mbind, M_bind, try; by rewrite E.
  - eapply Hop; [apply op_unknown|by rewrite E].
  - apply (Hop _ _ (op_execute r _ st run Hg)). unfold mbind, M_bind, try. by rewrite E.
  - apply (Hop _ _ (op_execute r _ st run Hg)). unfold mbind, M_bind, try. by rewrite E.
  - apply (Hop _ _ (op_failure r run e)). by rewrite E.
Qed.

(** One loop of a worker nobody disturbs is one [Tick]. *)
Lemma runner_tick r w x w' :
  Tick r w = (x, w') ->
  rtc (fun p q => runner_step r false p.2 p.1 q.1 q.2) (RTop, w)
    (RWait (if x is Ok true then Saga.PollInterval (Saga.cfg r) else Saga.IdleBackoff (Saga.cfg r)), w').
Proof.
  unfold Tick, mret, M_ret. intros E. unfold mbind at 1, M_bind at 1, try at 1 in E.
  destruct (claim r w) as [[run|e] w1] eqn:Ec.
  2:{ apply rtc_once. destruct (errors_is _ e); unfold throw in E; simplify_eq/=; by eapply r_claim_err. }
  apply (rtc_l _ _ (RClaimed run, w1)); [by apply r_claim|].
  destruct (Registry_Get (registry r) (run_CurrentStep run)) as [st|] eqn:Hg.
  2:{ apply rtc_once. destruct (failRun_Ok (run_ID run) (ErrMsg ("unknown step " +:+ Quote_q (run_CurrentStep run))) w1) as [w2 Ef].
      rewrite (bind_run _ _ _ _ _ Ef) in E. injection E as <- <-. by apply r_unknown. }
  unfold mbind at 1, M_bind at 1, try at 1 in E. destruct (executeStep st run w1) as [[[]|e] w2] eqn:Ex.
  - simplify_eq/=. apply rtc_once. by eapply r_execute.
  - apply (rtc_l _ _ (RFailing run e, w2)); [by eapply r_execute_err|]. destruct (handleFailure_Ok r run e w2) as [w3 E3].
    rewrite (bind_run _ _ _ _ _ E3) in E. simplify_eq/=. apply rtc_once. by apply r_failure.
Qed.

Lemma process_refines done x p p' x' :
  process_ok p -> process_step done x p p' x' -> rtc system_step (sh_world x) (sh_world x') /\ process_ok p'.
Proof.
  intros Hok Hp. revert Hok. destruct Hp as [cfg send pc pc' x1 Hs|r pc pc' w' Hs|q q' w' Hs]; simpl; intros Hok.
  - destruct Hok as [H1 H2]. split; [by eapply dispatcher_refines|done].
  - split; [|done]. destruct Hok as (deps & Hr & Hreg). by eapply runner_refines.
  - destruct (watcher_refines _ _ _ _ _ Hok Hs) as [Hw E]. by rewrite E.
Qed.

Lemma deploy_refines st st' :
  deploy_step st st' -> deployment_ok st ->
  rtc system_step (sh_world (dp_shared st)) (sh_world (dp_shared st')) /\ deployment_ok st'.
Proof.
  intros [i p p' x' Hp Hs|i p Hp|i p Hp Hb Hpo|i|s|w' Hs] Hok; simpl.
  - destruct (process_refines _ _ _ _ _ (Hok i p Hp) Hs) as [Hr Hp']. split; [done|].
    intros j q Hq. simpl in Hq. apply lookup_insert_Some in Hq as [[_ <-]|[_ Hq]]; [done|by eapply Hok].
  - split; [unfold died; case_match; apply rtc_refl|]. intros j q Hq. simpl in Hq.
    apply lookup_delete_Some in Hq as [_ Hq]. by eapply Hok.
  - split; [apply rtc_refl|]. intros j q Hq. simpl in Hq.
    apply lookup_insert_Some in Hq as [[_ <-]|[_ Hq]]; [done|by eapply Hok].
  - split; [apply rtc_refl|done].
  - split; [apply rtc_refl|done].
  - split; [by apply rtc_once|done].
Qed.

(** ** Ownership of a topic *)

(** The key and the connection of a dispatcher inside [runOwnedLoop]. *)
Definition owns (p : process) : option (Z * N) :=
  match p with
  | PDispatcher cfg _ (DOwned s | DWait s _) => Some (lock_key hashtext (dc_Topic cfg), s)
  | _ => None
  end.

Record locks_ok (st : Deployment) : Prop := {
  held_busy i p s : dp_procs st !! i = Some p -> held p = Some s -> s ∈ sh_busy (dp_shared st);
  held_once i j p q s :
    dp_procs st !! i = Some p -> dp_procs st !! j = Some q -> held p = Some s -> held q = Some s -> i = j;
  owner_locks i p k s :
    dp_procs st !! i = Some p -> owns p = Some (k, s) -> s ∈ pg_live (sh_pg (dp_shared st)) ->
    exists n, pg_locks (sh_pg (dp_shared st)) !! k = Some (s, n) /\ (1 <= n)%nat
}.

Lemma owns_held p k s : owns p = Some (k, s) -> held p = Some s.
Proof. destruct p as [? ? []| |]; simpl; naive_solver. Qed.

(** What a step may do to the locks of others: nothing. *)
Definition spares (s : N) (p p' : PG) : Prop :=
  forall k s' n, s' <> s -> pg_locks p !! k = Some (s', n) -> pg_locks p' !! k = Some (s', n).

Lemma spares_refl s p : spares s p p.
Proof. by intros k s' n _. Qed.

Lemma spares_try s k p : spares s p (pg_try_advisory_lock s k p).2.
Proof.
  intros k' s' n Hne Hk. unfold pg_try_advisory_lock. destruct (pg_locks p !! k) as [[s1 n1]|] eqn:E.
  - destruct (N.eqb_spec s1 s) as [->|]; simpl; [|done]. rewrite lookup_insert_ne; [done|]. intros ->. congruence.
  - simpl. rewrite lookup_insert_ne; [done|]. intros ->. congruence.
Qed.

Lemma spares_unlock s k p : spares s p (pg_advisory_unlock s k p).
Proof.
  intros k' s' n Hne Hk. unfold pg_advisory_unlock. destruct (pg_locks p !! k) as [[s1 n1]|] eqn:E; [|done].
  destruct (N.eqb_spec s1 s) as [->|]; simpl; [|done]. assert (k' <> k) by (intros ->; congruence).
  destruct (_ <=? _)%nat; [by rewrite lookup_delete_ne|by rewrite lookup_insert_ne].
Qed.

Lemma live_try s k p : pg_live (pg_try_advisory_lock s k p).2 = pg_live p.
Proof. unfold pg_try_advisory_lock. destruct (pg_locks p !! k) as [[s' n]|]; [|done]. by destruct (N.eqb s' s). Qed.

Lemma live_unlock s k p : pg_live (pg_advisory_unlock s k p) = pg_live p.
Proof. unfold pg_advisory_unlock. destruct (pg_locks p !! k) as [[s' n]|]; [|done]. by destruct (N.eqb s' s). Qed.

Lemma try_owns s k p p' :
  pg_try_advisory_lock s k p = (true, p') -> exists n, pg_locks p' !! k = Some (s, n) /\ (1 <= n)%nat.
Proof.
  unfold pg_try_advisory_lock. destruct (pg_locks p !! k) as [[s' n]|]; [destruct (N.eqb s' s)|]; intros [= <-]; simpl;
    rewrite lookup_insert_eq; eexists; (split; [done|lia]).
Qed.

(** A process alone: its next connection is its old one or a free one, it gives
    back only its own, and it touches no lock of another session. *)
Lemma process_locks done x p p' x' :
  process_step done x p p' x' ->
  (forall s, held p = Some s -> s ∈ sh_busy x) ->
  (forall k s, owns p = Some (k, s) -> s ∈ pg_live (sh_pg x) -> exists n, pg_locks (sh_pg x) !! k = Some (s, n) /\ (1 <= n)%nat) ->
  (forall s, held p' = Some s -> s ∈ sh_busy x' /\ (held p = Some s \/ s ∉ sh_busy x)) /\
  (forall s, s ∈ sh_busy x -> held p <> Some s -> s ∈ sh_busy x') /\
  (forall k s, owns p' = Some (k, s) -> s ∈ pg_live (sh_pg x') -> exists n, pg_locks (sh_pg x') !! k = Some (s, n) /\ (1 <= n)%nat) /\
  (forall s, s ∈ sh_busy x -> held p <> Some s -> s ∈ pg_live (sh_pg x') -> s ∈ pg_live (sh_pg x)) /\
  (forall k s n, s ∈ sh_busy x -> held p <> Some s -> pg_locks (sh_pg x) !! k = Some (s, n) -> pg_locks (sh_pg x') !! k = Some (s, n)).
Proof.
  intros Hp. destruct Hp as [cfg send pc pc' x1 Hs|r pc pc' w' Hs|q q' w' Hs]; simpl; intros Hb Ho;
    [|split_and!; naive_solver..].
  destruct Hs as [ | | |e|s Hs|s e p1 Hp1|s p1 Hl Ht|s p1 Hl Ht| | |s|s b w1|s e w1|s|s t|s t|s e p1 Hp1]; simpl in *;
    try (split_and!; naive_solver).
  - split_and!; [intros ? [= <-]; set_solver|set_solver|done|intros; set_solver|done].
  - assert (Hp : spares s (sh_pg x) p1 /\ pg_live p1 = pg_live (sh_pg x))
      by (destruct Hp1 as [->|[_ ->]]; [split; [apply spares_refl|done]|split; [apply spares_try|apply live_try]]).
    destruct Hp as [Hsp ->]. split_and!; [done|set_solver|done|done|]. intros; apply Hsp; [congruence|done].
  - pose proof (spares_try s (lock_key hashtext (dc_Topic cfg)) (sh_pg x)) as Hsp.
    pose proof (live_try s (lock_key hashtext (dc_Topic cfg)) (sh_pg x)) as Hlv.
    unfold tryLock in Ht. rewrite Ht in Hsp, Hlv. simpl in *.
    split_and!; [intros ? [= <-]; auto|done| |by rewrite Hlv|intros; apply Hsp; [congruence|done]].
    intros k s0 [= <- <-] _. by eapply try_owns.
  - pose proof (spares_try s (lock_key hashtext (dc_Topic cfg)) (sh_pg x)) as Hsp.
    pose proof (live_try s (lock_key hashtext (dc_Topic cfg)) (sh_pg x)) as Hlv.
    unfold tryLock in Ht. rewrite Ht in Hsp, Hlv. simpl in *.
    split_and!; [done|set_solver|done|by rewrite Hlv|intros; apply Hsp; [congruence|done]].
  - assert (Hp : spares s (sh_pg x) p1 /\ pg_live p1 = pg_live (sh_pg x))
      by (destruct Hp1 as [->| ->]; [split; [apply spares_refl|done]|split; [apply spares_unlock|apply live_unlock]]).
    destruct Hp as [Hsp ->]. assert (Hpc : after_owned e = DTop \/ after_owned e = DStopped e)
      by (unfold after_owned; case_match; auto).
    split_and!; [destruct Hpc as [-> | ->]; done|set_solver|destruct Hpc as [-> | ->]; done|done|].
    intros; apply Hsp; [congruence|done].
Qed.

(** The locks of other sessions survive the end of one. *)
Lemma locks_end_session s0 k s p :
  (s ∈ pg_live p -> exists n, pg_locks p !! k = Some (s, n) /\ (1 <= n)%nat) -> s ∈ pg_live (end_session s0 p) ->
  exists n, pg_locks (end_session s0 p) !! k = Some (s, n) /\ (1 <= n)%nat.
Proof.
  intros Ho [Hl Hne]%elem_of_difference. destruct (Ho Hl) as (n & Hn & Hge). exists n. split; [|done].
  apply map_lookup_filter_Some. split; [done|]. simpl. set_solver.
Qed.

Lemma locks_ok_step st st' : deploy_step st st' -> locks_ok st -> locks_ok st'.
Proof.
  intros [i p p' x' Hp Hs|i p Hp|i p Hp Hbt Hpo|i|s|w' Hs] [Hb H1 Ho]; [| | |by split| |by split].
  - destruct (process_locks _ _ _ _ _ Hs) as (A & B & C & D & E); [naive_solver..|].
    split; simpl.
    + intros j q s [[-> <-]|[Hj Hq]]%lookup_insert_Some Hh; [by apply A|]. apply B; [by eapply Hb|].
      intros Hp'. apply Hj. by eapply H1.
    + intros j1 j2 q1 q2 s [[-> <-]|[Hj1 Hq1]]%lookup_insert_Some [[<- <-]|[Hj2 Hq2]]%lookup_insert_Some Hh1 Hh2; [done| | |by eapply H1].
      * destruct (A s Hh1) as [_ [Hps|Hfree]]; [by eapply H1|]. destruct Hfree. by eapply Hb.
      * destruct (A s Hh2) as [_ [Hps|Hfree]]; [by eapply H1|]. destruct Hfree. by eapply Hb.
    + intros j q k s [[-> <-]|[Hj Hq]]%lookup_insert_Some Hw Hl; [by apply C|].
      pose proof (owns_held _ _ _ Hw) as Hh. assert (Hne : held p <> Some s) by (intros Hp'; apply Hj; by eapply H1).
      pose proof (Hb _ _ _ Hq Hh) as Hbusy. destruct (Ho j q k s Hq Hw) as (n & Hn & Hge); [by apply D|].
      exists n. split; [by apply E|done].
  - split; simpl.
    + intros j q s [Hj Hq]%lookup_delete_Some Hh. pose proof (Hb _ _ _ Hq Hh) as Hbusy. unfold died.
      destruct (held p) as [s0|] eqn:E; [|done]. apply elem_of_difference. split; [done|].
      intros ->%elem_of_singleton. apply Hj. by eapply H1.
    + intros j1 j2 q1 q2 s [_ Hq1]%lookup_delete_Some [_ Hq2]%lookup_delete_Some. by eapply H1.
    + intros j q k s [_ Hq]%lookup_delete_Some Hw. pose proof (Ho j q k s Hq Hw) as Hk. unfold died.
      destruct (held p); [by apply locks_end_session|done].
  - assert (Hn : held p = None) by (by destruct p as [? ? []|? []|]). assert (Hw0 : owns p = None)
      by (by destruct p as [? ? []|? []|]).
    split; simpl.
    + intros j q s [[-> <-]|[Hj Hq]]%lookup_insert_Some Hh; [congruence|by eapply Hb].
    + intros j1 j2 q1 q2 s [[-> <-]|[Hj1 Hq1]]%lookup_insert_Some [[<- <-]|[Hj2 Hq2]]%lookup_insert_Some Hh1 Hh2;
        [done|congruence..|by eapply H1].
    + intros j q k s [[-> <-]|[Hj Hq]]%lookup_insert_Some Hw Hl; [congruence|by eapply Ho].
  - split; simpl; [done|done|]. intros j q k s' Hq Hw. apply locks_end_session. by apply (Ho j q).
Qed.

Lemma locks_ok_steps st st' : rtc deploy_step st st' -> locks_ok st -> locks_ok st'.
Proof. induction 1 as [|x y z Hs _ IH]; [done|]. intros Hok. by eapply IH, locks_ok_step. Qed.

Lemma deploy_refines_steps st st' :
  rtc deploy_step st st' -> deployment_ok st ->
  rtc system_step (sh_world (dp_shared st)) (sh_world (dp_shared st')).
Proof.
  induction 1 as [|x y z Hs _ IH]; intros Hok; [apply rtc_refl|].
  destruct (deploy_refines _ _ Hs Hok) as [Hr Hok']. etransitivity; [exact Hr|by apply IH].
Qed.

(** No dispatcher has a connection yet. *)
Definition freshly_started (st : Deployment) : Prop := map_Forall (fun _ p => held p = None) (dp_procs st).

Lemma fresh_locks_ok st : freshly_started st -> locks_ok st.
Proof.
  intros Hf. split.
  - intros i p s Hp Hh. by rewrite (Hf i p Hp) in Hh.
  - intros i j p q s Hp _ Hh. by rewrite (Hf i p Hp) in Hh.
  - intros i p k s Hp Hw%owns_held. by rewrite (Hf i p Hp) in Hw.
Qed.

Lemma one_owner st i j p q k s s' :
  locks_ok st -> dp_procs st !! i = Some p -> dp_procs st !! j = Some q ->
  owns p = Some (k, s) -> owns q = Some (k, s') ->
  s ∈ pg_live (sh_pg (dp_shared st)) -> s' ∈ pg_live (sh_pg (dp_shared st)) -> i = j.
Proof.
  intros [_ H1 Ho] Hp Hq Hw Hw' Hl Hl'. destruct (Ho _ _ _ _ Hp Hw Hl) as (n & E & _).
  destruct (Ho _ _ _ _ Hq Hw' Hl') as (n' & E' & _). rewrite E in E'. injection E' as -> _.
  eapply H1; [exact Hp|exact Hq|by eapply owns_held|by eapply owns_held].
Qed.

Lemma writer_owns done x cfg send pc pc' x' :
  dispatcher_step hashtext cfg send done x pc pc' x' -> w_db (sh_world x') <> w_db (sh_world x) ->
  exists s, owns (PDispatcher cfg send pc) = Some (lock_key hashtext (dc_Topic cfg), s) /\ s ∈ pg_live (sh_pg x).
Proof. intros [] Hne; simpl in *; try done; eauto. Qed.

(** C14: One owner per topic: among any dispatchers started without connections, at
    most one is inside its dispatch loop on a live connection for a topic; only
    such an owner writes the database; no other session can lock the topic while
    the owner's connection lives, and any session can once it has died. *)
Theorem topic_has_one_owner st st' :
  rtc deploy_step st st' -> freshly_started st ->
  let pg := sh_pg (dp_shared st') in
  (forall i j p q k s s', dp_procs st' !! i = Some p -> dp_procs st' !! j = Some q ->
     owns p = Some (k, s) -> owns q = Some (k, s') -> s ∈ pg_live pg -> s' ∈ pg_live pg -> i = j) /\
  (forall done cfg send pc pc' x',
     dispatcher_step hashtext cfg send done (dp_shared st') pc pc' x' ->
     w_db (sh_world x') <> w_db (sh_world (dp_shared st')) ->
     exists s, owns (PDispatcher cfg send pc) = Some (lock_key hashtext (dc_Topic cfg), s) /\ s ∈ pg_live pg) /\
  (forall i p k s s', dp_procs st' !! i = Some p -> owns p = Some (k, s) -> s ∈ pg_live pg -> s' <> s ->
     (pg_try_advisory_lock s' k pg).1 = false /\ (pg_try_advisory_lock s' k (end_session s pg)).1 = true).
Proof.
  intros Hs Hf%fresh_locks_ok pg. apply (locks_ok_steps _ _ Hs) in Hf. split_and!.
  - intros i j p q k s s'. by apply one_owner.
  - intros done cfg send pc pc' x' Hd Hne. by eapply writer_owns.
  - intros i p k s s' Hp Hw Hl Hne. destruct (owner_locks _ Hf _ _ _ _ Hp Hw Hl) as (n & E & _).
    unfold pg_try_advisory_lock. fold pg in E. split.
    + rewrite E. by destruct (N.eqb_spec s s') as [->|].
    + assert (pg_locks (end_session s pg) !! k = None) as ->; [|done].
      apply map_lookup_filter_None. right. intros [s1 n1] E1 Hc. simpl in Hc. congruence.
Qed.

(** ** The subscription's backoff *)

Definition backoff_of (s : subscribe_pc) : option Z :=
  match s with SDial b | SStream b | SWait b => Some b | _ => None end.

(** The powers of two from one second to 32 seconds. *)
Definition backoff_ok (s : subscribe_pc) : Prop :=
  forall b, backoff_of s = Some b -> exists n, 0 <= n <= 5 /\ b = 2 ^ n * ns_per_s.

Lemma next_backoff_ok n : 0 <= n <= 5 -> exists m, 0 <= m <= 5 /\ next_backoff (2 ^ n * ns_per_s) = 2 ^ m * ns_per_s.
Proof.
  intros Hn. unfold next_backoff. change ns_per_s with 1000000000.
  destruct (Z.ltb_spec (2 ^ n * 1000000000) (30 * 1000000000)) as [Hlt|]; [|by exists n].
  exists (n + 1). rewrite Z.pow_add_r by lia. split; [|lia]. assert (n <> 5) by (intros ->; lia). lia.
Qed.

Lemma stopped_backoff_ok : backoff_ok SStopped.
Proof. intros b [=]. Qed.

Lemma subscribe_backoff_ok wt done w s s' w' : subscribe_step wt done w s s' w' -> backoff_ok s -> backoff_ok s'.
Proof.
  assert (Hlost : forall b e, backoff_ok (SDial b) -> backoff_ok (subscription_lost b e))
    by (intros b e Hb; unfold subscription_lost; case_match; [apply stopped_backoff_ok|exact Hb]).
  intros [] Hb; try apply stopped_backoff_ok; try exact Hb; try (by apply Hlost).
  intros b1 [= <-]. destruct (Hb _ eq_refl) as (n & Hn & ->). by apply next_backoff_ok.
Qed.

Definition process_backoff_ok (p : process) : Prop :=
  match p with PWatcher q => backoff_ok (wp_subscribe q) | _ => True end.

Lemma booting_backoff_ok p : booting p = true -> process_backoff_ok p.
Proof.
  destruct p as [| |p]; [done|done|]. simpl. intros [_ Hb]%andb_prop b Hs. exists 0. split; [lia|].
  destruct (wp_subscribe p); simplify_eq/=. lia.
Qed.

(** The wait between two attempts to subscribe is a power of two seconds, between
    one and 32, in every reachable deployment. *)
Lemma subscription_backoff_bounded st st' :
  rtc deploy_step st st' ->
  map_Forall (fun _ => process_backoff_ok) (dp_procs st) -> map_Forall (fun _ => process_backoff_ok) (dp_procs st').
Proof.
  induction 1 as [|x y z Hs _ IH]; [done|]. intros Hok. apply IH.
  destruct Hs as [i p p' x' Hp Hs|i p Hp|i p Hp Hb _| | |]; try done; intros j q Hq; simpl in Hq.
  - apply lookup_insert_Some in Hq as [[_ <-]|[_ Hq]]; [|by eapply Hok]. specialize (Hok i p Hp). revert Hok.
    destruct Hs as [| |q q' w' Hs]; [done|done|]. destruct Hs; simpl; try done. by eapply subscribe_backoff_ok.
  - apply lookup_delete_Some in Hq as [_ Hq]. by eapply Hok.
  - apply lookup_insert_Some in Hq as [[_ <-]|[_ Hq]]; [|by eapply Hok]. by apply booting_backoff_ok.
Qed.
End watcher.

(** ** Witnesses: a worker and two dispatchers *)

Section deploy_example.
#[local] Existing Instance example_env.
#[local] Existing Instance example_solana.

Definition booted : Deployment := mkDeployment
  (mkShared (demo_world 62038464) (mkPG ∅ ∅) ∅) ∅
  {[ 0%nat := PDispatcher example_dispatcher accept_all DTop;
     1%nat := PDispatcher example_dispatcher accept_all DTop;
     2%nat := PRunner demo_runner RTop ]}.

Lemma booted_procs i p : dp_procs booted !! i = Some p ->
  p = PDispatcher example_dispatcher accept_all DTop \/ p = PRunner demo_runner RTop.
Proof.
  unfold booted. simpl. intros Hp. apply lookup_insert_Some in Hp as [[_ <-]|[_ Hp]]; [by left|].
  apply lookup_insert_Some in Hp as [[_ <-]|[_ Hp]]; [by left|]. apply lookup_singleton_Some in Hp as [_ <-]. by right.
Qed.

Lemma booted_fresh : freshly_started booted.
Proof. by intros i p [-> | ->]%booted_procs. Qed.

(** [booted] after a step of process [i]. *)
Definition after_process (st : Deployment) (i : nat) (p : process) (x : Shared) : Deployment :=
  mkDeployment x (dp_cancelled st) (<[i := p]> (dp_procs st)).

Definition topic_at (pc : dispatcher_pc) : process := PDispatcher example_dispatcher accept_all pc.

(** Dispatcher 0 takes the topic on connection 1; the worker credits the deposit. *)
Definition asking : Deployment :=
  after_process (after_process booted 0 (topic_at DAcquire) (dp_shared booted)) 0 (topic_at (DTry 1%N))
    (acquire 1%N (dp_shared booted)).
Definition holding : Deployment :=
  after_process asking 0 (topic_at (DOwned 1%N))
    (set_pg (dp_shared asking) (tryLock (fun _ => 7) example_dispatcher 1%N (sh_pg (dp_shared asking))).2).
Definition owned : Deployment :=
  after_process holding 2 (PRunner demo_runner (RWait (500 * millisecond))) (set_world (dp_shared holding) (demo_ticks 1)).

Lemma first_tick : Tick demo_runner (demo_world 62038464) = (Ok true, demo_ticks 1).
Proof.
  assert (E : (Tick demo_runner (demo_world 62038464)).1 = Ok true) by (vm_compute; reflexivity).
  change (demo_ticks 1) with (Tick demo_runner (demo_world 62038464)).2. rewrite <- E. apply surjective_pairing.
Qed.

(** Steps of a worker are steps of its deployment. *)
Lemma runner_deploys i r pw pw' st :
  rtc (fun p q => runner_step r false p.2 p.1 q.1 q.2) pw pw' ->
  dp_procs st !! i = Some (PRunner r pw.1) -> i ∉ dp_cancelled st -> sh_world (dp_shared st) = pw.2 ->
  rtc (deploy_step (fun _ => 7)) st
    (mkDeployment (set_world (dp_shared st) pw'.2) (dp_cancelled st) (<[i := PRunner r pw'.1]> (dp_procs st))).
Proof.
  intros Hs. revert st. induction Hs as [pw|p q pw' Hpq _ IH]; intros st Hi Hc Hw.
  - rewrite insert_id by done. rewrite <- Hw. destruct st as [[]]. apply rtc_refl.
  - eapply rtc_l.
    { apply (dep_process _ st i (PRunner r p.1) (PRunner r q.1) (set_world (dp_shared st) q.2)); [done|].
      rewrite bool_decide_eq_false_2 by done. apply p_runner. by rewrite Hw. }
    specialize (IH (mkDeployment (set_world (dp_shared st) q.2) (dp_cancelled st) (<[i := PRunner r q.1]> (dp_procs st)))).
    simpl in IH. rewrite insert_insert_eq in IH. apply IH; [by rewrite lookup_insert_eq|done|done].
Qed.

Lemma holding_ticks w1 :
  Tick demo_runner (demo_world 62038464) = (Ok true, w1) ->
  rtc (deploy_step (fun _ => 7)) holding
    (after_process holding 2 (PRunner demo_runner (RWait (500 * millisecond))) (set_world (dp_shared holding) w1)).
Proof.
  intros E%runner_tick.
  refine (runner_deploys 2 demo_runner _ _ holding E _ _ _); [reflexivity|apply not_elem_of_empty|reflexivity].
Qed.

Lemma booted_owned : rtc (deploy_step (fun _ => 7)) booted owned.
Proof.
  eapply rtc_l; [exact (dep_process _ booted 0 _ _ _ eq_refl (p_dispatcher _ _ _ _ _ _ _ _ (d_top _ _ _ _ _ eq_refl)))|].
  eapply rtc_l.
  { refine (dep_process _ (after_process booted 0 (topic_at DAcquire) (dp_shared booted)) 0 _ _ _ eq_refl
      (p_dispatcher _ _ _ _ _ _ _ _ (d_acquire _ _ _ _ _ 1%N _))). set_solver. }
  apply (rtc_l _ asking holding).
  { refine (dep_process _ asking 0 _ _ _ eq_refl (p_dispatcher _ _ _ _ _ _ _ _ (d_try_ok _ _ _ _ _ 1%N _ _ _)));
      [simpl; set_solver|reflexivity]. }
  exact (holding_ticks _ first_tick).
Qed.

Lemma topic_has_one_owner_witness :
  (pg_try_advisory_lock 2%N 7 (sh_pg (dp_shared owned))).1 = false /\
  (pg_try_advisory_lock 2%N 7 (end_session 1%N (sh_pg (dp_shared owned)))).1 = true.
Proof.
  destruct (topic_has_one_owner (fun _ => 7) booted owned booted_owned booted_fresh) as (_ & _ & Hlock).
  apply (Hlock 0%nat (topic_at (DOwned 1%N)) 7 1%N 2%N); [reflexivity|reflexivity|simpl; set_solver|done].
Defined.

(** Returning the connection does not release the lock: when the unlock query
    fails on a connection that survives, the topic stays locked by a session of
    the pool although its dispatcher has returned and no connection is in use. *)
Lemma failed_unlock_leaks :
  exists st, rtc (deploy_step (fun _ => 7)) holding st /\
    dp_procs st !! 0%nat = Some (topic_at (DStopped ErrCanceled)) /\ sh_busy (dp_shared st) = ∅ /\
    forall s, s <> 1%N -> (tryLock (fun _ => 7) example_dispatcher s (sh_pg (dp_shared st))).1 = false.
Proof.
  set (st1 := mkDeployment (dp_shared holding) ({[0%nat]} ∪ dp_cancelled holding) (dp_procs holding)).
  set (st2 := after_process st1 0 (topic_at (DRelease 1%N ErrCanceled)) (dp_shared holding)).
  exists (after_process st2 0 (topic_at (DStopped ErrCanceled)) (release 1%N (dp_shared holding))). split_and!.
  - apply (rtc_l _ holding st1); [apply dep_cancel|].
    apply (rtc_l _ st1 st2).
    { exact (dep_process _ st1 0 _ _ _ eq_refl (p_dispatcher _ _ _ _ _ _ _ _ (d_owned_done _ _ _ _ _ 1%N eq_refl))). }
    apply rtc_once.
    exact (dep_process _ st2 0 _ _ _ eq_refl (p_dispatcher _ _ _ _ _ _ _ _ (d_release _ _ _ _ _ 1%N ErrCanceled _ (or_introl eq_refl)))).
  - reflexivity.
  - simpl. set_solver.
  - intros s Hs. unfold tryLock, pg_try_advisory_lock.
    assert (E : pg_locks (sh_pg (dp_shared holding)) !! lock_key (fun _ => 7) (dc_Topic example_dispatcher) = Some (1%N, 1%nat))
      by reflexivity.
    cbn [dp_shared after_process sh_pg release]. rewrite E. by destruct (N.eqb_spec 1 s) as [<-|].
Qed.
End deploy_example.
