(* ===== verification/Workers.v ===== *)
(** * Leases of settlement workers

    Orchestrators run side by side; [ClaimDueSagaRun] stamps a lease on the run it
    hands out, and nothing else keeps two workers apart.  This file says when that
    is a lock: as long as no worker outlives its lease and no answer of a commit
    is lost, at most one worker is between its claim and its outcome for a run, and
    the row stays as it was claimed.  A worker that is merely slow breaks this,
    because the writes that follow a claim name the run and not the lease. *)

From S2P Require Import Prelude GoStr Sha256 MockBank Models World GoJson Queries Ledger Backoff Payout Outbox Saga SagaSteps Settlement HappyPath Scenarios Quoter SplParser Watcher Http Reference Idempotency IdemCache Auth Api ApiRouter System Processes.

(** ** Pools of workers *)

(** The run a worker is working on. *)
Definition holds (pc : runner_pc) : option Run :=
  match pc with RClaimed run | RFailing run _ => Some run | _ => None end.

(** A worker, where it is, and when the lease of its last claim runs out. *)
Record worker := mkWorker { wk_runner : Runner; wk_pc : runner_pc; wk_until : Z }.

Record Pool := mkPool { pl_world : World; pl_workers : gmap nat worker }.

Abbreviation run_ids d := (sr_id <$> saga_runs d).

(** What the other processes do to [saga_runs]: they add runs. *)
Definition runs_grow (d d' : DB) : Prop :=
  saga_runs d `prefix_of` saga_runs d' /\ (NoDup (run_ids d) -> NoDup (run_ids d')).

Section pool.
Context `{Env}.

Definition lease_end (k : worker) (w : World) (pc' : runner_pc) : Z :=
  match holds (wk_pc k), holds pc' with
  | None, Some _ => w_now w + LeaseDuration (cfg (wk_runner k))
  | _, _ => wk_until k
  end.

(** Every worker acts within its lease, and an error of [executeStep] means that
    its transaction did not commit. *)
Inductive pool_step (p : Pool) : Pool -> Prop :=
  | pool_work i k done pc' w' :
      pl_workers p !! i = Some k -> runner_step (wk_runner k) done (pl_world p) (wk_pc k) pc' w' ->
      (forall run e, pc' = RFailing run e -> w_db w' = w_db (pl_world p)) ->
      pool_step p (mkPool w' (<[i := mkWorker (wk_runner k) pc' (lease_end k (pl_world p) pc')]> (pl_workers p)))
  | pool_time t :
      w_now (pl_world p) <= t ->
      (forall i k run, pl_workers p !! i = Some k -> holds (wk_pc k) = Some run -> t <= wk_until k) ->
      pool_step p (mkPool (set_now (pl_world p) t) (pl_workers p))
  | pool_other w' :
      runs_grow (w_db (pl_world p)) (w_db w') -> w_now w' = w_now (pl_world p) -> pool_step p (mkPool w' (pl_workers p))
  | pool_crash i : pool_step p (mkPool (pl_world p) (delete i (pl_workers p)))
  | pool_start i r t :
      pl_workers p !! i = None -> registry_ok (registry r) -> 0 <= LeaseDuration (cfg r) ->
      pool_step p (mkPool (pl_world p) (<[i := mkWorker r RTop t]> (pl_workers p))).

(** ** The invariant *)

(** Worker [k] works on [run] under a lease that is in the table. *)
Definition leased_to (d : DB) (now : Z) (k : worker) (run : Run) : Prop :=
  exists row, row ∈ saga_runs d /\ toRun row = run /\ sr_lease_until row = Some (wk_until k) /\ now <= wk_until k.

Record leases_ok (p : Pool) : Prop := {
  lo_ids : NoDup (run_ids (w_db (pl_world p)));
  lo_runner i k : pl_workers p !! i = Some k -> registry_ok (registry (wk_runner k)) /\ 0 <= LeaseDuration (cfg (wk_runner k));
  lo_row i k run :
    pl_workers p !! i = Some k -> holds (wk_pc k) = Some run -> leased_to (w_db (pl_world p)) (w_now (pl_world p)) k run;
  lo_once i j k k' run run' :
    pl_workers p !! i = Some k -> pl_workers p !! j = Some k' -> holds (wk_pc k) = Some run ->
    holds (wk_pc k') = Some run' -> run_ID run = run_ID run' -> i = j
}.

(** A row of another run survives an update. *)
Lemma leased_to_put d d' now k run c :
  saga_runs d' = Saga.put_run c (saga_runs d) -> sr_id c <> run_ID run -> leased_to d now k run -> leased_to d' now k run.
Proof.
  intros Hd Hne (row & Hin & Hr & Hl & Hn). exists row. split_and!; [|done..]. rewrite Hd. apply put_run_other; [done|].
  rewrite <- Hr in Hne. by intros E.
Qed.

Lemma put_run_same row t : NoDup (sr_id <$> t) -> row ∈ t -> Saga.put_run row t = t.
Proof.
  intros Hnd Hin. transitivity (update_where (by_id sr_id (sr_id row)) id t).
  { symmetry. by apply (put_run_update id). }
  unfold update_where.
  rewrite <- (list_fmap_id t) at 2. apply list_fmap_ext. intros i r _. by case_match.
Qed.

(** ** Operations of a worker *)

(** No operation of a worker takes time. *)
Lemma runner_step_now r done w pc pc' w' :
  registry_ok (registry r) -> runner_step r done w pc pc' w' -> w_now w' = w_now w.
Proof.
  intros Hreg Hs.
  assert (Hq : forall A (m : M A) x w1, quiet m -> m w = (x, w1) -> w_now w1 = w_now w).
  { intros A m x w1 Hm E. specialize (Hm w). rewrite E in Hm. apply Hm. }
  assert (Hclaim : quiet (claim r)) by (unfold claim; wkeeps_auto).
  assert (Hf : forall id e, quiet (failRun id e)) by (unfold failRun; intros; wkeeps_auto).
  assert (Hx : forall name st run, Registry_Get (registry r) name = Some st -> quiet (executeStep st run)).
  { intros name st run Hg. pose proof (step_quiet (s := st) (StepOk := Hreg _ _ Hg)). unfold executeStep. wkeeps_auto. }
  destruct Hs; try done; (eapply Hq; [|eassumption]); [done|done|apply Hf|by eapply Hx|by eapply Hx|].
  unfold handleFailure, scheduleRetry. pose proof quiet_Delay. wkeeps_auto.
Qed.

(** What a step of a worker does to the table. *)
Lemma runner_step_runs r done w pc pc' w' :
  registry_ok (registry r) -> NoDup (run_ids (w_db w)) -> runner_step r done w pc pc' w' ->
  (forall run, holds pc = Some run -> exists row, row ∈ saga_runs (w_db w) /\ toRun row = run) ->
  match holds pc with
  | None =>
    (holds pc' = None /\ w_db w' = w_db w) \/
    exists row, pick w = Some row /\ w_db w' = claimed_db r w row /\
      (holds pc' = None \/ holds pc' = Some (toRun (leased r w row)))
  | Some run =>
    (holds pc' = Some run /\ exists e, pc' = RFailing run e) \/
    (holds pc' = None /\ exists c, sr_id c = run_ID run /\ saga_runs (w_db w') = Saga.put_run c (saga_runs (w_db w)))
  end.
Proof.
  intros Hreg Hnd Hs Hrow.
  destruct Hs as [|run w' Hd E|e w' Hd E|run w' Hg E|run st w' Hg E|run st e w' Hg E|run e w' E| |]; simpl in *; auto.
  - pose proof (claim_cases r _ _ _ E Hnd) as Hc. destruct (pick w) as [row|].
    + destruct Hc as [(? & [=] & _)|[[= ->] Hdb]]. eauto 10.
    + destruct Hc as [_ [? [=]]].
  - pose proof (claim_cases r _ _ _ E Hnd) as Hc. destruct (pick w) as [row|].
    + destruct Hc as [(? & _ & _ & [Hdb|Hdb])|[[=] _]]; eauto 10.
    + destruct Hc. auto.
  - right. split; [done|]. destruct (Hrow _ eq_refl) as (row & Hin & <-). unfold failRun, mbind, M_bind, try in E.
    destruct (FailSagaRun _ _ w) as [x w1] eqn:Ef. injection E as ->.
    destruct (update_run_cases _ row (saga_runs (w_db w)) _ _ _ Ef) as [Hdb|Hdb];
      [by rewrite put_run_same|done|exists row|eexists (set_sr_failed _ _ row)]; (split; [done|]); rewrite Hdb;
      [by rewrite put_run_same|done].
  - right. split; [done|]. destruct (Hrow _ eq_refl) as (row & Hin & <-).
    destruct (executeStep_cases r Hreg st row (saga_runs (w_db w)) w (Ok tt) w' Hg) as [[_ [? [=]]]|[c1 Hc1]];
      [by rewrite put_run_same|done|]. apply step_commit_runs in Hc1 as [Hid Hruns]. eauto.
  - left. eauto.
  - right. split; [done|]. destruct (Hrow _ eq_refl) as (row & Hin & <-).
    destruct (handleFailure_cases r (toRun row) row row e (saga_runs (w_db w)) w) as (c2 & w2 & E2 & Hf & Hdb);
      [done|done|by rewrite put_run_same|]. rewrite E in E2. injection E2 as <-. exists c2. rewrite Hdb. split; [|done].
    by destruct Hf.
Qed.

(** ** The lease is a lock *)

(** A worker moved: it holds nothing, or a run no other holds, and the runs of
    the others are still leased to them. *)
Lemma leases_ok_insert p i k w' :
  leases_ok p -> NoDup (run_ids (w_db w')) -> registry_ok (registry (wk_runner k)) -> 0 <= LeaseDuration (cfg (wk_runner k)) ->
  (forall run, holds (wk_pc k) = Some run -> leased_to (w_db w') (w_now w') k run) ->
  (forall j k' run, j <> i -> pl_workers p !! j = Some k' -> holds (wk_pc k') = Some run ->
     leased_to (w_db w') (w_now w') k' run /\ forall run', holds (wk_pc k) = Some run' -> run_ID run <> run_ID run') ->
  leases_ok (mkPool w' (<[i := k]> (pl_workers p))).
Proof.
  intros Hok Hids Hreg Hlen Hmine Hothers. split; simpl.
  - done.
  - intros j k' [[-> <-]|[Hj Hk]]%lookup_insert_Some; [done|by eapply lo_runner].
  - intros j k' run [[-> <-]|[Hj Hk]]%lookup_insert_Some Hh; [by apply Hmine|by eapply Hothers].
  - intros j1 j2 k1 k2 r1 r2 [[-> <-]|[Hj1 Hk1]]%lookup_insert_Some [[<- <-]|[Hj2 Hk2]]%lookup_insert_Some Hh1 Hh2 E;
      [done| | |by eapply lo_once]; exfalso.
    + destruct (Hothers j2 k2 r2) as [_ Hne]; [done..|]. by eapply Hne.
    + destruct (Hothers j1 k1 r1) as [_ Hne]; [done..|]. by eapply Hne.
Qed.

(** A claimable run is nobody's. *)
Lemma pick_free p row j k run :
  leases_ok p -> pick (pl_world p) = Some row -> pl_workers p !! j = Some k -> holds (wk_pc k) = Some run ->
  sr_id row <> run_ID run.
Proof.
  intros Hok (Hin & Hcl & _)%pick_spec Hj Hh E. destruct (lo_row _ Hok _ _ _ Hj Hh) as (row' & Hin' & <- & Hl & Hn).
  rewrite (NoDup_fmap_elem sr_id _ row row' (lo_ids _ Hok) Hin Hin' E) in Hcl. unfold claimable in Hcl.
  rewrite Hl in Hcl. bools. lia.
Qed.

Lemma leases_ok_work p i k done pc' w' :
  leases_ok p -> pl_workers p !! i = Some k -> runner_step (wk_runner k) done (pl_world p) (wk_pc k) pc' w' ->
  (forall run e, pc' = RFailing run e -> w_db w' = w_db (pl_world p)) ->
  leases_ok (mkPool w' (<[i := mkWorker (wk_runner k) pc' (lease_end k (pl_world p) pc')]> (pl_workers p))).
Proof.
  intros Hok Hi Hs Hack. destruct (lo_runner _ Hok _ _ Hi) as [Hreg Hlen].
  pose proof (runner_step_now _ _ _ _ _ _ Hreg Hs) as Hn.
  assert (Hmine : forall run, holds (wk_pc k) = Some run -> exists row, row ∈ saga_runs (w_db (pl_world p)) /\ toRun row = run).
  { intros run Hh. destruct (lo_row _ Hok _ _ _ Hi Hh) as (row & ? & ? & _). eauto. }
  pose proof (runner_step_runs _ _ _ _ _ _ Hreg (lo_ids _ Hok) Hs Hmine) as Hc.
  pose proof (lo_ids _ Hok) as Hids. unfold lease_end. destruct (holds (wk_pc k)) as [run|] eqn:Hk.
  - destruct Hc as [[Hpc [e ->]]|[Hpc (c & Hid & Hruns)]].
    + specialize (Hack _ _ eq_refl). apply leases_ok_insert; simpl; rewrite ?Hack, ?Hn; try done.
      * intros run' [= <-]. exact (lo_row _ Hok _ _ _ Hi Hk).
      * intros j k' run' Hj Hk' Hh. split; [by eapply lo_row|]. intros ? [= <-] E. apply Hj. by eapply lo_once.
    + apply leases_ok_insert; simpl; rewrite ?Hn; try done; [by rewrite Hruns, put_run_ids|by rewrite Hpc|].
      intros j k' run' Hj Hk' Hh. split; [|by rewrite Hpc]. eapply leased_to_put; [exact Hruns| |by eapply lo_row].
      rewrite Hid. intros E. apply Hj. symmetry. by eapply (lo_once _ Hok i j).
  - destruct Hc as [[Hpc Hdb]|(row & Hp & Hdb & Hpc)].
    + apply leases_ok_insert; simpl; rewrite ?Hdb, ?Hn; try done; [by rewrite Hpc|].
      intros j k' run' Hj Hk' Hh. split; [by eapply lo_row|by rewrite Hpc].
    + set (c := leased (wk_runner k) (pl_world p) row) in *.
      assert (Hruns : saga_runs (w_db w') = Saga.put_run c (saga_runs (w_db (pl_world p)))) by (by rewrite Hdb).
      apply leases_ok_insert; simpl; rewrite ?Hn; try done; [by rewrite Hruns, put_run_ids|..].
      * intros run Hh. destruct Hpc as [Hpc|Hpc]; rewrite Hpc in Hh |- *; [done|]. injection Hh as <-.
        exists c. rewrite Hruns. split_and!; [|done|done|simpl; lia]. apply put_run_in.
        change (sr_id c) with (sr_id row). apply list_elem_of_fmap_2. by pose proof (pick_spec _ _ Hp) as (Hin & _).
      * intros j k' run' Hj Hk' Hh. pose proof (pick_free p row j k' run' Hok Hp Hk' Hh) as Hne.
        split; [eapply leased_to_put; [exact Hruns|exact Hne|by eapply lo_row]|].
        intros run Hr. destruct Hpc as [Hpc|Hpc]; rewrite Hpc in Hr; [done|]. injection Hr as <-. by apply not_eq_sym.
Qed.

Lemma leases_ok_step p p' : pool_step p p' -> leases_ok p -> leases_ok p'.
Proof.
  intros [i k done pc' w' Hi Hs Hack|t Ht Hlate|w' [Hpre Hids] Hn|i|i r t Hi Hreg Hlen] Hok.
  - by eapply leases_ok_work.
  - destruct Hok as [H1 H2 H3 H4]. split; simpl; [done..| |done]. intros i k run Hi Hh.
    destruct (H3 _ _ _ Hi Hh) as (row & ? & ? & ? & _). exists row. split_and!; [done..|]. by eapply Hlate.
  - destruct Hok as [H1 H2 H3 H4]. split; simpl; [by apply Hids|done| |done]. intros i k run Hi Hh. rewrite Hn.
    destruct (H3 _ _ _ Hi Hh) as (row & Hin & ?). exists row. split; [|done]. by eapply elem_of_prefix.
  - destruct Hok as [H1 H2 H3 H4]. split; simpl; [done|..].
    + intros j k [_ Hj]%lookup_delete_Some. by eapply H2.
    + intros j k run [_ Hj]%lookup_delete_Some. by eapply H3.
    + intros j1 j2 k1 k2 r1 r2 [_ Hj1]%lookup_delete_Some [_ Hj2]%lookup_delete_Some. by eapply H4.
  - apply leases_ok_insert; try done; [apply Hok|]. intros j k' run Hj Hk Hh. split; [by eapply lo_row|done].
Qed.

(** A pool in which nobody works on a run. *)
Definition idle_pool (p : Pool) : Prop :=
  NoDup (run_ids (w_db (pl_world p))) /\
  map_Forall (fun _ k => holds (wk_pc k) = None /\ registry_ok (registry (wk_runner k)) /\
    0 <= LeaseDuration (cfg (wk_runner k))) (pl_workers p).

Lemma idle_leases_ok p : idle_pool p -> leases_ok p.
Proof.
  intros [Hids Hw]. split; [done|intros i k Hi; by destruct (Hw i k Hi)|..].
  - intros i k run Hi Hh. destruct (Hw i k Hi). congruence.
  - intros i j k k' run run' Hi _ Hh. destruct (Hw i k Hi). congruence.
Qed.

(** C8: Leases are locks for timely workers: however many orchestrators claim,
    execute, fail, crash and start, as long as none outlives its lease and no
    answer to a commit is lost, no two of them ever work on the same run, and the
    row of the run a worker works on is, up to its outcome, exactly the row it
    claimed, under its own lease. *)
Theorem lease_excludes p p' :
  rtc pool_step p p' -> idle_pool p ->
  (forall i j k k' run run', pl_workers p' !! i = Some k -> pl_workers p' !! j = Some k' ->
     holds (wk_pc k) = Some run -> holds (wk_pc k') = Some run' -> run_ID run = run_ID run' -> i = j) /\
  (forall i k run, pl_workers p' !! i = Some k -> holds (wk_pc k) = Some run ->
     exists row, row ∈ saga_runs (w_db (pl_world p')) /\ toRun row = run /\
       sr_lease_until row = Some (wk_until k) /\ w_now (pl_world p') <= wk_until k).
Proof.
  intros Hs Hidle%idle_leases_ok.
  assert (Hok : leases_ok p') by (clear -Hs Hidle; induction Hs as [|x y z Hxy _ IH]; [done|by apply IH; eapply leases_ok_step]).
  split; [apply Hok|]. intros i k run Hi Hh. by eapply lo_row.
Qed.
End pool.

(** ** The other processes *)

#[global] Instance runs_grow_preorder : PreOrder runs_grow.
Proof.
  split; [by intros d; split|]. intros d1 d2 d3 [P1 N1] [P2 N2]. split; [by etransitivity|auto].
Qed.

Lemma runs_grow_frame {T} (set : DB -> list T -> DB) :
  (forall d t, saga_runs (set d t) = saga_runs d) -> Frames runs_grow set.
Proof. intros Hs d t. unfold runs_grow. by rewrite Hs. Qed.

#[global] Instance runs_grow_quotes : Frames runs_grow set_quotes. Proof. by apply runs_grow_frame. Qed.
#[global] Instance runs_grow_intents : Frames runs_grow set_payment_intents. Proof. by apply runs_grow_frame. Qed.
#[global] Instance runs_grow_keys : Frames runs_grow set_idempotency_keys. Proof. by apply runs_grow_frame. Qed.
#[global] Instance runs_grow_outbox : Frames runs_grow set_outbox. Proof. by apply runs_grow_frame. Qed.
#[global] Instance runs_grow_onchain : Frames runs_grow set_onchain_payments. Proof. by apply runs_grow_frame. Qed.

Lemma grow_EnqueueSagaRun `{Env} i k s : keeps runs_grow (EnqueueSagaRun i k s).
Proof.
  apply keeps_stmt; [apply _|]. intros now rng d. simpl. repeat case_match; simpl; try reflexivity.
  split; simpl; [by eexists|]. intros Hnd. apply NoDup_snoc; [done|]. by apply pk_taken_false.
Qed.

(** Every step of the system is a unit of a worker's tick or only adds runs, as
    [pool_other] asks. *)
Lemma others_grow_runs `{Env} `{Solana} w w' :
  system_step w w' ->
  runs_grow (w_db w) (w_db w') \/ exists r m, worker_op r m /\ w' = (m w).2.
Proof.
  intros [t n fs js ns rd Hns|r deps m Hr Hreg Hop|cfg send Hs Ho|wt m Hrpc Hop|HE HK tt de bu bs nr h redis ttl r Hq
         |m Hm|id pub sec ata]; [left; reflexivity|right; eauto|left..].
  - apply keeps_drainOnce; (done || apply _).
  - refine (keeps_watch_op wt runs_grow (fun sig c => _) m Hop w). apply keeps_ProcessSignature_of;
      [done|apply _|intros; apply keeps_UpsertOnchainPayment; apply _|intros; apply grow_EnqueueSagaRun].
  - apply keeps_router; apply _.
  - apply keeps_api_write; (done || apply _).
  - apply keeps_UpdatePaymentIntentReference; apply _.
Qed.

(** ** A worker that is too slow *)

Section late_example.
#[local] Existing Instance example_env.
#[local] Existing Instance example_solana.

Definition second_runner : Runner :=
  mkRunner (registry demo_runner)
    (mkConfig "w2" (500 * millisecond) (2 * second) (60 * second) 8 second (5 * minute)) (backoff demo_runner).

(** Two workers, the run at its last step. *)
Definition two_workers (w : World) : Deployment :=
  mkDeployment (mkShared w (mkPG ∅ ∅) ∅) ∅ {[ 0%nat := PRunner demo_runner RTop; 1%nat := PRunner second_runner RTop ]}.

Definition emit_step : Step := NewEmitCompleted (settlement_deps demo_bank).

(** The first worker claims, time passes, the second worker ticks, and the first
    one executes its step. *)
Lemma late_run w0 run w1 t w2 w3 :
  claim demo_runner w0 = (Ok run, w1) -> w_net w1 = [] ->
  Registry_Get (registry demo_runner) (run_CurrentStep run) = Some emit_step ->
  Tick second_runner (set_now w1 t) = (Ok true, w2) -> executeStep emit_step run w2 = (Ok tt, w3) ->
  exists st, rtc (deploy_step (fun _ => 7)) (two_workers w0) st /\ sh_world (dp_shared st) = w3.
Proof.
  intros Hc Hnet Hg Ht Hx.
  assert (Henv : system_step w1 (set_now w1 t)).
  { replace (set_now w1 t) with (set_redis (set_net (set_jitter (set_faults (set_rng (set_now w1 t) (w_rng w1)) (w_faults w1))
      (w_jitter w1)) (w_net w1)) (w_redis w1)) by (by destruct w1).
    apply step_env. rewrite Hnet. intros ? ? []%elem_of_nil. }
  set (st1 := after_process (two_workers w0) 0 (PRunner demo_runner (RClaimed run)) (set_world (dp_shared (two_workers w0)) w1)).
  set (st2 := mkDeployment (set_world (dp_shared st1) (set_now w1 t)) (dp_cancelled st1) (dp_procs st1)).
  set (st3 := after_process st2 1 (PRunner second_runner (RWait (500 * millisecond))) (set_world (dp_shared st2) w2)).
  exists (after_process st3 0 (PRunner demo_runner (RWait (500 * millisecond))) (set_world (dp_shared st3) w3)).
  split; [|reflexivity].
  apply (rtc_l _ _ st1); [exact (dep_process _ (two_workers w0) 0 _ _ _ eq_refl
    (p_runner _ false (dp_shared (two_workers w0)) _ _ _ _ (r_claim _ _ _ _ _ eq_refl Hc)))|].
  apply (rtc_l _ _ st2); [exact (dep_system _ st1 _ Henv)|]. transitivity st3.
  - refine (runner_deploys 1 second_runner _ _ st2 (runner_tick _ _ _ _ Ht) _ _ _);
      [reflexivity|apply not_elem_of_empty|reflexivity].
  - apply rtc_once. exact (dep_process _ st3 0 _ _ _ eq_refl
      (p_runner _ false (dp_shared st3) _ _ _ _ (r_execute _ _ _ run emit_step _ Hg Hx))).
Qed.

Definition late_claim : res Run * World := claim demo_runner (demo_ticks 3).
Definition late_claimed : Run := match late_claim.1 with Ok run => run | Err _ => toRun (demo_run "") end.
Definition late_world : World := (Tick second_runner (set_now late_claim.2 (100 * second))).2.

(** A slow worker announces a completion twice: it claims the last step, stalls
    past its lease of a minute while another worker claims and completes the run,
    and then executes the step it once claimed; no statement that follows the
    claim checks the lease.  No fault is involved. *)
Theorem late_worker_publishes_twice :
  exists st, rtc (deploy_step (fun _ => 7)) (two_workers (demo_ticks 3)) st /\
    w_faults (sh_world (dp_shared st)) = [] /\
    sr_state <$> saga_runs (w_db (sh_world (dp_shared st))) = [SCompleted] /\
    (fun o => (ob_topic o, ob_aggregate_id o)) <$> outbox (w_db (sh_world (dp_shared st))) =
      [("intent.completed", Some (pi_id demo_intent)); ("intent.completed", Some (pi_id demo_intent))].
Proof.
  destruct (late_run (demo_ticks 3) late_claimed late_claim.2 (100 * second) late_world
    (executeStep emit_step late_claimed late_world).2) as (st & Hs & Hw).
  - vm_compute. reflexivity.
  - vm_compute. reflexivity.
  - reflexivity.
  - vm_compute. reflexivity.
  - vm_compute. reflexivity.
  - exists st. split; [exact Hs|]. rewrite Hw. vm_compute. split_and!; reflexivity.
Qed.

(** A worker that claims and executes in time. *)
Definition one_worker (pc : runner_pc) (until : Z) (w : World) : Pool :=
  mkPool w {[ 0%nat := mkWorker demo_runner pc until ]}.

Lemma lease_excludes_witness :
  exists row, row ∈ saga_runs (w_db late_claim.2) /\ toRun row = late_claimed /\
    sr_lease_until row = Some (61 * second) /\ w_now late_claim.2 <= 61 * second.
Proof.
  destruct (lease_excludes (one_worker RTop 0 (demo_ticks 3))
    (one_worker (RClaimed late_claimed) (61 * second) late_claim.2)) as [_ Hrow].
  - apply rtc_once. apply (pool_work (one_worker RTop 0 (demo_ticks 3)) 0 (mkWorker demo_runner RTop 0) false);
      [reflexivity| |intros run e Hpc; discriminate Hpc].
    apply r_claim; [reflexivity|]. vm_compute. reflexivity.
  - split; [vm_compute; repeat constructor; apply not_elem_of_nil|].
    intros i k Hk. cbn [one_worker pl_workers] in Hk. apply lookup_singleton_Some in Hk as [_ <-]. split; [reflexivity|]. split; [apply demo_registry_ok|vm_compute; discriminate].
  - exact (Hrow 0%nat (mkWorker demo_runner (RClaimed late_claimed) (61 * second)) late_claimed eq_refl eq_refl).
Defined.
End late_example.
