(* ===== verification/Boot.v ===== *)
(** * Start-up ([cmd/selatpayd], [internal/wallet])

    What each subcommand builds from a loaded configuration before it blocks: the
    API handler, the dispatcher, the settlement worker, the watcher and the
    reconciliation walker, with every error on the way.  An API server and a watcher
    started from one environment agree on the wallet, the mint and the deposit
    address. *)

From S2P Require Import Prelude Template Dashboard GoStr Sha256 MockBank Models World GoJson Queries Ledger Backoff Payout Outbox Saga SagaSteps Settlement HappyPath Scenarios Quoter SplParser Watcher Recon Http Reference Idempotency IdemCache Auth Api ApiRouter System Config Runtime Processes.

(** ** internal/wallet *)

(** The [Signer] interface. *)
Record Signer := mkSigner { Signer_PublicKey : PublicKey; Signer_Sign : string -> res string }.

Definition ErrKMSNotImplemented : err := ErrSentinel "wallet: kms signer not implemented (see ADR-005)".

(** The stub knows a key and refuses to sign. *)
Definition NewKMSStubSigner (pub : PublicKey) : Signer := mkSigner pub (fun _ => Err ErrKMSNotImplemented).

Section wallet.
Context `{Keys} (PrivateKeyFromBase58 : string -> res string) (PrivateKey_Sign : string -> string -> res string).

Definition NewLocalSignerFromPrivateKey (priv : string) : res Signer :=
  if PrivateKey_IsValid priv then Ok (mkSigner (PrivateKey_PublicKey priv) (PrivateKey_Sign priv))
  else Err (ErrMsg "wallet: ed25519 private key is not valid").

Definition NewLocalSignerFromBase58 (secret : string) : res Signer :=
  match PrivateKeyFromBase58 secret with
  | Err e => Err e
  | Ok priv => NewLocalSignerFromPrivateKey priv
  end.
End wallet.

Section boot.
Context `{Env} `{Solana} `{Keys}.

(** The libraries: connecting, parsing keys, the RPC client of a URL, the HTTP
    client behind the webhook sender, and what [http.NewRequest] says of a bank
    URL. *)
Context (pgx : PgxPool) (otel : Otel) (PrivateKeyFromBase58 : string -> res string)
  (PrivateKey_Sign : string -> string -> res string) (rpc_New : string -> RPCClient)
  (rpc_balances : string -> TokenBalanceFetcher) (webhook_Send : Sender)
  (bank_request_error : string -> option err) (os_Hostname : res string) (os_Getpid : Z).

(** [if err != nil { return err }]. *)
Definition bindr {A B} (r : res A) (k : A -> res B) : res B := match r with Ok a => k a | Err e => Err e end.
#[local] Notation "x <~ r ; k" := (bindr r (fun x => k)) (at level 100, r at next level, right associativity).

Definition wrap {A} (msg : string) (r : res A) : res A :=
  match r with Ok a => Ok a | Err e => Err (ErrWrap msg e) end.

(** api.go *)
Definition resolveHotWallet (cfg : Config) : res PublicKey :=
  if negb (String.eqb (HotWalletSecretBase58 cfg) "") then
    signer <~ wrap "load local signer"
      (NewLocalSignerFromBase58 PrivateKeyFromBase58 PrivateKey_Sign (HotWalletSecretBase58 cfg));
    Ok (Signer_PublicKey signer)
  else if negb (String.eqb (c_HotWalletPubkey cfg) "") then
    wrap "parse SELATPAY_HOT_WALLET_PUBKEY" (PublicKeyFromBase58 (c_HotWalletPubkey cfg))
  else Err (ErrMsg ("set SELATPAY_HOT_WALLET_SECRET_BASE58 (local signer) " +:+
                    "or SELATPAY_HOT_WALLET_PUBKEY (KMS deployment)")).

Definition usdcDecimals : Z := 6.

Definition runAPI (cfg : Config) : res Handlers :=
  _ <~ OpenPool pgx (DBURL cfg);
  hotWalletPub <~ resolveHotWallet cfg;
  usdcMint <~ wrap "parse USDC mint" (PublicKeyFromBase58 (c_USDCMint cfg));
  allocator <~ wrap "build reference allocator" (NewAllocator (ReferenceEncKey cfg));
  let q := New true (MockProvider_Rate (NewMockProvider DefaultMockRates)) (QuoteHMACSecret cfg)
             (mkOptions (QuoteTTL cfg) (QuoteSpreadBps cfg) None) in
  Ok (mkHandlers q allocator hotWalletPub usdcMint usdcDecimals (c_SolanaPayLabel cfg) (c_SolanaPayMessage cfg)).

(** [rdb != nil]: the router caches when an address is configured. *)
Definition api_redis (cfg : Config) : bool := negb (String.eqb (RedisAddr cfg) "").
Definition IdempotencyTTL : Z := 24 * 3600 * ns_per_s.

(** dispatcher.go *)
Definition runDispatcher (cfg : Config) : res process :=
  _ <~ OpenPool pgx (DBURL cfg);
  d <~ NewDispatcher (mkDispatcherConfig "intent.completed" 0 0 0 0 0 0 0);
  Ok (PDispatcher d webhook_Send DTop).

(** orchestrator.go *)
Definition buildPayoutRouter (cfg : Config) : res Router :=
  _ <~ wrap "orchestrator: mock IDR bank config" (rails_Validate (MockBankURL cfg));
  Ok (Payout.NewRouter [mock_idr_bank_rail (mkMockIDRBank (MockBankURL cfg) (bank_request_error (MockBankURL cfg)))]).

Definition orchestratorOwner : res string :=
  host <~ wrap "read hostname" os_Hostname;
  Ok (host +:+ ":" +:+ FormatInt os_Getpid).

Definition runOrchestrator (cfg : Config) : res process :=
  _ <~ OpenPool pgx (DBURL cfg);
  router <~ buildPayoutRouter cfg;
  let registry := NewRegistry (All (mkDeps router)) in
  owner <~ orchestratorOwner;
  runner <~ NewRunner registry (Saga.mkConfig owner 0 0 0 0 0 0);
  Ok (PRunner runner RTop).

(** watcher.go *)
Definition watcherDecimals : Z := 6.

Definition hot_wallet_ata (cfg : Config) : res (PublicKey * PublicKey) :=
  hotWalletPub <~ resolveHotWallet cfg;
  usdcMint <~ wrap "parse USDC mint" (PublicKeyFromBase58 (c_USDCMint cfg));
  ata <~ wrap "derive hot wallet ATA" (FindAssociatedTokenAddress hotWalletPub usdcMint);
  Ok (ata, usdcMint).

Definition runWatcher (cfg : Config) : res process :=
  _ <~ OpenPool pgx (DBURL cfg);
  am <~ hot_wallet_ata cfg;
  Ok (PWatcher (watcher_boot (NewWatcher (Client_RPC (NewClient rpc_New (SolanaRPCURL cfg) (SolanaWSURL cfg)))
        (mkWatcherConfig am.1 am.2 watcherDecimals 0 0 0 0 0)) true)).

(** recon.go: one pass; the exit code of the process. *)
Definition runRecon (cfg : Config) : M Z :=
  wk ← lift_res (_ <~ OpenPool pgx (DBURL cfg);
          am <~ hot_wallet_ata cfg;
          NewWalker true (Some (rpc_balances (SolanaRPCURL cfg))) am.1 am.2);
  report ← Walk wk;
  mret (if String.eqb (Status report) "ok" then 0 else 1).

(** dashboard.go *)
Definition runDashboard (cfg : Config) : res Server :=
  _ <~ OpenPool pgx (DBURL cfg);
  NewServer true.

(** ** main.go *)

Inductive started :=
  | SAPI (h : Handlers)
  | SProcess (p : process)
  | SRecon
  | SDashboard (s : Server)
  | SVersion.

(** The switch of [run], up to the point where the subcommand blocks. *)
Definition run (cmd : string) (cfg : Config) : res started :=
  if String.eqb cmd "api" then h <~ runAPI cfg; Ok (SAPI h)
  else if String.eqb cmd "watcher" then p <~ runWatcher cfg; Ok (SProcess p)
  else if String.eqb cmd "orchestrator" then p <~ runOrchestrator cfg; Ok (SProcess p)
  else if String.eqb cmd "dispatcher" then p <~ runDispatcher cfg; Ok (SProcess p)
  else if String.eqb cmd "recon" then Ok SRecon
  else if String.eqb cmd "dashboard" then s <~ runDashboard cfg; Ok (SDashboard s)
  else if String.eqb cmd "version" then Ok SVersion
  else Err (ErrMsg ("unknown subcommand " +:+ Quote_q cmd)).

(** The exit status of [main] when start-up fails; [None] when the subcommand
    runs. *)
Definition main_exit (args : list string) (env : Environ) : option Z :=
  match args with
  | _ :: cmd :: _ =>
    match Load env with
    | Err _ => Some 1
    | Ok cfg =>
      match SetupTracing otel (ServiceName cfg +:+ "-" +:+ cmd) (OTLPEndpoint cfg) (c_Env cfg) with
      | Err _ => Some 1
      | Ok _ =>
        match run cmd cfg with
        | Ok _ => None
        | Err e => Some (if errors_is ErrCanceled e then 0 else 1)
        end
      end
    end
  | _ => Some 2
  end.

(** ** What is started is what the other files are about *)

Lemma bindr_Ok {A B} (r : res A) (k : A -> res B) b : bindr r k = Ok b -> exists a, r = Ok a /\ k a = Ok b.
Proof. destruct r; [eauto|done]. Qed.

Lemma mock_provider_ok key opts :
  opt_Now opts = None -> ProviderOk (New true (MockProvider_Rate (NewMockProvider DefaultMockRates)) key opts).
Proof.
  intros Hn. assert (E : qr_now (New true (MockProvider_Rate (NewMockProvider DefaultMockRates)) key opts) = get_now)
    by (unfold New; simpl; by rewrite Hn).
  split.
  - intros pair. simpl. unfold MockProvider_Rate. case_match; intros w; done.
  - intros pair R ?. simpl. unfold MockProvider_Rate. case_match; wkeeps_auto.
  - rewrite E. apply keeps_get_now, _.
  - intros R ?. rewrite E. apply wkeeps_get_now, _.
Qed.

Context (Hrpc : forall url, RPCClientOk (rpc_New url)) (Hsend : SenderOk webhook_Send)
  (Hoffline : forall msg, offline (webhook_Send msg)).

Lemma started_process_ok cmd cfg p : run cmd cfg = Ok (SProcess p) -> process_ok p /\ held p = None.
Proof.
  unfold run. destruct (String.eqb cmd "api"); [by intros (h & _ & [=])%bindr_Ok|].
  destruct (String.eqb cmd "watcher").
  { intros (q & Hq & [= <-])%bindr_Ok. unfold runWatcher in Hq.
    apply bindr_Ok in Hq as (? & _ & (am & _ & [= <-])%bindr_Ok). split; [apply Hrpc|done]. }
  destruct (String.eqb cmd "orchestrator").
  { intros (q & Hq & [= <-])%bindr_Ok. unfold runOrchestrator in Hq.
    apply bindr_Ok in Hq as (? & _ & (router & Hr & Hq)%bindr_Ok). apply bindr_Ok in Hq as (owner & _ & (rn & Hn & [= <-])%bindr_Ok).
    apply bindr_Ok in Hr as (? & _ & [= <-]). split; [|done]. simpl.
    eexists (settlement_deps _). split; [apply settlement_rails_ok|].
    unfold NewRunner in Hn. destruct (String.eqb _ _); [done|]. by injection Hn as <-. }
  destruct (String.eqb cmd "dispatcher").
  { intros (q & Hq & [= <-])%bindr_Ok. unfold runDispatcher in Hq.
    apply bindr_Ok in Hq as (? & _ & (d & _ & [= <-])%bindr_Ok). by split. }
  repeat case_match; try done. by intros (? & _ & [=])%bindr_Ok.
Qed.

(** C23: An API server and a watcher started from one accepted environment fit: with
    the database there, a wallet configured and a mint that parses, neither start
    fails (the reference key [Load] accepted is one the allocator takes); the API
    seals with the key and signs with the secret of the environment, for a positive
    time to live; and the watcher accepts a transfer of six decimals exactly when it
    pays the mint the API quotes in to the token account the API gives its intents
    as their deposit address. *)
Theorem api_and_watcher_agree env cfg pool wallet mint ata :
  Load env = Ok cfg -> OpenPool pgx (DBURL cfg) = Ok pool -> resolveHotWallet cfg = Ok wallet ->
  PublicKeyFromBase58 (c_USDCMint cfg) = Ok mint -> FindAssociatedTokenAddress wallet mint = Ok ata ->
  exists h wt, run "api" cfg = Ok (SAPI h) /\ run "watcher" cfg = Ok (SProcess (PWatcher (watcher_boot wt true))) /\
    HotWalletPubkey h = wallet /\ USDCMint h = mint /\
    hex_decode (os_Getenv env "SELATPAY_REFERENCE_ENC_KEY") = Ok (enc_key (h_Allocator h)) /\
    String.length (enc_key (h_Allocator h)) = 32%nat /\
    qr_signingKey (h_Quoter h) = os_Getenv env "SELATPAY_QUOTE_HMAC_SECRET" /\ qr_signingKey (h_Quoter h) <> "" /\
    0 < qr_ttl (h_Quoter h) /\ ProviderOk (h_Quoter h) /\
    forall t, Decimals t = h_USDCDecimals h -> SplParser.Amount t < 2 ^ 63 ->
      (accept_transfer wt t = Ok (Some t) <->
       FindAssociatedTokenAddress (HotWalletPubkey h) (USDCMint h) = Ok (Dest t) /\ Mint t = USDCMint h).
Proof.
  intros Hload Hpool Hw Hm Ha. destruct (proj1 (proj1 (Load_accepts env cfg)) Hload) as [Hc Hk Hl _ (Hq & _ & _)].
  assert (Hal : NewAllocator (ReferenceEncKey cfg) = Ok (mkAllocator (ReferenceEncKey cfg)))
    by (unfold NewAllocator; by rewrite Hl).
  eexists _, _. split_and!.
  - change (run "api" cfg) with (bindr (runAPI cfg) (fun h => Ok (SAPI h))). unfold runAPI. by rewrite Hpool, Hw, Hm, Hal.
  - change (run "watcher" cfg) with (bindr (runWatcher cfg) (fun p => Ok (SProcess p))).
    unfold runWatcher, hot_wallet_ata. rewrite Hpool, Hw, Hm. cbn [bindr wrap]. by rewrite Ha.
  - done.
  - done.
  - exact Hk.
  - exact Hl.
  - by rewrite Hc.
  - done.
  - cbn. case_match; bools; [vm_compute; reflexivity|lia].
  - by apply mock_provider_ok.
  - intros t Hd Hamt. cbn [HotWalletPubkey USDCMint h_USDCDecimals] in *. rewrite Ha. unfold accept_transfer. cbn [w_cfg NewWatcher HotWalletATA cfg_Mint ExpectedDecimals fst snd].
    rewrite Hd. change (usdcDecimals =? watcherDecimals) with true. cbn [negb]. rewrite (proj2 (Z.ltb_ge _ _)) by lia.
    destruct (N.eqb_spec (Dest t) ata) as [->|]; cbn [negb]; [|split; [done|by intros [[=] _]]].
    destruct (N.eqb_spec (Mint t) mint); cbn [negb]; [done|split; [done|by intros [_ ?]]].
Qed.
End boot.

(** ** Witness: a dispatcher starts *)

Section boot_example.
#[local] Existing Instance example_env.
#[local] Existing Instance example_solana.
#[local] Existing Instance example_keys.

Definition example_environ : Environ :=
  <["SELATPAY_DB_URL" := "postgres://localhost/selatpay"]>
  (<["SELATPAY_QUOTE_HMAC_SECRET" := "q"]>
  (<["SELATPAY_WEBHOOK_HMAC_SECRET" := "w"]>
  (<["SELATPAY_API_KEY_PEPPER" := "p"]>
  (<["SELATPAY_REFERENCE_ENC_KEY" := hex (repeat_byte (Ascii.ascii_of_N 75) 32)]>
  (<["SELATPAY_QUOTE_TTL" := "90s"]> ∅))))).

Definition boot_config : Config := config_of example_environ (repeat_byte (Ascii.ascii_of_N 75) 32).

Lemma example_load : Load example_environ = Ok boot_config.
Proof. vm_compute. reflexivity. Qed.

(** A database that is always there. *)
Definition example_pgx : PgxPool :=
  mkPgxPool (fun dsn => Ok (mkPoolConfig dsn 0 0 0 0 0)) (fun _ => Ok tt) (fun _ => Ok tt).

Definition wallet_environ : Environ :=
  <["SELATPAY_HOT_WALLET_PUBKEY" := "103"]> (<["SELATPAY_USDC_MINT" := "102"]> example_environ).
Definition wallet_config : Config := config_of wallet_environ (repeat_byte (Ascii.ascii_of_N 75) 32).

Definition example_run : string -> Config -> res started :=
  run example_pgx (fun _ => Err (ErrMsg "no key")) (fun _ _ => Err (ErrMsg "no key")) (fun _ => example_rpc)
    accept_all (fun _ => None) (Ok "host") 7.

Lemma api_and_watcher_agree_witness :
  exists h wt, example_run "api" wallet_config = Ok (SAPI h) /\
    example_run "watcher" wallet_config = Ok (SProcess (PWatcher (watcher_boot wt true))) /\
    accept_transfer wt (mkSPLTransfer 1%N 102%N 103102%N 2%N 5 6) = Ok (Some (mkSPLTransfer 1%N 102%N 103102%N 2%N 5 6)).
Proof.
  destruct (api_and_watcher_agree example_pgx (fun _ => Err (ErrMsg "no key")) (fun _ _ => Err (ErrMsg "no key")) (fun _ => example_rpc)
    accept_all (fun _ => None) (Ok "host") 7 wallet_environ wallet_config
    (pool_settings (mkPoolConfig "postgres://localhost/selatpay" 0 0 0 0 0)) 103%N 102%N 103102%N)
    as (h & wt & Hapi & Hwt & Hw & Hm & _ & _ & _ & _ & _ & _ & Hacc); [vm_compute; reflexivity..|].
  exists h, wt. split; [exact Hapi|]. split; [exact Hwt|]. apply Hacc; [|vm_compute; reflexivity|rewrite Hw, Hm; split; reflexivity].
  injection Hapi as <-. reflexivity.
Defined.
End boot_example.
