(* ===== verification/KeyFile.v ===== *)
(** * Key files ([scripts/keygen/main.go], the payer's key of [scripts/pay/main.go])

    The machine a script runs on (its files, clock and terminal), the two loaders
    of keypair files, and what the key generator prints. *)

From S2P Require Import Prelude GoStr Sha256 MockBank Models World GoJson JsonDecode GoUrl SplParser Reference Config Processes Boot.
From Stdlib Require Import Ascii String.

Implicit Types (path : string).

(** ** The machine *)

(** Files by path, existing directories, paths the user may not touch, the random
    source, the clock, the text printed so far and the transactions handed to a
    cluster.  Paths are compared as they are written. *)
Record Machine := mkMachine {
  ho_files : gmap string string; ho_dirs : gset string; ho_denied : gset string;
  ho_rng : N; ho_now : Z; ho_out : string; ho_sent : list Transaction
}.

(** A script ends with a result or an error, or the runtime stops it ([None]). *)
Definition Sh (A : Type) : Type := Machine -> option (res A) * Machine.

#[global] Instance Sh_ret : MRet Sh := fun A a h => (Some (Ok a), h).
#[global] Instance Sh_bind : MBind Sh := fun A B k m h =>
  match m h with
  | (Some (Ok a), h) => k a h
  | (Some (Err e), h) => (Some (Err e), h)
  | (None, h) => (None, h)
  end.

Definition fails {A} (e : err) : Sh A := fun h => (Some (Err e), h).
Definition panics {A} : Sh A := fun h => (None, h).
Definition sh_res {A} (r : res A) : Sh A := fun h => (Some r, h).
Definition sh_wrap {A} (msg : string) (m : Sh A) : Sh A := fun h =>
  match m h with (Some (Err e), h) => (Some (Err (ErrWrap msg e)), h) | r => r end.
(** The result of [m], error included, as a value. *)
Definition sh_try {A} (m : Sh A) : Sh (res A) := fun h =>
  match m h with (Some r, h) => (Some (Ok r), h) | (None, h) => (None, h) end.
Definition print (s : string) : Sh unit := fun h =>
  (Some (Ok tt), mkMachine (ho_files h) (ho_dirs h) (ho_denied h) (ho_rng h) (ho_now h) (ho_out h +:+ s) (ho_sent h)).
Definition println (s : string) : Sh unit := print (s +:+ newline).

(** Package os. *)
Definition ErrNotExist : err := ErrSentinel "no such file or directory".
Definition ErrPermission : err := ErrSentinel "permission denied".

(** The directory a path lies in: [None] is the working directory, the empty path
    the root. *)
Definition dir_of path : option string := fst <$> cut_last "/" path.

Definition dir_exists (h : Machine) (d : option string) : bool :=
  match d with None => true | Some d => bool_decide (d = "") || bool_decide (d = ".") || bool_decide (d ∈ ho_dirs h) end.

Definition ReadFile path : Sh string := fun h =>
  (Some (if bool_decide (path ∈ ho_denied h) then Err (ErrWrap ("open " +:+ path) ErrPermission)
         else match ho_files h !! path with
         | Some bs => Ok bs
         | None =>
           if bool_decide (path ∈ ho_dirs h) then Err (ErrMsg ("read " +:+ path +:+ ": is a directory"))
           else Err (ErrWrap ("open " +:+ path) ErrNotExist)
         end), h).

Definition WriteFile path (bs : string) : Sh unit := fun h =>
  if bool_decide (path ∈ ho_denied h) then (Some (Err (ErrWrap ("open " +:+ path) ErrPermission)), h)
  else if bool_decide (path ∈ ho_dirs h) then (Some (Err (ErrMsg ("open " +:+ path +:+ ": is a directory"))), h)
  else if bool_decide (path = "") || negb (dir_exists h (dir_of path)) then
    (Some (Err (ErrWrap ("open " +:+ path) ErrNotExist)), h)
  else (Some (Ok tt), mkMachine (<[path := bs]> (ho_files h)) (ho_dirs h) (ho_denied h) (ho_rng h) (ho_now h) (ho_out h) (ho_sent h)).

(** A directory and those it lies in. *)
Fixpoint ancestors (fuel : nat) (d : string) : list string :=
  match fuel with
  | O => []
  | S fuel => d :: match dir_of d with Some p => ancestors fuel p | None => [] end
  end.
Definition parents (d : string) : list string := ancestors (S (String.length d)) d.

Definition MkdirAll (d : string) : Sh unit := fun h =>
  if dir_exists h (Some d) && negb (bool_decide (d = "")) then (Some (Ok tt), h)
  else if bool_decide (d = "") then (Some (Err (ErrWrap "mkdir " ErrNotExist)), h)
  else if existsb (fun p => bool_decide (p ∈ ho_denied h)) (parents d) then (Some (Err (ErrWrap ("mkdir " +:+ d) ErrPermission)), h)
  else if existsb (fun p => bool_decide (is_Some (ho_files h !! p))) (parents d) then
    (Some (Err (ErrMsg ("mkdir " +:+ d +:+ ": not a directory"))), h)
  else (Some (Ok tt), mkMachine (ho_files h) (list_to_set (parents d) ∪ ho_dirs h) (ho_denied h) (ho_rng h) (ho_now h) (ho_out h) (ho_sent h)).

(** ** Keypairs *)

Section keys.
Context `{Keys} `{Solana} (PrivateKey_String : string -> string).

(** [solana.Wallet]. *)
Record Wallet := mkWallet { Wallet_PrivateKey : string }.
Definition Wallet_PublicKey (w : Wallet) : PublicKey := PrivateKey_PublicKey (Wallet_PrivateKey w).

(** [solana.NewWallet()] stops the program when no randomness can be read. *)
Definition NewWallet : Sh Wallet := fun h =>
  let h' := mkMachine (ho_files h) (ho_dirs h) (ho_denied h) (ho_rng h + 1)%N (ho_now h) (ho_out h) (ho_sent h) in
  match random_private_key (ho_rng h) with
  | Ok p => (Some (Ok (mkWallet p)), h')
  | Err _ => (None, h')
  end.

(** [json.Unmarshal(bs, &raw)] into a nil byte slice; the library's message is not
    spelled out. *)
Definition unmarshal_bytes (bs : string) : res string :=
  match whole_value bs with
  | None => Err (ErrMsg "invalid JSON")
  | Some v =>
    match set_bytes None v with
    | Some b => Ok (default "" b)
    | None => Err (ErrMsg "json: cannot unmarshal into Go value of type []uint8")
    end
  end.

(** [json.Marshal([]byte(priv))]. *)
Definition marshal_key (priv : string) : string := Marshal (json_bytes (Some priv)).

(** keygen *)
Definition loadOrCreate path : Sh Wallet :=
  bs ← sh_try (ReadFile path);
  match bs with
  | Ok bs => raw ← sh_wrap ("unmarshal " +:+ path) (sh_res (unmarshal_bytes bs)); mret (mkWallet raw)
  | Err e =>
    if negb (errors_is ErrNotExist e) then fails e
    else
      w ← NewWallet;
      _ ← WriteFile path (marshal_key (Wallet_PrivateKey w));
      mret w
  end.

(** [enc.SetIndent] with two blanks, on an object of strings. *)
Definition indent_fields (fs : list (string * string)) : string :=
  "{" +:+ newline +:+
  String.concat ("," +:+ newline) ((fun '(k, v) => "  " +:+ json_string k +:+ ": " +:+ json_string v) <$> fs)
  +:+ newline +:+ "}" +:+ newline.

Definition keygen_output path (w : Wallet) : string :=
  indent_fields [("pubkey", PublicKey_String (Wallet_PublicKey w));
                 ("secret_base58", PrivateKey_String (Wallet_PrivateKey w)); ("file", path)].

(** The argument is the value of the [--out] flag. *)
Definition keygen_run path : Sh unit :=
  if bool_decide (path = "") then fails (ErrMsg "--out is required")
  else
    wallet ← loadOrCreate path;
    print (keygen_output path wallet).

(** pay *)
Definition parentDir path : string :=
  match cut_last "/" path with Some (d, _) => d | None => "." end.

Definition loadOrCreatePayer path : Sh Wallet :=
  if bool_decide (path = "") then fails (ErrMsg "payer path empty")
  else
    bs ← sh_try (ReadFile path);
    match bs with
    | Ok bs => raw ← sh_wrap ("unmarshal keypair " +:+ path) (sh_res (unmarshal_bytes bs)); mret (mkWallet raw)
    | Err e =>
      if negb (errors_is ErrNotExist e) then fails e
      else
        w ← NewWallet;
        _ ← MkdirAll (parentDir path);
        _ ← WriteFile path (marshal_key (Wallet_PrivateKey w));
        _ ← print ("generated payer keypair at " +:+ path +:+ newline);
        mret w
    end.
End keys.

(** ** Lemmas *)

(** What is written reads back. *)
Lemma unmarshal_marshal priv : unmarshal_bytes (marshal_key priv) = Ok priv.
Proof.
  unfold unmarshal_bytes, marshal_key. rewrite whole_value_Marshal by (apply json_bytes_valid || done).
  by rewrite set_bytes_json.
Qed.

(** The file of the Solana command line: an array of the key's bytes. *)
Fixpoint cli_bytes (priv : string) : list json :=
  match priv with
  | EmptyString => []
  | String c priv => JNum (byte_of c) :: cli_bytes priv
  end.

Lemma byte_elems_cli priv : byte_elems "" (map embed (cli_bytes priv)) = Some priv.
Proof.
  induction priv as [|c priv IH]; [done|]. pose proof (byte_of_range c) as Hc.
  cbn [cli_bytes map embed byte_elems]. rewrite IH. unfold FormatInt.
  rewrite (proj2 (Z.ltb_ge _ 0)) by lia. rewrite ParseUint_FormatUint by lia.
  rewrite (proj2 (Z.leb_le _ 255)) by lia. by rewrite chr_byte.
Qed.

Lemma cli_flat priv : forallb valid_json (cli_bytes priv) = true /\ nesting (JArr (cli_bytes priv)) = 1.
Proof.
  cbn [nesting]. induction priv as [|c priv [IH1 IH2]]; [done|]. split; [exact IH1|].
  cbn [cli_bytes foldr nesting]. revert IH2. generalize (foldr (fun x m => Z.max (nesting x) m) 0 (cli_bytes priv)). lia.
Qed.

Lemma open_denied path : errors_is ErrNotExist (ErrWrap ("open " +:+ path) ErrPermission) = false.
Proof. reflexivity. Qed.
Lemma open_missing path : errors_is ErrNotExist (ErrWrap ("open " +:+ path) ErrNotExist) = true.
Proof. reflexivity. Qed.

(** Run a script on a machine and go through what [os.ReadFile] can answer for
    [path]; the cases left are a file and no file. *)
Ltac sh_run := unfold mbind, Sh_bind, sh_try, sh_wrap, sh_res, mret, Sh_ret, fails, ReadFile, NewWallet, WriteFile, MkdirAll, print.
Ltac read_cases path h :=
  destruct (bool_decide (path ∈ ho_denied h)) eqn:Hden; [rewrite open_denied; done|];
  destruct (ho_files h !! path) as [bs|] eqn:Hf;
  [|destruct (bool_decide (path ∈ ho_dirs h)) eqn:Hdir; [done|]; rewrite open_missing; cbn [negb]].

Section theorems.
Context `{Keys} `{Solana}.

(** The loader of the key generator leaves a file the payer's loader reads as the
    same wallet. *)
Lemma load_after_create path w h h' :
  path <> "" -> loadOrCreate path h = (Some (Ok w), h') ->
  loadOrCreatePayer path h' = (Some (Ok w), h') /\ loadOrCreate path h' = (Some (Ok w), h').
Proof.
  intros Hp. unfold loadOrCreate, loadOrCreatePayer. rewrite bool_decide_false by done. sh_run. read_cases path h.
  - destruct (unmarshal_bytes bs) as [raw|e] eqn:Hu; [|done]. intros [= <- <-]. rewrite Hden, Hf, Hu. done.
  - destruct (random_private_key (ho_rng h)) as [p|e]; [|intros [=]].
    cbn [ho_denied ho_dirs ho_files ho_rng ho_now ho_out]. rewrite Hden, Hdir.
    destruct (_ || _); [done|]. intros [= <- <-]. cbn [ho_denied ho_dirs ho_files Wallet_PrivateKey].
    rewrite Hden, lookup_insert_eq, unmarshal_marshal. done.
Qed.

(** A key file in the format of the Solana command line is read as the same key. *)
Lemma unmarshal_cli priv : unmarshal_bytes (Marshal (JArr (cli_bytes priv))) = Ok priv.
Proof.
  destruct (cli_flat priv) as [Hv Hn]. unfold unmarshal_bytes.
  rewrite whole_value_Marshal; [|exact Hv|rewrite Hn; unfold maxNestingDepth; lia].
  cbn [embed set_bytes default]. by rewrite byte_elems_cli.
Qed.

(** A created file is not in that format: it holds one JSON text, the key in base64. *)
Lemma created_file_is_text path w h h' :
  ho_files h !! path = None -> loadOrCreate path h = (Some (Ok w), h') ->
  ho_files h' !! path = Some (json_string (b64_encode (Wallet_PrivateKey w))).
Proof.
  intros Hnone. unfold loadOrCreate. sh_run. read_cases path h; [congruence|].
  destruct (random_private_key (ho_rng h)) as [p|e]; [|intros [=]].
  cbn [ho_denied ho_dirs ho_files ho_rng ho_now ho_out]. rewrite Hden, Hdir.
  destruct (_ || _); [done|]. intros [= <- <-]. cbn [ho_files Wallet_PrivateKey]. by rewrite lookup_insert_eq.
Qed.

Lemma loadOrCreate_out path w h h' : loadOrCreate path h = (Some (Ok w), h') -> ho_out h' = ho_out h.
Proof.
  unfold loadOrCreate. sh_run. intros. split_matches.
Qed.

Context (PrivateKey_String : string -> string) (PrivateKeyFromBase58 : string -> res string)
  (PrivateKey_Sign : string -> string -> res string).

(** The base58 text of a valid private key is not empty and is read back as that
    key. *)
Definition secret_text_ok : Prop := forall priv, PrivateKey_IsValid priv = true ->
  PrivateKey_String priv <> "" /\ PrivateKeyFromBase58 (PrivateKey_String priv) = Ok priv.

Lemma keygen_run_inv path h h' :
  keygen_run PrivateKey_String path h = (Some (Ok tt), h') ->
  exists w h1, loadOrCreate path h = (Some (Ok w), h1) /\ print (keygen_output PrivateKey_String path w) h1 = (Some (Ok tt), h').
Proof.
  unfold keygen_run. case_bool_decide; [done|]. unfold mbind, Sh_bind.
  destruct (loadOrCreate path h) as [[[w|e]|] h1]; [|done..]. eauto.
Qed.

(** Printing touches nothing a loader looks at. *)
Lemma load_after_print path s h h' :
  print s h = (Some (Ok tt), h') -> forall w, loadOrCreatePayer path h = (Some (Ok w), h) ->
  loadOrCreatePayer path h' = (Some (Ok w), h').
Proof.
  intros [= <-] w. unfold loadOrCreatePayer. case_bool_decide; [done|]. sh_run. cbn [ho_denied ho_dirs ho_files].
  read_cases path h; [destruct (unmarshal_bytes bs); [by intros [= <-]|done]|].
  destruct (random_private_key (ho_rng h)) as [p|e]; [|intros [=]].
  split_matches; intros [= _ E%(f_equal ho_rng)]; cbn in E; lia.
Qed.

(** C37: One key pair serves the demonstration: when the key generator succeeds on a
    path, it has printed the public key and the secret of one wallet, the payment
    simulator reads that wallet from the file, and a deployment configured with the
    printed secret takes payments at the printed public key. *)
Theorem keygen_wallet path h h' :
  path <> "" -> secret_text_ok -> keygen_run PrivateKey_String path h = (Some (Ok tt), h') ->
  exists w, ho_out h' = ho_out h +:+ keygen_output PrivateKey_String path w /\
    loadOrCreatePayer path h' = (Some (Ok w), h') /\
    forall cfg, PrivateKey_IsValid (Wallet_PrivateKey w) = true ->
      HotWalletSecretBase58 cfg = PrivateKey_String (Wallet_PrivateKey w) ->
      resolveHotWallet PrivateKeyFromBase58 PrivateKey_Sign cfg = Ok (Wallet_PublicKey w).
Proof.
  intros Hp Hs (w & h1 & Hl & Hpr)%keygen_run_inv. exists w.
  destruct (load_after_create path w h h1 Hp Hl) as [Hpay _]. split_and!.
  - injection Hpr as <-. cbn. f_equal. by eapply loadOrCreate_out.
  - by eapply load_after_print.
  - intros cfg Hv Hc. destruct (Hs _ Hv) as [Hne Hinv]. unfold resolveHotWallet. rewrite Hc.
    rewrite (proj2 (String.eqb_neq _ _) Hne). unfold NewLocalSignerFromBase58, NewLocalSignerFromPrivateKey.
    by rewrite Hinv, Hv.
Qed.
End theorems.

(** ** Witnesses *)

Definition example_machine : Machine := mkMachine ∅ ∅ ∅ 0%N 0 "" [].

(** The wallet the generator makes there, and a configuration with its secret. *)
Definition example_secret (p : string) : string := String "s" p.
Definition example_run_keygen : option (res unit) * Machine :=
  keygen_run (H := example_keys) (H0 := example_solana) example_secret "keys.json" example_machine.
Definition example_wallet_config : Config :=
  config_of (<["SELATPAY_HOT_WALLET_SECRET_BASE58" := "sk"]> example_environ) (repeat_byte (Ascii.ascii_of_N 75) 32).

Lemma keygen_wallet_witness : exists w,
  loadOrCreatePayer (H := example_keys) "keys.json" example_run_keygen.2 = (Some (Ok w), example_run_keygen.2) /\
  Wallet_PublicKey (H := example_keys) w = 1%N /\
  resolveHotWallet (H0 := example_solana) (H1 := example_keys) (fun s => Ok (str_drop 1 s)) (fun _ m => Ok m) example_wallet_config = Ok 1%N.
Proof.
  destruct (@keygen_wallet example_keys example_solana example_secret
              (fun s => Ok (str_drop 1 s)) (fun _ m => Ok m) "keys.json" example_machine example_run_keygen.2)
    as (w & Hout & Hl & Hcfg); [done|by intros p|vm_compute; reflexivity|].
  exists w. split; [exact Hl|]. vm_compute in Hl. injection Hl as <-. split; [vm_compute; reflexivity|].
  apply (Hcfg example_wallet_config); reflexivity.
Defined.

(** The parent of a file in the root directory is computed as the empty path, which
    cannot be made: a new key is refused there. *)
Example payer_in_root :
  (loadOrCreatePayer (H := example_keys) "/payer.json" example_machine).1 = Some (Err (ErrWrap "mkdir " ErrNotExist)).
Proof. vm_compute. reflexivity. Qed.
