(* ===== verification/PayScript.v ===== *)
(** * The payment simulator ([scripts/pay/main.go])

    Reading a transfer-request URL the way a wallet does, funding the payer on a
    local validator, and the transaction that is sent. *)

From S2P Require Import Prelude GoStr Sha256 MockBank Models World GoJson JsonDecode GoUrl SolanaPay BigRat SplParser PayUrl Reference Watcher Api ApiSpec ApiRouter Config Processes Boot KeyFile.
From Stdlib Require Import Ascii String SpecFloat.

(** ** Amounts *)

Definition decimalToRaw (s : string) (decimals : Z) : res Z :=
  match Rat_SetString s with
  | None => Err (ErrMsg ("invalid decimal " +:+ Quote_q s))
  | Some rat =>
    let rat := Rat_Mul rat (Rat_SetInt (10 ^ decimals)) in
    if negb (IsInt rat) then
      Err (ErrMsg ("amount " +:+ s +:+ " exceeds " +:+ FormatInt decimals +:+ " decimals of precision"))
    else
      let v := Num rat in
      if v <? 0 then Err (ErrMsg "amount must be non-negative")
      else if 2 ^ 64 <=? v then Err (ErrMsg "amount overflows uint64")
      else Ok v
  end.

(** ** URLs *)

Record solanaPayURL := mkSolanaPayURL {
  recipient : PublicKey; splMint : PublicKey; amountRaw : Z; sp_decimals : Z;
  references : list PublicKey; label : string; message : string
}.

(** [strings.TrimPrefix]. *)
Definition TrimPrefix (s p : string) : string := default s (drop_prefix p s).

Section script.
Context `{Solana}.

(** The text of the recipient: the opaque part, else the host, else the path. *)
Definition recipient_text (u : URL) : string :=
  let rec := TrimPrefix (Opaque u) "//" in
  let rec := if bool_decide (rec = "") then Host u else rec in
  if bool_decide (rec = "") then Path u else rec.

Fixpoint pay_references (refs : list string) : res (list PublicKey) :=
  match refs with
  | [] => Ok []
  | r :: refs =>
    match PublicKeyFromBase58 r with
    | Err e => Err (ErrWrap "reference" e)
    | Ok ref => match pay_references refs with Ok ks => Ok (ref :: ks) | Err e => Err e end
    end
  end.

#[local] Notation "x <~ r ; k" := (bindr r (fun x => k)) (at level 100, r at next level, right associativity).

Definition parseSolanaPay (raw : string) : res solanaPayURL :=
  u <~ url_Parse raw;
  if negb (String.eqb (Scheme u) "solana") then
    Err (ErrMsg ("expected scheme solana, got " +:+ Quote_q (Scheme u)))
  else
    recipient <~ wrap "recipient" (PublicKeyFromBase58 (recipient_text u));
    let q := ParseQuery (RawQuery u) in
    let mintStr := Values_Get q "spl-token" in
    if bool_decide (mintStr = "") then Err (ErrMsg "missing spl-token")
    else
      mint <~ wrap "spl-token" (PublicKeyFromBase58 mintStr);
      let amtStr := Values_Get q "amount" in
      if bool_decide (amtStr = "") then Err (ErrMsg "missing amount")
      else
        amountRaw <~ wrap "amount" (decimalToRaw amtStr 6);
        refs <~ pay_references (values q "reference");
        Ok (mkSolanaPayURL recipient mint amountRaw 6 refs (Values_Get q "label") (Values_Get q "message")).

(** ** Small helpers *)

(** [strings.Contains]. *)
Fixpoint contains (p s : string) : bool :=
  String.prefix p s || match s with EmptyString => false | String _ s => contains p s end.

Definition parseCommitment (s : string) : string :=
  let s := lower_text s in
  if String.eqb s "processed" then "processed"
  else if String.eqb s "finalized" then "finalized"
  else "confirmed".

Definition isLocalValidator (rpcURL : string) : bool := contains "localhost" rpcURL || contains "127.0.0.1" rpcURL.

Definition explorerURL (rpcURL : string) (sig : TxSignature) : string :=
  let base := "https://explorer.solana.com/tx/" +:+ Signature_String sig in
  if contains "localhost" rpcURL || contains "127.0.0.1" rpcURL then
    base +:+ "?cluster=custom&customUrl=" +:+ rpcURL
  else if contains "devnet" rpcURL then base +:+ "?cluster=devnet"
  else if contains "testnet" rpcURL then base +:+ "?cluster=testnet"
  else base.

(** [envOr]: an empty variable counts as unset. *)
Definition envOr (env : Environ) (key def : string) : string :=
  let v := os_Getenv env key in if bool_decide (v = "") then def else v.

(** ** The cluster *)

(** What the script calls of an RPC endpoint at a time: the answer and how long it
    took. *)
Record PayRPC := mkPayRPC {
  GetBalance : PublicKey -> Z -> res Z * Z;
  RequestAirdrop : PublicKey -> Z -> Z -> res TxSignature * Z;
  GetSignatureStatuses : TxSignature -> Z -> res (list (option string)) * Z;
  GetLatestBlockhash : Z -> res string * Z;
  SendAndConfirmTransaction : Transaction -> string -> Z -> res TxSignature * Z
}.

Definition at_time (h : Machine) (t : Z) : Machine :=
  mkMachine (ho_files h) (ho_dirs h) (ho_denied h) (ho_rng h) t (ho_out h) (ho_sent h).

Definition call {A} (f : Z -> res A * Z) : Sh A := fun h =>
  let '(r, elapsed) := f (ho_now h) in (Some r, at_time h (ho_now h + Z.max 0 elapsed)).

Definition airdrop_confirmed (st : res (list (option string))) : bool :=
  match st with Ok [Some status] => String.eqb status "confirmed" | _ => false end.

(** The polling loop: every round takes at least half a second. *)
Fixpoint await_airdrop (fuel : nat) (cli : PayRPC) (deadline : Z) (sig : TxSignature) : Sh unit := fun h =>
  let late := (Some (Err (ErrMsg ("airdrop " +:+ Signature_String sig +:+ " did not confirm in time"))), h) in
  match fuel with
  | O => late
  | S fuel =>
    if ho_now h <? deadline then
      let '(st, h1) := sh_try (call (GetSignatureStatuses cli sig)) h in
      match st with
      | Some (Ok st) =>
        if airdrop_confirmed st then (Some (Ok tt), h1)
        else await_airdrop fuel cli deadline sig (at_time h1 (ho_now h1 + ns_per_s / 2))
      | _ => (None, h1)
      end
    else late
  end.

(** Thirty seconds of half-second rounds. *)
Definition airdrop_fuel : nat := 61.

Definition await_from_now (cli : PayRPC) (sig : TxSignature) : Sh unit := fun h =>
  await_airdrop airdrop_fuel cli (ho_now h + 30 * ns_per_s) sig h.

(** [uint64(x)]; out of range the value depends on the machine. *)
Definition to_uint64 (other : spec_float -> Z) (x : spec_float) : Z :=
  match x with
  | S754_zero _ => 0
  | S754_finite false _ _ => if truncate x <? 2 ^ 64 then truncate x else other x
  | S754_finite true m e => if truncate (S754_finite false m e) =? 0 then 0 else other x
  | _ => other x
  end.

Context `{Keys} (LAMPORTS_PER_SOL : Z) (uint64_other : spec_float -> Z).

Definition ensureMinSOL (cli : PayRPC) (who : PublicKey) (minSOL : spec_float) : Sh unit :=
  bal ← call (GetBalance cli who);
  let want := to_uint64 uint64_other (SFmul 53 1024 minSOL (float64 LAMPORTS_PER_SOL)) in
  if want <=? bal then mret tt
  else
    let missing := want - bal in
    _ ← print ("airdrop      requesting " +:+ FormatInt missing +:+ " lamports to " +:+ PublicKey_String who +:+ newline);
    sig ← call (RequestAirdrop cli who missing);
    await_from_now cli sig.

(** ** The transaction *)

(** The instructions the script builds with the library's builders: the payer, the
    wallet and the mint of a token account to create; the fields of a
    TransferChecked and the accounts appended to it. *)
Inductive Instruction :=
  | CreateIdempotent (payer wallet mint : PublicKey)
  | TransferChecked (amount decimals : Z) (source mint dest owner : PublicKey) (appended : list PublicKey).

Definition pay_instructions (pay : solanaPayURL) (payer srcATA : PublicKey) : list Instruction :=
  [CreateIdempotent payer payer (splMint pay);
   TransferChecked (amountRaw pay) (sp_decimals pay) srcATA (splMint pay) (recipient pay) payer (references pay)].

(** The libraries: compiling, signing (the argument finds the key of a required
    signer) and printing a transaction, the RPC endpoint of a URL, and connecting
    to a websocket. *)
Context (NewTransaction : list Instruction -> string -> PublicKey -> res Transaction)
  (Transaction_Sign : Transaction -> (PublicKey -> option string) -> res Transaction)
  (Transaction_String : Transaction -> string) (rpc_client : string -> PayRPC) (ws_Connect : string -> Z -> res unit * Z).

Record PayFlags := mkPayFlags {
  fl_rpc : string; fl_ws : string; fl_url : string; fl_payer : string;
  fl_minSOL : spec_float; fl_commitment : string; fl_dry : bool
}.

(** The flags of a command line that sets none but the URL. *)
Definition default_flags (env : Environ) (url : string) : PayFlags := mkPayFlags
  (envOr env "SELATPAY_SOLANA_RPC_URL" "http://localhost:8899")
  (envOr env "SELATPAY_SOLANA_WS_URL" "ws://localhost:8900") url "scripts/keys/payer.json"
  (SFdiv 53 1024 (float64 1) (float64 2)) "confirmed" false.

(** [%v] of a slice of keys. *)
Definition keys_text (ks : list PublicKey) : string := "[" +:+ String.concat " " (PublicKey_String <$> ks) +:+ "]".

Definition describe (pay : solanaPayURL) (payer : PublicKey) : string :=
  "payer        " +:+ PublicKey_String payer +:+ newline +:+
  "recipient    " +:+ PublicKey_String (recipient pay) +:+ newline +:+
  "mint         " +:+ PublicKey_String (splMint pay) +:+ newline +:+
  "amount       " +:+ FormatInt (amountRaw pay) +:+ " (raw, decimals=" +:+ FormatInt (sp_decimals pay) +:+ ")" +:+ newline +:+
  "references   " +:+ keys_text (references pay) +:+ newline.

(** Handing the transaction to the cluster. *)
Definition submit (cli : PayRPC) (tx : Transaction) (commit : string) : Sh TxSignature := fun h =>
  call (SendAndConfirmTransaction cli tx commit)
    (mkMachine (ho_files h) (ho_dirs h) (ho_denied h) (ho_rng h) (ho_now h) (ho_out h) (ho_sent h ++ [tx])).

(** The closure that finds the signing key. *)
Definition key_of (payer : Wallet) (key : PublicKey) : option string :=
  if N.eqb key (Wallet_PublicKey payer) then Some (Wallet_PrivateKey payer) else None.

Definition build_payment (cli : PayRPC) (pay : solanaPayURL) (payer : Wallet) : Sh Transaction :=
  srcATA ← sh_wrap "derive source ata" (sh_res (FindAssociatedTokenAddress (Wallet_PublicKey payer) (splMint pay)));
  _ ← print ("source ata   " +:+ PublicKey_String srcATA +:+ newline);
  recent ← sh_wrap "blockhash" (call (GetLatestBlockhash cli));
  tx ← sh_wrap "build tx" (sh_res (NewTransaction (pay_instructions pay (Wallet_PublicKey payer) srcATA) recent (Wallet_PublicKey payer)));
  sh_wrap "sign tx" (sh_res (Transaction_Sign tx (key_of payer))).

Definition pay_run (fl : PayFlags) : Sh unit :=
  if bool_decide (fl_url fl = "") then fails (ErrMsg "--url is required")
  else
    pay ← sh_wrap "parse url" (sh_res (parseSolanaPay (fl_url fl)));
    payer ← sh_wrap "load payer" (loadOrCreatePayer (fl_payer fl));
    _ ← print (describe pay (Wallet_PublicKey payer));
    let cli := rpc_client (fl_rpc fl) in
    _ ← (if isLocalValidator (fl_rpc fl)
         then sh_wrap "airdrop" (ensureMinSOL cli (Wallet_PublicKey payer) (fl_minSOL fl)) else mret tt);
    tx ← build_payment cli pay payer;
    if fl_dry fl then println ("--- transaction (dry run, not submitted) ---" +:+ newline +:+ Transaction_String tx)
    else
      _ ← sh_wrap "ws connect" (call (ws_Connect (fl_ws fl)));
      sig ← sh_wrap "send" (submit cli tx (parseCommitment (fl_commitment fl)));
      print (newline +:+ "signature    " +:+ Signature_String sig +:+ newline +:+
             "explorer     " +:+ explorerURL (fl_rpc fl) sig +:+ newline).
End script.

(** ** Amounts agree with the server's *)

Definition amount_overflow : err := ErrMsg "amount overflows uint64".

(** A decimal of at most [decimals] places is scaled exactly. *)
Lemma decimalToRaw_plain w f decimals :
  plain_decimal w f -> decimal_scale f <= decimals <= 10 ^ 6 ->
  decimalToRaw (decimal_text w f) decimals =
    let n := decimal_value w f * 10 ^ (decimals - decimal_scale f) in
    if 2 ^ 64 <=? n then Err amount_overflow else Ok n.
Proof.
  intros Hp Hd. assert (Hs : 0 <= decimal_scale f) by (destruct f; cbn; lia). unfold decimalToRaw.
  rewrite SetString_decimal by (done || lia).
  assert (Hq : 10 ^ decimals = 10 ^ (decimals - decimal_scale f) * 10 ^ decimal_scale f) by (rewrite <- Z.pow_add_r by lia; f_equal; lia).
  rewrite Rat_Mul_multiple; [|by apply Z.pow_pos_nonneg; lia|by apply Z.pow_pos_nonneg; lia|eexists; exact Hq].
  unfold IsInt. cbn [Num Denom]. rewrite Hq, Z.div_mul by (pose proof (Z.pow_pos_nonneg 10 (decimal_scale f)); lia).
  change (negb (1 =? 1)) with false. cbv iota.
  pose proof (decimal_value_nonneg w f Hp). pose proof (Z.pow_pos_nonneg 10 (decimals - decimal_scale f) ltac:(lia) ltac:(lia)).
  rewrite (proj2 (Z.ltb_ge _ 0)) by nia. reflexivity.
Qed.

Lemma cut_byte_Some b s l r : cut_byte b s = Some (l, r) -> s = l +:+ String b r.
Proof.
  revert l. induction s as [|c s IH]; intros l; [done|]. cbn [cut_byte].
  destruct (Ascii.eqb_spec c b) as [->|]; [by intros [= <- <-]|].
  destruct (cut_byte b s) as [[l' r']|]; [|done]. intros [= <- <-]. by rewrite (IH l').
Qed.

Lemma ParseUint_inv s v : ParseUint s = Ok v -> s <> "" /\ all_digits s = true /\ v = dec_value 0 s /\ v < 2 ^ 64.
Proof.
  unfold ParseUint. destruct s as [|c s]; [done|]. intros Hv.
  destruct (parse_digits_inv (2 ^ 64 - 1) (String c s) 0 v ltac:(lia) Hv) as (? & ? & ?). split_and!; [done..|lia].
Qed.

(** What [ParseAmount] accepts is a plain decimal, and what it returns is its
    scaled value modulo 2^64. *)
Lemma ParseAmount_inv s decimals v :
  ParseAmount s decimals = Ok v -> 0 <= decimals <= 19 ->
  exists w f, s = decimal_text w f /\ plain_decimal w f /\ decimal_scale f <= decimals /\
    v = wrapu64 (decimal_value w f * 10 ^ (decimals - decimal_scale f)).
Proof.
  intros Hs Hd. unfold ParseAmount in Hs. case_bool_decide; [done|]. destruct (_ || _); [done|].
  unfold split_point in Hs. rewrite uint64_pow10 in Hs by done.
  destruct (cut_byte "." s) as [[w f]|] eqn:Hc.
  - destruct (ParseUint w) as [n|] eqn:Hw; [|done]. apply ParseUint_inv in Hw as (Hne & Hdw & -> & _).
    destruct (_ && _) in Hs; [done|]. destruct (Z.ltb_spec decimals (Z.of_nat (String.length f))); [done|].
    destruct (ParseUint (pad_right _ _)) as [m|] eqn:Hf; [|done]. injection Hs as <-.
    apply ParseUint_inv in Hf as (_ & Hdf & -> & _). unfold pad_right in *. rewrite all_digits_app in Hdf.
    apply andb_true_iff in Hdf as [Hdf _]. exists w, (Some f). split_and!; [by apply cut_byte_Some|done|done|].
    cbn [decimal_scale]. unfold decimal_value. cbn [default from_option]. unfold id.
    rewrite (dec_value_acc f (dec_value 0 w)), dec_value_pad. unfold wrapu64. rewrite Zplus_mod_idemp_l. f_equal.
    replace (Z.of_nat (Z.to_nat decimals - String.length f)) with (decimals - Z.of_nat (String.length f)) by lia.
    replace (10 ^ decimals) with (10 ^ Z.of_nat (String.length f) * 10 ^ (decimals - Z.of_nat (String.length f)))
      by (rewrite <- Z.pow_add_r by lia; f_equal; lia). ring.
  - destruct (ParseUint s) as [n|] eqn:Hw; [|done]. apply ParseUint_inv in Hw as (Hne & Hdw & -> & _).
    destruct (_ && _) in Hs; [done|]. injection Hs as <-. exists s, None. split_and!; [done|done|cbn; lia|].
    unfold decimal_value. cbn [default from_option dec_value decimal_scale]. by rewrite Z.sub_0_r.
Qed.

(** C25: The payer's and the server's readings of an amount agree: a text the server
    accepts for up to 19 decimals denotes one number of base units; the payment
    simulator, with its exact rational arithmetic, reads precisely that number, or
    refuses it when it does not fit [uint64], where the server keeps it modulo
    2^64. *)
Theorem decimalToRaw_ParseAmount s decimals v :
  ParseAmount s decimals = Ok v -> 0 <= decimals <= 19 ->
  exists n, 0 <= n /\ v = wrapu64 n /\ decimalToRaw s decimals = if 2 ^ 64 <=? n then Err amount_overflow else Ok n.
Proof.
  intros Hs Hd. destruct (ParseAmount_inv s decimals v Hs Hd) as (w & f & -> & Hp & Hk & ->).
  eexists. split_and!; [|reflexivity|rewrite decimalToRaw_plain by (done || lia); reflexivity].
  pose proof (decimal_value_nonneg w f Hp).
  pose proof (Z.pow_nonneg 10 (decimals - decimal_scale f) ltac:(lia)). nia.
Qed.

(** ** Reading the server's URLs *)

(** The text the server prints for an amount is a plain decimal of that value. *)
Lemma FormatAmount_plain raw decimals s :
  0 <= raw -> 0 < decimals <= 19 -> FormatAmount raw decimals = Some s ->
  exists w f, s = decimal_text w f /\ plain_decimal w f /\ decimal_scale f <= decimals /\
    decimal_value w f * 10 ^ (decimals - decimal_scale f) = raw.
Proof.
  intros Hraw Hd. unfold FormatAmount. rewrite (proj2 (Z.eqb_neq decimals 0)), uint64_pow10 by lia.
  pose proof (Z.pow_pos_nonneg 10 decimals ltac:(lia) ltac:(lia)) as Hp. rewrite (proj2 (Z.eqb_neq (10 ^ decimals) 0)) by lia.
  pose proof (Z.div_mod raw (10 ^ decimals) ltac:(lia)) as Hdm. pose proof (Z.mod_pos_bound raw (10 ^ decimals) Hp) as Hm.
  set (frac := raw mod 10 ^ decimals) in *. assert (Hw : 0 <= raw / 10 ^ decimals) by (apply Z.div_pos; lia).
  assert (Hv : dec_value 0 (FormatUint (raw / 10 ^ decimals)) = raw / 10 ^ decimals) by by apply dec_value_FormatUint.
  pose proof (FormatUint_nonempty (raw / 10 ^ decimals)). pose proof (all_digits_FormatUint _ Hw).
  destruct (Z.eqb_spec frac 0) as [E|E]; intros [= <-].
  - exists (FormatUint (raw / 10 ^ decimals)), None. split_and!; [done..|cbn; lia|].
    unfold decimal_value. cbn [default from_option dec_value decimal_scale]. rewrite Hv, Z.sub_0_r. lia.
  - set (k := Z.to_nat decimals). set (pz := pad_zero k frac). set (t := trim_right_byte "0" pz).
    assert (Hlen : String.length pz = k) by (apply pad_zero_length; unfold k; [rewrite Z2Nat.id|]; lia).
    assert (Hdp : all_digits pz = true)
      by (unfold pz, pad_zero; rewrite all_digits_app, all_digits_zeros; apply all_digits_FormatUint; lia).
    pose proof (trim_right_length "0" pz) as Htl. fold t in Htl.
    assert (Hval : dec_value 0 t * 10 ^ (decimals - Z.of_nat (String.length t)) = frac).
    { replace (decimals - Z.of_nat (String.length t)) with (Z.of_nat (String.length pz - String.length t)) by lia.
      rewrite <- dec_value_pad. unfold t. rewrite trim_right_pad. unfold pz, pad_zero.
      rewrite dec_value_zeros. apply dec_value_FormatUint. lia. }
    exists (FormatUint (raw / 10 ^ decimals)), (Some t). split_and!; [done| |cbn; lia|].
    + split_and!; [done..|]. by apply all_digits_trim.
    + unfold decimal_value. cbn [default from_option decimal_scale]. unfold id.
      rewrite (dec_value_acc t), Hv, Z.mul_add_distr_r, Hval.
      rewrite <- Z.mul_assoc, <- Z.pow_add_r by lia.
      replace (Z.of_nat (String.length t) + _) with decimals by lia. lia.
Qed.

Lemma decimalToRaw_FormatAmount raw decimals s :
  0 <= raw < 2 ^ 64 -> 0 < decimals <= 19 -> FormatAmount raw decimals = Some s ->
  s <> "" /\ decimalToRaw s decimals = Ok raw.
Proof.
  intros Hraw Hd Hs. destruct (FormatAmount_plain raw decimals s ltac:(lia) Hd Hs) as (w & f & -> & Hp & Hk & Hv).
  split; [destruct Hp as [? _]; by destruct w, f|]. rewrite decimalToRaw_plain by (done || lia). cbv zeta. rewrite Hv.
  by rewrite (proj2 (Z.leb_gt _ _)) by lia.
Qed.

Section urls.
Context `{Solana} `{!SolanaOk _}.

Lemma pay_references_text refs : pay_references (PublicKey_String <$> refs) = Ok refs.
Proof. induction refs as [|r refs IH]; [done|]. cbn [pay_references fmap list_fmap]. by rewrite pubkey_roundtrip, IH. Qed.

Lemma TrimPrefix_alnum s : all_bytes is_alnum s = true -> TrimPrefix s "//" = s.
Proof.
  intros Hs. unfold TrimPrefix. destruct s as [|c s]; [done|]. cbn [all_bytes] in Hs.
  destruct c as [[] [] [] [] [] [] [] []]; try reflexivity. discriminate Hs.
Qed.

(** A URL the server builds is read as its parameters. *)
Lemma parse_built p s mint n :
  BuildURL p = Ok s -> SPLToken p = Some mint -> up_Amount p <> "" -> decimalToRaw (up_Amount p) 6 = Ok n ->
  parseSolanaPay s = Ok (mkSolanaPayURL (Recipient p) mint n 6 (References p) (Label p) (Message p)).
Proof.
  intros (q & Hq & ->)%BuildURL_inv Hm Hne Hn. destruct (pubkey_alnum (Recipient p)) as [Hrne Hal].
  unfold parseSolanaPay. rewrite url_Parse_String by done. cbn [bindr]. unfold opaque_URL, recipient_text.
  cbn [Scheme Opaque RawQuery Host Path]. rewrite String.eqb_refl, TrimPrefix_alnum by done. cbn [negb].
  rewrite !(bool_decide_false (PublicKey_String (Recipient p) = "")) by done. rewrite pubkey_roundtrip. cbn [wrap bindr].
  rewrite parse_Encode. unfold Values_Get. rewrite !values_sorted, !Hq. cbn -[bool_decide].
  rewrite Hm, !(bool_decide_false (up_Amount p = "")), !app_nil_r by done. cbn -[bool_decide].
  rewrite bool_decide_false by apply pubkey_alnum. rewrite pubkey_roundtrip. cbn -[bool_decide].
  rewrite Hn, pay_references_text, !head_singleton. cbn -[bool_decide].
  assert (Hv : forall v, (if bool_decide (v = "") then "" else v) = v) by (intros v; by case_bool_decide).
  by rewrite !Hv.
Qed.

Lemma pay_script_url h p ref :
  handlers_ok h -> h_USDCDecimals h = 6 -> referenced p ref ->
  exists url pay, buildPayURL h p = Some (Ok url) /\ url <> "" /\ parseSolanaPay url = Ok pay /\
    recipient pay = HotWalletPubkey h /\ splMint pay = USDCMint h /\ references pay = [ref] /\
    amountRaw pay = pi_quoted_amount_usdc p /\ sp_decimals pay = 6.
Proof.
  intros [Hw Hm _] H6 (Hp & Hr & Hq). unfold buildPayURL. rewrite Hp.
  rewrite bool_decide_false by apply pubkey_alnum. rewrite pubkey_roundtrip, H6.
  assert (Hu : wrapu64 (pi_quoted_amount_usdc p) = pi_quoted_amount_usdc p) by (unfold wrapu64; apply Z.mod_small; lia).
  rewrite Hu. destruct (amount_parses_back (pi_quoted_amount_usdc p) 6) as (amount & Ha & _); [lia..|]. rewrite Ha.
  destruct (decimalToRaw_FormatAmount (pi_quoted_amount_usdc p) 6 amount ltac:(lia) ltac:(lia) Ha) as [Hne Hraw].
  set (up := mkURLParams _ _ _ _ _ _ _).
  destruct (BuildURL_ok up) as [url Hurl]; [by apply IsZero_false|intros m [= <-]; by apply IsZero_false
    |constructor; [by apply IsZero_false|constructor]|].
  eexists url, _. rewrite Hurl. split_and!; [done| |by eapply (parse_built up)|done..].
  intros ->. by apply url_parses_back in Hurl.
Qed.
End urls.

(** ** What is sent *)

(** [m] hands only transactions of [P] to the cluster, and its result satisfies [Q]. *)
Definition sends (P : Transaction -> Prop) {A} (m : Sh A) (Q : A -> Prop) : Prop := forall h,
  (exists l, ho_sent (m h).2 = ho_sent h ++ l /\ Forall P l) /\ (forall a, (m h).1 = Some (Ok a) -> Q a).

Section sends.
Context (P : Transaction -> Prop).

Lemma sends_bind {A B} (m : Sh A) (k : A -> Sh B) Q R :
  sends P m Q -> (forall a, Q a -> sends P (k a) R) -> sends P (m ≫= k) R.
Proof.
  intros Hm Hk h. unfold mbind, Sh_bind. destruct (Hm h) as [(l & Hl & HP) HQ].
  destruct (m h) as [[[a|e]|] h1]; cbn [fst snd] in *; [|by split; [exists l|]..].
  destruct (Hk a (HQ a eq_refl) h1) as [(l' & Hl' & HP') HR]. split; [|done].
  exists (l ++ l'). rewrite Hl', Hl, app_assoc. split; [done|by apply Forall_app].
Qed.

(** Everything but submitting sends nothing. *)
Lemma sends_quiet {A} (m : Sh A) (Q : A -> Prop) :
  (forall h, ho_sent (m h).2 = ho_sent h) -> (forall h a, (m h).1 = Some (Ok a) -> Q a) -> sends P m Q.
Proof. intros Hs Ha h. split; [|apply Ha]. exists []. by rewrite app_nil_r. Qed.

Lemma sends_wrap {A} msg (m : Sh A) Q : sends P m Q -> sends P (sh_wrap msg m) Q.
Proof.
  intros Hm h. unfold sh_wrap. destruct (Hm h) as [Hl HQ]. by destruct (m h) as [[[a|e]|] h1].
Qed.

Lemma sends_res {A} (r : res A) : sends P (sh_res r) (fun a => r = Ok a).
Proof. apply sends_quiet; [done|]. by intros h a [= ->]. Qed.

Lemma sends_call {A} (f : Z -> res A * Z) : sends P (call f) (fun _ => True).
Proof. apply sends_quiet; [|done]. intros h. unfold call. by destruct (f (ho_now h)). Qed.

Lemma sends_print s : sends P (print s) (fun _ => True).
Proof. by apply sends_quiet. Qed.

Lemma sends_submit cli tx commit : P tx -> sends P (submit cli tx commit) (fun _ => True).
Proof.
  intros Hp h. split; [|done]. exists [tx]. split; [|by constructor]. unfold submit, call. by case_match.
Qed.
End sends.

Lemma load_quiet `{Keys} path h : ho_sent (loadOrCreatePayer path h).2 = ho_sent h.
Proof. unfold loadOrCreatePayer. sh_run. split_matches. Qed.

Lemma await_quiet `{Solana} fuel cli deadline sig h : ho_sent (await_airdrop fuel cli deadline sig h).2 = ho_sent h.
Proof.
  revert h. induction fuel as [|fuel IH]; intros h; [done|]. cbn [await_airdrop]. case_match; [|done].
  unfold sh_try, call. destruct (GetSignatureStatuses cli sig (ho_now h)) as [st el].
  destruct (airdrop_confirmed st); [done|]. by rewrite IH.
Qed.

Section payment.
Context `{Solana} `{!SolanaOk _} `{Keys} (LAMPORTS_PER_SOL : Z) (uint64_other : spec_float -> Z)
  (NewTransaction : list Instruction -> string -> PublicKey -> res Transaction)
  (Transaction_Sign : Transaction -> (PublicKey -> option string) -> res Transaction)
  (Transaction_String : Transaction -> string) (rpc_client : string -> PayRPC) (ws_Connect : string -> Z -> res unit * Z).

#[local] Abbreviation run := (pay_run LAMPORTS_PER_SOL uint64_other NewTransaction Transaction_Sign Transaction_String rpc_client ws_Connect).
#[local] Abbreviation build := (build_payment NewTransaction Transaction_Sign).

(** A transaction the script built for a URL. *)
Definition payment_for (pay : solanaPayURL) (tx : Transaction) : Prop :=
  exists payer src recent tx0, NewTransaction (pay_instructions pay (Wallet_PublicKey payer) src) recent (Wallet_PublicKey payer) = Ok tx0 /\
    Transaction_Sign tx0 (key_of payer) = Ok tx.

Lemma ensure_sends P cli who minSOL : sends P (ensureMinSOL LAMPORTS_PER_SOL uint64_other cli who minSOL) (fun _ => True).
Proof.
  eapply sends_bind; [apply sends_call|]. intros bal _. cbv zeta. case_match; [by apply sends_quiet|].
  eapply sends_bind; [apply sends_print|]. intros _ _. eapply sends_bind; [apply sends_call|]. intros sig _.
  apply sends_quiet; [|done]. intros h. apply await_quiet.
Qed.

Lemma build_sends P cli pay payer : sends P (build cli pay payer) (payment_for pay).
Proof.
  eapply sends_bind; [apply sends_wrap, sends_res|]. intros src _. eapply sends_bind; [apply sends_print|]. intros _ _.
  eapply sends_bind; [apply sends_wrap, sends_call|]. intros recent _.
  eapply sends_bind; [apply sends_wrap, sends_res|]. intros tx0 Htx0. apply sends_wrap.
  apply sends_quiet; [done|]. intros h tx [= Hs]. by exists payer, src, recent, tx0.
Qed.

(** Whatever the script hands to the cluster is the payment of its URL. *)
Lemma run_sends fl : sends (fun tx => exists pay, parseSolanaPay (fl_url fl) = Ok pay /\ payment_for pay tx) (run fl) (fun _ => True).
Proof.
  unfold pay_run. case_bool_decide; [by apply sends_quiet|].
  eapply sends_bind; [apply sends_wrap, sends_res|]. intros pay Hpay.
  eapply sends_bind; [apply sends_wrap, (sends_quiet _ _ (fun _ => True)); [apply load_quiet|done]|]. intros payer _.
  eapply sends_bind; [apply sends_print|]. intros _ _. cbv zeta.
  eapply sends_bind; [instantiate (1 := fun _ => True); destruct (isLocalValidator _);
    [apply sends_wrap, ensure_sends|by apply sends_quiet]|]. intros _ _.
  eapply sends_bind; [apply build_sends|]. intros tx Htx. destruct (fl_dry fl); [by apply sends_quiet|].
  eapply sends_bind; [apply sends_wrap, sends_call|]. intros _ _.
  eapply sends_bind; [apply sends_wrap, sends_submit; by exists pay|]. intros sig _. apply sends_print.
Qed.

(** ** What the watcher makes of it *)

(** How the libraries encode the instructions: the associated-token program is not
    the token program; a TransferChecked is its tag, the amount and the decimals,
    over its accounts in order. *)
Definition compiled_ix (tx : Transaction) (keys : list PublicKey) (ix : Instruction) (c : CompiledInstruction) : Prop :=
  match ix with
  | CreateIdempotent _ _ _ => exists p, ResolveProgramIDIndex tx (ProgramIDIndex c) = Ok p /\ p <> TokenProgramID
  | TransferChecked amount decimals src mint dst owner extra =>
    ResolveProgramIDIndex tx (ProgramIDIndex c) = Ok TokenProgramID /\
    exists i0 i1 i2 i3 rest, c = transfer_ix (ProgramIDIndex c) i0 i1 i2 i3 rest amount decimals /\
      keys !! Z.to_nat i0 = Some src /\ keys !! Z.to_nat i1 = Some mint /\
      keys !! Z.to_nat i2 = Some dst /\ keys !! Z.to_nat i3 = Some owner /\
      (fun i => keys !! Z.to_nat i) <$> rest = Some <$> extra
  end.

(** Compiling keeps the instructions in order; signing only adds signatures. *)
Record library_ok : Prop := {
  lib_compiles ixs recent payer tx : NewTransaction ixs recent payer = Ok tx ->
    exists keys, AccountMetaList tx = Ok keys /\ Forall2 (compiled_ix tx keys) ixs (Instructions tx);
  lib_signs tx f tx' : Transaction_Sign tx f = Ok tx' -> tx' = tx
}.

(** The parser of the watcher reads [tx] as [t], and a token instruction of it carries
    [appended] after its own four accounts. *)
Definition carries (tx : Transaction) (t : SPLTransfer) (appended : list PublicKey) : Prop :=
  ParseSPLTransferChecked (Some tx) = Ok t /\
  exists c keys, c ∈ Instructions tx /\ ResolveProgramIDIndex tx (ProgramIDIndex c) = Ok TokenProgramID /\
    AccountMetaList tx = Ok keys /\ (fun i => keys !! Z.to_nat i) <$> drop 4 (Accounts c) = Some <$> appended.

(** The payment of a URL is a transfer of its amount to its recipient, with its
    references. *)
Lemma payment_carries pay tx :
  library_ok -> 0 <= amountRaw pay < 2 ^ 64 -> payment_for pay tx ->
  exists src owner, carries tx (mkSPLTransfer src (splMint pay) (recipient pay) owner (amountRaw pay) (sp_decimals pay)) (references pay).
Proof.
  intros [Hc Hs] Ha (payer & src & recent & tx0 & Htx0 & Hsign). apply Hs in Hsign as ->.
  destruct (Hc _ _ _ _ Htx0) as (keys & Hk & Hall). unfold pay_instructions in Hall.
  apply Forall2_cons_inv_l in Hall as (c1 & rest & (p & Hp & Hne) & Hall & Hix).
  apply Forall2_cons_inv_l in Hall as (c2 & rest' & (Hp2 & i0 & i1 & i2 & i3 & rs & Hc2 & H0' & H1' & H2' & H3' & Hrefs) & Hall & ->).
  apply Forall2_nil_inv_l in Hall as ->. exists src, (Wallet_PublicKey payer). split.
  - eapply (parse_transfer tx0 [c1] []); [|by repeat constructor; exists p; eauto|exact Hp2|exact Hk|done..].
    rewrite Hix. cbn [app]. by rewrite <- Hc2.
  - exists c2, keys. rewrite Hix. split_and!; [set_solver|done|done|]. by rewrite Hc2.
Qed.

Context `{Env}.

(** C26: The demonstration's payment is never credited: the URL of an intent names the
    hot wallet as its recipient, and the simulator makes that key itself the
    destination of the transfer, where the watcher accepts only the wallet's
    associated token account.  Every transaction the simulator hands to the cluster
    for such a URL transfers exactly the quoted amount of the mint to the wallet's key
    with the intent's reference as its appended account, and the watcher passes it
    over without a trace in the database. *)
Theorem demo_payment_not_credited h p ref url fl wt host :
  library_ok -> handlers_ok h -> h_USDCDecimals h = 6 -> referenced p ref ->
  HotWalletATA (w_cfg wt) <> HotWalletPubkey h ->
  buildPayURL h p = Some (Ok url) -> fl_url fl = url -> ho_sent host = [] ->
  Forall (fun tx =>
    (exists src owner, carries tx (mkSPLTransfer src (USDCMint h) (HotWalletPubkey h) owner (pi_quoted_amount_usdc p) 6) [ref]) /\
    forall sig c resp w, process_tx wt sig c resp tx w = (Ok tt, w)) (ho_sent (run fl host).2).
Proof.
  intros Hlib Hh H6 Hr Hata Hurl Hfl Hsent.
  destruct (pay_script_url h p ref Hh H6 Hr) as (url' & pay & Hu & _ & Hpay & Hrec & Hmint & Href & Ham & Hdec).
  assert (url' = url) as -> by congruence.
  destruct (run_sends fl host) as [(l & Hl & HP) _]. rewrite Hl, Hsent. cbn [app].
  eapply Forall_impl; [exact HP|]. intros tx (pay2 & Hp2 & Hfor).
  rewrite Hfl, Hpay in Hp2. injection Hp2 as <-. destruct Hr as (_ & _ & Hq).
  destruct (payment_carries pay tx Hlib ltac:(lia) Hfor) as (src & owner & Hcar).
  rewrite Hmint, Hrec, Ham, Hdec, Href in Hcar. split; [by exists src, owner|].
  intros sig c resp w. unfold process_tx. rewrite (proj1 Hcar).
  unfold accept_transfer. cbn [Dest]. rewrite (proj2 (N.eqb_neq _ _)) by done. reflexivity.
Qed.
End payment.

(** ** The wait for an airdrop *)

Section airdrop.
Context `{Solana} (cli : PayRPC) (sig : TxSignature).

Definition airdrop_late : err := ErrMsg ("airdrop " +:+ Signature_String sig +:+ " did not confirm in time").

(** Rounds beyond the deadline do not run. *)
Lemma await_enough fuel k deadline h :
  deadline - ho_now h <= Z.of_nat fuel * (ns_per_s / 2) ->
  await_airdrop (fuel + k) cli deadline sig h = await_airdrop fuel cli deadline sig h.
Proof.
  change (ns_per_s / 2) with 500000000. revert h. induction fuel as [|fuel IH]; intros h Hd.
  { destruct k as [|k]; [done|]. cbn [await_airdrop Nat.add]. by rewrite (proj2 (Z.ltb_ge _ _)) by lia. }
  cbn [await_airdrop Nat.add]. case_match; [|done]. unfold sh_try, call.
  destruct (GetSignatureStatuses cli sig (ho_now h)) as [st el]. case_match; [done|]. apply IH. cbn [at_time ho_now].
  change (ns_per_s / 2) with 500000000. lia.
Qed.

(** The wait ends, with a confirmation or the timeout, however the endpoint answers:
    sixty-one rounds are as good as any number. *)
Lemma await_ends k deadline h :
  deadline <= ho_now h + 30 * ns_per_s ->
  await_airdrop (airdrop_fuel + k) cli deadline sig h = await_airdrop airdrop_fuel cli deadline sig h /\
  ((await_airdrop airdrop_fuel cli deadline sig h).1 = Some (Ok tt) \/
   (await_airdrop airdrop_fuel cli deadline sig h).1 = Some (Err airdrop_late)).
Proof.
  intros Hd. change (30 * ns_per_s) with (60 * 500000000) in Hd.
  split; [apply await_enough; change (ns_per_s / 2) with 500000000; change (Z.of_nat airdrop_fuel) with 61; lia|]. clear Hd k.
  revert h. induction airdrop_fuel as [|fuel IH]; intros h; [by right|]. cbn [await_airdrop].
  case_match; [|by right]. unfold sh_try, call. destruct (GetSignatureStatuses cli sig (ho_now h)) as [st el].
  case_match; [by left|apply IH].
Qed.

(** Only the status [confirmed] ends the wait early: an airdrop that is already
    finalized when it is polled is reported as not confirmed in time. *)
Lemma finalized_airdrop_times_out h :
  (forall t, (GetSignatureStatuses cli sig t).1 = Ok [Some "finalized"]) ->
  (await_from_now cli sig h).1 = Some (Err airdrop_late).
Proof.
  intros Hf. unfold await_from_now. generalize (ho_now h + 30 * ns_per_s). intros deadline. revert h.
  induction airdrop_fuel as [|fuel IH]; intros h; [done|]. cbn [await_airdrop]. case_match; [|done].
  unfold sh_try, call. specialize (Hf (ho_now h)). destruct (GetSignatureStatuses cli sig (ho_now h)) as [st el].
  cbn in Hf. subst st. apply IH.
Qed.
End airdrop.

(** ** Witnesses *)

Lemma decimalToRaw_ParseAmount_witness :
  decimalToRaw "1005.025125" 6 = Ok 1005025125 /\ exists n, 448383 = wrapu64 n /\ decimalToRaw "18446744073709.999999" 6 = Err amount_overflow.
Proof.
  split.
  - destruct (decimalToRaw_ParseAmount "1005.025125" 6 1005025125) as (n & _ & Hv & Hn); [reflexivity|lia|].
    vm_compute. reflexivity.
  - destruct (decimalToRaw_ParseAmount "18446744073709.999999" 6 448383) as (n & _ & Hv & Hn); [reflexivity|lia|].
    exists n. split; [exact Hv|]. vm_compute. reflexivity.
Defined.

Section example.
#[local] Existing Instance example_env.
#[local] Existing Instance example_solana.
#[local] Existing Instance example_solana_ok.
#[local] Existing Instance example_keys.

(** A compiler of payments with one reference: the programs, then the accounts. *)
Definition example_compile (ixs : list Instruction) (recent : string) (payer : PublicKey) : res Transaction :=
  match ixs with
  | [CreateIdempotent _ _ _; TransferChecked amount decimals src mint dst owner [ref]] =>
    Ok (mkTx [mkIx 1 [] [1]; transfer_ix 0 2 3 4 5 [6] amount decimals] [7; 8; src; mint; dst; owner; ref]%N)
  | _ => Err (ErrMsg "not a payment")
  end.

Lemma example_library : library_ok example_compile (fun tx _ => Ok tx).
Proof.
  split; [|congruence]. intros ixs recent payer tx E. unfold example_compile in E. split_matches.
  eexists. split; [reflexivity|]. repeat constructor.
  - exists 8%N. split; [reflexivity|done].
  - exists 2, 3, 4, 5, [6]. by split_and!.
Qed.

Definition example_rpc : PayRPC :=
  mkPayRPC (fun _ _ => (Ok (10 ^ 9), 0)) (fun _ _ _ => (Ok 1%N, 0)) (fun _ _ => (Ok [], 0)) (fun _ => (Ok "hash", 0)) (fun _ _ _ => (Ok 99%N, 0)).

Definition order_url : string := "solana:103?amount=1005.025125&label=Selatpay&message=Order+order-1&reference=3&spl-token=102".
Definition order_watcher : Watcher := NewWatcher (mkRPC (fun _ _ => mret None) (fun _ _ _ => mret [])) (mkWatcherConfig 103102%N 102%N 6 0 0 0 0 0).

Definition order_payment : Transaction :=
  mkTx [mkIx 1 [] [1]; transfer_ix 0 2 3 4 5 [6] 1005025125 6] [7; 8; 1102; 102; 103; 1; 3]%N.

Lemma order_payment_sent :
  ho_sent (pay_run (10 ^ 9) (fun _ => 0) example_compile (fun tx _ => Ok tx) (fun _ => "tx") (fun _ => example_rpc) (fun _ _ => (Ok tt, 0))
             (default_flags ∅ order_url) example_machine).2 = [order_payment].
Proof. vm_compute. reflexivity. Qed.

(** The payment of the order of ApiRouter.v is sent, and passed over. *)
Lemma demo_payment_not_credited_witness : exists tx,
  ho_sent (pay_run (10 ^ 9) (fun _ => 0) example_compile (fun tx _ => Ok tx) (fun _ => "tx") (fun _ => example_rpc) (fun _ _ => (Ok tt, 0))
             (default_flags ∅ order_url) example_machine).2 = [tx] /\
  (exists src owner, carries tx (mkSPLTransfer src 102%N 103%N owner 1005025125 6) [3%N]) /\
  forall sig c resp w, process_tx order_watcher sig c resp tx w = (Ok tt, w).
Proof.
  assert (Hall := @demo_payment_not_credited example_solana example_solana_ok example_keys (10 ^ 9) (fun _ => 0) example_compile
      (fun tx _ => Ok tx) (fun _ => "tx") (fun _ => example_rpc) (fun _ _ => (Ok tt, 0)) example_env
      example_handlers order_intent 3%N order_url (default_flags ∅ order_url) order_watcher example_machine
      example_library example_handlers_ok eq_refl).
  exists order_payment. split; [exact order_payment_sent|]. rewrite order_payment_sent in Hall.
  refine (Forall_inv (Hall _ _ _ _ _)); [split_and!; [reflexivity|discriminate|reflexivity|reflexivity]|discriminate|vm_compute; reflexivity..].
Defined.
End example.
